(* ===== verification/_CoqProject ===== *)
-Q . S2P
Prelude.v
Triple.v
Float64.v
PyStr.v
Pagination.v
PyDict.v
Errors.v
ErrorsSpec.v
PySorted.v
Domain.v
AggCore.v
Aggregation.v
HotelAggregation.v
CircuitBreaker.v
Cache.v
HttpClient.v
RateLimit.v
Config.v
PyIp.v
ClientIp.v
PyUuid.v
Security.v
TokenBlocklist.v
Notifications.v
Schemas.v
Db.v
Migration.v
PyNum.v
Providers.v
ProvidersSpec.v
Middleware.v
SampleInventory.v
SampleSpec.v
TravelOut.v
Auth.v
AuthSpec.v
TokenSpec.v
PriceMonitor.v
Api.v
ApiSpec.v
AdaptersSpec.v
AlertSpec.v
System.v
AdminSpec.v
AuditSpec.v
Concurrent.v
ConcurrentSpec.v
SessionSpec.v
Container.v
MigrationEnv.v
Wiring.v
RetentionSpec.v
ContainerSpec.v
