(* ===== verification/Prelude.v ===== *)
(** * Smart Travel Aggregator

    A model of the service under [src/app] and of its database migration, with
    the theorems that make it correct.  The service aggregates flight and hotel
    offers of several providers, adapts a weather and a currency API behind a
    resilient HTTP client, keeps accounts, sessions, search history and price
    alerts, and runs two periodic jobs.  Every definition translates the lines
    of one Python function, method or class, and carries its name.

    ** How Python is modelled

    - A function that can raise returns [res exn A]; one that also changes
      state is a computation [M exn S A], from a state to a result and the state
      it leaves, kept when an exception is raised ([Prelude.v], [Errors.v]).
      [try_catch], written [except], is [try ... except].
    - Floats are binary64 values, exactly rounded ([Float64.v]); [str], [int]
      and [sorted] are in [PyStr.v] and [PySorted.v], insertion-ordered dicts in
      [PyDict.v], numbers read from JSON in [PyNum.v], [ipaddress] in [PyIp.v],
      [uuid] in [PyUuid.v], dates with the domain objects in [Domain.v].
    - A [Protocol] of the program, or a library it calls, is a [Class] of
      operations with a second class of laws.  The laws of a protocol are proved
      of all its implementations in the program ([Cache], [RateLimiter],
      [Notifier]); those of a library state its documentation, and witnesses
      instantiate them.  That a message always gets through is no law of a
      notifier: [ReliableNotifier] is a class of its own, true of the console
      notifier and an assumption for SMTP, and only the theorems that follow a
      message to its reader ask for it.
    - Concurrency is interleaving: a step relation for the breaker, an order of
      completion for the fan-out, sequences of checks for the limiter, sequences
      of requests and jobs for the system, and for registrations a step relation
      of sessions that interleave at the points where they await the database.
    - [Triple.v] has the rules, and the hint databases [triple] and [quiet], for
      what a computation does to one part of its state: an invariant, a preorder
      along which that part moves, a postcondition.  [AuthSpec.v], [System.v]
      and the job run their programs with [triple_steps].  Its [moves], with a
      database of that name and [moves_steps], are the same for a preorder
      alone; [AuditSpec.v] and [SessionSpec.v] use them.

    ** The parts

    Search.  [services/pagination.py] is [Pagination.v]; the pipeline that
    [services/aggregation.py] and [services/hotel_aggregation.py] share --
    fan-out, de-duplication, pages -- is [AggCore.v], the services are
    [Aggregation.v] and [HotelAggregation.v]; money, offers, queries and ports
    of [domain/] are [Domain.v].  The registered providers,
    [providers/sample_flights.py] and [providers/sample_hotels.py], are
    [SampleInventory.v].
    - [AggCore.gather_any_order]: the order in which providers answer is not
      observable.  [search_degrades], [search_sound], [dedupe_keeps_cheapest],
      [sort_is_stable_sort], [rank_dominance], [rank_score_bounds]: what one
      search returns.  [search_pages_complete]: following the cursors returns
      everything once, and ends.  [hotel_search_sound]: the same of hotels.
    - [SampleSpec.v]: for every generator, a valid query gets valid offers.
      [ContainerSpec.flight_search_end_to_end] and [hotel_search_end_to_end]
      compose request, aggregation and providers.

    Upstream APIs.  [resilience/circuit_breaker.py] is [CircuitBreaker.v],
    [resilience/cache.py] is [Cache.v] (class [Cache], in memory and on Redis),
    [providers/http_client.py] is [HttpClient.v], the adapters
    [providers/weather.py] and [providers/currency.py] are [Providers.v].
    - [breaker_invariant] by induction over interleavings,
      [breaker_opens_at_threshold]; [in_memory_refines_history]: the cache
      answers as the abstract history of its writes; [retry_spec]: the loop ends
      and does what a relation written without it says; [get_json_cached],
      [get_json_fails_fast]; [forecast_spec] and [convert_spec] in
      [ProvidersSpec.v], for every JSON payload; [weather_end_to_end] and
      [currency_end_to_end] in [AdaptersSpec.v], from the handler through the
      adapter and its client to the response.

    Protection.  [core/rate_limit.py] is [RateLimit.v] (class [RateLimiter]),
    [core/client_ip.py] is [ClientIp.v], [core/config.py] is [Config.v],
    [core/errors.py] is [Errors.v] with [ErrorsSpec.v], [core/middleware.py]
    with [core/metrics.py] and the access log is [Middleware.v].
    - [limiter_refines_log]: the sliding window answers as a log of all admitted
      requests would, whatever it has swept; [limiter_window_bound];
      [limiter_memory_bound]; [redis_limiter_fixed_window].
      [client_ip_resolution], [client_ip_not_forgeable], [trusts_prefix];
      [settings_accepted_iff]: of all the fields, by their types and the two
      validators; [app_answers]: every request gets a response, a preflight that
      of the CORS middleware, any other the id and the headers it should have,
      one count, one latency and one line;
      [latency_bounds]: the durations reported; [problem_document_wf]: the document
      of every error has its members, its status and its headers.

    Accounts.  [core/security.py] is [Security.v] (classes [Jwt], [Entropy]),
    [services/token_blocklist.py] is [TokenBlocklist.v],
    [services/notifications.py] is [Notifications.v] (classes [Notifier],
    [SmtpServer]),
    [schemas/] are [Schemas.v] (requests) and [TravelOut.v] (responses),
    [db/models.py] with [repositories/] is [Db.v], [services/auth_service.py] is
    [Auth.v] with its theorems in [AuthSpec.v] and, for any text sent as a
    token, [TokenSpec.v].
    - [token_lifecycle] (round trip of a token over time),
      [revoked_until_expiry], [smtp_send_transcript], [register_spec],
      [authenticate_spec], [refresh_spec], [logout_ends_session],
      [password_reset_flow], [mail_requests_answer] (what a failing notifier
      lets an observer tell), [use_cases_preserve].

    The application.  [api/deps.py] and [api/v1/] are [Api.v], with its theorems
    in [ApiSpec.v] ([route_spec], [current_user_spec], [delete_alert_spec],
    [list_alerts_spec]), [AlertSpec.v] ([alert_lifecycle]), [AdminSpec.v]
    ([metrics_exact]), [AuditSpec.v] ([audit_trail]) and [RetentionSpec.v]
    ([audit_retention]: how long the scheduled clean-up keeps an entry).
    [services/price_monitor.py] and [workers/tasks.py] are [PriceMonitor.v]
    ([monitor_run], [alert_fires_iff], [alerts_fire_once]).
    - [System.v] runs requests and jobs in any order over one state
      ([system_preserves], by induction over the events); [SessionSpec.v] adds
      the adapters' use of the shared cache ([logout_is_final]: what has been
      logged out stays out).  [Concurrent.v] cuts a
      registration at its awaits and interleaves sessions; in
      [ConcurrentSpec.v], [registration_race]: at most one of several
      registrations of an address makes an account, [race_ends]: every
      interleaving ends; [alone_register] checks the two models of a registration
      against each other.
    - [container.py], the lifetime in [main.py], the resources of a job and the
      start-up task [prestart.py] are [Container.v] ([lifespan_releases]); the
      routers, [create_app], [workers/celery_app.py] and the configuration of
      [core/logging.py] are [Wiring.v] ([route_table], [serve_app],
      [request_id_stamped]); the migration [a77395e94755] is [Migration.v]
      ([migration_matches_models]: it gives the schema of the models, and its
      downgrade undoes it), [alembic/env.py] with the interpolation of
      [configparser] is [MigrationEnv.v] ([env_main_spec]: which database a run
      reaches, and which URLs it refuses).

    ** State, and what corresponds to it

    [Db.db] is the database as a transaction sees it; [Api.get_session] commits
    or restores it.  [Auth.world] adds the cache behind the blocklist, the
    notifier's outbox, the randomness and the two clocks (wall clock and
    [time.monotonic]); [Api.api] adds the limiter.  [HttpClient.world] is cache,
    breaker and network of an adapter; [Middleware.context] the context variable
    of the request id, the log, the metrics and the clock; [Container.pool] the
    open resources; [MigrationEnv.env] configuration, connections and databases
    of a migration run.  Times are integers of microseconds where the code uses
    [datetime], floats where it uses [time.monotonic].

    ** Bounds and fuel

    Recursion is structural except in six places.  [Aggregation.walk] follows
    cursors with fuel, one per page: [search_pages_complete] shows that one more
    than the number of offers is enough.  [HttpClient.retry_loop] counts the
    attempts left, [max_retries + 1] of them, as the [range] of the code does.
    [Concurrent.alone] runs a session with one unit for each of its six parts,
    enough by [alone_register].  [PyUuid.remove_chars] and the interpolation of
    [MigrationEnv.v] have the length of their text as fuel (and the latter the
    depth [configparser] itself allows), and [PyStr.digits_go] the number of binary digits, which is at
    least that of the decimal ones.  Python's integers are unbounded, so [Z] is exact; the limit of 4300 digits of [int(text)] is
    modelled.  A float is an integer multiple of [2^-1074]; conversions that
    overflow are partial, results past the range do not arise from the bounded
    values the program computes with.

    ** Not modelled, and why

    - FastAPI, Starlette and pydantic: matching a path against the table of
      routes, the parsing of parameters and bodies, serialisation to JSON.  A
      handler starts from parsed parameters,
      whose declared constraints are boolean predicates, and ends in the
      response object.  Starlette's CORS middleware is a parameter ([Cors]): it
      answers preflights itself, and adds headers of its own to the rest; that
      it admits the configured origins only is not stated.
    - SQLAlchemy and the database: a statement that cannot reach the database,
      isolation between transactions other than registrations ([Concurrent.v]),
      relationships, [updated_at].  [System.v] serialises requests.
    - Redis, PyJWT, argon2, SMTP, httpx, SHA-256, [random.Random], [uuid4], the
      JSON codec: parameters with the laws of their documentation.  Signatures
      and hashes are ideal.
    - pydantic's conversions to [bool], [int], [float] and [RedisDsn] and the
      search of the sources of a setting.
    - Case and class operations of [str] beyond ASCII; infinities and NaN in an
      upstream payload; message texts of library exceptions where the code does
      not read them.
    - The processors of structlog other than [_add_request_id], the buckets and
      the exposition of prometheus_client, Alembic's choice of migrations: they
      belong to these libraries and are parameters.  [autogenerate] and
      [compare_type] of [alembic/env.py] do not take part in a run. *)
From Stdlib Require Export Ascii.
From Stdlib Require Strings.String.
From stdpp Require Export base tactics numbers list gmap strings sorting.
From Stdlib Require Export ZArith Lia.

#[global] Open Scope Z_scope.

(** ** Results and effects

    Python code that can raise is a function into [res]; code that also
    changes state is a function from the state to a result and the state it
    leaves, which is kept when an exception is raised, as Python keeps it. *)

Inductive res (E A : Type) : Type :=
| Ok (a : A)
| Err (e : E).
Arguments Ok {E A} a.
Arguments Err {E A} e.

#[global] Instance res_ret E : MRet (res E) := fun A a => Ok a.
#[global] Instance res_bind E : MBind (res E) := fun A B f m =>
  match m with
  | Ok a => f a
  | Err e => Err e
  end.
#[global] Instance res_fmap E : FMap (res E) := fun A B f m =>
  match m with
  | Ok a => Ok (f a)
  | Err e => Err e
  end.

(** The computation raised nothing. *)
Definition is_ok {E A} (r : res E A) : bool :=
  match r with
  | Ok _ => true
  | Err _ => false
  end.

(** [M E S A]: run in a state [S], return an [A] or raise an [E]. *)
Definition M (E S A : Type) : Type := S -> res E A * S.

#[global] Instance m_ret E S : MRet (M E S) := fun A a s => (Ok a, s).
#[global] Instance m_bind E S : MBind (M E S) := fun A B f m s =>
  match m s with
  | (Ok a, s') => f a s'
  | (Err e, s') => (Err e, s')
  end.

Definition raise {E S A} (e : E) : M E S A := fun s => (Err e, s).
Definition get_state {E S} : M E S S := fun s => (Ok s, s).
Definition put_state {E S} (s : S) : M E S unit := fun _ => (Ok tt, s).
Definition modify {E S} (f : S -> S) : M E S unit := fun s => (Ok tt, f s).
Definition lift_res {E S A} (r : res E A) : M E S A := fun s => (r, s).

(** [try: m  except e: handler(e)]. *)
Definition try_catch {E S A} (m : M E S A) (handler : E -> M E S A) : M E S A :=
  fun s => match m s with
           | (Ok a, s') => (Ok a, s')
           | (Err e, s') => handler e s'
           end.

Declare Scope effect_scope.
Delimit Scope effect_scope with effect.
Notation "m 'except' h" := (try_catch m h) (at level 65, h at level 9) : effect_scope.

(** Run [m] on a component of a larger state. *)
Definition zoom {E S T A} (get : T -> S) (set : S -> T -> T) (m : M E S A) : M E T A :=
  fun t => let '(r, s) := m (get t) in (r, set s t).

Lemma m_bind_Ok {E S A B} (m : M E S A) (f : A -> M E S B) s a s' :
  m s = (Ok a, s') -> (m ≫= f) s = f a s'.
Proof. intros H. unfold mbind, m_bind. by rewrite H. Qed.

Lemma m_bind_Err {E S A B} (m : M E S A) (f : A -> M E S B) s e s' :
  m s = (Err e, s') -> (m ≫= f) s = (Err e, s').
Proof. intros H. unfold mbind, m_bind. by rewrite H. Qed.

(** Run the first statement, whose outcome is known. *)
Ltac m_run H := first [rewrite (m_bind_Ok _ _ _ _ _ H) | rewrite (m_bind_Err _ _ _ _ _ H)].

(** A statement that is known to return. *)
Lemma lift_ok_bind {E S A B} (a : A) (k : A -> M E S B) : lift_res (Ok a) ≫= k = k a.
Proof. done. Qed.

(** Monad laws, pointwise. *)
Lemma m_bind_ret_l {E S A B} (a : A) (f : A -> M E S B) s : (mret a ≫= f) s = f a s.
Proof. done. Qed.

Lemma m_bind_assoc {E S A B C} (m : M E S A) (f : A -> M E S B) (g : B -> M E S C) s :
  ((m ≫= f) ≫= g) s = (m ≫= (fun a => f a ≫= g)) s.
Proof. unfold mbind, m_bind. by destruct (m s) as [[a|e] s']. Qed.

(** ** Lists *)

(** A window of a list, and what it inherits. *)
Lemma elem_of_window {A} (n m : nat) (l : list A) x : x ∈ take n (drop m l) -> x ∈ l.
Proof.
  intros Hx. rewrite <- (take_drop m l), elem_of_app. right.
  rewrite <- (take_drop n (drop m l)), elem_of_app. by left.
Qed.

Lemma StronglySorted_window {A} (R : relation A) (n m : nat) (l : list A) :
  StronglySorted R l -> StronglySorted R (take n (drop m l)).
Proof.
  intros H. rewrite <- (take_drop m l) in H. apply StronglySorted_app_1_r in H.
  rewrite <- (take_drop n (drop m l)) in H. by apply StronglySorted_app_1_l in H.
Qed.

Lemma StronglySorted_impl {A} (R S : relation A) (l : list A) :
  (forall x y, R x y -> S x y) -> StronglySorted R l -> StronglySorted S l.
Proof.
  intros HRS. induction 1 as [|x l Hs IH Hx]; constructor; [done|].
  eapply Forall_impl; [exact Hx|]. auto.
Qed.

(** A page of a result keeps what holds of the whole. *)
Create HintDb window.
#[export] Hint Resolve StronglySorted_window : window.
#[export] Hint Extern 2 (_ ∈ _) => eapply elem_of_window; eassumption : window.

(** Filtering by a property of the image. *)
Lemma filter_fmap_list {A B} (f : A -> B) (P : B -> Prop) `{forall x, Decision (P x)} (l : list A) :
  filter P (f <$> l) = f <$> filter (fun x => P (f x)) l.
Proof.
  induction l as [|x l IH]; [done|]. rewrite fmap_cons, !filter_cons.
  destruct (decide (P (f x))); by rewrite ?fmap_cons, IH.
Qed.
