(* ===== verification/Triple.v ===== *)
(** * Triples

    Reasoning about computations by what they do to one part of their state:
    an invariant they keep, a preorder along which they move it, and a
    postcondition on what they return.  A computation that raises must keep
    invariant and preorder too. *)
From S2P Require Import Prelude.

Section triple.
Context {E W D : Type} (view : W -> D) (inv : D -> Prop) (rel : relation D) `{!PreOrder rel}.
Implicit Types P : D -> Prop.

Definition triple {A} P (m : M E W A) (Q : A -> D -> Prop) : Prop :=
  forall w, inv (view w) -> P (view w) ->
    (inv (view (m w).2) /\ rel (view w) (view (m w).2))
    /\ forall a, (m w).1 = Ok a -> Q a (view (m w).2).

(** Nothing is claimed of the result. *)
Definition any {A} (a : A) (d : D) : Prop := True.

Lemma triple_bind {A B} P Q T (m : M E W A) (k : A -> M E W B) :
  triple P m Q -> (forall a, triple (Q a) (k a) T) -> triple P (m ≫= k) T.
Proof.
  intros Hm Hk w Hi HP. destruct (Hm w Hi HP) as [[Hi1 Hr1] HQ].
  destruct (m w) as [[a|e] w1] eqn:E1; simpl in *.
  - m_run E1. destruct (Hk a w1 Hi1 (HQ a eq_refl)) as [[Hi2 Hr2] HT].
    split; [split; [done|by transitivity (view w1)]|done].
  - m_run E1. split; [done|]. simpl. congruence.
Qed.

(** A computation that leaves the part alone keeps what is known of it. *)
Lemma triple_quiet {A} P (m : M E W A) :
  (forall w, view (m w).2 = view w) -> triple P m (fun _ => P).
Proof. intros Hq w Hi HP. rewrite Hq. by split. Qed.

Lemma triple_ret {A} P (a : A) : triple P (mret a) any.
Proof. by intros w Hi _. Qed.

Lemma triple_raise {A} P e (Q : A -> D -> Prop) : triple P (raise e) Q.
Proof. by intros w Hi _. Qed.

Lemma triple_any {A} P (m : M E W A) Q : triple P m Q -> triple P m any.
Proof. intros Hm w Hi HP. by destruct (Hm w Hi HP). Qed.

Lemma triple_pre {A} P P' (m : M E W A) Q : (forall d, P' d -> P d) -> triple P m Q -> triple P' m Q.
Proof. intros HP Hm w Hi HP'. apply Hm; auto. Qed.

Lemma triple_post {A} P (m : M E W A) (Q Q' : A -> D -> Prop) :
  (forall a d, Q a d -> Q' a d) -> triple P m Q -> triple P m Q'.
Proof. intros HQ Hm w Hi HP. destruct (Hm w Hi HP) as [? HQa]. split; [done|]. auto. Qed.

End triple.

(** A triple for one invariant and preorder is one for others when they follow. *)
Lemma triple_change {E W D A} (view : W -> D) (inv inv' : D -> Prop) (rel rel' : relation D)
    P (m : M E W A) Q :
  (forall d, inv' d -> inv d) ->
  (forall d d', inv' d -> inv d' -> rel d d' -> inv' d' /\ rel' d d') ->
  triple view inv rel P m Q -> triple view inv' rel' P m Q.
Proof.
  intros Hi Hr Hm w Hw HP. destruct (Hm w (Hi _ Hw) HP) as [[Hi' Hr'] HQ].
  split; [by apply Hr|done].
Qed.

(** [quiet]: computations that leave the part alone; [triple]: triples of
    single operations.  [triple_steps] runs through the statements that have
    one. *)
Create HintDb quiet.
Create HintDb triple.

#[export] Hint Extern 5 (triple _ _ _ _ _ _) =>
  eapply triple_quiet; solve [apply _|auto with quiet] : triple.
#[export] Hint Extern 6 (triple _ _ _ _ _ any) =>
  eapply triple_any, triple_quiet; solve [apply _|auto with quiet] : triple.

(** The rules, with the preorder found by its class. *)
Ltac triple_ret := apply triple_ret; apply _.
Ltac triple_raise := apply triple_raise; apply _.
Ltac triple_bind := eapply triple_bind; [apply _| |].

Ltac triple_steps :=
  repeat first
    [ triple_ret | triple_raise
    | solve [eauto with triple]
    | triple_bind; [solve [eauto with triple]|intros ?] ].

(** ** Moves

    The same without invariant and postcondition, on the whole state: what a
    computation does to it lies along a preorder, however it ends. *)
Section moves.
Context {E W : Type} (rel : relation W) `{!PreOrder rel}.

Definition moves {A} (m : M E W A) : Prop := forall w, rel w (m w).2.

(** From one state, knowing what the first part returned. *)
Lemma moves_bind_at {A B} (m : M E W A) (k : A -> M E W B) w :
  rel w (m w).2 -> (forall a w1, m w = (Ok a, w1) -> rel w1 (k a w1).2) -> rel w ((m ≫= k) w).2.
Proof.
  intros Hm Hk. unfold mbind, m_bind.
  destruct (m w) as [[a|e] w1] eqn:E1; simpl in *; [|done]. transitivity w1; [done|]. by apply Hk.
Qed.

Lemma moves_bind {A B} (m : M E W A) (k : A -> M E W B) :
  moves m -> (forall a, moves (k a)) -> moves (m ≫= k).
Proof. intros Hm Hk w. apply moves_bind_at; [apply Hm|]. intros a w1 _. apply Hk. Qed.

Lemma moves_ret {A} (a : A) : moves (mret a).
Proof. intros w. reflexivity. Qed.

Lemma moves_raise {A} e : moves (raise e : M E W A).
Proof. intros w. reflexivity. Qed.

Lemma moves_lift {A} (r : res E A) : moves (lift_res r).
Proof. intros w. reflexivity. Qed.

(** A computation on a part that can change without leaving the preorder. *)
Lemma moves_part {A P} (get : W -> P) set (m : W -> M E P A) :
  (forall p w, rel w (set p w)) -> moves (fun w => zoom get set (m w) w).
Proof. intros Hs w. unfold zoom. destruct (m w (get w)). apply Hs. Qed.

End moves.

(** [moves]: single operations; [moves_steps] runs through statements and
    branches. *)
Create HintDb moves.
#[export] Hint Resolve moves_ret moves_raise moves_lift : moves.

Ltac moves_steps :=
  repeat first
    [ solve [auto with moves typeclass_instances]
    | apply moves_bind; [apply _| |intros ?]
    | match goal with |- moves _ (match ?x with _ => _ end) => destruct x end ].
