(* ===== verification/Float64.v ===== *)
(** * Python floats

    IEEE binary64 as the language uses it.  Every finite double is an integer
    multiple of [2^-1074], so a float is represented by that integer: a value
    [v : Z] stands for the real number [v * 2^-1074].  Comparison of floats is
    then comparison of integers, and every operation is "compute the exact
    rational result, then round it to 53 significant bits, ties to even" --
    which is what [rnd] does, subnormals included (they are the values whose
    exponent is the least one).  Overflow to an infinity is not represented:
    the values the program computes with are bounded, and the operations that
    can overflow ([float(int)]) are given as partial functions. *)
From S2P Require Import Prelude.

Module F64.

(** The unit [1.0], counted in multiples of [2^-1074]. *)
Definition one : Z := 2 ^ 1074.

(** The integer nearest to the rational [n / d] ([d > 0]), ties to even. *)
Definition rne (n d : Z) : Z :=
  let q := n / d in
  match 2 * (n mod d) ?= d with
  | Lt => q
  | Gt => q + 1
  | Eq => if Z.even q then q else q + 1
  end.

(** Exponent of the last significand bit of the double nearest to [n / d]. *)
Definition ulp_exp (n d : Z) : Z := Z.max 0 (Z.log2 (Z.abs n / d) - 52).

(** The double nearest to the rational [n / d] ([d > 0]). *)
Definition rnd (n d : Z) : Z :=
  let e := ulp_exp n d in rne n (d * 2 ^ e) * 2 ^ e.

(** [z] is one of the representable values. *)
Definition is_f64 (z : Z) : Prop := rnd z 1 = z.

Definition add (a b : Z) : Z := rnd (a + b) 1.

Definition sub (a b : Z) : Z := rnd (a - b) 1.

Definition mul (a b : Z) : Z := rnd (a * b) one.

(** [a / b] on floats; the divisor is never zero where the code divides. *)
Definition div (a b : Z) : Z :=
  if 0 <? b then rnd (a * one) b else rnd (- a * one) (- b).

(** True division of two integers: correctly rounded whatever their size. *)
Definition truediv (a b : Z) : Z :=
  if 0 <? b then rnd (a * one) b else rnd (- a * one) (- b).

(** The literal [n * 10^-k]. *)
Definition of_dec (n k : Z) : Z := rnd (n * one) (10 ^ k).

(** The conversion of an integer, without the overflow check. *)
Definition of_int (n : Z) : Z := rnd (n * one) 1.

(** [float(n)]: [None] is the [OverflowError] of a result past the range. *)
Definition float_of_int (n : Z) : option Z :=
  let v := of_int n in
  if Z.abs v <? 2 ^ 1024 * one then Some v else None.

(** [round(x, k)]: the decimal with [k] digits nearest to the exact value of
    [x], ties to even, read back as a double. *)
Definition round_digits (x k : Z) : Z :=
  rnd (rne (x * 10 ^ k) one * one) (10 ^ k).

(** [round(x)]: the nearest integer, ties to even. *)
Definition round_int (x : Z) : Z := rne x one.

(** [int(x)]: truncation toward zero. *)
Definition to_int (x : Z) : Z := Z.quot x one.

(** ** Rounding to an integer *)

Lemma one_pos : 0 < one.
Proof. reflexivity. Qed.

Lemma pow2_pos e : 0 <= e -> 0 < 2 ^ e.
Proof. intros; apply Z.pow_pos_nonneg; lia. Qed.

(** What the nearest integer is: within a half, and even at a half. *)
Lemma rne_spec n d :
  0 < d ->
  let k := rne n d in
  2 * k * d - d <= 2 * n <= 2 * k * d + d /\
  ((2 * n = 2 * k * d + d \/ 2 * n = 2 * k * d - d) -> Z.even k = true).
Proof.
  intros Hd. unfold rne.
  pose proof (Z.div_mod n d ltac:(lia)) as Hdm.
  pose proof (Z.mod_pos_bound n d Hd) as Hm.
  set (q := n / d) in *. set (r := n mod d) in *. clearbody q r.
  destruct (Z.compare_spec (2 * r) d) as [He|Hl|Hg].
  - destruct (Z.even q) eqn:Eq; cbv zeta; (split; [nia|]).
    + intros _. exact Eq.
    + intros _. rewrite Z.even_add, Eq. reflexivity.
  - cbv zeta. split; [nia|]. intros [H|H]; nia.
  - cbv zeta. split; [nia|]. intros [H|H]; nia.
Qed.

Lemma rne_mono n n' d : 0 < d -> n <= n' -> rne n d <= rne n' d.
Proof.
  intros Hd Hn.
  destruct (rne_spec n d Hd) as [[Hl Hu] Hev].
  destruct (rne_spec n' d Hd) as [[Hl' Hu'] Hev'].
  set (k := rne n d) in *. set (k' := rne n' d) in *. clearbody k k'.
  destruct (Z.le_gt_cases k k') as [|Hgt]; [done|exfalso].
  assert (k = k' + 1) as -> by nia.
  assert (Z.even (k' + 1) = true) as H1 by (apply Hev; right; lia).
  assert (Z.even k' = true) as H2 by (apply Hev'; left; lia).
  rewrite Z.even_add, H2 in H1. discriminate.
Qed.

(** Integers are exact, and scaling both sides changes nothing. *)
Lemma rne_exact k d : 0 < d -> rne (k * d) d = k.
Proof.
  intros Hd. unfold rne. rewrite Z.mod_mul, Z.div_mul by lia.
  destruct (Z.compare_spec (2 * 0) d); lia.
Qed.

Lemma rne_le_int n d k : 0 < d -> n <= k * d -> rne n d <= k.
Proof. intros Hd Hn. rewrite <- (rne_exact k d Hd). by apply rne_mono. Qed.

Lemma rne_ge_int n d k : 0 < d -> k * d <= n -> k <= rne n d.
Proof. intros Hd Hn. rewrite <- (rne_exact k d Hd). by apply rne_mono. Qed.

Lemma rne_opp n d : 0 < d -> rne (- n) d = - rne n d.
Proof.
  intros Hd.
  destruct (rne_spec n d Hd) as [[Hl Hu] Hev].
  destruct (rne_spec (- n) d Hd) as [[Hl' Hu'] Hev'].
  set (k := rne n d) in *. set (k' := rne (- n) d) in *. clearbody k k'.
  destruct (Z.lt_trichotomy k' (- k)) as [H|[H|H]]; [exfalso|done|exfalso].
  - assert (0 <= (k' + k + 1) * d) by lia.
    assert (k' = - k - 1) as -> by nia.
    assert (Z.even (- k - 1) = true) as H1 by (apply Hev'; left; lia).
    assert (Z.even k = true) as H2 by (apply Hev; left; lia).
    rewrite Z.even_sub, Z.even_opp, H2 in H1. discriminate.
  - assert (0 <= (1 - k' - k) * d) by lia.
    assert (k' = - k + 1) as -> by nia.
    assert (Z.even (- k + 1) = true) as H1 by (apply Hev'; right; lia).
    assert (Z.even k = true) as H2 by (apply Hev; right; lia).
    rewrite Z.even_add, Z.even_opp, H2 in H1. discriminate.
Qed.

(** ** Rounding to a double *)

Lemma ulp_exp_nonneg n d : 0 <= ulp_exp n d.
Proof. unfold ulp_exp. lia. Qed.

Lemma rnd_opp n d : 0 < d -> rnd (- n) d = - rnd n d.
Proof.
  intros Hd. unfold rnd, ulp_exp. rewrite Z.abs_opp.
  set (e := Z.max _ _). assert (0 < 2 ^ e) by (apply pow2_pos; lia).
  rewrite rne_opp by nia. lia.
Qed.

Lemma rnd_0 d : 0 < d -> rnd 0 d = 0.
Proof.
  intros Hd. unfold rnd. set (e := ulp_exp _ _).
  assert (0 < 2 ^ e) by (apply pow2_pos; unfold e; apply ulp_exp_nonneg).
  rewrite <- (Z.mul_0_l (d * 2 ^ e)), rne_exact by nia. lia.
Qed.

Lemma ulp_exp_mono n n' d :
  0 < d -> 0 <= n <= n' -> ulp_exp n d <= ulp_exp n' d.
Proof.
  intros Hd Hn. unfold ulp_exp. rewrite !Z.abs_eq by lia.
  assert (Z.log2 (n / d) <= Z.log2 (n' / d)); [|lia].
  apply Z.log2_le_mono, Z.div_le_mono; lia.
Qed.

(** A non-negative rational is below the binade its exponent names ... *)
Lemma ulp_exp_upper n d :
  0 < d -> 0 <= n -> n < d * 2 ^ (53 + ulp_exp n d).
Proof.
  intros Hd Hn. unfold ulp_exp. rewrite Z.abs_eq by lia.
  set (q := n / d). assert (0 <= q) by (apply Z.div_pos; lia).
  assert (n < d * (q + 1)) as Hq.
  { pose proof (Z.mod_pos_bound n d Hd). pose proof (Z.div_mod n d ltac:(lia)).
    unfold q. lia. }
  assert (q < 2 ^ (Z.log2 q + 1)) as Hlog.
  { destruct (Z.eq_dec q 0) as [->|]; [reflexivity|].
    apply Z.log2_spec; lia. }
  assert (2 ^ (Z.log2 q + 1) <= 2 ^ (53 + Z.max 0 (Z.log2 q - 52))).
  { apply Z.pow_le_mono_r; lia. }
  nia.
Qed.

(** ... and, past the subnormals, not below its lower end. *)
Lemma ulp_exp_lower n d :
  0 < d -> 0 <= n -> 0 < ulp_exp n d -> d * 2 ^ (52 + ulp_exp n d) <= n.
Proof.
  intros Hd Hn He. unfold ulp_exp in *. rewrite Z.abs_eq in * by lia.
  set (q := n / d) in *.
  replace (52 + Z.max 0 (Z.log2 q - 52)) with (Z.log2 q) by lia.
  assert (0 < q).
  { destruct (Z.le_gt_cases q 0) as [Hq|]; [|done].
    rewrite Z.log2_nonpos in He by lia. lia. }
  assert (2 ^ Z.log2 q <= q) by (apply Z.log2_spec; lia).
  assert (d * q <= n); [|nia].
  pose proof (Z.mod_pos_bound n d Hd). pose proof (Z.div_mod n d ltac:(lia)).
  unfold q. lia.
Qed.

Lemma rnd_upper n d :
  0 < d -> 0 <= n -> rnd n d <= 2 ^ (53 + ulp_exp n d).
Proof.
  intros Hd Hn. pose proof (ulp_exp_upper n d Hd Hn).
  pose proof (ulp_exp_nonneg n d). unfold rnd.
  set (e := ulp_exp n d) in *. rewrite Z.pow_add_r in * by lia.
  apply Z.mul_le_mono_nonneg_r; [lia|].
  apply rne_le_int; [|nia]. pose proof (pow2_pos e). nia.
Qed.

Lemma rnd_lower n d :
  0 < d -> 0 <= n -> 0 < ulp_exp n d -> 2 ^ (52 + ulp_exp n d) <= rnd n d.
Proof.
  intros Hd Hn He. pose proof (ulp_exp_lower n d Hd Hn He). unfold rnd.
  set (e := ulp_exp n d) in *. rewrite Z.pow_add_r in * by lia.
  apply Z.mul_le_mono_nonneg_r; [lia|].
  apply rne_ge_int; [|nia]. pose proof (pow2_pos e). nia.
Qed.

Lemma rnd_mono_nonneg n n' d :
  0 < d -> 0 <= n <= n' -> rnd n d <= rnd n' d.
Proof.
  intros Hd Hn. pose proof (ulp_exp_mono n n' d Hd Hn) as He.
  pose proof (ulp_exp_nonneg n d) as He0.
  destruct (Z.eq_dec (ulp_exp n d) (ulp_exp n' d)) as [Heq|Hne].
  - unfold rnd. rewrite <- Heq. pose proof (pow2_pos (ulp_exp n d)).
    apply Z.mul_le_mono_nonneg_r; [lia|]. apply rne_mono; nia.
  - transitivity (2 ^ (53 + ulp_exp n d)); [apply rnd_upper; lia|].
    transitivity (2 ^ (52 + ulp_exp n' d)).
    + apply Z.pow_le_mono_r; lia.
    + apply rnd_lower; lia.
Qed.

(** Rounding is monotone: the fact every order argument rests on. *)
Lemma rnd_mono n n' d : 0 < d -> n <= n' -> rnd n d <= rnd n' d.
Proof.
  intros Hd Hn.
  destruct (Z.le_gt_cases 0 n) as [H0|H0]; [by apply rnd_mono_nonneg|].
  destruct (Z.le_gt_cases n' 0) as [H1|H1].
  - rewrite <- (Z.opp_involutive n), <- (Z.opp_involutive n'), !(rnd_opp (- _)) by done.
    apply Z.opp_le_mono. rewrite !Z.opp_involutive. apply rnd_mono_nonneg; lia.
  - transitivity 0.
    + rewrite <- (Z.opp_involutive n), rnd_opp by done.
      pose proof (rnd_mono_nonneg 0 (- n) d Hd ltac:(lia)).
      rewrite rnd_0 in * by done. lia.
    + rewrite <- (rnd_0 d Hd). apply rnd_mono_nonneg; lia.
Qed.

(** Scaling numerator and denominator alike changes nothing. *)
Lemma rnd_scale n d c : 0 < d -> 0 < c -> rnd (n * c) (d * c) = rnd n d.
Proof.
  intros Hd Hc. unfold rnd, ulp_exp.
  rewrite Z.abs_mul, (Z.abs_eq c), Z.div_mul_cancel_r by lia.
  set (e := Z.max _ _). assert (0 < 2 ^ e) by (apply pow2_pos; lia).
  f_equal. unfold rne.
  replace (d * c * 2 ^ e) with (d * 2 ^ e * c) by lia.
  rewrite Z.div_mul_cancel_r, Z.mul_mod_distr_r by nia.
  replace (2 * ((n mod (d * 2 ^ e)) * c)) with (2 * (n mod (d * 2 ^ e)) * c) by lia.
  by rewrite <- Zmult_compare_compat_r by lia.
Qed.

Lemma rnd_mono_cross n d n' d' :
  0 < d -> 0 < d' -> n * d' <= n' * d -> rnd n d <= rnd n' d'.
Proof.
  intros Hd Hd' H. rewrite <- (rnd_scale n d d'), <- (rnd_scale n' d' d) by done.
  rewrite (Z.mul_comm d' d). apply rnd_mono; nia.
Qed.

(** A significand of at most 53 bits is exact. *)
Lemma rnd_exact m e : Z.abs m <= 2 ^ 53 -> 0 <= e -> is_f64 (m * 2 ^ e).
Proof.
  intros Hm He. unfold is_f64. unfold rnd.
  set (e0 := ulp_exp _ _). assert (0 <= e0) by apply ulp_exp_nonneg.
  assert (exists k, m * 2 ^ e = k * 2 ^ e0) as [k Hk].
  { destruct (Z.eq_dec m 0) as [->|Hm0]; [by exists 0|].
    assert (Z.log2 (Z.abs (m * 2 ^ e) / 1) = Z.log2 (Z.abs m) + e) as Hlog.
    { rewrite Z.div_1_r, Z.abs_mul, (Z.abs_eq (2 ^ e)) by lia.
      rewrite Z.log2_mul_pow2 by lia. lia. }
    unfold e0, ulp_exp in *. rewrite Hlog in *.
    destruct (Z.eq_dec (Z.abs m) (2 ^ 53)) as [Hb|Hb].
    - rewrite Hb in *. rewrite Z.log2_pow2 in * by lia.
      replace (Z.max 0 (53 + e - 52)) with (e + 1) by lia.
      exists (Z.sgn m * 2 ^ 52). assert (m = Z.sgn m * 2 ^ 53) as Hs by lia.
      rewrite Hs at 1. rewrite <- !Z.mul_assoc, <- !Z.pow_add_r by lia. do 2 f_equal. lia.
    - assert (Z.log2 (Z.abs m) < 53) by (apply Z.log2_lt_pow2; lia).
      pose proof (Z.log2_nonneg (Z.abs m)).
      exists (m * 2 ^ (e - Z.max 0 (Z.log2 (Z.abs m) + e - 52))).
      rewrite <- Z.mul_assoc, <- Z.pow_add_r by lia. do 2 f_equal. lia. }
  rewrite Z.mul_1_l, Hk, rne_exact; [done|]. by apply pow2_pos.
Qed.

(** Every result of a rounding is representable. *)
Lemma rnd_is_f64 n d : 0 < d -> is_f64 (rnd n d).
Proof.
  intros Hd.
  assert (forall n, 0 <= n -> is_f64 (rnd n d)) as Hpos.
  { intros k Hk. pose proof (rnd_upper k d Hd Hk) as Hu.
    pose proof (ulp_exp_nonneg k d).
    pose proof (rnd_mono_nonneg 0 k d Hd ltac:(lia)) as Hl.
    rewrite rnd_0 in Hl by done. revert Hu Hl. unfold rnd at 1 2 3.
    set (e := ulp_exp k d) in *. intros Hu Hl.
    rewrite Z.pow_add_r in Hu by lia. pose proof (pow2_pos e ltac:(lia)).
    apply rnd_exact; [|lia]. rewrite Z.abs_eq by nia. nia. }
  destruct (Z.le_gt_cases 0 n); [by apply Hpos|].
  pose proof (Hpos (- n) ltac:(lia)) as H1. unfold is_f64 in *.
  rewrite rnd_opp in H1 by done. rewrite rnd_opp in H1 by lia. lia.
Qed.

Lemma is_f64_0 : is_f64 0.
Proof. apply (rnd_exact 0 0); simpl; lia. Qed.

Lemma is_f64_int k : Z.abs k <= 2 ^ 53 -> is_f64 (k * one).
Proof. intros. apply rnd_exact; [done|lia]. Qed.

Lemma is_f64_one : is_f64 one.
Proof. rewrite <- (Z.mul_1_l one). by apply is_f64_int. Qed.

(** ** Order *)

Lemma add_mono a b a' b' : a <= a' -> b <= b' -> add a b <= add a' b'.
Proof. intros. apply rnd_mono; lia. Qed.

Lemma sub_mono a b a' b' : a <= a' -> b' <= b -> sub a b <= sub a' b'.
Proof. intros. apply rnd_mono; lia. Qed.

Lemma mul_mono_r c a a' : 0 <= c -> a <= a' -> mul c a <= mul c a'.
Proof. intros. apply rnd_mono; [done|]. nia. Qed.

Lemma div_mono_l a a' b : 0 < b -> a <= a' -> div a b <= div a' b.
Proof.
  intros Hb Ha. unfold div. destruct (Z.ltb_spec 0 b); [|lia].
  apply rnd_mono; [done|]. pose proof one_pos. nia.
Qed.

Lemma truediv_mono_l a a' b : 0 < b -> a <= a' -> truediv a b <= truediv a' b.
Proof.
  intros Hb Ha. unfold truediv. destruct (Z.ltb_spec 0 b); [|lia].
  apply rnd_mono; [done|]. pose proof one_pos. nia.
Qed.

Lemma round_digits_mono x y k : 0 <= k -> x <= y -> round_digits x k <= round_digits y k.
Proof.
  intros Hk H. assert (0 < 10 ^ k) by (apply Z.pow_pos_nonneg; lia).
  apply rnd_mono; [done|]. apply Z.mul_le_mono_nonneg_r; [pose proof one_pos; lia|].
  apply rne_mono; [apply one_pos|nia].
Qed.

Lemma add_0_0 : add 0 0 = 0.
Proof. reflexivity. Qed.

Lemma mul_0_r c : mul c 0 = 0.
Proof. unfold mul. rewrite Z.mul_0_r. by apply rnd_0. Qed.

Lemma truediv_0 b : 0 < b -> truediv 0 b = 0.
Proof. intros. unfold truediv. destruct (Z.ltb_spec 0 b); [by apply rnd_0|lia]. Qed.

Lemma truediv_diag b : 0 < b -> truediv b b = one.
Proof.
  intros. unfold truediv. destruct (Z.ltb_spec 0 b); [|lia].
  rewrite <- (Z.mul_1_l b) at 2. rewrite (Z.mul_comm b), rnd_scale by lia.
  apply is_f64_one.
Qed.

(** A ratio of the range is in the unit interval. *)
Lemma truediv_unit a b : 0 < b -> 0 <= a <= b -> 0 <= truediv a b <= one.
Proof.
  intros Hb Ha. rewrite <- (truediv_0 b Hb), <- (truediv_diag b Hb).
  split; apply truediv_mono_l; lia.
Qed.

Lemma round_digits_0 k : 0 <= k -> round_digits 0 k = 0.
Proof.
  intros Hk. unfold round_digits. assert (rne (0 * 10 ^ k) one = 0) as -> by done.
  change (0 * one) with 0.
  apply rnd_0, Z.pow_pos_nonneg; lia.
Qed.

Lemma round_digits_one k : 0 <= k -> round_digits one k = one.
Proof.
  intros Hk. unfold round_digits.
  assert (0 < 10 ^ k) as Hp by (apply Z.pow_pos_nonneg; lia).
  replace (one * 10 ^ k) with (10 ^ k * one) by lia. rewrite rne_exact by apply one_pos.
  replace (10 ^ k * one) with (one * 10 ^ k) by lia.
  replace (rnd (one * 10 ^ k) (10 ^ k)) with (rnd (one * 10 ^ k) (1 * 10 ^ k)) by (f_equal; lia).
  rewrite rnd_scale by lia. apply is_f64_one.
Qed.

(** Integers of up to 53 bits are converted exactly. *)
Lemma of_int_exact n : Z.abs n <= 2 ^ 53 -> of_int n = n * one.
Proof. apply is_f64_int. Qed.

Lemma of_int_mono n m : n <= m -> of_int n <= of_int m.
Proof. intros. apply rnd_mono; [lia|]. pose proof one_pos. nia. Qed.

(** ** Cents *)

(** A rounding is off by at most half a unit of its last place, here by [e]
    of the divisor [d]. *)
Lemma rnd_close n d :
  0 < d -> let e := ulp_exp n d in
  2 * n - d * 2 ^ e <= 2 * (rnd n d * d) <= 2 * n + d * 2 ^ e.
Proof.
  intros Hd e. unfold rnd. fold e. pose proof (pow2_pos e (ulp_exp_nonneg n d)).
  destruct (rne_spec n (d * 2 ^ e) ltac:(nia)) as [Hr _]. nia.
Qed.

(** Hundredths survive the division by 100 and the rounding to two decimals. *)
Lemma hundredths_exact n : 0 <= n < 2 ^ 52 -> rne (truediv n 100 * 100) one = n.
Proof.
  intros Hn. unfold truediv. cbn [Z.ltb Z.compare]. pose proof one_pos.
  pose proof (rnd_close (n * one) 100 ltac:(lia)) as Hc. cbv zeta in Hc.
  set (e := ulp_exp (n * one) 100) in *.
  assert (100 * 2 ^ e < one) as He.
  { destruct (Z.le_gt_cases e 0) as [He|He].
    - assert (e = 0) as -> by (pose proof (ulp_exp_nonneg (n * one) 100); lia). by vm_compute.
    - pose proof (ulp_exp_lower (n * one) 100 ltac:(lia) ltac:(nia) He) as Hl.
      fold e in Hl. rewrite Z.pow_add_r in Hl by lia. generalize dependent one. intros o **. nia. }
  destruct (rne_spec (rnd (n * one) 100 * 100) one ltac:(done)) as [Hr _].
  set (k := rne (rnd (n * one) 100 * 100) one) in *. clearbody k. generalize dependent one.
  intros o **. nia.
Qed.

End F64.

#[global] Opaque F64.one.
