(* ===== verification/PyStr.v ===== *)
(** * Python text

    The [str] and [int] operations the program calls.  A string is its bytes;
    the case and class operations act on ASCII characters and leave the other
    bytes alone.  [py_int] follows CPython's [PyLong_FromString]: surrounding
    whitespace, a sign, digits with single underscores between them, the
    4300-digit limit of the decimal base, the [0x] prefix of base 16. *)
From S2P Require Import Prelude.

Module PyStr.

Definition chars (s : string) : list ascii := Stdlib.Strings.String.list_ascii_of_string s.
Definition of_chars (l : list ascii) : string := Stdlib.Strings.String.string_of_list_ascii l.

(** The byte of a character and back. *)
Definition code (c : ascii) : Z := Z.of_N (N_of_ascii c).
Definition chr (z : Z) : ascii := ascii_of_N (Z.to_N z).

Definition is_upper_char (c : ascii) : bool := (65 <=? code c) && (code c <=? 90).
Definition is_lower_char (c : ascii) : bool := (97 <=? code c) && (code c <=? 122).
Definition is_alpha_char (c : ascii) : bool := is_upper_char c || is_lower_char c.
Definition is_digit_char (c : ascii) : bool := (48 <=? code c) && (code c <=? 57).
Definition is_ascii_char (c : ascii) : bool := code c <? 128.

(** [str.strip()] removes these (the ASCII part of Unicode whitespace). *)
Definition is_space_char (c : ascii) : bool :=
  ((9 <=? code c) && (code c <=? 13)) || ((28 <=? code c) && (code c <=? 32)).

(** [int()] skips only these around an ASCII literal. *)
Definition is_c_space_char (c : ascii) : bool :=
  ((9 <=? code c) && (code c <=? 13)) || (code c =? 32).

Definition lower_char (c : ascii) : ascii := if is_upper_char c then chr (code c + 32) else c.
Definition upper_char (c : ascii) : ascii := if is_lower_char c then chr (code c - 32) else c.

Definition lower (s : string) : string := of_chars (lower_char <$> chars s).
Definition upper (s : string) : string := of_chars (upper_char <$> chars s).

Definition len (s : string) : Z := Z.of_nat (length (chars s)).

(** [isalpha] and [isdigit] are false of the empty string. *)
Definition isalpha (s : string) : bool := (0 <? len s) && forallb is_alpha_char (chars s).
Definition isdigit (s : string) : bool := (0 <? len s) && forallb is_digit_char (chars s).

Fixpoint drop_while (p : ascii -> bool) (l : list ascii) : list ascii :=
  match l with
  | [] => []
  | c :: l' => if p c then drop_while p l' else l
  end.

Definition strip_chars (p : ascii -> bool) (l : list ascii) : list ascii :=
  reverse (drop_while p (reverse (drop_while p l))).

Definition strip (s : string) : string := of_chars (strip_chars is_space_char (chars s)).

(** [s.split(sep)] for a one-character separator: always at least one part. *)
Fixpoint split_chars (sep : ascii) (cur l : list ascii) : list (list ascii) :=
  match l with
  | [] => [reverse cur]
  | c :: l' =>
      if bool_decide (c = sep) then reverse cur :: split_chars sep [] l'
      else split_chars sep (c :: cur) l'
  end.

Definition split (sep : ascii) (s : string) : list string :=
  of_chars <$> split_chars sep [] (chars s).

(** [ch in s]. *)
Definition has_char (ch : ascii) (s : string) : bool :=
  existsb (fun c => bool_decide (c = ch)) (chars s).

Fixpoint prefix_chars (p l : list ascii) : bool :=
  match p, l with
  | [], _ => true
  | _, [] => false
  | a :: p', b :: l' => bool_decide (a = b) && prefix_chars p' l'
  end.

Definition startswith (s p : string) : bool := prefix_chars (chars p) (chars s).

(** ** Decimal output: [str(n)] *)

Definition digit_char (d : Z) : ascii := chr (48 + d).

Fixpoint digits_go (fuel : nat) (n : Z) (acc : list ascii) : list ascii :=
  match fuel with
  | O => acc
  | S fuel' =>
      let acc' := digit_char (n mod 10) :: acc in
      if n / 10 =? 0 then acc' else digits_go fuel' (n / 10) acc'
  end.

(** One step per bit is more than one step per digit. *)
Definition digits_of (n : Z) : list ascii := digits_go (S (Z.to_nat (Z.log2 n))) n [].

Definition str_of_int_chars (n : Z) : list ascii :=
  if n <? 0 then "-"%char :: digits_of (- n) else digits_of n.

Definition str_of_int (n : Z) : string := of_chars (str_of_int_chars n).

(** ** Integer input: [int(s, base)] *)

Definition digit_value (c : ascii) : Z :=
  if is_digit_char c then code c - 48
  else if is_lower_char c then code c - 87
  else if is_upper_char c then code c - 55
  else 99.

(** Value, number of digits and what is left, or a misplaced underscore. *)
Fixpoint scan_digits (base : Z) (prev_us : bool) (acc n : Z) (l : list ascii)
  : option (Z * Z * list ascii) :=
  match l with
  | [] => if prev_us then None else Some (acc, n, [])
  | c :: l' =>
      if bool_decide (c = "_"%char) then
        if prev_us then None else scan_digits base true acc n l'
      else if digit_value c <? base then
        scan_digits base false (acc * base + digit_value c) (n + 1) l'
      else if prev_us then None else Some (acc, n, l)
  end.

Definition max_str_digits : Z := 4300.

(** The base prefix of base 16, with the underscore that may follow it. *)
Definition skip_prefix (base : Z) (l : list ascii) : list ascii :=
  match l with
  | z :: x :: l' =>
      if (base =? 16) && bool_decide (z = "0"%char)
         && (bool_decide (x = "x"%char) || bool_decide (x = "X"%char))
      then match l' with
           | u :: l'' => if bool_decide (u = "_"%char) then l'' else l'
           | [] => l'
           end
      else l
  | _ => l
  end.

Definition parse_unsigned (base : Z) (l : list ascii) : option Z :=
  let l := skip_prefix base l in
  match l with
  | [] => None
  | c :: _ =>
      if bool_decide (c = "_"%char) then None
      else match scan_digits base false 0 0 l with
           | Some (v, n, rest) =>
               if (n =? 0) || negb (forallb is_c_space_char rest)
                  || ((base =? 10) && (max_str_digits <? n))
               then None else Some v
           | None => None
           end
  end.

Definition parse_int_chars (base : Z) (l : list ascii) : option Z :=
  match drop_while is_c_space_char l with
  | c :: l' =>
      if bool_decide (c = "+"%char) then parse_unsigned base l'
      else if bool_decide (c = "-"%char) then Z.opp <$> parse_unsigned base l'
      else parse_unsigned base (c :: l')
  | [] => None
  end.

(** [int(s)]; [None] is the [ValueError].  Digits outside ASCII, which Python
    also reads, are refused here. *)
Definition py_int (s : string) : option Z := parse_int_chars 10 (chars s).

(** ** Lemmas *)

Lemma chars_of_chars l : chars (of_chars l) = l.
Proof. apply Stdlib.Strings.String.list_ascii_of_string_of_list_ascii. Qed.

Lemma of_chars_chars s : of_chars (chars s) = s.
Proof. apply Stdlib.Strings.String.string_of_list_ascii_of_string. Qed.

Lemma code_bound c : 0 <= code c < 256.
Proof.
  unfold code. pose proof (N_ascii_bounded c). lia.
Qed.

Lemma code_chr z : 0 <= z < 256 -> code (chr z) = z.
Proof. intros Hz. unfold code, chr. rewrite N_ascii_embedding; lia. Qed.

Lemma chr_code c : chr (code c) = c.
Proof. unfold code, chr. by rewrite N2Z.id, ascii_N_embedding. Qed.

Lemma code_inj c d : code c = code d -> c = d.
Proof. intros H. by rewrite <- (chr_code c), <- (chr_code d), H. Qed.

Lemma lower_char_not_upper c : is_upper_char (lower_char c) = false.
Proof.
  unfold lower_char. destruct (is_upper_char c) eqn:E; [|done].
  unfold is_upper_char in *. rewrite code_chr; lia.
Qed.

Lemma lower_char_idemp c : lower_char (lower_char c) = lower_char c.
Proof. unfold lower_char at 1. by rewrite lower_char_not_upper. Qed.

Lemma lower_idemp s : lower (lower s) = lower s.
Proof.
  unfold lower. rewrite chars_of_chars. f_equal. rewrite <- list_fmap_compose.
  apply list_fmap_ext. intros. apply lower_char_idemp.
Qed.

Lemma upper_char_not_lower c : is_lower_char (upper_char c) = false.
Proof.
  unfold upper_char. destruct (is_lower_char c) eqn:E; [|done].
  unfold is_lower_char in *. rewrite code_chr; lia.
Qed.

Lemma upper_char_idemp c : upper_char (upper_char c) = upper_char c.
Proof. unfold upper_char at 1. by rewrite upper_char_not_lower. Qed.

Lemma upper_idemp s : upper (upper s) = upper s.
Proof.
  unfold upper. rewrite chars_of_chars. f_equal. rewrite <- list_fmap_compose.
  apply list_fmap_ext. intros. apply upper_char_idemp.
Qed.

Lemma len_upper s : len (upper s) = len s.
Proof. unfold len, upper. by rewrite chars_of_chars, length_fmap. Qed.

Lemma upper_char_alpha c : is_alpha_char c = true -> is_upper_char (upper_char c) = true.
Proof.
  unfold is_alpha_char, upper_char, is_lower_char, is_upper_char. intros H.
  destruct ((97 <=? code c) && (code c <=? 122)) eqn:E; [|lia].
  rewrite code_chr; lia.
Qed.

(** *** Decimal round trip *)

Lemma digit_char_code d : 0 <= d < 10 -> code (digit_char d) = 48 + d.
Proof. intros. apply code_chr. lia. Qed.

Lemma digit_value_digit d : 0 <= d < 10 -> digit_value (digit_char d) = d.
Proof.
  intros Hd. unfold digit_value, is_digit_char. rewrite digit_char_code by done.
  destruct (_ && _) eqn:E; lia.
Qed.

Lemma digit_char_ne d c :
  0 <= d < 10 -> (code c < 48 \/ 57 < code c) -> digit_char d <> c.
Proof. intros Hd Hc <-. rewrite digit_char_code in Hc by done. lia. Qed.

(** Horner's rule over a list of digits. *)
Definition horner (acc : Z) (ds : list Z) : Z := foldl (fun a d => a * 10 + d) acc ds.

Lemma digits_go_spec fuel n acc :
  0 <= n < 2 ^ Z.of_nat fuel ->
  (0 < fuel)%nat ->
  exists ds, digits_go fuel n acc = (digit_char <$> ds) ++ acc
    /\ Forall (fun d => 0 <= d < 10) ds /\ ds <> []
    /\ horner 0 ds = n /\ (10 ^ (Z.of_nat (length ds) - 1) <= n \/ ds = [n]).
Proof.
  revert n acc. induction fuel as [|fuel IH]; intros n acc Hn Hf; [lia|].
  cbn [digits_go]. pose proof (Z.mod_pos_bound n 10 ltac:(lia)) as Hm.
  destruct (Z.eqb_spec (n / 10) 0) as [Hz|Hz].
  - exists [n mod 10]. simpl. unfold horner; simpl.
    assert (n = n mod 10) by (pose proof (Z.div_mod n 10); lia).
    split; [done|]. split; [by apply Forall_singleton|].
    split; [done|]. split; [lia|]. right. f_equal. lia.
  - assert (0 <= n / 10 < 2 ^ Z.of_nat fuel) as Hb.
    { split; [apply Z.div_pos; lia|]. rewrite Nat2Z.inj_succ, Z.pow_succ_r in Hn by lia.
      apply Z.div_lt_upper_bound; lia. }
    destruct fuel as [|fuel].
    { change (2 ^ Z.of_nat 0) with 1 in Hb. lia. }
    destruct (IH (n / 10) (digit_char (n mod 10) :: acc) Hb ltac:(lia))
      as (ds & -> & Hds & Hne & Hv & Hlen).
    exists (ds ++ [n mod 10]). rewrite fmap_app, <- app_assoc. simpl.
    split; [done|]. split; [apply Forall_app; split; [done|by apply Forall_singleton]|].
    split; [by destruct ds|]. unfold horner in *. rewrite foldl_app, Hv. simpl.
    pose proof (Z.div_mod n 10 ltac:(lia)).
    split; [lia|]. left. rewrite length_app. simpl.
    replace (Z.of_nat (length ds + 1) - 1) with (Z.of_nat (length ds)) by lia.
    assert (0 < length ds)%nat by (destruct ds; [done|simpl; lia]).
    destruct Hlen as [Hlen|Hlen].
    + replace (Z.of_nat (length ds)) with (Z.of_nat (length ds) - 1 + 1) by lia.
      rewrite Z.pow_add_r by lia. lia.
    + rewrite Hlen. simpl. change (10 ^ 1) with 10. lia.
Qed.

Lemma digits_of_spec n :
  0 <= n ->
  exists ds, digits_of n = digit_char <$> ds
    /\ Forall (fun d => 0 <= d < 10) ds /\ ds <> []
    /\ horner 0 ds = n /\ (10 ^ (Z.of_nat (length ds) - 1) <= n \/ ds = [n]).
Proof.
  intros Hn. unfold digits_of.
  destruct (digits_go_spec (S (Z.to_nat (Z.log2 n))) n []) as (ds & H & ?); [|lia|].
  - rewrite Nat2Z.inj_succ, Z2Nat.id by apply Z.log2_nonneg.
    split; [done|]. destruct (Z.eq_dec n 0) as [->|]; [by compute|].
    apply Z.log2_spec. lia.
  - exists ds. by rewrite app_nil_r in H.
Qed.

Lemma scan_digits_digits ds acc n :
  Forall (fun d => 0 <= d < 10) ds ->
  scan_digits 10 false acc n (digit_char <$> ds)
  = Some (horner acc ds, n + Z.of_nat (length ds), []).
Proof.
  intros Hds. revert acc n. induction Hds as [|d ds Hd Hds IH]; intros acc n.
  - simpl. by rewrite Z.add_0_r.
  - cbn [fmap list_fmap scan_digits].
    rewrite bool_decide_eq_false_2 by (apply digit_char_ne; [done|by right]).
    rewrite digit_value_digit by done. destruct (Z.ltb_spec d 10); [|lia].
    rewrite IH. unfold horner. simpl. do 2 f_equal. f_equal. lia.
Qed.

Lemma parse_unsigned_digits ds :
  Forall (fun d => 0 <= d < 10) ds -> ds <> [] -> Z.of_nat (length ds) <= max_str_digits ->
  parse_unsigned 10 (digit_char <$> ds) = Some (horner 0 ds).
Proof.
  intros Hds Hne Hl. unfold parse_unsigned.
  assert (forall l, skip_prefix 10 l = l) as -> by (by intros [|? [|? ?]]).
  rewrite scan_digits_digits by done.
  destruct ds as [|d ds]; [done|]. rewrite fmap_cons.
  rewrite bool_decide_eq_false_2
    by (apply digit_char_ne; [by inversion Hds|by right]).
  rewrite Z.add_0_l. simpl forallb.
  destruct (Z.eqb_spec (Z.of_nat (length (d :: ds))) 0); [simpl in *; lia|].
  destruct (Z.ltb_spec max_str_digits (Z.of_nat (length (d :: ds)))); [lia|done].
Qed.

(** Reading back a printed number, while it has at most 4300 digits. *)
Lemma parse_str_of_int n :
  0 <= n < 10 ^ max_str_digits -> parse_int_chars 10 (str_of_int_chars n) = Some n.
Proof.
  intros [Hn Hmax]. unfold str_of_int_chars. destruct (Z.ltb_spec n 0); [lia|].
  destruct (digits_of_spec n Hn) as (ds & -> & Hds & Hne & Hv & Hlen).
  rewrite <- Hv. rewrite <- parse_unsigned_digits; [|done..|].
  - destruct ds as [|d ds]; [done|].
    assert (0 <= d < 10) as Hd by (by inversion Hds).
    rewrite fmap_cons. unfold parse_int_chars. cbn [drop_while].
    assert (is_c_space_char (digit_char d) = false) as ->.
    { unfold is_c_space_char. rewrite digit_char_code by done. lia. }
    by rewrite !bool_decide_eq_false_2 by (apply digit_char_ne; [done|by left]).
  - destruct Hlen as [Hlen|Hlen]; [|rewrite Hlen; simpl; unfold max_str_digits; lia].
    assert (Z.of_nat (length ds) - 1 < max_str_digits); [|lia].
    apply (Z.pow_lt_mono_r_iff 10); [lia|unfold max_str_digits; lia|].
    eapply Z.le_lt_trans; [exact Hlen|exact Hmax].
Qed.

Lemma digits_of_ascii n c : 0 <= n -> c ∈ digits_of n -> 48 <= code c <= 57.
Proof.
  intros Hn Hc. destruct (digits_of_spec n Hn) as (ds & Heq & Hds & _).
  rewrite Heq in Hc. apply list_elem_of_fmap in Hc as (d & -> & Hd).
  rewrite Forall_forall in Hds. rewrite digit_char_code by (by apply Hds).
  specialize (Hds d Hd). simpl in Hds. lia.
Qed.

(** *** Splitting distributes over the separator *)

Lemma split_chars_app sep cur l1 l2 :
  split_chars sep cur (l1 ++ sep :: l2) = split_chars sep cur l1 ++ split_chars sep [] l2.
Proof.
  revert cur. induction l1 as [|c l1 IH]; intros cur; simpl.
  - by rewrite bool_decide_eq_true_2.
  - destruct (bool_decide (c = sep)); [by rewrite IH|apply IH].
Qed.

Lemma chars_app s t : chars (s +:+ t) = chars s ++ chars t.
Proof.
  unfold chars. induction s as [|c s IH]; [done|].
  change (String c s +:+ t) with (String c (s +:+ t)). simpl. by rewrite IH.
Qed.

Lemma split_app sep s t :
  split sep (s +:+ String sep t) = split sep s ++ split sep t.
Proof.
  unfold split. rewrite chars_app. change (chars (String sep t)) with (sep :: chars t).
  by rewrite split_chars_app, fmap_app.
Qed.

Lemma split_dot s t : split "." (s +:+ "." +:+ t) = split "." s ++ split "." t.
Proof. exact (split_app "." s t). Qed.

Lemma split_slash s t : split "/" (s +:+ "/" +:+ t) = split "/" s ++ split "/" t.
Proof. exact (split_app "/" s t). Qed.

Lemma has_char_app ch s t : has_char ch (s +:+ t) = has_char ch s || has_char ch t.
Proof. unfold has_char. by rewrite chars_app, existsb_app. Qed.

Lemma split_none sep s : has_char sep s = false -> split sep s = [s].
Proof.
  intros H. unfold split. assert (split_chars sep [] (chars s) = [chars s]) as ->.
  2: { simpl. by rewrite of_chars_chars. }
  unfold has_char in H. assert (forall cur l, existsb (fun c => bool_decide (c = sep)) l = false ->
    split_chars sep cur l = [reverse cur ++ l]) as Hgen.
  { intros cur l. revert cur. induction l as [|c l IH]; intros cur Hl; simpl in *.
    - by rewrite app_nil_r.
    - apply orb_false_iff in Hl as [-> Hl]. rewrite IH by done.
      by rewrite reverse_cons, <- app_assoc. }
  by rewrite Hgen.
Qed.

End PyStr.
