(* ===== verification/Pagination.v ===== *)
(** * Cursor pagination

    [app/services/pagination.py], with the standard library's URL-safe Base64
    as CPython computes it: [b64encode] is the textbook encoder, [a2b] is
    [binascii.a2b_base64] in its default non-strict mode, which skips the
    characters outside the alphabet and stops at a complete padding. *)
From S2P Require Import Prelude PyStr.
Import PyStr.

Module Base64.

(** The URL-safe alphabet: value to character and back. *)
Definition alphabet : list ascii :=
  chars "ABCDEFGHIJKLMNOPQRSTUVWXYZabcdefghijklmnopqrstuvwxyz0123456789-_".

Definition to_char (v : Z) : ascii := default "A"%char (alphabet !! Z.to_nat v).

(** [urlsafe_b64decode] maps [-] and [_] to [+] and [/] first, so a text may
    use either pair. *)
Definition of_char (c : ascii) : option Z :=
  if is_upper_char c then Some (code c - 65)
  else if is_lower_char c then Some (code c - 71)
  else if is_digit_char c then Some (code c + 4)
  else if bool_decide (c = "-"%char) || bool_decide (c = "+"%char) then Some 62
  else if bool_decide (c = "_"%char) || bool_decide (c = "/"%char) then Some 63
  else None.

Definition pad : ascii := "="%char.

(** [base64.urlsafe_b64encode]. *)
Fixpoint encode (bs : list ascii) : list ascii :=
  match bs with
  | [] => []
  | [a] =>
      [to_char (code a / 4); to_char (code a mod 4 * 16); pad; pad]
  | [a; b] =>
      [to_char (code a / 4); to_char (code a mod 4 * 16 + code b / 16);
       to_char (code b mod 16 * 4); pad]
  | a :: b :: c :: bs' =>
      to_char (code a / 4) :: to_char (code a mod 4 * 16 + code b / 16)
      :: to_char (code b mod 16 * 4 + code c / 64) :: to_char (code c mod 64)
      :: encode bs'
  end.

(** The loop of [binascii.a2b_base64]: position in the quad, bits left over
    from the last character, pads seen since, output so far reversed.  [None]
    is [binascii.Error], which is a [ValueError]. *)
Fixpoint a2b (quad left pads : Z) (out l : list ascii) : option (list ascii) :=
  match l with
  | [] => if quad =? 0 then Some (reverse out) else None
  | c :: l' =>
      if bool_decide (c = pad) then
        if 2 <=? quad then
          if 4 <=? quad + (pads + 1) then Some (reverse out)
          else a2b quad left (pads + 1) out l'
        else a2b quad left pads out l'
      else
        match of_char c with
        | None => a2b quad left pads out l'
        | Some v =>
            if quad =? 0 then a2b 1 v 0 out l'
            else if quad =? 1 then a2b 2 (v mod 16) 0 (chr (left * 4 + v / 16) :: out) l'
            else if quad =? 2 then a2b 3 (v mod 4) 0 (chr (left * 16 + v / 4) :: out) l'
            else a2b 0 0 0 (chr (left * 64 + v) :: out) l'
        end
  end.

(** [base64.urlsafe_b64decode]. *)
Definition decode (l : list ascii) : option (list ascii) := a2b 0 0 0 [] l.

(** Every sextet reads back. *)
Lemma of_char_to_char v : 0 <= v < 64 -> of_char (to_char v) = Some v.
Proof.
  intros Hv.
  assert (forallb (fun n => bool_decide (of_char (to_char (Z.of_nat n)) = Some (Z.of_nat n)))
            (seq 0 64) = true) as H by (vm_compute; reflexivity).
  rewrite forallb_forall in H. specialize (H (Z.to_nat v)).
  rewrite Z2Nat.id in H by lia. apply bool_decide_eq_true in H; [done|].
  apply in_seq. lia.
Qed.

Lemma to_char_not_pad v : 0 <= v < 64 -> to_char v <> pad.
Proof.
  intros Hv He. pose proof (of_char_to_char v Hv) as H. by rewrite He in H.
Qed.

Lemma a2b_sextet v quad left pads out l :
  0 <= v < 64 ->
  a2b quad left pads out (to_char v :: l) =
    (if quad =? 0 then a2b 1 v 0 out l
     else if quad =? 1 then a2b 2 (v mod 16) 0 (chr (left * 4 + v / 16) :: out) l
     else if quad =? 2 then a2b 3 (v mod 4) 0 (chr (left * 16 + v / 4) :: out) l
     else a2b 0 0 0 (chr (left * 64 + v) :: out) l).
Proof.
  intros Hv. cbn [a2b]. rewrite bool_decide_eq_false_2 by by apply to_char_not_pad.
  by rewrite of_char_to_char.
Qed.

(** Solves "these bits make up that byte". *)
Ltac byte_eq :=
  match goal with
  | |- chr ?z = ?c =>
      transitivity (chr (code c)); [f_equal; Z.div_mod_to_equations; lia|apply chr_code]
  end.

Lemma a2b_encode bs out : a2b 0 0 0 out (encode bs) = Some (reverse out ++ bs).
Proof.
  revert bs out. fix IH 1. intros [|a [|b [|c bs]]] out; cbn [encode].
  - simpl. by rewrite app_nil_r.
  - pose proof (code_bound a).
    rewrite !a2b_sextet by (Z.div_mod_to_equations; lia). simpl.
    rewrite reverse_cons. do 3 f_equal. byte_eq.
  - pose proof (code_bound a). pose proof (code_bound b).
    rewrite !a2b_sextet by (Z.div_mod_to_equations; lia). simpl.
    rewrite !reverse_cons, <- app_assoc. simpl. do 2 f_equal. f_equal; [|f_equal]; byte_eq.
  - pose proof (code_bound a). pose proof (code_bound b). pose proof (code_bound c).
    rewrite !a2b_sextet by (Z.div_mod_to_equations; lia). simpl. rewrite IH.
    rewrite !reverse_cons, <- !app_assoc. simpl. do 2 f_equal.
    f_equal; [|f_equal; [|f_equal]]; byte_eq.
Qed.

Lemma decode_encode bs : decode (encode bs) = Some bs.
Proof. apply a2b_encode. Qed.

End Base64.

Module Pagination.

Definition encode_cursor (offset : Z) : string :=
  of_chars (Base64.encode (str_of_int_chars offset)).

(** [int(...decode())] of the decoded bytes; a byte outside ASCII is refused. *)
Definition cursor_int (bs : list ascii) : option Z :=
  if forallb is_ascii_char bs then parse_int_chars 10 bs else None.

Definition decode_cursor (cursor : option string) : Z :=
  match cursor with
  | None => 0
  | Some c =>
      if bool_decide (c = ""%string) then 0
      else match Base64.decode (chars c) ≫= cursor_int with
           | Some offset => Z.max 0 offset
           | None => 0
           end
  end.

(** [items[start:stop]] for [0 <= start]; a negative [stop] counts from the
    end, as Python counts it. *)
Definition py_slice {A} (l : list A) (start stop : Z) : list A :=
  let n := Z.of_nat (length l) in
  let stop' := if stop <? 0 then Z.max 0 (stop + n) else Z.min stop n in
  take (Z.to_nat (stop' - start)) (drop (Z.to_nat start) l).

Lemma str_of_int_ascii n : 0 <= n -> forallb is_ascii_char (str_of_int_chars n) = true.
Proof.
  intros Hn. apply forallb_forall. intros c Hc. apply list_elem_of_In in Hc.
  unfold str_of_int_chars in Hc. destruct (Z.ltb_spec n 0); [lia|].
  apply digits_of_ascii in Hc; [|done]. unfold is_ascii_char. lia.
Qed.

Lemma str_of_int_nonempty n : str_of_int_chars n <> [].
Proof.
  unfold str_of_int_chars. destruct (Z.ltb_spec n 0); [done|].
  destruct (digits_of_spec n ltac:(lia)) as (ds & -> & _ & Hne & _). by destruct ds.
Qed.

Lemma encode_nonempty bs : bs <> [] -> Base64.encode bs <> [].
Proof. by destruct bs as [|? [|? [|? ?]]]. Qed.

Lemma decode_encode_cursor n :
  0 <= n < 10 ^ max_str_digits -> decode_cursor (Some (encode_cursor n)) = n.
Proof.
  intros Hn. unfold decode_cursor, encode_cursor.
  rewrite bool_decide_eq_false_2.
  2:{ intros H%(f_equal chars). rewrite chars_of_chars in H.
      by apply (encode_nonempty _ (str_of_int_nonempty n)) in H. }
  rewrite chars_of_chars, Base64.decode_encode. simpl. unfold cursor_int.
  rewrite str_of_int_ascii, parse_str_of_int by lia. lia.
Qed.

Lemma decode_cursor_nonneg c : 0 <= decode_cursor c.
Proof.
  unfold decode_cursor. destruct c as [c|]; [|done].
  destruct (bool_decide _); [done|]. destruct (_ ≫= _); lia.
Qed.

End Pagination.
