(* ===== verification/PyDict.v ===== *)
(** * Python dictionaries

    A dict keeps its keys in the order of their first insertion, which the
    program relies on where it lists [best.values()] or serializes a body; so
    a dict is an association list without repeated keys.  Where order cannot
    be observed the components use [gmap] instead. *)
From S2P Require Import Prelude.

Module PyDict.

Section dict.
Context {K : Type} `{EqDecision K} {V : Type}.
Implicit Types (d : list (K * V)) (k : K) (v : V).

(** [d.get(k)]. *)
Fixpoint get d k : option V :=
  match d with
  | [] => None
  | (k', v) :: d' => if decide (k' = k) then Some v else get d' k
  end.

(** [d[k] = v]: overwrite in place, or append. *)
Fixpoint set d k v : list (K * V) :=
  match d with
  | [] => [(k, v)]
  | (k', v') :: d' => if decide (k' = k) then (k', v) :: d' else (k', v') :: set d' k v
  end.

(** [d.pop(k, None)]. *)
Fixpoint del d k : list (K * V) :=
  match d with
  | [] => []
  | (k', v') :: d' => if decide (k' = k) then d' else (k', v') :: del d' k
  end.

Definition keys d : list K := d.*1.
Definition values d : list V := d.*2.

(** [d.update(e)]. *)
Definition update d e : list (K * V) := foldl (fun acc '(k, v) => set acc k v) d e.

(** [d.setdefault(k, v)], for its effect. *)
Definition setdefault d k v : list (K * V) :=
  match get d k with
  | Some _ => d
  | None => set d k v
  end.

Lemma get_set_eq d k v : get (set d k v) k = Some v.
Proof.
  induction d as [|[k' v'] d IH]; simpl; [by rewrite decide_True|].
  destruct (decide (k' = k)) as [->|]; simpl; [by rewrite decide_True|].
  by rewrite decide_False.
Qed.

Lemma get_set_ne d k k' v : k <> k' -> get (set d k v) k' = get d k'.
Proof.
  intros Hne. induction d as [|[k1 v1] d IH]; simpl; [by rewrite decide_False|].
  destruct (decide (k1 = k)) as [->|]; simpl.
  - by rewrite !decide_False.
  - by destruct (decide (k1 = k')).
Qed.

Lemma get_set d k k' v : get (set d k v) k' = if decide (k = k') then Some v else get d k'.
Proof.
  destruct (decide (k = k')) as [->|]; [apply get_set_eq|by apply get_set_ne].
Qed.

Lemma get_Some_elem d k v : get d k = Some v -> (k, v) ∈ d.
Proof.
  induction d as [|[k' v'] d IH]; simpl; [done|].
  destruct (decide (k' = k)) as [->|]; rewrite elem_of_cons.
  - intros [= ->]. by left.
  - intros H. right. by apply IH.
Qed.

Lemma get_None d k : get d k = None <-> k ∉ keys d.
Proof.
  unfold keys. induction d as [|[k' v'] d IH]; simpl; [split; [|done]; intros; apply not_elem_of_nil|].
  rewrite not_elem_of_cons. destruct (decide (k' = k)) as [->|].
  - split; [done|]. by intros [? _].
  - rewrite IH. split; [|by intros [_ ?]]. intros; by split; [congruence|].
Qed.

Lemma elem_get d k v : NoDup (keys d) -> (k, v) ∈ d -> get d k = Some v.
Proof.
  unfold keys. induction d as [|[k' v'] d IH]; simpl; [by rewrite elem_of_nil|].
  rewrite NoDup_cons, elem_of_cons. intros [Hnin Hnd] [Heq|Hin].
  - injection Heq as -> ->. by rewrite decide_True.
  - rewrite decide_False; [by apply IH|]. intros ->.
    apply Hnin, list_elem_of_fmap. by exists (k, v).
Qed.

(** Keys after an assignment: unchanged, or one more at the end. *)
Lemma keys_set_in d k v : k ∈ keys d -> keys (set d k v) = keys d.
Proof.
  unfold keys. induction d as [|[k' v'] d IH]; simpl; [by intros ?%elem_of_nil|].
  destruct (decide (k' = k)) as [->|Hne]; simpl; [done|].
  intros [->|Hin]%elem_of_cons; [done|]. f_equal. by apply IH.
Qed.

Lemma keys_set_notin d k v : k ∉ keys d -> keys (set d k v) = keys d ++ [k].
Proof.
  unfold keys. induction d as [|[k' v'] d IH]; simpl; [done|].
  rewrite not_elem_of_cons. intros [Hne Hnin].
  rewrite decide_False by done. simpl. f_equal. by apply IH.
Qed.

Lemma NoDup_keys_set d k v : NoDup (keys d) -> NoDup (keys (set d k v)).
Proof.
  intros Hnd. destruct (decide (k ∈ keys d)) as [|Hnin].
  - by rewrite keys_set_in.
  - rewrite keys_set_notin by done. apply NoDup_app. split; [done|].
    split; [|by apply NoDup_singleton]. intros x Hx ->%list_elem_of_singleton. done.
Qed.

Lemma get_del_ne d k k' : k <> k' -> get (del d k) k' = get d k'.
Proof.
  intros Hne. induction d as [|[k1 v1] d IH]; simpl; [done|].
  destruct (decide (k1 = k)) as [->|]; simpl.
  - by rewrite decide_False.
  - by destruct (decide (k1 = k')).
Qed.

Lemma get_setdefault d k k' v :
  get (setdefault d k v) k' =
    match get d k' with
    | Some w => Some w
    | None => if decide (k = k') then Some v else None
    end.
Proof.
  unfold setdefault. destruct (get d k) eqn:E.
  - destruct (get d k') eqn:E'; [done|]. destruct (decide (k = k')) as [->|]; congruence.
  - rewrite get_set. destruct (decide (k = k')) as [->|]; [by rewrite E|]. by destruct (get d k').
Qed.

End dict.
End PyDict.
