(* ===== verification/Errors.v ===== *)
(** * Errors

    [app/core/errors.py]: the exceptions the program raises, and their
    rendering as RFC 7807 problem documents.  The two exceptions of the program
    that are not [AppError]s, and that their callers catch by class, have
    constructors of their own; the exceptions of libraries and of the language
    are one constructor, [PyError], carrying class name and message: the
    catch-all handler must not let either of them reach the client. *)
From S2P Require Import Prelude PyStr PyDict.

Set Warnings "-register-all".

(** The JSON values of bodies and token payloads (floats as in [Float64.v]). *)
Inductive json : Type :=
| JNull
| JBool (b : bool)
| JInt (n : Z)
| JFloat (v : Z)
| JStr (s : string)
| JList (l : list json)
| JObj (fields : list (string * json)).

(** The subclasses of [AppError], with [AppError] itself. *)
Inductive app_error : Type :=
| AppErrorBase
| NotFoundError
| ConflictError
| AuthenticationError
| PermissionDeniedError
| RateLimitedError
| ProviderUnavailableError.

#[global] Instance app_error_eq_dec : EqDecision app_error.
Proof. solve_decision. Defined.

(** One entry of [RequestValidationError.errors()]: the parts of [loc] already
    through [str()], with [None] for an absent [msg]. *)
Record validation_error : Type := {
  loc : list string;
  msg : option string;
}.

Inductive exn : Type :=
| AppError (kind : app_error) (detail : string) (extra : list (string * json))
| RequestValidationError (errors : list validation_error)
| HTTPException (status : Z) (detail : string)
| CircuitBreakerOpen (name : string)
| TokenError (message : string)
| PyError (cls : string) (message : string).

(** An [AppError] without [extra]. *)
Definition app_err (kind : app_error) (detail : string) : exn := AppError kind detail [].

Module Errors.

Definition status_code (e : app_error) : Z :=
  match e with
  | AppErrorBase => 400
  | NotFoundError => 404
  | ConflictError => 409
  | AuthenticationError => 401
  | PermissionDeniedError => 403
  | RateLimitedError => 429
  | ProviderUnavailableError => 503
  end.

Definition code (e : app_error) : string :=
  match e with
  | AppErrorBase => "bad_request"
  | NotFoundError => "not_found"
  | ConflictError => "conflict"
  | AuthenticationError => "unauthorized"
  | PermissionDeniedError => "forbidden"
  | RateLimitedError => "rate_limited"
  | ProviderUnavailableError => "provider_unavailable"
  end.

Definition title (e : app_error) : string :=
  match e with
  | AppErrorBase => "Bad Request"
  | NotFoundError => "Resource Not Found"
  | ConflictError => "Conflict"
  | AuthenticationError => "Authentication Failed"
  | PermissionDeniedError => "Permission Denied"
  | RateLimitedError => "Too Many Requests"
  | ProviderUnavailableError => "Upstream Provider Unavailable"
  end.

Record response : Type := {
  resp_status : Z;
  resp_media_type : string;
  resp_body : list (string * json);
}.

Definition PROBLEM_CONTENT_TYPE : string := "application/problem+json".

(** [trace_id] is the value of the [request_id_ctx] context variable. *)
Definition _problem (trace_id : option string) (status : Z) (code title detail : string)
    (extra : list (string * json)) : response :=
  let body := [
    ("type", JStr ("https://smarttravel.dev/errors/" +:+ code));
    ("title", JStr title);
    ("status", JInt status);
    ("code", JStr code);
    ("detail", JStr detail);
    ("trace_id", match trace_id with Some t => JStr t | None => JNull end)
  ] in
  {| resp_status := status;
     resp_media_type := PROBLEM_CONTENT_TYPE;
     resp_body := PyDict.update body extra |}.

(** [sep.join(parts)]. *)
Fixpoint join (sep : string) (parts : list string) : string :=
  match parts with
  | [] => ""
  | [p] => p
  | p :: ps => p +:+ sep +:+ join sep ps
  end.

Definition _clean_validation_errors (errors : list validation_error) : list json :=
  (fun err =>
     let parts := filter (fun part => part <> "body"%string) (loc err) in
     let field := join "." parts in
     JObj [("field", JStr (if decide (field = ""%string) then "body"%string else field));
           ("message", JStr (default "invalid value"%string (msg err)))]) <$> errors.

Definition _handle_app_error (trace_id : option string) (kind : app_error) (detail : string)
    (extra : list (string * json)) : response :=
  _problem trace_id (status_code kind) (code kind) (title kind) detail extra.

Definition _handle_validation (trace_id : option string) (errors : list validation_error)
  : response :=
  _problem trace_id 422 "validation_error" "Request Validation Failed"
    "One or more fields are invalid." [("errors", JList (_clean_validation_errors errors))].

Definition _handle_http (trace_id : option string) (status : Z) (detail : string) : response :=
  _problem trace_id status "http_error" "HTTP Error" detail [].

Definition _handle_unexpected (trace_id : option string) : response :=
  _problem trace_id 500 "internal_error" "Internal Server Error"
    "An unexpected error occurred. The incident has been logged." [].

(** [register_exception_handlers]: the handler an exception is given to, the
    nearest registered class of its ancestors. *)
Definition handle_exception (trace_id : option string) (e : exn) : response :=
  match e with
  | AppError kind detail extra => _handle_app_error trace_id kind detail extra
  | RequestValidationError errors => _handle_validation trace_id errors
  | HTTPException status detail => _handle_http trace_id status detail
  | CircuitBreakerOpen _ | TokenError _ | PyError _ _ => _handle_unexpected trace_id
  end.

(** A field of the body. *)
Definition field (r : response) (k : string) : option json := PyDict.get (resp_body r) k.

(** The fields every problem document has. *)
Definition problem_fields : list string :=
  ["type"; "title"; "status"; "code"; "detail"; "trace_id"]%string.

Lemma get_update_other (d e : list (string * json)) k :
  k ∉ PyDict.keys e -> PyDict.get (PyDict.update d e) k = PyDict.get d k.
Proof.
  unfold PyDict.update, PyDict.keys. revert d. induction e as [|[k' v] e IH]; intros d; simpl; [done|].
  rewrite not_elem_of_cons. intros [Hne Hnin]. rewrite IH by done.
  by apply PyDict.get_set_ne.
Qed.

Lemma problem_field_extra trace_id status c t detail extra k :
  k ∉ PyDict.keys extra ->
  field (_problem trace_id status c t detail extra) k
  = field (_problem trace_id status c t detail []) k.
Proof. intros Hk. unfold field, _problem. simpl resp_body. by rewrite get_update_other. Qed.

End Errors.
