(* ===== verification/ErrorsSpec.v ===== *)
(** * Problem documents

    What a client can rely on when it parses an error: the shape of the body,
    whatever the exception was. *)
From S2P Require Import Prelude PyStr PyDict Errors.

Module ErrorsSpec.
Import Errors.

(** ** Types of JSON values *)

Inductive jtype : Type :=
| TStr
| TInt
| TNullable (t : jtype)
| TList (t : jtype)
| TObj (fields : list (string * jtype)).

(** [j] has type [t]; an object may have more fields than its type names. *)
Fixpoint typed (t : jtype) (j : json) : bool :=
  match t with
  | TStr => match j with JStr _ => true | _ => false end
  | TInt => match j with JInt _ => true | _ => false end
  | TNullable t => match j with JNull => true | _ => typed t j end
  | TList t => match j with JList l => forallb (typed t) l | _ => false end
  | TObj fields =>
      match j with
      | JObj o => forallb (fun kt => from_option (typed kt.2) false (PyDict.get o kt.1)) fields
      | _ => false
      end
  end.

(** The type of a problem document, and of the entries of [errors]. *)
Definition problem_type : jtype :=
  TObj [("type", TStr); ("title", TStr); ("status", TInt); ("code", TStr); ("detail", TStr);
        ("trace_id", TNullable TStr)]%string.

Definition field_error_type : jtype := TObj [("field", TStr); ("message", TStr)]%string.

Definition is_problem (r : response) : Prop :=
  resp_media_type r = PROBLEM_CONTENT_TYPE
  /\ NoDup (PyDict.keys (resp_body r))
  /\ typed problem_type (JObj (resp_body r)) = true
  /\ field r "status" = Some (JInt (resp_status r))
  /\ exists c, field r "code" = Some (JStr c)
       /\ field r "type" = Some (JStr ("https://smarttravel.dev/errors/" +:+ c)).

(** The exception brings no field of its own under a name of the document's. *)
Definition keeps_fields (e : exn) : Prop :=
  match e with
  | AppError _ _ extra => forall k, k ∈ problem_fields -> k ∉ PyDict.keys extra
  | _ => True
  end.

(** The codes of the handlers that are not classes of [AppError]. *)
Definition other_codes : list string := ["validation_error"; "http_error"; "internal_error"]%string.

(** ** Lemmas *)

Lemma NoDup_update (d e : list (string * json)) :
  NoDup (PyDict.keys d) -> NoDup (PyDict.keys (PyDict.update d e)).
Proof.
  unfold PyDict.update. revert d. induction e as [|[k v] e IH]; intros d Hd; simpl; [done|].
  by apply IH, PyDict.NoDup_keys_set.
Qed.

Lemma get_update_in (d e : list (string * json)) k v :
  NoDup (PyDict.keys e) -> (k, v) ∈ e -> PyDict.get (PyDict.update d e) k = Some v.
Proof.
  unfold PyDict.keys. revert d. induction e as [|[k' v'] e IH]; intros d; [by rewrite elem_of_nil|].
  rewrite fmap_cons, NoDup_cons, elem_of_cons. intros [Hnin Hnd] [[= -> ->]|Hin].
  - change (PyDict.get (PyDict.update (PyDict.set d k' v') e) k' = Some v').
    rewrite Errors.get_update_other by done. apply PyDict.get_set_eq.
  - by apply IH.
Qed.

(** The fields of [_problem], untouched by what is added. *)
Lemma problem_is_problem trace_id status c t detail extra :
  (forall k, k ∈ problem_fields -> k ∉ PyDict.keys extra) ->
  is_problem (_problem trace_id status c t detail extra).
Proof.
  intros Hx.
  assert (forall k, k ∈ problem_fields ->
    field (_problem trace_id status c t detail extra) k
    = field (_problem trace_id status c t detail []) k) as Hf
    by (intros k Hk; by apply problem_field_extra, Hx).
  split; [done|]. split; [|split; [|split]].
  - apply NoDup_update. apply (bool_decide_unpack _). by vm_compute.
  - unfold typed, problem_type. cbn [forallb fst snd].
    change (PyDict.get (resp_body ?r) ?k) with (field r k).
    rewrite !Hf by (unfold problem_fields; set_solver). by destruct trace_id.
  - by rewrite Hf by (unfold problem_fields; set_solver).
  - exists c. rewrite !Hf by (unfold problem_fields; set_solver). done.
Qed.

(** Every entry names a field. *)
Lemma clean_entry (err : validation_error) :
  exists f m, _clean_validation_errors [err] = [JObj [("field", JStr f); ("message", JStr m)]%string]
    /\ f <> ""%string.
Proof.
  unfold _clean_validation_errors. simpl. eexists _, _. split; [reflexivity|].
  by case_decide.
Qed.

Lemma clean_typed errors :
  typed (TList field_error_type) (JList (_clean_validation_errors errors)) = true.
Proof.
  unfold typed. apply forallb_forall. intros j Hj%list_elem_of_In.
  unfold _clean_validation_errors in Hj. by apply list_elem_of_fmap in Hj as (err & -> & _).
Qed.

Lemma problem_code_inj k k' : code k = code k' -> k = k'.
Proof. by destruct k, k'. Qed.

Lemma code_not_other k : code k ∉ other_codes.
Proof. apply (bool_decide_unpack (_ ∉ _)). by destruct k. Qed.

(** C14. Whatever is raised reaches the client as a well-typed problem document
    whose status is the response's: an error of the program under the status
    and the code of its class, which no other class and no other handler uses,
    with everything it carries; a rejected request as 422 with one entry per
    error, each naming a field; and every exception that is not meant for
    clients as one and the same 500, whatever its class and message. *)
Theorem problem_document_wf trace_id e :
  keeps_fields e ->
  let r := handle_exception trace_id e in
  is_problem r
  /\ match e with
     | AppError kind detail extra =>
         resp_status r = status_code kind
         /\ field r "code" = Some (JStr (code kind)) /\ field r "detail" = Some (JStr detail)
         /\ code kind ∉ other_codes
         /\ (forall kind', code kind' = code kind -> kind' = kind)
         /\ (NoDup (PyDict.keys extra) -> forall k v, (k, v) ∈ extra -> field r k = Some v)
     | RequestValidationError errors =>
         resp_status r = 422
         /\ exists l, field r "errors" = Some (JList l) /\ length l = length errors
              /\ typed (TList field_error_type) (JList l) = true
              /\ forall j, j ∈ l -> exists f m,
                   j = JObj [("field", JStr f); ("message", JStr m)]%string /\ f <> ""%string
     | HTTPException status detail =>
         resp_status r = status /\ field r "detail" = Some (JStr detail)
     | CircuitBreakerOpen _ | TokenError _ | PyError _ _ =>
         resp_status r = 500
         /\ forall e', match e' with
                       | CircuitBreakerOpen _ | TokenError _ | PyError _ _ =>
                           handle_exception trace_id e' = r
                       | _ => True
                       end
     end.
Proof.
  intros Hk. cbv zeta. destruct e as [kind detail extra|errors|status detail|name|m|cls m]; simpl.
  - split; [by apply problem_is_problem|]. split; [done|].
    unfold _handle_app_error. split; [rewrite problem_field_extra by (apply Hk; unfold problem_fields; set_solver); done|].
    split; [rewrite problem_field_extra by (apply Hk; unfold problem_fields; set_solver); done|].
    split; [apply code_not_other|].
    split; [intros; by apply problem_code_inj|]. intros Hnd k v Hin. by apply get_update_in.
  - split.
    { apply problem_is_problem. intros k Hin ->%list_elem_of_singleton.
      revert Hin. by apply (bool_decide_unpack (_ ∉ _)). }
    split; [done|]. exists (_clean_validation_errors errors). split; [done|].
    split; [apply length_fmap|]. split; [apply clean_typed|].
    intros j (err & -> & _)%list_elem_of_fmap.
    destruct (clean_entry err) as (f & m & [= <- <-] & Hf). by eexists _, _.
  - split; [|done]. apply problem_is_problem. intros k _. apply not_elem_of_nil.
  - split; [|split; [done|by intros []]]. apply problem_is_problem. intros k _. apply not_elem_of_nil.
  - split; [|split; [done|by intros []]]. apply problem_is_problem. intros k _. apply not_elem_of_nil.
  - split; [|split; [done|by intros []]]. apply problem_is_problem. intros k _. apply not_elem_of_nil.
Qed.

(** The only [extra] of the program, [enforce_rate_limit]'s, on the wire. *)
Lemma problem_document_wf_witness :
  let r := handle_exception (Some "abc"%string)
             (AppError RateLimitedError "rate limit exceeded, slow down"
                [("limit_per_minute"%string, JInt 60)]) in
  is_problem r /\ resp_status r = 429 /\ field r "limit_per_minute" = Some (JInt 60).
Proof.
  destruct (problem_document_wf (Some "abc"%string)
    (AppError RateLimitedError "rate limit exceeded, slow down" [("limit_per_minute"%string, JInt 60)]))
    as (Hp & Hs & _ & _ & _ & _ & Hx).
  - intros k Hin ->%list_elem_of_singleton. revert Hin. by apply (bool_decide_unpack (_ ∉ _)).
  - split; [exact Hp|]. split; [exact Hs|]. apply Hx; [apply NoDup_singleton|by left].
Defined.

End ErrorsSpec.
