(* ===== verification/PySorted.v ===== *)
(** * [sorted(items, key=...)]

    Python's sort is stable, so its result is determined by the keys alone:
    ascending, and the items of one key in their original order.  It is
    computed here by insertion; [stable_sort_unique] shows that any stable
    sort gives the same list, so nothing depends on that choice. *)
From S2P Require Import Prelude.

Module PySorted.

Section sorted.
Context {A : Type} (key : A -> Z).
Implicit Types (x y : A) (l : list A).

Fixpoint insert_by x l : list A :=
  match l with
  | [] => [x]
  | y :: l' => if key x <=? key y then x :: l else y :: insert_by x l'
  end.

Definition sorted_by l : list A := foldr insert_by [] l.

(** The order of the result. *)
Definition key_le x y : Prop := key x <= key y.

(** Contract of the sort: ascending, and per key the same sequence. *)
Definition stable_sort_of l l' : Prop :=
  StronglySorted key_le l' /\
  forall k, filter (fun x => key x = k) l' = filter (fun x => key x = k) l.

Lemma insert_by_perm x l : insert_by x l ≡ₚ x :: l.
Proof.
  induction l as [|y l IH]; simpl; [done|]. destruct (_ <=? _); [done|].
  rewrite IH. apply Permutation_swap.
Qed.

Lemma sorted_by_perm l : sorted_by l ≡ₚ l.
Proof. induction l as [|x l IH]; simpl; [done|]. by rewrite insert_by_perm, IH. Qed.

Lemma insert_by_sorted x l : StronglySorted key_le l -> StronglySorted key_le (insert_by x l).
Proof.
  induction 1 as [|y l Hs IH Hall]; simpl; [by repeat constructor|].
  destruct (Z.leb_spec (key x) (key y)) as [Hle|Hlt].
  - constructor; [by constructor|]. constructor; [done|].
    eapply Forall_impl; [exact Hall|]. unfold key_le. intros z Hz. lia.
  - constructor; [done|]. rewrite insert_by_perm. constructor; [|done].
    unfold key_le. lia.
Qed.

Lemma sorted_by_sorted l : StronglySorted key_le (sorted_by l).
Proof. induction l; simpl; [constructor|by apply insert_by_sorted]. Qed.

Lemma insert_by_filter x l k :
  StronglySorted key_le l ->
  filter (fun z => key z = k) (insert_by x l) = filter (fun z => key z = k) (x :: l).
Proof.
  induction 1 as [|y l Hs IH Hall]; simpl; [done|].
  destruct (Z.leb_spec (key x) (key y)) as [Hle|Hlt]; [done|].
  rewrite !filter_cons, IH, filter_cons.
  destruct (decide (key y = k)), (decide (key x = k)); [lia|done..].
Qed.

Lemma sorted_by_stable l k :
  filter (fun z => key z = k) (sorted_by l) = filter (fun z => key z = k) l.
Proof.
  induction l as [|x l IH]; simpl; [done|].
  rewrite insert_by_filter by apply sorted_by_sorted.
  by rewrite !filter_cons, IH.
Qed.

Lemma sorted_by_spec l : stable_sort_of l (sorted_by l).
Proof. split; [apply sorted_by_sorted|intros; apply sorted_by_stable]. Qed.

Lemma sorted_head_le x l y : StronglySorted key_le (x :: l) -> y ∈ x :: l -> key x <= key y.
Proof.
  intros [_ Hall]%StronglySorted_inv [->|Hy]%elem_of_cons; [lia|].
  rewrite Forall_forall in Hall. by apply Hall.
Qed.

Lemma stable_sort_unique l1 l2 :
  StronglySorted key_le l1 -> StronglySorted key_le l2 ->
  (forall k, filter (fun x => key x = k) l1 = filter (fun x => key x = k) l2) ->
  l1 = l2.
Proof.
  revert l2. induction l1 as [|a l1 IH]; intros l2 Hs1 Hs2 Hf.
  - destruct l2 as [|b l2]; [done|]. specialize (Hf (key b)).
    by rewrite filter_cons_True in Hf.
  - destruct l2 as [|b l2].
    { specialize (Hf (key a)). by rewrite filter_cons_True in Hf. }
    assert (key b <= key a) as Hba.
    { apply (sorted_head_le b l2); [done|].
      apply (list_elem_of_filter (fun x => key x = key a)).
      rewrite <- Hf, filter_cons_True by done. by left. }
    assert (key a <= key b) as Hab.
    { apply (sorted_head_le a l1); [done|].
      apply (list_elem_of_filter (fun x => key x = key b)).
      rewrite Hf, filter_cons_True by done. by left. }
    assert (a = b) as ->.
    { specialize (Hf (key a)). rewrite !filter_cons_True in Hf by lia. by injection Hf. }
    f_equal. apply StronglySorted_inv in Hs1 as [Hs1 _], Hs2 as [Hs2 _].
    apply IH; [done..|]. intros k. specialize (Hf k).
    rewrite !filter_cons in Hf. destruct (decide _); [by injection Hf|done].
Qed.

Lemma length_sorted_by l : length (sorted_by l) = length l.
Proof. by rewrite sorted_by_perm. Qed.

Lemma elem_of_sorted_by x l : x ∈ sorted_by l <-> x ∈ l.
Proof. by rewrite sorted_by_perm. Qed.

End sorted.

(** Sorting looks only at the keys. *)
Lemma insert_by_ext {A} (key1 key2 : A -> Z) x l :
  key1 x = key2 x -> (forall y, y ∈ l -> key1 y = key2 y) ->
  insert_by key1 x l = insert_by key2 x l.
Proof.
  intros Hx Hl. induction l as [|y l IH]; simpl; [done|].
  rewrite Hx, (Hl y) by by left. destruct (_ <=? _); [done|].
  rewrite IH; [done|]. intros z Hz. apply Hl. by right.
Qed.

Lemma sorted_by_ext {A} (key1 key2 : A -> Z) l :
  (forall x, x ∈ l -> key1 x = key2 x) -> sorted_by key1 l = sorted_by key2 l.
Proof.
  induction l as [|x l IH]; intros Hk; simpl; [done|].
  rewrite IH by (intros; apply Hk; by right).
  apply insert_by_ext; [apply Hk; by left|].
  intros y Hy. apply Hk. right. by apply elem_of_sorted_by in Hy.
Qed.

End PySorted.
