(* ===== verification/Domain.v ===== *)
(** * Domain

    [app/domain]: the money value object, the normalized offers every provider
    adapter produces, and the queries the provider ports take; with the part
    of [datetime] they use.  The pydantic models are records; their field
    constraints are boolean validators, and building one runs the validator. *)
From S2P Require Import Prelude PyStr PyDict Errors Float64.
Import PyStr.

Module Calendar.

(** [datetime.date], in the proleptic Gregorian calendar. *)
Record date : Type := { year : Z; month : Z; day : Z }.

#[global] Instance date_eq_dec : EqDecision date.
Proof. solve_decision. Defined.

Definition is_leap (y : Z) : bool :=
  (y mod 4 =? 0) && (negb (y mod 100 =? 0) || (y mod 400 =? 0)).

Definition days_in_month (y m : Z) : Z :=
  if m =? 2 then (if is_leap y then 29 else 28)
  else if (m =? 4) || (m =? 6) || (m =? 9) || (m =? 11) then 30 else 31.

(** What the [date] constructor accepts. *)
Definition valid_date (d : date) : bool :=
  (1 <=? year d) && (year d <=? 9999) && (1 <=? month d) && (month d <=? 12)
  && (1 <=? day d) && (day d <=? days_in_month (year d) (month d)).

Definition days_before_year (y : Z) : Z :=
  (y - 1) * 365 + (y - 1) / 4 - (y - 1) / 100 + (y - 1) / 400.

Fixpoint days_before_month_go (y : Z) (m : nat) : Z :=
  match m with
  | O => 0
  | S m' => days_before_month_go y m' + days_in_month y (Z.of_nat (S m'))
  end.

Definition days_before_month (y m : Z) : Z := days_before_month_go y (Z.to_nat (m - 1)).

(** [date.toordinal]: day 1 is 0001-01-01. *)
Definition toordinal (d : date) : Z :=
  days_before_year (year d) + days_before_month (year d) (month d) + day d.

(** [(b - a).days]. *)
Definition days_between (a b : date) : Z := toordinal b - toordinal a.

(** The order of dates: the order of (year, month, day). *)
Definition date_leb (a b : date) : bool :=
  (year a <? year b)
  || ((year a =? year b) && ((month a <? month b)
      || ((month a =? month b) && (day a <=? day b)))).

(** [f"{n:0{w}d}"] for [0 <= n]. *)
Definition zfill (w : nat) (n : Z) : list ascii :=
  let ds := digits_of n in replicate (w - length ds) "0"%char ++ ds.

Definition date_isoformat (d : date) : string :=
  of_chars (zfill 4 (year d) ++ ["-"%char] ++ zfill 2 (month d) ++ ["-"%char] ++ zfill 2 (day d)).

(** [datetime.datetime]: a date, the microseconds since its midnight and, for
    an aware value, the UTC offset in seconds. *)
Record datetime : Type := {
  dt_date : date;
  dt_us : Z;
  dt_offset : option Z;
}.

#[global] Instance datetime_eq_dec : EqDecision datetime.
Proof. solve_decision. Defined.

Definition us_per_day : Z := 86400 * 1000000.

(** Microseconds on the wall clock since the start of the calendar. *)
Definition wall_us (t : datetime) : Z := toordinal (dt_date t) * us_per_day + dt_us t.

(** What aware values are compared by. *)
Definition instant (t : datetime) : Z :=
  wall_us t - default 0 (dt_offset t) * 1000000.

Definition is_aware (t : datetime) : bool :=
  match dt_offset t with Some _ => true | None => false end.

Definition time_chars (us : Z) : list ascii :=
  let s := us / 1000000 in
  zfill 2 (s / 3600) ++ [":"%char] ++ zfill 2 (s / 60 mod 60) ++ [":"%char] ++ zfill 2 (s mod 60)
  ++ (if us mod 1000000 =? 0 then [] else "."%char :: zfill 6 (us mod 1000000)).

Definition offset_chars (off : Z) : list ascii :=
  let a := Z.abs off in
  (if off <? 0 then "-"%char else "+"%char)
  :: zfill 2 (a / 3600) ++ [":"%char] ++ zfill 2 (a / 60 mod 60)
  ++ (if a mod 60 =? 0 then [] else ":"%char :: zfill 2 (a mod 60)).

(** [datetime.isoformat()]. *)
Definition isoformat (t : datetime) : string :=
  of_chars (chars (date_isoformat (dt_date t)) ++ ["T"%char] ++ time_chars (dt_us t)
            ++ match dt_offset t with None => [] | Some off => offset_chars off end).

(** The value of two decimal digits, or of four, at the head of a text. *)
Fixpoint take_digits (n : nat) (acc : Z) (l : list ascii) : option (Z * list ascii) :=
  match n with
  | O => Some (acc, l)
  | S n' =>
      match l with
      | c :: l' => if is_digit_char c then take_digits n' (acc * 10 + digit_value c) l' else None
      | [] => None
      end
  end.

End Calendar.

Module Domain.
Import Calendar.

Definition value_error (msg : string) : exn := PyError "ValueError" msg.
Definition validation_failed (model : string) : exn := PyError "ValidationError" model.

(** ** Money *)

Record Money : Type := { amount_minor : Z; currency : string }.

#[global] Instance money_eq_dec : EqDecision Money.
Proof. solve_decision. Defined.

(** [Money._upper_currency]: [None] is the [ValueError]. *)
Definition _upper_currency (value : string) : option string :=
  if isalpha value then Some (upper value) else None.

(** [Money(amount_minor=..., currency=...)]: the field constraints, then the
    validator. *)
Definition mk_money (amount : Z) (cur : string) : res exn Money :=
  if (0 <=? amount) && (len cur =? 3) then
    match _upper_currency cur with
    | Some c => Ok {| amount_minor := amount; currency := c |}
    | None => Err (validation_failed "Money")
    end
  else Err (validation_failed "Money").

(** What every [Money] of the program satisfies. *)
Definition wf_money (m : Money) : bool :=
  (0 <=? amount_minor m) && (len (currency m) =? 3) && isalpha (currency m)
  && bool_decide (upper (currency m) = currency m).

(** [Money.as_decimal]. *)
Definition as_decimal (m : Money) : Z := F64.truediv (amount_minor m) 100.

(** [f"{x:.2f}"] of a non-negative float: two decimals of its exact value. *)
Definition fmt2 (x : Z) : string :=
  let n := F64.rne (x * 100) F64.one in
  str_of_int (n / 100) +:+ "." +:+ of_chars (zfill 2 (n mod 100)).

(** [Money.__str__]. *)
Definition str_money (m : Money) : string := fmt2 (as_decimal m) +:+ " " +:+ currency m.

(** An amount that has gone through a float is printed exactly, below
    [2^52] minor units. *)
Lemma fmt2_exact n :
  0 <= n < 2 ^ 52 ->
  fmt2 (F64.truediv n 100) = str_of_int (n / 100) +:+ "." +:+ of_chars (zfill 2 (n mod 100)).
Proof. intros Hn. unfold fmt2. by rewrite F64.hundredths_exact. Qed.

(** ** Offers *)

Record NormalizedFlight : Type := {
  f_id : string;
  f_provider : string;
  f_airline : string;
  f_origin : string;
  f_destination : string;
  f_departure_time : datetime;
  f_arrival_time : datetime;
  f_duration_minutes : Z;
  f_stops : Z;
  f_cabin_class : string;
  f_price : Money;
}.

#[global] Instance flight_eq_dec : EqDecision NormalizedFlight.
Proof. solve_decision. Defined.

Definition is_direct (f : NormalizedFlight) : bool := f_stops f =? 0.

(** The [Field] constraints of [NormalizedFlight], its price included. *)
Definition valid_flight (f : NormalizedFlight) : bool :=
  (len (f_origin f) =? 3) && (len (f_destination f) =? 3)
  && (0 <? f_duration_minutes f) && (0 <=? f_stops f) && wf_money (f_price f).

Record NormalizedHotel : Type := {
  h_id : string;
  h_provider : string;
  h_name : string;
  h_city : string;
  h_rating : Z;
  h_reviews_count : Z;
  h_price_per_night : Money;
  h_amenities : list string;
}.

#[global] Instance hotel_eq_dec : EqDecision NormalizedHotel.
Proof. solve_decision. Defined.

(** The [Field] constraints of [NormalizedHotel]; the rating is a float. *)
Definition valid_hotel (h : NormalizedHotel) : bool :=
  (0 <=? h_rating h) && (h_rating h <=? 5 * F64.one) && (0 <=? h_reviews_count h)
  && wf_money (h_price_per_night h).

Record WeatherForecast : Type := {
  w_latitude : Z;
  w_longitude : Z;
  w_date : string;
  w_temperature_c : Z;
  w_precipitation_probability : Z;
  w_wind_kph : Z;
  w_humidity : Z;
}.

Definition valid_weather (w : WeatherForecast) : bool :=
  (0 <=? w_precipitation_probability w) && (w_precipitation_probability w <=? 100)
  && (0 <=? w_wind_kph w) && (0 <=? w_humidity w) && (w_humidity w <=? 100).

Record CurrencyConversion : Type := {
  c_base : string;
  c_quote : string;
  c_rate : Z;
  c_amount : Z;
  c_converted : Z;
  c_as_of : string;
}.

Definition valid_conversion (c : CurrencyConversion) : bool := 0 <? c_rate c.

(** ** Queries *)

Record FlightSearchQuery : Type := {
  fq_origin : string;
  fq_destination : string;
  fq_departure_date : date;
  fq_adults : Z;
  fq_cabin_class : string;
}.

Record HotelSearchQuery : Type := {
  hq_city : string;
  hq_check_in : date;
  hq_check_out : date;
  hq_guests : Z;
}.

Definition nights (q : HotelSearchQuery) : Z :=
  Z.max 1 (days_between (hq_check_in q) (hq_check_out q)).

(** ** Ports

    A provider as the services see it: a name, and a search that returns
    offers or raises. *)
Record Provider (Q T : Type) : Type := {
  p_name : string;
  p_search : Q -> res exn (list T);
}.
Arguments p_name {Q T} _.
Arguments p_search {Q T} _ _.

Definition FlightProvider : Type := Provider FlightSearchQuery NormalizedFlight.
Definition HotelProvider : Type := Provider HotelSearchQuery NormalizedHotel.

Lemma isalpha_upper s : isalpha s = true -> isalpha (upper s) = true.
Proof.
  unfold isalpha. rewrite len_upper, !andb_true_iff. intros [Hl Ha]. split; [done|].
  unfold upper. rewrite chars_of_chars. rewrite forallb_forall in *.
  intros c Hc. apply in_map_iff in Hc as (c' & <- & Hc').
  unfold is_alpha_char. rewrite upper_char_alpha; [done|]. by apply Ha.
Qed.

Lemma mk_money_wf amount cur m : mk_money amount cur = Ok m -> wf_money m = true.
Proof.
  unfold mk_money, _upper_currency. destruct (_ && _) eqn:E; [|done].
  apply andb_true_iff in E as [Ha Hl]. destruct (isalpha cur) eqn:Hal; [|done].
  intros [= <-]. unfold wf_money. simpl.
  rewrite Ha, len_upper, Hl, isalpha_upper, bool_decide_eq_true_2 by (done || apply upper_idemp).
  done.
Qed.

End Domain.
