(* ===== verification/AggCore.v ===== *)
(** * The aggregation pipeline

    The steps the flight and the hotel service share: the fan-out over the
    providers, the merge of their answers, the de-duplication by key, and the
    cursor over the ordered list.  Each is stated for offers of any type with
    a key and a price, and the two services instantiate it. *)
From S2P Require Import Prelude PyStr PyDict Errors Pagination.
Import Pagination.

(** [SearchMeta], shared by both services. *)
Record SearchMeta : Type := {
  degraded : bool;
  providers_ok : Z;
  providers_failed : Z;
  total : Z;
}.

Module AggCore.

(** ** Fan-out

    [asyncio.gather(..., return_exceptions=True)] runs the searches
    concurrently; each completion stores its outcome, a value or the exception
    raised, at the index of its provider.  [gather] is what it returns;
    [gather_run] computes it from an order of completion. *)
Section fan_out.
Context {T : Type}.

Fixpoint gather_run (slots : list (option (res exn (list T))))
    (outcomes : list (res exn (list T))) (order : list nat)
  : list (option (res exn (list T))) :=
  match order with
  | [] => slots
  | i :: order' => gather_run (<[i := outcomes !! i]> slots) outcomes order'
  end.

Definition gather (outcomes : list (res exn (list T))) (order : list nat)
  : option (list (res exn (list T))) :=
  mapM id (gather_run (replicate (length outcomes) None) outcomes order).

(** The loop over the gathered results: offers, answers, failures. *)
Fixpoint collect (items : list T) (ok failed : Z) (results : list (res exn (list T)))
  : list T * Z * Z :=
  match results with
  | [] => (items, ok, failed)
  | Err _ :: rest => collect items ok (failed + 1) rest
  | Ok l :: rest => collect (items ++ l) (ok + 1) failed rest
  end.

(** Contract: the offers of the providers that answered, in their order. *)
Definition answers (results : list (res exn (list T))) : list T :=
  results ≫= (fun r => match r with Ok l => l | Err _ => [] end).

Definition count_ok (results : list (res exn (list T))) : Z :=
  Z.of_nat (length (filter (fun r => is_ok r = true) results)).

Lemma collect_spec items ok failed results :
  collect items ok failed results
  = (items ++ answers results, ok + count_ok results,
     failed + (Z.of_nat (length results) - count_ok results)).
Proof.
  revert items ok failed. unfold answers, count_ok.
  induction results as [|[l|e] rest IH]; intros items ok failed.
  - simpl. rewrite app_nil_r, !pair_equal_spec. split_and!; [done|lia..].
  - cbn [collect]. rewrite IH, bind_cons, filter_cons_True by done. rewrite app_assoc.
    simpl length. rewrite !pair_equal_spec. split_and!; [done|lia..].
  - cbn [collect]. rewrite IH, bind_cons, filter_cons_False by done.
    simpl. rewrite !pair_equal_spec. split_and!; [done|lia..].
Qed.

(** Failed providers contribute nothing: the offers are those of a search over
    the others. *)
Lemma answers_filter results :
  answers (filter (fun r => is_ok r = true) results) = answers results.
Proof.
  unfold answers. induction results as [|[l|e] rest IH]; [done|..].
  - rewrite filter_cons_True by done. by rewrite !bind_cons, IH.
  - rewrite filter_cons_False by done. by rewrite bind_cons, IH.
Qed.

Lemma elem_answers x results : x ∈ answers results <-> exists l, Ok l ∈ results /\ x ∈ l.
Proof.
  unfold answers. rewrite list_elem_of_bind. split.
  - intros ([l|e] & Hx & Hin); [by exists l|by apply elem_of_nil in Hx].
  - intros (l & Hl & Hx). by exists (Ok l).
Qed.

Lemma count_ok_bounds results : 0 <= count_ok results <= Z.of_nat (length results).
Proof.
  unfold count_ok. pose proof (length_filter (fun r => is_ok r = true) results). lia.
Qed.

(** Some provider failed exactly when they did not all answer. *)
Lemma count_ok_lt results :
  count_ok results < Z.of_nat (length results) <-> exists e, Err e ∈ results.
Proof.
  unfold count_ok. induction results as [|[l|e] rest IH].
  - simpl. split; [lia|]. by intros (e & ?%elem_of_nil).
  - rewrite filter_cons_True by done. simpl length. split.
    + intros H. destruct (proj1 IH ltac:(lia)) as [e He]. exists e. by right.
    + intros (e & [?|He]%elem_of_cons); [done|].
      assert (exists e, Err e ∈ rest) as H%IH by by exists e. lia.
  - rewrite filter_cons_False by done. simpl length.
    pose proof (length_filter (fun r => is_ok r = true) rest). split; [|lia].
    intros _. exists e. by left.
Qed.

Lemma gather_run_lookup slots outcomes order i :
  length slots = length outcomes ->
  (i < length outcomes)%nat ->
  gather_run slots outcomes order !! i
  = if decide (i ∈ order) then Some (outcomes !! i) else slots !! i.
Proof.
  revert slots. induction order as [|j order IH]; intros slots Hl Hi; cbn [gather_run].
  - destruct (decide (i ∈ [])) as [H|]; [by apply elem_of_nil in H|done].
  - rewrite IH by (rewrite ?length_insert; done).
    destruct (decide (i ∈ order)) as [Hin|Hnin].
    + destruct (decide (i ∈ j :: order)) as [|H]; [done|]. destruct H. by right.
    + destruct (decide (i = j)) as [->|Hne].
      * rewrite decide_True by by left. apply list_lookup_insert_eq. lia.
      * rewrite list_lookup_insert_ne by done.
        rewrite decide_False; [done|]. by intros [?|?]%elem_of_cons.
Qed.

Lemma length_gather_run slots outcomes order :
  length (gather_run slots outcomes order) = length slots.
Proof.
  revert slots. induction order as [|j order IH]; intros slots; cbn [gather_run]; [done|].
  by rewrite IH, length_insert.
Qed.

(** The answers come in provider order, whatever the order of completion. *)
Lemma gather_any_order outcomes order :
  order ≡ₚ seq 0 (length outcomes) -> gather outcomes order = Some outcomes.
Proof.
  intros Hp. unfold gather. apply mapM_Some_2, Forall2_lookup. intros i.
  destruct (decide (i < length outcomes)%nat) as [Hi|Hi].
  - rewrite gather_run_lookup by (rewrite ?length_replicate; done).
    rewrite decide_True by (rewrite Hp; apply elem_of_seq; lia).
    destruct (lookup_lt_is_Some_2 outcomes i Hi) as [r ->]. by constructor.
  - rewrite !lookup_ge_None_2; [constructor|lia|].
    rewrite length_gather_run, length_replicate. lia.
Qed.

End fan_out.

(** ** De-duplication *)
Section dedupe.
Context {T K : Type} `{EqDecision K} (key : T -> K) (price : T -> Z).
Implicit Types (x y : T) (l : list T) (best : list (K * T)).

(** One turn of the loop: keep the cheapest offer of each key. *)
Definition dedupe_step best x : list (K * T) :=
  match PyDict.get best (key x) with
  | None => PyDict.set best (key x) x
  | Some existing =>
      if price x <? price existing then PyDict.set best (key x) x else best
  end.

Definition dedupe l : list T := PyDict.values (foldl dedupe_step [] l).

(** [x] is the offer to keep among [l]: strictly cheaper than the offers of
    its key before it, and no dearer than those after it. *)
Definition first_cheapest l x : Prop :=
  exists l1 l2, l = l1 ++ x :: l2
    /\ (forall y, y ∈ l1 -> key y = key x -> price x < price y)
    /\ (forall y, y ∈ l2 -> key y = key x -> price x <= price y).

(** What the dictionary holds after the offers [l]. *)
Definition best_inv l best : Prop :=
  NoDup (PyDict.keys best)
  /\ (forall k x, PyDict.get best k = Some x -> key x = k /\ first_cheapest l x)
  /\ (forall y, y ∈ l -> key y ∈ PyDict.keys best).

Lemma first_cheapest_snoc_same l x z :
  first_cheapest l x -> (key z = key x -> price x <= price z) -> first_cheapest (l ++ [z]) x.
Proof.
  intros (l1 & l2 & -> & H1 & H2) Hz. exists l1, (l2 ++ [z]).
  rewrite <- app_assoc. split; [done|]. split; [done|].
  intros y [Hy| ->%list_elem_of_singleton]%elem_of_app; auto.
Qed.

Lemma first_cheapest_snoc_new l z :
  (forall y, y ∈ l -> key y = key z -> price z < price y) -> first_cheapest (l ++ [z]) z.
Proof.
  intros H. exists l, []. split; [done|]. split; [done|]. by intros y ?%elem_of_nil.
Qed.

Lemma first_cheapest_le l x y :
  first_cheapest l x -> y ∈ l -> key y = key x -> price x <= price y.
Proof.
  intros (l1 & l2 & -> & H1 & H2) [Hy|[->|Hy]%elem_of_cons]%elem_of_app Hk; [|lia|auto].
  specialize (H1 y Hy Hk). lia.
Qed.

Lemma dedupe_step_inv l best z :
  best_inv l best -> best_inv (l ++ [z]) (dedupe_step best z).
Proof.
  intros (Hnd & Hget & Hkeys). unfold dedupe_step.
  assert (forall best', best' = PyDict.set best (key z) z ->
    (forall y, y ∈ l -> key y = key z -> price z < price y) ->
    best_inv (l ++ [z]) best') as Hset.
  { intros best' -> Hlt. split; [by apply PyDict.NoDup_keys_set|]. split.
    - intros k x. rewrite PyDict.get_set. case_decide as Hk.
      + intros [= <-]. split; [done|]. by apply first_cheapest_snoc_new.
      + intros Hx. destruct (Hget k x Hx) as [Hkx Hc]. split; [done|].
        apply first_cheapest_snoc_same; [done|]. congruence.
    - intros y Hy. destruct (decide (key z ∈ PyDict.keys best)) as [Hin|Hnin].
      + rewrite PyDict.keys_set_in by done.
        apply elem_of_app in Hy as [Hy| ->%list_elem_of_singleton]; [by apply Hkeys|done].
      + rewrite PyDict.keys_set_notin by done. apply elem_of_app.
        apply elem_of_app in Hy as [Hy| ->%list_elem_of_singleton];
          [left; by apply Hkeys|right; by left]. }
  destruct (PyDict.get best (key z)) as [e|] eqn:E.
  - destruct (Hget _ _ E) as [Hke Hce].
    destruct (Z.ltb_spec (price z) (price e)) as [Hlt|Hge].
    + apply Hset; [done|]. intros y Hy Hk.
      pose proof (first_cheapest_le l e y Hce Hy). rewrite Hke in *. specialize (H Hk). lia.
    + split; [done|]. split.
      * intros k x Hx. destruct (Hget k x Hx) as [Hk Hc]. split; [done|].
        apply first_cheapest_snoc_same; [done|]. intros Hzx.
        rewrite <- Hk, <- Hzx, E in Hx. injection Hx as ->. lia.
      * intros y [Hy| ->%list_elem_of_singleton]%elem_of_app; [by apply Hkeys|].
        apply PyDict.get_Some_elem in E. unfold PyDict.keys.
        apply list_elem_of_fmap. by exists (key z, e).
  - apply Hset; [done|]. intros y Hy Hk. apply PyDict.get_None in E.
    destruct E. rewrite <- Hk. by apply Hkeys.
Qed.

Lemma dedupe_inv l : best_inv l (foldl dedupe_step [] l).
Proof.
  induction l as [|z l IH] using rev_ind.
  - split; [apply NoDup_nil_2|]. split; [done|]. by intros y ?%elem_of_nil.
  - rewrite foldl_app. simpl. by apply dedupe_step_inv.
Qed.

(** Every entry is stored under the key of its offer. *)
Lemma dedupe_keys l : key <$> dedupe l = PyDict.keys (foldl dedupe_step [] l).
Proof.
  destruct (dedupe_inv l) as (Hnd & Hget & _). unfold dedupe, PyDict.values, PyDict.keys in *.
  rewrite <- list_fmap_compose. apply list_fmap_ext. intros i [k x] Hx. simpl.
  apply (Hget k x). apply PyDict.elem_get; [done|]. by eapply list_elem_of_lookup_2.
Qed.

Lemma dedupe_NoDup l : NoDup (key <$> dedupe l).
Proof. rewrite dedupe_keys. apply dedupe_inv. Qed.

Lemma dedupe_first_cheapest l x : x ∈ dedupe l -> first_cheapest l x.
Proof.
  unfold dedupe, PyDict.values. intros ([k x'] & -> & Hin)%list_elem_of_fmap. simpl.
  destruct (dedupe_inv l) as (Hnd & Hget & _).
  apply (Hget k). by apply PyDict.elem_get.
Qed.

Lemma dedupe_elem l x : x ∈ dedupe l -> x ∈ l.
Proof.
  intros (l1 & l2 & -> & _)%dedupe_first_cheapest. rewrite elem_of_app, elem_of_cons. auto.
Qed.

Lemma dedupe_covers l y : y ∈ l -> exists x, x ∈ dedupe l /\ key x = key y /\ price x <= price y.
Proof.
  intros Hy. destruct (dedupe_inv l) as (_ & _ & Hkeys).
  specialize (Hkeys y Hy). rewrite <- dedupe_keys in Hkeys.
  apply list_elem_of_fmap in Hkeys as (x & Hk & Hx). exists x. split; [done|].
  split; [done|]. by apply (first_cheapest_le l x y); [apply dedupe_first_cheapest|..].
Qed.

(** Keys in the order of their first offer. *)
Definition first_keys (ks : list K) : list K :=
  foldl (fun acc k => if decide (k ∈ acc) then acc else acc ++ [k]) [] ks.

Lemma dedupe_order l : key <$> dedupe l = first_keys (key <$> l).
Proof.
  rewrite dedupe_keys. unfold first_keys.
  induction l as [|z l IH] using rev_ind; [done|].
  rewrite fmap_app, !foldl_app. simpl. rewrite <- IH. clear IH.
  set (best := foldl dedupe_step [] l). unfold dedupe_step.
  destruct (decide (key z ∈ PyDict.keys best)) as [Hin|Hnin].
  - destruct (PyDict.get best (key z)) eqn:E.
    + destruct (_ <? _); [by apply PyDict.keys_set_in|done].
    + by apply PyDict.get_None in E.
  - rewrite (proj2 (PyDict.get_None best (key z)) Hnin). by apply PyDict.keys_set_notin.
Qed.

Lemma dedupe_nil l : dedupe l = [] <-> l = [].
Proof.
  split; [|by intros ->]. intros H. destruct l as [|y l]; [done|].
  destruct (dedupe_covers (y :: l) y) as (x & Hx & _); [by left|].
  rewrite H in Hx. by apply elem_of_nil in Hx.
Qed.

End dedupe.

(** ** The page a cursor names *)
Section page.
Context {R : Type}.
Implicit Types (ordered : list R).

(** Items, next cursor, has_more. *)
Definition page_of ordered (limit : Z) (cursor : option string)
  : list R * option string * bool :=
  let offset := decode_cursor cursor in
  let page := py_slice ordered offset (offset + limit) in
  let has_more := offset + limit <? Z.of_nat (length ordered) in
  let next_cursor := if has_more then Some (encode_cursor (offset + limit)) else None in
  (page, next_cursor, has_more).

(** A client that follows [next_cursor] for at most [fuel] pages. *)
Fixpoint walk_pages (fuel : nat) ordered (limit : Z) (cursor : option string) : list R :=
  match fuel with
  | O => []
  | S fuel' =>
      let '(items, next, _) := page_of ordered limit cursor in
      match next with
      | Some c => items ++ walk_pages fuel' ordered limit (Some c)
      | None => items
      end
  end.

Lemma page_items ordered limit cursor :
  0 <= limit ->
  (page_of ordered limit cursor).1.1
  = take (Z.to_nat limit) (drop (Z.to_nat (decode_cursor cursor)) ordered).
Proof.
  intros Hl. unfold page_of, py_slice. simpl. set (o := decode_cursor cursor).
  assert (0 <= o) by apply decode_cursor_nonneg.
  destruct (Z.ltb_spec (o + limit) 0); [lia|].
  destruct (Z.le_gt_cases (o + limit) (Z.of_nat (length ordered))) as [Hle|Hgt].
  - f_equal. lia.
  - rewrite Z.min_r by lia. rewrite !take_ge by (rewrite length_drop; lia). done.
Qed.

Lemma walk_pages_from ordered limit n offset cursor fuel :
  1 <= limit -> Z.of_nat (length ordered) < 10 ^ PyStr.max_str_digits ->
  decode_cursor cursor = Z.of_nat offset ->
  (length ordered - offset <= n)%nat -> (n < fuel)%nat ->
  walk_pages fuel ordered limit cursor = drop offset ordered.
Proof.
  intros Hl Hb. revert offset cursor fuel.
  induction n as [n IH] using lt_wf_ind. intros offset cursor fuel Hc Hn Hf.
  destruct fuel as [|fuel]; [lia|]. cbn [walk_pages].
  pose proof (page_items ordered limit cursor ltac:(lia)) as Hitems.
  rewrite Hc, Nat2Z.id in Hitems.
  destruct (page_of ordered limit cursor) as [[items next] more] eqn:E. simpl in Hitems.
  unfold page_of in E. rewrite Hc in E.
  destruct (Z.ltb_spec (Z.of_nat offset + limit) (Z.of_nat (length ordered))) as [Hlt|Hge];
    injection E as _ <- _.
  - rewrite (IH (n - 1)%nat ltac:(lia) (offset + Z.to_nat limit)%nat); [|..|lia].
    + rewrite Hitems, <- drop_drop. apply take_drop.
    + rewrite decode_encode_cursor; lia.
    + lia.
  - rewrite Hitems. apply take_ge. rewrite length_drop. lia.
Qed.

(** Following the cursors from the start visits every item once, in order. *)
Lemma walk_pages_all ordered limit fuel :
  1 <= limit -> Z.of_nat (length ordered) < 10 ^ PyStr.max_str_digits ->
  (length ordered < fuel)%nat ->
  walk_pages fuel ordered limit None = ordered.
Proof.
  intros Hl Hb Hf. rewrite (walk_pages_from ordered limit (length ordered) 0); [done..|lia|done].
Qed.

End page.

End AggCore.
