(* ===== verification/Aggregation.v ===== *)
(** * Flight aggregation

    [app/services/aggregation.py]: fan-out, de-duplication, filtering,
    ranking, sorting and pagination of flight offers. *)
From S2P Require Import Prelude PyStr PyDict Errors Float64 PySorted Domain Pagination AggCore.
Import Calendar Domain Pagination AggCore PySorted.

Module Aggregation.

(** ** Data *)

Inductive SortKey : Type := BEST | PRICE | DURATION | DEPARTURE | STOPS.

#[global] Instance sort_key_eq_dec : EqDecision SortKey.
Proof. solve_decision. Defined.

Record FlightFilters : Type := {
  max_price_minor : option Z;
  max_stops : option Z;
  airlines : gset string;
  direct_only : bool;
}.

Definition no_filters : FlightFilters :=
  {| max_price_minor := None; max_stops := None; airlines := ∅; direct_only := false |}.

(** [v > bound] for an optional bound. *)
Definition above (v : Z) (bound : option Z) : bool :=
  match bound with Some b => b <? v | None => false end.

Definition matches (self : FlightFilters) (flight : NormalizedFlight) : bool :=
  if direct_only self && negb (is_direct flight) then false
  else if above (f_stops flight) (max_stops self) then false
  else if above (amount_minor (f_price flight)) (max_price_minor self) then false
  else negb (negb (bool_decide (airlines self = ∅))
             && bool_decide (PyStr.lower (f_airline flight) ∉ airlines self)).

Record RankedFlight : Type := { flight : NormalizedFlight; score : Z }.

Record AggregationResult : Type := {
  items : list RankedFlight;
  meta : SearchMeta;
  next_cursor : option string;
  has_more : bool;
}.

(** [FlightAggregationService]: its providers, of which it needs one. *)
Record Service : Type := { _providers : list FlightProvider }.

Definition mk_service (providers : list FlightProvider) : res exn Service :=
  match providers with
  | [] => Err (value_error "at least one flight provider is required")
  | _ => Ok {| _providers := providers |}
  end.

(** ** Operations *)

Definition offer_price (f : NormalizedFlight) : Z := amount_minor (f_price f).

(** What makes two offers the same physical flight. *)
Definition dedupe_key (f : NormalizedFlight) : string * string * string * string :=
  (PyStr.lower (f_airline f), f_origin f, f_destination f, isoformat (f_departure_time f)).

Definition _dedupe (flights : list NormalizedFlight) : list NormalizedFlight :=
  dedupe dedupe_key offer_price flights.

Definition list_min (l : list Z) : Z :=
  match l with [] => 0 | x :: l' => foldl Z.min x l' end.

(** [max(l, default=0)]. *)
Definition list_max (l : list Z) : Z :=
  match l with [] => 0 | x :: l' => foldl Z.max x l' end.

(** [(v - lo) / span if span else 0.0]. *)
Definition normalize (lo span v : Z) : Z :=
  if span =? 0 then 0 else F64.truediv (v - lo) span.

(** The weights, as the doubles nearest to 0.5, 0.3 and 0.2. *)
Definition w_price : Z := F64.of_dec 5 1.
Definition w_duration : Z := F64.of_dec 3 1.
Definition w_stops : Z := F64.of_dec 2 1.

Definition penalty (price_norm duration_norm stops_norm : Z) : Z :=
  F64.add (F64.add (F64.mul w_price price_norm) (F64.mul w_duration duration_norm))
    (F64.mul w_stops stops_norm).

Definition score_of (flights : list NormalizedFlight) (f : NormalizedFlight) : Z :=
  let prices := offer_price <$> flights in
  let durations := f_duration_minutes <$> flights in
  let min_price := list_min prices in
  let min_duration := list_min durations in
  let most_stops := list_max (f_stops <$> flights) in
  let price_span := list_max prices - min_price in
  let duration_span := list_max durations - min_duration in
  F64.round_digits
    (F64.sub F64.one
       (penalty (normalize min_price price_span (offer_price f))
          (normalize min_duration duration_span (f_duration_minutes f))
          (normalize 0 most_stops (f_stops f)))) 3.

Definition _rank (flights : list NormalizedFlight) : list RankedFlight :=
  match flights with
  | [] => []
  | _ => (fun f => {| flight := f; score := score_of flights f |}) <$> flights
  end.

Definition sort_value (sort : SortKey) (r : RankedFlight) : Z :=
  match sort with
  | BEST => - score r
  | PRICE => offer_price (flight r)
  | DURATION => f_duration_minutes (flight r)
  | DEPARTURE => instant (f_departure_time (flight r))
  | STOPS => f_stops (flight r)
  end.

(** Python refuses to compare an aware datetime with a naive one. *)
Definition mixed_departures (ranked : list RankedFlight) : bool :=
  existsb (fun r => is_aware (f_departure_time (flight r))) ranked
  && existsb (fun r => negb (is_aware (f_departure_time (flight r)))) ranked.

Definition _sort (ranked : list RankedFlight) (sort : SortKey) : res exn (list RankedFlight) :=
  if bool_decide (sort = DEPARTURE) && mixed_departures ranked then
    Err (PyError "TypeError" "can't compare offset-naive and offset-aware datetimes")
  else Ok (sorted_by (sort_value sort) ranked).

Definition _fan_out (self : Service) (query : FlightSearchQuery)
  : list NormalizedFlight * Z * Z :=
  collect [] 0 0 ((fun provider => p_search provider query) <$> _providers self).

(** The part of [search] before the cursor: the ordered offers. *)
Definition search_ordered (self : Service) (query : FlightSearchQuery) (sort : SortKey)
    (filters : option FlightFilters) : res exn (list RankedFlight * Z * Z) :=
  let filters := default no_filters filters in
  let '(flights, ok, failed) := _fan_out self query in
  let deduped := _dedupe flights in
  let filtered := filter (fun f => matches filters f = true) deduped in
  let ranked := _rank filtered in
  match _sort ranked sort with
  | Ok ordered => Ok (ordered, ok, failed)
  | Err e => Err e
  end.

Definition search (self : Service) (query : FlightSearchQuery) (sort : SortKey)
    (filters : option FlightFilters) (limit : Z) (cursor : option string)
  : res exn AggregationResult :=
  match search_ordered self query sort filters with
  | Err e => Err e
  | Ok (ordered, ok, failed) =>
      let '(page, next, more) := page_of ordered limit cursor in
      Ok {| items := page;
            meta := {| degraded := 0 <? failed;
                       providers_ok := ok;
                       providers_failed := failed;
                       total := Z.of_nat (length ordered) |};
            next_cursor := next;
            has_more := more |}
  end.

(** A client that asks for page after page with the cursor it was given, for
    at most [fuel] pages; [None] when it ran out of fuel with more to fetch. *)
Fixpoint walk (fuel : nat) (self : Service) (query : FlightSearchQuery) (sort : SortKey)
    (filters : option FlightFilters) (limit : Z) (cursor : option string)
  : option (res exn (list RankedFlight)) :=
  match fuel with
  | O => None
  | S fuel' =>
      match search self query sort filters limit cursor with
      | Err e => Some (Err e)
      | Ok r =>
          match next_cursor r with
          | None => Some (Ok (items r))
          | Some c =>
              match walk fuel' self query sort filters limit (Some c) with
              | Some (Ok rest) => Some (Ok (items r ++ rest))
              | other => other
              end
          end
      end
  end.

(** ** Ranking *)

Lemma foldl_min_le x l : foldl Z.min x l <= x /\ (forall y, y ∈ l -> foldl Z.min x l <= y).
Proof.
  revert x. induction l as [|z l IH]; intros x; simpl.
  - split; [done|]. by intros y ?%elem_of_nil.
  - destruct (IH (Z.min x z)) as [H1 H2]. split; [lia|].
    intros y [->|Hy]%elem_of_cons; [lia|by apply H2].
Qed.

Lemma foldl_max_ge x l : x <= foldl Z.max x l /\ (forall y, y ∈ l -> y <= foldl Z.max x l).
Proof.
  revert x. induction l as [|z l IH]; intros x; simpl.
  - split; [done|]. by intros y ?%elem_of_nil.
  - destruct (IH (Z.max x z)) as [H1 H2]. split; [lia|].
    intros y [->|Hy]%elem_of_cons; [lia|by apply H2].
Qed.

Lemma list_min_le l x : x ∈ l -> list_min l <= x.
Proof.
  destruct l as [|y l]; [by intros ?%elem_of_nil|]. simpl.
  destruct (foldl_min_le y l). intros [->|?]%elem_of_cons; auto.
Qed.

Lemma list_max_ge l x : x ∈ l -> x <= list_max l.
Proof.
  destruct l as [|y l]; [by intros ?%elem_of_nil|]. simpl.
  destruct (foldl_max_ge y l). intros [->|?]%elem_of_cons; auto.
Qed.

Lemma normalize_unit lo hi v : lo <= v <= hi -> 0 <= normalize lo (hi - lo) v <= F64.one.
Proof.
  intros Hv. unfold normalize. pose proof F64.one_pos.
  destruct (Z.eqb_spec (hi - lo) 0); [lia|]. apply F64.truediv_unit; lia.
Qed.

Lemma normalize_mono lo span v v' :
  0 <= span -> v <= v' -> normalize lo span v <= normalize lo span v'.
Proof.
  intros Hs Hv. unfold normalize. destruct (Z.eqb_spec span 0); [lia|].
  apply F64.truediv_mono_l; lia.
Qed.

Lemma weights_nonneg : 0 <= w_price /\ 0 <= w_duration /\ 0 <= w_stops.
Proof. split; [|split]; vm_compute; discriminate. Qed.

Lemma penalty_mono p d s p' d' s' :
  p <= p' -> d <= d' -> s <= s' -> penalty p d s <= penalty p' d' s'.
Proof.
  intros. unfold penalty. destruct weights_nonneg as (? & ? & ?).
  apply F64.add_mono; [apply F64.add_mono|]; apply F64.mul_mono_r; assumption.
Qed.

(** The weights add up to 1.0 in floating point too. *)
Lemma penalty_one : penalty F64.one F64.one F64.one = F64.one.
Proof. vm_compute. reflexivity. Qed.

Lemma penalty_zero : penalty 0 0 0 = 0.
Proof. vm_compute. reflexivity. Qed.

Lemma sub_one_unit p : 0 <= p <= F64.one -> 0 <= F64.sub F64.one p <= F64.one.
Proof.
  intros Hp. assert (F64.sub F64.one 0 = F64.one) as H1 by (vm_compute; reflexivity).
  assert (F64.sub F64.one F64.one = 0) as H2 by (vm_compute; reflexivity).
  pose proof (F64.sub_mono F64.one p F64.one 0). pose proof (F64.sub_mono F64.one F64.one F64.one p).
  lia.
Qed.

Lemma round3_unit x : 0 <= x <= F64.one -> 0 <= F64.round_digits x 3 <= F64.one.
Proof.
  intros Hx. pose proof (F64.round_digits_mono 0 x 3). pose proof (F64.round_digits_mono x F64.one 3).
  rewrite (F64.round_digits_0 3), (F64.round_digits_one 3) in * by lia. lia.
Qed.

Lemma elem_rank flights r :
  r ∈ _rank flights <-> exists f, f ∈ flights /\ r = {| flight := f; score := score_of flights f |}.
Proof.
  unfold _rank. destruct flights as [|f0 fs].
  - split; [by intros ?%elem_of_nil|]. by intros (f & ?%elem_of_nil & _).
  - rewrite list_elem_of_fmap. split; intros (f & ? & ?); by exists f.
Qed.

Lemma rank_flights flights : flight <$> _rank flights = flights.
Proof.
  unfold _rank. destruct flights as [|f0 fs]; [done|].
  rewrite <- list_fmap_compose. apply list_fmap_id.
Qed.

(** Bounds of the three normalized criteria. *)
Lemma norms_unit flights f :
  Forall (fun g => valid_flight g = true) flights -> f ∈ flights ->
  let prices := offer_price <$> flights in
  let durations := f_duration_minutes <$> flights in
  0 <= normalize (list_min prices) (list_max prices - list_min prices) (offer_price f) <= F64.one
  /\ 0 <= normalize (list_min durations) (list_max durations - list_min durations)
          (f_duration_minutes f) <= F64.one
  /\ 0 <= normalize 0 (list_max (f_stops <$> flights)) (f_stops f) <= F64.one.
Proof.
  intros Hv Hf. cbv zeta.
  assert (forall g : NormalizedFlight -> Z, g f ∈ g <$> flights) as Hin
    by (intros; by apply list_elem_of_fmap_2).
  assert (0 <= f_stops f) as Hs.
  { rewrite Forall_forall in Hv. specialize (Hv f Hf). simpl in Hv. unfold valid_flight in Hv. lia. }
  split; [|split]; [apply normalize_unit; split; [by apply list_min_le|by apply list_max_ge] ..|].
  rewrite <- (Z.sub_0_r (list_max _)). apply normalize_unit. split; [done|by apply list_max_ge].
Qed.

Lemma score_of_unit flights f :
  Forall (fun g => valid_flight g = true) flights -> f ∈ flights ->
  0 <= score_of flights f <= F64.one.
Proof.
  intros Hv Hf. destruct (norms_unit flights f Hv Hf) as (Hp & Hd & Hs).
  unfold score_of. apply round3_unit, sub_one_unit.
  pose proof (penalty_mono _ _ _ _ _ _ (proj1 Hp) (proj1 Hd) (proj1 Hs)) as Hlo.
  pose proof (penalty_mono _ _ _ _ _ _ (proj2 Hp) (proj2 Hd) (proj2 Hs)) as Hhi.
  rewrite penalty_zero in Hlo. rewrite penalty_one in Hhi. by split.
Qed.

Lemma list_span_nonneg l : 0 <= list_max l - list_min l.
Proof.
  destruct l as [|x l]; [done|].
  assert (x ∈ x :: l) as Hx by by left.
  pose proof (list_min_le _ _ Hx). pose proof (list_max_ge _ _ Hx). lia.
Qed.

(** ** Sorting and searching *)

Lemma sort_spec ranked sort ordered :
  _sort ranked sort = Ok ordered -> stable_sort_of (sort_value sort) ranked ordered.
Proof.
  unfold _sort. destruct (_ && _); [done|]. intros [= <-]. apply sorted_by_spec.
Qed.

Lemma sort_perm ranked sort ordered : _sort ranked sort = Ok ordered -> ordered ≡ₚ ranked.
Proof.
  unfold _sort. destruct (_ && _); [done|]. intros [= <-]. apply sorted_by_perm.
Qed.

Lemma sort_ok ranked sort : sort <> DEPARTURE -> _sort ranked sort = Ok (sorted_by (sort_value sort) ranked).
Proof. intros Hs. unfold _sort. by rewrite bool_decide_eq_false_2. Qed.

Definition searched (self : Service) (query : FlightSearchQuery) : list (res exn (list NormalizedFlight)) :=
  (fun provider => p_search provider query) <$> _providers self.

(** The offers that survive the merge and the filters. *)
Definition candidates (self : Service) (query : FlightSearchQuery) (filters : option FlightFilters)
  : list NormalizedFlight :=
  filter (fun f => matches (default no_filters filters) f = true)
    (_dedupe (answers (searched self query))).

Lemma search_ordered_eq self query sort filters :
  search_ordered self query sort filters =
    match _sort (_rank (candidates self query filters)) sort with
    | Ok ordered =>
        Ok (ordered, count_ok (searched self query),
            Z.of_nat (length (_providers self)) - count_ok (searched self query))
    | Err e => Err e
    end.
Proof.
  unfold search_ordered, _fan_out, candidates. rewrite collect_spec. fold (searched self query).
  rewrite app_nil_l, !Z.add_0_l. cbv beta iota zeta.
  assert (length (searched self query) = length (_providers self)) as -> by apply length_fmap.
  done.
Qed.

Lemma search_items self query sort filters limit cursor r :
  search self query sort filters limit cursor = Ok r ->
  exists ordered ok failed,
    search_ordered self query sort filters = Ok (ordered, ok, failed)
    /\ page_of ordered limit cursor = (items r, next_cursor r, has_more r)
    /\ meta r = {| degraded := 0 <? failed; providers_ok := ok; providers_failed := failed;
                   total := Z.of_nat (length ordered) |}.
Proof.
  unfold search. destruct (search_ordered _ _ _ _) as [[[ordered ok] failed]|]; [|done].
  destruct (page_of ordered limit cursor) as [[page next] more] eqn:E.
  intros [= <-]. by exists ordered, ok, failed.
Qed.

Lemma walk_pages_search fuel self query sort filters limit cursor ordered ok failed :
  search_ordered self query sort filters = Ok (ordered, ok, failed) ->
  1 <= limit -> Z.of_nat (length ordered) < 10 ^ PyStr.max_str_digits ->
  forall offset, decode_cursor cursor = Z.of_nat offset ->
  (length ordered - offset < fuel)%nat ->
  walk fuel self query sort filters limit cursor = Some (Ok (drop offset ordered)).
Proof.
  intros Hord Hl Hb. revert cursor. induction fuel as [|fuel IH]; intros cursor offset Hc Hf; [lia|].
  cbn [walk]. unfold search. rewrite Hord.
  pose proof (page_items ordered limit cursor ltac:(lia)) as Hitems.
  rewrite Hc, Nat2Z.id in Hitems.
  destruct (page_of ordered limit cursor) as [[page next] more] eqn:E. simpl in *.
  unfold page_of in E. rewrite Hc in E.
  destruct (Z.ltb_spec (Z.of_nat offset + limit) (Z.of_nat (length ordered))) as [Hlt|Hge];
    injection E as _ <- _.
  - rewrite (IH _ (offset + Z.to_nat limit)%nat); [|rewrite decode_encode_cursor; lia|lia].
    do 2 f_equal. rewrite Hitems, <- drop_drop. apply take_drop.
  - do 2 f_equal. rewrite Hitems. apply take_ge. rewrite length_drop. lia.
Qed.

Lemma dedupe_candidates_price self query :
  forall f, f ∈ answers (searched self query) ->
  exists g, g ∈ candidates self query None /\ offer_price g <= offer_price f.
Proof.
  intros f Hf. destruct (dedupe_covers dedupe_key offer_price _ f Hf) as (g & Hg & _ & Hp).
  exists g. split; [|done]. unfold candidates. by apply list_elem_of_filter.
Qed.

Lemma candidates_elem self query filters f :
  f ∈ candidates self query filters ->
  matches (default no_filters filters) f = true /\ f ∈ answers (searched self query).
Proof.
  unfold candidates. rewrite list_elem_of_filter. intros [Hm Hf]. split; [done|].
  by apply (dedupe_elem dedupe_key offer_price).
Qed.

Lemma candidates_nil self query :
  candidates self query None = [] <-> answers (searched self query) = [].
Proof.
  unfold candidates. split.
  - intros H. apply (dedupe_nil dedupe_key offer_price).
    destruct (_dedupe (answers (searched self query))) as [|f fs] eqn:E; [exact E|].
    simpl in H. by rewrite filter_cons_True in H.
  - intros ->. done.
Qed.

(** What the price monitor asks for: the first page of one offer, by price. *)
Lemma search_cheapest self query :
  exists r, search self query PRICE None 1 None = Ok r
    /\ (items r = [] <-> answers (searched self query) = [])
    /\ (forall i rest, items r = i :: rest ->
         rest = [] /\ flight i ∈ answers (searched self query)
         /\ forall f, f ∈ answers (searched self query) -> offer_price (flight i) <= offer_price f).
Proof.
  unfold search. rewrite search_ordered_eq, sort_ok by done.
  set (cands := candidates self query None).
  set (ordered := sorted_by (sort_value PRICE) (_rank cands)).
  pose proof (page_items ordered 1 None ltac:(lia)) as Hpage.
  destruct (page_of ordered 1 None) as [[page next] more]. simpl in Hpage. rewrite drop_0 in Hpage.
  eexists. split; [reflexivity|]. simpl. rewrite Hpage. change (Z.to_nat 1) with 1%nat.
  assert (flight <$> ordered ≡ₚ cands) as Hperm.
  { unfold ordered. rewrite sorted_by_perm. by rewrite rank_flights. }
  split.
  - rewrite <- candidates_nil. fold cands. destruct ordered as [|o os]; simpl; split; try done.
    + intros _. by apply Permutation_nil_l in Hperm.
    + intros Hc. rewrite Hc in Hperm. by apply Permutation_nil_r in Hperm.
  - intros i rest Hi. pose proof (sorted_by_sorted (sort_value PRICE) (_rank cands)) as Hs.
    fold ordered in Hs. destruct ordered as [|o os]; [done|]. simpl in Hi.
    injection Hi as <- <-. split; [by rewrite take_0|].
    assert (flight o ∈ cands) as Ho by (rewrite <- Hperm; by left).
    split; [by apply candidates_elem in Ho as [_ ?]|]. intros f Hf.
    destruct (dedupe_candidates_price self query f Hf) as (g & Hg & Hle).
    fold cands in Hg. rewrite <- Hperm in Hg. apply list_elem_of_fmap in Hg as (r & -> & Hr).
    transitivity (offer_price (flight r)); [|done]. by apply (sorted_head_le (sort_value PRICE) o os r).
Qed.

(** ** Fixtures of the witnesses *)

Definition sample_flight (provider airline : string) (hour price stops duration : Z)
  : NormalizedFlight :=
  {| f_id := provider +:+ airline; f_provider := provider; f_airline := airline;
     f_origin := "THR"; f_destination := "IST";
     f_departure_time := {| dt_date := {| year := 2026; month := 8; day := 10 |};
                            dt_us := hour * 3600 * 1000000; dt_offset := Some 0 |};
     f_arrival_time := {| dt_date := {| year := 2026; month := 8; day := 10 |};
                          dt_us := hour * 3600 * 1000000; dt_offset := Some 0 |};
     f_duration_minutes := duration; f_stops := stops; f_cabin_class := "economy";
     f_price := {| amount_minor := price; currency := "USD" |} |}.

Definition sample_query : FlightSearchQuery :=
  {| fq_origin := "THR"; fq_destination := "IST";
     fq_departure_date := {| year := 2026; month := 8; day := 10 |};
     fq_adults := 1; fq_cabin_class := "economy" |}.

(** Two providers that answer, with one flight in common, and one that fails. *)
Definition sample_service : Service :=
  {| _providers := [
       {| p_name := "a"; p_search := fun _ =>
            Ok [sample_flight "a" "KLM" 8 20000 0 120; sample_flight "a" "Lufthansa" 9 30000 2 300] |};
       {| p_name := "broken"; p_search := fun _ => Err (PyError "RuntimeError" "provider exploded") |};
       {| p_name := "b"; p_search := fun _ =>
            Ok [sample_flight "b" "klm" 8 14000 0 120; sample_flight "b" "Emirates" 7 18000 1 200] |} ] |}.

Definition sample_flights : list NormalizedFlight :=
  [sample_flight "b" "Emirates" 7 14000 1 120; sample_flight "a" "Lufthansa" 9 30000 2 300].

Definition sample_ordered : list RankedFlight :=
  match search_ordered sample_service sample_query PRICE None with
  | Ok (ordered, _, _) => ordered
  | Err _ => []
  end.

(** ** Properties *)

(** C3. A client that follows [next_cursor] from the first page to the last
    receives every offer of the ordered result exactly once and in order, and
    reaches the last page: one page per offer is fuel enough. *)
Theorem search_pages_complete self query sort filters limit ordered ok failed :
  search_ordered self query sort filters = Ok (ordered, ok, failed) ->
  1 <= limit ->
  Z.of_nat (length ordered) < 10 ^ PyStr.max_str_digits ->
  walk (S (length ordered)) self query sort filters limit None = Some (Ok ordered).
Proof.
  intros Hord Hl Hb.
  rewrite (walk_pages_search _ _ _ _ _ _ _ ordered ok failed Hord Hl Hb 0); [done..|lia].
Qed.

Lemma search_pages_complete_witness :
  length sample_ordered = 3%nat
  /\ walk 4 sample_service sample_query PRICE None 2 None = Some (Ok sample_ordered).
Proof.
  split; [vm_compute; reflexivity|].
  apply (search_pages_complete sample_service sample_query PRICE None 2 sample_ordered 2 1);
    vm_compute; (reflexivity || discriminate).
Defined.

(** C4. Graceful degradation: whichever providers raise, a search sorted by
    anything but the departure time succeeds; it counts the providers that
    answered and those that failed, is flagged degraded exactly when one
    failed, and its items, cursor and total are those of a search over the
    answering providers alone. *)
Theorem search_degrades self query sort filters limit cursor :
  sort <> DEPARTURE ->
  exists r r',
    search self query sort filters limit cursor = Ok r
    /\ search {| _providers := filter (fun p => is_ok (p_search p query) = true) (_providers self) |}
         query sort filters limit cursor = Ok r'
    /\ items r = items r' /\ next_cursor r = next_cursor r' /\ total (meta r) = total (meta r')
    /\ degraded (meta r') = false
    /\ providers_ok (meta r) = providers_ok (meta r')
    /\ providers_ok (meta r) + providers_failed (meta r) = Z.of_nat (length (_providers self))
    /\ (degraded (meta r) = true <->
        exists p e, p ∈ _providers self /\ p_search p query = Err e).
Proof.
  intros Hsort.
  set (self' := {| _providers := filter (fun p => is_ok (p_search p query) = true) (_providers self) |}).
  assert (searched self' query = filter (fun r => is_ok r = true) (searched self query)) as Hs'.
  { unfold searched. simpl. by rewrite filter_fmap_list. }
  assert (candidates self' query filters = candidates self query filters) as Hc.
  { unfold candidates. by rewrite Hs', answers_filter. }
  assert (count_ok (searched self' query) = count_ok (searched self query)) as Hk.
  { unfold count_ok. rewrite Hs', list_filter_filter_l; [done|]. by intros. }
  assert (Z.of_nat (length (_providers self')) = count_ok (searched self query)) as Hn.
  { unfold count_ok. rewrite <- Hs'. unfold searched. by rewrite length_fmap. }
  unfold search. rewrite !search_ordered_eq, Hc, Hk, Hn, !sort_ok by done.
  destruct (page_of _ _ _) as [[page next] more].
  eexists _, _. split; [reflexivity|]. split; [reflexivity|]. simpl.
  split_and!; try done; [apply Z.ltb_ge; lia|lia|].
  rewrite Z.ltb_lt. pose proof (count_ok_lt (searched self query)) as Hlt.
  assert (length (searched self query) = length (_providers self)) as Hl by apply length_fmap.
  rewrite Hl in Hlt. rewrite <- Z.lt_0_sub in Hlt. rewrite Hlt. unfold searched. split.
  - intros (e & (p & He & Hp)%list_elem_of_fmap). by exists p, e.
  - intros (p & e & Hp & He). exists e. apply list_elem_of_fmap. by exists p.
Qed.

Lemma search_degrades_witness :
  exists r, search sample_service sample_query PRICE None 2 None = Ok r
    /\ providers_ok (meta r) = 2 /\ degraded (meta r) = true.
Proof.
  destruct (search_degrades sample_service sample_query PRICE None 2 None) as (r & r' & H & _);
    [discriminate|].
  exists r. split; [exact H|]. revert H. vm_compute. intros [= <-]. split; reflexivity.
Defined.

(** C27. De-duplication: the result holds one offer per key, in the order the
    keys first appeared; it is the cheapest of the key, the earliest where
    several are; and every offer is represented at no higher price. *)
Theorem dedupe_keeps_cheapest flights :
  dedupe_key <$> _dedupe flights = first_keys (dedupe_key <$> flights)
  /\ NoDup (dedupe_key <$> _dedupe flights)
  /\ (forall x, x ∈ _dedupe flights -> first_cheapest dedupe_key offer_price flights x)
  /\ (forall y, y ∈ flights -> exists x, x ∈ _dedupe flights
        /\ dedupe_key x = dedupe_key y /\ offer_price x <= offer_price y).
Proof.
  split; [apply dedupe_order|]. split; [apply dedupe_NoDup|].
  split; [intros x; apply dedupe_first_cheapest|intros y; apply dedupe_covers].
Qed.

(** C38. What a search returns: at most [limit] offers, ascending in the sort
    key, each of them matching the filters and offered by a provider that
    answered, in the ranking of all the offers that do. *)
Theorem search_sound self query sort filters limit cursor r :
  search self query sort filters limit cursor = Ok r ->
  0 <= limit ->
  Z.of_nat (length (items r)) <= limit
  /\ StronglySorted (key_le (sort_value sort)) (items r)
  /\ (forall i, i ∈ items r ->
       matches (default no_filters filters) (flight i) = true
       /\ (exists p l, p ∈ _providers self /\ p_search p query = Ok l /\ flight i ∈ l)
       /\ score i = score_of (candidates self query filters) (flight i)).
Proof.
  intros (ordered & ok & failed & Hord & Hpage & _)%search_items Hl.
  pose proof (page_items ordered limit cursor Hl) as Hitems. rewrite Hpage in Hitems. simpl in Hitems.
  rewrite search_ordered_eq in Hord.
  destruct (_sort _ _) as [o|] eqn:Hsort; [|done]. injection Hord as -> _ _.
  rewrite Hitems. split; [rewrite length_take; lia|]. split.
  - apply sort_spec in Hsort as [Hs _]. auto with window.
  - intros i Ho%elem_of_window. rewrite (sort_perm _ _ _ Hsort), elem_rank in Ho. destruct Ho as (f & Hf & ->). simpl.
    apply candidates_elem in Hf as [Hm Ha]. split; [done|]. split; [|reflexivity].
    apply elem_answers in Ha as (l & Hl' & Hin).
    apply list_elem_of_fmap in Hl' as (p & Hp & Hpin). by exists p, l.
Qed.

Lemma search_sound_witness :
  exists r, search sample_service sample_query PRICE None 2 None = Ok r
    /\ Z.of_nat (length (items r)) <= 2
    /\ StronglySorted (key_le (sort_value PRICE)) (items r).
Proof.
  assert (is_ok (search sample_service sample_query PRICE None 2 None) = true) as Hok
    by (vm_compute; reflexivity).
  destruct (search sample_service sample_query PRICE None 2 None) as [r|e] eqn:E; [|discriminate].
  exists r. split; [reflexivity|].
  destruct (search_sound sample_service sample_query PRICE None 2 None r E) as (H1 & H2 & _);
    [discriminate|]. split; assumption.
Defined.

(** Sorting is the stable sort of the ranked offers by the sort key: it
    fails only on a mix of aware and naive departures sorted by departure, and
    otherwise returns the one list that is ascending and keeps the offers of
    each key in their ranked order. *)
Theorem sort_is_stable_sort ranked sort ordered :
  _sort ranked sort = Ok ordered <->
  bool_decide (sort = DEPARTURE) && mixed_departures ranked = false
  /\ stable_sort_of (sort_value sort) ranked ordered.
Proof.
  unfold _sort. destruct (_ && _); [split; [done|by intros [? _]]|].
  split; [intros [= <-]; split; [done|apply sorted_by_spec]|].
  intros [_ [Hs Hf]]. f_equal. apply (stable_sort_unique (sort_value sort)); [apply sorted_by_sorted|done|].
  intros k. rewrite sorted_by_stable. by rewrite Hf.
Qed.

(** Every score is in the unit interval, in floating point as computed. *)
Theorem rank_score_bounds flights :
  Forall (fun f => valid_flight f = true) flights ->
  Forall (fun r => 0 <= score r <= F64.one) (_rank flights).
Proof.
  intros Hv. apply Forall_forall. intros r (f & Hf & ->)%elem_rank. exact (score_of_unit flights f Hv Hf).
Qed.

Lemma rank_score_bounds_witness :
  Forall (fun r => 0 <= score r <= F64.one) (_rank sample_flights).
Proof.
  apply rank_score_bounds. repeat (constructor; [reflexivity|]). constructor.
Defined.

(** C39. The ranking respects dominance, rounding included: of two offers of a
    result, one that is no dearer, no longer and has no more stops is never
    scored lower. *)
Theorem rank_dominance flights r1 r2 :
  r1 ∈ _rank flights -> r2 ∈ _rank flights ->
  offer_price (flight r1) <= offer_price (flight r2) ->
  f_duration_minutes (flight r1) <= f_duration_minutes (flight r2) ->
  f_stops (flight r1) <= f_stops (flight r2) ->
  Forall (fun f => valid_flight f = true) flights ->
  score r2 <= score r1.
Proof.
  intros (f1 & H1 & ->)%elem_rank (f2 & H2 & ->)%elem_rank. simpl. intros Hp Hd Hs Hv.
  unfold score_of. apply F64.round_digits_mono; [done|]. apply F64.sub_mono; [apply Z.le_refl|].
  assert (0 <= f_stops f1 <= list_max (f_stops <$> flights)) as Hmax.
  { split; [|apply list_max_ge; by apply list_elem_of_fmap_2].
    rewrite Forall_forall in Hv. specialize (Hv f1 H1). simpl in Hv. unfold valid_flight in Hv. lia. }
  apply penalty_mono; (apply normalize_mono; [|assumption]);
    [apply list_span_nonneg|apply list_span_nonneg|lia].
Qed.

Lemma rank_dominance_witness :
  score_of sample_flights (sample_flight "a" "Lufthansa" 9 30000 2 300)
  <= score_of sample_flights (sample_flight "b" "Emirates" 7 14000 1 120).
Proof.
  apply (rank_dominance sample_flights
    {| flight := sample_flight "b" "Emirates" 7 14000 1 120;
       score := score_of sample_flights (sample_flight "b" "Emirates" 7 14000 1 120) |}
    {| flight := sample_flight "a" "Lufthansa" 9 30000 2 300;
       score := score_of sample_flights (sample_flight "a" "Lufthansa" 9 30000 2 300) |}).
  - apply elem_rank. eexists. split; [by left|reflexivity].
  - apply elem_rank. eexists. split; [right; by left|reflexivity].
  - discriminate.
  - discriminate.
  - discriminate.
  - repeat (constructor; [reflexivity|]). constructor.
Defined.

End Aggregation.
