(* ===== verification/HotelAggregation.v ===== *)
(** * Hotel aggregation

    [app/services/hotel_aggregation.py]: the flight pipeline on hotel offers,
    with its own filters, ranking and sort keys. *)
From S2P Require Import Prelude PyStr PyDict Errors Float64 PySorted Domain Pagination AggCore Aggregation.
Import Calendar Domain Pagination AggCore PySorted.

Module HotelAggregation.

(** ** Data *)

Inductive HotelSortKey : Type := BEST | PRICE | RATING | REVIEWS.

Record HotelFilters : Type := {
  max_price_minor : option Z;
  min_rating : option Z;
  amenities : gset string;
}.

Definition no_filters : HotelFilters :=
  {| max_price_minor := None; min_rating := None; amenities := ∅ |}.

Definition hotel_price (h : NormalizedHotel) : Z := amount_minor (h_price_per_night h).

Definition matches (self : HotelFilters) (hotel : NormalizedHotel) : bool :=
  if match min_rating self with Some r => h_rating hotel <? r | None => false end then false
  else if Aggregation.above (hotel_price hotel) (max_price_minor self) then false
  else bool_decide (amenities self ⊆ list_to_set (h_amenities hotel)).

Record RankedHotel : Type := { hotel : NormalizedHotel; score : Z }.

Record HotelResult : Type := {
  items : list RankedHotel;
  meta : SearchMeta;
  next_cursor : option string;
  has_more : bool;
}.

Record Service : Type := { _providers : list HotelProvider }.

Definition mk_service (providers : list HotelProvider) : res exn Service :=
  match providers with
  | [] => Err (value_error "at least one hotel provider is required")
  | _ => Ok {| _providers := providers |}
  end.

(** ** Operations *)

Definition dedupe_key (h : NormalizedHotel) : string * string :=
  (PyStr.lower (h_name h), PyStr.lower (h_city h)).

Definition _dedupe (hotels : list NormalizedHotel) : list NormalizedHotel :=
  dedupe dedupe_key hotel_price hotels.

(** The doubles nearest to 0.6 and 0.4. *)
Definition w_rating : Z := F64.of_dec 6 1.
Definition w_price : Z := F64.of_dec 4 1.

(** [0.6 * rating_norm + 0.4 * (1 - price_norm)]. *)
Definition raw_score (rating_norm price_norm : Z) : Z :=
  F64.add (F64.mul w_rating rating_norm) (F64.mul w_price (F64.sub F64.one price_norm)).

Definition score_of (hotels : list NormalizedHotel) (h : NormalizedHotel) : Z :=
  let prices := hotel_price <$> hotels in
  let min_price := Aggregation.list_min prices in
  let price_span := Aggregation.list_max prices - min_price in
  let price_norm := Aggregation.normalize min_price price_span (hotel_price h) in
  let rating_norm := F64.div (h_rating h) (5 * F64.one) in
  F64.round_digits (raw_score rating_norm price_norm) 3.

Definition _rank (hotels : list NormalizedHotel) : list RankedHotel :=
  match hotels with
  | [] => []
  | _ => (fun h => {| hotel := h; score := score_of hotels h |}) <$> hotels
  end.

(** The sort keys are floats; converting an integer may overflow. *)
Definition sort_value (sort : HotelSortKey) (r : RankedHotel) : option Z :=
  match sort with
  | BEST => Some (- score r)
  | PRICE => F64.float_of_int (hotel_price (hotel r))
  | RATING => Some (- h_rating (hotel r))
  | REVIEWS => F64.float_of_int (- h_reviews_count (hotel r))
  end.

Definition sort_value' (sort : HotelSortKey) (r : RankedHotel) : Z :=
  default 0 (sort_value sort r).

(** [sorted] computes every key before it compares any. *)
Definition _sort (ranked : list RankedHotel) (sort : HotelSortKey) : res exn (list RankedHotel) :=
  if forallb (fun r => bool_decide (is_Some (sort_value sort r))) ranked then
    Ok (sorted_by (sort_value' sort) ranked)
  else Err (PyError "OverflowError" "int too large to convert to float").

Definition _fan_out (self : Service) (query : HotelSearchQuery) : list NormalizedHotel * Z * Z :=
  collect [] 0 0 ((fun provider => p_search provider query) <$> _providers self).

Definition search_ordered (self : Service) (query : HotelSearchQuery) (sort : HotelSortKey)
    (filters : option HotelFilters) : res exn (list RankedHotel * Z * Z) :=
  let filters := default no_filters filters in
  let '(hotels, ok, failed) := _fan_out self query in
  let deduped := _dedupe hotels in
  let filtered := filter (fun h => matches filters h = true) deduped in
  let ranked := _rank filtered in
  match _sort ranked sort with
  | Ok ordered => Ok (ordered, ok, failed)
  | Err e => Err e
  end.

Definition search (self : Service) (query : HotelSearchQuery) (sort : HotelSortKey)
    (filters : option HotelFilters) (limit : Z) (cursor : option string) : res exn HotelResult :=
  match search_ordered self query sort filters with
  | Err e => Err e
  | Ok (ordered, ok, failed) =>
      let '(page, next, more) := page_of ordered limit cursor in
      Ok {| items := page;
            meta := {| degraded := 0 <? failed;
                       providers_ok := ok;
                       providers_failed := failed;
                       total := Z.of_nat (length ordered) |};
            next_cursor := next;
            has_more := more |}
  end.

(** ** Lemmas *)

Lemma hotel_elem_rank hotels r :
  r ∈ _rank hotels <-> exists h, h ∈ hotels /\ r = {| hotel := h; score := score_of hotels h |}.
Proof.
  unfold _rank. destruct hotels as [|h0 hs].
  - split; [by intros ?%elem_of_nil|]. by intros (h & ?%elem_of_nil & _).
  - rewrite list_elem_of_fmap. split; intros (h & ? & ?); by exists h.
Qed.

Lemma hotel_weights_nonneg : 0 <= w_rating /\ 0 <= w_price.
Proof. split; vm_compute; discriminate. Qed.

(** Better rating, lower normalized price: no lower score. *)
Lemma raw_score_mono r r' p p' : r <= r' -> p' <= p -> raw_score r p <= raw_score r' p'.
Proof.
  intros Hr Hp. destruct hotel_weights_nonneg as [? ?]. unfold raw_score.
  apply F64.add_mono; apply F64.mul_mono_r; [assumption..|].
  apply F64.sub_mono; [apply Z.le_refl|assumption].
Qed.

Lemma raw_score_one : raw_score F64.one 0 = F64.one.
Proof. vm_compute. reflexivity. Qed.

Lemma raw_score_zero : raw_score 0 F64.one = 0.
Proof. vm_compute. reflexivity. Qed.

Lemma rating_norm_unit r : 0 <= r <= 5 * F64.one -> 0 <= F64.div r (5 * F64.one) <= F64.one.
Proof.
  intros [Hlo Hhi]. pose proof F64.one_pos.
  assert (F64.div 0 (5 * F64.one) = 0) as H0 by (vm_compute; reflexivity).
  assert (F64.div (5 * F64.one) (5 * F64.one) = F64.one) as H1 by (vm_compute; reflexivity).
  pose proof (F64.div_mono_l 0 r (5 * F64.one) ltac:(lia) Hlo) as Ha.
  pose proof (F64.div_mono_l r (5 * F64.one) (5 * F64.one) ltac:(lia) Hhi) as Hb.
  rewrite H0 in Ha. rewrite H1 in Hb. by split.
Qed.

Lemma valid_hotel_rating h : valid_hotel h = true -> 0 <= h_rating h <= 5 * F64.one.
Proof. unfold valid_hotel. rewrite !andb_true_iff, !Z.leb_le. tauto. Qed.

Lemma hotel_score_of_unit hotels h :
  valid_hotel h = true -> h ∈ hotels -> 0 <= score_of hotels h <= F64.one.
Proof.
  intros Hv Hh. unfold score_of. apply Aggregation.round3_unit.
  pose proof (rating_norm_unit _ (valid_hotel_rating h Hv)) as [Hr0 Hr1].
  assert (hotel_price h ∈ hotel_price <$> hotels) as Hin by by apply list_elem_of_fmap_2.
  pose proof (Aggregation.list_min_le _ _ Hin) as Hmin.
  pose proof (Aggregation.list_max_ge _ _ Hin) as Hmax.
  destruct (Aggregation.normalize_unit _ _ _ (conj Hmin Hmax)) as [Hp0 Hp1].
  pose proof (raw_score_mono _ _ _ _ Hr0 Hp1) as Hlo. pose proof (raw_score_mono _ _ _ _ Hr1 Hp0) as Hhi.
  rewrite raw_score_zero in Hlo. rewrite raw_score_one in Hhi. by split.
Qed.

Lemma hotel_sort_perm ranked sort ordered : _sort ranked sort = Ok ordered -> ordered ≡ₚ ranked.
Proof. unfold _sort. destruct (forallb _ _); [|done]. intros [= <-]. apply sorted_by_perm. Qed.

(** Up to 2^53 the float of an integer is that integer. *)
Lemma float_of_int_exact n : Z.abs n <= 2 ^ 53 -> F64.float_of_int n = Some (n * F64.one).
Proof.
  intros Hn. unfold F64.float_of_int. rewrite F64.of_int_exact by done. pose proof F64.one_pos.
  destruct (Z.ltb_spec (Z.abs (n * F64.one)) (2 ^ 1024 * F64.one)) as [|Hge]; [done|].
  rewrite Z.abs_mul, (Z.abs_eq F64.one) in Hge by lia.
  assert (2 ^ 53 < 2 ^ 1024) by (apply Z.pow_lt_mono_r; lia). nia.
Qed.

Lemma insert_by_scale {A} (key key' : A -> Z) c x l :
  0 < c -> (forall y, y ∈ x :: l -> key' y = key y * c) ->
  insert_by key' x l = insert_by key x l.
Proof.
  intros Hc. induction l as [|y l IH]; intros Hk; simpl; [done|].
  assert (x ∈ x :: y :: l) as Hx by by left.
  assert (y ∈ x :: y :: l) as Hy by (right; by left).
  rewrite (Hk x Hx), (Hk y Hy), IH.
  2:{ intros z [->|Hz]%elem_of_cons; apply Hk; [done|]. right. by right. }
  destruct (Z.leb_spec (key x * c) (key y * c)), (Z.leb_spec (key x) (key y)); nia || done.
Qed.

(** Scaling all the keys by a positive factor sorts the same way. *)
Lemma sorted_by_scale {A} (key key' : A -> Z) c l :
  0 < c -> (forall y, y ∈ l -> key' y = key y * c) -> sorted_by key' l = sorted_by key l.
Proof.
  intros Hc. induction l as [|x l IH]; intros Hk; simpl; [done|].
  rewrite IH by (intros y Hy; apply Hk; by right).
  apply (insert_by_scale _ _ c); [done|]. intros y [->|Hy]%elem_of_cons; apply Hk; [by left|].
  right. by apply elem_of_sorted_by in Hy.
Qed.

(** ** Fixtures of the witnesses *)

Definition sample_hotel (name : string) (price rating reviews : Z) : NormalizedHotel :=
  {| h_id := name; h_provider := "p"; h_name := name; h_city := "Istanbul";
     h_rating := F64.of_dec rating 1; h_reviews_count := reviews;
     h_price_per_night := {| amount_minor := price; currency := "USD" |};
     h_amenities := ["wifi"; "pool"]%string |}.

Definition sample_hotels : list NormalizedHotel :=
  [sample_hotel "Grand" 9000 48 500; sample_hotel "Park" 12000 32 50].

Definition sample_ranked (h : NormalizedHotel) : RankedHotel :=
  {| hotel := h; score := score_of sample_hotels h |}.

Definition sample_ranked_grand : RankedHotel := sample_ranked (sample_hotel "Grand" 9000 48 500).
Definition sample_ranked_park : RankedHotel := sample_ranked (sample_hotel "Park" 12000 32 50).

Definition sample_service : Service :=
  {| _providers := [
       {| p_name := "a"; p_search := fun _ => Ok sample_hotels |};
       {| p_name := "broken"; p_search := fun _ => Err (PyError "RuntimeError" "down") |} ] |}.

Definition sample_query : HotelSearchQuery :=
  {| hq_city := "Istanbul"; hq_check_in := {| year := 2026; month := 8; day := 10 |};
     hq_check_out := {| year := 2026; month := 8; day := 13 |}; hq_guests := 2 |}.

(** ** Properties *)

(** Every hotel score is in the unit interval, in floating point as
    computed. *)
Theorem hotel_score_bounds hotels :
  Forall (fun h => valid_hotel h = true) hotels ->
  Forall (fun r => 0 <= score r <= F64.one) (_rank hotels).
Proof.
  intros Hv. apply Forall_forall. intros r (h & Hh & ->)%hotel_elem_rank.
  rewrite Forall_forall in Hv. exact (hotel_score_of_unit hotels h (Hv h Hh) Hh).
Qed.

Lemma hotel_score_bounds_witness : Forall (fun r => 0 <= score r <= F64.one) (_rank sample_hotels).
Proof. apply hotel_score_bounds. repeat (constructor; [vm_compute; reflexivity|]). constructor. Defined.

(** Of two hotels of a result, one that is rated no lower and costs no more
    is never scored lower, rounding included. *)
Theorem hotel_rank_dominance hotels r1 r2 :
  r1 ∈ _rank hotels -> r2 ∈ _rank hotels ->
  h_rating (hotel r2) <= h_rating (hotel r1) ->
  hotel_price (hotel r1) <= hotel_price (hotel r2) ->
  score r2 <= score r1.
Proof.
  intros (h1 & H1 & ->)%hotel_elem_rank (h2 & H2 & ->)%hotel_elem_rank. simpl. intros Hr Hp.
  unfold score_of. apply F64.round_digits_mono; [lia|]. apply raw_score_mono.
  - apply F64.div_mono_l; [pose proof F64.one_pos; lia|assumption].
  - apply Aggregation.normalize_mono; [apply Aggregation.list_span_nonneg|assumption].
Qed.

Lemma hotel_rank_dominance_witness : score sample_ranked_park <= score sample_ranked_grand.
Proof.
  apply (hotel_rank_dominance sample_hotels sample_ranked_grand sample_ranked_park).
  - apply hotel_elem_rank. eexists. split; [by left|reflexivity].
  - apply hotel_elem_rank. eexists. split; [right; by left|reflexivity].
  - vm_compute. discriminate.
  - discriminate.
Defined.

(** Sorting hotels by price: while every price is at most 2^53 minor units
    the sort succeeds and is the stable sort by the exact amounts, although
    the code compares their conversions to floats. *)
Theorem hotel_price_sort_exact ranked :
  Forall (fun r => 0 <= hotel_price (hotel r) <= 2 ^ 53) ranked ->
  exists ordered, _sort ranked PRICE = Ok ordered
    /\ stable_sort_of (fun r => hotel_price (hotel r)) ranked ordered.
Proof.
  intros Hb. rewrite Forall_forall in Hb.
  assert (forall r, r ∈ ranked -> sort_value PRICE r = Some (hotel_price (hotel r) * F64.one)) as Hk.
  { intros r Hr. apply float_of_int_exact. specialize (Hb r Hr). simpl in Hb. lia. }
  exists (sorted_by (fun r => hotel_price (hotel r)) ranked). split; [|apply sorted_by_spec].
  unfold _sort. rewrite (proj2 (forallb_forall _ _)).
  - f_equal. apply (sorted_by_scale _ _ F64.one); [apply F64.one_pos|].
    intros r Hr. unfold sort_value'. by rewrite Hk.
  - intros r Hr%list_elem_of_In. by rewrite Hk.
Qed.

Lemma hotel_price_sort_exact_witness :
  exists ordered, _sort (_rank sample_hotels) PRICE = Ok ordered
    /\ stable_sort_of (fun r => hotel_price (hotel r)) (_rank sample_hotels) ordered.
Proof.
  apply hotel_price_sort_exact.
  repeat (constructor; [split; discriminate|]). constructor.
Defined.

(** Past 2^53 two prices can convert to one float: the dearer hotel comes
    first when it was merged first. *)
Lemma hotel_price_sort_past_2_53 :
  _sort [{| hotel := sample_hotel "Dear" (2 ^ 53 + 1) 40 1; score := 0 |};
         {| hotel := sample_hotel "Cheap" (2 ^ 53) 40 1; score := 0 |}] PRICE
  = Ok [{| hotel := sample_hotel "Dear" (2 ^ 53 + 1) 40 1; score := 0 |};
        {| hotel := sample_hotel "Cheap" (2 ^ 53) 40 1; score := 0 |}].
Proof. vm_compute. reflexivity. Qed.

(** De-duplication of hotels keeps one offer per name and city, letter
    case ignored, in first-appearance order: the earliest of the cheapest. *)
Theorem hotel_dedupe_keeps_cheapest hotels :
  dedupe_key <$> _dedupe hotels = first_keys (dedupe_key <$> hotels)
  /\ NoDup (dedupe_key <$> _dedupe hotels)
  /\ (forall x, x ∈ _dedupe hotels -> first_cheapest dedupe_key hotel_price hotels x)
  /\ (forall y, y ∈ hotels -> exists x, x ∈ _dedupe hotels
        /\ dedupe_key x = dedupe_key y /\ hotel_price x <= hotel_price y).
Proof.
  split; [apply dedupe_order|]. split; [apply dedupe_NoDup|].
  split; [intros x; apply dedupe_first_cheapest|intros y; apply dedupe_covers].
Qed.

(** What a hotel search returns: at most [limit] offers, each matching
    the filters and offered by a provider that answered; the counts add up to
    the providers, and the result is flagged degraded exactly when one of
    them failed. *)
Theorem hotel_search_sound self query sort filters limit cursor r :
  search self query sort filters limit cursor = Ok r ->
  0 <= limit ->
  Z.of_nat (length (items r)) <= limit
  /\ (forall i, i ∈ items r ->
       matches (default no_filters filters) (hotel i) = true
       /\ exists p l, p ∈ _providers self /\ p_search p query = Ok l /\ hotel i ∈ l)
  /\ providers_ok (meta r) + providers_failed (meta r) = Z.of_nat (length (_providers self))
  /\ (degraded (meta r) = true <-> exists p e, p ∈ _providers self /\ p_search p query = Err e).
Proof.
  unfold search, search_ordered, _fan_out. rewrite collect_spec, app_nil_l, !Z.add_0_l.
  set (results := (fun p => p_search p query) <$> _providers self).
  set (found := filter _ _). destruct (_sort (_rank found) sort) as [ordered|] eqn:Hsort; [|done].
  intros Hr Hl. pose proof (page_items ordered limit cursor Hl) as Hitems.
  destruct (page_of ordered limit cursor) as [[page next] more]. simpl in Hitems.
  injection Hr as <-. simpl. rewrite Hitems.
  assert (length results = length (_providers self)) as Hlen by apply length_fmap.
  split; [rewrite length_take; lia|]. split; [|split].
  - intros i Hi%elem_of_window. rewrite (hotel_sort_perm _ _ _ Hsort), hotel_elem_rank in Hi.
    destruct Hi as (h & Hh & ->). simpl. unfold found in Hh.
    apply list_elem_of_filter in Hh as [Hm Hd]. split; [done|].
    apply dedupe_elem, elem_answers in Hd as (l & Hok & Hin).
    apply list_elem_of_fmap in Hok as (p & Hp & Hpin). by exists p, l.
  - rewrite <- Hlen. lia.
  - rewrite Z.ltb_lt, Z.lt_0_sub, count_ok_lt. unfold results. split.
    + intros (e & (p & He & Hp)%list_elem_of_fmap). by exists p, e.
    + intros (p & e & Hp & He). exists e. apply list_elem_of_fmap. by exists p.
Qed.

Lemma hotel_search_sound_witness :
  exists r, search sample_service sample_query PRICE None 1 None = Ok r
    /\ Z.of_nat (length (items r)) <= 1
    /\ providers_ok (meta r) + providers_failed (meta r) = 2.
Proof.
  assert (is_ok (search sample_service sample_query PRICE None 1 None) = true) as Hok
    by (vm_compute; reflexivity).
  destruct (search sample_service sample_query PRICE None 1 None) as [r|e] eqn:E; [|discriminate].
  exists r. split; [reflexivity|].
  destruct (hotel_search_sound sample_service sample_query PRICE None 1 None r E) as (H1 & _ & H2 & _);
    [discriminate|]. split; assumption.
Defined.

End HotelAggregation.
