(* ===== verification/CircuitBreaker.v ===== *)
(** * Circuit breaker

    [app/resilience/circuit_breaker.py].  The operations are functions on the
    breaker's fields; [call] runs a computation of some larger state that the
    breaker is part of.  The lock makes each of the three critical sections of
    a call atomic and nothing else, so concurrent calls interleave at the
    granularity of [step]. *)
From S2P Require Import Prelude Errors Float64.

Module CircuitBreaker.

(** ** Data *)

Inductive CircuitState : Type := CLOSED | OPEN | HALF_OPEN.

#[global] Instance circuit_state_eq_dec : EqDecision CircuitState.
Proof. solve_decision. Defined.

(** The attributes of a breaker; times are floats. *)
Record breaker : Type := {
  name : string;
  _failure_threshold : Z;
  _recovery_seconds : Z;
  _state : CircuitState;
  _failures : Z;
  _opened_at : Z;
}.

(** [CircuitBreaker(name, ...)]. *)
Definition mk_breaker (n : string) (failure_threshold recovery_seconds : Z) : breaker :=
  {| name := n;
     _failure_threshold := failure_threshold;
     _recovery_seconds := recovery_seconds;
     _state := CLOSED;
     _failures := 0;
     _opened_at := 0 |}.

(** The defaults of the constructor: 5 failures, 30.0 seconds. *)
Definition default_breaker (n : string) : breaker := mk_breaker n 5 (30 * F64.one).

(** ** Operations; [now] is what the clock returns *)

Definition set_state (st : CircuitState) (b : breaker) : breaker :=
  {| name := name b; _failure_threshold := _failure_threshold b;
     _recovery_seconds := _recovery_seconds b;
     _state := st; _failures := _failures b; _opened_at := _opened_at b |}.

Definition _maybe_half_open (now : Z) (b : breaker) : breaker :=
  if bool_decide (_state b = OPEN) && (_recovery_seconds b <=? F64.sub now (_opened_at b))
  then set_state HALF_OPEN b
  else b.

Definition _on_success (b : breaker) : breaker :=
  {| name := name b; _failure_threshold := _failure_threshold b;
     _recovery_seconds := _recovery_seconds b;
     _state := CLOSED; _failures := 0; _opened_at := _opened_at b |}.

Definition _on_failure (now : Z) (b : breaker) : breaker :=
  let failures := _failures b + 1 in
  if bool_decide (_state b = HALF_OPEN) || (_failure_threshold b <=? failures) then
    {| name := name b; _failure_threshold := _failure_threshold b;
       _recovery_seconds := _recovery_seconds b;
       _state := OPEN; _failures := failures; _opened_at := now |}
  else
    {| name := name b; _failure_threshold := _failure_threshold b;
       _recovery_seconds := _recovery_seconds b;
       _state := _state b; _failures := failures; _opened_at := _opened_at b |}.

(** The locked prelude of [call]: is the call let through? *)
Definition enter_call (now : Z) (b : breaker) : bool * breaker :=
  let b' := _maybe_half_open now b in
  (negb (bool_decide (_state b' = OPEN)), b').

(** [call(func)] in a state [W] that holds the breaker and the clock. *)
Definition call {W A} (get : W -> breaker) (set : breaker -> W -> W) (clock : W -> Z)
    (func : M exn W A) : M exn W A :=
  fun w =>
    let '(allowed, b) := enter_call (clock w) (get w) in
    let w := set b w in
    if allowed then
      match func w with
      | (Ok a, w') => (Ok a, set (_on_success (get w')) w')
      | (Err e, w') => (Err e, set (_on_failure (clock w') (get w')) w')
      end
    else (Err (CircuitBreakerOpen (name b)), w).

(** ** Concurrent calls

    A configuration is the breaker, the number of admitted calls still
    running, and the time.  A call that is cancelled leaves by an exception
    that [except Exception] does not catch. *)
Record config : Type := { br : breaker; inflight : nat; time : Z }.

Inductive step : config -> config -> Prop :=
| step_admit c now b' :
    time c <= now ->
    enter_call now (br c) = (true, b') ->
    step c {| br := b'; inflight := S (inflight c); time := now |}
| step_reject c now b' :
    time c <= now ->
    enter_call now (br c) = (false, b') ->
    step c {| br := b'; inflight := inflight c; time := now |}
| step_success c now n :
    time c <= now ->
    inflight c = S n ->
    step c {| br := _on_success (br c); inflight := n; time := now |}
| step_failure c now n :
    time c <= now ->
    inflight c = S n ->
    step c {| br := _on_failure now (br c); inflight := n; time := now |}
| step_cancel c now n :
    time c <= now ->
    inflight c = S n ->
    step c {| br := br c; inflight := n; time := now |}.

Definition init (b : breaker) (now : Z) : config := {| br := b; inflight := 0; time := now |}.

(** What every reachable breaker satisfies: closed exactly while the failures
    are below the threshold, and opened at some time already past. *)
Definition inv (c : config) : Prop :=
  0 <= _failures (br c)
  /\ (_state (br c) = CLOSED <-> _failures (br c) < _failure_threshold (br c))
  /\ (_state (br c) <> CLOSED -> _opened_at (br c) <= time c).

(** [n] calls one after the other, each failing, the clock standing still. *)
Fixpoint fail_calls (n : nat) (now : Z) (b : breaker) : breaker :=
  match n with
  | O => b
  | S n' =>
      let '(allowed, b') := enter_call now (fail_calls n' now b) in
      if allowed then _on_failure now b' else b'
  end.

(** ** Lemmas *)

Lemma admit_fields now b allowed b' :
  enter_call now b = (allowed, b') ->
  name b' = name b /\ _failure_threshold b' = _failure_threshold b
  /\ _recovery_seconds b' = _recovery_seconds b
  /\ _failures b' = _failures b /\ _opened_at b' = _opened_at b
  /\ (_state b' = CLOSED <-> _state b = CLOSED)
  /\ (allowed = true <-> _state b' <> OPEN).
Proof.
  unfold enter_call, _maybe_half_open. intros [= <- <-].
  rewrite negb_true_iff, bool_decide_eq_false.
  destruct (bool_decide (_state b = OPEN)) eqn:Eo; simpl; [|by split_and!].
  apply bool_decide_eq_true in Eo.
  destruct (_ <=? _); simpl; split_and!; try done. by rewrite Eo.
Qed.

Lemma step_inv c c' : 1 <= _failure_threshold (br c) -> step c c' -> inv c -> inv c'.
Proof.
  unfold inv. intros Ht Hs (H0 & Hc & Hop). inversion Hs; subst; simpl.
  1,2: apply admit_fields in H1 as (_ & -> & _ & -> & -> & Hst & _);
       split_and!; [done|by rewrite Hst|rewrite Hst; intros Hne; specialize (Hop Hne); lia].
  - split_and!; [done|split; [lia|done]|done].
  - unfold _on_failure. destruct (_ || _) eqn:E; simpl.
    + split_and!; [lia| |lia]. split; [done|]. intros Hlt.
      apply orb_true_iff in E as [E|E]; [|lia].
      apply bool_decide_eq_true in E. rewrite E in Hc. destruct Hc as [_ Hc].
      assert (HALF_OPEN = CLOSED) by (apply Hc; lia). done.
    + apply orb_false_iff in E as [E1 E2]. apply bool_decide_eq_false in E1.
      split_and!; [lia| |intros Hne; specialize (Hop Hne); lia].
      split; [lia|]. intros Hlt. apply Hc. lia.
  - split_and!; [done|done|]. intros Hne. specialize (Hop Hne). lia.
Qed.

Lemma step_threshold c c' :
  step c c' -> _failure_threshold (br c') = _failure_threshold (br c).
Proof.
  intros Hs. inversion Hs; subst; simpl; try done.
  1,2: by apply admit_fields in H0 as (_ & ? & _).
  unfold _on_failure. by destruct (_ || _).
Qed.

Lemma reach_inv b now c :
  1 <= _failure_threshold b -> _state b = CLOSED -> _failures b = 0 ->
  rtc step (init b now) c ->
  inv c /\ _failure_threshold (br c) = _failure_threshold b.
Proof.
  intros Ht Hst Hf Hr.
  assert (inv (init b now)) as Hi.
  { unfold inv, init. simpl. rewrite Hst, Hf. split_and!; [done|split; [lia|done]|done]. }
  assert (_failure_threshold (br (init b now)) = _failure_threshold b) as Heq by done.
  revert Hi Heq. induction Hr as [c|c c' c'' Hs Hr IH]; intros Hi Heq; [done|].
  apply IH; [apply (step_inv c); [lia|done..]|by rewrite (step_threshold c)].
Qed.

Lemma fail_calls_state n now nm threshold recovery :
  Z.of_nat n <= threshold -> 1 <= threshold ->
  fail_calls n now (mk_breaker nm threshold recovery) =
    {| name := nm; _failure_threshold := threshold; _recovery_seconds := recovery;
       _state := if Z.of_nat n <? threshold then CLOSED else OPEN;
       _failures := Z.of_nat n;
       _opened_at := if Z.of_nat n <? threshold then 0 else now |}.
Proof.
  intros Hn Ht. induction n as [|n IH].
  - cbn [fail_calls]. unfold mk_breaker. destruct (Z.ltb_spec (Z.of_nat 0) threshold); [done|lia].
  - cbn [fail_calls]. rewrite IH by lia. destruct (Z.ltb_spec (Z.of_nat n) threshold); [|lia].
    unfold enter_call, _maybe_half_open, _on_failure. simpl.
    destruct (Z.leb_spec threshold (Z.of_nat n + 1)), (Z.ltb_spec (Z.of_nat (S n)) threshold);
      try lia; f_equal; lia.
Qed.

(** ** Properties *)

(** C22. Under any interleaving of concurrent calls, completions, failures and
    cancellations, a reachable breaker is closed exactly while its failure
    count is below the threshold, the count is never negative, and an open or
    half-open breaker was opened in the past. *)
Theorem breaker_invariant nm threshold recovery now c :
  1 <= threshold ->
  rtc step (init (mk_breaker nm threshold recovery) now) c ->
  0 <= _failures (br c)
  /\ (_state (br c) = CLOSED <-> _failures (br c) < threshold)
  /\ (_state (br c) <> CLOSED -> _opened_at (br c) <= time c).
Proof.
  intros Ht Hr. apply reach_inv in Hr as [(H0 & Hc & Ho) Heq]; [|done..].
  simpl in Heq. rewrite Heq in Hc. done.
Qed.

Lemma breaker_invariant_witness :
  0 <= _failures (_on_failure 7 (mk_breaker "x" 1 5))
  /\ (_state (_on_failure 7 (mk_breaker "x" 1 5)) = CLOSED
      <-> _failures (_on_failure 7 (mk_breaker "x" 1 5)) < 1)
  /\ (_state (_on_failure 7 (mk_breaker "x" 1 5)) <> CLOSED
      -> _opened_at (_on_failure 7 (mk_breaker "x" 1 5)) <= 7).
Proof.
  apply (breaker_invariant "x" 1 5 3
    {| br := _on_failure 7 (mk_breaker "x" 1 5); inflight := 0; time := 7 |}); [lia|].
  eapply rtc_l; [apply (step_admit _ 4); [simpl; lia|reflexivity]|].
  eapply rtc_l; [apply (step_failure _ 7 0); [simpl; lia|reflexivity]|]. apply rtc_refl.
Defined.

(** A fresh breaker opens at its threshold: after [n] consecutive failing
    calls it is closed with [n] failures counted while [n] is below the
    threshold, and open, from the time of the last one, when [n] reaches it. *)
Theorem breaker_opens_at_threshold n now nm threshold recovery :
  Z.of_nat n <= threshold -> 1 <= threshold ->
  let b := fail_calls n now (mk_breaker nm threshold recovery) in
  _failures b = Z.of_nat n
  /\ (Z.of_nat n < threshold -> _state b = CLOSED)
  /\ (Z.of_nat n = threshold -> _state b = OPEN /\ _opened_at b = now).
Proof.
  intros Hn Ht. cbv zeta. rewrite fail_calls_state by done. simpl.
  destruct (Z.ltb_spec (Z.of_nat n) threshold); split_and!; intros; lia || done.
Qed.

Lemma breaker_opens_at_threshold_witness :
  _state (fail_calls 5 9 (default_breaker "x")) = OPEN.
Proof.
  destruct (breaker_opens_at_threshold 5 9 "x" 5 (30 * F64.one)) as (_ & _ & H); [lia|lia|].
  apply H. reflexivity.
Defined.

(** A call through the breaker, on each path: rejected without running
    the function while the recovery time has not elapsed; otherwise run, with
    its result passed on, success closing the breaker and clearing the count,
    a failure of a probe re-opening it from the time of the failure. *)
Theorem breaker_call {A} (func : M exn (breaker * Z) A) (b : breaker) (now : Z) :
  let call_ := call fst (fun b w => (b, w.2)) snd func (b, now) in
  (_state b = OPEN -> F64.sub now (_opened_at b) < _recovery_seconds b ->
     call_ = (Err (CircuitBreakerOpen (name b)), (b, now)))
  /\ (_state b = OPEN -> _recovery_seconds b <= F64.sub now (_opened_at b) ->
     call_ = match func (set_state HALF_OPEN b, now) with
             | (Ok a, (b', t)) => (Ok a, (_on_success b', t))
             | (Err e, (b', t)) => (Err e, (_on_failure t b', t))
             end
     /\ _state (_on_failure now (set_state HALF_OPEN b)) = OPEN
     /\ _opened_at (_on_failure now (set_state HALF_OPEN b)) = now)
  /\ (_state b <> OPEN ->
     call_ = match func (b, now) with
             | (Ok a, (b', t)) => (Ok a, (_on_success b', t))
             | (Err e, (b', t)) => (Err e, (_on_failure t b', t))
             end).
Proof.
  cbv zeta. unfold call, enter_call, _maybe_half_open. simpl. split_and!.
  - intros Ho Ht. rewrite Ho. simpl. destruct (Z.leb_spec (_recovery_seconds b) (F64.sub now (_opened_at b))); [lia|].
    rewrite Ho. done.
  - intros Ho Ht. rewrite Ho. simpl. destruct (Z.leb_spec (_recovery_seconds b) (F64.sub now (_opened_at b))); [|lia].
    simpl. destruct (func _) as [[a|e] [b' t]]; done.
  - intros Ho. rewrite (bool_decide_eq_false_2 (_state b = OPEN)) by done. simpl.
    rewrite (bool_decide_eq_false_2 (_state b = OPEN)) by done. simpl.
    destruct (func _) as [[a|e] [b' t]]; done.
Qed.

(** The rejection period does not always last [recovery_seconds]: a call
    admitted before the breaker opened and succeeding afterwards closes it at
    once, and the next call is admitted at the very time it opened. *)
Theorem late_success_closes_open_breaker :
  exists opened closed next,
    rtc step (init (default_breaker "x") 0) opened
    /\ _state (br opened) = OPEN /\ _opened_at (br opened) = time opened
    /\ step opened closed /\ _state (br closed) = CLOSED
    /\ step closed next /\ inflight next = S (inflight closed)
    /\ time next = _opened_at (br opened).
Proof.
  set (adm n := {| br := default_breaker "x"; inflight := n; time := 0 |}).
  assert (forall n, step (adm n) (adm (S n))) as Hadm.
  { intros n. apply (step_admit (adm n) 0); [done|reflexivity]. }
  set (fl k := {| br := Nat.iter k (_on_failure 0) (default_breaker "x");
                  inflight := (6 - k)%nat; time := 0 |}).
  assert (forall k, (k < 6)%nat -> step (fl k) (fl (S k))) as Hfl.
  { intros k Hk. unfold fl. simpl Nat.iter.
    apply (step_failure {| br := _; inflight := (6 - k)%nat; time := 0 |} 0); simpl; lia. }
  exists (fl 5%nat), {| br := _on_success (br (fl 5%nat)); inflight := 0; time := 0 |},
    {| br := _on_success (br (fl 5%nat)); inflight := 1; time := 0 |}.
  split_and!.
  - do 6 (eapply rtc_l; [apply Hadm|]). change (adm 6%nat) with (fl 0%nat).
    do 5 (eapply rtc_l; [apply Hfl; lia|]). apply rtc_refl.
  - reflexivity.
  - reflexivity.
  - apply (step_success (fl 5%nat) 0 0); [simpl; lia|reflexivity].
  - reflexivity.
  - apply (step_admit {| br := _; inflight := 0; time := 0 |} 0); [simpl; lia|reflexivity].
  - reflexivity.
  - reflexivity.
Qed.

End CircuitBreaker.
