(* ===== verification/Cache.v ===== *)
(** * Cache

    [app/resilience/cache.py].  The [Cache] protocol is a class: the three
    operations, and a view of a cache at a time, in which its laws are stated.
    Clients are proved against the laws; the in-memory cache and the Redis
    cache discharge them, the latter for any server that keeps the documented
    contract of [GET], [SET ... EX] and [DEL].  [now] is the clock reading an
    operation sees; times and expiry instants are floats. *)
From S2P Require Import Prelude Errors Float64.

(** ** The protocol *)

Class Cache (S : Type) : Type := {
  cache_get : Z -> string -> M exn S (option string);
  cache_set : Z -> string -> string -> Z -> M exn S unit;
  cache_delete : Z -> string -> M exn S unit;
  (** The value a key has at a time, and when a value set now expires. *)
  cache_view : S -> Z -> string -> option string;
  cache_deadline : Z -> Z -> Z;
}.

Class CacheLaws (S : Type) `{Cache S} : Prop := {
  get_law now k s : exists s',
    cache_get now k s = (Ok (cache_view s now k), s')
    /\ forall t k', now <= t -> cache_view s' t k' = cache_view s t k';
  set_law now k v ttl s : 0 < ttl -> exists s',
    cache_set now k v ttl s = (Ok tt, s')
    /\ forall t k', now <= t ->
         cache_view s' t k' =
           if decide (k = k') then (if t <? cache_deadline now ttl then Some v else None)
           else cache_view s t k';
  delete_law now k s : exists s',
    cache_delete now k s = (Ok tt, s')
    /\ forall t k', now <= t ->
         cache_view s' t k' = if decide (k = k') then None else cache_view s t k';
  (** Without a write a value can only disappear. *)
  view_antitone s t t' k v :
    t <= t' -> cache_view s t' k = Some v -> cache_view s t k = Some v;
}.

Module Cache.

(** ** In memory *)
Module InMemoryCache.

(** [_store]: value and expiry instant of each key. *)
Abbreviation store := (gmap string (string * Z)).

Definition empty : store := ∅.

Definition get (now : Z) (key : string) : M exn store (option string) :=
  fun s =>
    match s !! key with
    | None => (Ok None, s)
    | Some (value, expires_at) =>
        if expires_at <=? now then (Ok None, delete key s) else (Ok (Some value), s)
    end.

Definition deadline (now ttl : Z) : Z := F64.add now (F64.of_int ttl).

Definition set (now : Z) (key value : string) (ttl : Z) : M exn store unit :=
  fun s => (Ok tt, <[key := (value, deadline now ttl)]> s).

Definition delete_ (now : Z) (key : string) : M exn store unit :=
  fun s => (Ok tt, delete key s).

Definition clear : M exn store unit := fun _ => (Ok tt, ∅).

Definition view (s : store) (now : Z) (key : string) : option string :=
  match s !! key with
  | Some (value, expires_at) => if expires_at <=? now then None else Some value
  | None => None
  end.

Lemma view_set s now key value ttl t k :
  view (<[key := (value, deadline now ttl)]> s) t k =
    if decide (key = k) then (if t <? deadline now ttl then Some value else None)
    else view s t k.
Proof.
  unfold view. destruct (decide (key = k)) as [->|Hne].
  - rewrite lookup_insert_eq.
    destruct (Z.leb_spec (deadline now ttl) t), (Z.ltb_spec t (deadline now ttl)); lia || done.
  - by rewrite lookup_insert_ne.
Qed.

Lemma view_delete s key t k :
  view (delete key s) t k = if decide (key = k) then None else view s t k.
Proof.
  unfold view. destruct (decide (key = k)) as [->|Hne].
  - by rewrite lookup_delete_eq.
  - by rewrite lookup_delete_ne.
Qed.

(** Reading drops an expired entry, which nobody could have read later. *)
Lemma view_get s now key t k : now <= t -> view (get now key s).2 t k = view s t k.
Proof.
  intros Ht. unfold get. destruct (s !! key) as [[value expires_at]|] eqn:E; [|done].
  destruct (Z.leb_spec expires_at now) as [Hexp|]; [|done]. simpl.
  rewrite view_delete. destruct (decide (key = k)) as [<-|]; [|done].
  unfold view. rewrite E. destruct (Z.leb_spec expires_at t); [done|lia].
Qed.

Lemma get_result s now key : (get now key s).1 = Ok (view s now key).
Proof.
  unfold get, view. destruct (s !! key) as [[value expires_at]|]; [|done].
  by destruct (expires_at <=? now).
Qed.

End InMemoryCache.

#[global] Instance in_memory_cache : Cache InMemoryCache.store := {|
  cache_get := InMemoryCache.get;
  cache_set := InMemoryCache.set;
  cache_delete := InMemoryCache.delete_;
  cache_view := InMemoryCache.view;
  cache_deadline := InMemoryCache.deadline;
|}.

#[global] Instance in_memory_cache_laws : CacheLaws InMemoryCache.store.
Proof.
  constructor; simpl.
  - intros now k s. exists (InMemoryCache.get now k s).2. split.
    + rewrite <- InMemoryCache.get_result. by destruct (InMemoryCache.get now k s).
    + intros t k' Ht. by apply InMemoryCache.view_get.
  - intros now k v ttl s _. eexists. split; [reflexivity|].
    intros t k' _. apply InMemoryCache.view_set.
  - intros now k s. eexists. split; [reflexivity|]. intros t k' _. apply InMemoryCache.view_delete.
  - intros s t t' k v Ht. unfold InMemoryCache.view.
    destruct (s !! k) as [[value expires_at]|]; [|done].
    destruct (Z.leb_spec expires_at t'); [done|]. intros [= ->].
    destruct (Z.leb_spec expires_at t); [lia|done].
Qed.

(** ** Redis

    The server is not part of the program: its commands are a parameter, with
    their documented behaviour as laws.  A value comes back as bytes. *)
Class RedisServer (R : Type) : Type := {
  redis_get : Z -> string -> M exn R (option string);
  redis_set_ex : Z -> string -> string -> Z -> M exn R unit;
  redis_del : Z -> string -> M exn R unit;
  redis_view : R -> Z -> string -> option string;
  redis_deadline : Z -> Z -> Z;
}.

Class RedisServerLaws (R : Type) `{RedisServer R} : Prop := {
  redis_get_law now k s : exists s',
    redis_get now k s = (Ok (redis_view s now k), s')
    /\ forall t k', now <= t -> redis_view s' t k' = redis_view s t k';
  (** [SET k v EX ttl] takes a positive number of seconds. *)
  redis_set_law now k v ttl s : 0 < ttl -> exists s',
    redis_set_ex now k v ttl s = (Ok tt, s')
    /\ forall t k', now <= t ->
         redis_view s' t k' =
           if decide (k = k') then (if t <? redis_deadline now ttl then Some v else None)
           else redis_view s t k';
  redis_del_law now k s : exists s',
    redis_del now k s = (Ok tt, s')
    /\ forall t k', now <= t ->
         redis_view s' t k' = if decide (k = k') then None else redis_view s t k';
  redis_expiry_law s t t' k v :
    t <= t' -> redis_view s t' k = Some v -> redis_view s t k = Some v;
}.

Module RedisCache.
Section redis.
Context {R : Type} `{RedisServer R}.

(** [value.decode()] of the bytes the server returned: the text it was given. *)
Definition get (now : Z) (key : string) : M exn R (option string) :=
  value ← redis_get now key;
  match value with
  | None => mret None
  | Some v => mret (Some v)
  end.

Definition set (now : Z) (key value : string) (ttl : Z) : M exn R unit :=
  redis_set_ex now key value ttl.

Definition delete_ (now : Z) (key : string) : M exn R unit := redis_del now key.

Lemma get_eq now key s : get now key s = redis_get now key s.
Proof.
  unfold get, mbind, m_bind. by destruct (redis_get now key s) as [[[v|]|e] s'].
Qed.

End redis.
End RedisCache.

Section redis_instance.
Context {R : Type} `{RedisServer R}.

(** [RedisCache(client)] as a [Cache]. *)
Definition redis_cache : Cache R := {|
  cache_get := RedisCache.get;
  cache_set := RedisCache.set;
  cache_delete := RedisCache.delete_;
  cache_view := redis_view;
  cache_deadline := redis_deadline;
|}.

Lemma redis_cache_laws `{!RedisServerLaws R} : @CacheLaws R redis_cache.
Proof.
  constructor; simpl.
  - intros now k s. rewrite RedisCache.get_eq. apply redis_get_law.
  - intros now k v ttl s. apply redis_set_law.
  - intros now k s. apply redis_del_law.
  - intros s t t' k v. apply redis_expiry_law.
Qed.

End redis_instance.

(** ** The in-memory cache against its history *)

Inductive op : Type :=
| OpGet (now : Z) (key : string)
| OpSet (now : Z) (key value : string) (ttl : Z)
| OpDelete (now : Z) (key : string)
| OpClear (now : Z).

Definition op_time (o : op) : Z :=
  match o with
  | OpGet now _ | OpSet now _ _ _ | OpDelete now _ | OpClear now => now
  end.

Definition run_op (s : InMemoryCache.store) (o : op) : InMemoryCache.store :=
  match o with
  | OpGet now key => (InMemoryCache.get now key s).2
  | OpSet now key value ttl => (InMemoryCache.set now key value ttl s).2
  | OpDelete now key => (InMemoryCache.delete_ now key s).2
  | OpClear _ => (InMemoryCache.clear s).2
  end.

Definition run_ops (ops : list op) : InMemoryCache.store := foldl run_op InMemoryCache.empty ops.

(** The abstract cache is the history alone: the value of the last write to
    the key, while its time to live has not passed. *)
Definition spec_step (key : string) (w : option (string * Z)) (o : op) : option (string * Z) :=
  match o with
  | OpGet _ _ => w
  | OpSet now k value ttl =>
      if decide (k = key) then Some (value, InMemoryCache.deadline now ttl) else w
  | OpDelete _ k => if decide (k = key) then None else w
  | OpClear _ => None
  end.

Definition last_write (ops : list op) (key : string) : option (string * Z) :=
  foldl (spec_step key) None ops.

Definition spec_get (ops : list op) (now : Z) (key : string) : option string :=
  match last_write ops key with
  | Some (value, expires_at) => if expires_at <=? now then None else Some value
  | None => None
  end.

(** Clock readings never go back. *)
Definition timed (ops : list op) (now : Z) : Prop :=
  StronglySorted Z.le ((op_time <$> ops) ++ [now]).

Lemma timed_snoc ops o now :
  timed (ops ++ [o]) now -> timed ops (op_time o) /\ op_time o <= now.
Proof.
  unfold timed. rewrite fmap_app. simpl. intros Hs. split.
  - by apply StronglySorted_app_1_l in Hs.
  - apply (StronglySorted_app_1_elem_of _ _ _ _ _ Hs); [|by left].
    apply elem_of_app. right. by left.
Qed.

Lemma timed_weaken ops now now' : timed ops now -> now <= now' -> timed ops now'.
Proof.
  unfold timed. rewrite !StronglySorted_app. intros (H1 & H2 & _) Hn. split_and!; [|done|].
  - intros x y Hx ->%list_elem_of_singleton. etrans; [apply (H1 x now Hx); by left|done].
  - by repeat constructor.
Qed.

Lemma view_run_ops ops now key :
  timed ops now -> InMemoryCache.view (run_ops ops) now key = spec_get ops now key.
Proof.
  unfold run_ops, spec_get, last_write. revert now key.
  induction ops as [|o ops IH] using rev_ind; intros now key Ht; [done|].
  apply timed_snoc in Ht as [Ht Hle]. pose proof (timed_weaken _ _ _ Ht Hle) as Ht'.
  rewrite !foldl_app. simpl. destruct o as [n k|n k v ttl|n k|n]; simpl in *.
  - rewrite InMemoryCache.view_get by done. by apply IH.
  - rewrite InMemoryCache.view_set. destruct (decide (k = key)) as [->|]; [|by apply IH].
    destruct (Z.ltb_spec now (InMemoryCache.deadline n ttl)),
      (Z.leb_spec (InMemoryCache.deadline n ttl) now); lia || done.
  - rewrite InMemoryCache.view_delete. destruct (decide (k = key)); [done|by apply IH].
  - done.
Qed.

(** ** Properties *)

(** C26. The in-memory cache implements the abstract cache of its history: a
    read returns the value of the last write to the key when that write has
    not expired and nothing removed it since, and nothing otherwise -- the
    entries dropped by earlier reads make no difference. *)
Theorem in_memory_refines_history ops now key :
  timed ops now ->
  (InMemoryCache.get now key (run_ops ops)).1 = Ok (spec_get ops now key).
Proof. intros Ht. rewrite InMemoryCache.get_result. by rewrite view_run_ops. Qed.

Lemma in_memory_refines_history_witness :
  (InMemoryCache.get (50 * F64.one) "k"
     (run_ops [OpSet 0 "k" "v" 100; OpSet 0 "gone" "w" 0; OpGet (20 * F64.one) "gone"])).1
  = Ok (Some "v"%string).
Proof.
  rewrite in_memory_refines_history.
  - vm_compute. reflexivity.
  - unfold timed. simpl. repeat constructor; vm_compute; discriminate.
Defined.

End Cache.
