(* ===== verification/HttpClient.v ===== *)
(** * Resilient HTTP client

    [app/providers/http_client.py]: retry with exponential backoff, behind a
    circuit breaker, behind an optional cache.  The HTTP library, the clock
    and the sleep are an environment [U] outside the program: [fetch] sends
    one request and returns what came of it.  [json.dumps]/[json.loads] and
    SHA-256 are parameters, the former with its documented round trip. *)
From S2P Require Import Prelude PyStr Errors Float64 CircuitBreaker Cache.
Import PyStr.

Module HttpClient.

(** What one [client.get] comes to: a response, with its status and what
    [response.json()] gives ([None]: not JSON, a [ValueError]); an
    [httpx.TransportError]; or another exception. *)
Inductive fetch_outcome : Type :=
| Response (status : Z) (body : option json)
| TransportError
| OtherError (e : exn).

Definition _RETRYABLE_STATUS : list Z := [429; 500; 502; 503; 504].

(** What the body of the [try] does with an outcome: return a payload, raise
    an exception the [except] clause catches, or another one. *)
Inductive attempt_result : Type :=
| Payload (p : json)
| Caught
| Escapes (e : exn).

Definition attempt (o : fetch_outcome) : attempt_result :=
  match o with
  | TransportError => Caught
  | OtherError e => Escapes e
  | Response status body =>
      if bool_decide (status ∈ _RETRYABLE_STATUS) then Caught
      else if negb ((200 <=? status) && (status <? 300)) then Caught
      else match body with
           | Some p => Payload p
           | None => Escapes (PyError "JSONDecodeError" "Expecting value")
           end
  end.

(** The attributes of a client besides its HTTP library and its breaker. *)
Record client : Type := {
  _provider : string;
  _has_cache : bool;
  _max_retries : Z;
  _backoff_base : Z;
}.

Definition params : Type := list (string * json).

Section client.
Context {C : Type} `{Cache C} {U : Type}.
Variable fetch : string -> params -> U -> fetch_outcome * U.
Variable sleep : Z -> U -> U.
Variable now : U -> Z.
(** [json.dumps(value, sort_keys=...)]. *)
Variable json_dumps : bool -> json -> string.
Variable json_loads : string -> option json.
Variable sha256_hex : string -> string.

(** What a call reads and changes. *)
Record world : Type := {
  w_cache : C;
  w_breaker : CircuitBreaker.breaker;
  w_env : U;
}.

Definition set_cache (c : C) (w : world) : world :=
  {| w_cache := c; w_breaker := w_breaker w; w_env := w_env w |}.
Definition set_breaker (b : CircuitBreaker.breaker) (w : world) : world :=
  {| w_cache := w_cache w; w_breaker := b; w_env := w_env w |}.
Definition set_env (u : U) (w : world) : world :=
  {| w_cache := w_cache w; w_breaker := w_breaker w; w_env := u |}.

(** [self._backoff_base * (2**attempt)]. *)
Definition backoff (self : client) (attempt : Z) : Z :=
  F64.mul (_backoff_base self) (F64.of_int (2 ^ attempt)).

Definition gave_up (self : client) : exn :=
  AppError ProviderUnavailableError
    (_provider self +:+ " request failed after " +:+ str_of_int (_max_retries self + 1)
     +:+ " attempts") [].

(** The loop over [range(self._max_retries + 1)], from attempt [i] on, with
    [left] of them to go. *)
Fixpoint retry_loop (self : client) (url : string) (ps : params) (left : nat) (i : Z)
  : M exn U json :=
  match left with
  | O => raise (gave_up self)
  | S left' => fun u =>
      let '(o, u) := fetch url ps u in
      match attempt o with
      | Payload p => (Ok p, u)
      | Escapes e => (Err e, u)
      | Caught =>
          if i <? _max_retries self then
            retry_loop self url ps left' (i + 1) (sleep (backoff self i) u)
          else (Err (gave_up self), u)
      end
  end.

Definition _get_with_retry (self : client) (url : string) (ps : params) : M exn U json :=
  retry_loop self url ps (Z.to_nat (_max_retries self + 1)) 0.

Definition take_string (n : nat) (s : string) : string :=
  of_chars (take n (chars s)).

Definition _cache_key (self : client) (url : string) (ps : params) : string :=
  let raw := _provider self +:+ ":" +:+ url +:+ ":" +:+ json_dumps true (JObj ps) in
  "http:" +:+ _provider self +:+ ":" +:+ take_string 32 (sha256_hex raw).

(** [breaker.call(...)], with [CircuitBreakerOpen] turned into a 503. *)
Definition guarded (self : client) (url : string) (ps : params) : M exn world json :=
  (CircuitBreaker.call w_breaker set_breaker (fun w => now (w_env w))
     (zoom w_env set_env (_get_with_retry self url ps))
   except (fun e =>
     match e with
     | CircuitBreakerOpen _ =>
         raise (AppError ProviderUnavailableError
                  (_provider self +:+ " is temporarily unavailable") [])
     | _ => raise e
     end))%effect.

Definition cached (key : string) : M exn world (option string) :=
  fun w => zoom w_cache set_cache (cache_get (now (w_env w)) key) w.

Definition store (key value : string) (ttl : Z) : M exn world unit :=
  fun w => zoom w_cache set_cache (cache_set (now (w_env w)) key value ttl) w.

(** [json.loads(cached)]. *)
Definition loads (s : string) : M exn world json :=
  match json_loads s with
  | Some p => mret p
  | None => raise (PyError "JSONDecodeError" "Expecting value")
  end.

(** [json.loads] of a hit, or the guarded request and the write of its answer. *)
Definition get_json (self : client) (url : string) (ps : params) (cache_ttl : option Z)
  : M exn world json :=
  match cache_ttl with
  | Some ttl =>
      if negb (ttl =? 0) && _has_cache self then
        let key := _cache_key self url ps in
        hit ← cached key;
        match hit with
        | Some text => loads text
        | None =>
            payload ← guarded self url ps;
            store key (json_dumps false payload) ttl;;
            mret payload
        end
      else guarded self url ps
  | None => guarded self url ps
  end.

(** ** Specification of the retry loop *)

(** [caught_attempts n u u']: [n] requests in a row, from [u], each ended in a
    caught error, and a backoff sleep followed each; they left [u']. *)
Inductive caught_attempts (self : client) (url : string) (ps : params) : nat -> U -> U -> Prop :=
| caught_none u : caught_attempts self url ps 0 u u
| caught_more n u u1 o u2 :
    caught_attempts self url ps n u u1 ->
    fetch url ps u1 = (o, u2) ->
    attempt o = Caught ->
    caught_attempts self url ps (S n) u (sleep (backoff self (Z.of_nat n)) u2).

(** How a request with retries may end. *)
Inductive retry_result (self : client) (url : string) (ps : params) (u : U)
  : res exn json -> U -> Prop :=
| retry_payload n u1 o u2 p :
    Z.of_nat n <= _max_retries self ->
    caught_attempts self url ps n u u1 ->
    fetch url ps u1 = (o, u2) -> attempt o = Payload p ->
    retry_result self url ps u (Ok p) u2
| retry_escape n u1 o u2 e :
    Z.of_nat n <= _max_retries self ->
    caught_attempts self url ps n u u1 ->
    fetch url ps u1 = (o, u2) -> attempt o = Escapes e ->
    retry_result self url ps u (Err e) u2
| retry_gave_up n u1 o u2 :
    Z.of_nat n = _max_retries self ->
    caught_attempts self url ps n u u1 ->
    fetch url ps u1 = (o, u2) -> attempt o = Caught ->
    retry_result self url ps u (Err (gave_up self)) u2.

Lemma retry_loop_result self url ps left n u0 u :
  Z.of_nat (left + n) = _max_retries self + 1 -> (0 < left)%nat ->
  caught_attempts self url ps n u0 u ->
  retry_result self url ps u0
    (retry_loop self url ps left (Z.of_nat n) u).1 (retry_loop self url ps left (Z.of_nat n) u).2.
Proof.
  revert n u. induction left as [|left IH]; intros n u Hn Hl Hc; [lia|].
  cbn [retry_loop]. destruct (fetch url ps u) as [o u2] eqn:E. destruct (attempt o) eqn:Ea.
  - apply (retry_payload _ _ _ _ n u o); [lia|done..].
  - destruct (Z.ltb_spec (Z.of_nat n) (_max_retries self)) as [Hlt|Hge].
    + replace (Z.of_nat n + 1) with (Z.of_nat (S n)) by lia.
      apply IH; [lia|lia|]. by apply (caught_more _ _ _ n u0 u o).
    + apply (retry_gave_up _ _ _ _ n u o); [lia|done..].
  - apply (retry_escape _ _ _ _ n u o); [lia|done..].
Qed.

Lemma caught_attempts_det self url ps n u u1 u1' :
  caught_attempts self url ps n u u1 -> caught_attempts self url ps n u u1' -> u1 = u1'.
Proof.
  intros H1. revert u1'. induction H1 as [|n u u1 o u2 H1 IH Hf Ha]; intros u1' H2.
  - by inversion H2.
  - inversion H2 as [|n' v v1 o' v2 H1' Hf' Ha']; subst.
    rewrite (IH _ H1') in Hf. rewrite Hf in Hf'. by injection Hf' as _ ->.
Qed.

Lemma retry_loop_skip self url ps n u u1 :
  caught_attempts self url ps n u u1 ->
  forall left, Z.of_nat (left + n) = _max_retries self + 1 -> (0 < left)%nat ->
  retry_loop self url ps (left + n) 0 u = retry_loop self url ps left (Z.of_nat n) u1.
Proof.
  induction 1 as [|n u u1 o u2 Hc IH Hf Ha]; intros left Hn Hl.
  - by rewrite Nat.add_0_r.
  - replace (left + S n)%nat with (S left + n)%nat by lia. rewrite IH by lia.
    cbn [retry_loop]. rewrite Hf, Ha.
    destruct (Z.ltb_spec (Z.of_nat n) (_max_retries self)); [|lia].
    by replace (Z.of_nat (S n)) with (Z.of_nat n + 1) by lia.
Qed.

(** The turn of the loop after [n] caught attempts. *)
Lemma retry_loop_turn self url ps n u u1 o u2 :
  0 <= _max_retries self -> Z.of_nat n <= _max_retries self ->
  caught_attempts self url ps n u u1 -> fetch url ps u1 = (o, u2) ->
  _get_with_retry self url ps u =
    match attempt o with
    | Payload p => (Ok p, u2)
    | Escapes e => (Err e, u2)
    | Caught =>
        if Z.of_nat n <? _max_retries self then
          retry_loop self url ps (Z.to_nat (_max_retries self) - n) (Z.of_nat n + 1)
            (sleep (backoff self (Z.of_nat n)) u2)
        else (Err (gave_up self), u2)
    end.
Proof.
  intros Hm Hn Hc Hf. unfold _get_with_retry.
  replace (Z.to_nat (_max_retries self + 1))
    with (S (Z.to_nat (_max_retries self) - n) + n)%nat by lia.
  rewrite (retry_loop_skip _ _ _ n u u1 Hc) by lia. cbn [retry_loop]. by rewrite Hf.
Qed.

Lemma get_with_retry_iff self url ps u r u' :
  0 <= _max_retries self ->
  _get_with_retry self url ps u = (r, u') <-> retry_result self url ps u r u'.
Proof.
  intros Hm. split.
  - intros Hrun. unfold _get_with_retry in Hrun.
    pose proof (retry_loop_result self url ps (Z.to_nat (_max_retries self + 1)) 0 u u
      ltac:(lia) ltac:(lia) (caught_none _ _ _ _)) as Hr.
    change (Z.of_nat 0) with 0 in Hr. by rewrite Hrun in Hr.
  - intros Hr. inversion Hr as [n u1 o u2 p Hn Hc Hf Ha|n u1 o u2 e Hn Hc Hf Ha|n u1 o u2 Hn Hc Hf Ha];
      subst; rewrite (retry_loop_turn _ _ _ n u u1 o u' Hm) by (done || lia); rewrite Ha; [done..|].
    destruct (Z.ltb_spec (Z.of_nat n) (_max_retries self)); [lia|done].
Qed.

(** ** Properties of the caller *)

Lemma guarded_open self url ps w :
  CircuitBreaker._state (w_breaker w) = CircuitBreaker.OPEN ->
  F64.sub (now (w_env w)) (CircuitBreaker._opened_at (w_breaker w))
    < CircuitBreaker._recovery_seconds (w_breaker w) ->
  guarded self url ps w
  = (Err (AppError ProviderUnavailableError (_provider self +:+ " is temporarily unavailable") []), w).
Proof.
  intros Ho Ht. unfold guarded, try_catch, CircuitBreaker.call, CircuitBreaker.enter_call,
    CircuitBreaker._maybe_half_open. rewrite Ho. simpl.
  destruct (Z.leb_spec (CircuitBreaker._recovery_seconds (w_breaker w))
    (F64.sub (now (w_env w)) (CircuitBreaker._opened_at (w_breaker w)))); [lia|].
  simpl. rewrite Ho. simpl. by destruct w.
Qed.

Lemma guarded_cache self url ps w r w' :
  guarded self url ps w = (r, w') -> w_cache w' = w_cache w.
Proof.
  unfold guarded, try_catch, CircuitBreaker.call, zoom.
  destruct (CircuitBreaker.enter_call _ _) as [[] b]; simpl.
  - destruct (_get_with_retry _ _ _ _) as [[p|e] u]; simpl.
    + by intros [= _ <-].
    + destruct e; by intros [= _ <-].
  - by intros [= _ <-].
Qed.

(** A hit is answered from the cache. *)
Lemma get_json_hit self url ps ttl w text p `{!CacheLaws C} :
  ttl <> 0 -> _has_cache self = true ->
  cache_view (w_cache w) (now (w_env w)) (_cache_key self url ps) = Some text ->
  json_loads text = Some p ->
  exists c', get_json self url ps (Some ttl) w = (Ok p, set_cache c' w).
Proof.
  intros Ht Hc Hv Hl. unfold get_json. destruct (Z.eqb_spec ttl 0); [done|]. rewrite Hc. simpl.
  destruct (get_law (now (w_env w)) (_cache_key self url ps) (w_cache w)) as (c' & Hg & _).
  exists c'. unfold mbind, m_bind, cached, zoom. rewrite Hg, Hv. unfold loads. by rewrite Hl.
Qed.

(** A miss is the guarded request, whose answer is then stored. *)
Lemma get_json_miss self url ps ttl w `{!CacheLaws C} :
  ttl <> 0 -> _has_cache self = true ->
  cache_view (w_cache w) (now (w_env w)) (_cache_key self url ps) = None ->
  exists c',
    get_json self url ps (Some ttl) w =
      match guarded self url ps (set_cache c' w) with
      | (Ok p, w1) =>
          match store (_cache_key self url ps) (json_dumps false p) ttl w1 with
          | (Ok _, w2) => (Ok p, w2)
          | (Err e, w2) => (Err e, w2)
          end
      | (Err e, w1) => (Err e, w1)
      end.
Proof.
  intros Ht Hc Hv. unfold get_json. destruct (Z.eqb_spec ttl 0); [done|]. rewrite Hc. simpl.
  destruct (get_law (now (w_env w)) (_cache_key self url ps) (w_cache w)) as (c' & Hg & _).
  exists c'. unfold mbind, m_bind, cached, zoom. rewrite Hg, Hv.
  destruct (guarded _ _ _ _) as [[p|e] w1]; [|done].
  by destruct (store _ _ _ _) as [[[]|e] w2].
Qed.

End client.

Arguments world C U : clear implicits.
Arguments w_cache {C U} _.
Arguments w_breaker {C U} _.
Arguments w_env {C U} _.

(** ** A scripted environment

    The upstream answers from a list, then refuses connections; requests and
    sleeps are recorded; the clock is moved by the sleeps. *)
Record script : Type := {
  sc_answers : list fetch_outcome;
  sc_requests : Z;
  sc_sleeps : list Z;
  sc_clock : Z;
}.

Definition script_fetch (url : string) (ps : params) (u : script) : fetch_outcome * script :=
  (from_option id TransportError (head (sc_answers u)),
   {| sc_answers := tail (sc_answers u); sc_requests := sc_requests u + 1;
      sc_sleeps := sc_sleeps u; sc_clock := sc_clock u |}).

Definition script_sleep (d : Z) (u : script) : script :=
  {| sc_answers := sc_answers u; sc_requests := sc_requests u;
     sc_sleeps := sc_sleeps u ++ [d]; sc_clock := F64.add (sc_clock u) d |}.

Definition sample_client : client :=
  {| _provider := "open-meteo"; _has_cache := true; _max_retries := 2;
     _backoff_base := F64.of_dec 2 1 |}.

Definition fresh_script (answers : list fetch_outcome) : script :=
  {| sc_answers := answers; sc_requests := 0; sc_sleeps := []; sc_clock := 0 |}.

Definition sample_payload : json := JObj [("ok"%string, JBool true)].

Definition sample_world (answers : list fetch_outcome) : world Cache.InMemoryCache.store script :=
  {| w_cache := Cache.InMemoryCache.empty;
     w_breaker := CircuitBreaker.default_breaker "open-meteo";
     w_env := fresh_script answers |}.

(** One payload, and so one text, is enough for the witnesses. *)
Definition sample_get_json : string -> params -> option Z ->
    M exn (world Cache.InMemoryCache.store script) json :=
  get_json script_fetch script_sleep sc_clock
    (fun _ _ => "{ok: true}"%string) (fun _ => Some sample_payload) (fun raw => raw) sample_client.

(** ** Properties *)

(** C23. A request with retries ends, and ends as specified, in each case and
    only so: with the payload of the first attempt that gives one, after at
    most [max_retries] caught errors each followed by the backoff sleep of its
    attempt; with the first exception that is not caught; or, after
    [max_retries + 1] caught errors, with the 503 of the provider. *)
Theorem retry_spec {U} (fetch : string -> params -> U -> fetch_outcome * U) (sleep : Z -> U -> U)
    self url ps u r u' :
  0 <= _max_retries self ->
  _get_with_retry fetch sleep self url ps u = (r, u') <-> retry_result fetch sleep self url ps u r u'.
Proof. apply get_with_retry_iff. Qed.

Lemma retry_spec_witness :
  retry_result script_fetch script_sleep sample_client "http://svc/data" []
    (fresh_script [Response 503 None; TransportError; Response 200 (Some sample_payload)])
    (Ok sample_payload)
    {| sc_answers := []; sc_requests := 3;
       sc_sleeps := [F64.of_dec 2 1; F64.of_dec 4 1];
       sc_clock := F64.add (F64.of_dec 2 1) (F64.of_dec 4 1) |}.
Proof.
  apply (retry_spec script_fetch script_sleep sample_client); [discriminate|].
  vm_compute. reflexivity.
Defined.

(** A response that is not retryable by [_RETRYABLE_STATUS] is retried
    all the same: the exception [raise_for_status] raises is the one the loop
    catches.  Three requests are sent for a resource that does not exist. *)
Theorem not_found_is_retried :
  (404 ∉ _RETRYABLE_STATUS)
  /\ let '(r, u) := _get_with_retry script_fetch script_sleep sample_client "http://svc/data" []
                      (fresh_script [Response 404 None; Response 404 None; Response 404 None]) in
     r = Err (gave_up sample_client) /\ sc_requests u = 3
     /\ sc_sleeps u = [F64.of_dec 2 1; F64.of_dec 4 1].
Proof. split; [by apply (bool_decide_unpack _)|]. vm_compute. done. Qed.

(** While the breaker is open and its recovery time has not passed, a
    request that the cache cannot answer is refused with the provider's 503
    without reaching the network: neither the environment nor the breaker
    changes. *)
Theorem get_json_fails_fast {C U} `{CacheLaws C} (fetch : string -> params -> U -> fetch_outcome * U)
    sleep now dumps loads sha self url ps ttl (w : world C U) :
  CircuitBreaker._state (w_breaker w) = CircuitBreaker.OPEN ->
  F64.sub (now (w_env w)) (CircuitBreaker._opened_at (w_breaker w))
    < CircuitBreaker._recovery_seconds (w_breaker w) ->
  (ttl <> 0 -> cache_view (w_cache w) (now (w_env w)) (_cache_key dumps sha self url ps) = None) ->
  exists w',
    get_json fetch sleep now dumps loads sha self url ps (Some ttl) w
    = (Err (AppError ProviderUnavailableError (_provider self +:+ " is temporarily unavailable") []), w')
    /\ w_env w' = w_env w /\ w_breaker w' = w_breaker w.
Proof.
  intros Ho Ht Hv.
  destruct (decide (ttl = 0)) as [->|Hne]; [|destruct (_has_cache self) eqn:Hc].
  - exists w. split; [|done]. unfold get_json. simpl. by apply guarded_open.
  - destruct (get_json_miss fetch sleep now dumps loads sha self url ps ttl w Hne Hc (Hv Hne)) as [c' ->].
    rewrite guarded_open by done. by exists (set_cache c' w).
  - exists w. split; [|done]. unfold get_json. rewrite Hc, andb_false_r. by apply guarded_open.
Qed.

Lemma get_json_fails_fast_witness :
  exists w', sample_get_json "http://svc/data" [] (Some 60)
      {| w_cache := Cache.InMemoryCache.empty;
         w_breaker := CircuitBreaker.fail_calls 5 0 (CircuitBreaker.default_breaker "open-meteo");
         w_env := fresh_script [] |}
    = (Err (AppError ProviderUnavailableError "open-meteo is temporarily unavailable" []), w')
    /\ sc_requests (w_env w') = 0.
Proof.
  destruct (get_json_fails_fast script_fetch script_sleep sc_clock (fun _ _ => "{ok: true}"%string)
    (fun _ => Some sample_payload) (fun raw => raw) sample_client "http://svc/data" [] 60
    {| w_cache := Cache.InMemoryCache.empty;
       w_breaker := CircuitBreaker.fail_calls 5 0 (CircuitBreaker.default_breaker "open-meteo");
       w_env := fresh_script [] |}) as (w' & H & He & _);
    [reflexivity|vm_compute; reflexivity|reflexivity|].
  exists w'. split; [exact H|]. by rewrite He.
Defined.

(** What a request fetched is served from the cache until it expires: a
    second call at any later time before the deadline returns the same
    payload, without touching the network or the breaker. *)
Theorem get_json_cached {C U} `{CacheLaws C} (fetch : string -> params -> U -> fetch_outcome * U)
    sleep now dumps loads sha self url ps ttl (w w1 w2 : world C U) p :
  0 < ttl -> _has_cache self = true ->
  loads (dumps false p) = Some p ->
  cache_view (w_cache w) (now (w_env w)) (_cache_key dumps sha self url ps) = None ->
  get_json fetch sleep now dumps loads sha self url ps (Some ttl) w = (Ok p, w1) ->
  w_cache w2 = w_cache w1 ->
  now (w_env w1) <= now (w_env w2) < cache_deadline (now (w_env w1)) ttl ->
  exists w3,
    get_json fetch sleep now dumps loads sha self url ps (Some ttl) w2 = (Ok p, w3)
    /\ w_env w3 = w_env w2 /\ w_breaker w3 = w_breaker w2.
Proof.
  intros Ht Hc Hjson Hv Hget Hw2 [Hlo Hhi].
  destruct (get_json_miss fetch sleep now dumps loads sha self url ps ttl w ltac:(lia) Hc Hv) as [c' Heq].
  rewrite Heq in Hget. destruct (guarded _ _ _ _ _ _ _) as [[p'|e] wg]; [|done].
  unfold store, zoom in Hget.
  destruct (set_law (now (w_env wg)) (_cache_key dumps sha self url ps) (dumps false p') ttl (w_cache wg) Ht)
    as (c1 & Hset & Hview).
  rewrite Hset in Hget. injection Hget as -> <-. cbn [w_cache w_env w_breaker set_cache] in *.
  assert (cache_view (w_cache w2) (now (w_env w2)) (_cache_key dumps sha self url ps) = Some (dumps false p))
    as Hhit.
  { rewrite Hw2, Hview, decide_True by done.
    destruct (Z.ltb_spec (now (w_env w2)) (cache_deadline (now (w_env wg)) ttl)); [done|lia]. }
  destruct (get_json_hit fetch sleep now dumps loads sha self url ps ttl w2 _ p ltac:(lia) Hc Hhit Hjson)
    as [c2 ->].
  by exists (set_cache c2 w2).
Qed.

Lemma get_json_cached_witness :
  exists w1 w3,
    sample_get_json "http://svc/data" [] (Some 60)
      (sample_world [Response 200 (Some sample_payload)]) = (Ok sample_payload, w1)
    /\ sc_requests (w_env w1) = 1
    /\ sample_get_json "http://svc/data" [] (Some 60) w1 = (Ok sample_payload, w3)
    /\ sc_requests (w_env w3) = 1.
Proof.
  set (w1 := snd (sample_get_json "http://svc/data" [] (Some 60)
                    (sample_world [Response 200 (Some sample_payload)]))).
  destruct (get_json_cached script_fetch script_sleep sc_clock (fun _ _ => "{ok: true}"%string)
    (fun _ => Some sample_payload) (fun raw => raw) sample_client "http://svc/data" [] 60
    (sample_world [Response 200 (Some sample_payload)]) w1 w1 sample_payload)
    as (w3 & H & He & _);
    [reflexivity|reflexivity|reflexivity|reflexivity|vm_compute; reflexivity|reflexivity
    |vm_compute; split; [discriminate|reflexivity]|].
  exists w1, w3. split; [vm_compute; reflexivity|]. split; [vm_compute; reflexivity|].
  split; [exact H|]. rewrite He. vm_compute. reflexivity.
Defined.

End HttpClient.
