(* ===== verification/RateLimit.v ===== *)
(** * Rate limiting

    [app/core/rate_limit.py].  The [RateLimiter] protocol is a class; the
    in-memory limiter is a sliding window over the clock's floats, the Redis
    limiter a fixed window kept by [INCR] and [EXPIRE NX] of a server that is
    a parameter with its documented laws.  The in-memory limiter reads the
    clock before it takes its lock, and the lock is first come, first served,
    so the checks take effect in the order of their clock readings: [run]
    performs them one after the other. *)
From S2P Require Import Prelude Errors Float64.

(** ** The protocol *)

Class RateLimiter (S : Type) : Type := {
  rl_limit : S -> Z;
  rl_check : Z -> string -> M exn S (bool * Z);
}.

(** What a client of a limiter relies on. *)
Class RateLimiterLaws (S : Type) `{RateLimiter S} : Prop := {
  rl_check_law now identity s : exists allowed remaining s',
    rl_check now identity s = (Ok (allowed, remaining), s')
    /\ rl_limit s' = rl_limit s
    /\ 0 <= remaining
    /\ (allowed = false -> remaining = 0);
}.

Module RateLimit.

(** ** In memory *)
Module InMemoryRateLimiter.

(** The attributes; [_window] is an integer, times are floats. *)
Record limiter : Type := {
  limit : Z;
  _window : Z;
  _hits : gmap string (list Z);
  _last_sweep : Z;
}.

(** [InMemoryRateLimiter(limit=..., window_seconds=...)] at a clock reading. *)
Definition mk_limiter (limit window_seconds : Z) (now : Z) : limiter :=
  {| limit := limit; _window := window_seconds; _hits := ∅; _last_sweep := now |}.

(** [tracked]. *)
Definition tracked (self : limiter) : nat := size (_hits self).

Definition set_hits (self : limiter) (hits : gmap string (list Z)) : limiter :=
  {| limit := limit self; _window := _window self; _hits := hits;
     _last_sweep := _last_sweep self |}.

(** [any(ts > cutoff for ts in hits)]. *)
Definition live (cutoff : Z) (hits : list Z) : bool := existsb (fun ts => cutoff <? ts) hits.

Definition _sweep (now cutoff : Z) (self : limiter) : limiter :=
  if F64.sub now (_last_sweep self) <? _window self * F64.one then self
  else
    {| limit := limit self; _window := _window self;
       _hits := filter (fun kv => live cutoff kv.2 = true) (_hits self);
       _last_sweep := now |}.

(** [now - self._window]. *)
Definition cutoff_of (window now : Z) : Z := F64.sub now (F64.of_int window).

Definition check (now : Z) (identity : string) : M exn limiter (bool * Z) :=
  fun self =>
    let cutoff := cutoff_of (_window self) now in
    let self := _sweep now cutoff self in
    let recent := filter (fun ts => cutoff < ts) (default [] (_hits self !! identity)) in
    if limit self <=? Z.of_nat (length recent) then
      (Ok (false, 0), set_hits self (<[identity := recent]> (_hits self)))
    else
      let recent := recent ++ [now] in
      (Ok (true, limit self - Z.of_nat (length recent)),
       set_hits self (<[identity := recent]> (_hits self))).

(** A check as a total function. *)
Definition verdict (now : Z) (identity : string) (self : limiter) : bool * Z :=
  match (check now identity self).1 with
  | Ok v => v
  | Err _ => (false, 0)
  end.

(** ** A run of checks: clock reading and identity of each *)

Fixpoint run (events : list (Z * string)) (self : limiter) : list (bool * Z) * limiter :=
  match events with
  | [] => ([], self)
  | (now, identity) :: events =>
      let '(vs, self') := run events (check now identity self).2 in
      (verdict now identity self :: vs, self')
  end.

(** The specification keeps every admitted check for ever. *)
Abbreviation log := (list (Z * string)).

Definition hits_of (l : log) (identity : string) : list Z :=
  fst <$> filter (fun e => e.2 = identity) l.

Definition spec_verdict (limit window : Z) (l : log) (now : Z) (identity : string) : bool * Z :=
  let n := Z.of_nat (length (filter (fun ts => cutoff_of window now < ts) (hits_of l identity))) in
  if limit <=? n then (false, 0) else (true, limit - (n + 1)).

Fixpoint spec_run (limit window : Z) (l : log) (events : list (Z * string)) : list (bool * Z) * log :=
  match events with
  | [] => ([], l)
  | (now, identity) :: events =>
      let v := spec_verdict limit window l now identity in
      let l' := if v.1 then l ++ [(now, identity)] else l in
      let '(vs, l'') := spec_run limit window l' events in
      (v :: vs, l'')
  end.

(** The events a run admitted. *)
Definition admitted (events : list (Z * string)) (verdicts : list (bool * Z)) : log :=
  fst <$> filter (fun ev => ev.2.1 = true) (zip events verdicts).

(** ** The simulation *)

Lemma cutoff_mono window t t' : t <= t' -> cutoff_of window t <= cutoff_of window t'.
Proof. intros. apply F64.sub_mono; lia. Qed.

Lemma live_false cutoff c hits :
  live cutoff hits = false -> cutoff <= c -> filter (fun ts => c < ts) hits = [].
Proof.
  unfold live. intros Hl Hc. induction hits as [|ts hits IH]; [done|].
  simpl in Hl. apply orb_false_iff in Hl as [Hts Hl].
  rewrite filter_cons_False by (apply Z.ltb_ge in Hts; lia). by apply IH.
Qed.

Lemma filter_later (c c' : Z) (l : list Z) :
  c <= c' -> filter (fun ts => c' < ts) (filter (fun ts => c < ts) l) = filter (fun ts => c' < ts) l.
Proof.
  intros Hc. rewrite list_filter_filter. apply list_filter_iff. lia.
Qed.

(** The limiter and the log hold the same hits later than any cutoff still to
    come. *)
Definition sim (now : Z) (self : limiter) (l : log) : Prop :=
  forall identity c, cutoff_of (_window self) now <= c ->
    filter (fun ts => c < ts) (default [] (_hits self !! identity))
    = filter (fun ts => c < ts) (hits_of l identity).

Lemma sweep_fields now cutoff self :
  limit (_sweep now cutoff self) = limit self /\ _window (_sweep now cutoff self) = _window self.
Proof. unfold _sweep. by destruct (_ <? _). Qed.

Lemma sweep_sim now t self l :
  sim t self l -> t <= now -> sim now (_sweep now (cutoff_of (_window self) now) self) l.
Proof.
  intros Hs Ht identity c Hc. destruct (sweep_fields now (cutoff_of (_window self) now) self) as [_ Hw].
  rewrite Hw in Hc. pose proof (cutoff_mono (_window self) t now Ht) as Hm.
  rewrite <- Hs by lia. unfold _sweep. destruct (_ <? _); [done|]. simpl.
  rewrite map_lookup_filter. destruct (_hits self !! identity) as [hits|]; [simpl|done].
  case_guard as Hl; simpl; [done|]. apply not_true_is_false in Hl. symmetry. by apply (live_false _ _ _ Hl).
Qed.

Lemma hits_of_snoc l now identity i :
  hits_of (l ++ [(now, identity)]) i = hits_of l i ++ (if decide (identity = i) then [now] else []).
Proof.
  unfold hits_of. rewrite filter_app, fmap_app. f_equal.
  rewrite filter_cons. simpl. by destruct (decide (identity = i)).
Qed.

(** One check against the log. *)
Lemma check_sim now t identity self l :
  sim t self l -> t <= now ->
  let v := spec_verdict (limit self) (_window self) l now identity in
  let self' := (check now identity self).2 in
  verdict now identity self = v
  /\ limit self' = limit self /\ _window self' = _window self
  /\ sim now self' (if v.1 then l ++ [(now, identity)] else l).
Proof.
  intros Hs Ht. pose proof (sweep_sim now t self l Hs Ht) as Hs'.
  destruct (sweep_fields now (cutoff_of (_window self) now) self) as [Hl Hw].
  unfold verdict, check, spec_verdict. cbv zeta.
  set (cut := cutoff_of (_window self) now) in *. set (sw := _sweep now cut self) in *.
  assert (filter (fun ts => cut < ts) (default [] (_hits sw !! identity))
          = filter (fun ts => cut < ts) (hits_of l identity)) as Hrec.
  { apply Hs'. by rewrite Hw. }
  rewrite Hrec, Hl. set (recent := filter (fun ts => cut < ts) (hits_of l identity)).
  assert (forall c i, cut <= c ->
    filter (fun ts => c < ts) (default [] (_hits sw !! i))
    = filter (fun ts => c < ts) (hits_of l i)) as Hother.
  { intros c i Hc. apply Hs'. by rewrite Hw. }
  destruct (limit self <=? Z.of_nat (length recent)); simpl; rewrite Hl, Hw.
  - split_and!; try done. intros i c Hc. simpl in *. rewrite Hw in Hc.
    destruct (decide (identity = i)) as [->|Hne].
    + rewrite lookup_insert_eq. simpl. unfold recent. by apply filter_later.
    + rewrite lookup_insert_ne by done. by apply Hother.
  - split_and!; try done.
    + rewrite length_app. simpl. f_equal. lia.
    + intros i c Hc. simpl in *. rewrite Hw in Hc. rewrite hits_of_snoc.
      destruct (decide (identity = i)) as [->|Hne].
      * rewrite lookup_insert_eq. simpl. rewrite !filter_app. f_equal.
        unfold recent. by apply filter_later.
      * rewrite lookup_insert_ne by done. rewrite app_nil_r. by apply Hother.
Qed.

(** Clock readings never go back, and start no earlier than [t]. *)
Definition timed (t : Z) (events : list (Z * string)) : Prop :=
  StronglySorted Z.le (t :: (fst <$> events)).

(** Proves [timed] of a concrete run. *)
Ltac timed_events :=
  unfold timed;
  repeat (apply SSorted_cons || apply SSorted_nil || apply Forall_cons_2 ||
          apply Forall_nil_2 || (vm_compute; discriminate)).

(** The clock after a run. *)
Fixpoint end_time (t : Z) (events : list (Z * string)) : Z :=
  match events with
  | [] => t
  | e :: events => end_time e.1 events
  end.

Lemma timed_cons t now identity events :
  timed t ((now, identity) :: events) -> t <= now /\ timed now events.
Proof.
  unfold timed. simpl. intros [Hs Hf]%StronglySorted_inv. split; [|done].
  by apply Forall_inv in Hf.
Qed.

Lemma run_sim events t self l :
  timed t events -> sim t self l ->
  (run events self).1 = (spec_run (limit self) (_window self) l events).1.
Proof.
  revert t self l. induction events as [|[now identity] events IH]; intros t self l Ht Hs; [done|].
  apply timed_cons in Ht as [Hle Ht].
  destruct (check_sim now t identity self l Hs Hle) as (Hv & Hlim & Hwin & Hs').
  simpl. specialize (IH now _ _ Ht Hs'). rewrite Hlim, Hwin in IH.
  destruct (run events _) as [vs self']. simpl in IH.
  destruct (spec_run _ _ _ events) as [vs' l']. simpl in *. by rewrite IH, Hv.
Qed.

(** ** The bound of the specification *)

(** In no window of the past are there more than [limit] hits. *)
Definition bounded (limit window : Z) (l : log) : Prop :=
  forall identity t,
    Z.of_nat (length (filter (fun ts => cutoff_of window t < ts <= t) (hits_of l identity)))
    <= Z.max 0 limit.

Lemma window_count (c c' t : Z) (l : list Z) :
  c <= c' ->
  Z.of_nat (length (filter (fun ts => c' < ts <= t) l))
  <= Z.of_nat (length (filter (fun ts => c < ts) l)).
Proof.
  intros Hc. induction l as [|x l IH]; [done|]. rewrite !filter_cons.
  destruct (decide (c' < x <= t)), (decide (c < x)); simpl; lia.
Qed.

Lemma bounded_snoc limit window l now identity :
  bounded limit window l ->
  (spec_verdict limit window l now identity).1 = true ->
  bounded limit window (l ++ [(now, identity)]).
Proof.
  intros Hb Hv i t. rewrite hits_of_snoc. destruct (decide (identity = i)) as [->|_].
  2: { rewrite app_nil_r. apply Hb. }
  rewrite filter_app, length_app, filter_cons, filter_nil.
  destruct (decide (cutoff_of window t < now <= t)) as [[_ Hle]|_]; simpl.
  2: { pose proof (Hb i t). lia. }
  unfold spec_verdict in Hv.
  destruct (Z.leb_spec limit
    (Z.of_nat (length (filter (fun ts => cutoff_of window now < ts) (hits_of l i))))); [done|].
  pose proof (cutoff_mono window now t Hle) as Hc.
  pose proof (window_count _ _ t (hits_of l i) Hc). lia.
Qed.

Lemma spec_run_bounded limit window l events :
  bounded limit window l -> bounded limit window (spec_run limit window l events).2.
Proof.
  revert l. induction events as [|[now identity] events IH]; intros l Hb; [done|]. simpl.
  pose proof (bounded_snoc limit window l now identity Hb) as Hb'.
  destruct ((spec_verdict limit window l now identity).1).
  - specialize (IH _ (Hb' eq_refl)). by destruct (spec_run limit window _ events).
  - specialize (IH _ Hb). by destruct (spec_run limit window _ events).
Qed.

Lemma spec_run_log limit window l events :
  (spec_run limit window l events).2
  = l ++ admitted events (spec_run limit window l events).1.
Proof.
  revert l. induction events as [|[now identity] events IH]; intros l; simpl; [by rewrite app_nil_r|].
  destruct (spec_verdict limit window l now identity) as [[] r] eqn:Hv; simpl.
  - specialize (IH (l ++ [(now, identity)])). destruct (spec_run _ _ _ events) as [vs l'].
    simpl in *. rewrite IH. by rewrite <- app_assoc.
  - specialize (IH l). destruct (spec_run _ _ _ events) as [vs l']. simpl in *. by rewrite IH.
Qed.

(** ** Memory *)

(** The key was used no longer ago than a window before the last sweep, and
    the last sweep is less than a window old. *)
Definition fresh_keys (now : Z) (events : list (Z * string)) (self : limiter) : Prop :=
  F64.sub now (_last_sweep self) < _window self * F64.one
  /\ _last_sweep self <= now
  /\ (forall identity, is_Some (_hits self !! identity) ->
       exists t, (t, identity) ∈ events /\ cutoff_of (_window self) (_last_sweep self) <= t)
  /\ (forall identity hits ts, _hits self !! identity = Some hits -> ts ∈ hits ->
       (ts, identity) ∈ events).

Lemma sub_self a : F64.sub a a = 0.
Proof. unfold F64.sub. rewrite Z.sub_diag. by apply F64.rnd_0. Qed.

Lemma cutoff_le window t : 0 <= window -> F64.is_f64 t -> cutoff_of window t <= t.
Proof.
  intros Hw Ht. assert (F64.sub t 0 = t) as Hz by (unfold F64.sub; by rewrite Z.sub_0_r).
  rewrite <- Hz at 2. apply F64.sub_mono; [lia|].
  assert (0 = F64.of_int 0) as -> by (vm_compute; reflexivity).
  by apply F64.of_int_mono.
Qed.

Lemma sweep_fresh now t events self :
  0 < _window self -> t <= now -> fresh_keys t events self ->
  fresh_keys now events (_sweep now (cutoff_of (_window self) now) self).
Proof.
  intros Hw Ht (Hlast & Hle & Hkeys & Hhits). unfold _sweep.
  destruct (Z.ltb_spec (F64.sub now (_last_sweep self)) (_window self * F64.one)) as [Hlt|Hge].
  { unfold fresh_keys. split_and!; [done|lia|done|done]. }
  unfold fresh_keys. simpl. split_and!.
  - rewrite sub_self. pose proof F64.one_pos. nia.
  - lia.
  - intros identity [hits Hi]. apply map_lookup_filter_Some in Hi as [Hi Hl]. simpl in Hl.
    apply existsb_exists in Hl as (ts & Hts & Hlt%Z.ltb_lt).
    exists ts. split; [|lia]. apply (Hhits _ hits); [done|by apply list_elem_of_In].
  - intros identity hits ts Hi. apply map_lookup_filter_Some in Hi as [Hi _]. by apply Hhits.
Qed.

Lemma check_fresh now t events identity self :
  0 < _window self -> t <= now -> F64.is_f64 (_last_sweep self) -> F64.is_f64 now ->
  fresh_keys t events self ->
  fresh_keys now (events ++ [(now, identity)]) (check now identity self).2
  /\ F64.is_f64 (_last_sweep (check now identity self).2).
Proof.
  intros Hw Ht Hls Hnow Hf. apply (sweep_fresh now t) in Hf as (Hlast & Hle & Hkeys & Hhits); [|done..].
  assert (F64.is_f64 (_last_sweep (_sweep now (cutoff_of (_window self) now) self))) as Hsw.
  { unfold _sweep. by destruct (_ <? _). }
  pose proof (proj2 (sweep_fields now (cutoff_of (_window self) now) self)) as Hwin.
  unfold check. cbv zeta. set (sw := _sweep _ _ _) in *. set (cut := cutoff_of _ _) in *.
  set (recent := filter _ _).
  assert (forall ts, ts ∈ recent -> (ts, identity) ∈ events) as Hrec.
  { intros ts Hin. apply list_elem_of_filter in Hin as [_ Hin].
    destruct (_hits sw !! identity) as [hits|] eqn:E; simpl in Hin; [by apply (Hhits _ hits)|].
    by apply not_elem_of_nil in Hin. }
  assert (forall hits, (forall ts, ts ∈ hits -> (ts, identity) ∈ events ++ [(now, identity)]) ->
    fresh_keys now (events ++ [(now, identity)]) (set_hits sw (<[identity := hits]> (_hits sw)))) as Hset.
  { intros hits Hh. unfold fresh_keys. simpl. split_and!; [done|done| |].
    - intros i Hi. destruct (decide (identity = i)) as [->|Hne].
      + exists now. split; [set_solver|]. rewrite Hwin.
        pose proof (cutoff_le (_window self) (_last_sweep sw) ltac:(lia) Hsw). lia.
      + rewrite lookup_insert_ne in Hi by done. destruct (Hkeys i Hi) as (u & Hu & Hc).
        exists u. split; [set_solver|done].
    - intros i h ts. rewrite lookup_insert. case_decide as Hi.
      + subst i. intros [= <-]. apply Hh.
      + intros E Hts. rewrite elem_of_app. left. by apply (Hhits _ h). }
  destruct (_ <=? _); simpl; (split; [apply Hset|done]).
  - intros ts Hts. rewrite elem_of_app. auto.
  - intros ts [Hts|Hts]%elem_of_app; rewrite elem_of_app; [auto|]. right.
    apply list_elem_of_singleton in Hts as ->. by apply list_elem_of_singleton.
Qed.

Lemma check_fields now identity self :
  limit (check now identity self).2 = limit self
  /\ _window (check now identity self).2 = _window self.
Proof.
  destruct (sweep_fields now (cutoff_of (_window self) now) self) as [Hl Hw].
  unfold check. cbv zeta. by destruct (_ <=? _); simpl.
Qed.

Lemma run_fresh events t past self :
  0 < _window self -> timed t events -> Forall (fun e => F64.is_f64 e.1) events ->
  F64.is_f64 (_last_sweep self) -> fresh_keys t past self ->
  let self' := (run events self).2 in
  _window self' = _window self
  /\ fresh_keys (end_time t events) (past ++ events) self'.
Proof.
  revert t past self. induction events as [|[now identity] events IH];
    intros t past self Hw Ht Hf Hls Hk; simpl; [by rewrite app_nil_r|].
  apply timed_cons in Ht as [Hle Ht]. apply Forall_cons in Hf as [Hnow Hf].
  destruct (check_fresh now t past identity self) as [Hk' Hls']; [done..|].
  destruct (check_fields now identity self) as [_ Hw'].
  specialize (IH now (past ++ [(now, identity)]) (check now identity self).2).
  rewrite Hw' in IH. specialize (IH Hw Ht Hf Hls' Hk'). rewrite <- app_assoc in IH.
  destruct (run events _) as [vs self']. simpl in *. destruct IH as [? IH]. split; [done|].
  exact IH.
Qed.

End InMemoryRateLimiter.

#[global] Instance in_memory_limiter : RateLimiter InMemoryRateLimiter.limiter := {|
  rl_limit := InMemoryRateLimiter.limit;
  rl_check := InMemoryRateLimiter.check;
|}.

#[global] Instance in_memory_limiter_laws : RateLimiterLaws InMemoryRateLimiter.limiter.
Proof.
  constructor. intros now identity s. simpl.
  pose proof (InMemoryRateLimiter.check_fields now identity s) as [Hl _]. revert Hl.
  unfold InMemoryRateLimiter.check. cbv zeta.
  set (sw := InMemoryRateLimiter._sweep _ _ s). set (recent := filter _ _).
  assert (InMemoryRateLimiter.limit sw = InMemoryRateLimiter.limit s) as Hsw
    by apply InMemoryRateLimiter.sweep_fields.
  destruct (Z.leb_spec (InMemoryRateLimiter.limit sw) (Z.of_nat (length recent))); simpl; intros Hl.
  - eexists _, _, _. split_and!; [done|done|lia|done].
  - eexists _, _, _. rewrite length_app. simpl. split_and!; [done|done|lia|done].
Qed.

(** ** Redis *)

(** A counter that has expired is absent. *)
Definition alive (t : Z) (e : option (Z * option Z)) : option (Z * option Z) :=
  match e with
  | Some (c, Some d) => if d <=? t then None else e
  | _ => e
  end.

(** The commands of the pipeline; [counter_view] is a key's counter and the
    instant it expires at, if any. *)
Class RedisCounter (R : Type) : Type := {
  redis_incr : Z -> string -> M exn R Z;
  redis_expire_nx : Z -> string -> Z -> M exn R bool;
  counter_view : R -> Z -> string -> option (Z * option Z);
  counter_deadline : Z -> Z -> Z;
}.

Class RedisCounterLaws (R : Type) `{RedisCounter R} : Prop := {
  (** [INCR] counts an absent key from 0 and keeps the expiry of a present one. *)
  redis_incr_law now k s :
    let e := default (0, None) (counter_view s now k) in
    exists s', redis_incr now k s = (Ok (e.1 + 1), s')
      /\ forall t k', now <= t ->
           counter_view s' t k' =
             if decide (k = k') then alive t (Some (e.1 + 1, e.2)) else counter_view s t k';
  (** [EXPIRE NX] sets an expiry where there is none. *)
  redis_expire_nx_law now k w s :
    exists b s', redis_expire_nx now k w s = (Ok b, s')
      /\ (0 < w -> forall c e, counter_view s now k = Some (c, e) ->
           forall t k', now <= t ->
           counter_view s' t k' =
             if decide (k = k')
             then alive t (Some (c, Some (default (counter_deadline now w) e)))
             else counter_view s t k');
  redis_alive_law s t k : alive t (counter_view s t k) = counter_view s t k;
  counter_deadline_law now w : 0 < w -> now < counter_deadline now w;
}.

Module RedisRateLimiter.
Section redis.
Context {R : Type} `{RedisCounter R}.

Record limiter : Type := { limit : Z; _window : Z; _client : R }.

Definition set_client (r : R) (self : limiter) : limiter :=
  {| limit := limit self; _window := _window self; _client := r |}.

Definition key_of (identity : string) : string := "ratelimit:" +:+ identity.

(** The pipeline is one transaction: nothing comes between its commands. *)
Definition pipeline (now : Z) (key : string) (window : Z) : M exn R Z :=
  count ← redis_incr now key;
  _ ← redis_expire_nx now key window;
  mret count.

Definition check (now : Z) (identity : string) : M exn limiter (bool * Z) :=
  fun self =>
    zoom _client set_client
      (count ← pipeline now (key_of identity) (_window self);
       let remaining := Z.max 0 (limit self - count) in
       mret (count <=? limit self, remaining)) self.

(** The specification: for each identity the checks counted in its current
    window, and when that window ends. *)
Definition spec_count (deadline : Z -> Z) (now : Z) (w : option (Z * Z)) : Z * Z :=
  match w with
  | Some (c, d) => if d <=? now then (1, deadline now) else (c + 1, d)
  | None => (1, deadline now)
  end.

Definition spec_check (limit : Z) (deadline : Z -> Z) (now : Z) (identity : string)
    (m : gmap string (Z * Z)) : (bool * Z) * gmap string (Z * Z) :=
  let w := spec_count deadline now (m !! identity) in
  ((w.1 <=? limit, Z.max 0 (limit - w.1)), <[identity := w]> m).

(** The server holds the windows of the specification, each with its expiry. *)
Definition windows (now : Z) (self : limiter) (m : gmap string (Z * Z)) : Prop :=
  forall identity t, now <= t ->
    counter_view (_client self) t (key_of identity)
    = alive t ((fun w => (w.1, Some w.2)) <$> m !! identity).

Lemma key_of_inj i j : key_of i = key_of j -> i = j.
Proof. apply (inj (String.append "ratelimit:")). Qed.

Context `{!RedisCounterLaws R}.

Lemma pipeline_spec now k w s :
  0 < w ->
  let e := default (0, None) (counter_view s now k) in
  exists s', pipeline now k w s = (Ok (e.1 + 1), s')
    /\ forall t k', now <= t ->
         counter_view s' t k' =
           if decide (k = k')
           then alive t (Some (e.1 + 1, Some (default (counter_deadline now w) e.2)))
           else counter_view s t k'.
Proof.
  intros Hw. cbv zeta. set (e := default (0, None) (counter_view s now k)).
  destruct (redis_incr_law now k s) as (s1 & Hincr & Hv1). fold e in Hincr, Hv1.
  destruct (redis_expire_nx_law now k w s1) as (b & s2 & Hexp & Hv2).
  assert (counter_view s1 now k = Some (e.1 + 1, e.2)) as Hnow.
  { rewrite Hv1, decide_True by (done || lia). unfold e.
    destruct (counter_view s now k) as [[c [d|]]|] eqn:E; simpl; [|done..].
    pose proof (redis_alive_law s now k) as Ha. rewrite E in Ha. simpl in Ha.
    by destruct (d <=? now). }
  exists s2. unfold pipeline. split.
  - by rewrite (m_bind_Ok _ _ _ _ _ Hincr), (m_bind_Ok _ _ _ _ _ Hexp).
  - intros t k' Ht. rewrite (Hv2 Hw _ _ Hnow t k' Ht). case_decide as Hk; [done|].
    by rewrite Hv1, decide_False.
Qed.

(** One check against the specification. *)
Lemma check_refines now t identity self m :
  0 < _window self -> t <= now -> windows t self m ->
  let '(v, m') := spec_check (limit self) (fun u => counter_deadline u (_window self)) now identity m in
  exists self', check now identity self = (Ok v, self')
    /\ limit self' = limit self /\ _window self' = _window self
    /\ windows now self' m'.
Proof.
  intros Hw Ht Hm. simpl. set (dl := fun u => counter_deadline u (_window self)).
  destruct (pipeline_spec now (key_of identity) (_window self) (_client self) Hw) as (s' & Hp & Hv).
  pose proof (counter_deadline_law now (_window self) Hw) as Hd.
  set (e := default (0, None) (counter_view (_client self) now (key_of identity))) in *.
  assert (spec_count dl now (m !! identity) = (e.1 + 1, default (dl now) e.2)) as Hc.
  { unfold e. rewrite (Hm identity now) by lia. unfold spec_count.
    destruct (m !! identity) as [[c d]|]; simpl; [|done]. by destruct (d <=? now). }
  exists (set_client s' self). rewrite Hc. simpl. split_and!; try done.
  - unfold check, zoom. by rewrite (m_bind_Ok _ _ _ _ _ Hp).
  - intros i u Hu. simpl. rewrite Hv by lia.
    destruct (decide (identity = i)) as [<-|Hne].
    + rewrite decide_True, lookup_insert_eq by done. done.
    + rewrite decide_False by (intros Hk%key_of_inj; done).
      rewrite lookup_insert_ne by done. apply Hm. lia.
Qed.

Fixpoint run (events : list (Z * string)) (self : limiter) : list (res exn (bool * Z)) * limiter :=
  match events with
  | [] => ([], self)
  | (now, identity) :: events =>
      let '(v, self') := check now identity self in
      let '(vs, self'') := run events self' in (v :: vs, self'')
  end.

Fixpoint spec_run (limit : Z) (deadline : Z -> Z) (events : list (Z * string))
    (m : gmap string (Z * Z)) : list (bool * Z) * gmap string (Z * Z) :=
  match events with
  | [] => ([], m)
  | (now, identity) :: events =>
      let '(v, m') := spec_check limit deadline now identity m in
      let '(vs, m'') := spec_run limit deadline events m' in (v :: vs, m'')
  end.

Lemma run_refines events t self m :
  0 < _window self -> InMemoryRateLimiter.timed t events -> windows t self m ->
  let deadline u := counter_deadline u (_window self) in
  (run events self).1 = Ok <$> (spec_run (limit self) deadline events m).1
  /\ windows (InMemoryRateLimiter.end_time t events) (run events self).2
       (spec_run (limit self) deadline events m).2.
Proof.
  revert t self m. induction events as [|[now identity] events IH]; intros t self m Hw Ht Hm; [done|].
  apply InMemoryRateLimiter.timed_cons in Ht as [Hle Ht].
  pose proof (check_refines now t identity self m Hw Hle Hm) as Hcheck. cbv zeta.
  cbn [run spec_run]. destruct (spec_check _ _ now identity m) as [v m'].
  destruct Hcheck as (self' & -> & Hlim & Hwin & Hm').
  specialize (IH now self' m' ltac:(lia) Ht Hm'). cbv zeta in IH. rewrite Hlim, Hwin in IH.
  destruct (run events self') as [vs s]. destruct (spec_run _ _ events m') as [vs' m''].
  simpl in *. destruct IH as [-> ?]. done.
Qed.

End redis.
Arguments limiter R : clear implicits.
End RedisRateLimiter.

#[global] Instance redis_limiter {R} `{RedisCounter R} : RateLimiter (RedisRateLimiter.limiter R) := {|
  rl_limit := RedisRateLimiter.limit;
  rl_check := RedisRateLimiter.check;
|}.

#[global] Instance redis_limiter_laws {R} `{RedisCounterLaws R} :
  RateLimiterLaws (RedisRateLimiter.limiter R).
Proof.
  constructor. intros now identity s. simpl.
  unfold RedisRateLimiter.check, zoom, RedisRateLimiter.pipeline, mbind, m_bind.
  destruct (redis_incr_law now (RedisRateLimiter.key_of identity) (RedisRateLimiter._client s))
    as (s1 & -> & _).
  destruct (redis_expire_nx_law now (RedisRateLimiter.key_of identity) (RedisRateLimiter._window s) s1)
    as (b & s2 & -> & _).
  eexists _, _, _. split_and!; [done|done|lia|]. intros Hc%Z.leb_gt. lia.
Qed.

(** ** A Redis server of counters, for the witnesses *)
Abbreviation counters := (gmap string (Z * option Z)).

Definition counter_at (s : counters) (now : Z) (k : string) : option (Z * option Z) :=
  alive now (s !! k).

(** Times of this server are milliseconds, as a server's own are. *)
#[global] Instance counters_server : RedisCounter counters := {|
  redis_incr now k := fun s =>
    let e := default (0, None) (counter_at s now k) in
    (Ok (e.1 + 1), <[k := (e.1 + 1, e.2)]> s);
  redis_expire_nx now k w := fun s =>
    match counter_at s now k with
    | Some (c, None) => (Ok true, <[k := (c, Some (now + 1000 * w))]> s)
    | _ => (Ok false, s)
    end;
  counter_view := counter_at;
  counter_deadline now w := now + 1000 * w;
|}.

Lemma alive_later now t e : now <= t -> alive t (alive now e) = alive t e.
Proof.
  intros Ht. destruct e as [[c [d|]]|]; simpl; [|done..].
  destruct (Z.leb_spec d now); simpl; [|done]. destruct (Z.leb_spec d t); [done|lia].
Qed.

#[global] Instance counters_server_laws : RedisCounterLaws counters.
Proof.
  constructor.
  - intros now k s. cbv zeta. eexists. split; [reflexivity|]. intros t k' Ht. simpl.
    unfold counter_at. rewrite lookup_insert. by case_decide.
  - intros now k w s. simpl. destruct (counter_at s now k) as [[c [d|]]|] eqn:E;
      (eexists _, _; split; [reflexivity|]); intros Hw c' e' [= <- <-] t k' Ht; simpl.
    + case_decide as Hk; [subst k'|done]. unfold counter_at in *.
      by rewrite <- (alive_later now t) by done; rewrite E.
    + unfold counter_at. rewrite lookup_insert. by case_decide.
  - intros s t k. apply alive_later. lia.
  - simpl. intros. lia.
Qed.

(** ** Properties of the limiters *)
Section properties.
Import InMemoryRateLimiter.

(** C6. While the clock does not go back, the in-memory limiter answers as if
    it kept every admitted call for ever: a call is admitted exactly when
    fewer than [limit] admitted calls of its identity are later than the
    cutoff, and is told how many are left.  Pruning, sweeping and the other
    identities make no difference. *)
Theorem limiter_refines_log lim window t0 events :
  timed t0 events ->
  (run events (mk_limiter lim window t0)).1 = (spec_run lim window [] events).1.
Proof. intros Ht. by apply (run_sim events t0). Qed.

Lemma limiter_refines_log_witness :
  (run [(0, "a"); (1, "a"); (2, "b"); (3, "a"); (90 * F64.one, "a")]%string (mk_limiter 2 60 0)).1
  = [(true, 1); (true, 0); (true, 1); (false, 0); (true, 1)].
Proof.
  rewrite limiter_refines_log; [vm_compute; reflexivity|].
  timed_events.
Defined.

(** In no window of [window_seconds], whenever it ends, is an identity
    admitted more than [limit] times. *)
Theorem limiter_window_bound lim window t0 events identity t :
  timed t0 events ->
  let verdicts := (run events (mk_limiter lim window t0)).1 in
  Z.of_nat (length (filter (fun ts => cutoff_of window t < ts <= t)
                           (hits_of (admitted events verdicts) identity)))
  <= Z.max 0 lim.
Proof.
  intros Ht. cbv zeta. rewrite (run_sim events t0 _ []) by done. simpl.
  pose proof (spec_run_bounded lim window [] events) as Hb.
  rewrite spec_run_log in Hb. apply Hb. intros i u. simpl. lia.
Qed.

Lemma limiter_window_bound_witness :
  let events := [(0, "a"); (1, "a"); (2, "a"); (3, "a")]%string in
  admitted events (run events (mk_limiter 2 60 0)).1 = [(0, "a"); (1, "a")]%string
  /\ Z.of_nat (length (filter (fun ts => cutoff_of 60 3 < ts <= 3)
       (hits_of (admitted events (run events (mk_limiter 2 60 0)).1) "a"))) <= 2.
Proof.
  intros events. split; [vm_compute; reflexivity|].
  apply (limiter_window_bound 2 60 0 events "a" 3).
  timed_events.
Defined.

(** The limiter's memory is bounded by its recent callers: after any run an
    identity still tracked called no longer ago than a window before the last
    sweep, and the last sweep is less than a window old. *)
Theorem limiter_memory_bound lim window t0 events identity :
  0 < window -> timed t0 events ->
  F64.is_f64 t0 -> Forall (fun e => F64.is_f64 e.1) events ->
  is_Some (_hits (run events (mk_limiter lim window t0)).2 !! identity) ->
  exists t last_sweep,
    (t, identity) ∈ events
    /\ cutoff_of window last_sweep <= t
    /\ F64.sub (end_time t0 events) last_sweep < window * F64.one.
Proof.
  intros Hw Ht H0 Hf Hs.
  destruct (run_fresh events t0 [] (mk_limiter lim window t0)) as [Hwin (Hlast & _ & Hkeys & _)];
    [done..| |].
  { unfold fresh_keys. simpl. split_and!; [|lia|by intros i [??]|by intros].
    rewrite sub_self. pose proof F64.one_pos. nia. }
  destruct (Hkeys identity Hs) as (t & Hin & Hc).
  rewrite Hwin in Hc, Hlast. simpl in *. eauto.
Qed.

Lemma limiter_memory_bound_witness :
  exists t last_sweep,
    (t, "b"%string) ∈ [(0, "a"); (100 * F64.one, "b")]%string
    /\ cutoff_of 60 last_sweep <= t
    /\ F64.sub (100 * F64.one) last_sweep < 60 * F64.one.
Proof.
  apply (limiter_memory_bound 2 60 0 [(0, "a"); (100 * F64.one, "b")]%string "b").
  - reflexivity.
  - timed_events.
  - vm_compute. reflexivity.
  - repeat (apply Forall_cons_2 || apply Forall_nil_2); vm_compute; reflexivity.
  - eexists. vm_compute. reflexivity.
Defined.

(** C33. For a server that keeps the contract of its commands, the Redis limiter
    is a fixed window per identity: a call opens a window when there is none
    or the last one has ended, is the next of its window otherwise, and is
    admitted exactly while its number is at most [limit]. A counter never
    stays without an expiry, so no identity is blocked past its window. *)
Theorem redis_limiter_fixed_window {R} `{RedisCounterLaws R} lim window (client : R) t0 events :
  0 < window ->
  InMemoryRateLimiter.timed t0 events ->
  (forall identity t, t0 <= t -> counter_view client t (RedisRateLimiter.key_of identity) = None) ->
  let self := {| RedisRateLimiter.limit := lim; RedisRateLimiter._window := window;
                 RedisRateLimiter._client := client |} in
  let spec := RedisRateLimiter.spec_run lim (fun u => counter_deadline u window) events ∅ in
  (RedisRateLimiter.run events self).1 = Ok <$> spec.1
  /\ forall identity t, InMemoryRateLimiter.end_time t0 events <= t ->
       counter_view (RedisRateLimiter._client (RedisRateLimiter.run events self).2) t
         (RedisRateLimiter.key_of identity)
       = alive t ((fun w => (w.1, Some w.2)) <$> spec.2 !! identity).
Proof.
  intros Hw Ht Hv. cbv zeta.
  apply (RedisRateLimiter.run_refines events t0
    (RedisRateLimiter.Build_limiter lim window client) ∅ Hw Ht).
  intros i t Hle. simpl. by apply Hv.
Qed.

Lemma redis_limiter_fixed_window_witness :
  (RedisRateLimiter.run [(0, "a"); (1, "a"); (2, "b"); (3, "a"); (60000, "a")]%string
     {| RedisRateLimiter.limit := 2; RedisRateLimiter._window := 60;
        RedisRateLimiter._client := (∅ : counters) |}).1
  = [Ok (true, 1); Ok (true, 0); Ok (true, 1); Ok (false, 0); Ok (true, 1)].
Proof.
  refine (eq_trans (proj1 (redis_limiter_fixed_window 2 60 (∅ : counters) 0
    [(0, "a"); (1, "a"); (2, "b"); (3, "a"); (60000, "a")]%string _ _ _)) _).
  - reflexivity.
  - timed_events.
  - intros i t Ht. reflexivity.
  - vm_compute. reflexivity.
Defined.

End properties.

End RateLimit.
