(* ===== verification/Config.v ===== *)
(** * Settings

    [app/core/config.py].  [Settings_new] is the validation of what the sources
    give (constructor, environment, [.env]; [source] is them merged, by field):
    every declared field at its type, the list fields through [_split_list],
    then the two model validators, in their order.  [json.loads] and pydantic's
    conversions to [bool], [int], [float] and [RedisDsn] are parameters. *)
From S2P Require Import Prelude PyStr Errors Float64.
Import PyStr.

Module Config.

Inductive Environment : Type := development | test | staging | production.

#[global] Instance environment_eq_dec : EqDecision Environment.
Proof. solve_decision. Defined.

Definition INSECURE_DEFAULT_SECRET : string := "change-me-in-production-please-32-chars-min".

(** A checked URL of a Redis server, by the text [str()] gives of it. *)
Record RedisDsn : Type := { str : string }.

(** The settings the program reads; a [SecretStr] is the text inside. *)
Record Settings : Type := {
  app_name : string;
  environment : Environment;
  debug : bool;
  api_prefix : string;
  secret_key : string;
  jwt_algorithm : string;
  access_token_ttl : Z;
  refresh_token_ttl : Z;
  verify_token_ttl : Z;
  reset_token_ttl : Z;
  cors_origins : list string;
  cors_allow_credentials : bool;
  database_url : string;
  redis_url : option RedisDsn;
  smtp_host : option string;
  smtp_port : Z;
  smtp_username : string;
  smtp_password : string;
  smtp_sender : string;
  rate_limit_per_minute : Z;
  trusted_proxy_cidrs : list string;
  weather_base_url : string;
  currency_base_url : string;
  http_timeout_seconds : Z;
  http_max_retries : Z;
  provider_cache_ttl : Z;
}.

(** The values of the fields no source gives.  ([BaseSettings] checks them
    like given ones; they are of their fields' types.) *)
Definition defaults : Settings :=
  {| app_name := "Smart Travel Aggregator";
     environment := development;
     debug := false;
     api_prefix := "/api/v1";
     secret_key := INSECURE_DEFAULT_SECRET;
     jwt_algorithm := "HS256";
     access_token_ttl := 900;
     refresh_token_ttl := 60 * 60 * 24 * 14;
     verify_token_ttl := 60 * 60 * 24;
     reset_token_ttl := 60 * 60;
     cors_origins := ["http://localhost:3000"%string];
     cors_allow_credentials := false;
     database_url := "sqlite+aiosqlite:///./smart_travel.db";
     redis_url := None;
     smtp_host := None;
     smtp_port := 587;
     smtp_username := "";
     smtp_password := "";
     smtp_sender := "";
     rate_limit_per_minute := 120;
     trusted_proxy_cidrs := [];
     weather_base_url := "https://api.open-meteo.com/v1";
     currency_base_url := "https://api.exchangerate.host";
     http_timeout_seconds := F64.of_dec 50 1;
     http_max_retries := 2;
     provider_cache_ttl := 300 |}.

(** A value as a source gives it: the text of a variable of the environment or
    of [.env], or any value as an argument of the constructor. *)
Inductive raw : Type :=
| RNone
| RStr (s : string)
| RBool (b : bool)
| RInt (n : Z)
| RFloat (v : Z)
| RList (l : list string).

(** What the sources give, merged, by field; [extra="ignore"] drops the rest. *)
Definition source : Type := string -> option raw.

(** [ValidationError], with the fields refused or the validator's message. *)
Definition validation_failed (message : string) : exn := PyError "ValidationError" message.

(** Checking one field: its value, or its name among the refused. *)
Definition checked (A : Type) : Type := res (list string) A.

(** pydantic checks every field and reports all the refused ones together. *)
Definition ap {A B} (f : checked (A -> B)) (x : checked A) : checked B :=
  match f, x with
  | Ok f, Ok x => Ok (f x)
  | Ok _, Err e => Err e
  | Err e, Ok _ => Err e
  | Err e, Err e' => Err (e ++ e')
  end.

Infix "<*>" := ap (at level 61, left associativity).

(** [list[str]] of a decoded JSON array. *)
Fixpoint strings_of (l : list json) : option (list string) :=
  match l with
  | [] => Some []
  | JStr s :: l => cons s <$> strings_of l
  | _ :: _ => None
  end.

(** The items of a comma-separated text. *)
Definition split_items (text : string) : list string :=
  filter (fun item => item <> ""%string) (strip <$> split "," text).

(** The types of the fields. *)
Definition str_ (v : raw) : option string :=
  match v with
  | RStr s => Some s
  | _ => None
  end.

Definition optional_str (v : raw) : option (option string) :=
  match v with
  | RNone => Some None
  | _ => Some <$> str_ v
  end.

(** [min_length=32]. *)
Definition secret_str (v : raw) : option string :=
  s ← str_ v; if 32 <=? len s then Some s else None.

Definition literal (v : raw) : option Environment :=
  match v with
  | RStr "development" => Some development
  | RStr "test" => Some test
  | RStr "staging" => Some staging
  | RStr "production" => Some production
  | _ => None
  end.

Section settings.
Variable json_loads : string -> option json.
(** pydantic's conversions to [bool], [int], [float] and [RedisDsn]. *)
Variable read_bool : raw -> option bool.
Variable read_int : raw -> option Z.
Variable read_float : raw -> option Z.
Variable redis_dsn : raw -> option RedisDsn.

Definition optional_redis_dsn (v : raw) : option (option RedisDsn) :=
  match v with
  | RNone => Some None
  | _ => Some <$> redis_dsn v
  end.

(** [_split_list], and the check of its result against [list[str]]; a text
    that does not decode is a [ValueError], which refuses the field. *)
Definition _split_list (value : raw) : option (list string) :=
  match value with
  | RStr value =>
      let text := strip value in
      if startswith text "[" then
        match json_loads text with
        | Some (JList l) => strings_of l
        | _ => None
        end
      else Some (split_items text)
  | RList l => Some l
  | _ => None
  end.

Definition field {A} (input : source) (name : string) (read : raw -> option A) (dflt : A) : checked A :=
  match input name with
  | None => Ok dflt
  | Some v =>
      match read v with
      | Some a => Ok a
      | None => Err [name]
      end
  end.

(** The fields, in the order of the class. *)
Definition read_fields (input : source) : checked Settings :=
  Ok Build_Settings
  <*> field input "app_name" str_ (app_name defaults)
  <*> field input "environment" literal (environment defaults)
  <*> field input "debug" read_bool (debug defaults)
  <*> field input "api_prefix" str_ (api_prefix defaults)
  <*> field input "secret_key" secret_str (secret_key defaults)
  <*> field input "jwt_algorithm" str_ (jwt_algorithm defaults)
  <*> field input "access_token_ttl" read_int (access_token_ttl defaults)
  <*> field input "refresh_token_ttl" read_int (refresh_token_ttl defaults)
  <*> field input "verify_token_ttl" read_int (verify_token_ttl defaults)
  <*> field input "reset_token_ttl" read_int (reset_token_ttl defaults)
  <*> field input "cors_origins" _split_list (cors_origins defaults)
  <*> field input "cors_allow_credentials" read_bool (cors_allow_credentials defaults)
  <*> field input "database_url" str_ (database_url defaults)
  <*> field input "redis_url" optional_redis_dsn (redis_url defaults)
  <*> field input "smtp_host" optional_str (smtp_host defaults)
  <*> field input "smtp_port" read_int (smtp_port defaults)
  <*> field input "smtp_username" str_ (smtp_username defaults)
  <*> field input "smtp_password" str_ (smtp_password defaults)
  <*> field input "smtp_sender" str_ (smtp_sender defaults)
  <*> field input "rate_limit_per_minute" read_int (rate_limit_per_minute defaults)
  <*> field input "trusted_proxy_cidrs" _split_list (trusted_proxy_cidrs defaults)
  <*> field input "weather_base_url" str_ (weather_base_url defaults)
  <*> field input "currency_base_url" str_ (currency_base_url defaults)
  <*> field input "http_timeout_seconds" read_float (http_timeout_seconds defaults)
  <*> field input "http_max_retries" read_int (http_max_retries defaults)
  <*> field input "provider_cache_ttl" read_int (provider_cache_ttl defaults).

Definition _refuse_default_secret_in_production (self : Settings) : res exn Settings :=
  if bool_decide (environment self = staging \/ environment self = production)
     && bool_decide (secret_key self = INSECURE_DEFAULT_SECRET)
  then Err (validation_failed
              "SECRET_KEY must be set to a unique value in staging/production; the shipped default is not allowed.")
  else Ok self.

Definition _refuse_wildcard_cors_with_credentials (self : Settings) : res exn Settings :=
  if cors_allow_credentials self && bool_decide ("*"%string ∈ cors_origins self)
  then Err (validation_failed
              "CORS_ORIGINS must list explicit origins when CORS_ALLOW_CREDENTIALS is on; '*' plus credentials makes every origin a trusted one.")
  else Ok self.

(** [Settings(...)]. *)
Definition Settings_new (input : source) : res exn Settings :=
  match read_fields input with
  | Err names => Err (validation_failed (String.concat ", " names))
  | Ok self =>
      self ← _refuse_default_secret_in_production self;
      _refuse_wildcard_cors_with_credentials self
  end.

Definition is_production (self : Settings) : bool := bool_decide (environment self = production).

Definition sqlalchemy_url (self : Settings) : string := database_url self.

End settings.

(** ** Lemmas *)

(** The texts [_split_list] reads back: not blank, no comma, no surrounding
    whitespace. *)
Definition plain_item (s : string) : Prop :=
  s <> ""%string /\ strip s = s /\ has_char "," s = false.

Fixpoint join_comma (items : list string) : string :=
  match items with
  | [] => ""
  | [s] => s
  | s :: items => s +:+ "," +:+ join_comma items
  end.

Lemma split_comma s t : split "," (s +:+ "," +:+ t) = split "," s ++ split "," t.
Proof. exact (split_app "," s t). Qed.

Lemma split_items_join items : Forall plain_item items -> split_items (join_comma items) = items.
Proof.
  unfold split_items. induction 1 as [|s items (Hne & Hst & Hc) Hp IH]; [done|].
  destruct items as [|s' items].
  - simpl join_comma. rewrite split_none by done. simpl. rewrite Hst.
    by rewrite filter_cons_True.
  - change (join_comma (s :: s' :: items)) with (s +:+ "," +:+ join_comma (s' :: items)).
    rewrite split_comma, split_none by done. rewrite fmap_app, filter_app, IH. simpl.
    rewrite Hst. by rewrite filter_cons_True.
Qed.

(** What the two model validators let through. *)
Definition secure (self : Settings) : Prop :=
  (environment self = staging \/ environment self = production ->
     secret_key self <> INSECURE_DEFAULT_SECRET)
  /\ ~ (cors_allow_credentials self = true /\ "*"%string ∈ cors_origins self).

Lemma validators_spec self :
  let validated := _refuse_default_secret_in_production self ≫= _refuse_wildcard_cors_with_credentials in
  (secure self /\ validated = Ok self) \/ (~ secure self /\ exists m, validated = Err (validation_failed m)).
Proof.
  unfold _refuse_default_secret_in_production, _refuse_wildcard_cors_with_credentials, secure. simpl.
  destruct (decide (environment self = staging \/ environment self = production)) as [He|He];
    [rewrite (bool_decide_eq_true_2 _ He)|rewrite (bool_decide_eq_false_2 _ He)]; simpl;
    [case_bool_decide; simpl; [right; split; [tauto|by eexists]|]|];
    (destruct (cors_allow_credentials self); simpl; [case_bool_decide; simpl|];
     [right; split; [tauto|by eexists]|left; split; [|done]; split; [tauto|naive_solver]..]).
Qed.

(** ** Reading the fields *)

(** The parts of a conjunction, without looking inside them. *)
Ltac conjuncts H :=
  repeat match type of H with
         | _ /\ _ => let H' := fresh H in destruct H as [H' H]
         end.

Ltac each tac := repeat (refine (conj _ _); [tac|]); tac.

Lemma ap_Ok {A B} (f : checked (A -> B)) x b :
  f <*> x = Ok b <-> exists g a, f = Ok g /\ x = Ok a /\ b = g a.
Proof. destruct f, x; simpl; naive_solver. Qed.

Lemma ap_is_ok {A B} (f : checked (A -> B)) x :
  is_ok (f <*> x) = true <-> is_ok f = true /\ is_ok x = true.
Proof. destruct f, x; simpl; naive_solver. Qed.

(** The types of the declared fields. *)
Inductive field_type : Type :=
| TStr | TOptStr | TSecret | TEnvironment | TBool | TInt | TFloat | TRedisDsn | TStrList.

Definition declared : list (string * field_type) :=
  [("app_name", TStr); ("environment", TEnvironment); ("debug", TBool); ("api_prefix", TStr);
   ("secret_key", TSecret); ("jwt_algorithm", TStr); ("access_token_ttl", TInt);
   ("refresh_token_ttl", TInt); ("verify_token_ttl", TInt); ("reset_token_ttl", TInt);
   ("cors_origins", TStrList); ("cors_allow_credentials", TBool); ("database_url", TStr);
   ("redis_url", TRedisDsn); ("smtp_host", TOptStr); ("smtp_port", TInt); ("smtp_username", TStr);
   ("smtp_password", TStr); ("smtp_sender", TStr); ("rate_limit_per_minute", TInt);
   ("trusted_proxy_cidrs", TStrList); ("weather_base_url", TStr); ("currency_base_url", TStr);
   ("http_timeout_seconds", TFloat); ("http_max_retries", TInt); ("provider_cache_ttl", TInt)]%string.
Section accepted.
Variable json_loads : string -> option json.
Variable read_bool : raw -> option bool.
Variable read_int : raw -> option Z.
Variable read_float : raw -> option Z.
Variable redis_dsn : raw -> option RedisDsn.

Abbreviation Settings_new_ := (Settings_new json_loads read_bool read_int read_float redis_dsn).
Abbreviation read_fields_ := (read_fields json_loads read_bool read_int read_float redis_dsn).

(** A field of this type takes this value. *)
Definition accepts (t : field_type) (v : raw) : Prop :=
  match t with
  | TStr => exists s, v = RStr s
  | TOptStr => v = RNone \/ exists s, v = RStr s
  | TSecret => exists s, v = RStr s /\ 32 <= len s
  | TEnvironment => v ∈ RStr <$> ["development"; "test"; "staging"; "production"]%string
  | TBool => is_Some (read_bool v)
  | TInt => is_Some (read_int v)
  | TFloat => is_Some (read_float v)
  | TRedisDsn => v = RNone \/ is_Some (redis_dsn v)
  | TStrList =>
      match v with
      | RStr text =>
          startswith (strip text) "[" = true ->
          exists items, json_loads (strip text) = Some (JList (JStr <$> items))
      | RList _ => True
      | _ => False
      end
  end.

(** Every value given is of its field's type. *)
Definition well_typed (input : source) : Prop :=
  Forall (fun '(name, t) => forall v, input name = Some v -> accepts t v) declared.

(** The value of one field: read from what is given, or the default. *)
Definition reads {A} (input : source) (name : string) (read : raw -> option A) (dflt a : A) : Prop :=
  match input name with
  | Some v => read v = Some a
  | None => a = dflt
  end.

Lemma field_Ok {A} input name (read : raw -> option A) dflt a :
  field input name read dflt = Ok a <-> reads input name read dflt a.
Proof.
  unfold field, reads. destruct (input name) as [v|]; [destruct (read v)|]; naive_solver.
Qed.

(** The field of the goal among the hypotheses. *)
Ltac by_name :=
  idtac; lazymatch goal with
  | |- reads _ ?n _ _ _ => match goal with H : reads _ n _ _ _ |- _ => exact H end
  end.

(** A reader that takes what the field's type takes. *)
Class ReadsType {A} (read : raw -> option A) (t : field_type) : Prop :=
  read_accepts v : is_Some (read v) <-> accepts t v.

Lemma field_is_ok {A} input name (read : raw -> option A) dflt t `{!ReadsType read t} :
  is_ok (field input name read dflt) = true <-> (forall v, input name = Some v -> accepts t v).
Proof.
  unfold field. destruct (input name) as [v|]; [|naive_solver].
  pose proof (read_accepts v) as Hv. unfold is_Some in Hv. destruct (read v); naive_solver.
Qed.

#[local] Instance str_type : ReadsType str_ TStr.
Proof. intros v. destruct v; simpl; split; naive_solver. Qed.

#[local] Instance optional_str_type : ReadsType optional_str TOptStr.
Proof. intros v. destruct v; simpl; split; naive_solver. Qed.

#[local] Instance secret_type : ReadsType secret_str TSecret.
Proof.
  intros v. destruct v; simpl; try (split; [by intros []|naive_solver]).
  unfold secret_str. simpl. destruct (Z.leb_spec 32 (len s)); split; [naive_solver..| |].
  - by intros [].
  - intros (s' & [= ->] & ?). lia.
Qed.

#[local] Instance literal_type : ReadsType literal TEnvironment.
Proof.
  intros v. split.
  - destruct v; simpl; try by intros [].
    unfold literal. repeat (case_match; try by intros []); intros _; set_solver.
  - simpl. rewrite !elem_of_cons, elem_of_nil. intros [->|[->|[->|[->|[]]]]]; by eexists.
Qed.

#[local] Instance bool_type : ReadsType read_bool TBool.
Proof. by intros v. Qed.

#[local] Instance int_type : ReadsType read_int TInt.
Proof. by intros v. Qed.

#[local] Instance float_type : ReadsType read_float TFloat.
Proof. by intros v. Qed.

#[local] Instance redis_dsn_type : ReadsType (optional_redis_dsn redis_dsn) TRedisDsn.
Proof. intros v. unfold optional_redis_dsn. destruct v; simpl; rewrite ?fmap_is_Some; naive_solver. Qed.

Lemma strings_of_Some l items : strings_of l = Some items <-> l = JStr <$> items.
Proof.
  split.
  - revert items. induction l as [|[] l IH]; intros items; simpl; try done; [naive_solver|].
    destruct (strings_of l) as [items'|]; [|done]. intros [= <-]. simpl. by rewrite (IH items').
  - intros ->. induction items as [|s items IH]; [done|]. rewrite fmap_cons. simpl. by rewrite IH.
Qed.

#[local] Instance str_list_type : ReadsType (_split_list json_loads) TStrList.
Proof.
  intros v. destruct v as [|text|b|n|f|l]; simpl; try (split; [by intros []|done]).
  destruct (startswith (strip text) "["); [|naive_solver].
  destruct (json_loads (strip text)) as [[]|]; simpl;
    try (split; [by intros []|intros H; by destruct (H eq_refl)]).
  unfold is_Some. setoid_rewrite strings_of_Some. naive_solver.
Qed.

(** The settings hold what was given for each field, and the defaults. *)
Definition holds (input : source) (self : Settings) : Prop :=
  reads input "app_name" str_ (app_name defaults) (app_name self)
  /\ reads input "environment" literal (environment defaults) (environment self)
  /\ reads input "debug" read_bool (debug defaults) (debug self)
  /\ reads input "api_prefix" str_ (api_prefix defaults) (api_prefix self)
  /\ reads input "secret_key" secret_str (secret_key defaults) (secret_key self)
  /\ reads input "jwt_algorithm" str_ (jwt_algorithm defaults) (jwt_algorithm self)
  /\ reads input "access_token_ttl" read_int (access_token_ttl defaults) (access_token_ttl self)
  /\ reads input "refresh_token_ttl" read_int (refresh_token_ttl defaults) (refresh_token_ttl self)
  /\ reads input "verify_token_ttl" read_int (verify_token_ttl defaults) (verify_token_ttl self)
  /\ reads input "reset_token_ttl" read_int (reset_token_ttl defaults) (reset_token_ttl self)
  /\ reads input "cors_origins" (_split_list json_loads) (cors_origins defaults) (cors_origins self)
  /\ reads input "cors_allow_credentials" read_bool (cors_allow_credentials defaults) (cors_allow_credentials self)
  /\ reads input "database_url" str_ (database_url defaults) (database_url self)
  /\ reads input "redis_url" (optional_redis_dsn redis_dsn) (redis_url defaults) (redis_url self)
  /\ reads input "smtp_host" optional_str (smtp_host defaults) (smtp_host self)
  /\ reads input "smtp_port" read_int (smtp_port defaults) (smtp_port self)
  /\ reads input "smtp_username" str_ (smtp_username defaults) (smtp_username self)
  /\ reads input "smtp_password" str_ (smtp_password defaults) (smtp_password self)
  /\ reads input "smtp_sender" str_ (smtp_sender defaults) (smtp_sender self)
  /\ reads input "rate_limit_per_minute" read_int (rate_limit_per_minute defaults) (rate_limit_per_minute self)
  /\ reads input "trusted_proxy_cidrs" (_split_list json_loads) (trusted_proxy_cidrs defaults) (trusted_proxy_cidrs self)
  /\ reads input "weather_base_url" str_ (weather_base_url defaults) (weather_base_url self)
  /\ reads input "currency_base_url" str_ (currency_base_url defaults) (currency_base_url self)
  /\ reads input "http_timeout_seconds" read_float (http_timeout_seconds defaults) (http_timeout_seconds self)
  /\ reads input "http_max_retries" read_int (http_max_retries defaults) (http_max_retries self)
  /\ reads input "provider_cache_ttl" read_int (provider_cache_ttl defaults) (provider_cache_ttl self).

Lemma read_fields_Ok input self : read_fields_ input = Ok self <-> holds input self.
Proof.
  split.
  - intros H. unfold read_fields in H.
    repeat (apply ap_Ok in H as (? & ? & H & ?%field_Ok & ?)). injection H as <-. subst.
    unfold holds. each ltac:(by_name).
  - unfold holds, read_fields. intros H. conjuncts H.
    repeat match goal with
      | R : reads _ _ _ _ _ |- _ => rewrite (proj2 (field_Ok _ _ _ _ _) R); clear R
      end.
    by destruct self.
Qed.

(** Every field is read exactly when what is given is well typed. *)
Lemma read_fields_is_ok input : is_ok (read_fields_ input) = true <-> well_typed input.
Proof.
  unfold well_typed, declared, read_fields. split; intros H.
  - repeat match type of H with
      | is_ok (_ <*> field _ ?n ?r ?d) = true =>
          let Hn := fresh in
          apply ap_is_ok in H as [H Hn]; pose proof (proj1 (field_is_ok input n r d _) Hn); clear Hn
      end.
    repeat (apply Forall_cons_2; [assumption|]). apply Forall_nil_2.
  - repeat (apply Forall_cons_1 in H as [? H]).
    repeat (apply ap_is_ok; split; [|apply (field_is_ok _ _ _ _ _); assumption]). done.
Qed.

(** What a source says of the deployment, the secret and CORS. *)
Definition deployed (input : source) : Prop :=
  exists env, input "environment" = Some (RStr env) /\ (env = "staging" \/ env = "production")%string.

Definition shipped_secret (input : source) : Prop :=
  input "secret_key" = None \/ input "secret_key" = Some (RStr INSECURE_DEFAULT_SECRET).

Definition credentials (input : source) : Prop :=
  exists v, input "cors_allow_credentials" = Some v /\ read_bool v = Some true.

Definition any_origin (input : source) : Prop :=
  exists v origins, input "cors_origins" = Some v /\ _split_list json_loads v = Some origins
    /\ "*"%string ∈ origins.

Lemma environment_read input env :
  reads input "environment" literal (environment defaults) env ->
  env = staging \/ env = production <-> deployed input.
Proof.
  unfold reads, deployed. destruct (input "environment"%string) as [v|]; [|naive_solver].
  intros Hr. split.
  - intros Henv. destruct v; simpl in Hr; try done. unfold literal in Hr.
    repeat case_match; simplify_eq; naive_solver.
  - intros (s & [= ->] & [-> | ->]); simpl in Hr; naive_solver.
Qed.

Lemma secret_read input secret :
  reads input "secret_key" secret_str (secret_key defaults) secret ->
  secret = INSECURE_DEFAULT_SECRET <-> shipped_secret input.
Proof.
  unfold reads, shipped_secret. destruct (input "secret_key"%string) as [v|]; [|naive_solver].
  unfold secret_str. destruct v as [|s|b|n|f|l]; simpl; try done.
  destruct (32 <=? len s); [|done]. intros [= ->]. split; [intros ->; by right|by intros [|[= ->]]].
Qed.

Lemma credentials_read input allowed :
  reads input "cors_allow_credentials" read_bool (cors_allow_credentials defaults) allowed ->
  allowed = true <-> credentials input.
Proof.
  unfold reads, credentials. destruct (input "cors_allow_credentials"%string); naive_solver.
Qed.

Lemma origins_read input origins :
  reads input "cors_origins" (_split_list json_loads) (cors_origins defaults) origins ->
  "*"%string ∈ origins <-> any_origin input.
Proof.
  unfold reads, any_origin. destruct (input "cors_origins"%string); [naive_solver|].
  intros ->. split; [|naive_solver]. intros H. simpl in H. set_solver.
Qed.

Lemma holds_secure input self :
  holds input self ->
  secure self <-> ~ (deployed input /\ shipped_secret input) /\ ~ (credentials input /\ any_origin input).
Proof.
  intros H. unfold holds in H. conjuncts H. unfold secure.
  rewrite (environment_read input) by by_name. rewrite <- (secret_read input) by by_name.
  rewrite (credentials_read input) by by_name. rewrite (origins_read input) by by_name. tauto.
Qed.

(** An empty [REDIS_URL=] is not an absent one: it is no URL. *)
Lemma empty_redis_url_refused input :
  redis_dsn (RStr "") = None -> input "redis_url"%string = Some (RStr "") ->
  exists m, Settings_new_ input = Err (validation_failed m).
Proof.
  intros Hr Hi. unfold Settings_new. destruct (read_fields_ input) as [self|names] eqn:Hf; [|by eexists].
  apply read_fields_Ok in Hf. unfold holds in Hf. conjuncts Hf.
  match goal with R : reads _ "redis_url" _ _ _ |- _ => rename R into Hread end.
  unfold reads, optional_redis_dsn in Hread. rewrite Hi, Hr in Hread. done.
Qed.

(** ** Properties *)

(** C36. What the sources give is accepted exactly when every value is of its
    field's type -- the secret has 32 characters, [redis_url] is a Redis URL,
    the lists parse, and so on for all 26 fields -- staging and production do
    not run with the shipped secret, and credentials are not combined with the
    wildcard origin, in any environment.  The settings then hold each value
    given, or the default; what is refused is a [ValidationError]. *)
Theorem settings_accepted_iff input :
  ((exists self, Settings_new_ input = Ok self)
   <-> well_typed input /\ ~ (deployed input /\ shipped_secret input)
       /\ ~ (credentials input /\ any_origin input))
  /\ (forall self, Settings_new_ input = Ok self <-> holds input self /\ secure self)
  /\ (forall e, Settings_new_ input = Err e -> exists m, e = validation_failed m).
Proof.
  pose proof (read_fields_is_ok input) as Hok. unfold Settings_new.
  destruct (read_fields_ input) as [self|names] eqn:Hf.
  - apply read_fields_Ok in Hf as Hh. rewrite <- (holds_secure _ _ Hh), <- Hok.
    destruct (validators_spec self) as [[Hs Hv]|[Hs [m Hv]]]; cbn zeta in Hv; setoid_rewrite Hv.
    + split_and!; [naive_solver| |done]. intros self'. split; [by intros [= <-]|].
      intros [Hh'%read_fields_Ok _]. congruence.
    + split_and!; [naive_solver| |naive_solver]. intros self'. split; [done|].
      intros [Hh'%read_fields_Ok Hs']. congruence.
  - split_and!; [|intros self; split; [done|]|naive_solver].
    + split; [by intros [? ?]|]. intros [Hw%Hok _]. done.
    + intros [Hh%read_fields_Ok _]. congruence.
Qed.

(** A comma-separated setting reads back the items it was written from. *)
Theorem split_list_roundtrip items :
  Forall plain_item items -> startswith (strip (join_comma items)) "[" = false ->
  strip (join_comma items) = join_comma items ->
  _split_list json_loads (RStr (join_comma items)) = Some items.
Proof.
  intros Hp Hb Hs. unfold _split_list. cbv zeta. rewrite Hb, Hs. by rewrite split_items_join.
Qed.

End accepted.

End Config.
