(* ===== verification/PyIp.v ===== *)
(** * IP addresses and networks

    The part of the standard library's [ipaddress] that the client address
    resolution calls: [ip_address] and [ip_network(..., strict=False)] of a
    string, and membership.  An address is its version and its integer. *)
From S2P Require Import Prelude PyStr.
Import PyStr.

Module PyIp.

Inductive version : Type := V4 | V6.

#[global] Instance version_eq_dec : EqDecision version.
Proof. solve_decision. Defined.

(** [max_prefixlen] and [_ALL_ONES]. *)
Definition max_prefixlen (v : version) : Z :=
  match v with V4 => 32 | V6 => 128 end.
Definition all_ones (v : version) : Z := 2 ^ max_prefixlen v - 1.

(** ** IPv4 addresses *)

Definition parse_octet (s : string) : option Z :=
  if negb (isdigit s) then None
  else if 3 <? len s then None
  else if negb (bool_decide (s = "0"%string)) && startswith s "0" then None
  else match py_int s with
       | Some n => if 255 <? n then None else Some n
       | None => None
       end.

Definition ip_int_v4 (s : string) : option Z :=
  match split "." s with
  | [a; b; c; d] =>
      a ← parse_octet a; b ← parse_octet b; c ← parse_octet c; d ← parse_octet d;
      Some (Z.lor (Z.shiftl (Z.lor (Z.shiftl (Z.lor (Z.shiftl a 8) b) 8) c) 8) d)
  | _ => None
  end.

(** ** IPv6 addresses *)

Definition is_hex_char (c : ascii) : bool :=
  is_digit_char c || ((97 <=? code c) && (code c <=? 102)) || ((65 <=? code c) && (code c <=? 70)).

Definition parse_hextet (s : string) : option Z :=
  if negb (forallb is_hex_char (chars s)) then None
  else if 4 <? len s then None
  else if len s =? 0 then None
  else Some (foldl (fun acc c => acc * 16 + digit_value c) 0 (chars s)).

(** The groups of the text; a final dotted quad gives two of them, written
    here by their values. *)
Inductive group : Type :=
| Text (s : string)
| Value (h : Z).

Definition is_empty_group (g : group) : bool :=
  match g with
  | Text s => bool_decide (s = ""%string)
  | Value _ => false
  end.

Definition group_value (g : group) : option Z :=
  match g with
  | Text s => parse_hextet s
  | Value h => Some h
  end.

Fixpoint join_groups (acc : Z) (gs : list group) : option Z :=
  match gs with
  | [] => Some acc
  | g :: gs =>
      match group_value g with
      | Some h => join_groups (Z.lor (Z.shiftl acc 16) h) gs
      | None => None
      end
  end.

Definition groups_of (s : string) : option (list group) :=
  let parts := split ":" s in
  if (length parts <? 3)%nat then None
  else
    match reverse parts with
    | tl :: front =>
        if existsb (fun c => bool_decide (c = "."%char)) (chars tl) then
          match ip_int_v4 tl with
          | Some n =>
              Some (reverse (Text <$> front)
                    ++ [Value (Z.land (Z.shiftr n 16) 65535); Value (Z.land n 65535)])
          | None => None
          end
        else Some (Text <$> parts)
    | [] => None
    end.

(** The positions strictly inside the list whose group is empty. *)
Definition inner_empty (gs : list group) : list nat :=
  filter (fun i => from_option is_empty_group false (gs !! i) = true)
    (seq 1 (length gs - 2)).

Definition ip_int_v6 (s : string) : option Z :=
  gs ← groups_of s;
  if (9 <? length gs)%nat then None
  else
    match inner_empty gs with
    | [] =>
        if (length gs =? 8)%nat then join_groups 0 gs else None
    | [skip] =>
        let hi := take skip gs in
        let lo := drop (S skip) gs in
        let hi' := if from_option is_empty_group false (head hi) then tail hi else hi in
        let lo' := if from_option is_empty_group false (last lo) then take (length lo - 1) lo else lo in
        if (from_option is_empty_group false (head hi) && (0 <? length hi')%nat)
           || (from_option is_empty_group false (last lo) && (0 <? length lo')%nat) then None
        else if (8 <=? length hi' + length lo')%nat then None
        else
          h ← join_groups 0 hi';
          join_groups (Z.shiftl h (16 * (8 - Z.of_nat (length hi' + length lo')))) lo'
    | _ => None
    end.

(** ** Addresses *)

Record address : Type := { ip_version : version; ip : Z }.

(** [IPv6Address._split_scope_id], the scope dropped: membership does not
    look at it. *)
Definition split_scope_id (s : string) : option string :=
  match split "%" s with
  | [addr] => Some addr
  | [addr; scope] => if bool_decide (scope = ""%string) then None else Some addr
  | _ => None
  end.

Definition ipv4_address (s : string) : option Z :=
  if has_char "/" s then None else ip_int_v4 s.

Definition ipv6_address (s : string) : option Z :=
  if has_char "/" s then None else addr ← split_scope_id s; ip_int_v6 addr.

(** [ip_address(s)]; [None] is the [ValueError]. *)
Definition ip_address (s : string) : option address :=
  match ipv4_address s with
  | Some n => Some {| ip_version := V4; ip := n |}
  | None => (fun n => {| ip_version := V6; ip := n |}) <$> ipv6_address s
  end.

(** ** Networks *)

Record network : Type := { net_version : version; network_address : Z; netmask : Z }.

(** [_ip_int_from_prefix]. *)
Definition ip_int_from_prefix (v : version) (p : Z) : Z :=
  Z.lxor (all_ones v) (Z.shiftr (all_ones v) p).

Definition prefix_from_prefix_string (v : version) (s : string) : option Z :=
  if negb (isdigit s) then None
  else match py_int s with
       | Some p => if p <=? max_prefixlen v then Some p else None
       | None => None
       end.

(** [_prefix_from_ip_int] of an IPv4 mask: ones, then zeros. *)
Definition prefix_from_ip_int (n : Z) : option Z :=
  find (fun p => n =? ip_int_from_prefix V4 p) (Z.of_nat <$> seq 0 33).

Definition prefix_from_ip_string (s : string) : option Z :=
  n ← ip_int_v4 s;
  match prefix_from_ip_int n with
  | Some p => Some p
  | None => prefix_from_ip_int (Z.lxor n (all_ones V4))
  end.

Definition make_netmask (v : version) (mask : option string) : option Z :=
  match mask with
  | None => Some (ip_int_from_prefix v (max_prefixlen v))
  | Some s =>
      ip_int_from_prefix v <$>
        match prefix_from_prefix_string v s, v with
        | Some p, _ => Some p
        | None, V4 => prefix_from_ip_string s
        | None, V6 => None
        end
  end.

Definition mk_network (v : version) (addr : string) (mask : option string) : option network :=
  n ← match v with V4 => ipv4_address addr | V6 => ipv6_address addr end;
  m ← make_netmask v mask;
  Some {| net_version := v; network_address := Z.land n m; netmask := m |}.

(** [ip_network(s, strict=False)]; [None] is the [ValueError]. *)
Definition ip_network (s : string) : option network :=
  match split "/" s with
  | [addr] =>
      match mk_network V4 addr None with
      | Some n => Some n
      | None => mk_network V6 addr None
      end
  | [addr; mask] =>
      match mk_network V4 addr (Some mask) with
      | Some n => Some n
      | None => mk_network V6 addr (Some mask)
      end
  | _ => None
  end.

(** [address in network]. *)
Definition contains (n : network) (a : address) : bool :=
  bool_decide (ip_version a = net_version n)
  && (Z.land (ip a) (netmask n) =? network_address n).

End PyIp.
