(* ===== verification/ClientIp.v ===== *)
(** * The caller's address

    [app/core/client_ip.py].  A request is what the code reads of it: the
    peer's address and the value of a header. *)
From S2P Require Import Prelude PyStr PyIp.
Import PyStr.

Module ClientIp.

(** The parts of [starlette.requests.Request] the code reads. *)
Record Request : Type := {
  client_host : option string;
  headers_get : string -> option string;
}.

Definition FORWARDED_FOR_HEADER : string := "x-forwarded-for".

(** [ProxyTrust]: its [_networks]. *)
Record ProxyTrust : Type := { _networks : list PyIp.network }.

(** [ProxyTrust(trusted_cidrs)]: what does not parse is dropped. *)
Definition mk_proxy_trust (trusted_cidrs : list string) : ProxyTrust :=
  {| _networks := omap PyIp.ip_network trusted_cidrs |}.

Definition configured (self : ProxyTrust) : bool := (0 <? length (_networks self))%nat.

Definition trusts (self : ProxyTrust) (address : option string) : bool :=
  match address with
  | None => false
  | Some a =>
      if bool_decide (a = ""%string) || negb (configured self) then false
      else match PyIp.ip_address a with
           | Some ip => existsb (fun network => PyIp.contains network ip) (_networks self)
           | None => false
           end
  end.

#[global] Arguments trusts : simpl never.

(** [[part.strip() for part in forwarded.split(",") if part.strip()]]. *)
Definition hops_of (forwarded : string) : list string :=
  filter (fun hop => hop <> ""%string) (strip <$> split "," forwarded).

(** The first hop of the list that is not trusted. *)
Fixpoint first_untrusted (self : ProxyTrust) (hops : list string) : option string :=
  match hops with
  | [] => None
  | hop :: hops => if trusts self (Some hop) then first_untrusted self hops else Some hop
  end.

Definition client_ip (self : ProxyTrust) (request : Request) : option string :=
  let peer := client_host request in
  if negb (trusts self peer) then peer
  else
    let forwarded := default ""%string (headers_get request FORWARDED_FOR_HEADER) in
    match first_untrusted self (reverse (hops_of forwarded)) with
    | Some hop => Some hop
    | None => peer
    end.

(** ** Lemmas *)

Lemma first_untrusted_None self hops :
  first_untrusted self hops = None <-> forall hop, hop ∈ hops -> trusts self (Some hop) = true.
Proof.
  induction hops as [|h hops IH]; simpl.
  - split; [|done]. intros _ hop Hin. by apply not_elem_of_nil in Hin.
  - destruct (trusts self (Some h)) eqn:E; [rewrite IH|]; split.
    + intros H hop [->|Hin]%elem_of_cons; auto.
    + intros H hop Hin. apply H. by apply elem_of_cons; right.
    + done.
    + intros H. specialize (H h ltac:(by apply elem_of_cons; left)). congruence.
Qed.

Lemma first_untrusted_app self l1 l2 :
  first_untrusted self (l1 ++ l2)
  = match first_untrusted self l1 with Some h => Some h | None => first_untrusted self l2 end.
Proof. induction l1 as [|h l1 IH]; simpl; [done|]. by destruct (trusts self (Some h)). Qed.

Lemma first_untrusted_elem self l h :
  first_untrusted self l = Some h -> h ∈ l /\ trusts self (Some h) = false.
Proof.
  induction l as [|x l IH]; simpl; [done|]. destruct (trusts self (Some x)) eqn:E.
  - intros [Hin ?]%IH. split; [by apply elem_of_cons; right|done].
  - intros [= ->]. split; [by apply elem_of_cons; left|done].
Qed.

Lemma hops_of_app s t : hops_of (s +:+ "," +:+ t) = hops_of s ++ hops_of t.
Proof.
  unfold hops_of. change ("," +:+ t) with (String "," t).
  by rewrite split_app, fmap_app, filter_app.
Qed.

(** ** Dotted addresses and prefixes *)

Definition dotted (a b c d : Z) : string :=
  str_of_int a +:+ "." +:+ str_of_int b +:+ "." +:+ str_of_int c +:+ "." +:+ str_of_int d.

Definition quad (a b c d : Z) : Z := ((a * 256 + b) * 256 + c) * 256 + d.

Definition cidr (a b c d p : Z) : string := dotted a b c d +:+ "/" +:+ str_of_int p.

Definition octets : list Z := Z.of_nat <$> seq 0 256.

Lemma elem_of_octets n : 0 <= n < 256 -> n ∈ octets.
Proof.
  intros Hn. apply list_elem_of_fmap. exists (Z.to_nat n). split; [lia|].
  apply elem_of_seq. lia.
Qed.

(** What the printed form of a byte is, checked on all of them. *)
Definition octet_ok (n : Z) : bool :=
  bool_decide (PyIp.parse_octet (str_of_int n) = Some n)
  && negb (has_char "." (str_of_int n)) && negb (has_char "/" (str_of_int n))
  && negb (bool_decide (str_of_int n = ""%string)).

Lemma octets_ok : forallb octet_ok octets = true.
Proof. vm_compute. reflexivity. Qed.

Lemma octet_spec n :
  0 <= n < 256 ->
  PyIp.parse_octet (str_of_int n) = Some n
  /\ has_char "." (str_of_int n) = false /\ has_char "/" (str_of_int n) = false
  /\ str_of_int n <> ""%string.
Proof.
  intros Hn. pose proof (proj1 (forallb_forall _ _) octets_ok n) as H.
  specialize (H ltac:(by apply list_elem_of_In, elem_of_octets)).
  unfold octet_ok in H. rewrite !andb_true_iff, !negb_true_iff, bool_decide_eq_true,
    bool_decide_eq_false in H. tauto.
Qed.

Lemma prefix_ok :
  forallb (fun p => bool_decide (PyIp.prefix_from_prefix_string PyIp.V4 (str_of_int p) = Some p))
    (Z.of_nat <$> seq 0 33) = true.
Proof. vm_compute. reflexivity. Qed.

Lemma prefix_spec p :
  0 <= p <= 32 -> PyIp.prefix_from_prefix_string PyIp.V4 (str_of_int p) = Some p.
Proof.
  intros Hp. pose proof (proj1 (forallb_forall _ _) prefix_ok p) as H.
  apply bool_decide_eq_true in H; [done|]. apply list_elem_of_In, list_elem_of_fmap.
  exists (Z.to_nat p). split; [lia|]. apply elem_of_seq. lia.
Qed.

Lemma dotted_no_slash a b c d :
  0 <= a < 256 -> 0 <= b < 256 -> 0 <= c < 256 -> 0 <= d < 256 ->
  has_char "/" (dotted a b c d) = false.
Proof.
  intros Ha Hb Hc Hd. unfold dotted. rewrite !has_char_app.
  destruct (octet_spec a Ha) as (_ & _ & -> & _), (octet_spec b Hb) as (_ & _ & -> & _),
    (octet_spec c Hc) as (_ & _ & -> & _), (octet_spec d Hd) as (_ & _ & -> & _). done.
Qed.

Lemma lor_shiftl_8 x y : 0 <= x -> 0 <= y < 256 -> Z.lor (Z.shiftl x 8) y = x * 256 + y.
Proof.
  intros Hx Hy. pose proof (Z.add_lor_land (Z.shiftl x 8) y) as Hsum.
  assert (Z.land (Z.shiftl x 8) y = 0) as Hland.
  { apply Z.bits_inj'. intros i Hi. rewrite Z.land_spec, Z.bits_0.
    destruct (Z.ltb_spec i 8).
    - by rewrite Z.shiftl_spec_low.
    - rewrite (Z.bits_above_log2 y i); [by rewrite andb_false_r|lia|].
      destruct (Z.eq_dec y 0) as [->|]; [simpl; lia|].
      apply Z.log2_lt_pow2; [lia|]. apply Z.lt_le_trans with (2 ^ 8); [lia|].
      apply Z.pow_le_mono_r; lia. }
  rewrite Hland, (Z.shiftl_mul_pow2 x 8) in * by lia. lia.
Qed.

Lemma parse_dotted a b c d :
  0 <= a < 256 -> 0 <= b < 256 -> 0 <= c < 256 -> 0 <= d < 256 ->
  PyIp.ipv4_address (dotted a b c d) = Some (quad a b c d).
Proof.
  intros Ha Hb Hc Hd. unfold PyIp.ipv4_address. rewrite dotted_no_slash by done.
  unfold PyIp.ip_int_v4, dotted.
  destruct (octet_spec a Ha) as (Pa & Da & _ & _), (octet_spec b Hb) as (Pb & Db & _ & _),
    (octet_spec c Hc) as (Pc & Dc & _ & _), (octet_spec d Hd) as (Pd & Dd & _ & _).
  rewrite !split_dot, !split_none by done.
  simpl. rewrite Pa, Pb, Pc, Pd. simpl. unfold quad. f_equal.
  rewrite (lor_shiftl_8 a b), (lor_shiftl_8 _ c), (lor_shiftl_8 _ d) by lia. done.
Qed.

(** The network of an address keeps the high bits. *)
Lemma land_prefix n p i :
  0 <= p <= 32 -> 0 <= i ->
  Z.testbit (Z.land n (PyIp.ip_int_from_prefix PyIp.V4 p)) i
  = Z.testbit n i && ((32 - p <=? i) && (i <? 32)).
Proof.
  intros Hp Hi. rewrite Z.land_spec. f_equal. unfold PyIp.ip_int_from_prefix, PyIp.all_ones.
  change (2 ^ PyIp.max_prefixlen PyIp.V4 - 1) with (Z.pred (2 ^ 32)). rewrite <- Z.ones_equiv.
  rewrite Z.lxor_spec, Z.shiftr_spec by done.
  rewrite (Z.testbit_ones_nonneg 32 i), (Z.testbit_ones_nonneg 32 (i + p)) by lia.
  destruct (Z.ltb_spec i 32), (Z.ltb_spec (i + p) 32), (Z.leb_spec (32 - p) i); simpl; lia || done.
Qed.

Lemma prefix_match n m p :
  0 <= n < 2 ^ 32 -> 0 <= m < 2 ^ 32 -> 0 <= p <= 32 ->
  Z.land n (PyIp.ip_int_from_prefix PyIp.V4 p) = Z.land m (PyIp.ip_int_from_prefix PyIp.V4 p)
  <-> n / 2 ^ (32 - p) = m / 2 ^ (32 - p).
Proof.
  intros Hn Hm Hp. rewrite <- !Z.shiftr_div_pow2 by lia.
  assert (forall k i, 0 <= k < 2 ^ 32 -> 32 <= i -> Z.testbit k i = false) as Hhigh.
  { intros k i Hk Hi. destruct (Z.eq_dec k 0) as [->|]; [by rewrite Z.bits_0|].
    apply Z.bits_above_log2; [lia|]. apply Z.lt_le_trans with 32; [|done].
    apply Z.log2_lt_pow2; lia. }
  split; intros H; apply Z.bits_inj'; intros i Hi.
  - rewrite !Z.shiftr_spec by done. destruct (Z.ltb_spec (i + (32 - p)) 32) as [Hlt|Hge].
    + assert (Z.testbit (Z.land n (PyIp.ip_int_from_prefix PyIp.V4 p)) (i + (32 - p))
              = Z.testbit (Z.land m (PyIp.ip_int_from_prefix PyIp.V4 p)) (i + (32 - p))) as Hb
        by (by rewrite H).
      rewrite !land_prefix in Hb by lia.
      assert (((32 - p <=? i + (32 - p)) && (i + (32 - p) <? 32)) = true) as Hin by lia.
      by rewrite Hin, !andb_true_r in Hb.
    + by rewrite !Hhigh by lia.
  - rewrite !land_prefix by lia. destruct ((32 - p <=? i) && (i <? 32)) eqn:Hin.
    + rewrite !andb_true_r. replace i with (i - (32 - p) + (32 - p)) by lia.
      rewrite <- !Z.shiftr_spec by lia. by rewrite H.
    + by rewrite !andb_false_r.
Qed.

Lemma quad_bound a b c d :
  0 <= a < 256 -> 0 <= b < 256 -> 0 <= c < 256 -> 0 <= d < 256 -> 0 <= quad a b c d < 2 ^ 32.
Proof. unfold quad. lia. Qed.

(** ** Properties *)

(** A peer that is not trusted is the caller, whatever it sends. Behind a
    trusted peer the caller is the right-most hop of the header that is not
    trusted, and the peer itself when every hop is. *)
Theorem client_ip_resolution self request :
  (trusts self (client_host request) = false -> client_ip self request = client_host request)
  /\ (trusts self (client_host request) = true ->
      let hops := hops_of (default ""%string (headers_get request FORWARDED_FOR_HEADER)) in
      (forall pre hop post, hops = pre ++ hop :: post ->
         trusts self (Some hop) = false -> (forall h, h ∈ post -> trusts self (Some h) = true) ->
         client_ip self request = Some hop)
      /\ ((forall h, h ∈ hops -> trusts self (Some h) = true) ->
         client_ip self request = client_host request)).
Proof.
  unfold client_ip. split.
  - by intros ->.
  - intros ->. cbv zeta. simpl. split.
    + intros pre hop post -> Hu Ht. rewrite reverse_app, reverse_cons, <- app_assoc,
        first_untrusted_app.
      assert (first_untrusted self (reverse post) = None) as ->.
      { apply first_untrusted_None. intros h Hh. by apply Ht, elem_of_reverse. }
      simpl. by rewrite Hu.
    + intros Ht. assert (first_untrusted self _ = None) as ->; [|done].
      apply first_untrusted_None. intros h Hh. by apply Ht, elem_of_reverse.
Qed.

(** C35. A caller cannot forge its address: whatever it puts in front of what
    the trusted proxies appended, the answer is the same, as soon as they
    appended one hop that is not trusted. *)
Theorem client_ip_not_forgeable self peer forged appended :
  trusts self (Some peer) = true ->
  (exists hop, hop ∈ hops_of appended /\ trusts self (Some hop) = false) ->
  let request header := {| client_host := Some peer; headers_get := fun _ => Some header |} in
  client_ip self (request (forged +:+ "," +:+ appended))
  = client_ip self (request appended).
Proof.
  intros Hp (hop & Hin & Hu). cbv zeta. unfold client_ip. simpl. rewrite Hp. simpl.
  rewrite hops_of_app, reverse_app, first_untrusted_app.
  destruct (first_untrusted self (reverse (hops_of appended))) eqn:E; [done|].
  rewrite first_untrusted_None in E. rewrite E in Hu; [done|]. by apply elem_of_reverse.
Qed.

Lemma client_ip_not_forgeable_witness :
  client_ip (mk_proxy_trust ["10.0.0.0/8"]%string)
    {| client_host := Some "10.1.2.3"%string;
       headers_get := fun _ => Some ("1.2.3.4" +:+ "," +:+ " 203.0.113.9, 10.4.5.6")%string |}
  = Some "203.0.113.9"%string.
Proof.
  refine (eq_trans (client_ip_not_forgeable (mk_proxy_trust ["10.0.0.0/8"]%string) "10.1.2.3"
    "1.2.3.4" " 203.0.113.9, 10.4.5.6" _ _) _).
  - vm_compute. reflexivity.
  - exists "203.0.113.9"%string. split; [|vm_compute; reflexivity].
    assert (hops_of " 203.0.113.9, 10.4.5.6" = ["203.0.113.9"; "10.4.5.6"]%string) as ->
      by (vm_compute; reflexivity).
    by apply elem_of_cons; left.
  - vm_compute. reflexivity.
Defined.

(** A trusted network [a.b.c.d/p] holds exactly the IPv4 addresses that
    share its first [p] bits: from the text of the configuration and of the
    address to the comparison, the host bits of the network ignored. *)
Theorem trusts_prefix a b c d p a' b' c' d' :
  0 <= a < 256 -> 0 <= b < 256 -> 0 <= c < 256 -> 0 <= d < 256 -> 0 <= p <= 32 ->
  0 <= a' < 256 -> 0 <= b' < 256 -> 0 <= c' < 256 -> 0 <= d' < 256 ->
  trusts (mk_proxy_trust [cidr a b c d p]) (Some (dotted a' b' c' d')) = true
  <-> quad a' b' c' d' / 2 ^ (32 - p) = quad a b c d / 2 ^ (32 - p).
Proof.
  intros Ha Hb Hc Hd Hp Ha' Hb' Hc' Hd'.
  assert (PyIp.ip_network (cidr a b c d p)
    = Some {| PyIp.net_version := PyIp.V4;
              PyIp.network_address := Z.land (quad a b c d) (PyIp.ip_int_from_prefix PyIp.V4 p);
              PyIp.netmask := PyIp.ip_int_from_prefix PyIp.V4 p |}) as Hnet.
  { unfold PyIp.ip_network, cidr.
    rewrite split_slash, (split_none _ (dotted _ _ _ _)), (split_none _ (str_of_int p)).
    - simpl. unfold PyIp.mk_network. rewrite parse_dotted by done. simpl.
      by rewrite prefix_spec.
    - apply octet_spec. lia.
    - by apply dotted_no_slash. }
  unfold mk_proxy_trust. simpl. rewrite Hnet. unfold trusts.
  rewrite bool_decide_eq_false_2.
  2: { intros He. pose proof (parse_dotted a' b' c' d') as Hpd. rewrite He in Hpd.
       by specialize (Hpd Ha' Hb' Hc' Hd'). }
  simpl. unfold PyIp.ip_address. rewrite parse_dotted by done. simpl.
  unfold PyIp.contains. simpl. rewrite orb_false_r, Z.eqb_eq.
  apply prefix_match; [by apply quad_bound..|done].
Qed.

Lemma trusts_prefix_witness :
  trusts (mk_proxy_trust ["10.1.2.3/8"]%string) (Some "10.250.0.9"%string) = true.
Proof.
  apply (trusts_prefix 10 1 2 3 8 10 250 0 9); [lia..|]. vm_compute. reflexivity.
Defined.

End ClientIp.
