(* ===== verification/PyUuid.v ===== *)
(** * UUIDs

    The part of the standard library's [uuid] the program uses: the two
    printed forms of a UUID and [uuid.UUID(text)].  A UUID is its integer. *)
From S2P Require Import Prelude PyStr.
Import PyStr.

Module PyUuid.

Definition hex_char (d : Z) : ascii := if d <? 10 then chr (48 + d) else chr (87 + d).

(** The [k] low hexadecimal digits of [n], most significant first. *)
Fixpoint hex_digits (k : nat) (n : Z) : list Z :=
  match k with
  | O => []
  | S k' => hex_digits k' (n / 16) ++ [n mod 16]
  end.

Definition hex_chars (u : Z) : list ascii := hex_char <$> hex_digits 32 u.

(** [u.hex]. *)
Definition hex (u : Z) : string := of_chars (hex_chars u).

(** [str(u)]: groups of 8, 4, 4, 4 and 12 digits. *)
Definition str_of_uuid (u : Z) : string :=
  let h := hex_chars u in
  of_chars (take 8 h ++ "-"%char :: take 4 (drop 8 h) ++ "-"%char :: take 4 (drop 12 h)
            ++ "-"%char :: take 4 (drop 16 h) ++ "-"%char :: drop 20 h).

(** [l.replace(pat, "")], left to right; [fuel] is at least the length. *)
Fixpoint remove_chars (fuel : nat) (pat l : list ascii) : list ascii :=
  match fuel, l with
  | S fuel', c :: l' =>
      if prefix_chars pat l then remove_chars fuel' pat (drop (length pat) l)
      else c :: remove_chars fuel' pat l'
  | _, _ => []
  end.

Definition remove (pat : string) (l : list ascii) : list ascii :=
  remove_chars (length l) (chars pat) l.

Definition is_brace (c : ascii) : bool := bool_decide (c = "{"%char) || bool_decide (c = "}"%char).

(** [uuid.UUID(s)]; [None] is the [ValueError]. *)
Definition parse_uuid (s : string) : option Z :=
  let l := remove "uuid:" (remove "urn:" (chars s)) in
  let l := remove "-" (strip_chars is_brace l) in
  if (length l =? 32)%nat then parse_int_chars 16 l else None.

(** ** Round trip *)

Lemma hex_char_code d : 0 <= d < 16 ->
  (48 <= code (hex_char d) <= 57 \/ 97 <= code (hex_char d) <= 102)
  /\ digit_value (hex_char d) = d.
Proof.
  intros Hd. unfold hex_char. destruct (Z.ltb_spec d 10).
  - rewrite code_chr by lia. split; [lia|].
    unfold digit_value, is_digit_char. rewrite code_chr by lia.
    destruct (_ && _) eqn:E; lia.
  - rewrite code_chr by lia. split; [lia|].
    unfold digit_value, is_digit_char, is_lower_char. rewrite code_chr by lia.
    destruct ((48 <=? 87 + d) && _) eqn:E; [lia|].
    destruct ((97 <=? 87 + d) && _) eqn:E'; lia.
Qed.

Definition hexy (l : list ascii) : Prop :=
  Forall (fun c => 48 <= code c <= 57 \/ 97 <= code c <= 102) l.

Lemma hex_digits_spec k n :
  0 <= n < 16 ^ Z.of_nat k ->
  Forall (fun d => 0 <= d < 16) (hex_digits k n)
  /\ length (hex_digits k n) = k
  /\ foldl (fun a d => a * 16 + d) 0 (hex_digits k n) = n.
Proof.
  revert n. induction k as [|k IH]; intros n Hn; simpl.
  - change (16 ^ Z.of_nat 0) with 1 in Hn. split_and!; [constructor|done|lia].
  - rewrite Nat2Z.inj_succ, Z.pow_succ_r in Hn by lia.
    destruct (IH (n / 16)) as (Hf & Hl & Hv).
    { split; [apply Z.div_pos; lia|]. apply Z.div_lt_upper_bound; lia. }
    pose proof (Z.mod_pos_bound n 16 ltac:(lia)). pose proof (Z.div_mod n 16 ltac:(lia)).
    split_and!.
    + apply Forall_app. split; [done|]. by apply Forall_singleton.
    + rewrite length_app, Hl. simpl. lia.
    + rewrite foldl_app, Hv. simpl. lia.
Qed.

Lemma hex_chars_spec u : 0 <= u < 2 ^ 128 -> hexy (hex_chars u) /\ length (hex_chars u) = 32%nat.
Proof.
  intros Hu. destruct (hex_digits_spec 32 u Hu) as (Hf & Hl & _). unfold hex_chars, hexy.
  rewrite length_fmap. split; [|done]. apply Forall_fmap. eapply Forall_impl; [exact Hf|].
  intros d Hd. by apply hex_char_code.
Qed.

Lemma prefix_chars_head p c l : hd_error p <> Some c -> p <> [] -> prefix_chars p (c :: l) = false.
Proof.
  destruct p as [|a p]; [done|]. simpl. intros H _. rewrite bool_decide_eq_false_2; [done|].
  intros ->. done.
Qed.

(** Removing a text whose first character is not there changes nothing. *)
Lemma remove_none pat c p l : chars pat = c :: p -> Forall (fun x => x <> c) l -> remove pat l = l.
Proof.
  unfold remove. intros -> Hf. induction Hf as [|x l Hx Hf IH]; [done|].
  simpl. rewrite bool_decide_eq_false_2 by done. simpl. by rewrite IH.
Qed.

Lemma remove_dash l1 l2 :
  Forall (fun x => x <> "-"%char) l1 -> remove "-" (l1 ++ "-"%char :: l2) = l1 ++ remove "-" l2.
Proof.
  intros Hf. unfold remove. induction Hf as [|x l1 Hx Hf IH].
  - reflexivity.
  - simpl in *. rewrite bool_decide_eq_false_2 by done. simpl. by rewrite IH.
Qed.

Lemma hexy_ne l c : hexy l -> (code c < 48 \/ 57 < code c < 97 \/ 102 < code c) -> Forall (fun x => x <> c) l.
Proof. intros Hl Hc. eapply Forall_impl; [exact Hl|]. intros x Hx Hxc. rewrite Hxc in Hx. simpl in Hx. lia. Qed.

Lemma drop_while_none p l : Forall (fun x => p x = false) l -> drop_while p l = l.
Proof. destruct 1 as [|x l Hx]; [done|]. simpl. by rewrite Hx. Qed.

Lemma strip_none p l : Forall (fun x => p x = false) l -> strip_chars p l = l.
Proof.
  intros Hf. unfold strip_chars. rewrite (drop_while_none p l) by done.
  rewrite drop_while_none by (by apply Forall_reverse). apply reverse_involutive.
Qed.

Lemma scan_hex ds acc n :
  Forall (fun d => 0 <= d < 16) ds ->
  scan_digits 16 false acc n (hex_char <$> ds)
  = Some (foldl (fun a d => a * 16 + d) acc ds, n + Z.of_nat (length ds), []).
Proof.
  intros Hds. revert acc n. induction Hds as [|d ds Hd Hds IH]; intros acc n.
  - simpl. by rewrite Z.add_0_r.
  - cbn [fmap list_fmap scan_digits]. destruct (hex_char_code d Hd) as [Hc Hv].
    rewrite bool_decide_eq_false_2 by (intros E; rewrite E in Hc; change (code "_") with 95 in Hc; lia).
    rewrite Hv. destruct (Z.ltb_spec d 16); [|lia]. rewrite IH. simpl. do 2 f_equal. f_equal. lia.
Qed.

Lemma parse_hex_chars u : 0 <= u < 2 ^ 128 -> parse_int_chars 16 (hex_chars u) = Some u.
Proof.
  intros Hu. destruct (hex_digits_spec 32 u Hu) as (Hf & Hl & Hv).
  destruct (hex_chars_spec u Hu) as [Hx Hlen].
  pose proof (scan_hex _ 0 0 Hf) as Hscan. rewrite Hv, Hl in Hscan.
  change (hex_char <$> hex_digits 32 u) with (hex_chars u) in Hscan.
  destruct (hex_chars u) as [|c [|x l]] eqn:E; [done..|].
  pose proof (Forall_inv Hx) as Hc. pose proof (Forall_inv (Forall_inv_tail Hx)) as Hc'. simpl in Hc, Hc'.
  unfold parse_int_chars. cbn [drop_while].
  assert (is_c_space_char c = false) as -> by (unfold is_c_space_char; lia).
  assert (forall d, code d < 48 \/ 57 < code d < 97 \/ 102 < code d -> c <> d) as Hne
    by (intros d Hd ->; lia).
  assert (forall d, code d < 48 \/ 57 < code d < 97 \/ 102 < code d -> x <> d) as Hne'
    by (intros d Hd ->; lia).
  rewrite !bool_decide_eq_false_2 by (apply Hne; vm_compute; tauto).
  unfold parse_unsigned. assert (skip_prefix 16 (c :: x :: l) = c :: x :: l) as ->.
  { unfold skip_prefix. rewrite (bool_decide_eq_false_2 (x = "x"%char)),
      (bool_decide_eq_false_2 (x = "X"%char)) by (apply Hne'; vm_compute; tauto).
    by rewrite andb_false_r. }
  rewrite bool_decide_eq_false_2 by (apply Hne; vm_compute; tauto).
  by rewrite Hscan.
Qed.

(** [uuid.UUID(str(u)) == u]. *)
Lemma parse_str_of_uuid u : 0 <= u < 2 ^ 128 -> parse_uuid (str_of_uuid u) = Some u.
Proof.
  intros Hu. destruct (hex_chars_spec u Hu) as [Hx Hl]. unfold parse_uuid, str_of_uuid. cbv zeta.
  rewrite chars_of_chars. set (h := hex_chars u) in *.
  set (text := take 8 h ++ _).
  assert (forall n, hexy (take n h) /\ hexy (drop n h)) as Htd.
  { intros n. split; [by apply Forall_take|by apply Forall_drop]. }
  assert (forall n m, hexy (take n (drop m h))) as Htd'.
  { intros n m. by apply Forall_take, Forall_drop. }
  assert (forall c, c <> "-"%char -> (code c < 48 \/ 57 < code c < 97 \/ 102 < code c) ->
    Forall (fun x => x <> c) text) as Htext.
  { intros c Hd Hc. unfold text.
    assert (forall l l', hexy l -> Forall (fun x => x <> c) l' ->
      Forall (fun x => x <> c) (l ++ "-"%char :: l')) as Hcons.
    { intros l l' Hl' Hf. apply Forall_app. split; [by apply hexy_ne|].
      apply Forall_cons. split; [by apply not_eq_sym|done]. }
    repeat (apply Hcons; [apply Htd || apply Htd'|]). apply hexy_ne; [apply Htd|done]. }
  rewrite (remove_none "urn:" "u" (chars "rn:")); [|done|apply Htext; [discriminate|vm_compute; tauto]].
  rewrite (remove_none "uuid:" "u" (chars "uid:")); [|done|apply Htext; [discriminate|vm_compute; tauto]].
  rewrite strip_none.
  2: { pose proof (Htext "{"%char ltac:(discriminate) ltac:(vm_compute; tauto)) as H1.
       pose proof (Htext "}"%char ltac:(discriminate) ltac:(vm_compute; tauto)) as H2.
       rewrite Forall_forall in *. intros c Hin. unfold is_brace.
       rewrite !bool_decide_eq_false_2; [done| |]; [by apply H2|by apply H1]. }
  assert (forall l, hexy l -> Forall (fun x => x <> "-"%char) l) as Hdash
    by (intros l H; apply hexy_ne; [done|vm_compute; tauto]).
  unfold text. rewrite !remove_dash by (apply Hdash; apply Htd || apply Htd').
  rewrite (remove_none "-" "-" []) by (done || apply Hdash, Htd).
  assert (take 8 h ++ take 4 (drop 8 h) ++ take 4 (drop 12 h) ++ take 4 (drop 16 h) ++ drop 20 h = h) as ->.
  { rewrite <- (take_drop 8 h) at 6. by f_equal. }
  rewrite Hl. simpl. by apply parse_hex_chars.
Qed.

Lemma hex_nonempty u : 0 <= u < 2 ^ 128 -> hex u <> ""%string.
Proof.
  intros Hu E. apply (f_equal chars) in E. unfold hex in E. rewrite chars_of_chars in E.
  destruct (hex_chars_spec u Hu) as [_ Hl]. by rewrite E in Hl.
Qed.

Lemma hex_inj u v : 0 <= u < 2 ^ 128 -> 0 <= v < 2 ^ 128 -> hex u = hex v -> u = v.
Proof.
  intros Hu Hv E. apply (f_equal chars) in E. unfold hex in E. rewrite !chars_of_chars in E.
  pose proof (parse_hex_chars u Hu) as Pu. rewrite E, (parse_hex_chars v Hv) in Pu. congruence.
Qed.

End PyUuid.

#[global] Opaque PyUuid.hex PyUuid.str_of_uuid PyUuid.parse_uuid.
