(* ===== verification/Security.v ===== *)
(** * Passwords and tokens

    [app/core/security.py].  PyJWT and argon2 are parameters, with their
    documented behaviour as laws: signatures and hashes are taken as ideal.
    The wall clock is the number of microseconds since the epoch, which is
    what [datetime.now(UTC)] holds; conversions to seconds go through floats
    as the code's do. *)
From Stdlib Require Import ZArith.
From S2P Require Import Prelude PyStr PyDict Float64 Errors PyUuid Config.
Import PyStr.

(** ** PyJWT *)

Inductive jwt_result : Type :=
| JwtPayload (payload : list (string * json))
| JwtExpired
| JwtInvalid.

Class Jwt : Type := {
  jwt_encode : list (string * json) -> string -> string -> string;
  (** [jwt.decode(token, key, algorithms)] at a time. *)
  jwt_decode : string -> string -> list string -> Z -> jwt_result;
}.

(** The payload of the program's tokens. *)
Definition token_payload (sub ty : string) (iat exp : Z) (jti : string) : list (string * json) :=
  [("sub", JStr sub); ("type", JStr ty); ("iat", JInt iat); ("exp", JInt exp); ("jti", JStr jti)]%string.

Class JwtLaws `{Jwt} : Prop := {
  (** A token verifies with its key from [iat] on, until [exp]. *)
  jwt_roundtrip sub ty iat exp jti key alg now :
    iat * 1000000 <= now ->
    jwt_decode (jwt_encode (token_payload sub ty iat exp jti) key alg) key [alg] now =
      if now <? exp * 1000000 then JwtPayload (token_payload sub ty iat exp jti) else JwtExpired;
  (** A token is not the empty string. *)
  jwt_nonempty sub ty iat exp jti key alg :
    jwt_encode (token_payload sub ty iat exp jti) key alg <> ""%string;
  (** With any other key it is refused. *)
  jwt_other_key sub ty iat exp jti key key' alg now :
    key <> key' ->
    jwt_decode (jwt_encode (token_payload sub ty iat exp jti) key alg) key' [alg] now = JwtInvalid;
}.

(** ** argon2 and randomness *)

Inductive verify_outcome : Type :=
| Verified
| VerifyMismatchError
| InvalidHashError
| OtherVerificationError (message : string).

(** [R] is what [PasswordHasher.hash] draws its salt, and [uuid4] its value,
    from. *)
Class Entropy (R : Type) : Type := {
  uuid4 : R -> Z * R;
  argon2_hash : string -> R -> string * R;
  argon2_verify : string -> string -> verify_outcome;
  argon2_check_needs_rehash : string -> bool;
}.

Class EntropyLaws (R : Type) `{Entropy R} : Prop := {
  uuid4_law r : 0 <= (uuid4 r).1 < 2 ^ 128;
  argon2_verify_law plain plain' r :
    argon2_verify (argon2_hash plain r).1 plain' =
      if bool_decide (plain = plain') then Verified else VerifyMismatchError;
  argon2_rehash_law plain r : argon2_check_needs_rehash (argon2_hash plain r).1 = false;
}.

Module Security.

Inductive TokenType : Type := access | refresh | verify | reset.

#[global] Instance token_type_eq_dec : EqDecision TokenType.
Proof. solve_decision. Defined.

Definition type_name (t : TokenType) : string :=
  match t with
  | access => "access"
  | refresh => "refresh"
  | verify => "verify"
  | reset => "reset"
  end.

Lemma type_name_inj t t' : type_name t = type_name t' -> t = t'.
Proof. by destruct t, t'. Qed.

(** ** Time *)

(** [datetime.timestamp()]: microseconds over a million, in true division. *)
Definition timestamp (now : Z) : Z := F64.truediv now 1000000.

(** [int(now.timestamp())]. *)
Definition int_timestamp (now : Z) : Z := F64.to_int (timestamp now).

(** Until the year 2112 the float is exact enough for its integer part. *)
Lemma int_timestamp_floor now : 0 <= now < 2 ^ 52 -> int_timestamp now = now / 1000000.
Proof.
  intros Hnow. unfold int_timestamp, timestamp, F64.to_int, F64.truediv.
  change (0 <? 1000000) with true. cbv iota.
  set (q := now / 1000000). pose proof F64.one_pos as H1.
  assert (0 <= q < 2 ^ 33) as Hq.
  { unfold q. split; [apply Z.div_pos; lia|].
    apply Z.div_lt_upper_bound; [lia|]. change (2 ^ 52) with 4503599627370496 in Hnow.
    change (2 ^ 33) with 8589934592. lia. }
  pose proof (Z.div_mod now 1000000 ltac:(lia)) as Hdm. fold q in Hdm.
  pose proof (Z.mod_pos_bound now 1000000 ltac:(lia)) as Hm.
  assert (F64.one = 2 ^ 1054 * 2 ^ 20) as Hone by (vm_compute; reflexivity).
  (* from below by the integer itself *)
  assert (q * F64.one <= F64.rnd (now * F64.one) 1000000) as Hlo.
  { rewrite <- (F64.is_f64_int q) by (change (2 ^ 53) with 9007199254740992;
      change (2 ^ 33) with 8589934592 in Hq; lia).
    apply F64.rnd_mono_cross; [lia..|]. nia. }
  (* from above by a float just below the next integer *)
  assert (F64.rnd (now * F64.one) 1000000 <= ((q + 1) * 2 ^ 20 - 1) * 2 ^ 1054) as Hhi.
  { rewrite <- (F64.rnd_exact ((q + 1) * 2 ^ 20 - 1) 1054) by
      (change (2 ^ 53) with (2 ^ 33 * 2 ^ 20); change (2 ^ 20) with 1048576;
       change (2 ^ 33) with 8589934592 in *; lia).
    apply F64.rnd_mono_cross; [lia..|]. rewrite Hone.
    assert (0 < 2 ^ 1054) by (apply Z.pow_pos_nonneg; lia).
    generalize dependent (2 ^ 1054). intros P HP Hpos.
    replace (now * (P * 2 ^ 20) * 1) with (now * 2 ^ 20 * P) by ring.
    replace (((q + 1) * 2 ^ 20 - 1) * P * 1000000) with (((q + 1) * 2 ^ 20 - 1) * 1000000 * P) by ring.
    apply Z.mul_le_mono_nonneg_r; [lia|]. change (2 ^ 20) with 1048576. lia. }
  rewrite Z.quot_div_nonneg by nia. symmetry.
  apply Z.div_unique with (F64.rnd (now * F64.one) 1000000 - q * F64.one); [|lia].
  left. split; [lia|]. rewrite Hone in *.
  assert (0 < 2 ^ 1054) by (apply Z.pow_pos_nonneg; lia). nia.
Qed.

Section security.
Context {R : Type} `{Entropy R} `{Jwt}.

(** ** Passwords *)

Definition hash_password (plain : string) : M exn R string :=
  fun r => let '(h, r') := argon2_hash plain r in (Ok h, r').

Definition verify_password (plain hashed : string) : res exn bool :=
  match argon2_verify hashed plain with
  | Verified => Ok true
  | VerifyMismatchError | InvalidHashError => Ok false
  | OtherVerificationError m => Err (PyError "VerificationError" m)
  end.

Definition needs_rehash (hashed : string) : bool := argon2_check_needs_rehash hashed.

(** ** Tokens *)

Definition _create_token (subject : string) (token_type : TokenType) (ttl : Z)
    (settings : Config.Settings) (now : Z) : M exn R string :=
  fun r =>
    let '(u, r') := uuid4 r in
    let payload := token_payload subject (type_name token_type) (int_timestamp now)
                     (int_timestamp (now + ttl * 1000000)) (PyUuid.hex u) in
    (Ok (jwt_encode payload (Config.secret_key settings) (Config.jwt_algorithm settings)), r').

(** The time to live each type is created with. *)
Definition ttl_of (t : TokenType) (settings : Config.Settings) : Z :=
  match t with
  | access => Config.access_token_ttl settings
  | refresh => Config.refresh_token_ttl settings
  | verify => Config.verify_token_ttl settings
  | reset => Config.reset_token_ttl settings
  end.

Definition create_access_token (subject : string) (settings : Config.Settings) (now : Z) : M exn R string :=
  _create_token subject access (Config.access_token_ttl settings) settings now.

Definition create_refresh_token (subject : string) (settings : Config.Settings) (now : Z) : M exn R string :=
  _create_token subject refresh (Config.refresh_token_ttl settings) settings now.

Definition create_verify_token (subject : string) (settings : Config.Settings) (now : Z) : M exn R string :=
  _create_token subject verify (Config.verify_token_ttl settings) settings now.

Definition create_reset_token (subject : string) (settings : Config.Settings) (now : Z) : M exn R string :=
  _create_token subject reset (Config.reset_token_ttl settings) settings now.

Definition decode_token (token : string) (expected_type : TokenType) (settings : Config.Settings)
    (now : Z) : res exn (list (string * json)) :=
  match jwt_decode token (Config.secret_key settings) [Config.jwt_algorithm settings] now with
  | JwtExpired => Err (TokenError "token has expired")
  | JwtInvalid => Err (TokenError "token is invalid")
  | JwtPayload payload =>
      match PyDict.get payload "type"%string with
      | Some (JStr t) =>
          if bool_decide (t = type_name expected_type) then
            match PyDict.get payload "sub"%string with
            | Some _ => Ok payload
            | None => Err (TokenError "token is missing a subject")
            end
          else Err (TokenError ("expected a " +:+ type_name expected_type +:+ " token"))
      | _ => Err (TokenError ("expected a " +:+ type_name expected_type +:+ " token"))
      end
  end.

(** ** Lemmas *)

(** The claims of a token created at [now]. *)
Definition claims (subject : string) (t : TokenType) (settings : Config.Settings) (now : Z) (r : R)
  : list (string * json) :=
  token_payload subject (type_name t) (now / 1000000) (now / 1000000 + ttl_of t settings)
    (PyUuid.hex (uuid4 r).1).

(** Times at which the float conversions are exact. *)
Definition sane (now : Z) (settings : Config.Settings) : Prop :=
  0 <= now /\ forall t, 0 <= ttl_of t settings /\ now + ttl_of t settings * 1000000 < 2 ^ 52.

Lemma create_token_eq subject t settings now r :
  sane now settings ->
  _create_token subject t (ttl_of t settings) settings now r
  = (Ok (jwt_encode (claims subject t settings now r) (Config.secret_key settings)
           (Config.jwt_algorithm settings)), (uuid4 r).2).
Proof.
  intros [Hnow Ht]. specialize (Ht t). unfold _create_token, claims.
  destruct (uuid4 r) as [u r']. simpl.
  rewrite !int_timestamp_floor by lia. by rewrite Z.div_add by lia.
Qed.

(** Decoding a token of the program, at any later time. *)
Lemma decode_created `{!JwtLaws} subject t settings now r now' expected :
  now <= now' ->
  decode_token (jwt_encode (claims subject t settings now r) (Config.secret_key settings)
                  (Config.jwt_algorithm settings)) expected settings now'
  = if now' <? (now / 1000000 + ttl_of t settings) * 1000000 then
      if bool_decide (t = expected) then Ok (claims subject t settings now r)
      else Err (TokenError ("expected a " +:+ type_name expected +:+ " token"))
    else Err (TokenError "token has expired").
Proof.
  intros Hle. unfold decode_token, claims. rewrite jwt_roundtrip.
  2: { pose proof (Z.mul_div_le now 1000000 ltac:(lia)). lia. }
  destruct (_ <? _); [|done]. simpl.
  case_bool_decide as Ht; case_bool_decide as Ht'; try done.
  - by apply type_name_inj in Ht.
  - by subst.
Qed.

End security.

(** ** A JWT library and a source of randomness, for the witnesses

    A token is the binary form of its claims and its key; a hash is the
    password after a salt number. *)

Fixpoint bits (p : positive) : string :=
  match p with
  | xH => "1"
  | xO p => "0" +:+ bits p
  | xI p => "i" +:+ bits p
  end.

Fixpoint unbits (l : list ascii) : option positive :=
  match l with
  | [] => None
  | c :: l =>
      if bool_decide (c = "1"%char) then (if bool_decide (l = []) then Some xH else None)
      else if bool_decide (c = "0"%char) then xO <$> unbits l
      else if bool_decide (c = "i"%char) then xI <$> unbits l
      else None
  end.

Lemma unbits_bits p : unbits (chars (bits p)) = Some p.
Proof.
  induction p as [p IH|p IH|]; simpl bits; rewrite ?chars_app; simpl; [|by rewrite IH..|done].
  by rewrite IH.
Qed.

Abbreviation signed := (string * string * Z * Z * string * string)%type.

#[global] Instance toy_jwt : Jwt := {|
  jwt_encode payload key alg :=
    match payload with
    | [(_, JStr sub); (_, JStr ty); (_, JInt iat); (_, JInt exp); (_, JStr jti)] =>
        bits (encode ((sub, ty, iat, exp, jti, key) : signed))
    | _ => ""%string
    end;
  jwt_decode token key algs now :=
    match unbits (chars token) with
    | Some p =>
        match (decode p : option signed) with
        | Some (sub, ty, iat, exp, jti, key') =>
            if bool_decide (key = key') then
              if now <? iat * 1000000 then JwtInvalid
              else if now <? exp * 1000000 then JwtPayload (token_payload sub ty iat exp jti)
              else JwtExpired
            else JwtInvalid
        | None => JwtInvalid
        end
    | None => JwtInvalid
    end;
|}.

#[global] Instance toy_jwt_laws : JwtLaws.
Proof.
  constructor.
  - intros sub ty iat exp jti key alg now Hiat. simpl. rewrite unbits_bits, decode_encode.
    rewrite bool_decide_eq_true_2 by done. destruct (Z.ltb_spec now (iat * 1000000)); [lia|done].
  - intros sub ty iat exp jti key alg E. apply (f_equal (unbits ∘ chars)) in E.
    simpl in E. by rewrite unbits_bits in E.
  - intros sub ty iat exp jti key key' alg now Hne. simpl. rewrite unbits_bits, decode_encode.
    by rewrite bool_decide_eq_false_2.
Qed.

(** The state is a counter. *)
#[global] Instance toy_entropy : Entropy Z := {|
  uuid4 r := (r mod 2 ^ 128, r + 1);
  argon2_hash plain r := ("$" +:+ plain, r + 1)%string;
  argon2_verify hashed plain :=
    if bool_decide (hashed = "$" +:+ plain)%string then Verified else VerifyMismatchError;
  argon2_check_needs_rehash _ := false;
|}.

#[global] Instance toy_entropy_laws : EntropyLaws Z.
Proof.
  constructor.
  - intros r. simpl. apply Z.mod_pos_bound. lia.
  - intros plain plain' r. simpl. repeat case_bool_decide; naive_solver.
  - done.
Qed.

(** [Settings(environment="test", secret_key=..., cors_origins=[])]. *)
Definition sample_source : Config.source := fun field =>
  if bool_decide (field = "environment"%string) then Some (Config.RStr "test")
  else if bool_decide (field = "secret_key"%string)
       then Some (Config.RStr "a-secret-key-that-is-long-enough-0000")
  else if bool_decide (field = "cors_origins"%string) then Some (Config.RList [])
  else None.

Definition sample_settings : Config.Settings := Eval vm_compute in
  match Config.Settings_new (fun _ => None) (fun _ => None) (fun _ => None) (fun _ => None) (fun _ => None)
          sample_source with
  | Ok self => self
  | Err _ => Config.defaults
  end.

(** 2026-01-01T00:00:00.25 *)
Definition sample_now : Z := 1767225600250000.

Lemma sample_sane : sane sample_now sample_settings.
Proof. split; [by vm_compute|]. intros []; by vm_compute. Qed.

(** ** Properties *)

(** C34. The life of a token: from its creation, and until its time to live in
    whole seconds has passed, it decodes to its claims where its own type is
    expected and is refused where any other is; afterwards it has expired; and
    with another signing key it never verifies. *)
Theorem token_lifecycle {R} `{Entropy R} `{JwtLaws} subject t settings now r token r' now' :
  sane now settings -> now <= now' ->
  _create_token subject t (ttl_of t settings) settings now r = (Ok token, r') ->
  (forall expected,
     decode_token token expected settings now' =
       if now' <? (now / 1000000 + ttl_of t settings) * 1000000 then
         if bool_decide (t = expected) then Ok (claims subject t settings now r)
         else Err (TokenError ("expected a " +:+ type_name expected +:+ " token"))
       else Err (TokenError "token has expired"))
  /\ (forall expected settings',
        Config.secret_key settings' <> Config.secret_key settings ->
        Config.jwt_algorithm settings' = Config.jwt_algorithm settings ->
        decode_token token expected settings' now' = Err (TokenError "token is invalid")).
Proof.
  intros Hs Hle. rewrite create_token_eq by done. intros [= <- <-]. split.
  - intros expected. by apply decode_created.
  - intros expected settings' Hk Ha. unfold decode_token. rewrite Ha.
    unfold claims. by rewrite jwt_other_key by done.
Qed.

Lemma token_lifecycle_witness :
  exists token r',
    create_refresh_token "u" sample_settings sample_now 7 = (Ok token, r')
    /\ decode_token token refresh sample_settings (sample_now + 1000000)
       = Ok (claims "u" refresh sample_settings sample_now 7)
    /\ decode_token token access sample_settings (sample_now + 1000000)
       = Err (TokenError "expected a access token").
Proof.
  eexists _, _. split; [exact (create_token_eq "u" refresh sample_settings sample_now 7 sample_sane)|].
  destruct (token_lifecycle "u" refresh sample_settings sample_now 7 _ _ (sample_now + 1000000)
    sample_sane ltac:(lia) (create_token_eq "u" refresh sample_settings sample_now 7 sample_sane))
    as [Hdec _].
  split; rewrite Hdec; reflexivity.
Defined.

End Security.
