(* ===== verification/TokenBlocklist.v ===== *)
(** * Token revocation

    [app/services/token_blocklist.py], against the interface of the cache.
    An operation sees two clocks: the wall clock, in microseconds, that token
    expiry is measured by, and the clock of the cache. *)
From S2P Require Import Prelude PyStr PyDict Float64 Errors Cache Security.
Import PyStr.

Module TokenBlocklist.

Section blocklist.
Context {C : Type} `{Cache C}.

(** [payload.get("jti")] where it is not falsy; the decoder refuses a [jti]
    that is not a string. *)
Definition jti_of (payload : list (string * json)) : option string :=
  match PyDict.get payload "jti"%string with
  | Some (JStr jti) => if bool_decide (jti = ""%string) then None else Some jti
  | _ => None
  end.

Definition key_of (jti : string) : string := "revoked:" +:+ jti.

Definition _remaining_ttl (payload : list (string * json)) (wall : Z) : Z :=
  match PyDict.get payload "exp"%string with
  | Some (JInt exp) => Z.max 0 (exp - Security.int_timestamp wall)
  | Some (JBool b) => Z.max 0 (Z.b2z b - Security.int_timestamp wall)
  | _ => 0
  end.

Definition revoke (wall mono : Z) (payload : list (string * json)) : M exn C unit :=
  match jti_of payload with
  | None => mret tt
  | Some jti =>
      let ttl := _remaining_ttl payload wall in
      if 0 <? ttl then cache_set mono (key_of jti) "1" ttl else mret tt
  end.

Definition is_revoked (mono : Z) (payload : list (string * json)) : M exn C bool :=
  match jti_of payload with
  | None => mret false
  | Some jti =>
      value ← cache_get mono (key_of jti);
      mret (bool_decide (is_Some (A := string) value))
  end.

Lemma revoked_key_inj i j : key_of i = key_of j -> i = j.
Proof. apply (inj (String.append "revoked:")). Qed.

Context `{!CacheLaws C}.

Lemma is_revoked_spec mono payload jti c :
  jti_of payload = Some jti ->
  exists c',
    is_revoked mono payload c = (Ok (bool_decide (is_Some (cache_view c mono (key_of jti)))), c')
    /\ forall t k, mono <= t -> cache_view c' t k = cache_view c t k.
Proof.
  intros Hj. destruct (get_law mono (key_of jti) c) as (c' & Hg & Hv).
  exists c'. split; [|done]. unfold is_revoked. rewrite Hj. by rewrite (m_bind_Ok _ _ _ _ _ Hg).
Qed.

(** Reading never changes what a later read sees, nor fails. *)
Lemma is_revoked_total mono payload c :
  exists b c', is_revoked mono payload c = (Ok b, c')
    /\ forall t k, mono <= t -> cache_view c' t k = cache_view c t k.
Proof.
  destruct (jti_of payload) as [jti|] eqn:Hj.
  - destruct (is_revoked_spec mono payload jti c Hj) as (c' & Hr & Hv). eauto.
  - exists false, c. unfold is_revoked. by rewrite Hj.
Qed.

Lemma revoke_spec wall mono payload jti exp c :
  jti_of payload = Some jti -> PyDict.get payload "exp"%string = Some (JInt exp) ->
  Security.int_timestamp wall < exp ->
  exists c',
    revoke wall mono payload c = (Ok tt, c')
    /\ forall t k, mono <= t ->
         cache_view c' t k =
           if decide (key_of jti = k)
           then (if t <? cache_deadline mono (exp - Security.int_timestamp wall)
                 then Some "1"%string else None)
           else cache_view c t k.
Proof.
  intros Hj He Hlt. unfold revoke, _remaining_ttl. rewrite Hj, He.
  rewrite Z.max_r by lia. destruct (Z.ltb_spec 0 (exp - Security.int_timestamp wall)); [|lia].
  by apply set_law.
Qed.

(** Revoking never fails, and touches no other token. *)
Lemma revoke_total wall mono payload c :
  exists c', revoke wall mono payload c = (Ok tt, c')
    /\ forall t k, mono <= t -> (forall jti, jti_of payload = Some jti -> key_of jti <> k) ->
         cache_view c' t k = cache_view c t k.
Proof.
  unfold revoke. destruct (jti_of payload) as [jti|]; [|by exists c].
  destruct (Z.ltb_spec 0 (_remaining_ttl payload wall)); [|by exists c].
  destruct (set_law mono (key_of jti) "1" (_remaining_ttl payload wall) c) as (c' & Hs & Hv); [done|].
  exists c'. split; [done|]. intros t k Ht Hk. rewrite Hv by done.
  rewrite decide_False; [done|]. by apply Hk.
Qed.

End blocklist.

(** ** Properties *)

(** A revoked token stays revoked for the rest of its life, and the record
    of it goes away: from the revocation on, and as long as the clock of the
    cache has not advanced by the time that was left on the token (which is
    no less than what the wall clock says is left), the token is reported
    revoked; afterwards the entry is gone. Other tokens are not affected. *)
Theorem revoked_until_expiry {C} `{CacheLaws C} wall mono payload jti exp (c : C) :
  jti_of payload = Some jti -> PyDict.get payload "exp"%string = Some (JInt exp) ->
  0 <= wall < 2 ^ 52 -> Security.int_timestamp wall < exp ->
  let ttl := exp - Security.int_timestamp wall in
  exists c',
    revoke wall mono payload c = (Ok tt, c')
    /\ exp * 1000000 <= wall + ttl * 1000000
    /\ (forall mono' payload', mono <= mono' -> jti_of payload' = Some jti ->
          (is_revoked mono' payload' c').1 = Ok (mono' <? cache_deadline mono ttl))
    /\ (forall mono' payload', mono <= mono' -> jti_of payload' <> Some jti ->
          (is_revoked mono' payload' c').1 = (is_revoked mono' payload' c).1).
Proof.
  intros Hj He Hw Hlt. cbv zeta.
  destruct (revoke_spec wall mono payload jti exp c Hj He Hlt) as (c' & Hr & Hv).
  exists c'. split; [done|]. split.
  { rewrite Security.int_timestamp_floor by done.
    pose proof (Z.mul_div_le wall 1000000 ltac:(lia)). lia. }
  split; intros mono' payload' Hm Hj'.
  - destruct (is_revoked_spec mono' payload' jti c' Hj') as (c2 & -> & _). simpl. f_equal.
    rewrite Hv, decide_True by done. by destruct (mono' <? _).
  - destruct (jti_of payload') as [j'|] eqn:E.
    + destruct (is_revoked_spec mono' payload' j' c' E) as (c2 & -> & _).
      destruct (is_revoked_spec mono' payload' j' c E) as (c3 & -> & _). simpl.
      rewrite Hv, decide_False; [done| |done]. intros Hk%revoked_key_inj. congruence.
    + unfold is_revoked. by rewrite E.
Qed.

Lemma revoked_until_expiry_witness :
  let payload := Security.claims "u" Security.refresh Security.sample_settings Security.sample_now 7 in
  exists c', revoke (C := Cache.InMemoryCache.store) Security.sample_now 0 payload
               Cache.InMemoryCache.empty = (Ok tt, c')
    /\ (is_revoked (1000 * F64.one) payload c').1 = Ok true.
Proof.
  intros payload.
  destruct (revoked_until_expiry Security.sample_now 0 payload (PyUuid.PyUuid.hex 7) 1768435200
    Cache.InMemoryCache.empty) as (c' & Hr & _ & Hin & _).
  - vm_compute. reflexivity.
  - vm_compute. reflexivity.
  - split; [discriminate|reflexivity].
  - vm_compute. reflexivity.
  - exists c'. split; [exact Hr|]. rewrite Hin.
    + vm_compute. reflexivity.
    + vm_compute. discriminate.
    + vm_compute. reflexivity.
Defined.

End TokenBlocklist.
