(* ===== verification/Notifications.v ===== *)
(** * Notifications

    [app/services/notifications.py].  The [Notifier] protocol is a class; the
    console notifier keeps what it was given, the SMTP notifier drives a server
    that is a parameter.  [NotifierLaws] is what both promise; that delivery
    never fails is a class of its own, which only the console notifier has. *)
From S2P Require Import Prelude Errors.

Class Notifier (N : Type) : Type := {
  notify : string -> string -> string -> M exn N unit;
}.

(** An exception of a library, not one of the program's. *)
Definition library_error (e : exn) : Prop := exists cls message, e = PyError cls message.

(** The messages handed over so far.  A send that returns has handed its message
    over; one that raises may or may not have. *)
Class NotifierLaws (N : Type) `{Notifier N} : Type := {
  sent : N -> list (string * string * string);
  notify_law to subject body n :
    match notify to subject body n with
    | (Ok _, n') => sent n' = sent n ++ [(to, subject, body)]
    | (Err e, n') =>
        library_error e /\ (sent n' = sent n \/ sent n' = sent n ++ [(to, subject, body)])
    end;
}.

(** Delivery that cannot fail. *)
Class ReliableNotifier (N : Type) `{Notifier N} : Prop :=
  notify_ok to subject body n : (notify to subject body n).1 = Ok tt.

Lemma notify_delivers {N : Type} `{NotifierLaws N} `{!ReliableNotifier N} to subject body (n : N) :
  exists n', notify to subject body n = (Ok tt, n') /\ sent n' = sent n ++ [(to, subject, body)].
Proof.
  pose proof (notify_law to subject body n) as Hl. pose proof (notify_ok to subject body n) as Hk.
  destruct (notify to subject body n) as [r n']. simpl in Hk. subst r. by exists n'.
Qed.

Module ConsoleNotifier.

(** [sent]. *)
Abbreviation notifier := (list (string * string * string)).

Definition send (to subject body : string) : M exn notifier unit :=
  fun sent => (Ok tt, sent ++ [(to, subject, body)]).

End ConsoleNotifier.

#[global] Instance console_notifier : Notifier ConsoleNotifier.notifier :=
  {| notify := ConsoleNotifier.send |}.

#[global] Instance console_notifier_laws : NotifierLaws ConsoleNotifier.notifier.
Proof.
  by refine {| sent := fun n => n |}.
Defined.

#[global] Instance console_notifier_reliable : ReliableNotifier ConsoleNotifier.notifier.
Proof. done. Qed.

(** ** SMTP *)

Record EmailMessage : Type := {
  m_from : string;
  m_to : string;
  m_subject : string;
  m_content : string;
}.

(** The operations of [smtplib.SMTP]; [smtp_starttls verify] says whether the
    context checks the certificate and the host name. *)
Class SmtpServer (S : Type) : Type := {
  smtp_connect : string -> Z -> M exn S unit;
  smtp_starttls : bool -> M exn S unit;
  smtp_login : string -> string -> M exn S unit;
  smtp_send_message : EmailMessage -> M exn S unit;
  smtp_quit : M exn S unit;
}.

(** A server is handed a message by [send_message] only, and has it when that
    returns; what its commands raise are exceptions of [smtplib] and [ssl]. *)
Definition leaves {S} (handed : S -> list EmailMessage) (s : S) (r : res exn unit * S) : Prop :=
  handed r.2 = handed s /\ forall e, r.1 = Err e -> library_error e.

Class SmtpServerLaws (S : Type) `{SmtpServer S} : Type := {
  handed : S -> list EmailMessage;
  smtp_connect_law host port s : leaves handed s (smtp_connect host port s);
  smtp_starttls_law verify s : leaves handed s (smtp_starttls verify s);
  smtp_login_law user password s : leaves handed s (smtp_login user password s);
  smtp_quit_law s : leaves handed s (smtp_quit s);
  smtp_send_message_law m s :
    match smtp_send_message m s with
    | (Ok _, s') => handed s' = handed s ++ [m]
    | (Err e, s') => library_error e /\ (handed s' = handed s \/ handed s' = handed s ++ [m])
    end;
}.

Module SmtpNotifier.
Section smtp.
Context {S : Type} `{SmtpServer S}.

Record notifier : Type := {
  _host : string;
  _port : Z;
  _username : string;
  _password : string;
  _sender : string;
  _server : S;
}.

Definition set_server (s : S) (self : notifier) : notifier :=
  {| _host := _host self; _port := _port self; _username := _username self;
     _password := _password self; _sender := _sender self; _server := s |}.

(** [with server: body]: the session is ended however the body ends; an
    exception of the body goes on, unless ending the session raises another. *)
Definition with_server (body : M exn S unit) : M exn S unit :=
  fun s =>
    match body s with
    | (Ok _, s') => smtp_quit s'
    | (Err e, s') => (_ ← smtp_quit; raise e) s'
    end.

Definition send (to subject body : string) : M exn notifier unit :=
  fun self =>
    let message :=
      {| m_from := _sender self; m_to := to; m_subject := subject; m_content := body |} in
    zoom _server set_server
      (_ ← smtp_connect (_host self) (_port self);
       with_server
         (_ ← smtp_starttls true;
          _ ← smtp_login (_username self) (_password self);
          smtp_send_message message)) self.

End smtp.
Arguments notifier S : clear implicits.
End SmtpNotifier.

#[global] Instance smtp_notifier {S} `{SmtpServer S} : Notifier (SmtpNotifier.notifier S) :=
  {| notify := SmtpNotifier.send |}.

(** An exception of the body ends the session, and goes on or is replaced by
    the one of ending it. *)
Lemma with_server_fails {S} `{SmtpServerLaws S} e s :
  library_error e ->
  let r := (_ ← smtp_quit; raise e : M exn S unit) s in
  (exists e', r.1 = Err e' /\ library_error e') /\ handed r.2 = handed s.
Proof.
  intros He. unfold mbind, m_bind. destruct (smtp_quit_law s) as [Hq Hr].
  destruct (smtp_quit s) as [[[]|e'] s']; simpl in *; (split; [|done]); eexists; eauto.
Qed.

#[global] Instance smtp_notifier_laws {S} `{SmtpServerLaws S} : NotifierLaws (SmtpNotifier.notifier S).
Proof.
  refine {| sent n := (fun m => (m_to m, m_subject m, m_content m)) <$> handed (SmtpNotifier._server n) |}.
  intros to subject body n. simpl. unfold SmtpNotifier.send, zoom, SmtpNotifier.with_server.
  set (m := {| m_from := SmtpNotifier._sender n; m_to := to; m_subject := subject; m_content := body |}).
  set (s := SmtpNotifier._server n). unfold mbind at 1, m_bind at 1.
  destruct (smtp_connect_law (SmtpNotifier._host n) (SmtpNotifier._port n) s) as [Hc Ec].
  destruct (smtp_connect _ _ s) as [[[]|e] s1]; simpl in Hc, Ec |- *; [|split; [eauto|left; by rewrite Hc]].
  unfold mbind at 1, m_bind at 1. destruct (smtp_starttls_law true s1) as [Ht Et]. rewrite Hc in Ht.
  destruct (smtp_starttls true s1) as [[[]|e] s2]; simpl in Ht, Et |- *.
  2: { destruct (with_server_fails e s2 (Et e eq_refl)) as [(e' & He & Hl) Hh]. revert He Hh.
       destruct (mbind _ smtp_quit s2) as [r s3]. simpl. intros -> Hh. split; [done|left; congruence]. }
  unfold mbind at 1, m_bind at 1.
  destruct (smtp_login_law (SmtpNotifier._username n) (SmtpNotifier._password n) s2) as [Hg Eg].
  rewrite Ht in Hg. destruct (smtp_login _ _ s2) as [[[]|e] s3]; simpl in Hg, Eg |- *.
  2: { destruct (with_server_fails e s3 (Eg e eq_refl)) as [(e' & He & Hl) Hh]. revert He Hh.
       destruct (mbind _ smtp_quit s3) as [r s4]. simpl. intros -> Hh. split; [done|left; congruence]. }
  pose proof (smtp_send_message_law m s3) as Hm. rewrite Hg in Hm.
  destruct (smtp_send_message m s3) as [[[]|e] s4].
  - destruct (smtp_quit_law s4) as [Hq Eq]. destruct (smtp_quit s4) as [[[]|e] s5]; simpl in Hq, Eq |- *.
    + by rewrite Hq, Hm, fmap_app.
    + split; [eauto|right]. by rewrite Hq, Hm, fmap_app.
  - destruct Hm as [El Hm]. destruct (with_server_fails e s4 El) as [(e' & He & Hl) Hh]. revert He Hh.
    destruct (mbind _ smtp_quit s4) as [r s5]. simpl. intros -> Hh. split; [done|].
    rewrite Hh. destruct Hm as [->| ->]; [by left|right; by rewrite fmap_app].
Defined.

(** ** A server that records what is asked of it *)

Inductive smtp_command : Type :=
| Connect (host : string) (port : Z)
| StartTls (verify : bool)
| Login (username password : string)
| SendMessage (m : EmailMessage)
| QuitSession.

(** The commands so far, and the answers to come: [true] accepts. *)
Record transcript : Type := { commands : list smtp_command; answers : list bool }.

Definition command (c : smtp_command) : M exn transcript unit :=
  fun t =>
    let t' := {| commands := commands t ++ [c]; answers := tail (answers t) |} in
    if from_option id true (head (answers t)) then (Ok tt, t')
    else (Err (PyError "SMTPException" ""), t').

#[global] Instance transcript_server : SmtpServer transcript := {|
  smtp_connect host port := command (Connect host port);
  smtp_starttls verify := command (StartTls verify);
  smtp_login username password := command (Login username password);
  smtp_send_message m := command (SendMessage m);
  smtp_quit := command QuitSession;
|}.

(** The messages among the commands. *)
#[global] Instance transcript_server_laws : SmtpServerLaws transcript.
Proof.
  refine {| handed t := omap (fun c => match c with SendMessage m => Some m | _ => None end) (commands t) |};
    intros; simpl; unfold leaves, command; destruct (answers _) as [|[] ?]; simpl; rewrite omap_app; simpl;
    rewrite ?app_nil_r; repeat split; try done; try (right; done); unfold library_error; naive_solver.
Defined.

(** ** Properties *)

(** The answer to the [i]-th command. *)
Definition accepted (ans : list bool) (i : nat) : bool := default true (ans !! i).

(** C40. Whatever the server answers, the SMTP notifier gives it the password
    and the message only on a connection upgraded to TLS with the certificate
    and the host name checked, each command only after the one before it was
    accepted; the connection, once made, is always closed, and the send
    succeeds exactly when every command was accepted. *)
Theorem smtp_send_transcript to subject body host port user pass sender ans :
  let self := {| SmtpNotifier._host := host; SmtpNotifier._port := port;
                 SmtpNotifier._username := user; SmtpNotifier._password := pass;
                 SmtpNotifier._sender := sender;
                 SmtpNotifier._server := {| commands := []; answers := ans |} |} in
  let message := {| m_from := sender; m_to := to; m_subject := subject; m_content := body |} in
  let r := SmtpNotifier.send to subject body self in
  commands (SmtpNotifier._server r.2) =
    (if negb (accepted ans 0) then [Connect host port]
     else if negb (accepted ans 1) then [Connect host port; StartTls true; QuitSession]
     else if negb (accepted ans 2) then
       [Connect host port; StartTls true; Login user pass; QuitSession]
     else [Connect host port; StartTls true; Login user pass; SendMessage message; QuitSession])
  /\ is_ok r.1 = forallb (accepted ans) [0; 1; 2; 3; 4]%nat.
Proof. by destruct ans as [|[] [|[] [|[] [|[] [|[] ans]]]]]. Qed.
