(* ===== verification/Schemas.v ===== *)
(** * Request validation

    [app/schemas/]: the validators of the request bodies.  The syntax check of
    an address ([EmailStr]) is a parameter; lengths and classes are those of
    ASCII text. *)
From S2P Require Import Prelude PyStr Errors.
Import PyStr.

Module Schemas.

Definition _MIN_PASSWORD_LEN : Z := 10.
Definition _MAX_PASSWORD_LEN : Z := 128.

Definition value_error (message : string) : exn := PyError "ValueError" message.

Definition validate_password_strength (value : string) : res exn string :=
  if isalpha value || isdigit value then
    Err (value_error "password must mix letters and numbers")
  else if bool_decide (lower value = value) || bool_decide (upper value = value) then
    Err (value_error "password must contain upper and lower case letters")
  else Ok value.

(** [Field(min_length=lo, max_length=hi)]. *)
Definition check_length (lo hi : Z) (value : string) : res exn string :=
  if len value <? lo then Err (value_error "String is too short")
  else if hi <? len value then Err (value_error "String is too long")
  else Ok value.

Record RegisterRequest : Type := {
  email : string;
  password : string;
  full_name : option string;
}.

(** [_strip_name]. *)
Definition _strip_name (value : option string) : option string :=
  match value with
  | None => None
  | Some v => let stripped := strip v in if bool_decide (stripped = ""%string) then None else Some stripped
  end.

Section requests.
(** [EmailStr]: the normalised address, or nothing. *)
Variable validate_email : string -> option string.

Definition check_email (value : string) : res exn string :=
  match validate_email value with
  | Some e => Ok e
  | None => Err (value_error "value is not a valid email address")
  end.

Definition check_password (value : string) : res exn string :=
  v ← check_length _MIN_PASSWORD_LEN _MAX_PASSWORD_LEN value;
  validate_password_strength v.

Definition check_full_name (value : option string) : res exn (option string) :=
  match value with
  | None => Ok None
  | Some v =>
      if 200 <? len v then Err (value_error "String is too long") else Ok (_strip_name (Some v))
  end.

Definition RegisterRequest_new (e p : string) (name : option string) : res exn RegisterRequest :=
  e ← check_email e;
  p ← check_password p;
  name ← check_full_name name;
  Ok {| email := e; password := p; full_name := name |}.

(** [LoginRequest]: any password that was ever short enough. *)
Definition LoginRequest_new (e p : string) : res exn (string * string) :=
  e ← check_email e;
  p ← check_length 1 _MAX_PASSWORD_LEN p;
  Ok (e, p).

(** [PasswordResetConfirm]. *)
Definition PasswordResetConfirm_new (token p : string) : res exn (string * string) :=
  if len token <? 1 then Err (value_error "String is too short")
  else
    p ← check_password p;
    Ok (token, p).

(** The bodies of one field. *)
Definition check_token (token : string) : res exn string :=
  if len token <? 1 then Err (value_error "String is too short") else Ok token.

Definition RefreshRequest_new (refresh_token : string) : res exn string := check_token refresh_token.
Definition VerifyEmailRequest_new (token : string) : res exn string := check_token token.
Definition ResendVerificationRequest_new (e : string) : res exn string := check_email e.
Definition PasswordResetRequest_new (e : string) : res exn string := check_email e.
Definition LogoutRequest_new (refresh_token : option string) : res exn (option string) := Ok refresh_token.

End requests.

(** ** [PriceAlertCreate] *)

Record PriceAlertCreate : Type := {
  origin : string;
  destination : string;
  departure_date : string;
  target_amount_minor : Z;
  currency : string;
  channel : string;
}.

(** [^\d{4}-\d{2}-\d{2}$]. *)
Definition date_shaped (s : string) : bool :=
  match chars s with
  | [a; b; c; d; h1; e; f; h2; g; h] =>
      forallb is_digit_char [a; b; c; d; e; f; g; h]
      && bool_decide (h1 = "-"%char) && bool_decide (h2 = "-"%char)
  | _ => false
  end.

Definition PriceAlertCreate_new (p : PriceAlertCreate) : res exn PriceAlertCreate :=
  if (len (origin p) =? 3) && (len (destination p) =? 3) && date_shaped (departure_date p)
     && (0 <? target_amount_minor p) && (len (currency p) =? 3)
     && (bool_decide (channel p = "email"%string) || bool_decide (channel p = "push"%string))
  then Ok p
  else Err (value_error "invalid alert").

(** ** Lemmas *)

Lemma lower_fix s : lower s = s <-> forall c, c ∈ chars s -> is_upper_char c = false.
Proof.
  unfold lower. split.
  - intros H c Hc. apply (f_equal chars) in H. rewrite chars_of_chars in H.
    rewrite <- H in Hc. apply list_elem_of_fmap in Hc as (d & -> & _). apply lower_char_not_upper.
  - intros H. rewrite <- (of_chars_chars s) at 2. f_equal.
    rewrite <- (list_fmap_id (chars s)) at 2. apply list_fmap_ext. intros i c Hc.
    unfold lower_char. rewrite H; [done|]. by apply list_elem_of_lookup_2 in Hc.
Qed.

Lemma upper_fix s : upper s = s <-> forall c, c ∈ chars s -> is_lower_char c = false.
Proof.
  unfold upper. split.
  - intros H c Hc. apply (f_equal chars) in H. rewrite chars_of_chars in H.
    rewrite <- H in Hc. apply list_elem_of_fmap in Hc as (d & -> & _). apply upper_char_not_lower.
  - intros H. rewrite <- (of_chars_chars s) at 2. f_equal.
    rewrite <- (list_fmap_id (chars s)) at 2. apply list_fmap_ext. intros i c Hc.
    unfold upper_char. rewrite H; [done|]. by apply list_elem_of_lookup_2 in Hc.
Qed.

(** Some character of the class, or none. *)
Lemma class_dec (p : ascii -> bool) (l : list ascii) :
  (exists c, c ∈ l /\ p c = true) \/ (forall c, c ∈ l -> p c = false).
Proof.
  destruct (existsb p l) eqn:E.
  - left. apply existsb_exists in E as (c & Hc & Hp). exists c. by rewrite list_elem_of_In.
  - right. intros c Hc. destruct (p c) eqn:Hp; [|done].
    assert (existsb p l = true); [|congruence]. apply existsb_exists. exists c.
    by rewrite <- list_elem_of_In.
Qed.

(** ** Properties *)

(** A new password is accepted exactly when it has 10 to 128 characters,
    among them an upper case letter, a lower case letter and a character that
    is not a letter; it is kept as it is. *)
Theorem password_accepted_iff p :
  check_password p = Ok p
  <-> 10 <= len p <= 128
      /\ (exists c, c ∈ chars p /\ is_upper_char c = true)
      /\ (exists c, c ∈ chars p /\ is_lower_char c = true)
      /\ (exists c, c ∈ chars p /\ is_alpha_char c = false).
Proof.
  unfold check_password, check_length, _MIN_PASSWORD_LEN, _MAX_PASSWORD_LEN, mbind, res_bind.
  destruct (Z.ltb_spec (len p) 10); [split; [done|lia]|].
  destruct (Z.ltb_spec 128 (len p)); [split; [done|lia]|].
  unfold validate_password_strength.
  assert (isalpha p = true <-> forall c, c ∈ chars p -> is_alpha_char c = true) as Ha.
  { unfold isalpha. destruct (Z.ltb_spec 0 (len p)); [simpl|lia]. rewrite forallb_forall.
    by setoid_rewrite list_elem_of_In. }
  assert (isdigit p = true -> forall c, c ∈ chars p -> is_digit_char c = true) as Hd.
  { unfold isdigit. intros [_ Hf]%andb_true_iff. rewrite forallb_forall in Hf.
    intros c Hc. by apply Hf, list_elem_of_In. }
  assert (forall c, is_digit_char c = true -> is_upper_char c = false) as Hdu
    by (unfold is_digit_char, is_upper_char; intros; lia).
  destruct (class_dec is_upper_char (chars p)) as [(u & Hu & Hup)|Hu].
  2: { rewrite (bool_decide_eq_true_2 (lower p = p)) by (by apply lower_fix).
       simpl. split; [by destruct (isalpha p || isdigit p)|].
       intros (_ & (c & Hc & Hcu) & _). by rewrite Hu in Hcu. }
  destruct (class_dec is_lower_char (chars p)) as [(l & Hl & Hlo)|Hl].
  2: { rewrite (bool_decide_eq_true_2 (upper p = p)) by (by apply upper_fix).
       rewrite orb_true_r. split; [by destruct (isalpha p || isdigit p)|].
       intros (_ & _ & (c & Hc & Hcl) & _). by rewrite Hl in Hcl. }
  rewrite (bool_decide_eq_false_2 (lower p = p)) by (intros E; rewrite lower_fix in E;
    by rewrite (E u Hu) in Hup).
  rewrite (bool_decide_eq_false_2 (upper p = p)) by (intros E; rewrite upper_fix in E;
    by rewrite (E l Hl) in Hlo).
  destruct (isdigit p) eqn:Ed.
  { exfalso. by rewrite (Hdu u (Hd eq_refl u Hu)) in Hup. }
  rewrite orb_false_r. simpl.
  destruct (class_dec (fun c => negb (is_alpha_char c)) (chars p)) as [(n & Hn & Hna)|Hn].
  - apply negb_true_iff in Hna. destruct (isalpha p) eqn:Ea.
    + exfalso. rewrite (proj1 Ha eq_refl n Hn) in Hna. done.
    + split; [|done]. intros _. split; [lia|]. split; [by exists u|]. split; [by exists l|by exists n].
  - assert (isalpha p = true) as ->.
    { apply Ha. intros c Hc. apply negb_false_iff. by apply Hn. }
    split; [done|]. intros (_ & _ & _ & c & Hc & Hca). specialize (Hn c Hc). by rewrite Hca in Hn.
Qed.

(** A password without a number is accepted, although the message for the
    first rule says that letters and numbers must be mixed. *)
Lemma password_without_number :
  check_password "Password!!" = Ok "Password!!"%string
  /\ forallb (fun c => negb (is_digit_char c)) (chars "Password!!") = true.
Proof. split; reflexivity. Qed.

End Schemas.
