(* ===== verification/Db.v ===== *)
(** * Persistence

    [app/db/models.py] and [app/repositories/]: the tables, as the running
    transaction sees them, and the queries on them.  A table is a map from the
    primary key; the rows of a query without an order come in the order of the
    map.  The unique index on the email column is kept by [add_user], as the
    database keeps it at the flush. *)
From S2P Require Import Prelude PyStr PyDict Errors PySorted.
Import PyStr PySorted.

Module Db.

(** ** Models *)

Inductive UserRole : Type := USER | ADMIN.

#[global] Instance user_role_eq_dec : EqDecision UserRole.
Proof. solve_decision. Defined.

Record User : Type := {
  u_id : Z;
  email : string;
  hashed_password : string;
  full_name : option string;
  role : UserRole;
  is_active : bool;
  is_verified : bool;
  u_created_at : Z;
}.

Record SearchHistory : Type := {
  sh_user_id : Z;
  sh_origin : string;
  sh_destination : string;
  sh_departure_date : string;
  sh_result_count : Z;
  sh_latency_ms : Z;
}.

Inductive AlertChannel : Type := EMAIL | PUSH.

Record PriceAlert : Type := {
  a_id : Z;
  a_user_id : Z;
  a_origin : string;
  a_destination : string;
  a_departure_date : string;
  a_target_amount_minor : Z;
  a_currency : string;
  a_channel : AlertChannel;
  a_is_active : bool;
  a_triggered_at : option Z;
  a_created_at : Z;
}.

Record AuditLog : Type := {
  actor_id : option Z;
  action : string;
  detail : string;
  ip_address : option string;
  al_created_at : Z;
}.

Record db : Type := {
  users : gmap Z User;
  alerts : gmap Z PriceAlert;
  searches : list SearchHistory;
  audit_log : list AuditLog;
}.

Definition empty : db := {| users := ∅; alerts := ∅; searches := []; audit_log := [] |}.

Definition set_users (us : gmap Z User) (d : db) : db :=
  {| users := us; alerts := alerts d; searches := searches d; audit_log := audit_log d |}.
Definition set_alerts (al : gmap Z PriceAlert) (d : db) : db :=
  {| users := users d; alerts := al; searches := searches d; audit_log := audit_log d |}.
Definition set_searches (s : list SearchHistory) (d : db) : db :=
  {| users := users d; alerts := alerts d; searches := s; audit_log := audit_log d |}.
Definition set_audit_log (l : list AuditLog) (d : db) : db :=
  {| users := users d; alerts := alerts d; searches := searches d; audit_log := l |}.

(** The rows of a table. *)
Definition rows {A} (t : gmap Z A) : list A := (map_to_list t).*2.

(** ** [UserRepository] *)
Module UserRepository.

Definition get_by_id (user_id : Z) : M exn db (option User) := fun d => (Ok (users d !! user_id), d).

Definition with_email (e : string) (d : db) : list User :=
  filter (fun u => email u = lower e) (rows (users d)).

(** [scalar_one_or_none]. *)
Definition get_by_email (e : string) : M exn db (option User) :=
  fun d =>
    match with_email e d with
    | [] => (Ok None, d)
    | [u] => (Ok (Some u), d)
    | _ => (Err (PyError "MultipleResultsFound" ""), d)
    end.

Definition exists_by_email (e : string) : M exn db bool :=
  fun d => (Ok (negb (bool_decide (with_email e d = []))), d).

(** The insert of the flush, under the primary key and the unique index. *)
Definition add_user (u : User) : M exn db unit :=
  fun d =>
    if bool_decide (is_Some (users d !! u_id u))
       || existsb (fun v => bool_decide (email v = email u)) (rows (users d))
    then (Err (PyError "IntegrityError" "UNIQUE constraint failed"), d)
    else (Ok tt, set_users (<[u_id u := u]> (users d)) d).

(** [id] and [now] are what the column defaults produce. *)
Definition create (id now : Z) (e hashed : string) (name : option string) (r : UserRole)
  : M exn db User :=
  let user :=
    {| u_id := id; email := lower e; hashed_password := hashed; full_name := name;
       role := r; is_active := true; is_verified := false; u_created_at := now |} in
  _ ← add_user user;
  mret user.

(** An assignment to an attribute of a row, flushed. *)
Definition update_user (f : User -> User) (user : User) : M exn db User :=
  fun d => (Ok (f user), set_users (<[u_id user := f user]> (users d)) d).

Definition update_password (user : User) (hashed : string) : M exn db User :=
  update_user (fun u =>
    {| u_id := u_id u; email := email u; hashed_password := hashed; full_name := full_name u;
       role := role u; is_active := is_active u; is_verified := is_verified u;
       u_created_at := u_created_at u |}) user.

Definition mark_verified (user : User) : M exn db User :=
  update_user (fun u =>
    {| u_id := u_id u; email := email u; hashed_password := hashed_password u;
       full_name := full_name u; role := role u; is_active := is_active u; is_verified := true;
       u_created_at := u_created_at u |}) user.

End UserRepository.

(** ** [PriceAlertRepository] *)
Module PriceAlertRepository.

Definition create (id now user_id : Z) (origin destination departure_date : string)
    (target_amount_minor : Z) (currency : string) (channel : AlertChannel) : M exn db PriceAlert :=
  fun d =>
    let alert :=
      {| a_id := id; a_user_id := user_id; a_origin := origin; a_destination := destination;
         a_departure_date := departure_date; a_target_amount_minor := target_amount_minor;
         a_currency := currency; a_channel := channel; a_is_active := true;
         a_triggered_at := None; a_created_at := now |} in
    if bool_decide (is_Some (alerts d !! id))
    then (Err (PyError "IntegrityError" "UNIQUE constraint failed"), d)
    else if bool_decide (users d !! user_id = None)
    then (Err (PyError "IntegrityError" "FOREIGN KEY constraint failed"), d)
    else (Ok alert, set_alerts (<[id := alert]> (alerts d)) d).

(** [order_by(created_at.desc())]. *)
Definition list_for_user (user_id : Z) : M exn db (list PriceAlert) :=
  fun d =>
    (Ok (sorted_by (fun a => - a_created_at a)
           (filter (fun a => a_user_id a = user_id) (rows (alerts d)))), d).

Definition get_owned (alert_id user_id : Z) : M exn db (option PriceAlert) :=
  fun d =>
    (Ok (a ← alerts d !! alert_id;
         if bool_decide (a_user_id a = user_id) then Some a else None), d).

Definition delete_ (alert : PriceAlert) : M exn db unit :=
  fun d => (Ok tt, set_alerts (delete (a_id alert) (alerts d)) d).

Definition list_active : M exn db (list PriceAlert) :=
  fun d => (Ok (filter (fun a => a_is_active a = true) (rows (alerts d))), d).

End PriceAlertRepository.

(** ** Well-formed tables *)

(** Keys are UUIDs, rows are at their keys, emails are in lower case and distinct, and every
    alert has its owner. *)
Record ok (d : db) : Prop := {
  ok_user_range id u : users d !! id = Some u -> 0 <= id < 2 ^ 128;
  ok_user_id id u : users d !! id = Some u -> u_id u = id;
  ok_email_lower id u : users d !! id = Some u -> lower (email u) = email u;
  ok_email_unique id id' u u' :
    users d !! id = Some u -> users d !! id' = Some u' -> email u = email u' -> id = id';
  ok_alert_id id a : alerts d !! id = Some a -> a_id a = id;
  ok_alert_owner id a : alerts d !! id = Some a -> is_Some (users d !! a_user_id a);
}.

Lemma elem_rows {A} (t : gmap Z A) x : x ∈ rows t <-> exists id, t !! id = Some x.
Proof.
  unfold rows. rewrite list_elem_of_fmap. split.
  - intros ([id y] & -> & Hin). apply elem_of_map_to_list in Hin. eauto.
  - intros (id & Hid). exists (id, x). split; [done|]. by apply elem_of_map_to_list.
Qed.

Lemma elem_with_email e d u :
  u ∈ UserRepository.with_email e d <-> email u = lower e /\ exists id, users d !! id = Some u.
Proof. unfold UserRepository.with_email. by rewrite list_elem_of_filter, elem_rows. Qed.

Lemma NoDup_with_email e d : ok d -> NoDup (UserRepository.with_email e d).
Proof.
  intros Hok. unfold UserRepository.with_email. apply NoDup_filter. unfold rows.
  apply (NoDup_fmap_1 u_id). rewrite <- list_fmap_compose.
  replace ((u_id ∘ snd) <$> map_to_list (users d)) with ((map_to_list (users d)).*1).
  - apply NoDup_fst_map_to_list.
  - apply list_fmap_ext. intros i [id u] Hin%list_elem_of_lookup_2%elem_of_map_to_list. simpl.
    symmetry. by apply (ok_user_id d Hok).
Qed.

(** A lookup by email finds the account of that email, whatever the case it is
    written in, and never fails. *)
Lemma get_by_email_spec d e :
  ok d ->
  exists r, UserRepository.get_by_email e d = (Ok r, d)
    /\ match r with
       | Some u => users d !! u_id u = Some u /\ email u = lower e
       | None => forall id u, users d !! id = Some u -> email u <> lower e
       end.
Proof.
  intros Hok. unfold UserRepository.get_by_email.
  pose proof (NoDup_with_email e d Hok) as Hnd.
  destruct (UserRepository.with_email e d) as [|u [|u' l]] eqn:E.
  - exists None. split; [done|]. intros id u Hu He.
    assert (u ∈ UserRepository.with_email e d) as Hin by (apply elem_with_email; eauto).
    rewrite E in Hin. by apply not_elem_of_nil in Hin.
  - exists (Some u). split; [done|].
    assert (u ∈ UserRepository.with_email e d) as (He & id & Hu)%elem_with_email
      by (rewrite E; by apply list_elem_of_singleton).
    split; [|done]. by rewrite (ok_user_id d Hok id u Hu).
  - exfalso.
    assert (u ∈ UserRepository.with_email e d) as (He & id & Hu)%elem_with_email
      by (rewrite E; apply elem_of_cons; by left).
    assert (u' ∈ UserRepository.with_email e d) as (He' & id' & Hu')%elem_with_email
      by (rewrite E; apply elem_of_cons; right; apply elem_of_cons; by left).
    assert (id = id') as -> by (apply (ok_email_unique d Hok id id' u u' Hu Hu'); congruence).
    apply NoDup_cons in Hnd as [Hnd _]. apply Hnd, elem_of_cons. left. congruence.
Qed.

Lemma get_by_email_found d u :
  ok d -> users d !! u_id u = Some u ->
  UserRepository.get_by_email (email u) d = (Ok (Some u), d).
Proof.
  intros Hok Hu. destruct (get_by_email_spec d (email u) Hok) as (r & -> & Hr).
  pose proof (ok_email_lower d Hok _ _ Hu) as Hl. rewrite Hl in Hr.
  destruct r as [v|]; [|by specialize (Hr _ _ Hu)].
  destruct Hr as [Hv He]. pose proof (ok_email_unique d Hok _ _ _ _ Hv Hu He) as Hid.
  rewrite Hid in Hv. congruence.
Qed.

Lemma get_by_email_lower d e : UserRepository.get_by_email (lower e) d = UserRepository.get_by_email e d.
Proof.
  unfold UserRepository.get_by_email, UserRepository.with_email. by rewrite lower_idemp.
Qed.

Lemma exists_by_email_spec d e :
  UserRepository.exists_by_email e d = (Ok true, d)
  /\ (exists id u, users d !! id = Some u /\ email u = lower e)
  \/ UserRepository.exists_by_email e d = (Ok false, d)
  /\ (forall id u, users d !! id = Some u -> email u <> lower e).
Proof.
  unfold UserRepository.exists_by_email. destruct (UserRepository.with_email e d) as [|u l] eqn:E.
  - right. split; [done|]. intros id u Hu He.
    assert (u ∈ UserRepository.with_email e d) as Hin by (apply elem_with_email; eauto).
    rewrite E in Hin. by apply not_elem_of_nil in Hin.
  - left. split; [done|].
    assert (u ∈ UserRepository.with_email e d) as (He & id & Hu)%elem_with_email
      by (rewrite E; apply elem_of_cons; by left). eauto.
Qed.

(** Inserting a user: only under a new key and a new email, which keeps the
    tables well formed. *)
Lemma add_user_spec d u :
  (UserRepository.add_user u d = (Ok tt, set_users (<[u_id u := u]> (users d)) d)
   /\ users d !! u_id u = None /\ (forall id v, users d !! id = Some v -> email v <> email u))
  \/ (UserRepository.add_user u d
      = (Err (PyError "IntegrityError" "UNIQUE constraint failed"), d)
      /\ (is_Some (users d !! u_id u) \/ exists id v, users d !! id = Some v /\ email v = email u)).
Proof.
  unfold UserRepository.add_user. case_bool_decide as Hid; simpl; [by right; auto|].
  apply eq_None_not_Some in Hid. destruct (existsb _ _) eqn:E.
  - right. split; [done|]. right. apply existsb_exists in E as (v & Hv & He).
    apply list_elem_of_In, elem_rows in Hv as (id & Hv). exists id, v. split; [done|].
    by apply bool_decide_eq_true in He.
  - left. split_and!; try done. intros id v Hv He.
    assert (existsb (fun v => bool_decide (email v = email u)) (rows (users d)) = true); [|congruence].
    apply existsb_exists. exists v. split; [|by apply bool_decide_eq_true].
    apply list_elem_of_In, elem_rows. eauto.
Qed.

Lemma ok_add_user d u :
  ok d -> 0 <= u_id u < 2 ^ 128 -> lower (email u) = email u -> users d !! u_id u = None ->
  (forall id v, users d !! id = Some v -> email v <> email u) ->
  ok (set_users (<[u_id u := u]> (users d)) d).
Proof.
  intros Hok Hr Hl Hn He. constructor; simpl.
  - intros id v. rewrite lookup_insert. case_decide as Hid; [by subst|]. apply (ok_user_range d Hok).
  - intros id v. rewrite lookup_insert. case_decide as Hid; [intros [= <-]; done|].
    apply (ok_user_id d Hok).
  - intros id v. rewrite lookup_insert. case_decide as Hid; [intros [= <-]; done|].
    apply (ok_email_lower d Hok).
  - intros id id' v v'. rewrite !lookup_insert. repeat case_decide; subst.
    + done.
    + intros [= <-] Hv' E. by destruct (He _ _ Hv').
    + intros Hv [= <-] E. by destruct (He _ _ Hv).
    + apply (ok_email_unique d Hok).
  - apply (ok_alert_id d Hok).
  - intros id a Ha. apply (ok_alert_owner d Hok) in Ha. rewrite lookup_insert.
    case_decide; [by eexists|done].
Qed.

(** An update that keeps key and email keeps the tables well formed. *)
Lemma ok_update_user d u v :
  ok d -> users d !! u_id u = Some u -> u_id v = u_id u -> email v = email u ->
  ok (set_users (<[u_id u := v]> (users d)) d).
Proof.
  intros Hok Hu Hid He.
  assert (forall id w, <[u_id u := v]> (users d) !! id = Some w ->
    exists w', users d !! id = Some w' /\ u_id w = u_id w' /\ email w = email w') as Hold.
  { intros id w. rewrite lookup_insert. case_decide; [intros [= <-]; subst; eauto|eauto]. }
  constructor; simpl.
  - intros id w (w' & Hw & _)%Hold. by apply (ok_user_range d Hok id w').
  - intros id w (w' & Hw & -> & _)%Hold. by apply (ok_user_id d Hok).
  - intros id w (w' & Hw & _ & ->)%Hold. by apply (ok_email_lower d Hok id).
  - intros id id' w w' (x & Hx & _ & ->)%Hold (x' & Hx' & _ & ->)%Hold.
    by apply (ok_email_unique d Hok).
  - apply (ok_alert_id d Hok).
  - intros id a Ha. apply (ok_alert_owner d Hok) in Ha. rewrite lookup_insert.
    case_decide; [by eexists|done].
Qed.

Lemma ok_empty : ok empty.
Proof. by constructor; simpl; intros *; rewrite lookup_empty. Qed.

End Db.
