(* ===== verification/Migration.v ===== *)
(** * Schema

    [alembic/versions/20260730_0812_a77395e94755_initial_schema.py] against the
    tables [app/db/models.py] declares.  A deployment runs the migration, the
    demo creates the tables of the models: both must give one schema.  What a
    database does with a statement is an interface, by its catalog. *)
From S2P Require Import Prelude Errors.

Module Migration.

(** ** Tables *)

Inductive coltype : Type :=
| Uuid
| String_ (length : option Z)
| Integer
| Boolean
| DateTime (timezone : bool)
| Enum_ (names : list string) (name : string) (length : Z).

#[global] Instance coltype_eq_dec : EqDecision coltype.
Proof. solve_decision. Defined.

Record Column : Type := {
  c_name : string;
  c_type : coltype;
  nullable : bool;
  server_default : option string;
}.

(** A foreign key to the column [fk_target] of [fk_table]. *)
Record ForeignKey : Type := {
  fk_column : string;
  fk_table : string;
  fk_target : string;
  fk_cascade : bool;
}.

Record table : Type := {
  t_name : string;
  columns : list Column;
  primary_key : list string;
  foreign_keys : list ForeignKey;
}.

Record index : Type := {
  i_name : string;
  i_table : string;
  i_columns : list string;
  i_unique : bool;
}.

(** The operations of [alembic.op] the migration uses. *)
Inductive operation : Type :=
| create_table (t : table)
| create_index (i : index)
| drop_index (name tbl : string)
| drop_table (name : string).

(** ** The migration *)

Definition column (name : string) (ty : coltype) (null : bool) : Column :=
  {| c_name := name; c_type := ty; nullable := null; server_default := None |}.

Definition stamp (name : string) : Column :=
  {| c_name := name; c_type := DateTime true; nullable := false;
     server_default := Some "(CURRENT_TIMESTAMP)"%string |}.

Definition audit_log_table : table :=
  {| t_name := "audit_log";
     columns := [column "id" Uuid false; column "actor_id" Uuid true;
                 column "action" (String_ (Some 64)) false; column "detail" (String_ (Some 500)) false;
                 column "ip_address" (String_ (Some 45)) true; stamp "created_at"; stamp "updated_at"];
     primary_key := ["id"%string]; foreign_keys := [] |}.

Definition users_table : table :=
  {| t_name := "users";
     columns := [column "id" Uuid false; column "email" (String_ (Some 320)) false;
                 column "hashed_password" (String_ (Some 255)) false; column "full_name" (String_ (Some 200)) true;
                 column "role" (Enum_ ["USER"; "ADMIN"]%string "userrole" 16) false;
                 column "is_active" Boolean false; column "is_verified" Boolean false;
                 stamp "created_at"; stamp "updated_at"];
     primary_key := ["id"%string]; foreign_keys := [] |}.

Definition owner : ForeignKey :=
  {| fk_column := "user_id"; fk_table := "users"; fk_target := "id"; fk_cascade := true |}.

Definition price_alerts_table : table :=
  {| t_name := "price_alerts";
     columns := [column "id" Uuid false; column "user_id" Uuid false;
                 column "origin" (String_ (Some 3)) false; column "destination" (String_ (Some 3)) false;
                 column "departure_date" (String_ (Some 10)) false;
                 column "target_amount_minor" Integer false; column "currency" (String_ (Some 3)) false;
                 column "channel" (Enum_ ["EMAIL"; "PUSH"]%string "alertchannel" 16) false;
                 column "is_active" Boolean false; column "triggered_at" (DateTime true) true;
                 stamp "created_at"; stamp "updated_at"];
     primary_key := ["id"%string]; foreign_keys := [owner] |}.

Definition search_history_table : table :=
  {| t_name := "search_history";
     columns := [column "id" Uuid false; column "user_id" Uuid false;
                 column "origin" (String_ (Some 3)) false; column "destination" (String_ (Some 3)) false;
                 column "departure_date" (String_ (Some 10)) false; column "result_count" Integer false;
                 column "latency_ms" Integer false; stamp "created_at"; stamp "updated_at"];
     primary_key := ["id"%string]; foreign_keys := [owner] |}.

Definition mk_index (name tbl : string) (cols : list string) (unique : bool) : operation :=
  create_index {| i_name := name; i_table := tbl; i_columns := cols; i_unique := unique |}.

Definition upgrade : list operation :=
  [create_table audit_log_table;
   mk_index "ix_audit_log_action" "audit_log" ["action"%string] false;
   mk_index "ix_audit_log_actor_id" "audit_log" ["actor_id"%string] false;
   create_table users_table;
   mk_index "ix_users_email" "users" ["email"%string] true;
   create_table price_alerts_table;
   mk_index "ix_price_alerts_user_id" "price_alerts" ["user_id"%string] false;
   create_table search_history_table;
   mk_index "ix_search_history_user_id" "search_history" ["user_id"%string] false;
   mk_index "ix_search_route" "search_history" ["origin"; "destination"]%string false].

Definition downgrade : list operation :=
  [drop_index "ix_search_route" "search_history";
   drop_index "ix_search_history_user_id" "search_history";
   drop_table "search_history";
   drop_index "ix_price_alerts_user_id" "price_alerts";
   drop_table "price_alerts";
   drop_index "ix_users_email" "users";
   drop_table "users";
   drop_index "ix_audit_log_actor_id" "audit_log";
   drop_index "ix_audit_log_action" "audit_log";
   drop_table "audit_log"].

(** ** The models *)

(** The annotation of a mapped attribute: its Python type, and whether it is
    a union with [None]. *)
Inductive pytype : Type := PyStrT | PyIntT | PyBoolT | PyUuidT | PyDatetimeT | PyEnumT (names : list string) (name : string).

Record attribute : Type := {
  a_name : string;
  a_python : pytype;
  a_optional : bool;
  a_type : option coltype;
  a_foreign_key : option (string * string * bool);
  a_index : bool;
  a_unique : bool;
}.

Definition mapped (name : string) (py : pytype) (optional : bool) (ty : option coltype) : attribute :=
  {| a_name := name; a_python := py; a_optional := optional; a_type := ty;
     a_foreign_key := None; a_index := false; a_unique := false |}.

Definition indexed (unique : bool) (a : attribute) : attribute :=
  {| a_name := a_name a; a_python := a_python a; a_optional := a_optional a; a_type := a_type a;
     a_foreign_key := a_foreign_key a; a_index := true; a_unique := unique |}.

(** A class of [models.py]: its own attributes and its [__table_args__]. *)
Record model : Type := {
  __tablename__ : string;
  attributes : list attribute;
  __table_args__ : list (string * list string);
}.

Definition owner_attribute : attribute :=
  {| a_name := "user_id"; a_python := PyUuidT; a_optional := false; a_type := None;
     a_foreign_key := Some ("users", "id", true)%string; a_index := true; a_unique := false |}.

Definition UserRole : pytype := PyEnumT ["USER"; "ADMIN"]%string "userrole".
Definition AlertChannel : pytype := PyEnumT ["EMAIL"; "PUSH"]%string "alertchannel".

(** [Enum(cls, native_enum=False, length=n)]: the names of the members, under
    the lower-case name of the class. *)
Definition enum_type (cls : pytype) (n : Z) : coltype :=
  match cls with
  | PyEnumT names name => Enum_ names name n
  | _ => Enum_ [] "" n
  end.

Definition User : model :=
  {| __tablename__ := "users";
     attributes :=
       [indexed true (mapped "email" PyStrT false (Some (String_ (Some 320))));
        mapped "hashed_password" PyStrT false (Some (String_ (Some 255)));
        mapped "full_name" PyStrT true (Some (String_ (Some 200)));
        mapped "role" UserRole false (Some (enum_type UserRole 16));
        mapped "is_active" PyBoolT false (Some Boolean);
        mapped "is_verified" PyBoolT false (Some Boolean)];
     __table_args__ := [] |}.

Definition SearchHistory : model :=
  {| __tablename__ := "search_history";
     attributes :=
       [owner_attribute;
        mapped "origin" PyStrT false (Some (String_ (Some 3)));
        mapped "destination" PyStrT false (Some (String_ (Some 3)));
        mapped "departure_date" PyStrT false (Some (String_ (Some 10)));
        mapped "result_count" PyIntT false (Some Integer);
        mapped "latency_ms" PyIntT false (Some Integer)];
     __table_args__ := [("ix_search_route", ["origin"; "destination"])]%string |}.

Definition PriceAlert : model :=
  {| __tablename__ := "price_alerts";
     attributes :=
       [owner_attribute;
        mapped "origin" PyStrT false (Some (String_ (Some 3)));
        mapped "destination" PyStrT false (Some (String_ (Some 3)));
        mapped "departure_date" PyStrT false (Some (String_ (Some 10)));
        mapped "target_amount_minor" PyIntT false (Some Integer);
        mapped "currency" PyStrT false (Some (String_ (Some 3)));
        mapped "channel" AlertChannel false (Some (enum_type AlertChannel 16));
        mapped "is_active" PyBoolT false (Some Boolean);
        mapped "triggered_at" PyDatetimeT true (Some (DateTime true))];
     __table_args__ := [] |}.

Definition AuditLog : model :=
  {| __tablename__ := "audit_log";
     attributes :=
       [indexed false (mapped "actor_id" PyUuidT true None);
        indexed false (mapped "action" PyStrT false (Some (String_ (Some 64))));
        mapped "detail" PyStrT false (Some (String_ (Some 500)));
        mapped "ip_address" PyStrT true (Some (String_ (Some 45)))];
     __table_args__ := [] |}.

Definition models : list model := [User; SearchHistory; PriceAlert; AuditLog].

(** *** [Base.metadata]

    [now_sql] is what the dialect writes for [func.now()].  A column takes the
    type it is given, or the one of its annotation; it is nullable when the
    annotation admits [None]; [index=True] names its index after table and
    column.  The mixins' [sort_order] puts [id] first and the stamps last. *)
Section metadata.
Variable now_sql : string.

Definition type_of (py : pytype) : coltype :=
  match py with
  | PyStrT => String_ None
  | PyIntT => Integer
  | PyBoolT => Boolean
  | PyUuidT => Uuid
  | PyDatetimeT => DateTime false
  | PyEnumT names name => Enum_ names name (foldr (fun s n => Z.max (Z.of_nat (Strings.String.length s)) n) 0 names)
  end.

Definition column_of (a : attribute) : Column :=
  column (a_name a) (default (type_of (a_python a)) (a_type a)) (a_optional a).

(** [UUIDPrimaryKeyMixin.id]. *)
Definition id_column : Column := column "id" (type_of PyUuidT) false.

(** The two columns of [TimestampMixin]. *)
Definition timestamps : list Column :=
  (fun name => {| c_name := name; c_type := DateTime true; nullable := false;
                  server_default := Some now_sql |}) <$> ["created_at"; "updated_at"]%string.

Definition foreign_key_of (a : attribute) : option ForeignKey :=
  '(tbl, target, cascade) ← a_foreign_key a;
  Some {| fk_column := a_name a; fk_table := tbl; fk_target := target; fk_cascade := cascade |}.

Definition table_of (m : model) : table :=
  {| t_name := __tablename__ m;
     columns := id_column :: (column_of <$> attributes m) ++ timestamps;
     primary_key := ["id"%string];
     foreign_keys := omap foreign_key_of (attributes m) |}.

Definition index_of (m : model) (a : attribute) : option index :=
  if a_index a then
    Some {| i_name := "ix_" +:+ __tablename__ m +:+ "_" +:+ a_name a; i_table := __tablename__ m;
            i_columns := [a_name a]; i_unique := a_unique a |}
  else None.

Definition indexes_of (m : model) : list index :=
  omap (index_of m) (attributes m)
  ++ ((fun '(name, cols) => {| i_name := name; i_table := __tablename__ m; i_columns := cols;
                               i_unique := false |}) <$> __table_args__ m).

Definition metadata_tables : gmap string table :=
  list_to_map ((fun m => (__tablename__ m, table_of m)) <$> models).

Definition metadata_indexes : gmap string index :=
  list_to_map ((fun i => (i_name i, i)) <$> (models ≫= indexes_of)).

End metadata.

(** ** What a database does

    The catalog of a database, when it takes a statement, and what it makes of
    it. *)
Record catalog : Type := { tables : gmap string table; indexes : gmap string index }.

Definition has_columns (t : table) (cols : list string) : Prop :=
  Forall (fun c => c ∈ c_name <$> columns t) cols.

Definition refers (name : string) (t : table) : Prop :=
  exists fk, fk ∈ foreign_keys t /\ fk_table fk = name.

Definition accepts (c : catalog) (op : operation) : Prop :=
  match op with
  | create_table t =>
      tables c !! t_name t = None
      /\ Forall (fun fk => fk_column fk ∈ c_name <$> columns t
           /\ exists t', tables c !! fk_table fk = Some t' /\ fk_target fk ∈ primary_key t') (foreign_keys t)
  | create_index i =>
      indexes c !! i_name i = None
      /\ exists t, tables c !! i_table i = Some t /\ has_columns t (i_columns i)
  | drop_index name tbl => exists i, indexes c !! name = Some i /\ i_table i = tbl
  | drop_table name =>
      is_Some (tables c !! name)
      /\ map_Forall (fun n t => refers name t -> n = name) (tables c)
  end.

Definition performed (c : catalog) (op : operation) : catalog :=
  match op with
  | create_table t => {| tables := <[t_name t := t]> (tables c); indexes := indexes c |}
  | create_index i => {| tables := tables c; indexes := <[i_name i := i]> (indexes c) |}
  | drop_index name _ => {| tables := tables c; indexes := delete name (indexes c) |}
  | drop_table name =>
      {| tables := delete name (tables c);
         indexes := filter (fun ni => i_table ni.2 <> name) (indexes c) |}
  end.

(** A database, by the catalog it shows. *)
Class Ddl (D : Type) : Type := {
  catalog_of : D -> catalog;
  execute : operation -> M exn D unit;
}.

Class DdlLaws (D : Type) `{Ddl D} : Prop :=
  execute_law op d : accepts (catalog_of d) op ->
    exists d', execute op d = (Ok tt, d') /\ catalog_of d' = performed (catalog_of d) op.

(** A migration script. *)
Fixpoint run_script {D} `{Ddl D} (ops : list operation) : M exn D unit :=
  match ops with
  | [] => mret tt
  | op :: ops => _ ← execute op; run_script ops
  end.

(** ** Undoing a script that creates *)

(** Indexes lie on tables of the catalog, and foreign keys lead to such. *)
Record wf_catalog (c : catalog) : Prop := {
  wf_indexes : map_Forall (fun _ i => is_Some (tables c !! i_table i)) (indexes c);
  wf_keys : map_Forall (fun _ t => forall name, refers name t -> is_Some (tables c !! name)) (tables c);
}.

Definition inverse (op : operation) : operation :=
  match op with
  | create_table t => drop_table (t_name t)
  | create_index i => drop_index (i_name i) (i_table i)
  | op => op
  end.

Definition creates (op : operation) : bool :=
  match op with
  | create_table _ | create_index _ => true
  | _ => false
  end.

Lemma wf_performed c op :
  creates op = true -> wf_catalog c -> accepts c op -> wf_catalog (performed c op).
Proof.
  intros Hc [Hi Hk] Ha. destruct op as [t|i| |]; try done; simpl in *.
  - destruct Ha as [Hfresh Hfk]. split; simpl.
    + intros n i Hn. apply lookup_insert_is_Some'. right. exact (Hi n i Hn).
    + intros n t' Hn name Hr. apply lookup_insert_is_Some'. right.
      apply lookup_insert_Some in Hn as [[_ <-]|[_ Hn]]; [|exact (Hk n t' Hn name Hr)].
      destruct Hr as (fk & Hin & <-). rewrite Forall_forall in Hfk.
      destruct (Hfk fk Hin) as (_ & t' & -> & _). done.
  - destruct Ha as (Hfresh & t & Ht & _). split; simpl; [|done].
    apply map_Forall_insert_2; [by eexists|done].
Qed.

Lemma undo c op :
  creates op = true -> wf_catalog c -> accepts c op ->
  accepts (performed c op) (inverse op) /\ performed (performed c op) (inverse op) = c.
Proof.
  intros Hc [Hi Hk] Ha. destruct op as [t|i| |]; try done; simpl in *.
  - destruct Ha as [Hfresh _]. split.
    + split; [by apply lookup_insert_is_Some'; left|].
      intros n t' Hn Hr. apply lookup_insert_Some in Hn as [[<- _]|[_ Hn]]; [done|].
      destruct (Hk n t' Hn _ Hr) as [? H']. by rewrite Hfresh in H'.
    + rewrite delete_insert_id by done. rewrite map_filter_id; [by destruct c|].
      intros n i Hn Heq. destruct (Hi n i Hn) as [? H']. simpl in Heq. by rewrite Heq, Hfresh in H'.
  - destruct Ha as (Hfresh & _). split.
    + exists i. by rewrite lookup_insert_eq.
    + rewrite delete_insert_id by done. by destruct c.
Qed.

Fixpoint accepts_script (c : catalog) (ops : list operation) : Prop :=
  match ops with
  | [] => True
  | op :: ops => accepts c op /\ accepts_script (performed c op) ops
  end.

Definition outcome (c : catalog) (ops : list operation) : catalog := foldl performed c ops.

Lemma accepts_script_snoc c ops op :
  accepts_script c ops -> accepts (outcome c ops) op -> accepts_script c (ops ++ [op]).
Proof.
  revert c. induction ops as [|o ops IH]; intros c; simpl; [done|].
  intros [Ho Hops] Hop. by split; [|apply IH].
Qed.

Lemma undo_script c ops :
  forallb creates ops = true -> wf_catalog c -> accepts_script c ops ->
  accepts_script (outcome c ops) (reverse (inverse <$> ops))
  /\ outcome (outcome c ops) (reverse (inverse <$> ops)) = c.
Proof.
  revert c. induction ops as [|op ops IH]; intros c; [done|].
  cbn [forallb accepts_script]. rewrite andb_true_iff. intros [Hc Hcs] Hwf [Ha Has].
  destruct (IH _ Hcs (wf_performed c op Hc Hwf Ha) Has) as [IHa IHo].
  destruct (undo c op Hc Hwf Ha) as [Hu Hback].
  rewrite fmap_cons, reverse_cons. change (outcome c (op :: ops)) with (outcome (performed c op) ops).
  split; [apply accepts_script_snoc; [done|by rewrite IHo]|].
  unfold outcome in *. by rewrite foldl_app, IHo.
Qed.

Lemma run_script_outcome {D} `{DdlLaws D} ops d :
  accepts_script (catalog_of d) ops ->
  exists d', run_script ops d = (Ok tt, d') /\ catalog_of d' = outcome (catalog_of d) ops.
Proof.
  revert d. induction ops as [|op ops IH]; intros d; simpl; [by exists d|].
  intros [Ha Has]. destruct (execute_law op d Ha) as (d1 & E1 & Hd1). m_run E1.
  rewrite <- Hd1 in Has. destruct (IH d1 Has) as (d2 & E2 & Hd2). exists d2. split; [exact E2|].
  rewrite Hd2, Hd1. done.
Qed.

(** ** The schema *)

(** What the migration was generated with: SQLite's text of [func.now()].  For
    PostgreSQL the models say [now()], which means the same there. *)
Definition current_timestamp : string := "(CURRENT_TIMESTAMP)".

(** None of the names is taken. *)
Definition unused (c : catalog) : Prop :=
  metadata_tables current_timestamp ##ₘ tables c /\ metadata_indexes ##ₘ indexes c.

Lemma union_here {A} (x : A) o : Some x = Some x ∪ o.
Proof. by destruct o. Qed.

Lemma union_elsewhere {A} (o : option A) : o = None ∪ o.
Proof. by destruct o. Qed.

(** Compare two maps at the names of the schema, and elsewhere. *)
Ltac at_name k n :=
  let Hne := fresh "Hne" in
  destruct (decide (n = k)) as [<-|Hne];
  [first [done|(simplify_map_eq by done); apply union_here]|rewrite !lookup_insert_ne by exact Hne].

Ltac by_name :=
  let k := fresh "k" in
  apply map_eq; intros k; rewrite lookup_union;
  repeat match goal with
  | |- context [<[?n := _]> _ !! k] => at_name k n
  end; rewrite lookup_empty; apply union_elsewhere.

Lemma upgrade_outcome c :
  tables (outcome c upgrade) = metadata_tables current_timestamp ∪ tables c
  /\ indexes (outcome c upgrade) = metadata_indexes ∪ indexes c.
Proof.
  split; unfold metadata_tables, metadata_indexes; cbn -[insert union].
  - by_name.
  - by_name.
Qed.

Lemma unused_names c : unused c ->
  (forall n, n ∈ ["audit_log"; "users"; "price_alerts"; "search_history"]%string -> tables c !! n = None)
  /\ (forall n, n ∈ ["ix_audit_log_action"; "ix_audit_log_actor_id"; "ix_users_email";
                     "ix_price_alerts_user_id"; "ix_search_history_user_id"; "ix_search_route"]%string ->
        indexes c !! n = None).
Proof.
  intros [Ht Hi]. split; intros n Hn.
  - destruct (tables c !! n) as [t|] eqn:E; [exfalso|done].
    rewrite !elem_of_cons, elem_of_nil in Hn.
    pose proof (map_disjoint_Some_r _ _ _ _ Ht E) as Hm.
    destruct Hn as [->|[->|[->|[->|[]]]]]; by vm_compute in Hm.
  - destruct (indexes c !! n) as [t|] eqn:E; [exfalso|done].
    rewrite !elem_of_cons, elem_of_nil in Hn.
    pose proof (map_disjoint_Some_r _ _ _ _ Hi E) as Hm.
    destruct Hn as [->|[->|[->|[->|[->|[->|[]]]]]]]; by vm_compute in Hm.
Qed.

Ltac member := apply (bool_decide_unpack _); vm_compute; exact I.
Ltac free H := cbn [performed mk_index tables indexes t_name i_name]; rewrite ?lookup_insert_ne by done; apply H; member.

(** A table whose name is free, with keys to tables that are there. *)
Lemma accepts_table c t : tables c !! t_name t = None -> foreign_keys t = [] -> accepts c (create_table t).
Proof. intros Hf Hk. split; [done|]. by rewrite Hk. Qed.

Lemma accepts_owned_table c t :
  tables c !! t_name t = None -> tables c !! "users"%string = Some users_table -> foreign_keys t = [owner] ->
  "user_id"%string ∈ c_name <$> columns t -> accepts c (create_table t).
Proof.
  intros Hf Hu Hk Hc. split; [done|]. rewrite Hk. apply Forall_singleton. split; [done|].
  exists users_table. split; [done|]. left.
Qed.

Lemma accepts_index c name tbl cols unique t :
  indexes c !! name = None -> tables c !! tbl = Some t -> bool_decide (has_columns t cols) = true ->
  accepts c (mk_index name tbl cols unique).
Proof. intros Hf Ht Hc. split; [done|]. exists t. split; [done|]. by apply bool_decide_eq_true_1 in Hc. Qed.

Ltac present := cbn [performed mk_index tables]; by simplify_map_eq.

(** Every statement of the migration is one the database takes. *)
Lemma upgrade_accepted c : unused c -> accepts_script c upgrade.
Proof.
  intros Hu. destruct (unused_names c Hu) as [Ht Hi]. unfold upgrade. cbn [accepts_script].
  split_and!; try exact I.
  - apply accepts_table; [free Ht|done].
  - eapply accepts_index; [free Hi|present|by vm_compute].
  - eapply accepts_index; [free Hi|present|by vm_compute].
  - apply accepts_table; [free Ht|done].
  - eapply accepts_index; [free Hi|present|by vm_compute].
  - apply accepts_owned_table; [free Ht|present|done|member].
  - eapply accepts_index; [free Hi|present|by vm_compute].
  - apply accepts_owned_table; [free Ht|present|done|member].
  - eapply accepts_index; [free Hi|present|by vm_compute].
  - eapply accepts_index; [free Hi|present|by vm_compute].
Qed.

(** C24. Schema: on a catalog where its names are free the migration runs to its
    end and adds exactly the tables, columns, keys and indexes that the models
    declare -- what the demo creates from the models -- and running it back
    removes exactly these. *)
Theorem migration_matches_models {D} `{DdlLaws D} (d : D) :
  wf_catalog (catalog_of d) -> unused (catalog_of d) ->
  exists d1 d2,
    run_script upgrade d = (Ok tt, d1)
    /\ tables (catalog_of d1) = metadata_tables current_timestamp ∪ tables (catalog_of d)
    /\ indexes (catalog_of d1) = metadata_indexes ∪ indexes (catalog_of d)
    /\ run_script downgrade d1 = (Ok tt, d2)
    /\ catalog_of d2 = catalog_of d.
Proof.
  intros Hwf Hu. pose proof (upgrade_accepted _ Hu) as Ha.
  destruct (run_script_outcome upgrade d Ha) as (d1 & E1 & Hd1).
  destruct (undo_script (catalog_of d) upgrade eq_refl Hwf Ha) as [Hback Hend].
  change (reverse (inverse <$> upgrade)) with downgrade in *. rewrite <- Hd1 in *.
  destruct (run_script_outcome downgrade d1 Hback) as (d2 & E2 & Hd2).
  destruct (upgrade_outcome (catalog_of d)) as [Htab Hidx]. rewrite <- Hd1 in *.
  exists d1, d2. split_and!; try done. by rewrite Hd2.
Qed.

(** A database that is its catalog. *)
#[local] Instance catalog_ddl : Ddl catalog :=
  {| catalog_of c := c; execute op c := (Ok tt, performed c op) |}.
#[local] Instance catalog_ddl_laws : DdlLaws catalog.
Proof. intros op d _. by eexists. Qed.

Lemma migration_matches_models_witness :
  exists c1, run_script upgrade {| tables := ∅; indexes := ∅ |} = (Ok tt, c1)
    /\ tables c1 = metadata_tables current_timestamp ∪ ∅.
Proof.
  destruct (migration_matches_models (D:=catalog) {| tables := ∅; indexes := ∅ |})
    as (c1 & c2 & E1 & Ht & _).
  - split; apply map_Forall_empty.
  - split; apply map_disjoint_empty_r.
  - by exists c1.
Defined.

End Migration.
