(* ===== verification/PyNum.v ===== *)
(** * Python numbers read from JSON

    [float()] and [int()] of the values [json.loads] produces, with the other
    operations the adapters apply to them: subscripts, [.get], truth, iteration,
    [fmean].  A number is finite here: where Python would go on with an infinity
    or a NaN -- a text that spells one, or a decimal beyond the range -- these
    functions stop with the exception [non_finite]. *)
From S2P Require Import Prelude PyStr PyDict Errors Float64.
Import PyStr.

Module PyNum.

Definition type_error (message : string) : exn := PyError "TypeError" message.
Definition value_error (message : string) : exn := PyError "ValueError" message.
Definition overflow_error (message : string) : exn := PyError "OverflowError" message.
Definition attribute_error (message : string) : exn := PyError "AttributeError" message.
Definition non_finite : exn := PyError "non-finite float" "outside the model".

(** ** [float(text)] *)

(** Underscores may stand between digits only; they are dropped. *)
Fixpoint strip_underscores (prev_digit : bool) (l : list ascii) : option (list ascii) :=
  match l with
  | [] => Some []
  | c :: l' =>
      if bool_decide (c = "_"%char) then
        if prev_digit && from_option is_digit_char false (head l') then strip_underscores false l'
        else None
      else (fun r => c :: r) <$> strip_underscores (is_digit_char c) l'
  end.

Fixpoint span_digits (l : list ascii) : list ascii * list ascii :=
  match l with
  | c :: l' => if is_digit_char c then let '(ds, r) := span_digits l' in (c :: ds, r) else ([], l)
  | [] => ([], [])
  end.

Definition digits_value (ds : list ascii) : Z := horner 0 (digit_value <$> ds).

Definition take_sign (l : list ascii) : Z * list ascii :=
  match l with
  | c :: l' =>
      if bool_decide (c = "-"%char) then (-1, l')
      else if bool_decide (c = "+"%char) then (1, l') else (1, l)
  | [] => (1, [])
  end.

(** What is left after the significand: nothing, or an exponent. *)
Definition parse_exponent (l : list ascii) : option Z :=
  match l with
  | [] => Some 0
  | c :: l' =>
      if bool_decide (lower_char c = "e"%char) then
        let '(sgn, r) := take_sign l' in
        match span_digits r with
        | ((_ :: _) as ds, []) => Some (sgn * digits_value ds)
        | _ => None
        end
      else None
  end.

(** A decimal literal as significand and exponent of ten. *)
Definition parse_decimal (l : list ascii) : option (Z * Z) :=
  let '(ip, r1) := span_digits l in
  let '(fp, r2) := match r1 with
                   | c :: r => if bool_decide (c = "."%char) then span_digits r else ([], r1)
                   | [] => ([], [])
                   end in
  match ip ++ fp with
  | [] => None
  | ds => (fun e => (digits_value ds, e - Z.of_nat (length fp))) <$> parse_exponent r2
  end.

(** The double nearest to [m * 10^e], or an overflow. *)
Definition scale_decimal (m e : Z) : option Z :=
  let v := F64.rnd (m * 10 ^ Z.max 0 e * F64.one) (10 ^ Z.max 0 (- e)) in
  if Z.abs v <? 2 ^ 1024 * F64.one then Some v else None.

Definition spells_non_finite (l : list ascii) : bool :=
  bool_decide (lower (of_chars l) ∈ ["inf"; "infinity"; "nan"]%string).

Definition float_of_text (s : string) : res exn Z :=
  let bad := Err (value_error "could not convert string to float") in
  match strip_underscores false (strip_chars is_space_char (chars s)) with
  | None => bad
  | Some l =>
      let '(sgn, r) := take_sign l in
      if spells_non_finite r then Err non_finite
      else match parse_decimal r with
           | None => bad
           | Some (m, e) =>
               match scale_decimal m e with
               | Some v => Ok (sgn * v)
               | None => Err non_finite
               end
           end
  end.

(** ** Conversions of JSON values *)

Definition py_float (v : json) : res exn Z :=
  match v with
  | JInt n =>
      match F64.float_of_int n with
      | Some f => Ok f
      | None => Err (overflow_error "int too large to convert to float")
      end
  | JFloat f => Ok f
  | JBool b => Ok (if b then F64.one else 0)
  | JStr s => float_of_text s
  | JNull | JList _ | JObj _ => Err (type_error "float() argument must be a string or a real number")
  end.

Definition py_int (v : json) : res exn Z :=
  match v with
  | JInt n => Ok n
  | JFloat f => Ok (F64.to_int f)
  | JBool b => Ok (if b then 1 else 0)
  | JStr s =>
      match PyStr.py_int s with
      | Some n => Ok n
      | None => Err (value_error "invalid literal for int() with base 10")
      end
  | JNull | JList _ | JObj _ => Err (type_error "int() argument must be a string or a real number")
  end.

(** [bool(v)]. *)
Definition truthy (v : json) : bool :=
  match v with
  | JNull => false
  | JBool b => b
  | JInt n => negb (n =? 0)
  | JFloat f => negb (f =? 0)
  | JStr s => negb (bool_decide (s = ""%string))
  | JList l => match l with [] => false | _ => true end
  | JObj l => match l with [] => false | _ => true end
  end.

(** [v or other]. *)
Definition py_or (v other : json) : json := if truthy v then v else other.

(** [v[key]] for a text key. *)
Definition subscript (v : json) (key : string) : res exn json :=
  match v with
  | JObj fields =>
      match PyDict.get fields key with
      | Some x => Ok x
      | None => Err (PyError "KeyError" key)
      end
  | _ => Err (type_error "not subscriptable with a string")
  end.

(** [v[0]]. *)
Definition first_of (v : json) : res exn json :=
  match v with
  | JList (x :: _) => Ok x
  | JList [] => Err (PyError "IndexError" "list index out of range")
  | JStr s =>
      match chars s with
      | c :: _ => Ok (JStr (of_chars [c]))
      | [] => Err (PyError "IndexError" "string index out of range")
      end
  | JObj _ => Err (PyError "KeyError" "0")
  | _ => Err (type_error "object is not subscriptable")
  end.

(** [v.get(key, dflt)]. *)
Definition get_or (v : json) (key : string) (dflt : json) : res exn json :=
  match v with
  | JObj fields => Ok (default dflt (PyDict.get fields key))
  | _ => Err (attribute_error "get")
  end.

(** What iterating over [v] yields. *)
Definition iterate (v : json) : res exn (list json) :=
  match v with
  | JList l => Ok l
  | JStr s => Ok ((fun c => JStr (of_chars [c])) <$> chars s)
  | JObj fields => Ok ((fun kv => JStr kv.1) <$> fields)
  | _ => Err (type_error "object is not iterable")
  end.

(** [fmean]: the exactly rounded sum, divided by the count. *)
Definition fmean (l : list Z) : res exn Z :=
  let total := F64.rnd (foldr Z.add 0 l) 1 in
  if Z.abs total <? 2 ^ 1024 * F64.one
  then Ok (F64.div total (F64.of_int (Z.of_nat (length l))))
  else Err (overflow_error "intermediate overflow in fsum").

(** [except (classes)]. *)
Definition is_one_of (classes : list string) (e : exn) : bool :=
  match e with
  | PyError cls _ => bool_decide (cls ∈ classes)
  | _ => false
  end.

End PyNum.
