(* ===== verification/Providers.v ===== *)
(** * Weather and currency

    [app/providers/weather.py] and [app/providers/currency.py]: the adapters
    that turn an upstream payload, fetched with the resilient client of
    [HttpClient.v], into the normalized objects of the domain.  A payload is
    any JSON value, and the subscripts and conversions fail as Python's do. *)
From S2P Require Import Prelude PyStr PyDict Errors Float64 Domain PyNum Cache CircuitBreaker HttpClient.
Import PyStr Calendar Domain.Domain PyNum.

Module Providers.

(** [s.rstrip(ch)]. *)
Definition rstrip_char (ch : ascii) (s : string) : string :=
  of_chars (reverse (drop_while (fun c => bool_decide (c = ch)) (reverse (chars s)))).

(** [try: m  except (classes): raise ProviderUnavailableError(message)]. *)
Definition unavailable_on {A} (classes : list string) (message : string) (m : res exn A) : res exn A :=
  match m with
  | Ok a => Ok a
  | Err e => if is_one_of classes e then Err (app_err ProviderUnavailableError message) else Err e
  end.

(** ** Open-Meteo *)
Module OpenMeteo.

Definition bad_payload : string := "open-meteo returned an unexpected payload".

(** [daily[key][0]]. *)
Definition daily_value (daily : json) (key : string) : res exn json :=
  column ← subscript daily key;
  first_of column.

(** The body of the [try]. *)
Definition read_daily (payload : json) : res exn (Z * Z * Z) :=
  daily ← subscript payload "daily"%string;
  temperature ← (v ← daily_value daily "temperature_2m_max"; py_float v);
  precipitation ← (v ← daily_value daily "precipitation_probability_max"; py_int (py_or v (JInt 0)));
  wind ← (v ← daily_value daily "wind_speed_10m_max"; py_float v);
  mret (temperature, precipitation, wind).

(** [max(0, min(100, n))]. *)
Definition percent (n : Z) : Z := Z.max 0 (Z.min 100 n).

(** The comprehension over [zip(times, values)]. *)
Fixpoint readings (iso_day : string) (pairs : list (json * json)) : res exn (list Z) :=
  match pairs with
  | [] => Ok []
  | (stamp, value) :: rest =>
      match stamp with
      | JStr s =>
          if startswith s iso_day && negb (match value with JNull => true | _ => false end) then
            v ← py_float value;
            vs ← readings iso_day rest;
            mret (v :: vs)
          else readings iso_day rest
      | _ => Err (attribute_error "startswith")
      end
  end.

Definition _mean_humidity (payload : json) (iso_day : string) : res exn Z :=
  hourly ← (v ← get_or payload "hourly" JNull; mret (py_or v (JObj [])));
  times ← (v ← get_or hourly "time" JNull; mret (py_or v (JList [])));
  values ← (v ← get_or hourly "relative_humidity_2m" JNull; mret (py_or v (JList [])));
  stamps ← iterate times;
  numbers ← iterate values;
  found ← readings iso_day (zip stamps numbers);
  match found with
  | [] => mret 0
  | _ => mean ← fmean found; mret (percent (F64.round_int mean))
  end.

Definition _normalize (payload : json) (latitude longitude : Z) (iso_day : string)
  : res exn WeatherForecast :=
  '(temperature, precipitation, wind) ←
    unavailable_on ["KeyError"; "IndexError"; "TypeError"; "ValueError"]%string bad_payload
      (read_daily payload);
  humidity ← _mean_humidity payload iso_day;
  let w :=
    {| w_latitude := latitude; w_longitude := longitude; w_date := iso_day;
       w_temperature_c := F64.round_digits temperature 1;
       w_precipitation_probability := percent precipitation;
       w_wind_kph := F64.round_digits wind 1;
       w_humidity := humidity |} in
  if valid_weather w then Ok w else Err (validation_failed "WeatherForecast").

Record provider : Type := { _http : HttpClient.client; _base_url : string; _cache_ttl : Z }.

Definition mk_provider (http : HttpClient.client) (base_url : string) (cache_ttl : Z) : provider :=
  {| _http := http; _base_url := rstrip_char "/" base_url; _cache_ttl := cache_ttl |}.

Definition query (latitude longitude : Z) (iso_day : string) : HttpClient.params :=
  [("latitude", JFloat latitude);
   ("longitude", JFloat longitude);
   ("daily", JStr "temperature_2m_max,precipitation_probability_max,wind_speed_10m_max");
   ("hourly", JStr "relative_humidity_2m");
   ("start_date", JStr iso_day);
   ("end_date", JStr iso_day);
   ("timezone", JStr "UTC")]%string.

End OpenMeteo.

(** ** exchangerate.host *)
Module ExchangeRate.

Definition bad_payload : string := "exchangerate.host returned an unexpected payload".

Section normalize.
(** [str()] of a value that is neither text, number without fraction, boolean
    nor [None]. *)
Variable repr : json -> string.

Definition py_str (v : json) : string :=
  match v with
  | JStr s => s
  | JNull => "None"
  | JBool true => "True"
  | JBool false => "False"
  | JInt n => str_of_int n
  | JFloat _ | JList _ | JObj _ => repr v
  end.

(** The body of the [try]. *)
Definition read_quote (payload : json) : res exn (Z * Z * string) :=
  info ← subscript payload "info"%string;
  rate ← (v ← subscript info "rate"%string; py_float v);
  converted ← (v ← subscript payload "result"%string; py_float v);
  as_of ← get_or payload "date" (JStr "");
  mret (rate, converted, py_str as_of).

Definition _normalize (payload : json) (base quote : string) (amount : Z) : res exn CurrencyConversion :=
  '(rate, converted, as_of) ←
    unavailable_on ["KeyError"; "TypeError"; "ValueError"]%string bad_payload (read_quote payload);
  let c :=
    {| c_base := upper base; c_quote := upper quote; c_rate := rate; c_amount := amount;
       c_converted := F64.round_digits converted 4; c_as_of := as_of |} in
  if valid_conversion c then Ok c else Err (validation_failed "CurrencyConversion").

End normalize.

Record provider : Type := { _http : HttpClient.client; _base_url : string; _cache_ttl : Z }.

Definition mk_provider (http : HttpClient.client) (base_url : string) (cache_ttl : Z) : provider :=
  {| _http := http; _base_url := rstrip_char "/" base_url; _cache_ttl := cache_ttl |}.

Definition query (base quote : string) (amount : Z) : HttpClient.params :=
  [("from", JStr (upper base)); ("to", JStr (upper quote)); ("amount", JFloat amount)]%string.

End ExchangeRate.

(** ** The calls, in the world of the HTTP client *)
Section calls.
Context {C : Type} `{Cache C} {U : Type}.
Variable fetch : string -> HttpClient.params -> U -> HttpClient.fetch_outcome * U.
Variable sleep : Z -> U -> U.
Variable now : U -> Z.
Variable json_dumps : bool -> json -> string.
Variable json_loads : string -> option json.
Variable sha256_hex : string -> string.
Variable repr : json -> string.

Abbreviation get_json := (HttpClient.get_json fetch sleep now json_dumps json_loads sha256_hex).

Definition forecast (self : OpenMeteo.provider) (latitude longitude : Z) (day : date)
  : M exn (HttpClient.world C U) WeatherForecast :=
  let iso_day := date_isoformat day in
  payload ← get_json (OpenMeteo._http self) (OpenMeteo._base_url self +:+ "/forecast")
              (OpenMeteo.query latitude longitude iso_day) (Some (OpenMeteo._cache_ttl self));
  lift_res (OpenMeteo._normalize payload latitude longitude iso_day).

Definition convert (self : ExchangeRate.provider) (base quote : string) (amount : Z)
  : M exn (HttpClient.world C U) CurrencyConversion :=
  payload ← get_json (ExchangeRate._http self) (ExchangeRate._base_url self +:+ "/convert")
              (ExchangeRate.query base quote amount) (Some (ExchangeRate._cache_ttl self));
  lift_res (ExchangeRate._normalize repr payload base quote amount).

End calls.

End Providers.
