(* ===== verification/ProvidersSpec.v ===== *)
(** * Properties of the weather and currency adapters *)
From S2P Require Import Prelude PyStr PyDict Errors Float64 Domain PyNum Cache CircuitBreaker HttpClient Providers.
Import PyStr Calendar Domain.Domain PyNum Providers.

Module ProvidersSpec.

(** ** The mean of integral readings *)

Lemma sum_bounds lo hi ns :
  Forall (fun n => lo <= n <= hi) ns ->
  lo * Z.of_nat (length ns) <= foldr Z.add 0 ns <= hi * Z.of_nat (length ns).
Proof. induction 1 as [|n ns Hn _ IH]; simpl length; simpl foldr; lia. Qed.

Lemma sum_scaled ns : foldr Z.add 0 ((fun n => n * F64.one) <$> ns) = foldr Z.add 0 ns * F64.one.
Proof. induction ns as [|n ns IH]; [done|]. rewrite fmap_cons. cbn [foldr]. rewrite IH. lia. Qed.

(** The exactly rounded mean lies between the readings. *)
Lemma fmean_between lo hi ns :
  ns <> [] -> 0 <= lo -> hi <= 2 ^ 7 -> Z.of_nat (length ns) <= 2 ^ 46 ->
  Forall (fun n => lo <= n <= hi) ns ->
  exists m, fmean ((fun n => n * F64.one) <$> ns) = Ok m /\ lo * F64.one <= m <= hi * F64.one.
Proof.
  intros Hne Hlo Hhi Hlen Hall. pose proof (sum_bounds lo hi ns Hall) as [Hl Hu].
  assert (0 < Z.of_nat (length ns)) as Hpos by (destruct ns; simpl; [done|lia]).
  assert (0 < F64.one) as H1 by apply F64.one_pos.
  set (k := Z.of_nat (length ns)) in *. set (s := foldr Z.add 0 ns) in *.
  assert (hi * k <= 2 ^ 53) as Hk by (change (2 ^ 53) with (2 ^ 7 * 2 ^ 46); nia).
  assert (Z.abs s <= 2 ^ 53) as Hs by nia.
  unfold fmean. rewrite sum_scaled, length_fmap. fold k s.
  assert (F64.rnd (s * F64.one) 1 = s * F64.one) as -> by (by apply F64.is_f64_int).
  rewrite F64.of_int_exact by lia.
  destruct (Z.ltb_spec (Z.abs (s * F64.one)) (2 ^ 1024 * F64.one)) as [_|Hbig].
  2: { assert (2 ^ 53 < 2 ^ 1024) by reflexivity. nia. }
  eexists. split; [reflexivity|]. unfold F64.div.
  destruct (Z.ltb_spec 0 (k * F64.one)); [|nia].
  rewrite <- (F64.is_f64_int lo), <- (F64.is_f64_int hi) by lia.
  split; apply F64.rnd_mono_cross; try nia.
Qed.

Lemma round_int_between lo hi m :
  lo * F64.one <= m <= hi * F64.one -> lo <= F64.round_int m <= hi.
Proof.
  intros [Hl Hu]. pose proof F64.one_pos. unfold F64.round_int.
  split; [by apply F64.rne_ge_int|by apply F64.rne_le_int].
Qed.

Lemma percent_bounds n : 0 <= OpenMeteo.percent n <= 100.
Proof. unfold OpenMeteo.percent. lia. Qed.

(** ** Weather *)

(** The document Open-Meteo returns for the query of the adapter: one day, and
    a series of hourly stamps with readings, some of them missing. *)
Definition reading_json (v : option Z) : json := match v with Some n => JInt n | None => JNull end.

Definition hourly_part (stamps : list string) (values : list (option Z)) : json :=
  JObj [("time", JList (JStr <$> stamps));
        ("relative_humidity_2m", JList (reading_json <$> values))]%string.

Definition weather_document (t p w : Z) (stamps : list string) (values : list (option Z)) : json :=
  JObj [("daily", JObj [("temperature_2m_max", JList [JFloat t]);
                        ("precipitation_probability_max", JList [JInt p]);
                        ("wind_speed_10m_max", JList [JFloat w])]);
        ("hourly", hourly_part stamps values)]%string.

(** The readings of the day. *)
Definition day_readings (day : string) (stamps : list string) (values : list (option Z)) : list Z :=
  omap (fun sv => if startswith sv.1 day then sv.2 else None) (zip stamps values).

Definition is_percent (n : Z) : Prop := 0 <= n <= 100.

Lemma float_of_percent n : is_percent n -> F64.float_of_int n = Some (n * F64.one).
Proof.
  intros Hn. unfold is_percent in Hn. unfold F64.float_of_int. rewrite F64.of_int_exact by lia.
  pose proof F64.one_pos. destruct (Z.ltb_spec (Z.abs (n * F64.one)) (2 ^ 1024 * F64.one)); [done|].
  assert (100 < 2 ^ 1024) by reflexivity. nia.
Qed.

Lemma readings_document day stamps values :
  Forall (fun v => from_option is_percent True v) values ->
  OpenMeteo.readings day (zip (JStr <$> stamps) (reading_json <$> values))
  = Ok ((fun n => n * F64.one) <$> day_readings day stamps values).
Proof.
  intros Hall. revert stamps. induction Hall as [|v values Hv _ IH]; intros [|s stamps]; [done..|].
  unfold day_readings in *. simpl. destruct (startswith s day); simpl; [|apply IH].
  destruct v as [n|]; simpl; [|apply IH]. simpl in Hv. rewrite (float_of_percent n Hv), IH. done.
Qed.

Lemma day_readings_percent day stamps values :
  Forall (fun v => from_option is_percent True v) values ->
  Forall is_percent (day_readings day stamps values).
Proof.
  rewrite !Forall_forall. intros Hall n Hn. unfold day_readings in Hn.
  apply list_elem_of_omap in Hn as ([s v] & Hin & Hsel). apply elem_of_zip_r in Hin.
  simpl in Hsel. destruct (startswith s day); [|done]. subst v. by apply (Hall (Some n)).
Qed.

Lemma py_or_list l : py_or (JList l) (JList []) = JList l.
Proof. by destruct l. Qed.

Lemma py_or_obj kv fields other : py_or (JObj (kv :: fields)) other = JObj (kv :: fields).
Proof. done. Qed.

Lemma length_day_readings day stamps values :
  (length (day_readings day stamps values) <= length stamps)%nat.
Proof.
  unfold day_readings. revert values. induction stamps as [|s stamps IH]; intros [|v values];
    [simpl; lia..|]. specialize (IH values). simpl in *. unfold omap in IH.
    destruct (startswith s day), v; simpl; lia.
Qed.

(** The humidity of a document: the rounded mean of the readings of the day. *)
Lemma humidity_document t p w day stamps values :
  Forall (fun v => from_option is_percent True v) values -> Z.of_nat (length stamps) <= 2 ^ 46 ->
  exists h, OpenMeteo._mean_humidity (weather_document t p w stamps values) day = Ok h
    /\ (day_readings day stamps values = [] -> h = 0)
    /\ (forall lo hi, day_readings day stamps values <> [] ->
         Forall (fun n => lo <= n <= hi) (day_readings day stamps values) -> 0 <= lo -> hi <= 100 ->
         lo <= h <= hi)
    /\ 0 <= h <= 100.
Proof.
  intros Hall Hlen. set (ns := day_readings day stamps values).
  assert (OpenMeteo._mean_humidity (weather_document t p w stamps values) day =
    match (fun n => n * F64.one) <$> ns with
    | [] => Ok 0
    | l => mean ← fmean l; Ok (OpenMeteo.percent (F64.round_int mean))
    end) as ->.
  { unfold OpenMeteo._mean_humidity.
    change (get_or (weather_document t p w stamps values) "hourly" JNull)
      with (Ok (E:=exn) (hourly_part stamps values)).
    unfold mbind, mret, res_bind, res_ret. unfold hourly_part. rewrite (py_or_obj _ _ _).
    change (get_or (JObj _) "time" JNull) with (Ok (E:=exn) (JList (JStr <$> stamps))).
    change (get_or (JObj _) "relative_humidity_2m" JNull)
      with (Ok (E:=exn) (JList (reading_json <$> values))). cbv beta iota.
    rewrite !py_or_list. unfold iterate. cbv beta iota. rewrite readings_document by done. fold ns. by destruct ns. }
  destruct (decide (ns = [])) as [->|Hne].
  { exists 0. split; [done|]. split; [done|]. split; [by intros ? ? ?|lia]. }
  assert (Z.of_nat (length ns) <= 2 ^ 46) as Hns.
  { pose proof (length_day_readings day stamps values). unfold ns. lia. }
  pose proof (day_readings_percent day stamps values Hall) as Hp. fold ns in Hp.
  destruct (fmean_between 0 100 ns Hne ltac:(lia) ltac:(done) Hns Hp) as (m & Hm & Hmb).
  exists (OpenMeteo.percent (F64.round_int m)). split_and!.
  - destruct ns as [|n ns']; [done|]. cbn [fmap list_fmap] in *. rewrite Hm. done.
  - done.
  - intros lo hi _ Hb Hlo Hhi.
    destruct (fmean_between lo hi ns Hne Hlo ltac:(lia) Hns Hb) as (m' & Hm' & Hmb').
    rewrite Hm in Hm'. injection Hm' as <-. apply round_int_between in Hmb'.
    unfold OpenMeteo.percent. lia.
  - apply percent_bounds.
  - apply percent_bounds.
Qed.

(** Weather, whatever the upstream sends: a forecast that is returned is
    for the place and day asked for and keeps its bounds; a payload without a
    usable daily part is answered with the 503 of an unavailable provider; and
    the document the upstream is documented to send gives its rounded daily
    values and, as humidity, a mean that lies between the readings of that day,
    missing readings and those of other days left out. *)
Theorem forecast_spec payload latitude longitude day :
  (forall f, OpenMeteo._normalize payload latitude longitude day = Ok f ->
     valid_weather f = true /\ w_latitude f = latitude /\ w_longitude f = longitude /\ w_date f = day)
  /\ (forall e, OpenMeteo.read_daily payload = Err e ->
        is_one_of ["KeyError"; "IndexError"; "TypeError"; "ValueError"]%string e = true ->
        OpenMeteo._normalize payload latitude longitude day
        = Err (app_err ProviderUnavailableError OpenMeteo.bad_payload))
  /\ (forall t p w stamps values,
        payload = weather_document t p w stamps values -> 0 <= w ->
        Forall (fun v => from_option is_percent True v) values -> Z.of_nat (length stamps) <= 2 ^ 46 ->
        exists h,
          OpenMeteo._normalize payload latitude longitude day
          = Ok {| w_latitude := latitude; w_longitude := longitude; w_date := day;
                  w_temperature_c := F64.round_digits t 1;
                  w_precipitation_probability := OpenMeteo.percent p;
                  w_wind_kph := F64.round_digits w 1; w_humidity := h |}
          /\ (day_readings day stamps values = [] -> h = 0)
          /\ (forall lo hi, day_readings day stamps values <> [] ->
               Forall (fun n => lo <= n <= hi) (day_readings day stamps values) ->
               0 <= lo -> hi <= 100 -> lo <= h <= hi)).
Proof.
  unfold OpenMeteo._normalize. split; [|split].
  - intros f. destruct (unavailable_on _ _ _) as [[[t p] w]|]; [simpl|done].
    destruct (OpenMeteo._mean_humidity payload day) as [h|]; [simpl|done].
    destruct (valid_weather _) eqn:Hv; [|done]. by intros [= <-].
  - intros e -> Hc. unfold unavailable_on. by rewrite Hc.
  - intros t p w stamps values -> Hw Hall Hlen.
    assert (OpenMeteo.read_daily (weather_document t p w stamps values) = Ok (t, p, w)) as ->.
    { unfold OpenMeteo.read_daily, weather_document. simpl. unfold py_or. simpl.
      by destruct (Z.eqb_spec p 0) as [->|]. }
    destruct (humidity_document t p w day stamps values Hall Hlen) as (h & -> & H0 & Hb & Hr).
    exists h. split; [|done]. simpl. pose proof (percent_bounds p).
    assert (0 <= F64.round_digits w 1).
    { rewrite <- (F64.round_digits_0 1) by lia. by apply F64.round_digits_mono. }
    unfold valid_weather. simpl. by rewrite !(proj2 (Z.leb_le _ _)) by lia.
Qed.

Definition sample_document : json :=
  weather_document (F64.of_dec 2134 2) 35 (F64.of_dec 155 1)
    ["2026-08-10T00:00"; "2026-08-10T01:00"; "2026-08-10T02:00"; "2026-08-11T00:00"]%string
    [Some 40; None; Some 61; Some 99].

Lemma forecast_spec_witness :
  exists f, OpenMeteo._normalize sample_document 0 0 "2026-08-10" = Ok f
    /\ w_temperature_c f = F64.of_dec 213 1 /\ 40 <= w_humidity f <= 61.
Proof.
  destruct (forecast_spec sample_document 0 0 "2026-08-10") as (_ & _ & Hdoc).
  destruct (Hdoc _ _ _ _ _ eq_refl) as (h & Hn & _ & Hb).
  - vm_compute. discriminate.
  - repeat (constructor; [vm_compute; intuition discriminate|]). constructor.
  - vm_compute. discriminate.
  - eexists. split; [exact Hn|]. split; [vm_compute; reflexivity|].
    apply Hb; [vm_compute; discriminate| |discriminate|discriminate].
    repeat (constructor; [split; vm_compute; discriminate|]). constructor.
Defined.

(** ** Currency *)

(** The document exchangerate.host returns. *)
Definition quote_document (rate result : Z) (day : string) : json :=
  JObj [("info", JObj [("rate", JFloat rate)]); ("result", JFloat result); ("date", JStr day)]%string.

(** Currency, whatever the upstream sends: a conversion that is returned
    has a positive rate, the two codes in upper case and the amount asked for;
    a payload without a numeric rate and result is answered with a 503; and the
    document the upstream is documented to send gives its rate and its result
    to four decimals, unless the rate is not positive -- which no handler turns
    into an unavailable provider. *)
Theorem convert_spec repr payload base quote amount :
  (forall c, ExchangeRate._normalize repr payload base quote amount = Ok c ->
     0 < c_rate c /\ c_base c = upper base /\ c_quote c = upper quote /\ c_amount c = amount)
  /\ (forall e, ExchangeRate.read_quote repr payload = Err e ->
        is_one_of ["KeyError"; "TypeError"; "ValueError"]%string e = true ->
        ExchangeRate._normalize repr payload base quote amount
        = Err (app_err ProviderUnavailableError ExchangeRate.bad_payload))
  /\ (forall rate result day, payload = quote_document rate result day ->
        ExchangeRate._normalize repr payload base quote amount =
          if 0 <? rate then
            Ok {| c_base := upper base; c_quote := upper quote; c_rate := rate; c_amount := amount;
                  c_converted := F64.round_digits result 4; c_as_of := day |}
          else Err (validation_failed "CurrencyConversion")).
Proof.
  unfold ExchangeRate._normalize. split; [|split].
  - intros c. destruct (unavailable_on _ _ _) as [[[rate result] d]|]; [simpl|done].
    destruct (valid_conversion _) eqn:Hv; [|done]. intros [= <-].
    unfold valid_conversion in Hv. simpl in *. by apply Z.ltb_lt in Hv.
  - intros e -> Hc. unfold unavailable_on. by rewrite Hc.
  - by intros rate result day ->.
Qed.

Lemma convert_spec_witness :
  (exists c, ExchangeRate._normalize (fun _ => ""%string)
     (quote_document (F64.of_dec 92 2) (F64.of_dec 184 1) "2026-08-10") "usd" "eur" (20 * F64.one) = Ok c
     /\ c_quote c = "EUR"%string)
  /\ ExchangeRate._normalize (fun _ => ""%string) (JObj [("success"%string, JBool false)]) "usd" "eur" 0
     = Err (app_err ProviderUnavailableError ExchangeRate.bad_payload).
Proof.
  split.
  - destruct (convert_spec (fun _ => ""%string)
      (quote_document (F64.of_dec 92 2) (F64.of_dec 184 1) "2026-08-10") "usd" "eur" (20 * F64.one))
      as (_ & _ & Hdoc).
    eexists. split; [rewrite (Hdoc _ _ _ eq_refl)|]; vm_compute; reflexivity.
  - destruct (convert_spec (fun _ => ""%string) (JObj [("success"%string, JBool false)]) "usd" "eur" 0)
      as (_ & Hbad & _).
    apply (Hbad (PyError "KeyError" "info")); vm_compute; reflexivity.
Defined.

End ProvidersSpec.
