(* ===== verification/Middleware.v ===== *)
(** * Middleware

    [app/core/middleware.py], [app/core/metrics.py], the request id of
    [app/core/logging.py] and the part of [app/main.py] that stacks them.  A
    request is answered in a [context]: the context variable of the request id,
    the lines logged so far, the metrics, and the environment that identifiers
    and clock readings come from.  Where an exception becomes a response is
    Starlette's: those with a registered class inside the stack, every other
    one outside of it. *)
From S2P Require Import Prelude PyStr PyDict Float64 Errors PyUuid Security ClientIp.
Import PyStr.

Module Middleware.

(** Header names are kept in lower case, as Starlette keeps them. *)
Record Response : Type := {
  status_code : Z;
  headers : list (string * string);
  body : list (string * json);
}.

Definition set_header (name value : string) (r : Response) : Response :=
  {| status_code := status_code r; headers := PyDict.set (headers r) (lower name) value;
     body := body r |}.

Definition setdefault_header (name value : string) (r : Response) : Response :=
  {| status_code := status_code r; headers := PyDict.setdefault (headers r) (lower name) value;
     body := body r |}.

Definition header (r : Response) (name : string) : option string := PyDict.get (headers r) (lower name).

(** The parts of a request the middleware looks at; [r_http] is its peer and
    its headers, [r_route] the template of the route it matches. *)
Record Request : Type := {
  r_method : string;
  r_path : string;
  r_route : option string;
  r_http : ClientIp.Request;
}.

(** A line of the log: its event and its other fields. *)
Record line : Type := {
  l_level : string;
  l_event : string;
  l_fields : list (string * json);
}.

(** [REQUEST_COUNT] has a counter for each of its labels, [REQUEST_LATENCY] the
    observations of each of its labels, the latest last. *)
Record context (R : Type) : Type := {
  request_id_ctx : option string;
  lines : list line;
  REQUEST_COUNT : gmap (string * string * Z) Z;
  REQUEST_LATENCY : gmap (string * string) (list Z);
  rand : R;
}.
Arguments request_id_ctx {R} _.
Arguments lines {R} _.
Arguments REQUEST_COUNT {R} _.
Arguments REQUEST_LATENCY {R} _.
Arguments rand {R} _.

(** [time.perf_counter()], in seconds, a float. *)
Class PerfCounter (R : Type) : Type := perf_counter : R -> Z * R.

(** It never goes back; [reading_of] is what it has come to. *)
Class PerfCounterLaws (R : Type) `{PerfCounter R} (reading_of : R -> Z) : Prop :=
  perf_counter_law r : reading_of r <= (perf_counter r).1 /\ reading_of (perf_counter r).2 = (perf_counter r).1.

(** ** Starlette's CORS middleware

    It answers a preflight itself; to the response of any other request it
    only adds headers of its own, and only when there is an [Origin]. *)

Record cors_options : Type := {
  allow_origins : list string;
  allow_credentials : bool;
  allow_methods : list string;
  allow_headers : list string;
}.

Class Cors (R : Type) : Type :=
  cors : cors_options -> Request -> M exn (context R) Response -> M exn (context R) Response.

Definition has_header (request : Request) (name : string) : bool :=
  bool_decide (is_Some (ClientIp.headers_get (r_http request) name)).

Definition preflight (request : Request) : bool :=
  bool_decide (r_method request = "OPTIONS"%string)
  && has_header request "origin" && has_header request "access-control-request-method".

(** The headers it sets on the responses of others, and on its own. *)
Definition cors_header (name : string) : bool :=
  startswith name "access-control-" || bool_decide (name = "vary"%string).

Definition preflight_header (name : string) : bool :=
  cors_header name || bool_decide (name ∈ ["content-type"; "content-length"]%string).

(** [r'] is [r] but for those. *)
Definition passes (r r' : Response) : Prop :=
  status_code r' = status_code r /\ body r' = body r
  /\ forall name, cors_header (lower name) = false -> header r' name = header r name.

Class CorsLaws (R : Type) `{Cors R} : Prop := {
  cors_preflight options request call_next x : preflight request = true ->
    exists response, cors options request call_next x = (Ok response, x)
      /\ (status_code response = 200 \/ status_code response = 400)
      /\ forall name, is_Some (header response name) -> preflight_header (lower name) = true;
  cors_simple options request call_next x : preflight request = false ->
    match call_next x with
    | (Ok r, x') => exists r', cors options request call_next x = (Ok r', x') /\ passes r r'
    | (Err e, x') => cors options request call_next x = (Err e, x')
    end;
  cors_same_origin options request call_next x : has_header request "origin" = false ->
    cors options request call_next x = call_next x;
}.

Definition REQUEST_ID_HEADER : string := "X-Request-ID".
Definition _METRICS_PATH : string := "/metrics".
Definition _NO_TRUSTED_PROXY : ClientIp.ProxyTrust := ClientIp.mk_proxy_trust [].

(** The processor [_add_request_id], where the context variable is [ctx]. *)
Definition _add_request_id (ctx : option string) (event_dict : list (string * json)) : list (string * json) :=
  match ctx with
  | Some request_id => PyDict.set event_dict "request_id" (JStr request_id)
  | None => event_dict
  end.

(** [round((perf_counter() - start) * 1000, 2)]. *)
Definition in_ms (seconds : Z) : Z := F64.round_digits (F64.mul seconds (F64.of_int 1000)) 2.

Section middleware.
Context {R : Type} `{Entropy R} `{PerfCounter R} `{Cors R}.
(** The [proxy_trust] of [app.state.container], once there is a container. *)
Variable proxy_trust : option ClientIp.ProxyTrust.

Abbreviation X := (context R).

Definition set_ctx (id : option string) (x : X) : X :=
  {| request_id_ctx := id; lines := lines x; REQUEST_COUNT := REQUEST_COUNT x;
     REQUEST_LATENCY := REQUEST_LATENCY x; rand := rand x |}.

Definition set_rand (r : R) (x : X) : X :=
  {| request_id_ctx := request_id_ctx x; lines := lines x; REQUEST_COUNT := REQUEST_COUNT x;
     REQUEST_LATENCY := REQUEST_LATENCY x; rand := r |}.

(** The line an event leaves. *)
Definition line_of (ctx : option string) (level event : string) (fields : list (string * json)) : line :=
  {| l_level := level; l_event := event; l_fields := _add_request_id ctx fields |}.

Definition log (level event : string) (fields : list (string * json)) : M exn X unit :=
  fun x => (Ok tt, {| request_id_ctx := request_id_ctx x;
                      lines := lines x ++ [line_of (request_id_ctx x) level event fields];
                      REQUEST_COUNT := REQUEST_COUNT x; REQUEST_LATENCY := REQUEST_LATENCY x;
                      rand := rand x |}).

(** A reading of the clock, and the context after it. *)
Definition reading (x : X) : Z := (perf_counter (rand x)).1.
Definition ticked (x : X) : X := set_rand (perf_counter (rand x)).2 x.
Definition now : M exn X Z := fun x => (Ok (reading x), ticked x).

Definition fresh_id : M exn X string :=
  fun x => let '(u, r) := uuid4 (rand x) in (Ok (PyUuid.hex u), set_rand r x).

(** [incoming or uuid.uuid4().hex]. *)
Definition request_id_of (request : Request) : M exn X string :=
  match ClientIp.headers_get (r_http request) (lower REQUEST_ID_HEADER) with
  | Some s => if bool_decide (s = ""%string) then fresh_id else mret s
  | None => fresh_id
  end.

Definition _client_ip (request : Request) : option string :=
  ClientIp.client_ip (default _NO_TRUSTED_PROXY proxy_trust) (r_http request).

(** The fields of the access log. *)
Definition request_failed (request : Request) (duration_ms : Z) : list (string * json) :=
  [("method", JStr (r_method request)); ("path", JStr (r_path request));
   ("duration_ms", JFloat duration_ms)]%string.

Definition request_completed (request : Request) (status duration_ms : Z) : list (string * json) :=
  [("method", JStr (r_method request)); ("path", JStr (r_path request)); ("status_code", JInt status);
   ("duration_ms", JFloat duration_ms);
   ("client", from_option JStr JNull (_client_ip request))]%string.

(** [finally: request_id_ctx.reset(token)]. *)
Definition resetting {A} (token : option string) (m : M exn X A) : M exn X A :=
  fun x => let '(r, x) := m x in (r, set_ctx token x).

(** The [try] of [dispatch]. *)
Definition timed_call (request : Request) (start : Z) (call_next : M exn X Response) : M exn X Response :=
  (call_next except (fun e =>
     stop ← now;
     _ ← log "error" "request_failed" (request_failed request (in_ms (F64.sub stop start)));
     raise e))%effect.

(** What is left of [dispatch] once the request has an id. *)
Definition with_request_id (request : Request) (request_id : string) (call_next : M exn X Response)
  : M exn X Response :=
  fun x =>
    let token := request_id_ctx x in
    (start ← now;
     response ← resetting token (timed_call request start call_next);
     stop ← now;
     _ ← log "info" "request_completed"
           (request_completed request (status_code response) (in_ms (F64.sub stop start)));
     mret (set_header REQUEST_ID_HEADER request_id response)) (set_ctx (Some request_id) x).

(** [RequestContextMiddleware.dispatch]. *)
Definition request_context (request : Request) (call_next : M exn X Response) : M exn X Response :=
  request_id ← request_id_of request;
  with_request_id request request_id call_next.

Definition _route_template (request : Request) : string := default "unmatched"%string (r_route request).

(** The histogram's [observe()], the counter's [inc()]. *)
Definition observe (method template : string) (elapsed : Z) : M exn X unit :=
  fun x =>
    let k := (method, template) in
    (Ok tt, {| request_id_ctx := request_id_ctx x; lines := lines x; REQUEST_COUNT := REQUEST_COUNT x;
               REQUEST_LATENCY := <[k := default [] (REQUEST_LATENCY x !! k) ++ [elapsed]]> (REQUEST_LATENCY x);
               rand := rand x |}).

Definition count_response (method template : string) (status : Z) : M exn X unit :=
  fun x =>
    let k := (method, template, status) in
    (Ok tt, {| request_id_ctx := request_id_ctx x; lines := lines x;
               REQUEST_COUNT := <[k := default 0 (REQUEST_COUNT x !! k) + 1]> (REQUEST_COUNT x);
               REQUEST_LATENCY := REQUEST_LATENCY x; rand := rand x |}).

(** [PrometheusMiddleware.dispatch]. *)
Definition prometheus (request : Request) (call_next : M exn X Response) : M exn X Response :=
  if bool_decide (r_path request = _METRICS_PATH) then call_next
  else
    started ← now;
    response ← call_next;
    stopped ← now;
    let template := _route_template request in
    _ ← observe (r_method request) template (F64.sub stopped started);
    _ ← count_response (r_method request) template (status_code response);
    mret response.

Definition _SECURITY_HEADERS : list (string * string) :=
  [("X-Content-Type-Options", "nosniff");
   ("X-Frame-Options", "DENY");
   ("Referrer-Policy", "no-referrer");
   ("Content-Security-Policy", "default-src 'none'; frame-ancestors 'none'");
   ("Permissions-Policy", "geolocation=(), microphone=(), camera=()")]%string.

Definition _DOCS_CSP : string :=
  "default-src 'self'; script-src 'self' 'unsafe-inline' https://cdn.jsdelivr.net; "
  +:+ "style-src 'self' 'unsafe-inline' https://cdn.jsdelivr.net https://fonts.googleapis.com; "
  +:+ "font-src 'self' https://fonts.gstatic.com; "
  +:+ "img-src 'self' data: https://fastapi.tiangolo.com https://cdn.jsdelivr.net "
  +:+ "https://cdn.redoc.ly; worker-src 'self' blob:; "
  +:+ "frame-ancestors 'none'; base-uri 'none'; object-src 'none'".

Definition _DOCS_PATHS : list string := ["/docs"; "/docs/oauth2-redirect"; "/redoc"]%string.

(** [SecurityHeadersMiddleware.dispatch]. *)
Definition secure_response (path : string) (response : Response) : Response :=
  foldl (fun r kv => setdefault_header kv.1 kv.2 r)
    (if bool_decide (path ∈ _DOCS_PATHS) then setdefault_header "Content-Security-Policy" _DOCS_CSP response
     else response)
    _SECURITY_HEADERS.

Definition security_headers (request : Request) (call_next : M exn X Response) : M exn X Response :=
  response ← call_next; mret (secure_response (r_path request) response).

(** ** The stack of [create_app] *)

Definition of_problem (p : Errors.response) : Response :=
  {| status_code := Errors.resp_status p;
     headers := [("content-type"%string, Errors.resp_media_type p)];
     body := Errors.resp_body p |}.

(** The exceptions with a handler of their own. *)
Definition handled (e : exn) : bool :=
  match e with
  | AppError _ _ _ | RequestValidationError _ | HTTPException _ _ => true
  | CircuitBreakerOpen _ | TokenError _ | PyError _ _ => false
  end.

(** The response to an exception, rendered with the current request id. *)
Definition respond (e : exn) : M exn X Response :=
  fun x => (Ok (of_problem (Errors.handle_exception (request_id_ctx x) e)), x).

(** The router with its exception handlers, inside the stack. *)
Definition router (endpoint : M exn X Response) : M exn X Response :=
  (endpoint except (fun e => if handled e then respond e else raise e))%effect.

(** What [_handle_unexpected] logs of the exceptions it can get. *)
Definition unhandled_exception (e : exn) : list (string * json) :=
  let fields error error_type := [("error", JStr error); ("error_type", JStr error_type)]%string in
  match e with
  | CircuitBreakerOpen name => fields ("circuit breaker '" +:+ name +:+ "' is open") "CircuitBreakerOpen"
  | TokenError message => fields message "TokenError"
  | PyError cls message => fields message cls
  | AppError _ _ _ | RequestValidationError _ | HTTPException _ _ => []
  end.

(** The three middlewares of the program around the router. *)
Definition stack (request : Request) (endpoint : M exn X Response) : M exn X Response :=
  request_context request (prometheus request (security_headers request (router endpoint))).

(** The application: CORS is outermost; what is left of an exception is answered
    outside of it, by the handler of [Exception], which also logs it. *)
Definition app (options : cors_options) (request : Request) (endpoint : M exn X Response) : M exn X Response :=
  (cors options request (stack request endpoint)
   except (fun e => _ ← log "error" "unhandled_exception" (unhandled_exception e); respond e))%effect.

End middleware.

(** ** Headers *)

Lemma header_set name value r k :
  header (set_header name value r) k
  = if decide (lower name = lower k) then Some value else header r k.
Proof.
  unfold header, set_header. simpl. destruct (decide (lower name = lower k)) as [<-|Hne].
  - apply PyDict.get_set_eq.
  - by apply PyDict.get_set_ne.
Qed.

Lemma header_setdefault name value r k :
  header (setdefault_header name value r) k
  = if decide (lower name = lower k) then Some (default value (header r k)) else header r k.
Proof.
  unfold header, setdefault_header, PyDict.setdefault. simpl.
  destruct (PyDict.get (headers r) (lower name)) as [v|] eqn:E;
    destruct (decide (lower name = lower k)) as [Heq|Hne]; try rewrite <- Heq.
  - by rewrite E.
  - done.
  - rewrite E. apply PyDict.get_set_eq.
  - by apply PyDict.get_set_ne.
Qed.

(** The value of a header after defaults have been filled in. *)
Definition filled (path : string) (r : Response) (k v : string) : string :=
  match header r k with
  | Some v' => v'
  | None =>
      if bool_decide (path ∈ _DOCS_PATHS) && bool_decide (k = "Content-Security-Policy"%string)
      then _DOCS_CSP else v
  end.

Ltac fill_headers :=
  unfold secure_response, _SECURITY_HEADERS; cbn [foldl fst snd];
  repeat (rewrite header_setdefault;
          first [rewrite decide_True by reflexivity | rewrite decide_False by (vm_compute; discriminate)]).

Lemma secure_header path r k v :
  (k, v) ∈ _SECURITY_HEADERS -> header (secure_response path r) k = Some (filled path r k v).
Proof.
  unfold _SECURITY_HEADERS at 1. rewrite !elem_of_cons, elem_of_nil. unfold filled.
  intros Hin. destruct (bool_decide (path ∈ _DOCS_PATHS)) eqn:Hp;
    destruct Hin as [[= -> ->]|[[= -> ->]|[[= -> ->]|[[= -> ->]|[[= -> ->]|[]]]]]];
    unfold secure_response; rewrite Hp; fill_headers; simpl;
    by destruct (header r _).
Qed.

Lemma secure_same path r :
  status_code (secure_response path r) = status_code r /\ body (secure_response path r) = body r.
Proof.
  unfold secure_response. by destruct (bool_decide (path ∈ _DOCS_PATHS)).
Qed.

(** ** The whole application *)

(** What the router answers inside the stack, if it answers. *)
Definition answered (request_id : string) (r : res exn Response) : option Response :=
  match r with
  | Ok response => Some response
  | Err e =>
      if handled e then Some (of_problem (Errors.handle_exception (Some request_id) e)) else None
  end.

Section app.
Context {R : Type} `{Entropy R} `{PerfCounter R} `{CorsLaws R}.
Variable proxy_trust : option ClientIp.ProxyTrust.
Variable options : cors_options.
Implicit Types (x y : context R) (endpoint : M exn (context R) Response).

Abbreviation app := (Middleware.app proxy_trust options).
Abbreviation stack := (Middleware.stack proxy_trust).

(** Where the endpoint starts, once the inner clock has been read. *)
Definition inside (request : Request) x : context R :=
  if bool_decide (r_path request = _METRICS_PATH) then x else ticked x.

(** The context after a response has been counted: [x] before the inner clock
    was read, [y] when the response came. *)
Definition observed (request : Request) (status : Z) x y : context R :=
  if bool_decide (r_path request = _METRICS_PATH) then y
  else
    let m := r_method request in
    let template := _route_template request in
    (count_response m template status
      (observe m template (F64.sub (reading y) (reading x)) (ticked y)).2).2.

Lemma fresh_id_only_rand x rid x1 :
  fresh_id x = (Ok rid, x1) -> x1 = set_rand (rand x1) x.
Proof. unfold fresh_id. destruct (uuid4 (rand x)). by intros [= _ <-]. Qed.

(** Choosing the id changes nothing but the environment. *)
Lemma request_id_of_only_rand request x rid x1 :
  request_id_of request x = (Ok rid, x1) -> x1 = set_rand (rand x1) x.
Proof.
  unfold request_id_of. destruct (ClientIp.headers_get _ _) as [s|]; [|apply fresh_id_only_rand].
  case_bool_decide; [apply fresh_id_only_rand|]. intros [= _ <-]. by destruct x.
Qed.

(** A response that comes out of the router. *)
Lemma metered_answers request endpoint rid r inner x x2 :
  endpoint (inside request x) = (r, x2) -> request_id_ctx x2 = Some rid -> answered rid r = Some inner ->
  prometheus request (security_headers request (router endpoint)) x
  = (Ok (secure_response (r_path request) inner), observed request (status_code inner) x x2).
Proof.
  intros He Hctx Hans.
  assert (router endpoint (inside request x) = (Ok inner, x2)) as Hr.
  { unfold router, try_catch. rewrite He. destruct r as [a|e]; simpl in Hans; [congruence|].
    destruct (handled e); [|done]. injection Hans as <-. unfold respond. by rewrite Hctx. }
  assert (security_headers request (router endpoint) (inside request x)
          = (Ok (secure_response (r_path request) inner), x2)) as Hs
    by (unfold security_headers; by m_run Hr).
  unfold prometheus, observed, inside in *. case_bool_decide; [done|].
  destruct (secure_same (r_path request) inner) as [Hst _].
  unfold mbind, m_bind. cbn -[secure_response perf_counter]. by rewrite Hs, Hst.
Qed.

Lemma metered_raises request endpoint e x x2 :
  endpoint (inside request x) = (Err e, x2) -> handled e = false ->
  prometheus request (security_headers request (router endpoint)) x = (Err e, x2).
Proof.
  intros He Hh.
  assert (router endpoint (inside request x) = (Err e, x2)) as Hr
    by (unfold router, try_catch; rewrite He, Hh; done).
  assert (security_headers request (router endpoint) (inside request x) = (Err e, x2)) as Hs
    by (unfold security_headers; by m_run Hr).
  unfold prometheus, inside in *. case_bool_decide; [done|].
  unfold mbind, m_bind. cbn -[perf_counter]. by rewrite Hs.
Qed.

(** The state the whole stack is entered in: an id, and one clock reading. *)
Definition entered (rid : string) x : context R := ticked (set_ctx (Some rid) x).

Lemma inside_same request x :
  request_id_ctx (inside request x) = request_id_ctx x /\ lines (inside request x) = lines x
  /\ REQUEST_COUNT (inside request x) = REQUEST_COUNT x
  /\ REQUEST_LATENCY (inside request x) = REQUEST_LATENCY x.
Proof. unfold inside. by case_bool_decide. Qed.

Lemma observed_same request status x y :
  request_id_ctx (observed request status x y) = request_id_ctx y
  /\ lines (observed request status x y) = lines y.
Proof. unfold observed. by case_bool_decide. Qed.

(** A request that the router answers, to the end. *)
Lemma stack_ok request endpoint rid r inner x x1 x2 :
  request_id_of request x = (Ok rid, x1) ->
  endpoint (inside request (entered rid x1)) = (r, x2) -> request_id_ctx x2 = Some rid ->
  answered rid r = Some inner ->
  let z := set_ctx (request_id_ctx x) (observed request (status_code inner) (entered rid x1) x2) in
  stack request endpoint x
  = (Ok (set_header REQUEST_ID_HEADER rid (secure_response (r_path request) inner)),
     (log "info" "request_completed"
       (request_completed proxy_trust request (status_code inner)
         (in_ms (F64.sub (reading z) (reading (set_ctx (Some rid) x1))))) (ticked z)).2).
Proof.
  intros Hid He Hctx Ha z.
  pose proof (metered_answers request endpoint rid r inner _ x2 He Hctx Ha) as Hs.
  unfold Middleware.stack, request_context. m_run Hid. unfold with_request_id.
  assert (request_id_ctx x1 = request_id_ctx x) as -> by (by rewrite (request_id_of_only_rand _ _ _ _ Hid)).
  destruct (secure_same (r_path request) inner) as [Hst _].
  unfold resetting, timed_call, try_catch, mbind, m_bind.
  cbn -[secure_response prometheus security_headers router ticked reading set_ctx].
  unfold entered in Hs at 1. rewrite Hs. cbn -[secure_response ticked reading set_ctx observed].
  by rewrite Hst.
Qed.

(** A request that nobody answers inside. *)
Lemma stack_err request endpoint rid e x x1 x2 :
  request_id_of request x = (Ok rid, x1) ->
  endpoint (inside request (entered rid x1)) = (Err e, x2) -> request_id_ctx x2 = Some rid ->
  handled e = false ->
  stack request endpoint x
  = (Err e, set_ctx (request_id_ctx x)
              (log "error" "request_failed"
                (request_failed request (in_ms (F64.sub (reading x2) (reading (set_ctx (Some rid) x1)))))
                (ticked x2)).2).
Proof.
  intros Hid He Hctx Hh. pose proof (metered_raises request endpoint e _ x2 He Hh) as Hs.
  unfold Middleware.stack, request_context. m_run Hid. unfold with_request_id.
  assert (request_id_ctx x1 = request_id_ctx x) as -> by (by rewrite (request_id_of_only_rand _ _ _ _ Hid)).
  unfold resetting, timed_call, try_catch, mbind, m_bind.
  cbn -[prometheus security_headers router ticked reading set_ctx].
  unfold entered in Hs. by rewrite Hs.
Qed.

(** What CORS and the handler of [Exception] make of the stack's outcome. *)
Lemma app_ok request endpoint r x x' :
  preflight request = false -> stack request endpoint x = (Ok r, x') ->
  exists r', app request endpoint x = (Ok r', x') /\ passes r r'.
Proof.
  intros Hp Hs. pose proof (cors_simple options request (stack request endpoint) x Hp) as Hc.
  rewrite Hs in Hc. destruct Hc as (r' & Hr & Hpass). exists r'. split; [|done].
  unfold Middleware.app, try_catch. by rewrite Hr.
Qed.

Lemma app_raises request endpoint e x x' :
  preflight request = false -> stack request endpoint x = (Err e, x') ->
  app request endpoint x
  = (Ok (of_problem (Errors.handle_exception (request_id_ctx x') e)),
     (log "error" "unhandled_exception" (unhandled_exception e) x').2).
Proof.
  intros Hp Hs. pose proof (cors_simple options request (stack request endpoint) x Hp) as Hc.
  rewrite Hs in Hc. unfold Middleware.app, try_catch. by rewrite Hc.
Qed.

Lemma app_preflight request endpoint x :
  preflight request = true ->
  exists response, app request endpoint x = (Ok response, x)
    /\ (status_code response = 200 \/ status_code response = 400)
    /\ forall name, preflight_header (lower name) = false -> header response name = None.
Proof.
  intros Hp. destruct (cors_preflight options request (stack request endpoint) x Hp) as (r & Hr & Hst & Hh).
  exists r. split; [unfold Middleware.app, try_catch; by rewrite Hr|]. split; [done|]. intros name Hn.
  destruct (header r name) as [v|] eqn:E; [|done]. specialize (Hh name). rewrite E, Hn in Hh.
  by discriminate (Hh (mk_is_Some _ _ eq_refl)).
Qed.

(** The program's headers are none of those CORS sets. *)
Lemma program_header name :
  name ∈ REQUEST_ID_HEADER :: _SECURITY_HEADERS.*1 ->
  cors_header (lower name) = false /\ preflight_header (lower name) = false.
Proof.
  intros Hin. assert (Forall (fun n => cors_header (lower n) = false /\ preflight_header (lower n) = false)
    (REQUEST_ID_HEADER :: _SECURITY_HEADERS.*1)) as Hall by (apply (bool_decide_unpack _); by vm_compute).
  rewrite Forall_forall in Hall. by apply Hall.
Qed.

Lemma security_program_header k v :
  (k, v) ∈ _SECURITY_HEADERS -> k ∈ REQUEST_ID_HEADER :: _SECURITY_HEADERS.*1.
Proof. intros Hin. right. apply (list_elem_of_fmap_2 fst _ _ Hin). Qed.

(** What a response adds to the metrics. *)
Definition measured (request : Request) (status elapsed : Z) x y : Prop :=
  if bool_decide (r_path request = _METRICS_PATH) then
    REQUEST_COUNT y = REQUEST_COUNT x /\ REQUEST_LATENCY y = REQUEST_LATENCY x
  else
    let label := (r_method request, _route_template request) in
    REQUEST_COUNT y = <[(label, status) := default 0 (REQUEST_COUNT x !! (label, status)) + 1]> (REQUEST_COUNT x)
    /\ REQUEST_LATENCY y = <[label := default [] (REQUEST_LATENCY x !! label) ++ [elapsed]]> (REQUEST_LATENCY x).

(** C10. Every request is answered.  A CORS preflight -- [OPTIONS] with an origin
    and the method it asks for -- is answered by the CORS middleware alone, with
    200 or 400: nothing of the program runs, so there is no request id, no
    security header, no count, no latency and no line in the log.  Any other
    request is answered under one id from start to end: the one it brought,
    else a fresh one.  What the router answers, problem documents included,
    goes out with its status and body, the request's id in [X-Request-ID] and
    each security header it did not set itself, whatever CORS adds; it is
    counted once, timed once, and leaves one line in the access log, with
    method, path, status, duration and resolved client.  Any other exception
    goes out as a 500 that says nothing about it -- rendered outside the stack,
    so without the id, the headers and CORS -- is neither counted nor timed, and
    is logged.  The context variable is put back in both cases. *)
Theorem app_answers request endpoint x :
  (forall y, request_id_ctx (endpoint y).2 = request_id_ctx y) ->
  if preflight request then
    exists response, app request endpoint x = (Ok response, x)
      /\ (status_code response = 200 \/ status_code response = 400)
      /\ header response "X-Request-ID" = None
      /\ forall k v, (k, v) ∈ _SECURITY_HEADERS -> header response k = None
  else
    forall rid x1, request_id_of request x = (Ok rid, x1) ->
    exists y response x3,
      request_id_ctx y = Some rid /\ lines y = lines x /\ REQUEST_COUNT y = REQUEST_COUNT x
      /\ REQUEST_LATENCY y = REQUEST_LATENCY x
      /\ app request endpoint x = (Ok response, x3)
      /\ request_id_ctx x3 = request_id_ctx x
      /\ let '(r, x2) := endpoint y in
         match answered rid r with
         | Some inner =>
             status_code response = status_code inner /\ body response = body inner
             /\ header response "X-Request-ID" = Some rid
             /\ (forall k v, (k, v) ∈ _SECURITY_HEADERS ->
                   header response k = Some (filled (r_path request) inner k v))
             /\ exists elapsed ms, measured request (status_code inner) elapsed x2 x3
                  /\ lines x3 = lines x2
                       ++ [line_of (request_id_ctx x) "info" "request_completed"
                            (request_completed proxy_trust request (status_code inner) ms)]
         | None =>
             response = of_problem (Errors._handle_unexpected (request_id_ctx x))
             /\ header response "X-Request-ID" = None
             /\ REQUEST_COUNT x3 = REQUEST_COUNT x2 /\ REQUEST_LATENCY x3 = REQUEST_LATENCY x2
             /\ exists e ms, r = Err e
                  /\ lines x3 = lines x2
                       ++ [line_of (Some rid) "error" "request_failed" (request_failed request ms);
                           line_of (request_id_ctx x) "error" "unhandled_exception" (unhandled_exception e)]
         end.
Proof.
  intros Hkeep. destruct (preflight request) eqn:Hp.
  { destruct (app_preflight request endpoint x Hp) as (response & Hr & Hst & Hnone). exists response.
    split; [done|]. split; [done|]. split; [apply Hnone, program_header; by left|].
    intros k v Hin. by eapply Hnone, program_header, security_program_header. }
  intros rid x1 Hid. pose proof (request_id_of_only_rand _ _ _ _ Hid) as Hx1.
  exists (inside request (entered rid x1)).
  destruct (inside_same request (entered rid x1)) as (Hyc & Hyl & Hyn & Hyh).
  specialize (Hkeep (inside request (entered rid x1))). rewrite Hyc in Hkeep.
  destruct (endpoint (inside request (entered rid x1))) as [r x2] eqn:He. simpl in Hkeep.
  rewrite Hyc, Hyl, Hyn, Hyh. unfold entered at 1 2 3 4. rewrite Hx1.
  destruct (answered rid r) as [inner|] eqn:Ha.
  - destruct (secure_same (r_path request) inner) as [Hst Hb].
    destruct (app_ok request endpoint _ x _ Hp (stack_ok request endpoint rid r inner x x1 x2 Hid He Hkeep Ha))
      as (response & Happ & Hs' & Hb' & Hh).
    exists response. eexists. do 4 (split; [done|]). split; [exact Happ|]. split; [done|].
    split; [by rewrite Hs'|]. split; [by rewrite Hb'|].
    split; [rewrite Hh by (apply program_header; by left); by rewrite header_set, decide_True|]. split.
    + intros k v Hin. rewrite Hh by (by eapply program_header, security_program_header).
      rewrite header_set, decide_False; [by apply secure_header|].
      unfold _SECURITY_HEADERS in Hin. rewrite !elem_of_cons, elem_of_nil in Hin.
      destruct Hin as [[= -> _]|[[= -> _]|[[= -> _]|[[= -> _]|[[= -> _]|[]]]]]]; by vm_compute.
    + eexists _, _. split; [|cbn -[observed]; by destruct (observed_same request (status_code inner) (entered rid x1) x2) as [_ ->]].
      unfold measured, observed. by case_bool_decide.
  - destruct r as [a|e]; simpl in Ha; [done|]. destruct (handled e) eqn:Hh; [done|].
    pose proof (app_raises request endpoint e x _ Hp (stack_err request endpoint rid e x x1 x2 Hid He Hkeep Hh)) as Happ.
    eexists _, _. do 4 (split; [done|]). split; [exact Happ|]. split; [done|].
    split; [by destruct e|]. do 3 (split; [done|]).
    eexists e, _. split; [done|]. simpl. rewrite Hkeep, <- app_assoc. done.
Qed.

(** ** Durations *)

Lemma in_ms_mono a b : a <= b -> in_ms a <= in_ms b.
Proof.
  intros Hab. unfold in_ms. apply F64.round_digits_mono; [lia|].
  apply F64.rnd_mono; [apply F64.one_pos|]. apply Z.mul_le_mono_nonneg_r; [|done].
  apply (Zle_bool_imp_le 0). by vm_compute.
Qed.

Lemma in_ms_0 : in_ms 0 = 0.
Proof. by vm_compute. Qed.

Lemma sub_nonneg a b : b <= a -> 0 <= F64.sub a b.
Proof.
  intros Hba. unfold F64.sub. rewrite <- (F64.rnd_0 1) by lia. apply F64.rnd_mono; lia.
Qed.

Context {reading_of : R -> Z} `{!PerfCounterLaws R reading_of}.

Abbreviation clock x := (reading_of (rand x)).

Lemma reading_bounds x : clock x <= reading x /\ clock (ticked x) = reading x.
Proof. apply perf_counter_law. Qed.

Lemma entered_bounds rid x : clock x <= reading (set_ctx (Some rid) x) <= clock (entered rid x).
Proof. destruct (reading_bounds (set_ctx (Some rid) x)) as [Hr Ht]. unfold entered. rewrite Ht. simpl in *. lia. Qed.

Lemma inside_bounds request x : r_path request <> _METRICS_PATH ->
  clock x <= reading x <= clock (inside request x).
Proof.
  intros Hp. destruct (reading_bounds x) as [Hr Ht]. unfold inside.
  case_bool_decide; [done|]. rewrite Ht. lia.
Qed.

(** Durations, with a clock that does not go back: outside [/metrics] the
    histogram gets a latency that is not negative and, in milliseconds, at most
    the duration of the access log, which is itself at most the time the whole
    request took -- differences and roundings of floats included.  A request
    that ends in an unexpected exception is not observed, and the duration its
    line gives has the same bounds. *)
Theorem latency_bounds request endpoint rid x x1 :
  preflight request = false -> request_id_of request x = (Ok rid, x1) ->
  (forall y, request_id_ctx (endpoint y).2 = request_id_ctx y) ->
  (forall y, clock y <= clock (endpoint y).2) ->
  r_path request <> _METRICS_PATH ->
  exists y response x3, app request endpoint x = (Ok response, x3) /\
    let '(r, x2) := endpoint y in
    let label := (r_method request, _route_template request) in
    let whole := F64.sub (clock x3) (clock x1) in
    match answered rid r with
    | Some inner => exists elapsed ms,
        REQUEST_LATENCY x3 = <[label := default [] (REQUEST_LATENCY x2 !! label) ++ [elapsed]]> (REQUEST_LATENCY x2)
        /\ l_fields <$> last (lines x3)
           = Some (_add_request_id (request_id_ctx x)
               (request_completed proxy_trust request (status_code inner) ms))
        /\ 0 <= elapsed <= whole /\ in_ms elapsed <= ms <= in_ms whole
    | None => exists e ms,
        REQUEST_LATENCY x3 = REQUEST_LATENCY x2
        /\ lines x3 = lines x2
             ++ [line_of (Some rid) "error" "request_failed" (request_failed request ms);
                 line_of (request_id_ctx x) "error" "unhandled_exception" (unhandled_exception e)]
        /\ 0 <= ms <= in_ms whole
    end.
Proof.
  intros Hnp Hid Hkeep Hclock Hp. set (y := inside request (entered rid x1)).
  destruct (inside_same request (entered rid x1)) as (Hyc & _).
  specialize (Hkeep y). unfold y in Hkeep at 2. rewrite Hyc in Hkeep. specialize (Hclock y).
  destruct (entered_bounds rid x1) as [Hs1 Hs2].
  destruct (inside_bounds request (entered rid x1) Hp) as [Hi1 Hi2]. fold y in Hi2.
  exists y. destruct (endpoint y) as [r x2] eqn:He. cbn [snd] in *.
  destruct (reading_bounds x2) as [Hx2 Hx2'].
  destruct (answered rid r) as [inner|] eqn:Ha.
  - destruct (app_ok request endpoint _ x _ Hnp (stack_ok request endpoint rid r inner x x1 x2 Hid He Hkeep Ha))
      as (response & Happ & _). cbv zeta in Happ.
    set (z := set_ctx (request_id_ctx x) (observed request (status_code inner) (entered rid x1) x2)) in *.
    destruct (reading_bounds z) as [Hz Hz'].
    assert (clock z = reading x2) as Hzx by (unfold z, observed; by case_bool_decide).
    eexists _, _. split; [exact Happ|].
    exists (F64.sub (reading x2) (reading (entered rid x1))). eexists.
    cbn [snd log REQUEST_LATENCY lines rand request_id_ctx ticked set_rand].
    change (reading_of (perf_counter (rand z)).2) with (clock (ticked z)). rewrite Hz'.
    split; [unfold z, observed; by case_bool_decide|]. split; [by rewrite last_snoc|].
    split; [split; [apply sub_nonneg; lia|apply F64.sub_mono; lia]|].
    split; apply in_ms_mono, F64.sub_mono; lia.
  - destruct r as [a|e]; simpl in Ha; [done|]. destruct (handled e) eqn:Hh; [done|].
    pose proof (app_raises request endpoint e x _ Hnp (stack_err request endpoint rid e x x1 x2 Hid He Hkeep Hh)) as Happ.
    eexists _, _. split; [exact Happ|]. exists e. eexists.
    split; [done|]. split; [simpl; by rewrite Hkeep, <- app_assoc|].
    cbn [snd log rand set_ctx]. change (rand (ticked x2)) with (perf_counter (rand x2)).2 in *. rewrite Hx2'.
    rewrite <- in_ms_0 at 1. split; apply in_ms_mono; [apply sub_nonneg|apply F64.sub_mono]; lia.
Qed.

End app.

(** ** A request to the middleware *)

(** A clock that moves one second with each reading. *)
#[export] Instance sample_perf_counter : PerfCounter Z := fun r => ((r + 1) * F64.one, r + 1).

#[export] Instance sample_perf_counter_laws : PerfCounterLaws Z (fun r => r * F64.one).
Proof. intros r. unfold perf_counter, sample_perf_counter. simpl fst. simpl snd. pose proof F64.one_pos. lia. Qed.

(** CORS as Starlette has it, for the options the witnesses use. *)
#[export] Instance sample_cors {R} : Cors R := fun options request call_next =>
  match ClientIp.headers_get (r_http request) "origin" with
  | None => call_next
  | Some origin =>
      let allowed := bool_decide ("*"%string ∈ allow_origins options \/ origin ∈ allow_origins options) in
      if preflight request then
        mret {| status_code := if allowed then 200 else 400;
                headers := [("access-control-allow-methods", "GET, POST"); ("vary", "Origin");
                            ("content-type", "text/plain; charset=utf-8")]%string;
                body := [] |}
      else
        response ← call_next;
        mret (if allowed then set_header "access-control-allow-origin" origin response else response)
  end.

#[export] Instance sample_cors_laws {R} : CorsLaws R.
Proof.
  constructor.
  - intros options request call_next x Hp. unfold cors, sample_cors. rewrite Hp. unfold preflight, has_header in Hp.
    destruct (ClientIp.headers_get (r_http request) "origin") as [origin|]; [|by rewrite andb_false_r in Hp].
    eexists. split; [reflexivity|]. split; [simpl; destruct (bool_decide (_ \/ _)); auto|]. intros name. unfold header.
    cbn [headers]. generalize (lower name). intros k Hk. destruct Hk as [v Hv%PyDict.get_Some_elem].
    rewrite !elem_of_cons, elem_of_nil in Hv. by destruct Hv as [[= -> _]|[[= -> _]|[[= -> _]|[]]]].
  - intros options request call_next x Hp. unfold cors, sample_cors. rewrite Hp.
    assert (forall r, passes r r) as Hrefl by done.
    destruct (ClientIp.headers_get (r_http request) "origin") as [origin|].
    + unfold mbind, m_bind. destruct (call_next x) as [[r|e] x']; [|done]. eexists. split; [reflexivity|].
      case_bool_decide; [|done]. split; [done|]. split; [done|]. intros name Hn.
      rewrite header_set, decide_False; [done|]. intros Heq. by rewrite <- Heq in Hn.
    + destruct (call_next x) as [[r|e] x']; [|done]. by exists r.
  - intros options request call_next x Ho. unfold cors, sample_cors, has_header in *.
    apply bool_decide_eq_false in Ho. by destruct (ClientIp.headers_get _ _); [destruct Ho; eexists|].
Qed.

Definition sample_options : cors_options :=
  {| allow_origins := ["http://localhost:3000"%string]; allow_credentials := false;
     allow_methods := ["*"%string]; allow_headers := ["*"%string] |}.

(** A browser asking whether it may send a request. *)
Definition sample_preflight : Request :=
  {| r_method := "OPTIONS"; r_path := "/api/v1/flights/search"; r_route := None;
     r_http := {| ClientIp.client_host := Some "198.51.100.7"%string;
                  ClientIp.headers_get name :=
                    if decide (name = "origin"%string) then Some "http://localhost:3000"%string
                    else if decide (name = "access-control-request-method"%string) then Some "GET"%string
                    else None |} |}.

Definition sample_request (id : option string) : Request :=
  {| r_method := "GET"; r_path := "/api/v1/flights/search"; r_route := Some "/api/v1/flights/search"%string;
     r_http := {| ClientIp.client_host := Some "198.51.100.7"%string;
                  ClientIp.headers_get name := if decide (name = "x-request-id"%string) then id else None |} |}.

Definition sample_context : context Z :=
  {| request_id_ctx := None; lines := []; REQUEST_COUNT := ∅; REQUEST_LATENCY := ∅; rand := 7 |}.

Lemma app_answers_witness :
  (exists response x3,
     app None sample_options (sample_request (Some "abc"%string)) (raise (app_err NotFoundError "no such offer")) sample_context
     = (Ok response, x3)
     /\ status_code response = 404 /\ header response "x-request-id" = Some "abc"%string
     /\ header response "X-Frame-Options" = Some "DENY"%string
     /\ l_event <$> lines x3 = ["request_completed"%string])
  /\ (exists response x3,
     app None sample_options (sample_request None) (raise (PyError "KeyError" "secret")) sample_context = (Ok response, x3)
     /\ status_code response = 500 /\ header response "X-Frame-Options" = None
     /\ l_event <$> lines x3 = ["request_failed"; "unhandled_exception"]%string)
  /\ (exists response,
     app None sample_options sample_preflight (raise (PyError "KeyError" "secret")) sample_context
     = (Ok response, sample_context) /\ header response "X-Frame-Options" = None).
Proof.
  split; [|split].
  - destruct (app_answers None sample_options (sample_request (Some "abc"%string))
      (raise (app_err NotFoundError "no such offer")) sample_context (fun y => eq_refl) "abc"%string sample_context)
      as (y & response & x3 & _ & Hl & _ & _ & Hr & _ & Hs & _ & Hid & Hh & elapsed & ms & _ & Hl3);
      [reflexivity|].
    exists response, x3. split; [exact Hr|]. split; [exact Hs|]. split; [exact Hid|]. split.
    + rewrite (Hh "X-Frame-Options" "DENY")%string; [reflexivity|]. right. left.
    + rewrite Hl3. cbn [snd raise]. by rewrite Hl.
  - destruct (app_answers None sample_options (sample_request None) (raise (PyError "KeyError" "secret"))
      sample_context (fun y => eq_refl) (PyUuid.hex (uuid4 7).1) (set_rand (uuid4 7).2 sample_context))
      as (y & response & x3 & _ & Hl & _ & _ & Hr & _ & Hresp & _ & _ & _ & e & ms & _ & Hl3);
      [reflexivity|].
    exists response, x3. split; [exact Hr|]. rewrite Hresp. split; [reflexivity|]. split; [reflexivity|].
    rewrite Hl3. cbn [snd raise]. by rewrite Hl.
  - destruct (app_answers None sample_options sample_preflight (raise (PyError "KeyError" "secret"))
      sample_context (fun y => eq_refl)) as (response & Hr & _ & _ & Hh).
    exists response. split; [exact Hr|]. apply (Hh "X-Frame-Options" "DENY")%string. right. left.
Defined.

Lemma latency_bounds_witness :
  let request := sample_request None in
  let endpoint : M exn (context Z) Response := raise (app_err NotFoundError "no such offer") in
  exists response x3 l elapsed,
    app None sample_options request endpoint sample_context = (Ok response, x3)
    /\ REQUEST_LATENCY x3 !! ("GET", "/api/v1/flights/search")%string = Some (l ++ [elapsed])
    /\ 0 <= elapsed.
Proof.
  intros request endpoint.
  destruct (latency_bounds (reading_of := fun r => r * F64.one) None sample_options request endpoint
    (PyUuid.hex (uuid4 7).1) sample_context (set_rand (uuid4 7).2 sample_context))
    as (y & response & x3 & Happ & elapsed & ms & Hl & _ & Hb & _);
    [reflexivity|reflexivity|by intros y|by intros y|done|].
  exists response, x3. eexists. exists elapsed. split; [exact Happ|]. split; [|apply Hb].
  rewrite Hl. apply lookup_insert_eq.
Defined.

End Middleware.
