(* ===== verification/SampleInventory.v ===== *)
(** * Sample inventory

    [app/providers/sample_flights.py] and [app/providers/sample_hotels.py]: the
    providers the container registers.  Their offers are drawn from a generator
    seeded by a digest of the query.  The generator ([random.Random]) and the
    digest (SHA-256) are interfaces: what they produce is left open within the
    ranges their documentation gives. *)
From S2P Require Import Prelude PyStr PyDict Errors Float64 PyUuid Domain.
Import PyStr Calendar Domain.Domain.

(** [random.Random]; sequences are passed by their length and answered by
    index. *)
Class Random (G : Type) : Type := {
  seeded : Z -> G;
  randint : Z -> Z -> M exn G Z;
  choice_index : nat -> M exn G nat;
  choices_index : list Z -> M exn G nat;
  uniform : Z -> Z -> M exn G Z;
  sample_indices : nat -> nat -> M exn G (list nat);
}.

Class RandomLaws (G : Type) `{Random G} : Prop := {
  randint_law a b g : a <= b -> exists n g', randint a b g = (Ok n, g') /\ a <= n <= b;
  choice_law n g : (0 < n)%nat -> exists i g', choice_index n g = (Ok i, g') /\ (i < n)%nat;
  choices_law ws g : Forall (fun w => 0 < w) ws -> ws <> [] ->
    exists i g', choices_index ws g = (Ok i, g') /\ (i < length ws)%nat;
  uniform_law a b g : a <= b -> exists x g', uniform a b g = (Ok x, g') /\ a <= x <= b;
  sample_law n k g : (k <= n)%nat ->
    exists l g', sample_indices n k g = (Ok l, g') /\ length l = k /\ NoDup l /\ Forall (fun i => (i < n)%nat) l;
}.

(** SHA-256 of a text, as the number its digest writes in hexadecimal. *)
Class Sha256 : Type := { sha256 : string -> Z }.

Module SampleInventory.

(** [hexdigest()[:16]]. *)
Definition hex16 (digest : Z) : string :=
  of_chars (take 16 (PyUuid.hex_char <$> PyUuid.hex_digits 64 digest)).

(** [rng.choice(l)]. *)
Definition choice {G A} `{Random G} (l : list A) : M exn G A :=
  i ← choice_index (length l);
  match l !! i with
  | Some x => mret x
  | None => raise (PyError "IndexError" "list index out of range")
  end.

(** [range(n)]. *)
Definition range (n : Z) : list Z := Z.of_nat <$> seq 0 (Z.to_nat n).

(** ** [date] and [datetime] arithmetic *)

(** The day after; [None] is the [OverflowError] after 9999-12-31. *)
Definition next_day (d : date) : option date :=
  if day d <? days_in_month (year d) (month d) then
    Some {| year := year d; month := month d; day := day d + 1 |}
  else if month d <? 12 then Some {| year := year d; month := month d + 1; day := 1 |}
  else if year d <? 9999 then Some {| year := year d + 1; month := 1; day := 1 |}
  else None.

Fixpoint add_days (n : nat) (d : date) : option date :=
  match n with
  | O => Some d
  | S n' => d' ← next_day d; add_days n' d'
  end.

(** [t + timedelta(minutes=m)], for [0 <= m]. *)
Definition add_minutes (t : datetime) (m : Z) : res exn datetime :=
  let us := dt_us t + m * 60 * 1000000 in
  match add_days (Z.to_nat (us / us_per_day)) (dt_date t) with
  | Some d => Ok {| dt_date := d; dt_us := us mod us_per_day; dt_offset := dt_offset t |}
  | None => Err (PyError "OverflowError" "date value out of range")
  end.

(** [datetime.combine(d, time(hour=h, minute=m), UTC)]. *)
Definition combine_utc (d : date) (hour minute : Z) : datetime :=
  {| dt_date := d; dt_us := (hour * 60 + minute) * 60 * 1000000; dt_offset := Some 0 |}.

(** ** Flights *)
Module SampleFlightProvider.

Definition _CABIN_MULTIPLIER : list (string * Z) :=
  [("economy"%string, F64.of_dec 10 1); ("premium"%string, F64.of_dec 16 1);
   ("business"%string, F64.of_dec 28 1); ("first"%string, F64.of_dec 45 1)].

Record provider : Type := { name : string; _airlines : list string; _base_price : Z }.

Section search.
Context {G : Type} `{Random G} `{Sha256}.

Definition _seed (self : provider) (query : FlightSearchQuery) : Z :=
  sha256 (name self +:+ ":" +:+ fq_origin query +:+ ":" +:+ fq_destination query +:+ ":"
          +:+ date_isoformat (fq_departure_date query) +:+ ":" +:+ fq_cabin_class query) mod 2 ^ 32.

Definition _offer_id (self : provider) (query : FlightSearchQuery) (index : Z) : string :=
  "fl_" +:+ hex16 (sha256 (name self +:+ ":" +:+ fq_origin query +:+ fq_destination query +:+ ":"
                           +:+ date_isoformat (fq_departure_date query) +:+ ":" +:+ str_of_int index)).

Definition cabin_factor (query : FlightSearchQuery) : Z :=
  default (F64.of_dec 10 1) (PyDict.get _CABIN_MULTIPLIER (fq_cabin_class query)).

(** [int((base + duration * 20 + stops * 1500) * cabin_factor)]. *)
Definition list_price (self : provider) (factor duration stops : Z) : Z :=
  F64.to_int (F64.mul (F64.of_int (_base_price self + duration * 20 + stops * 1500)) factor).

(** One turn of the loop. *)
Definition offer (self : provider) (query : FlightSearchQuery) (index : Z) : M exn G NormalizedFlight :=
  airline ← choice (_airlines self);
  pick ← choices_index [6; 3; 1];
  let stops := Z.of_nat pick in
  depart_hour ← randint 5 21;
  leg ← randint 90 240;
  layover ← randint 45 120;
  let duration := leg + stops * layover in
  minute ← choice [0; 15; 30; 45];
  let departure := combine_utc (fq_departure_date query) depart_hour minute in
  arrival ← lift_res (add_minutes departure duration);
  extra ← randint 0 4000;
  let price_minor := list_price self (cabin_factor query) duration stops + extra * fq_adults query in
  price ← lift_res (mk_money price_minor "USD");
  let flight :=
    {| f_id := _offer_id self query index; f_provider := name self; f_airline := airline;
       f_origin := fq_origin query; f_destination := fq_destination query;
       f_departure_time := departure; f_arrival_time := arrival; f_duration_minutes := duration;
       f_stops := stops; f_cabin_class := fq_cabin_class query; f_price := price |} in
  if valid_flight flight then mret flight else raise (validation_failed "NormalizedFlight").

Fixpoint offers (self : provider) (query : FlightSearchQuery) (indices : list Z)
  : M exn G (list NormalizedFlight) :=
  match indices with
  | [] => mret []
  | i :: rest => flight ← offer self query i; flights ← offers self query rest; mret (flight :: flights)
  end.

Definition search (self : provider) (query : FlightSearchQuery) : res exn (list NormalizedFlight) :=
  ((n ← randint 3 6; offers self query (range n)) (seeded (_seed self query))).1.

End search.
End SampleFlightProvider.

(** ** Hotels *)
Module SampleHotelProvider.

Definition _NAMES : list string :=
  ["Grand"; "Central"; "Riverside"; "Park"; "Royal"; "Harbor"; "Old Town"; "Skyline"]%string.
Definition _KINDS : list string := ["Hotel"; "Suites"; "Inn"; "Residence"; "Boutique"]%string.
Definition _AMENITIES : list string :=
  ["wifi"; "breakfast"; "parking"; "pool"; "gym"; "spa"; "airport_shuttle"]%string.

Record provider : Type := { name : string; _base_price : Z }.

(** The order of [str]. *)
Definition str_le (a b : string) : Prop := Stdlib.Strings.String.leb a b = true.
#[global] Instance str_le_dec a b : Decision (str_le a b).
Proof. unfold str_le. apply _. Defined.

(** [sorted(l)]. *)
Definition sorted_strings (l : list string) : list string := merge_sort str_le l.

Section search.
Context {G : Type} `{Random G} `{Sha256}.

(** [rng.sample(l, k)]. *)
Definition sample (l : list string) (k : Z) : M exn G (list string) :=
  indices ← sample_indices (length l) (Z.to_nat k);
  mret (omap (fun i => l !! i) indices).

Definition _seed (self : provider) (query : HotelSearchQuery) : Z :=
  sha256 (name self +:+ ":" +:+ hq_city query +:+ ":" +:+ date_isoformat (hq_check_in query) +:+ ":"
          +:+ date_isoformat (hq_check_out query) +:+ ":" +:+ str_of_int (hq_guests query)) mod 2 ^ 32.

Definition _offer_id (self : provider) (query : HotelSearchQuery) (index : Z) : string :=
  "ho_" +:+ hex16 (sha256 (name self +:+ ":" +:+ hq_city query +:+ ":"
                           +:+ date_isoformat (hq_check_in query) +:+ ":" +:+ str_of_int index)).

(** [int(base + rating * 1200 + extra)]. *)
Definition list_price (self : provider) (rating extra : Z) : Z :=
  F64.to_int (F64.add (F64.add (F64.of_int (_base_price self)) (F64.mul rating (F64.of_int 1200)))
                (F64.of_int extra)).

(** One turn of the loop. *)
Definition offer (self : provider) (query : HotelSearchQuery) (index : Z) : M exn G NormalizedHotel :=
  drawn ← uniform (3 * F64.one) (5 * F64.one);
  let rating := F64.round_digits drawn 1 in
  extra ← randint 0 5000;
  per_guest ← randint 500 1500;
  let per_night := list_price self rating extra + (hq_guests query - 1) * per_guest in
  count ← randint 2 5;
  amenities ← sample _AMENITIES count;
  first ← choice _NAMES;
  kind ← choice _KINDS;
  reviews_count ← randint 40 4000;
  price ← lift_res (mk_money per_night "USD");
  let hotel :=
    {| h_id := _offer_id self query index; h_provider := name self; h_name := first +:+ " " +:+ kind;
       h_city := hq_city query; h_rating := rating; h_reviews_count := reviews_count;
       h_price_per_night := price; h_amenities := sorted_strings amenities |} in
  if valid_hotel hotel then mret hotel else raise (validation_failed "NormalizedHotel").

Fixpoint offers (self : provider) (query : HotelSearchQuery) (indices : list Z)
  : M exn G (list NormalizedHotel) :=
  match indices with
  | [] => mret []
  | i :: rest => hotel ← offer self query i; hotels ← offers self query rest; mret (hotel :: hotels)
  end.

Definition search (self : provider) (query : HotelSearchQuery) : res exn (list NormalizedHotel) :=
  ((n ← randint 4 7; offers self query (range n)) (seeded (_seed self query))).1.

End search.
End SampleHotelProvider.

End SampleInventory.
