(* ===== verification/SampleSpec.v ===== *)
(** * Properties of the sample providers

    Whatever the generator draws, both providers answer a valid query with a
    few offers that pass the models' validators; the flights depart on the day
    asked for and arrive when their duration says. *)
From S2P Require Import Prelude PyStr PyDict Errors Float64 PyUuid Domain SampleInventory.
Import PyStr Calendar Domain.Domain SampleInventory.

Module SampleSpec.

(** ** Two runs from one generator

    Both return, consume the generator alike, and their results are related. *)
Section together.
Context {E G : Type}.

Definition together {A B} (R : A -> B -> Prop) (m : M E G A) (m' : M E G B) : Prop :=
  forall g, exists a b g', m g = (Ok a, g') /\ m' g = (Ok b, g') /\ R a b.

Lemma together_ret {A B} (R : A -> B -> Prop) a b : R a b -> together R (mret a) (mret b).
Proof. intros HR g. by exists a, b, g. Qed.

Lemma together_bind {A B C D} (R : A -> B -> Prop) (T : C -> D -> Prop) m m' k k' :
  together R m m' -> (forall a b, R a b -> together T (k a) (k' b)) ->
  together T (m ≫= k) (m' ≫= k').
Proof.
  intros Hm Hk g. destruct (Hm g) as (a & b & g1 & E1 & E2 & HR).
  destruct (Hk a b HR g1) as (c & d & g2 & F1 & F2 & HT).
  exists c, d, g2. m_run E1. by m_run E2.
Qed.

(** One computation, and what it returns. *)
Lemma together_same {A} (P : A -> Prop) (m : M E G A) :
  (forall g, exists a g', m g = (Ok a, g') /\ P a) -> together (fun a b => a = b /\ P a) m m.
Proof. intros Hm g. destruct (Hm g) as (a & g' & E1 & HP). by exists a, a, g'. Qed.

End together.

Section draws.
Context {G : Type} `{RandomLaws G}.

Lemma together_randint a b : a <= b ->
  together (fun x y : Z => x = y /\ a <= x <= b) (randint a b) (randint a b).
Proof. intros Hab. apply (together_same (fun n => a <= n <= b)). intros g. by apply randint_law. Qed.

Lemma together_choices ws : Forall (fun w => 0 < w) ws -> ws <> [] ->
  together (fun x y : nat => x = y /\ (x < length ws)%nat) (choices_index ws) (choices_index ws).
Proof.
  intros Hw Hne. apply (together_same (fun i => (i < length ws)%nat)). intros g. by apply choices_law.
Qed.

Lemma together_uniform a b : a <= b ->
  together (fun x y : Z => x = y /\ a <= x <= b) (uniform a b) (uniform a b).
Proof. intros Hab. apply (together_same (fun n => a <= n <= b)). intros g. by apply uniform_law. Qed.

Lemma together_choice {A} (l : list A) : l <> [] ->
  together (fun x y => x = y /\ x ∈ l) (choice l) (choice l).
Proof.
  intros Hne. apply (together_same (fun x => x ∈ l)). intros g. unfold choice.
  destruct (choice_law (length l) g) as (i & g' & Ei & Hi); [destruct l; simpl; [done|lia]|].
  m_run Ei. apply lookup_lt_is_Some in Hi as [x Hx]. rewrite Hx.
  exists x, g'. split; [done|]. by eapply list_elem_of_lookup_2.
Qed.

(** [sample] draws distinct elements of the list. *)
Lemma together_sample l k : NoDup l -> 0 <= k <= Z.of_nat (length l) ->
  together (fun x y => x = y /\ (x ⊆+ l /\ length x = Z.to_nat k))
    (SampleHotelProvider.sample l k) (SampleHotelProvider.sample l k).
Proof.
  intros Hnd Hk. apply (together_same (fun x => x ⊆+ l /\ length x = Z.to_nat k)). intros g.
  unfold SampleHotelProvider.sample.
  destruct (sample_law (length l) (Z.to_nat k) g ltac:(lia)) as (idx & g' & Ei & Hlen & Hdup & Hlt).
  m_run Ei. eexists _, g'. split; [reflexivity|].
  assert (length (omap (fun i => l !! i) idx) = length idx) as Hl.
  { clear -Hlt. induction Hlt as [|i idx Hi _ IH]; [done|]. simpl.
    apply lookup_lt_is_Some in Hi as [x ->]. simpl. f_equal. exact IH. }
  split; [|rewrite <- Hlen; exact Hl]. apply NoDup_submseteq.
  - clear -Hnd Hdup Hlt. induction Hdup as [|i idx Hni Hdup IH]; [constructor|].
    apply Forall_cons in Hlt as [Hi Hlt]. simpl.
    apply lookup_lt_is_Some in Hi as [x Hx]. rewrite Hx. constructor; [|by apply IH].
    intros Hin. apply list_elem_of_omap in Hin as (j & Hj & Hx'). apply Hni.
    by rewrite (NoDup_lookup _ _ _ _ Hnd Hx Hx').
  - intros x Hx. apply list_elem_of_omap in Hx as (j & _ & Hj). by eapply list_elem_of_lookup_2.
Qed.

End draws.

(** A draw with a lemma of its own, taken on both sides. *)
Create HintDb draws discriminated.
#[export] Hint Extern 1 (together _ (randint _ _) _) => apply together_randint; lia : draws.
#[export] Hint Extern 1 (together _ (uniform _ _) _) => apply together_uniform; lia : draws.
#[export] Hint Extern 1 (together _ (choices_index _) _) =>
  apply together_choices; [by repeat constructor|done] : draws.
#[export] Hint Extern 1 (together _ (choice _) _) => apply together_choice; done : draws.
#[export] Hint Extern 1 (together _ (SampleHotelProvider.sample _ _) _) =>
  apply together_sample; [by apply (bool_decide_unpack _)|simpl; lia] : draws.

(** Run both computations through their next draw. *)
Ltac draw x Hx :=
  eapply together_bind; [solve [auto with draws]|]; intros x ? [<- Hx]; cbv beta.

(** ** The calendar *)

Definition valid_before_end (d : date) : Prop :=
  valid_date d = true /\ (year d < 9999 \/ month d < 12 \/ day d < 31).

Lemma div_pred y k : 0 < k -> y / k = (y - 1) / k + (if y mod k =? 0 then 1 else 0).
Proof.
  intros Hk. pose proof (Z.mod_pos_bound y k Hk). pose proof (Z.div_mod y k ltac:(lia)).
  destruct (Z.eqb_spec (y mod k) 0).
  - assert ((y - 1) / k = y / k - 1); [|lia]. symmetry. apply (Z.div_unique _ _ _ (k - 1)); lia.
  - assert ((y - 1) / k = y / k); [|lia]. symmetry. apply (Z.div_unique _ _ _ (y mod k - 1)); lia.
Qed.

Lemma days_before_year_succ y :
  days_before_year (y + 1) = days_before_year y + 365 + (if is_leap y then 1 else 0).
Proof.
  unfold days_before_year, is_leap. replace (y + 1 - 1) with y by lia.
  rewrite (div_pred y 4), (div_pred y 100), (div_pred y 400) by lia.
  assert (y mod 100 = 0 -> y mod 4 = 0) by (intros; Z.div_mod_to_equations; lia).
  assert (y mod 400 = 0 -> y mod 100 = 0) by (intros; Z.div_mod_to_equations; lia).
  destruct (Z.eqb_spec (y mod 4) 0), (Z.eqb_spec (y mod 100) 0), (Z.eqb_spec (y mod 400) 0);
    cbn [andb orb negb]; lia.
Qed.

Lemma days_before_month_succ y m :
  1 <= m -> days_before_month y (m + 1) = days_before_month y m + days_in_month y m.
Proof.
  intros Hm. unfold days_before_month. replace (Z.to_nat (m + 1 - 1)) with (S (Z.to_nat (m - 1))) by lia.
  cbn [days_before_month_go]. do 2 f_equal. lia.
Qed.

Lemma days_before_december y : days_before_month y 12 = 334 + (if is_leap y then 1 else 0).
Proof. cbv -[is_leap]. by destruct (is_leap y). Qed.

(** The next day is the next ordinal. *)
Lemma next_day_ordinal d : valid_before_end d ->
  exists d', next_day d = Some d' /\ toordinal d' = toordinal d + 1.
Proof.
  intros [Hv Hend]. unfold valid_date in Hv. rewrite !andb_true_iff, !Z.leb_le in Hv.
  destruct Hv as [[[[[Hy Hy'] Hm] Hm'] Hd] Hd'].
  unfold next_day. destruct (Z.ltb_spec (day d) (days_in_month (year d) (month d))) as [Hlt|Hge].
  { eexists. split; [done|]. unfold toordinal. simpl. lia. }
  assert (day d = days_in_month (year d) (month d)) as Hday by lia.
  destruct (Z.ltb_spec (month d) 12) as [Hlt|Hge'].
  { eexists. split; [done|]. unfold toordinal. cbn [year month day].
    rewrite days_before_month_succ, Hday by lia. lia. }
  assert (month d = 12) as Hdec by lia. rewrite Hdec in *.
  change (days_in_month (year d) 12) with 31 in Hday.
  destruct (Z.ltb_spec (year d) 9999) as [|]; [|lia].
  eexists. split; [done|]. unfold toordinal. cbn [year month day].
  rewrite Hdec, Hday, days_before_year_succ, days_before_december.
  change (days_before_month (year d + 1) 1) with 0. lia.
Qed.

(** Adding less than two days: the instant moves by exactly that much. *)
Lemma add_minutes_spec t m :
  valid_before_end (dt_date t) -> 0 <= m -> 0 <= dt_us t -> dt_us t + m * 60000000 < 2 * us_per_day ->
  exists t', add_minutes t m = Ok t' /\ instant t' = instant t + m * 60000000
    /\ dt_offset t' = dt_offset t.
Proof.
  intros Hd Hm Ht Hlt. unfold add_minutes. replace (m * 60 * 1000000) with (m * 60000000) by lia.
  set (us := dt_us t + m * 60000000) in *. assert (0 <= us) by lia.
  destruct (Z.lt_ge_cases us us_per_day) as [Hu|Hu].
  - rewrite Z.div_small by lia. eexists. split; [done|]. rewrite Z.mod_small by lia.
    unfold instant, wall_us. simpl. split; [lia|done].
  - assert (us / us_per_day = 1) as Hq.
    { symmetry. apply (Z.div_unique _ _ _ (us - us_per_day)); lia. }
    assert (us mod us_per_day = us - us_per_day) as Hr.
    { symmetry. apply (Z.mod_unique _ _ 1); lia. }
    rewrite Hq, Hr. destruct (next_day_ordinal (dt_date t) Hd) as (d' & Hn & Ho).
    change (Z.to_nat 1) with 1%nat. cbn [add_days]. rewrite Hn. simpl.
    eexists. split; [done|]. unfold instant, wall_us. simpl. rewrite Ho. split; [lia|done].
Qed.

(** ** Prices *)

Lemma mul_le_f64 a a' c : 0 <= c -> a <= a' -> F64.mul a c <= F64.mul a' c.
Proof. intros. apply F64.rnd_mono; [done|]. nia. Qed.

Lemma to_int_mono a b : a <= b -> F64.to_int a <= F64.to_int b.
Proof. intros. by apply Z.quot_le_mono. Qed.

Lemma mul_nonneg_f64 a c : 0 <= c -> 0 <= a -> 0 <= F64.mul a c.
Proof.
  intros Hc Ha. rewrite <- (F64.rnd_0 F64.one F64.one_pos). apply F64.rnd_mono; [done|]. nia.
Qed.

Lemma of_int_nonneg n : 0 <= n -> 0 <= F64.of_int n.
Proof. intros. rewrite <- (F64.rnd_0 1 ltac:(done)). apply F64.rnd_mono; [done|]. pose proof F64.one_pos. nia. Qed.

Lemma usd_money amount : 0 <= amount ->
  mk_money amount "USD" = Ok {| amount_minor := amount; currency := "USD" |}.
Proof. intros Ha. unfold mk_money. by rewrite (proj2 (Z.leb_le _ _) Ha). Qed.

Lemma wf_usd amount : 0 <= amount -> wf_money {| amount_minor := amount; currency := "USD" |} = true.
Proof. intros Ha. unfold wf_money. simpl. by rewrite (proj2 (Z.leb_le _ _) Ha). Qed.

Lemma length_range n : 0 <= n -> Z.of_nat (length (range n)) = n.
Proof. intros. unfold range. rewrite length_fmap, length_seq. lia. Qed.

(** A loop whose turns run together. *)
Lemma together_loop {E G I A B} (R : A -> B -> Prop) (f : I -> M E G A) (f' : I -> M E G B)
    (loop : list I -> M E G (list A)) (loop' : list I -> M E G (list B)) l :
  (forall l, loop l = match l with [] => mret [] | i :: l => x ← f i; xs ← loop l; mret (x :: xs) end) ->
  (forall l, loop' l = match l with [] => mret [] | i :: l => x ← f' i; xs ← loop' l; mret (x :: xs) end) ->
  (forall i, together R (f i) (f' i)) ->
  together (fun a b => Forall2 R a b /\ length a = length l) (loop l) (loop' l).
Proof.
  intros H1 H2 Hf. induction l as [|i l IH]; rewrite H1, H2; [by apply together_ret|].
  eapply together_bind; [apply Hf|]. intros x y Hxy.
  eapply together_bind; [apply IH|]. intros xs ys [Hxs Hlen].
  apply together_ret. split; [by constructor|simpl; lia].
Qed.

(** ** Flights *)
Section flights.
Import SampleFlightProvider.
Context {G : Type} `{RandomLaws G} `{Sha256}.

Lemma cabin_factor_nonneg q : 0 <= cabin_factor q.
Proof.
  unfold cabin_factor, _CABIN_MULTIPLIER. cbn [PyDict.get].
  repeat (destruct (decide _); [vm_compute; discriminate|]). vm_compute. discriminate.
Qed.

Lemma list_price_mono self factor d s d' s' :
  0 <= factor -> d <= d' -> s <= s' -> list_price self factor d s <= list_price self factor d' s'.
Proof. intros. apply to_int_mono, mul_le_f64, F64.of_int_mono; lia. Qed.

Lemma list_price_nonneg self factor d s :
  0 <= factor -> 0 <= _base_price self -> 0 <= d -> 0 <= s -> 0 <= list_price self factor d s.
Proof.
  intros. unfold list_price, F64.to_int. apply Z.quot_pos; [|apply F64.one_pos].
  apply mul_nonneg_f64, of_int_nonneg; lia.
Qed.

Definition with_adults (q : FlightSearchQuery) (n : Z) : FlightSearchQuery :=
  {| fq_origin := fq_origin q; fq_destination := fq_destination q;
     fq_departure_date := fq_departure_date q; fq_adults := n; fq_cabin_class := fq_cabin_class q |}.

(** What the search promises of an offer. *)
Record offered_flight (self : provider) (q : FlightSearchQuery) (f : NormalizedFlight) : Prop := {
  of_valid : valid_flight f = true;
  of_airline : f_airline f ∈ _airlines self;
  of_route : f_provider f = name self /\ f_origin f = fq_origin q /\ f_destination f = fq_destination q
             /\ f_cabin_class f = fq_cabin_class q;
  of_day : dt_date (f_departure_time f) = fq_departure_date q;
  of_aware : dt_offset (f_departure_time f) = Some 0 /\ dt_offset (f_arrival_time f) = Some 0;
  of_times : instant (f_arrival_time f) = instant (f_departure_time f) + f_duration_minutes f * 60000000;
  of_stops : 0 <= f_stops f <= 2;
  of_duration : 90 <= f_duration_minutes f <= 480;
  of_price : list_price self (cabin_factor q) 90 0 <= amount_minor (f_price f)
             <= list_price self (cabin_factor q) 480 2 + 4000 * fq_adults q;
}.

(** The same itinerary, whatever its price. *)
Definition same_itinerary (f g : NormalizedFlight) : Prop :=
  f_id f = f_id g /\ f_airline f = f_airline g /\ f_departure_time f = f_departure_time g
  /\ f_arrival_time f = f_arrival_time g /\ f_stops f = f_stops g /\ f_duration_minutes f = f_duration_minutes g.

Section offer.
Variables (self : provider) (q : FlightSearchQuery) (n : Z).
Hypothesis Hairlines : _airlines self <> [].
Hypothesis Hbase : 0 <= _base_price self.
Hypothesis Hroute : len (fq_origin q) = 3 /\ len (fq_destination q) = 3.
Hypothesis Hdate : valid_before_end (fq_departure_date q).
Hypothesis Hadults : 0 <= fq_adults q /\ 0 <= n.

Lemma offer_together index :
  together (fun f g => offered_flight self q f /\ same_itinerary f g)
    (offer self q index) (offer self (with_adults q n) index).
Proof.
  unfold offer. pose proof (cabin_factor_nonneg q) as Hf.
  change (cabin_factor (with_adults q n)) with (cabin_factor q).
  draw airline Hairline. draw pick Hpick. draw hour Hhour. draw leg Hleg.
  draw layover Hlayover. draw minute Hminute.
  simpl in Hpick. set (stops := Z.of_nat pick). set (duration := leg + stops * layover).
  assert (0 <= stops <= 2) by lia. assert (90 <= duration <= 480) by nia.
  assert (0 <= minute <= 45) as Hmin by (rewrite !elem_of_cons, elem_of_nil in Hminute; lia).
  destruct (add_minutes_spec (combine_utc (fq_departure_date q) hour minute) duration)
    as (arrival & Harr & Hinst & Hoff); [done|lia|simpl; lia|simpl; unfold us_per_day; lia|].
  change (fq_departure_date (with_adults q n)) with (fq_departure_date q).
  rewrite Harr, !lift_ok_bind. draw extra Hextra.
  pose proof (list_price_mono self _ 90 0 duration stops Hf ltac:(lia) ltac:(lia)).
  pose proof (list_price_mono self _ duration stops 480 2 Hf ltac:(lia) ltac:(lia)).
  pose proof (list_price_nonneg self _ 90 0 Hf Hbase ltac:(lia) ltac:(lia)).
  change (fq_adults (with_adults q n)) with n.
  assert (0 <= extra * fq_adults q <= 4000 * fq_adults q) by nia.
  assert (0 <= extra * n <= 4000 * n) by nia.
  rewrite !usd_money, !lift_ok_bind by lia.
  destruct Hroute as [Ho Hd].
  assert (forall f, f_origin f = fq_origin q -> f_destination f = fq_destination q ->
    f_duration_minutes f = duration -> f_stops f = stops -> wf_money (f_price f) = true ->
    valid_flight f = true) as Hvalid.
  { intros f E1 E2 E3 E4 E5. unfold valid_flight.
    rewrite E1, E2, E3, E4, E5, Ho, Hd, (proj2 (Z.ltb_lt _ _)), (proj2 (Z.leb_le _ _)) by lia. done. }
  rewrite !Hvalid by (done || (apply wf_usd; simpl; lia)).
  apply together_ret. split; [|done].
  constructor; simpl; try done; try lia.
  apply Hvalid; try done. apply wf_usd. simpl. lia.
Qed.

Lemma search_together :
  exists fs gs, search self q = Ok fs /\ search self (with_adults q n) = Ok gs
    /\ Forall2 (fun f g => offered_flight self q f /\ same_itinerary f g) fs gs /\ 3 <= Z.of_nat (length fs) <= 6.
Proof.
  unfold search. change (_seed self (with_adults q n)) with (_seed self q).
  set (g := seeded _).
  assert (together (fun fs gs => Forall2 (fun f g => offered_flight self q f /\ same_itinerary f g) fs gs
      /\ 3 <= Z.of_nat (length fs) <= 6)
    (k ← randint 3 6; offers self q (range k))
    (k ← randint 3 6; offers self (with_adults q n) (range k))) as Ht.
  { draw k Hk. intros g0.
    destruct (together_loop _ _ _ (offers self q) (offers self (with_adults q n)) (range k)
      ltac:(by intros []) ltac:(by intros []) offer_together g0) as (fs & gs & g1 & E1 & E2 & Hall & Hlen).
    exists fs, gs, g1. split_and!; try done; rewrite Hlen, length_range; lia. }
  destruct (Ht g) as (fs & gs & g1 & -> & -> & Hall & Hlen). by exists fs, gs.
Qed.

End offer.

(** Sample flights: whatever the generator draws, a query with two
    three-letter codes is answered with three to six offers; each passes the
    model's validator, is for the route, day and cabin asked for, names one of
    the provider's airlines, arrives its duration after its departure, and has
    a price between that of the shortest direct flight and that of the longest
    one plus its surcharge.  Asking for another number of adults gives the same
    itineraries, at other prices. *)
Theorem sample_flights_spec self q n :
  _airlines self <> [] -> 0 <= _base_price self ->
  len (fq_origin q) = 3 /\ len (fq_destination q) = 3 ->
  valid_before_end (fq_departure_date q) -> 0 <= fq_adults q /\ 0 <= n ->
  exists fs, search self q = Ok fs /\ 3 <= Z.of_nat (length fs) <= 6 /\ Forall (offered_flight self q) fs
    /\ exists gs, search self (with_adults q n) = Ok gs /\ Forall2 same_itinerary fs gs.
Proof.
  intros Ha Hb Hr Hd Hn.
  destruct (search_together self q n Ha Hb Hr Hd Hn) as (fs & gs & E1 & E2 & Hall & Hlen).
  exists fs. split; [done|]. split; [done|]. split.
  - eapply Forall2_Forall_l; [exact Hall|]. apply Forall_true. by intros g f [].
  - exists gs. split; [done|]. eapply Forall2_impl; [exact Hall|]. by intros ? ? [].
Qed.

End flights.

(** ** Hotels *)
Section hotels.
Import SampleHotelProvider.
Context {G : Type} `{RandomLaws G} `{Sha256}.

Lemma round_rating x : 3 * F64.one <= x <= 5 * F64.one ->
  3 * F64.one <= F64.round_digits x 1 <= 5 * F64.one.
Proof.
  intros [Hl Hu].
  assert (F64.round_digits (3 * F64.one) 1 = 3 * F64.one) as E3 by (vm_compute; reflexivity).
  assert (F64.round_digits (5 * F64.one) 1 = 5 * F64.one) as E5 by (vm_compute; reflexivity).
  rewrite <- E3, <- E5. split; by apply F64.round_digits_mono.
Qed.

Lemma add_nonneg_f64 a b : 0 <= a -> 0 <= b -> 0 <= F64.add a b.
Proof. intros. rewrite <- (F64.rnd_0 1 ltac:(done)). apply F64.rnd_mono; lia. Qed.

(** A price grows with the rating and with the surcharge. *)
Lemma hotel_price_mono self r x r' x' :
  r <= r' -> x <= x' -> list_price self r x <= list_price self r' x'.
Proof.
  intros Hr Hx. apply to_int_mono, F64.add_mono; [|by apply F64.of_int_mono].
  apply F64.add_mono; [reflexivity|]. apply mul_le_f64; [by apply of_int_nonneg|exact Hr].
Qed.

Lemma hotel_price_nonneg self r x : 0 <= _base_price self -> 0 <= r -> 0 <= x -> 0 <= list_price self r x.
Proof.
  intros. unfold list_price, F64.to_int. apply Z.quot_pos; [|apply F64.one_pos].
  apply add_nonneg_f64; [apply add_nonneg_f64|by apply of_int_nonneg].
  - by apply of_int_nonneg.
  - apply mul_nonneg_f64; [by apply of_int_nonneg|assumption].
Qed.

(** What the search promises of an offer. *)
Record offered_hotel (self : provider) (q : HotelSearchQuery) (h : NormalizedHotel) : Prop := {
  oh_valid : valid_hotel h = true;
  oh_place : h_provider h = name self /\ h_city h = hq_city q;
  oh_name : exists a b, a ∈ _NAMES /\ b ∈ _KINDS /\ h_name h = a +:+ " " +:+ b;
  oh_rating : 3 * F64.one <= h_rating h <= 5 * F64.one;
  oh_reviews : 40 <= h_reviews_count h <= 4000;
  oh_amenities : exists l, l ⊆+ _AMENITIES /\ (2 <= length l <= 5)%nat
                   /\ h_amenities h = sorted_strings l /\ NoDup (h_amenities h);
  oh_price : list_price self (3 * F64.one) 0 + (hq_guests q - 1) * 500
             <= amount_minor (h_price_per_night h)
             <= list_price self (5 * F64.one) 5000 + (hq_guests q - 1) * 1500;
}.

Section offer.
Variables (self : provider) (q : HotelSearchQuery).
Hypothesis Hbase : 0 <= _base_price self.
Hypothesis Hguests : 1 <= hq_guests q.

Lemma hotel_offer_together index :
  together (fun h h' => h = h' /\ offered_hotel self q h) (offer self q index) (offer self q index).
Proof.
  unfold offer. pose proof F64.one_pos.
  draw drawn Hdrawn. apply round_rating in Hdrawn. set (rating := F64.round_digits drawn 1) in *.
  draw extra Hextra. draw per_guest Hper. draw count Hcount. draw amenities Ham.
  draw adj Hadj. draw kind Hkind. draw reviews Hrev.
  pose proof (hotel_price_mono self (3 * F64.one) 0 rating extra ltac:(lia) ltac:(lia)).
  pose proof (hotel_price_mono self rating extra (5 * F64.one) 5000 ltac:(lia) ltac:(lia)).
  pose proof (hotel_price_nonneg self (3 * F64.one) 0 Hbase ltac:(lia) ltac:(lia)).
  assert ((hq_guests q - 1) * 500 <= (hq_guests q - 1) * per_guest <= (hq_guests q - 1) * 1500) by nia.
  rewrite usd_money, !lift_ok_bind by lia.
  assert (forall h, h_rating h = rating -> h_reviews_count h = reviews ->
    wf_money (h_price_per_night h) = true -> valid_hotel h = true) as Hvalid.
  { intros h E1 E2 E3. unfold valid_hotel. by rewrite E1, E2, E3, !(proj2 (Z.leb_le _ _)) by lia. }
  rewrite Hvalid by (done || (apply wf_usd; lia)).
  apply together_ret. split; [done|].
  destruct Ham as [Hsub Hlen].
  constructor; simpl; try done; try lia.
  - apply Hvalid; try done. apply wf_usd. lia.
  - by exists adj, kind.
  - exists amenities. split; [done|]. split; [lia|]. split; [done|].
    unfold sorted_strings. rewrite merge_sort_Permutation.
    apply submseteq_Permutation in Hsub as [k Hperm].
    assert (NoDup _AMENITIES) as Hnd by (by apply (bool_decide_unpack _)).
    rewrite Hperm in Hnd. by apply NoDup_app in Hnd as [? _].
Qed.

End offer.

(** Sample hotels: whatever the generator draws, a query for at least one
    guest is answered with four to seven offers; each passes the model's
    validator, is in the city asked for, has a rating between three and five,
    two to five distinct amenities in order, and a nightly price between that
    of the lowest and that of the highest rating, with what the generator may
    add for every further guest. *)
Theorem sample_hotels_spec self q :
  0 <= _base_price self -> 1 <= hq_guests q ->
  exists hs, search self q = Ok hs /\ 4 <= Z.of_nat (length hs) <= 7 /\ Forall (offered_hotel self q) hs.
Proof.
  intros Hb Hg. unfold search. set (g := seeded _).
  assert (together (fun hs hs' => Forall2 (fun h h' => h = h' /\ offered_hotel self q h) hs hs'
      /\ 4 <= Z.of_nat (length hs) <= 7)
    (k ← randint 4 7; offers self q (range k)) (k ← randint 4 7; offers self q (range k))) as Ht.
  { draw k Hk. intros g0.
    destruct (together_loop _ _ _ (offers self q) (offers self q) (range k)
      ltac:(by intros []) ltac:(by intros []) (hotel_offer_together self q Hb Hg) g0)
      as (hs & hs' & g1 & E1 & E2 & Hall & Hlen).
    exists hs, hs', g1. split_and!; try done; rewrite Hlen, length_range; lia. }
  destruct (Ht g) as (hs & hs' & g1 & -> & _ & Hall & Hlen). exists hs. split; [done|].
  split; [done|]. eapply Forall2_Forall_l; [exact Hall|]. apply Forall_true. by intros h' h [].
Qed.

End hotels.

(** ** A generator

    A counter: an instance of the interface to run the searches with. *)
Definition counter_in (a b g : Z) : Z := a + g mod Z.max 1 (b - a + 1).

#[global] Instance counter_random : Random Z := {
  seeded n := n;
  randint a b g := (Ok (counter_in a b g), g + 1);
  choice_index n g := (Ok (Z.to_nat (counter_in 0 (Z.of_nat n - 1) g)), g + 1);
  choices_index ws g := (Ok (Z.to_nat (counter_in 0 (Z.of_nat (length ws) - 1) g)), g + 1);
  uniform a b g := (Ok (counter_in a b g), g + 1);
  sample_indices n k g := (Ok (seq 0 k), g + 1);
}.

Lemma counter_in_range a b g : a <= b -> a <= counter_in a b g <= b.
Proof.
  intros. unfold counter_in. pose proof (Z.mod_pos_bound g (Z.max 1 (b - a + 1)) ltac:(lia)). lia.
Qed.

#[global] Instance counter_laws : RandomLaws Z.
Proof.
  split; intros.
  - eexists _, _. split; [done|]. by apply counter_in_range.
  - eexists _, _. split; [done|].
    pose proof (counter_in_range 0 (Z.of_nat n - 1) g ltac:(lia)). lia.
  - eexists _, _. split; [done|].
    pose proof (counter_in_range 0 (Z.of_nat (length ws) - 1) g ltac:(destruct ws; simpl; [done|lia])).
    destruct ws; simpl in *; [done|lia].
  - eexists _, _. split; [done|]. by apply counter_in_range.
  - eexists _, _. split; [done|]. rewrite length_seq. split; [done|].
    split; [apply NoDup_seq|]. apply Forall_forall. intros i Hi. apply elem_of_seq in Hi. lia.
Qed.

#[local] Instance length_digest : Sha256 := {| sha256 s := len s |}.

Definition sample_airline : SampleFlightProvider.provider :=
  {| SampleFlightProvider.name := "skyline"; SampleFlightProvider._airlines := ["Skyline Air"; "BlueJet"]%string;
     SampleFlightProvider._base_price := 12000 |}.

Definition sample_flight_query : FlightSearchQuery :=
  {| fq_origin := "IST"; fq_destination := "LHR";
     fq_departure_date := {| year := 2026; month := 12; day := 31 |};
     fq_adults := 1; fq_cabin_class := "business" |}.

Definition sample_hotelier : SampleHotelProvider.provider :=
  {| SampleHotelProvider.name := "stayhub"; SampleHotelProvider._base_price := 8000 |}.

Definition sample_hotel_query : HotelSearchQuery :=
  {| hq_city := "Rome"; hq_check_in := {| year := 2026; month := 8; day := 10 |};
     hq_check_out := {| year := 2026; month := 8; day := 12 |}; hq_guests := 2 |}.

Lemma sample_flights_spec_witness :
  exists fs, SampleFlightProvider.search (G:=Z) sample_airline sample_flight_query = Ok fs
    /\ 3 <= Z.of_nat (length fs) <= 6.
Proof.
  destruct (sample_flights_spec (G:=Z) sample_airline sample_flight_query 3)
    as (fs & Hfs & Hlen & _).
  - discriminate.
  - discriminate.
  - vm_compute. by split.
  - split; [by vm_compute|left; by vm_compute].
  - vm_compute. by split.
  - exists fs. exact (conj Hfs Hlen).
Defined.

Lemma sample_hotels_spec_witness :
  exists hs, SampleHotelProvider.search (G:=Z) sample_hotelier sample_hotel_query = Ok hs
    /\ 4 <= Z.of_nat (length hs) <= 7.
Proof.
  destruct (sample_hotels_spec (G:=Z) sample_hotelier sample_hotel_query) as (hs & Hhs & Hlen & _).
  - discriminate.
  - discriminate.
  - exists hs. exact (conj Hhs Hlen).
Defined.

End SampleSpec.
