(* ===== verification/TravelOut.v ===== *)
(** * Responses of the travel endpoints

    [app/schemas/common.py] and the response half of [app/schemas/travel.py],
    with what the handlers of [app/api/v1/] build them from.  Floats as in
    [Float64.v], timestamps in microseconds. *)
From S2P Require Import Prelude PyStr Errors Float64 PyUuid Domain AggCore Aggregation HotelAggregation.
From S2P Require Import Db.
Import Calendar Domain.Domain.

Module TravelOut.

Record MoneyOut : Type := { mo_amount_minor : Z; mo_currency : string }.

Record PageInfo : Type := { pi_next_cursor : option string; pi_has_more : bool }.

Record FlightOfferOut : Type := {
  fo_id : string;
  fo_airline : string;
  fo_origin : string;
  fo_destination : string;
  fo_departure_time : datetime;
  fo_arrival_time : datetime;
  fo_duration_minutes : Z;
  fo_stops : Z;
  fo_cabin_class : string;
  fo_price : MoneyOut;
  fo_provider : string;
  fo_score : Z;
}.

Record SearchMetaOut : Type := {
  sm_degraded : bool;
  sm_providers_ok : Z;
  sm_providers_failed : Z;
  sm_total : Z;
}.

Record FlightSearchResponse : Type := {
  fs_data : list FlightOfferOut;
  fs_page : PageInfo;
  fs_meta : SearchMetaOut;
}.

Record HotelOfferOut : Type := {
  ho_id : string;
  ho_name : string;
  ho_city : string;
  ho_rating : Z;
  ho_reviews_count : Z;
  ho_price_per_night : MoneyOut;
  ho_amenities : list string;
  ho_provider : string;
  ho_score : Z;
}.

Record HotelSearchResponse : Type := {
  hs_data : list HotelOfferOut;
  hs_page : PageInfo;
  hs_meta : SearchMetaOut;
}.

Record WeatherOut : Type := {
  wo_latitude : Z;
  wo_longitude : Z;
  wo_date : string;
  wo_temperature_c : Z;
  wo_precipitation_probability : Z;
  wo_wind_kph : Z;
  wo_humidity : Z;
}.

Record CurrencyOut : Type := {
  co_base : string;
  co_quote : string;
  co_rate : Z;
  co_amount : Z;
  co_converted : Z;
  co_as_of : string;
}.

Record PriceAlertOut : Type := {
  pa_id : Z;
  pa_origin : string;
  pa_destination : string;
  pa_departure_date : string;
  pa_target_amount_minor : Z;
  pa_currency : string;
  pa_channel : Db.AlertChannel;
  pa_is_active : bool;
  pa_created_at : Z;
}.

(** ** Building them *)

Definition money_out (m : Money) : MoneyOut :=
  {| mo_amount_minor := amount_minor m; mo_currency := currency m |}.

Definition meta_out (m : SearchMeta) : SearchMetaOut :=
  {| sm_degraded := degraded m; sm_providers_ok := providers_ok m;
     sm_providers_failed := providers_failed m; sm_total := total m |}.

Definition flight_offer_out (item : Aggregation.RankedFlight) : FlightOfferOut :=
  let f := Aggregation.flight item in
  {| fo_id := f_id f; fo_airline := f_airline f; fo_origin := f_origin f;
     fo_destination := f_destination f; fo_departure_time := f_departure_time f;
     fo_arrival_time := f_arrival_time f; fo_duration_minutes := f_duration_minutes f;
     fo_stops := f_stops f; fo_cabin_class := f_cabin_class f; fo_price := money_out (f_price f);
     fo_provider := f_provider f; fo_score := Aggregation.score item |}.

Definition flight_response (result : Aggregation.AggregationResult) : FlightSearchResponse :=
  {| fs_data := flight_offer_out <$> Aggregation.items result;
     fs_page := {| pi_next_cursor := Aggregation.next_cursor result;
                   pi_has_more := Aggregation.has_more result |};
     fs_meta := meta_out (Aggregation.meta result) |}.

Definition hotel_offer_out (item : HotelAggregation.RankedHotel) : HotelOfferOut :=
  let h := HotelAggregation.hotel item in
  {| ho_id := h_id h; ho_name := h_name h; ho_city := h_city h; ho_rating := h_rating h;
     ho_reviews_count := h_reviews_count h; ho_price_per_night := money_out (h_price_per_night h);
     ho_amenities := h_amenities h; ho_provider := h_provider h;
     ho_score := HotelAggregation.score item |}.

Definition hotel_response (result : HotelAggregation.HotelResult) : HotelSearchResponse :=
  {| hs_data := hotel_offer_out <$> HotelAggregation.items result;
     hs_page := {| pi_next_cursor := HotelAggregation.next_cursor result;
                   pi_has_more := HotelAggregation.has_more result |};
     hs_meta := meta_out (HotelAggregation.meta result) |}.

(** [WeatherOut] of [forecast.model_dump()]. *)
Definition weather_out (w : WeatherForecast) : WeatherOut :=
  {| wo_latitude := w_latitude w; wo_longitude := w_longitude w; wo_date := w_date w;
     wo_temperature_c := w_temperature_c w;
     wo_precipitation_probability := w_precipitation_probability w;
     wo_wind_kph := w_wind_kph w; wo_humidity := w_humidity w |}.

(** [CurrencyOut] of [conversion.model_dump()]. *)
Definition currency_out (c : CurrencyConversion) : CurrencyOut :=
  {| co_base := c_base c; co_quote := c_quote c; co_rate := c_rate c; co_amount := c_amount c;
     co_converted := c_converted c; co_as_of := c_as_of c |}.

Definition alert_out (a : Db.PriceAlert) : PriceAlertOut :=
  {| pa_id := Db.a_id a; pa_origin := Db.a_origin a; pa_destination := Db.a_destination a;
     pa_departure_date := Db.a_departure_date a;
     pa_target_amount_minor := Db.a_target_amount_minor a; pa_currency := Db.a_currency a;
     pa_channel := Db.a_channel a; pa_is_active := Db.a_is_active a;
     pa_created_at := Db.a_created_at a |}.

End TravelOut.
