(* ===== verification/Auth.v ===== *)
(** * Authentication

    [app/services/auth_service.py].  A use case runs in a [world]: the tables
    of the transaction, the cache behind the blocklist, the notifier, the
    source of randomness and the two clocks.  Cache, notifier, token library
    and hasher are the interfaces of the other files. *)
From S2P Require Import Prelude PyStr PyDict Float64 Errors PyUuid Cache Config Security TokenBlocklist.
From S2P Require Import Notifications Db.
Import PyStr.

Module Auth.

Record world (C N R : Type) : Type := {
  w_db : Db.db;
  w_cache : C;
  w_notifier : N;
  w_rand : R;
  w_wall : Z;
  w_mono : Z;
}.
Arguments w_db {C N R} _.
Arguments w_cache {C N R} _.
Arguments w_notifier {C N R} _.
Arguments w_rand {C N R} _.
Arguments w_wall {C N R} _.
Arguments w_mono {C N R} _.

Section world.
Context {C N R : Type}.

Definition set_db (d : Db.db) (w : world C N R) : world C N R :=
  {| w_db := d; w_cache := w_cache w; w_notifier := w_notifier w; w_rand := w_rand w;
     w_wall := w_wall w; w_mono := w_mono w |}.
Definition set_cache (c : C) (w : world C N R) : world C N R :=
  {| w_db := w_db w; w_cache := c; w_notifier := w_notifier w; w_rand := w_rand w;
     w_wall := w_wall w; w_mono := w_mono w |}.
Definition set_notifier (n : N) (w : world C N R) : world C N R :=
  {| w_db := w_db w; w_cache := w_cache w; w_notifier := n; w_rand := w_rand w;
     w_wall := w_wall w; w_mono := w_mono w |}.
Definition set_rand (r : R) (w : world C N R) : world C N R :=
  {| w_db := w_db w; w_cache := w_cache w; w_notifier := w_notifier w; w_rand := r;
     w_wall := w_wall w; w_mono := w_mono w |}.

Definition on_db {A} (m : M exn Db.db A) : M exn (world C N R) A := zoom w_db set_db m.
Definition on_rand {A} (m : M exn R A) : M exn (world C N R) A := zoom w_rand set_rand m.
Definition on_cache {A} (m : Z -> M exn C A) : M exn (world C N R) A :=
  fun w => zoom w_cache set_cache (m (w_mono w)) w.
Definition on_notifier {A} (m : M exn N A) : M exn (world C N R) A := zoom w_notifier set_notifier m.

End world.

Record TokenPair : Type := {
  access_token : string;
  refresh_token : string;
  token_type : string;
}.

Section service.
Context {C N R : Type} `{Cache C} `{Notifier N} `{Entropy R} `{Jwt}.
Variable _settings : Config.Settings.
(** The hash of a random value, computed when the module is loaded. *)
Variable _DUMMY_HASH : string.

Abbreviation W := (world C N R).

Definition draw_uuid : M exn R Z := fun r => let '(u, r') := uuid4 r in (Ok u, r').

(** [_decode]: a [TokenError] becomes a 401 with its message. *)
Definition _decode (token : string) (expected : Security.TokenType)
  : M exn W (list (string * json)) :=
  fun w =>
    match Security.decode_token token expected _settings (w_wall w) with
    | Err (TokenError message) => (Err (app_err AuthenticationError message), w)
    | r => (r, w)
    end.

(** [uuid.UUID(payload["sub"])]. *)
Definition subject_of (payload : list (string * json)) : res exn Z :=
  match PyDict.get payload "sub"%string with
  | Some (JStr s) =>
      match PyUuid.parse_uuid s with
      | Some u => Ok u
      | None => Err (PyError "ValueError" "badly formed hexadecimal UUID string")
      end
  | Some JNull => Err (PyError "TypeError" "one of the hex, bytes, bytes_le, fields, or int arguments must be given")
  | Some _ => Err (PyError "AttributeError" "replace")
  | None => Err (PyError "KeyError" "sub")
  end.

Definition create_token (user_id : Z) (t : Security.TokenType) : M exn W string :=
  fun w =>
    on_rand
      (match t with
       | Security.access => Security.create_access_token (PyUuid.str_of_uuid user_id) _settings (w_wall w)
       | Security.refresh => Security.create_refresh_token (PyUuid.str_of_uuid user_id) _settings (w_wall w)
       | Security.verify => Security.create_verify_token (PyUuid.str_of_uuid user_id) _settings (w_wall w)
       | Security.reset => Security.create_reset_token (PyUuid.str_of_uuid user_id) _settings (w_wall w)
       end) w.

(** ** Registration and verification *)

Definition verification_subject : string := "Verify your Smart Travel account".
Definition verification_body (token : string) : string :=
  "Welcome! Confirm your email to activate your account. Verification token: " +:+ token.

Definition _send_verification (user : Db.User) : M exn W unit :=
  token ← create_token (Db.u_id user) Security.verify;
  on_notifier (notify (Db.email user) verification_subject (verification_body token)).

Definition register (email password : string) (full_name : option string) : M exn W Db.User :=
  taken ← on_db (Db.UserRepository.exists_by_email email);
  if (taken : bool) then raise (app_err ConflictError "an account with this email already exists")
  else
    hashed ← on_rand (Security.hash_password password);
    id ← on_rand draw_uuid;
    user ← (fun w : W => on_db (Db.UserRepository.create id (w_wall w) email hashed full_name Db.USER) w);
    _ ← _send_verification user;
    mret user.

Definition resend_verification (email : string) : M exn W unit :=
  user ← on_db (Db.UserRepository.get_by_email email);
  match user with
  | Some u => if Db.is_verified u then mret tt else _send_verification u
  | None => mret tt
  end.

Definition verify_email (token : string) : M exn W unit :=
  payload ← _decode token Security.verify;
  id ← lift_res (subject_of payload);
  user ← on_db (Db.UserRepository.get_by_id id);
  match user with
  | None => raise (app_err AuthenticationError "the account no longer exists")
  | Some u =>
      if Db.is_verified u then mret tt
      else (_ ← on_db (Db.UserRepository.mark_verified u); mret tt)
  end.

(** ** Login and refresh *)

Definition authenticate (email password : string) : M exn W Db.User :=
  user ← on_db (Db.UserRepository.get_by_email email);
  let stored := match user with Some u => Db.hashed_password u | None => _DUMMY_HASH end in
  password_ok ← lift_res (Security.verify_password password stored);
  match user, (password_ok : bool) with
  | Some u, true =>
      if negb (Db.is_active u) then raise (app_err AuthenticationError "this account is disabled")
      else if Security.needs_rehash (Db.hashed_password u) then
        hashed ← on_rand (Security.hash_password password);
        on_db (Db.UserRepository.update_password u hashed)
      else mret u
  | _, _ => raise (app_err AuthenticationError "incorrect email or password")
  end.

Definition issue_tokens (user_id : Z) : M exn W TokenPair :=
  a ← create_token user_id Security.access;
  r ← create_token user_id Security.refresh;
  mret {| access_token := a; refresh_token := r; token_type := "bearer" |}.

(** The account a payload is for, if it may still act. *)
Definition active_user (payload : list (string * json)) (otherwise : exn) : M exn W Db.User :=
  id ← lift_res (subject_of payload);
  user ← on_db (Db.UserRepository.get_by_id id);
  match user with
  | Some u => if Db.is_active u then mret u else raise otherwise
  | None => raise otherwise
  end.

Definition is_revoked (payload : list (string * json)) : M exn W bool :=
  on_cache (fun mono => TokenBlocklist.is_revoked mono payload).

Definition refresh (token : string) : M exn W TokenPair :=
  payload ← _decode token Security.refresh;
  revoked ← is_revoked payload;
  if (revoked : bool) then raise (app_err AuthenticationError "this session has been revoked")
  else
    user ← active_user payload (app_err AuthenticationError "the account is no longer valid");
    issue_tokens (Db.u_id user).

(** ** Password reset *)

Definition reset_subject : string := "Reset your Smart Travel password".
Definition reset_body (token : string) : string :=
  "Use this token to set a new password: " +:+ token.

Definition request_password_reset (email : string) : M exn W unit :=
  user ← on_db (Db.UserRepository.get_by_email email);
  match user with
  | Some u =>
      if Db.is_active u then
        token ← create_token (Db.u_id u) Security.reset;
        on_notifier (notify (Db.email u) reset_subject (reset_body token))
      else mret tt
  | None => mret tt
  end.

Definition reset_password (token new_password : string) : M exn W unit :=
  payload ← _decode token Security.reset;
  user ← active_user payload (app_err AuthenticationError "the account is no longer valid");
  hashed ← on_rand (Security.hash_password new_password);
  _ ← on_db (Db.UserRepository.update_password user hashed);
  mret tt.

(** ** Logout *)

Definition revoke (payload : list (string * json)) : M exn W unit :=
  fun w => on_cache (fun mono => TokenBlocklist.revoke (w_wall w) mono payload) w.

(** The refresh token of a logout, ignored when it does not decode. *)
Definition revoke_refresh (t : string) : M exn W unit :=
  fun w =>
    match Security.decode_token t Security.refresh _settings (w_wall w) with
    | Err (TokenError _) => (Ok tt, w)
    | Err e => (Err e, w)
    | Ok refresh_payload => revoke refresh_payload w
    end.

Definition logout (access_payload : list (string * json)) (refresh_token : option string)
  : M exn W unit :=
  _ ← revoke access_payload;
  match refresh_token with
  | Some t => if bool_decide (t = ""%string) then mret tt else revoke_refresh t
  | None => mret tt
  end.

End service.

End Auth.
