(* ===== verification/AuthSpec.v ===== *)
(** * Properties of authentication

    What the use cases of [Auth.v] guarantee, for any cache, notifier, token
    library and hasher that keep their interfaces. *)
From S2P Require Import Prelude Triple PyStr PyDict Float64 Errors PyUuid Cache Config Security TokenBlocklist.
From S2P Require Import Notifications Db Auth.
Import PyStr Auth.

Module AuthSpec.

(** Run the monadic plumbing. *)
Ltac run :=
  unfold on_db, on_rand, on_cache, on_notifier, zoom, lift_res, raise, mbind, m_bind, mret, m_ret;
  simpl.

Section spec.
Context {C N R : Type} `{CacheLaws C} `{NotifierLaws N} `{EntropyLaws R} `{JwtLaws}.
(** Used by the lemmas that need a message to arrive, and by no other. *)
Context `{!ReliableNotifier N}.
Variable settings : Config.Settings.
Variable dummy : string.

Abbreviation W := (world C N R).
Implicit Types (w : W).

Lemma set_db_same w : set_db (w_db w) w = w.
Proof. by destruct w. Qed.

Lemma set_cache_same w : set_cache (w_cache w) w = w.
Proof. by destruct w. Qed.

(** ** Tokens *)

(** The token of type [t] that [w] issues for an account. *)
Definition issued (id : Z) (t : Security.TokenType) (w : W) : string :=
  jwt_encode (Security.claims (PyUuid.str_of_uuid id) t settings (w_wall w) (w_rand w))
    (Config.secret_key settings) (Config.jwt_algorithm settings).

Definition payload_of (id : Z) (t : Security.TokenType) (w : W) : list (string * json) :=
  Security.claims (PyUuid.str_of_uuid id) t settings (w_wall w) (w_rand w).

(** When it expires, in microseconds. *)
Definition expiry (t : Security.TokenType) (w : W) : Z :=
  (w_wall w / 1000000 + Security.ttl_of t settings) * 1000000.

Definition after_draw (w : W) : W := set_rand (uuid4 (w_rand w)).2 w.

Lemma create_token_issued id t w :
  Security.sane (w_wall w) settings ->
  create_token settings id t w = (Ok (issued id t w), after_draw w).
Proof.
  intros Hs. unfold create_token, on_rand, zoom.
  pose proof (Security.create_token_eq (PyUuid.str_of_uuid id) t settings (w_wall w) (w_rand w) Hs) as He.
  destruct t; simpl in He;
    unfold Security.create_access_token, Security.create_refresh_token,
      Security.create_verify_token, Security.create_reset_token; by rewrite He.
Qed.

Lemma decode_issued id t w w' expected :
  w_wall w <= w_wall w' ->
  _decode settings (issued id t w) expected w' =
    (if w_wall w' <? expiry t w then
       if bool_decide (t = expected) then Ok (payload_of id t w)
       else Err (app_err AuthenticationError ("expected a " +:+ Security.type_name expected +:+ " token"))
     else Err (app_err AuthenticationError "token has expired"), w').
Proof.
  intros Hle. unfold _decode, issued. rewrite Security.decode_created by done.
  change (Security.claims _ _ _ _ _) with (payload_of id t w). unfold expiry.
  destruct (_ <? _); [|done]. by case_bool_decide.
Qed.

Lemma subject_of_issued id t w : 0 <= id < 2 ^ 128 -> subject_of (payload_of id t w) = Ok id.
Proof.
  intros Hid. unfold subject_of.
  change (PyDict.get (payload_of id t w) "sub"%string) with (Some (JStr (PyUuid.str_of_uuid id))).
  cbv beta iota. rewrite PyUuid.parse_str_of_uuid by exact Hid. reflexivity.
Qed.

Lemma jti_issued id t w :
  TokenBlocklist.jti_of (payload_of id t w) = Some (PyUuid.hex (uuid4 (w_rand w)).1).
Proof.
  unfold TokenBlocklist.jti_of.
  change (PyDict.get (payload_of id t w) "jti"%string)
    with (Some (JStr (PyUuid.hex (uuid4 (w_rand w)).1))). cbv iota.
  rewrite bool_decide_eq_false_2; [done|]. apply PyUuid.hex_nonempty, uuid4_law.
Qed.

(** ** Sending *)

Lemma send_spec to subject body w :
  exists n, on_notifier (notify to subject body) w = (Ok tt, set_notifier n w)
    /\ sent n = sent (w_notifier w) ++ [(to, subject, body)].
Proof.
  destruct (notify_delivers to subject body (w_notifier w)) as (n & Hn & Hs).
  exists n. split; [|done]. unfold on_notifier, zoom. by rewrite Hn.
Qed.

Lemma send_verification_spec u w :
  Security.sane (w_wall w) settings ->
  exists n, _send_verification settings u w
      = (Ok tt, set_notifier n (after_draw w))
    /\ sent n = sent (w_notifier w)
         ++ [(Db.email u, verification_subject,
              verification_body (issued (Db.u_id u) Security.verify w))].
Proof.
  intros Hs. unfold _send_verification. rewrite (m_bind_Ok _ _ _ _ _ (create_token_issued _ _ _ Hs)).
  destruct (send_spec (Db.email u) verification_subject
    (verification_body (issued (Db.u_id u) Security.verify w)) (after_draw w)) as (n & -> & Hn).
  by exists n.
Qed.

Lemma get_by_email_run e w :
  Db.ok (w_db w) ->
  exists r, on_db (Db.UserRepository.get_by_email e) w = (Ok r, w)
    /\ match r with
       | Some u => Db.users (w_db w) !! Db.u_id u = Some u /\ Db.email u = lower e
       | None => forall id u, Db.users (w_db w) !! id = Some u -> Db.email u <> lower e
       end.
Proof.
  intros Hok. destruct (Db.get_by_email_spec (w_db w) e Hok) as (r & Hr & Hs).
  exists r. split; [|done]. unfold on_db, zoom. by rewrite Hr, set_db_same.
Qed.

Lemma get_by_email_run_found e u w :
  Db.ok (w_db w) -> Db.users (w_db w) !! Db.u_id u = Some u -> Db.email u = lower e ->
  on_db (Db.UserRepository.get_by_email e) w = (Ok (Some u), w).
Proof.
  intros Hok Hu He. unfold on_db, zoom.
  rewrite <- Db.get_by_email_lower, <- He, Db.get_by_email_found by done. by rewrite set_db_same.
Qed.

Lemma get_by_id_run id w :
  on_db (Db.UserRepository.get_by_id id) w = (Ok (Db.users (w_db w) !! id), w).
Proof. unfold on_db, zoom. simpl. by rewrite set_db_same. Qed.

(** ** Revocation *)

Lemma is_revoked_run payload w :
  exists b c', is_revoked payload w = (Ok b, set_cache c' w)
    /\ (forall t k, w_mono w <= t -> cache_view c' t k = cache_view (w_cache w) t k)
    /\ (TokenBlocklist.is_revoked (w_mono w) payload (w_cache w)).1 = Ok b.
Proof.
  destruct (TokenBlocklist.is_revoked_total (w_mono w) payload (w_cache w)) as (b & c' & Hr & Hv).
  exists b, c'. unfold is_revoked, on_cache, zoom. by rewrite Hr.
Qed.

Lemma active_user_run id t w w' e :
  0 <= id < 2 ^ 128 ->
  active_user (payload_of id t w) e w' =
    (match Db.users (w_db w') !! id with
     | Some u => if Db.is_active u then Ok u else Err e
     | None => Err e
     end, w').
Proof.
  intros Hid. unfold active_user. run. rewrite subject_of_issued by exact Hid. simpl.
  rewrite set_db_same. destruct (_ !! id) as [u|]; [|done]. by destruct (Db.is_active u).
Qed.

Lemma issue_tokens_run id w :
  Security.sane (w_wall w) settings ->
  issue_tokens settings id w =
    (Ok {| access_token := issued id Security.access w;
           refresh_token := issued id Security.refresh (after_draw w);
           token_type := "bearer" |}, after_draw (after_draw w)).
Proof.
  intros Hs. unfold issue_tokens.
  rewrite (m_bind_Ok _ _ _ _ _ (create_token_issued id Security.access w Hs)).
  by rewrite (m_bind_Ok _ _ _ _ _ (create_token_issued id Security.refresh (after_draw w) Hs)).
Qed.

(** ** Passwords *)

Lemma hash_run {A} pw (k : string -> M exn W A) w :
  (on_rand (Security.hash_password pw) ≫= k) w
  = k (argon2_hash pw (w_rand w)).1 (set_rand (argon2_hash pw (w_rand w)).2 w).
Proof. unfold Security.hash_password. run. by destruct (argon2_hash pw (w_rand w)). Qed.

Lemma uuid_run {A} (k : Z -> M exn W A) w :
  (on_rand draw_uuid ≫= k) w = k (uuid4 (w_rand w)).1 (set_rand (uuid4 (w_rand w)).2 w).
Proof. unfold draw_uuid. run. by destruct (uuid4 (w_rand w)). Qed.

Lemma verify_hash pw r p :
  Security.verify_password p (argon2_hash pw r).1 = Ok (bool_decide (pw = p)).
Proof. unfold Security.verify_password. rewrite argon2_verify_law. by case_bool_decide. Qed.

(** ** Registration *)

Definition taken (e : string) (w : W) : Prop :=
  exists id u, Db.users (w_db w) !! id = Some u /\ Db.email u = lower e.

(** The account [register] makes. *)
Definition new_user (e pw : string) (name : option string) (w : W) : Db.User :=
  let (h, r) := argon2_hash pw (w_rand w) in
  {| Db.u_id := (uuid4 r).1; Db.email := lower e; Db.hashed_password := h; Db.full_name := name;
     Db.role := Db.USER; Db.is_active := true; Db.is_verified := false;
     Db.u_created_at := w_wall w |}.

(** The world in which its verification token is issued. *)
Definition registered (e pw : string) (name : option string) (w : W) : W :=
  let u := new_user e pw name w in
  set_db (Db.set_users (<[Db.u_id u := u]> (Db.users (w_db w))) (w_db w))
    (set_rand (uuid4 (argon2_hash pw (w_rand w)).2).2 w).

Lemma exists_run e w :
  (on_db (Db.UserRepository.exists_by_email e) w = (Ok true, w) /\ taken e w)
  \/ (on_db (Db.UserRepository.exists_by_email e) w = (Ok false, w) /\ ~ taken e w).
Proof.
  unfold on_db, zoom, taken.
  destruct (Db.exists_by_email_spec (w_db w) e) as [[-> Ht]|[-> Hn]]; rewrite set_db_same.
  - by left.
  - right. split; [done|]. intros (id & u & Hu & He). by apply (Hn id u Hu).
Qed.

Lemma register_taken e pw name w :
  taken e w ->
  register settings e pw name w
  = (Err (app_err ConflictError "an account with this email already exists"), w).
Proof.
  intros Ht. unfold register. destruct (exists_run e w) as [[Hex _]|[_ Hn]]; [|done].
  by m_run Hex.
Qed.

Lemma register_new e pw name w :
  Security.sane (w_wall w) settings ->
  ~ taken e w -> Db.users (w_db w) !! Db.u_id (new_user e pw name w) = None ->
  exists n,
    register settings e pw name w
    = (Ok (new_user e pw name w), set_notifier n (after_draw (registered e pw name w)))
    /\ sent n = sent (w_notifier w)
         ++ [(lower e, verification_subject,
              verification_body
                (issued (Db.u_id (new_user e pw name w)) Security.verify (registered e pw name w)))].
Proof.
  intros Hs Ht Hid. unfold register.
  destruct (exists_run e w) as [[_ ?]|[Hex _]]; [done|].
  rewrite (m_bind_Ok _ _ _ _ _ Hex), hash_run, uuid_run.
  unfold registered, new_user in *. destruct (argon2_hash pw (w_rand w)) as [h r]. simpl in *.
  set (u := {| Db.u_id := _ |}) in *.
  assert (forall i v, Db.users (w_db w) !! i = Some v -> Db.email v <> Db.email u) as Hne.
  { intros i v Hv He. apply Ht. by exists i, v. }
  destruct (Db.add_user_spec (w_db w) u) as [(Hadd & _)|(_ & Hbad)].
  2: { exfalso. destruct Hbad as [[v Hv]|(i & v & Hv & He)]; [unfold u in Hv; simpl in Hv; congruence|].
       by destruct (Hne i v Hv). }
  set (w1 := set_db (Db.set_users (<[(uuid4 r).1:=u]> (Db.users (w_db w))) (w_db w))
               (set_rand (uuid4 r).2 (set_rand r w))).
  assert (forall k : Db.User -> M exn W Db.User,
    ((fun w2 : W => on_db (Db.UserRepository.create (uuid4 r).1 (w_wall w2) e h name Db.USER) w2)
       ≫= k) (set_rand (uuid4 r).2 (set_rand r w)) = k u w1) as Hcreate.
  { intros k. unfold Db.UserRepository.create. run.
    change {| Db.u_id := (uuid4 r).1; Db.email := lower e; Db.hashed_password := h;
              Db.full_name := name; Db.role := Db.USER; Db.is_active := true;
              Db.is_verified := false; Db.u_created_at := w_wall w |} with u.
    by rewrite Hadd. }
  rewrite Hcreate.
  destruct (send_verification_spec u w1 Hs) as (n & Hsend & Hn).
  exists n. m_run Hsend. split; [done|exact Hn].
Qed.

(** ** Verifying an email *)

(** A verification token verifies the account it was issued for, in any state
    of that account, as long as it has not expired. *)
Lemma verify_email_issued id w w' u :
  0 <= id < 2 ^ 128 -> w_wall w <= w_wall w' < expiry Security.verify w ->
  Db.users (w_db w') !! id = Some u -> Db.u_id u = id ->
  exists u',
    verify_email settings (issued id Security.verify w) w'
    = (Ok tt, set_db (Db.set_users (<[id := u']> (Db.users (w_db w'))) (w_db w')) w')
    /\ Db.is_verified u' = true /\ Db.u_id u' = id /\ Db.email u' = Db.email u
    /\ Db.hashed_password u' = Db.hashed_password u /\ Db.role u' = Db.role u
    /\ Db.is_active u' = Db.is_active u.
Proof.
  intros Hid [Hle Hlt] Hu Hk. unfold verify_email.
  assert (_decode settings (issued id Security.verify w) Security.verify w'
          = (Ok (payload_of id Security.verify w), w')) as Hd.
  { rewrite decode_issued by done. destruct (Z.ltb_spec (w_wall w') (expiry Security.verify w)); [|lia].
    by rewrite bool_decide_eq_true_2. }
  m_run Hd.
  assert (lift_res (subject_of (payload_of id Security.verify w)) w' = (Ok id, w')) as Hsub
    by (unfold lift_res; rewrite subject_of_issued by exact Hid; reflexivity).
  rewrite (m_bind_Ok _ _ _ _ _ Hsub), (m_bind_Ok _ _ _ _ _ (get_by_id_run id w')), Hu.
  destruct (Db.is_verified u) eqn:Hv.
  - exists u. split_and!; try done. unfold mret, m_ret. rewrite insert_id by done.
    destruct w' as [[] ? ? ? ? ?]. reflexivity.
  - eexists. unfold Db.UserRepository.mark_verified, Db.UserRepository.update_user. run.
    rewrite Hk. split_and!; done.
Qed.

(** C29. Registration: an address that is taken, in any letter case, is refused
    and nothing changes; otherwise, with a notifier that delivers, the account is
    created under the address in lower case, active and unverified, with role USER and a hash that verifies
    exactly the given password, one message is sent to it, and the token in
    that message verifies that account until it expires. *)
Theorem register_spec e pw name w :
  Db.ok (w_db w) -> Security.sane (w_wall w) settings ->
  (taken e w ->
     register settings e pw name w
     = (Err (app_err ConflictError "an account with this email already exists"), w))
  /\ (~ taken e w -> Db.users (w_db w) !! Db.u_id (new_user e pw name w) = None ->
      let u := new_user e pw name w in
      let token := issued (Db.u_id u) Security.verify (registered e pw name w) in
      exists w',
        register settings e pw name w = (Ok u, w')
        /\ Db.email u = lower e /\ Db.role u = Db.USER
        /\ Db.is_active u = true /\ Db.is_verified u = false
        /\ (forall p, Security.verify_password p (Db.hashed_password u) = Ok (bool_decide (pw = p)))
        /\ w_db w' = Db.set_users (<[Db.u_id u := u]> (Db.users (w_db w))) (w_db w)
        /\ w_cache w' = w_cache w
        /\ sent (w_notifier w')
           = sent (w_notifier w) ++ [(lower e, verification_subject, verification_body token)]
        /\ (forall w2, w_db w2 = w_db w' -> w_wall w <= w_wall w2 < expiry Security.verify w ->
            exists u' w3, verify_email settings token w2 = (Ok tt, w3)
              /\ Db.users (w_db w3) !! Db.u_id u = Some u' /\ Db.is_verified u' = true)).
Proof.
  intros Hok Hs. split; [apply register_taken|]. intros Ht Hid. cbv zeta.
  destruct (register_new e pw name w Hs Ht Hid) as (n & Hr & Hn). eexists. split; [exact Hr|].
  assert (0 <= Db.u_id (new_user e pw name w) < 2 ^ 128) as Hrange.
  { unfold new_user. destruct (argon2_hash pw (w_rand w)). apply uuid4_law. }
  assert (forall p, Security.verify_password p (Db.hashed_password (new_user e pw name w))
                    = Ok (bool_decide (pw = p))) as Hpw.
  { intros p. unfold new_user. rewrite <- (verify_hash pw (w_rand w) p).
    by destruct (argon2_hash pw (w_rand w)). }
  assert (Db.email (new_user e pw name w) = lower e /\ Db.role (new_user e pw name w) = Db.USER
    /\ Db.is_active (new_user e pw name w) = true /\ Db.is_verified (new_user e pw name w) = false)
    as (He & Hro & Ha & Hve) by (unfold new_user; by destruct (argon2_hash pw (w_rand w))).
  split_and!; [done..|]. intros w2 Hw2 Ht2.
  destruct (verify_email_issued (Db.u_id (new_user e pw name w)) (registered e pw name w) w2
    (new_user e pw name w) Hrange Ht2) as (u' & Hve' & Hv' & _).
  - rewrite Hw2. simpl. apply lookup_insert_eq.
  - done.
  - exists u'. eexists. split; [exact Hve'|]. split; [|done]. simpl. apply lookup_insert_eq.
Qed.

(** ** Logging in *)

(** C30. Login: an unknown address and a wrong password give one and the same
    error and change nothing; a disabled account is told so only with the
    right password; otherwise the account is returned, unchanged unless its
    hash is out of date, in which case the new hash verifies the password. *)
Theorem authenticate_spec e pw w :
  Db.ok (w_db w) -> (exists b, Security.verify_password pw dummy = Ok b) ->
  (~ taken e w ->
     authenticate dummy e pw w
     = (Err (app_err AuthenticationError "incorrect email or password"), w))
  /\ (forall u, Db.users (w_db w) !! Db.u_id u = Some u -> Db.email u = lower e ->
      (Security.verify_password pw (Db.hashed_password u) = Ok false ->
         authenticate dummy e pw w
         = (Err (app_err AuthenticationError "incorrect email or password"), w))
      /\ (Security.verify_password pw (Db.hashed_password u) = Ok true ->
          if Db.is_active u then
            if Security.needs_rehash (Db.hashed_password u) then
              exists u' w', authenticate dummy e pw w = (Ok u', w')
                /\ Security.verify_password pw (Db.hashed_password u') = Ok true
                /\ Db.u_id u' = Db.u_id u /\ Db.email u' = Db.email u /\ Db.role u' = Db.role u
                /\ w_db w' = Db.set_users (<[Db.u_id u := u']> (Db.users (w_db w))) (w_db w)
            else authenticate dummy e pw w = (Ok u, w)
          else authenticate dummy e pw w
               = (Err (app_err AuthenticationError "this account is disabled"), w))).
Proof.
  intros Hok [b Hb]. split.
  - intros Ht. unfold authenticate. destruct (get_by_email_run e w Hok) as (r & Hr & Hs).
    m_run Hr. destruct r as [u|].
    { destruct Ht. exists (Db.u_id u), u. exact Hs. }
    cbv zeta. rewrite Hb. by destruct b.
  - intros u Hu He. pose proof (get_by_email_run_found e u w Hok Hu He) as Hr.
    unfold authenticate. split; intros Hv; m_run Hr; cbv zeta; rewrite Hv.
    + done.
    + unfold lift_res, mbind at 1 3, m_bind at 1 3. destruct (Db.is_active u); [simpl|done].
      destruct (Security.needs_rehash (Db.hashed_password u)); [|done].
      rewrite hash_run. unfold Db.UserRepository.update_password, Db.UserRepository.update_user. run.
      eexists _, _. split; [reflexivity|]. simpl. split_and!; try done.
      rewrite verify_hash. by rewrite bool_decide_eq_true_2.
Qed.

(** ** Sessions *)

Lemma refresh_run id w w' :
  0 <= id < 2 ^ 128 -> w_wall w <= w_wall w' -> Security.sane (w_wall w') settings ->
  exists b c',
    (TokenBlocklist.is_revoked (w_mono w') (payload_of id Security.refresh w) (w_cache w')).1 = Ok b
    /\ (forall t k, w_mono w' <= t -> cache_view c' t k = cache_view (w_cache w') t k)
    /\ refresh settings (issued id Security.refresh w) w' =
         if w_wall w' <? expiry Security.refresh w then
           if (b : bool) then (Err (app_err AuthenticationError "this session has been revoked"),
                               set_cache c' w')
           else if from_option Db.is_active false (Db.users (w_db w') !! id) then
             issue_tokens settings
               (from_option Db.u_id 0 (Db.users (w_db w') !! id)) (set_cache c' w')
           else (Err (app_err AuthenticationError "the account is no longer valid"), set_cache c' w')
         else (Err (app_err AuthenticationError "token has expired"), w').
Proof.
  intros Hid Hle Hs. destruct (is_revoked_run (payload_of id Security.refresh w) w') as (b & c' & Hr & Hv & Hb).
  exists b, c'. split; [done|]. split; [done|]. unfold refresh.
  pose proof (decode_issued id Security.refresh w w' Security.refresh Hle) as Hd.
  destruct (w_wall w' <? expiry Security.refresh w).
  2: { by m_run Hd. }
  rewrite bool_decide_eq_true_2 in Hd by done.
  rewrite (m_bind_Ok _ _ _ _ _ Hd), (m_bind_Ok _ _ _ _ _ Hr). destruct b; [done|].
  pose proof (active_user_run id Security.refresh w (set_cache c' w')
    (app_err AuthenticationError "the account is no longer valid") Hid) as Ha.
  simpl in Ha. destruct (Db.users (w_db w') !! id) as [u|]; simpl.
  - destruct (Db.is_active u).
    + by m_run Ha.
    + by m_run Ha.
  - by m_run Ha.
Qed.

(** The seconds a token issued in [w] has left in [w']. *)
Definition left_on (t : Security.TokenType) (w w' : W) : Z :=
  w_wall w / 1000000 + Security.ttl_of t settings - w_wall w' / 1000000.

Lemma revoke_run id t w w' :
  Security.sane (w_wall w') settings -> 0 < left_on t w w' ->
  exists c', revoke (payload_of id t w) w' = (Ok tt, set_cache c' w')
    /\ forall u k, w_mono w' <= u ->
         cache_view c' u k =
           if decide (TokenBlocklist.key_of (PyUuid.hex (uuid4 (w_rand w)).1) = k)
           then (if u <? cache_deadline (w_mono w') (left_on t w w') then Some "1"%string else None)
           else cache_view (w_cache w') u k.
Proof.
  intros [Hn Ht] Hl. unfold left_on in Hl. specialize (Ht t).
  destruct (TokenBlocklist.revoke_spec (w_wall w') (w_mono w') (payload_of id t w) _
    (w_wall w / 1000000 + Security.ttl_of t settings) (w_cache w') (jti_issued id t w) eq_refl) as (c' & Hr & Hv).
  { rewrite Security.int_timestamp_floor by lia. lia. }
  exists c'. unfold revoke, on_cache, zoom. rewrite Hr. split; [done|]. intros u k Hu.
  rewrite Hv by done. by rewrite Security.int_timestamp_floor by lia.
Qed.

(** A logout with the refresh token revokes both. *)
Lemma logout_pair id w w2 c1 c2 :
  Security.sane (w_wall w) settings -> Security.sane (w_wall w2) settings -> w_wall w <= w_wall w2 ->
  w_wall w2 < expiry Security.refresh w ->
  revoke (payload_of id Security.access w) w2 = (Ok tt, set_cache c1 w2) ->
  revoke (payload_of id Security.refresh (after_draw w)) (set_cache c1 w2) = (Ok tt, set_cache c2 w2) ->
  logout settings (payload_of id Security.access w) (Some (issued id Security.refresh (after_draw w))) w2
  = (Ok tt, set_cache c2 w2).
Proof.
  intros Hs Hs2 Hle Hlt Hr1 Hr2. unfold logout. m_run Hr1.
  rewrite bool_decide_eq_false_2 by apply jwt_nonempty. unfold revoke_refresh, issued.
  rewrite Security.decode_created by done. simpl w_wall.
  change (w_wall (after_draw w)) with (w_wall w).
  change ((w_wall w / 1000000 + Security.ttl_of Security.refresh settings) * 1000000)
    with (expiry Security.refresh w).
  destruct (Z.ltb_spec (w_wall w2) (expiry Security.refresh w)); [|lia].
  rewrite bool_decide_eq_true_2 by done. exact Hr2.
Qed.

(** C7. Logging out ends the session: after a logout with both tokens of a
    pair, the access token is on the blocklist and the refresh token is
    refused, for the rest of their lives; the answer is the same whatever the
    refresh token was. *)
Theorem logout_ends_session id w w2 :
  0 <= id < 2 ^ 128 -> Security.sane (w_wall w) settings -> Security.sane (w_wall w2) settings ->
  w_wall w <= w_wall w2 ->
  (uuid4 (w_rand w)).1 <> (uuid4 (uuid4 (w_rand w)).2).1 ->
  0 < left_on Security.access w w2 -> w_wall w2 < expiry Security.refresh w ->
  exists pair w1 w3,
    issue_tokens settings id w = (Ok pair, w1)
    /\ logout settings (payload_of id Security.access w) (Some (refresh_token pair)) w2 = (Ok tt, w3)
    /\ w3 = set_cache (w_cache w3) w2
    /\ (forall w4, w_cache w4 = w_cache w3 -> w_mono w2 <= w_mono w4 ->
          w_wall w <= w_wall w4 -> Security.sane (w_wall w4) settings ->
          (w_mono w4 < cache_deadline (w_mono w2) (left_on Security.access w w2) ->
             (is_revoked (payload_of id Security.access w) w4).1 = Ok true)
          /\ (w_mono w4 < cache_deadline (w_mono w2) (left_on Security.refresh w w2) ->
             (refresh settings (refresh_token pair) w4).1 =
               Err (app_err AuthenticationError
                 (if w_wall w4 <? expiry Security.refresh w
                  then "this session has been revoked" else "token has expired")))).
Proof.
  intros Hid Hs Hs2 Hle Hne Hl1 Hlt. rewrite issue_tokens_run by done. eexists _, _.
  set (rt := issued id Security.refresh (after_draw w)).
  set (rp := payload_of id Security.refresh (after_draw w)).
  assert (0 < left_on Security.refresh (after_draw w) w2) as Hl2.
  { unfold left_on, expiry in *. cbn [w_wall after_draw set_rand]. assert (w_wall w2 / 1000000
      < w_wall w / 1000000 + Security.ttl_of Security.refresh settings); [|lia].
    apply Z.div_lt_upper_bound; lia. }
  destruct (revoke_run id Security.access w w2 Hs2 Hl1) as (c1 & Hr1 & Hv1).
  destruct (revoke_run id Security.refresh (after_draw w) (set_cache c1 w2) Hs2 Hl2) as (c2 & Hr2 & Hv2).
  exists (set_cache c2 w2). split; [reflexivity|].
  assert (w_wall (after_draw w) <= w_wall w2) as Hle' by done.
  split; [|split; [done|]].
  { by apply (logout_pair id w w2 c1 c2). }
  intros w4 Hc Hm Hw4 Hs4. cbn [w_cache set_cache] in Hc. cbn [w_mono set_cache] in Hv2.
  split; intros Hd.
  - destruct (TokenBlocklist.is_revoked_spec (w_mono w4) (payload_of id Security.access w)
      (PyUuid.hex (uuid4 (w_rand w)).1) (w_cache w4) (jti_issued _ _ _)) as (c5 & Hr & _).
    unfold is_revoked, on_cache, zoom. rewrite Hr. simpl. rewrite Hc, Hv2 by done.
    rewrite decide_False.
    2: { intros E%TokenBlocklist.revoked_key_inj%PyUuid.hex_inj; [|apply uuid4_law..].
         by apply Hne. }
    rewrite Hv1, decide_True by done. destruct (Z.ltb_spec (w_mono w4)
      (cache_deadline (w_mono w2) (left_on Security.access w w2))); [done|lia].
  - destruct (refresh_run id (after_draw w) w4 Hid Hw4 Hs4) as (b & c5 & Hb & _ & Hr).
    cbn [refresh_token]. unfold rt. rewrite Hr.
    change (expiry Security.refresh (after_draw w)) with (expiry Security.refresh w).
    destruct (w_wall w4 <? expiry Security.refresh w); [|done].
    assert (b = true) as ->; [|done].
    destruct (TokenBlocklist.is_revoked_spec (w_mono w4) (payload_of id Security.refresh (after_draw w))
      (PyUuid.hex (uuid4 (w_rand (after_draw w))).1) (w_cache w4) (jti_issued _ _ _)) as (c6 & Hr6 & _).
    rewrite Hr6 in Hb. simpl in Hb. rewrite Hc, Hv2, decide_True in Hb by done.
    change (left_on Security.refresh (after_draw w) (set_cache c1 w2))
      with (left_on Security.refresh w w2) in Hb.
    destruct (Z.ltb_spec (w_mono w4) (cache_deadline (w_mono w2) (left_on Security.refresh w w2))); [|lia].
    simpl in Hb. congruence.
Qed.

(** ** Password reset *)

(** A request for a message to the account of an address, if [eligible]. *)
Definition mail_request (eligible : Db.User -> bool) (t : Security.TokenType)
    (subject : string) (body : string -> string) (e : string) : M exn W unit :=
  user ← on_db (Db.UserRepository.get_by_email e);
  match user with
  | Some u =>
      if eligible u then
        token ← create_token settings (Db.u_id u) t;
        on_notifier (notify (Db.email u) subject (body token))
      else mret tt
  | None => mret tt
  end.

(** The answer to one: nothing but the notifier (and the random source) moves;
    without an eligible account nothing at all happens, and with one the
    outcome is that of handing over one message. *)
Definition mail_answer (eligible : Db.User -> bool) (t : Security.TokenType)
    (subject : string) (body : string -> string) (e : string) (w : W) (r : res exn unit * W) : Prop :=
  w_db r.2 = w_db w /\ w_cache r.2 = w_cache w
  /\ ((forall u, Db.users (w_db w) !! Db.u_id u = Some u -> Db.email u = lower e -> eligible u = false) ->
      r = (Ok tt, w))
  /\ (forall u, Db.users (w_db w) !! Db.u_id u = Some u -> Db.email u = lower e -> eligible u = true ->
      let message := body (issued (Db.u_id u) t w) in
      r.1 = (notify (lower e) subject message (w_notifier w)).1
      /\ match r.1 with
         | Ok _ => sent (w_notifier r.2) = sent (w_notifier w) ++ [(lower e, subject, message)]
         | Err err =>
             library_error err
             /\ (sent (w_notifier r.2) = sent (w_notifier w)
                 \/ sent (w_notifier r.2) = sent (w_notifier w) ++ [(lower e, subject, message)])
         end)
  /\ ((forall message, (notify (lower e) subject message (w_notifier w)).1 = Ok tt) -> r.1 = Ok tt).

Lemma mail_request_answer eligible t subject body e w :
  Db.ok (w_db w) -> Security.sane (w_wall w) settings ->
  mail_answer eligible t subject body e w (mail_request eligible t subject body e w).
Proof.
  intros Hok Hs. destruct (get_by_email_run e w Hok) as (r & Hr & Hu).
  assert (forall u, Db.users (w_db w) !! Db.u_id u = Some u -> Db.email u = lower e -> r = Some u)
    as Hfound.
  { intros u Hu' He'. pose proof (get_by_email_run_found e u w Hok Hu' He') as Hr'. congruence. }
  unfold mail_request. m_run Hr. destruct r as [u|]; [destruct Hu as [Hu He]; destruct (eligible u) eqn:Ha|].
  - rewrite (m_bind_Ok _ _ _ _ _ (create_token_issued _ _ _ Hs)). rewrite He.
    set (message := body (issued (Db.u_id u) t w)).
    pose proof (notify_law (lower e) subject message (w_notifier w)) as Hn.
    unfold mail_answer, on_notifier, zoom. simpl.
    destruct (notify (lower e) subject message (w_notifier w)) as [r n'] eqn:Hnot; simpl.
    split_and!; [done..|intros Hno; by rewrite (Hno u Hu He) in Ha| |].
    + intros u' Hu' He' _. injection (Hfound u' Hu' He') as <-. fold message. rewrite Hnot.
      by destruct r as [[]|].
    + intros Hall. specialize (Hall message). by rewrite Hnot in Hall.
  - split_and!; [done..| |done]. intros u' Hu' He'. injection (Hfound u' Hu' He') as <-. congruence.
  - split_and!; [done..| |done]. intros u' Hu' He'. by pose proof (Hfound u' Hu' He').
Qed.

(** C32. Asking for a reset or for another verification message: for every
    address no table and no cache entry changes, and an address without an
    account that may get the message is answered like a delivered one, nothing
    being sent.  For an account that may get it the outcome is that of handing
    exactly one message to the notifier: when that returns, the answers do not
    tell the two addresses apart; when it raises -- an SMTP server may refuse --
    the exception goes to the caller, and they do. *)
Theorem mail_requests_answer e w :
  Db.ok (w_db w) -> Security.sane (w_wall w) settings ->
  mail_answer Db.is_active Security.reset reset_subject reset_body e w
    (request_password_reset settings e w)
  /\ mail_answer (fun u => negb (Db.is_verified u)) Security.verify verification_subject verification_body
       e w (resend_verification settings e w).
Proof.
  intros Hok Hs. split; [exact (mail_request_answer _ _ _ _ e w Hok Hs)|].
  pose proof (mail_request_answer (fun u => negb (Db.is_verified u)) Security.verify verification_subject
    verification_body e w Hok Hs) as Hm.
  unfold mail_request, resend_verification, _send_verification in *. revert Hm.
  destruct (get_by_email_run e w Hok) as ([u|] & Hr & _); m_run Hr; m_run Hr; [|done].
  by destruct (Db.is_verified u).
Qed.

Lemma reset_password_run id w w' u pw :
  0 <= id < 2 ^ 128 -> w_wall w <= w_wall w' < expiry Security.reset w ->
  Db.users (w_db w') !! id = Some u -> Db.u_id u = id -> Db.is_active u = true ->
  exists u',
    reset_password settings (issued id Security.reset w) pw w'
    = (Ok tt, set_db (Db.set_users (<[id := u']> (Db.users (w_db w'))) (w_db w'))
                (set_rand (argon2_hash pw (w_rand w')).2 w'))
    /\ Db.hashed_password u' = (argon2_hash pw (w_rand w')).1
    /\ Db.u_id u' = id /\ Db.email u' = Db.email u /\ Db.is_active u' = true.
Proof.
  intros Hid [Hle Hlt] Hu Hk Ha. unfold reset_password.
  assert (_decode settings (issued id Security.reset w) Security.reset w'
          = (Ok (payload_of id Security.reset w), w')) as Hd.
  { rewrite decode_issued by done. destruct (Z.ltb_spec (w_wall w') (expiry Security.reset w)); [|lia].
    by rewrite bool_decide_eq_true_2. }
  m_run Hd.
  pose proof (active_user_run id Security.reset w w'
    (app_err AuthenticationError "the account is no longer valid") Hid) as Hact.
  rewrite Hu, Ha in Hact. rewrite (m_bind_Ok _ _ _ _ _ Hact), hash_run.
  unfold Db.UserRepository.update_password, Db.UserRepository.update_user. run.
  eexists. rewrite Hk. split; [reflexivity|]. done.
Qed.

(** C28. The password reset, end to end and with a notifier that delivers: for an
    active account the token of the
    message sets the new password until it expires, and from then on a login
    to that address succeeds with the new password and with no other; every
    other account is as it was. *)
Theorem password_reset_flow e pw w u w2 :
  Db.ok (w_db w) -> Security.sane (w_wall w) settings ->
  (exists b, forall p, Security.verify_password p dummy = Ok (b p)) ->
  Db.users (w_db w) !! Db.u_id u = Some u -> Db.email u = lower e -> Db.is_active u = true ->
  w_db w2 = w_db w -> w_wall w <= w_wall w2 < expiry Security.reset w ->
  exists w1 token w3,
    request_password_reset settings e w = (Ok tt, w1)
    /\ sent (w_notifier w1) = sent (w_notifier w) ++ [(lower e, reset_subject, reset_body token)]
    /\ reset_password settings token pw w2 = (Ok tt, w3)
    /\ (forall id, id <> Db.u_id u -> Db.users (w_db w3) !! id = Db.users (w_db w) !! id)
    /\ forall p, (authenticate dummy e p w3).1 =
         if bool_decide (pw = p)
         then from_option Ok (Err (app_err AuthenticationError ""))
                (Db.users (w_db w3) !! Db.u_id u)
         else Err (app_err AuthenticationError "incorrect email or password").
Proof.
  intros Hok Hs [b Hb] Hu He Ha Hdb Ht.
  pose proof (get_by_email_run_found e u w Hok Hu He) as Hr.
  unfold request_password_reset. rewrite (m_bind_Ok _ _ _ _ _ Hr), Ha.
  rewrite (m_bind_Ok _ _ _ _ _ (create_token_issued _ _ _ Hs)).
  destruct (send_spec (Db.email u) reset_subject (reset_body (issued (Db.u_id u) Security.reset w))
    (after_draw w)) as (n & -> & Hn).
  assert (0 <= Db.u_id u < 2 ^ 128) as Hid by (by apply (Db.ok_user_range _ Hok _ u)).
  destruct (reset_password_run (Db.u_id u) w w2 u pw Hid Ht) as (u' & Hreset & Hh & Hk & He' & Ha');
    [by rewrite Hdb|done..|].
  eexists _, (issued (Db.u_id u) Security.reset w), _. split; [reflexivity|].
  split; [by rewrite <- He|]. split; [exact Hreset|]. split.
  { intros id Hne. simpl. rewrite lookup_insert_ne by done. by rewrite Hdb. }
  intros p. set (w3 := set_db _ _).
  assert (Db.ok (w_db w3)) as Hok3.
  { simpl. rewrite Hdb. by apply Db.ok_update_user. }
  assert (Db.users (w_db w3) !! Db.u_id u' = Some u') as Hu3
    by (rewrite Hk; simpl; apply lookup_insert_eq).
  unfold authenticate.
  rewrite (m_bind_Ok _ _ _ _ _ (get_by_email_run_found e u' w3 Hok3 Hu3 ltac:(congruence))).
  cbv zeta. rewrite Hh, verify_hash. rewrite Hk in Hu3. rewrite Hu3.
  case_bool_decide as Hp; [|done].
  unfold lift_res, mbind, m_bind. rewrite Ha'. simpl.
  unfold Security.needs_rehash. by rewrite argon2_rehash_law.
Qed.

(** ** What the use cases never do *)

(** One use case, whatever its outcome, or time passing. *)
Inductive step : W -> W -> Prop :=
| step_register e pw name w : step w (register settings e pw name w).2
| step_resend e w : step w (resend_verification settings e w).2
| step_verify token w : step w (verify_email settings token w).2
| step_login e pw w : step w (authenticate dummy e pw w).2
| step_issue id w : step w (issue_tokens settings id w).2
| step_refresh token w : step w (refresh settings token w).2
| step_request_reset e w : step w (request_password_reset settings e w).2
| step_reset token pw w : step w (reset_password settings token pw w).2
| step_logout payload token w : step w (logout settings payload token w).2
| step_tick wall mono w :
    step w {| w_db := w_db w; w_cache := w_cache w; w_notifier := w_notifier w;
              w_rand := w_rand w; w_wall := wall; w_mono := mono |}.

(** How the accounts may change: they keep their address, role and state of
    activity, verification is not undone, new ones are plain users, and there
    are none where [adds] is false. *)
Definition users_evolve (adds : bool) (d d' : Db.db) : Prop :=
  (forall id u, Db.users d !! id = Some u ->
     exists u', Db.users d' !! id = Some u' /\ Db.email u' = Db.email u
       /\ Db.role u' = Db.role u /\ Db.is_active u' = Db.is_active u
       /\ (Db.is_verified u = true -> Db.is_verified u' = true))
  /\ (forall id u', Db.users d' !! id = Some u' -> Db.users d !! id = None ->
       adds = true /\ Db.role u' = Db.USER).

(** How the use cases change the tables. *)
Definition grows (adds : bool) (d d' : Db.db) : Prop :=
  users_evolve adds d d' /\ Db.alerts d' = Db.alerts d /\ Db.searches d' = Db.searches d
  /\ Db.audit_log d' = Db.audit_log d.

Definition evolves (adds : bool) (d d' : Db.db) : Prop := Db.ok d' /\ grows adds d d'.

#[global] Instance users_evolve_preorder adds : PreOrder (users_evolve adds).
Proof.
  split; [intros d; split; [eauto 10|congruence]|].
  intros d1 d2 d3 [Hk Hn] [Hk' Hn']. split.
  - intros id u Hu. destruct (Hk id u Hu) as (u2 & Hu2 & ? & ? & ? & ?).
    destruct (Hk' id u2 Hu2) as (u3 & Hu3 & ? & ? & ? & ?). exists u3.
    split_and!; [done|congruence..|auto].
  - intros id u' Hu' Hnone. destruct (Db.users d2 !! id) as [u2|] eqn:E.
    + destruct (Hk' id u2 E) as (u3 & Hu3 & _ & Hr & _). rewrite Hu' in Hu3.
      injection Hu3 as <-. rewrite Hr. by apply (Hn id).
    + by apply (Hn' id).
Qed.

#[global] Instance grows_preorder adds : PreOrder (grows adds).
Proof.
  split; [by intros d; split_and!|].
  intros d1 d2 d3 (Hu & Ha & Hs & Hl) (Hu' & Ha' & Hs' & Hl').
  split_and!; [by transitivity d2|congruence..].
Qed.

Lemma evolves_refl adds d : Db.ok d -> evolves adds d d.
Proof. done. Qed.

Lemma evolves_trans adds d1 d2 d3 : evolves adds d1 d2 -> evolves adds d2 d3 -> evolves adds d1 d3.
Proof. intros [_ Hg] [Hok Hg']. split; [done|by transitivity d2]. Qed.

Lemma users_evolve_update adds d u v :
  Db.users d !! Db.u_id u = Some u -> Db.email v = Db.email u -> Db.role v = Db.role u ->
  Db.is_active v = Db.is_active u -> (Db.is_verified u = true -> Db.is_verified v = true) ->
  users_evolve adds d (Db.set_users (<[Db.u_id u := v]> (Db.users d)) d).
Proof.
  intros Hu He Hr Ha Hv. split.
  - intros id w Hw. simpl. rewrite lookup_insert. case_decide as E; [|eauto 10].
    subst id. rewrite Hu in Hw. injection Hw as <-. eauto 10.
  - intros id w. simpl. rewrite lookup_insert. case_decide as E; [|congruence].
    subst id. congruence.
Qed.

Lemma evolves_update adds d u v :
  Db.ok d -> Db.users d !! Db.u_id u = Some u -> Db.u_id v = Db.u_id u -> Db.email v = Db.email u ->
  Db.role v = Db.role u -> Db.is_active v = Db.is_active u ->
  (Db.is_verified u = true -> Db.is_verified v = true) ->
  evolves adds d (Db.set_users (<[Db.u_id u := v]> (Db.users d)) d).
Proof.
  intros. split; [by apply Db.ok_update_user|]. split; [by apply users_evolve_update|done].
Qed.

Lemma evolves_add d u :
  Db.ok d -> 0 <= Db.u_id u < 2 ^ 128 -> lower (Db.email u) = Db.email u -> Db.role u = Db.USER ->
  Db.users d !! Db.u_id u = None -> (forall id v, Db.users d !! id = Some v -> Db.email v <> Db.email u) ->
  evolves true d (Db.set_users (<[Db.u_id u := u]> (Db.users d)) d).
Proof.
  intros Hok Hrg Hl Hr Hn He. split; [by apply Db.ok_add_user|]. split; [|done]. split.
  - intros id w Hw. simpl. rewrite lookup_insert_ne by congruence. eauto 10.
  - intros id w. simpl. rewrite lookup_insert. case_decide as E; [intros [= <-] _; done|congruence].
Qed.

(** A computation that may not add accounts keeps the set of addresses. *)
Lemma users_evolve_emails d d' :
  users_evolve false d d' -> Db.email <$> Db.users d' = Db.email <$> Db.users d.
Proof.
  intros [Hk Hn]. apply map_eq. intros id. rewrite !lookup_fmap.
  destruct (Db.users d !! id) as [u|] eqn:Hu.
  - destruct (Hk id u Hu) as (u' & -> & He & _). simpl. by rewrite He.
  - destruct (Db.users d' !! id) as [u'|] eqn:Hu'; [|done]. by destruct (Hn id u' Hu' Hu).
Qed.

(** Triples of the tables. *)
Section triples.
Variable adds : bool.

Abbreviation triple := (triple (w_db : W -> Db.db) Db.ok (grows adds)).

(** The object is the row of the table. *)
Definition current (u : Db.User) (d : Db.db) : Prop := Db.users d !! Db.u_id u = Some u.

Definition found (r : option Db.User) (d : Db.db) : Prop := forall u, r = Some u -> current u d.

Lemma triple_get_by_email P e : triple P (on_db (Db.UserRepository.get_by_email e)) found.
Proof.
  intros w Hok _. destruct (get_by_email_run e w Hok) as (r & -> & Hu). simpl.
  split; [by apply evolves_refl|]. intros a [= <-] u ->. apply Hu.
Qed.

Lemma triple_get_by_id P id : triple P (on_db (Db.UserRepository.get_by_id id)) found.
Proof.
  intros w Hok _. rewrite get_by_id_run. simpl. split; [by apply evolves_refl|].
  intros a [= <-] u Hu. unfold current. by rewrite (Db.ok_user_id _ Hok _ _ Hu).
Qed.

Lemma triple_update_password u h :
  triple (current u) (on_db (Db.UserRepository.update_password u h)) any.
Proof. intros w Hok Hu. split; [|done]. by apply evolves_update. Qed.

Lemma triple_mark_verified u : triple (current u) (on_db (Db.UserRepository.mark_verified u)) any.
Proof. intros w Hok Hu. split; [|done]. by apply evolves_update. Qed.

Lemma triple_draw P : triple P (on_rand draw_uuid) (fun id _ => 0 <= id < 2 ^ 128).
Proof.
  intros w Hok _. unfold draw_uuid, on_rand, zoom. pose proof (uuid4_law (w_rand w)).
  destruct (uuid4 (w_rand w)) as [u r]. simpl. split; [by apply evolves_refl|].
  by intros a [= <-].
Qed.

Lemma triple_create id e h name :
  adds = true ->
  triple (fun _ => 0 <= id < 2 ^ 128)
    (fun w : W => on_db (Db.UserRepository.create id (w_wall w) e h name Db.USER) w) any.
Proof.
  intros Hadds w Hok Hid. split; [|done]. unfold Db.UserRepository.create. run.
  set (u := {| Db.u_id := _ |}).
  destruct (Db.add_user_spec (w_db w) u) as [(-> & Hn & He)|(-> & _)]; [|by apply evolves_refl].
  simpl. rewrite Hadds. apply evolves_add; [done|exact Hid|apply lower_idemp|done..].
Qed.

Lemma quiet_on_rand {A} (m : M exn R A) w : w_db (on_rand m w).2 = w_db (w : W).
Proof. unfold on_rand, zoom. by destruct (m (w_rand w)). Qed.

Lemma quiet_create_token id t w : w_db (create_token settings id t w).2 = w_db w.
Proof. apply quiet_on_rand. Qed.

Lemma quiet_notify a b c w : w_db (on_notifier (notify a b c) w).2 = w_db w.
Proof. unfold on_notifier, zoom. by destruct (notify a b c _). Qed.

Lemma quiet_hash pw w : w_db (on_rand (Security.hash_password pw) w).2 = w_db (w : W).
Proof. apply quiet_on_rand. Qed.

Lemma quiet_decode token t w : w_db (_decode settings token t w).2 = w_db w.
Proof. unfold _decode. by destruct (Security.decode_token _ _ _ _) as [|[]]. Qed.

Lemma quiet_lift {A} (r : res exn A) w : w_db (lift_res r w).2 = w_db (w : W).
Proof. done. Qed.

Lemma quiet_is_revoked payload w : w_db (is_revoked payload w).2 = w_db w.
Proof. unfold is_revoked, on_cache, zoom. by destruct (TokenBlocklist.is_revoked _ _ _). Qed.

Lemma quiet_revoke payload w : w_db (revoke payload w).2 = w_db w.
Proof. unfold revoke, on_cache, zoom. by destruct (TokenBlocklist.revoke _ _ _ _). Qed.

Lemma quiet_revoke_refresh token w : w_db (revoke_refresh settings token w).2 = w_db w.
Proof.
  unfold revoke_refresh. destruct (Security.decode_token _ _ _ _) as [p|[]]; try done.
  apply quiet_revoke.
Qed.

Lemma quiet_exists e w : w_db (on_db (Db.UserRepository.exists_by_email e) w).2 = w_db w.
Proof. done. Qed.

#[local] Hint Resolve quiet_create_token quiet_notify quiet_hash quiet_decode quiet_lift
  quiet_is_revoked quiet_revoke quiet_revoke_refresh quiet_exists : quiet.
#[local] Hint Resolve triple_get_by_email triple_get_by_id triple_draw triple_create
  triple_update_password triple_mark_verified : triple.

Lemma triple_send_verification P u : triple P (_send_verification settings u) any.
Proof. unfold _send_verification. triple_steps. Qed.

Lemma triple_issue P id : triple P (issue_tokens settings id) any.
Proof. unfold issue_tokens. triple_steps. Qed.

Lemma triple_active_user P payload e : triple P (active_user payload e) current.
Proof.
  unfold active_user. triple_steps. destruct a0 as [u|]; triple_steps.
  destruct (Db.is_active u); triple_steps.
  intros w Hok Hf. split; [by apply evolves_refl|]. intros a' [= <-]. by apply Hf.
Qed.

#[local] Hint Resolve triple_send_verification triple_issue triple_active_user : triple.

Lemma triple_register e pw name : adds = true -> triple (fun _ => True) (register settings e pw name) any.
Proof. intros Hadds. unfold register. triple_steps. destruct a; triple_steps. Qed.

Lemma triple_verify_email token : triple (fun _ => True) (verify_email settings token) any.
Proof.
  unfold verify_email. triple_steps. destruct a1 as [u|]; triple_steps.
  destruct (Db.is_verified u); triple_steps.
  triple_bind; [|intros v; triple_ret].
  eapply triple_pre; [|apply triple_mark_verified]. intros d Hf. by apply Hf.
Qed.

Lemma triple_authenticate e pw : triple (fun _ => True) (authenticate dummy e pw) any.
Proof.
  unfold authenticate. triple_steps. destruct a as [u|]; triple_steps. destruct a0; triple_steps.
  destruct (Db.is_active u); simpl; triple_steps.
  destruct (Security.needs_rehash _); triple_steps.
  eapply triple_pre; [|apply triple_update_password]. intros d Hf. by apply Hf.
Qed.

Lemma triple_refresh token : triple (fun _ => True) (refresh settings token) any.
Proof. unfold refresh. triple_steps. destruct a0; triple_steps. Qed.

Lemma triple_reset token pw : triple (fun _ => True) (reset_password settings token pw) any.
Proof. unfold reset_password. triple_steps. Qed.

Lemma triple_mail_requests e :
  triple (fun _ => True) (resend_verification settings e) any
  /\ triple (fun _ => True) (request_password_reset settings e) any.
Proof.
  split; (triple_bind; [apply triple_get_by_email|]); intros [u|]; triple_steps.
  - destruct (Db.is_verified u); triple_steps.
  - destruct (Db.is_active u); triple_steps.
Qed.

Lemma triple_logout payload token : triple (fun _ => True) (logout settings payload token) any.
Proof.
  unfold logout. triple_steps. destruct token as [t|]; triple_steps.
  case_bool_decide; triple_steps.
Qed.

End triples.

Lemma step_evolves w w' : step w w' -> Db.ok (w_db w) -> evolves true (w_db w) (w_db w').
Proof.
  destruct 1; intros Hok.
  - by apply triple_register.
  - by apply triple_mail_requests.
  - by apply triple_verify_email.
  - by apply triple_authenticate.
  - by apply (triple_issue true (fun _ => True)).
  - by apply triple_refresh.
  - by apply triple_mail_requests.
  - by apply triple_reset.
  - by apply triple_logout.
  - by apply evolves_refl.
Qed.

(** No sequence of use cases, succeeding or failing and with any tokens and
    any passage of time between them, breaks the tables or raises anybody's
    privileges: addresses stay unique and in lower case, no account
    disappears or changes address, role or state of activity, a verified
    account stays verified, every new account is a plain user, and the price
    alerts and the search history are untouched. *)
Theorem use_cases_preserve w w' :
  Db.ok (w_db w) -> rtc step w w' -> evolves true (w_db w) (w_db w').
Proof.
  intros Hok Hr. revert Hok. induction Hr as [w|w1 w2 w3 Hs Hr IH]; intros Hok.
  - by apply evolves_refl.
  - pose proof (step_evolves w1 w2 Hs Hok) as He. apply (evolves_trans _ _ (w_db w2)); [done|].
    apply IH, He.
Qed.

End spec.

(** ** A concrete world *)

Abbreviation sample_W := (world Cache.InMemoryCache.store ConsoleNotifier.notifier Z).

Definition sample_user : Db.User :=
  {| Db.u_id := 5; Db.email := "ann@example.com"; Db.hashed_password := "$Secret12345";
     Db.full_name := None; Db.role := Db.USER; Db.is_active := true; Db.is_verified := false;
     Db.u_created_at := 0 |}.

Definition sample_db : Db.db := Db.set_users {[5 := sample_user]} Db.empty.

Definition sample_world (wall mono rand : Z) : sample_W :=
  {| w_db := sample_db; w_cache := Cache.InMemoryCache.empty; w_notifier := [];
     w_rand := rand; w_wall := wall; w_mono := mono |}.

(** One second after another. *)
Abbreviation now := Security.sample_now.
Abbreviation w0 := (sample_world now 0 100).
Abbreviation later := (sample_world (now + 1000000) F64.one 200).

Lemma sample_ok : Db.ok sample_db.
Proof.
  constructor; simpl.
  - intros id u [<- <-]%lookup_singleton_Some. lia.
  - by intros id u [<- <-]%lookup_singleton_Some.
  - by intros id u [<- <-]%lookup_singleton_Some.
  - by intros id id' u u' [<- <-]%lookup_singleton_Some [<- <-]%lookup_singleton_Some.
  - intros id a. by rewrite lookup_empty.
  - intros id a. by rewrite lookup_empty.
Qed.

Lemma sample_found : Db.users sample_db !! 5 = Some sample_user.
Proof. apply lookup_singleton_eq. Qed.

Lemma sample_only id u : Db.users sample_db !! id = Some u -> id = 5 /\ u = sample_user.
Proof. unfold sample_db. simpl. by intros [<- <-]%lookup_singleton_Some. Qed.

Lemma sample_later_sane : Security.sane (now + 1000000) Security.sample_settings.
Proof. split; [by vm_compute|]. intros []; by vm_compute. Qed.

Lemma bob_not_taken : ~ taken "Bob@Example.com" w0.
Proof. intros (id & u & Hu & He). apply sample_only in Hu as [-> ->]. discriminate. Qed.

Lemma nobody_not_taken : ~ taken "nobody@example.com" w0.
Proof. intros (id & u & Hu & He). apply sample_only in Hu as [-> ->]. discriminate. Qed.

Lemma bob_fresh :
  Db.users (w_db w0) !! Db.u_id (new_user "Bob@Example.com" "Pa55word!!" None w0) = None.
Proof. unfold sample_db. simpl. apply lookup_singleton_ne. discriminate. Qed.

Lemma dummy_verifies : exists b : string -> bool,
  forall p, Security.verify_password p "$dummy" = Ok (b p).
Proof.
  exists (fun p => bool_decide ("$dummy" = "$" +:+ p)%string). intros p.
  unfold Security.verify_password. simpl. by case_bool_decide.
Qed.

(** ** Witnesses *)

Lemma register_spec_witness :
  (register Security.sample_settings "ANN@example.com" "Pa55word!!" None w0).1
    = Err (app_err ConflictError "an account with this email already exists")
  /\ exists u w', register Security.sample_settings "Bob@Example.com" "Pa55word!!" None w0 = (Ok u, w')
       /\ Db.email u = "bob@example.com"%string /\ length (w_notifier w') = 1%nat.
Proof.
  split.
  - destruct (register_spec Security.sample_settings "ANN@example.com" "Pa55word!!" None w0
      sample_ok Security.sample_sane) as [Ht _].
    rewrite Ht; [reflexivity|]. exists 5, sample_user. split; [exact sample_found|reflexivity].
  - destruct (register_spec Security.sample_settings "Bob@Example.com" "Pa55word!!" None w0
      sample_ok Security.sample_sane) as [_ Hn].
    destruct (Hn bob_not_taken bob_fresh) as (w' & Hr & He & _ & _ & _ & _ & _ & _ & Hsent & _).
    eexists _, w'. split; [exact Hr|]. split; [exact He|]. simpl in Hsent. by rewrite Hsent.
Defined.

Lemma authenticate_spec_witness :
  authenticate "$dummy" "nobody@example.com" "Secret12345" w0
    = (Err (app_err AuthenticationError "incorrect email or password"), w0)
  /\ authenticate "$dummy" "Ann@Example.com" "wrong" w0
    = (Err (app_err AuthenticationError "incorrect email or password"), w0)
  /\ authenticate "$dummy" "Ann@Example.com" "Secret12345" w0 = (Ok sample_user, w0).
Proof.
  split; [|split].
  - destruct (authenticate_spec "$dummy" "nobody@example.com" "Secret12345" w0 sample_ok
      (ltac:(eexists; reflexivity))) as [Hn _]. exact (Hn nobody_not_taken).
  - destruct (authenticate_spec "$dummy" "Ann@Example.com" "wrong" w0 sample_ok
      (ltac:(eexists; reflexivity))) as [_ Hu].
    destruct (Hu sample_user sample_found eq_refl) as [Hbad _]. exact (Hbad eq_refl).
  - destruct (authenticate_spec "$dummy" "Ann@Example.com" "Secret12345" w0 sample_ok
      (ltac:(eexists; reflexivity))) as [_ Hu].
    destruct (Hu sample_user sample_found eq_refl) as [_ Hgood]. exact (Hgood eq_refl).
Defined.

Lemma logout_ends_session_witness :
  exists pair w1 w3,
    issue_tokens Security.sample_settings 5 w0 = (Ok pair, w1)
    /\ logout Security.sample_settings (payload_of Security.sample_settings 5 Security.access w0)
         (Some (refresh_token pair)) later = (Ok tt, w3)
    /\ (refresh Security.sample_settings (refresh_token pair) w3).1
       = Err (app_err AuthenticationError "this session has been revoked").
Proof.
  destruct (logout_ends_session Security.sample_settings 5 w0 later)
    as (pair & w1 & w3 & Hi & Hl & Hw3 & Hafter);
    [split; [discriminate|reflexivity]|exact Security.sample_sane|exact sample_later_sane|discriminate
    |discriminate|reflexivity|reflexivity|].
  exists pair, w1, w3. split; [exact Hi|]. split; [exact Hl|].
  assert (w_wall w3 = now + 1000000) as Hw by (rewrite Hw3; reflexivity).
  assert (w_mono w3 = F64.one) as Hm by (rewrite Hw3; reflexivity).
  destruct (Hafter w3 eq_refl) as [_ Hr].
  - rewrite Hm. discriminate.
  - rewrite Hw. discriminate.
  - rewrite Hw. exact sample_later_sane.
  - rewrite Hr; rewrite ?Hw; [reflexivity|]. rewrite Hm. vm_compute. reflexivity.
Defined.

(** An SMTP server that refuses the connection. *)
Definition refusing : SmtpNotifier.notifier transcript :=
  {| SmtpNotifier._host := "mail.example.com"; SmtpNotifier._port := 587; SmtpNotifier._username := "app";
     SmtpNotifier._password := "pw"; SmtpNotifier._sender := "app@example.com";
     SmtpNotifier._server := {| commands := []; answers := [false] |} |}.

Definition w_smtp : world Cache.InMemoryCache.store (SmtpNotifier.notifier transcript) Z :=
  {| w_db := sample_db; w_cache := Cache.InMemoryCache.empty; w_notifier := refusing;
     w_rand := 100; w_wall := now; w_mono := 0 |}.

(** Delivered, the two addresses are answered alike; refused, they are not. *)
Lemma mail_requests_answer_witness :
  (request_password_reset Security.sample_settings "nobody@example.com" w0).1 = Ok tt
  /\ (request_password_reset Security.sample_settings "Ann@example.com" w0).1 = Ok tt
  /\ (request_password_reset Security.sample_settings "nobody@example.com" w_smtp).1 = Ok tt
  /\ (request_password_reset Security.sample_settings "Ann@example.com" w_smtp).1
     = Err (PyError "SMTPException" "").
Proof.
  split_and!.
  - destruct (mail_requests_answer Security.sample_settings "nobody@example.com" w0 sample_ok
      Security.sample_sane) as [(_ & _ & _ & _ & H) _]. by apply H.
  - destruct (mail_requests_answer Security.sample_settings "Ann@example.com" w0 sample_ok
      Security.sample_sane) as [(_ & _ & _ & _ & H) _]. by apply H.
  - destruct (mail_requests_answer Security.sample_settings "nobody@example.com" w_smtp sample_ok
      Security.sample_sane) as [(_ & _ & H & _) _].
    rewrite H; [reflexivity|]. intros u [_ ->]%sample_only. discriminate.
  - destruct (mail_requests_answer Security.sample_settings "Ann@example.com" w_smtp sample_ok
      Security.sample_sane) as [(_ & _ & _ & H & _) _].
    destruct (H sample_user sample_found eq_refl eq_refl) as [Hr _]. rewrite Hr. reflexivity.
Defined.

Lemma password_reset_flow_witness :
  exists token w3,
    reset_password Security.sample_settings token "NewSecret99" later = (Ok tt, w3)
    /\ (authenticate "$dummy" "ann@example.com" "Secret12345" w3).1
       = Err (app_err AuthenticationError "incorrect email or password").
Proof.
  destruct (password_reset_flow Security.sample_settings "$dummy" "ann@example.com" "NewSecret99" w0
    sample_user later) as (w1 & token & w3 & _ & _ & Hr & _ & Ha);
    [exact sample_ok|exact Security.sample_sane|exact dummy_verifies|exact sample_found|reflexivity
    |reflexivity|reflexivity|split; [discriminate|reflexivity]|].
  exists token, w3. split; [exact Hr|]. rewrite Ha. reflexivity.
Defined.

Lemma use_cases_preserve_witness :
  evolves true sample_db (w_db (register Security.sample_settings "Bob@Example.com" "Pa55word!!" None w0).2).
Proof.
  apply (use_cases_preserve Security.sample_settings "$dummy" w0); [exact sample_ok|].
  eapply rtc_l; [apply step_register|apply rtc_refl].
Defined.

End AuthSpec.
