(* ===== verification/TokenSpec.v ===== *)
(** * Which tokens open what

    For any text a caller may send as a token: when it is taken for the access
    token or the refresh token of an account, and how every other text is
    refused.  [current_user] of [Api.v] and [Auth.refresh] decide alike. *)
From S2P Require Import Prelude PyStr PyDict Float64 Errors PyUuid Cache Config Security TokenBlocklist.
From S2P Require Import Notifications Db Auth AuthSpec.
Import PyStr Auth.

Module TokenSpec.

Section spec.
Context {C N R : Type} `{CacheLaws C} `{NotifierLaws N} `{EntropyLaws R} `{JwtLaws}.
Variable settings : Config.Settings.

Abbreviation W := (world C N R).
Implicit Types (w : W).

(** What the library makes of the text, with the key and algorithm of the
    service. *)
Definition decoded (token : string) (w : W) : jwt_result :=
  jwt_decode token (Config.secret_key settings) [Config.jwt_algorithm settings] (w_wall w).

(** A verified, unexpired token of one type, for somebody. *)
Definition genuine (expected : Security.TokenType) (token : string) (w : W)
    (payload : list (string * json)) : Prop :=
  decoded token w = JwtPayload payload
  /\ PyDict.get payload "type"%string = Some (JStr (Security.type_name expected))
  /\ is_Some (PyDict.get payload "sub"%string).

(** On the blocklist? *)
Definition listed (payload : list (string * json)) (w : W) : Prop :=
  (TokenBlocklist.is_revoked (w_mono w) payload (w_cache w)).1 = Ok true.

(** The token opens the session of [u]. *)
Definition admits (expected : Security.TokenType) (token : string) (w : W) (u : Db.User) : Prop :=
  exists payload id, genuine expected token w payload /\ ~ listed payload w
    /\ subject_of payload = Ok id /\ Db.users (w_db w) !! id = Some u /\ Db.is_active u = true.

(** A 401. *)
Abbreviation unauthorized m := (app_err AuthenticationError m).

(** The refusals of a text; [gone] is the message for an account that may not
    act. *)
Inductive refusal (expected : Security.TokenType) (gone : string) (token : string) (w : W) : exn -> Prop :=
| refused_expired : decoded token w = JwtExpired ->
    refusal expected gone token w (unauthorized "token has expired")
| refused_invalid : decoded token w = JwtInvalid ->
    refusal expected gone token w (unauthorized "token is invalid")
| refused_type payload : decoded token w = JwtPayload payload ->
    PyDict.get payload "type"%string <> Some (JStr (Security.type_name expected)) ->
    refusal expected gone token w (unauthorized ("expected a " +:+ Security.type_name expected +:+ " token"))
| refused_no_subject payload : decoded token w = JwtPayload payload ->
    PyDict.get payload "type"%string = Some (JStr (Security.type_name expected)) ->
    PyDict.get payload "sub"%string = None ->
    refusal expected gone token w (unauthorized "token is missing a subject")
| refused_revoked payload : genuine expected token w payload -> listed payload w ->
    refusal expected gone token w (unauthorized "this session has been revoked")
| refused_subject payload e : genuine expected token w payload -> ~ listed payload w ->
    subject_of payload = Err e -> refusal expected gone token w e
| refused_gone payload id : genuine expected token w payload -> ~ listed payload w ->
    subject_of payload = Ok id ->
    (forall u, Db.users (w_db w) !! id = Some u -> Db.is_active u = false) ->
    refusal expected gone token w (unauthorized gone).

(** The check the two have in common. *)
Definition session_of (expected : Security.TokenType) (gone : string) (token : string) : M exn W Db.User :=
  payload ← _decode settings token expected;
  revoked ← is_revoked payload;
  if (revoked : bool) then raise (unauthorized "this session has been revoked")
  else active_user payload (unauthorized gone).

(** ** Every text is one or the other *)

Lemma decode_genuine expected token w payload :
  genuine expected token w payload -> _decode settings token expected w = (Ok payload, w).
Proof.
  intros (Hd & Ht & [v Hv]). unfold _decode, Security.decode_token. unfold decoded in Hd.
  by rewrite Hd, Ht, bool_decide_eq_true_2, Hv.
Qed.

(** Of a genuine token, what the blocklist and the table decide. *)
Lemma session_genuine expected gone token w payload :
  genuine expected token w payload ->
  exists c', (forall t k, w_mono w <= t -> cache_view c' t k = cache_view (w_cache w) t k)
    /\ (listed payload w \/ ~ listed payload w)
    /\ (listed payload w -> session_of expected gone token w
          = (Err (unauthorized "this session has been revoked"), set_cache c' w))
    /\ (~ listed payload w -> session_of expected gone token w
          = active_user payload (unauthorized gone) (set_cache c' w)).
Proof.
  intros Hg. destruct (AuthSpec.is_revoked_run payload w) as (b & c' & Hr & Hv & Hb).
  exists c'. split; [done|]. unfold listed, session_of. rewrite Hb.
  rewrite (m_bind_Ok _ _ _ _ _ (decode_genuine _ _ _ _ Hg)), (m_bind_Ok _ _ _ _ _ Hr).
  destruct b; (split; [naive_solver|]); by split; [|naive_solver].
Qed.

Lemma admits_run expected gone token w u :
  admits expected token w u ->
  exists c', (forall t k, w_mono w <= t -> cache_view c' t k = cache_view (w_cache w) t k)
    /\ session_of expected gone token w = (Ok u, set_cache c' w).
Proof.
  intros (payload & id & Hg & Hl & Hid & Hu & Ha).
  destruct (session_genuine expected gone token w payload Hg) as (c' & Hv & _ & _ & Hs).
  exists c'. split; [done|]. rewrite (Hs Hl). unfold active_user, lift_res, mbind, m_bind.
  rewrite Hid, AuthSpec.get_by_id_run. simpl. by rewrite Hu, Ha.
Qed.

Lemma refusal_run expected gone token w e :
  refusal expected gone token w e ->
  exists c', (forall t k, w_mono w <= t -> cache_view c' t k = cache_view (w_cache w) t k)
    /\ session_of expected gone token w = (Err e, set_cache c' w).
Proof.
  assert (forall m, Security.decode_token token expected settings (w_wall w) = Err (TokenError m) ->
    exists c', (forall t k, w_mono w <= t -> cache_view c' t k = cache_view (w_cache w) t k)
      /\ session_of expected gone token w = (Err (unauthorized m), set_cache c' w)) as Hbad.
  { intros m Hd. exists (w_cache w). rewrite AuthSpec.set_cache_same. split; [done|].
    apply m_bind_Err. unfold _decode. by rewrite Hd. }
  unfold Security.decode_token in Hbad. fold (decoded token w) in Hbad.
  destruct 1 as [Hd|Hd|p Hd Ht|p Hd Ht Hs|p Hg Hl|p e Hg Hl He|p id Hg Hl Hid Hu].
  - apply Hbad. by rewrite Hd.
  - apply Hbad. by rewrite Hd.
  - apply Hbad. rewrite Hd. destruct (PyDict.get p "type"%string) as [[]|]; try done.
    rewrite bool_decide_eq_false_2; [done|]. congruence.
  - apply Hbad. by rewrite Hd, Ht, bool_decide_eq_true_2, Hs.
  - destruct (session_genuine expected gone token w p Hg) as (c' & Hv & _ & Hs & _). exists c'. auto.
  - destruct (session_genuine expected gone token w p Hg) as (c' & Hv & _ & _ & Hs). exists c'.
    split; [done|]. rewrite (Hs Hl). apply m_bind_Err. unfold lift_res. by rewrite He.
  - destruct (session_genuine expected gone token w p Hg) as (c' & Hv & _ & _ & Hs). exists c'.
    split; [done|]. rewrite (Hs Hl). unfold active_user, lift_res, mbind, m_bind.
    rewrite Hid, AuthSpec.get_by_id_run. simpl.
    destruct (Db.users (w_db w) !! id) as [u|] eqn:E; [by rewrite (Hu u eq_refl)|done].
Qed.

Lemma admits_or_refusal expected gone token w :
  (exists u, admits expected token w u) \/ (exists e, refusal expected gone token w e).
Proof.
  destruct (decoded token w) as [p| |] eqn:Hd; [|right; eexists; by constructor..].
  assert (PyDict.get p "type"%string = Some (JStr (Security.type_name expected))
          \/ PyDict.get p "type"%string <> Some (JStr (Security.type_name expected))) as [Ht|Ht].
  { destruct (PyDict.get p "type"%string) as [[| | | |t| |]|]; try (by right).
    destruct (decide (t = Security.type_name expected)); [left; congruence|right; congruence]. }
  2: { right. eexists. by apply (refused_type _ _ _ _ p). }
  destruct (PyDict.get p "sub"%string) as [v|] eqn:Hs.
  2: { right. eexists. by apply (refused_no_subject _ _ _ _ p). }
  assert (genuine expected token w p) as Hg by (split_and!; [done..|by eexists]).
  destruct (session_genuine expected gone token w p Hg) as (_ & _ & [Hl|Hl] & _).
  { right. eexists. by apply (refused_revoked _ _ _ _ p). }
  destruct (subject_of p) as [id|e] eqn:Hid.
  2: { right. exists e. by apply (refused_subject _ _ _ _ p). }
  destruct (Db.users (w_db w) !! id) as [u|] eqn:Hu; [destruct (Db.is_active u) eqn:Ha|].
  - left. exists u, p, id. by split_and!.
  - right. eexists. apply (refused_gone _ _ _ _ p id); [done..|]. intros u' Hu'. congruence.
  - right. eexists. apply (refused_gone _ _ _ _ p id); [done..|]. intros u' Hu'. congruence.
Qed.

(** The check, exactly. *)
Lemma session_spec expected gone token w :
  exists r c', session_of expected gone token w = (r, set_cache c' w)
    /\ (forall t k, w_mono w <= t -> cache_view c' t k = cache_view (w_cache w) t k)
    /\ (forall u, r = Ok u <-> admits expected token w u)
    /\ (forall e, r = Err e <-> refusal expected gone token w e).
Proof.
  destruct (admits_or_refusal expected gone token w) as [[u Hu]|[e He]].
  - destruct (admits_run expected gone token w u Hu) as (c' & Hv & Hr).
    exists (Ok u), c'. split_and!; [done..| |]; intros x; split.
    + by intros [= <-].
    + intros Hx. destruct (admits_run expected gone token w x Hx) as (? & _ & Hx'). congruence.
    + done.
    + intros Hx. destruct (refusal_run expected gone token w x Hx) as (? & _ & Hx'). congruence.
  - destruct (refusal_run expected gone token w e He) as (c' & Hv & Hr).
    exists (Err e), c'. split_and!; [done..| |]; intros x; split.
    + done.
    + intros Hx. destruct (admits_run expected gone token w x Hx) as (? & _ & Hx'). congruence.
    + by intros [= <-].
    + intros Hx. destruct (refusal_run expected gone token w x Hx) as (? & _ & Hx'). congruence.
Qed.

(** A refusal is a 401, unless a genuine token names a subject that is no
    UUID: the exception of reading it is the library's. *)
Lemma subject_error payload e : subject_of payload = Err e -> library_error e.
Proof.
  unfold subject_of. destruct (PyDict.get payload "sub"%string) as [[| | | |s| |]|];
    [| | | |destruct (PyUuid.parse_uuid s); [done|]|..]; intros [= <-]; by eexists _, _.
Qed.

Lemma refusal_kind expected gone token w e :
  refusal expected gone token w e ->
  (exists m, e = unauthorized m)
  \/ (library_error e /\ exists payload, genuine expected token w payload /\ subject_of payload = Err e).
Proof. destruct 1; try (left; by eexists). right. split; [by eapply subject_error|by eexists]. Qed.

(** ** The tokens of the service *)

(** Later, a token of the service is genuine as long as it has not expired, and
    as the type it was issued as only. *)
Lemma issued_genuine id t w w' expected payload :
  w_wall w <= w_wall w' ->
  genuine expected (AuthSpec.issued settings id t w) w' payload <->
  t = expected /\ w_wall w' < AuthSpec.expiry settings t w /\ payload = AuthSpec.payload_of settings id t w.
Proof.
  intros Hle. unfold genuine, decoded, AuthSpec.issued, Security.claims. rewrite jwt_roundtrip.
  2: { pose proof (Z.mul_div_le (w_wall w) 1000000 ltac:(lia)). lia. }
  fold (AuthSpec.payload_of settings id t w). unfold AuthSpec.expiry.
  destruct (Z.ltb_spec (w_wall w') ((w_wall w / 1000000 + Security.ttl_of t settings) * 1000000)) as [Hlt|Hge].
  - split.
    + intros ([= <-] & Ht & _). split; [|done]. simpl in Ht. injection Ht as Ht. by apply Security.type_name_inj.
    + intros (-> & _ & ->). split; [done|]. split; [done|]. by eexists.
  - split; [by intros [? _]|]. intros (_ & ? & _). lia.
Qed.

Lemma issued_admits id t w w' expected u :
  0 <= id < 2 ^ 128 -> w_wall w <= w_wall w' ->
  admits expected (AuthSpec.issued settings id t w) w' u <->
  t = expected /\ w_wall w' < AuthSpec.expiry settings t w
  /\ ~ listed (AuthSpec.payload_of settings id t w) w'
  /\ Db.users (w_db w') !! id = Some u /\ Db.is_active u = true.
Proof.
  intros Hid Hle. unfold admits. split.
  - intros (p & i & (-> & Hlt & ->)%(issued_genuine _ _ _ _ _ _ Hle) & Hl & Hi & Hu & Ha).
    rewrite AuthSpec.subject_of_issued in Hi by done. injection Hi as <-. done.
  - intros (-> & Hlt & Hl & Hu & Ha). exists (AuthSpec.payload_of settings id expected w), id.
    split; [by apply issued_genuine|]. by rewrite AuthSpec.subject_of_issued.
Qed.

(** A token signed with another key is no token. *)
Lemma forged_refused expected gone sub ty iat exp jti key w :
  key <> Config.secret_key settings ->
  refusal expected gone (jwt_encode (token_payload sub ty iat exp jti) key (Config.jwt_algorithm settings)) w
    (unauthorized "token is invalid").
Proof. intros Hk. apply refused_invalid. by apply jwt_other_key. Qed.

(** ** Refresh *)

Lemma refresh_eq token w :
  refresh settings token w
  = (user ← session_of Security.refresh "the account is no longer valid" token;
     issue_tokens settings (Db.u_id user)) w.
Proof.
  unfold refresh, session_of. rewrite m_bind_assoc. unfold mbind, m_bind.
  destruct (_decode settings token Security.refresh w) as [[p|e] w1]; [|done].
  destruct (is_revoked p w1) as [[[]|e] w2]; done.
Qed.

(** From [w] on until its expiry, and as a token of type [t] only, the text is a
    genuine token of the account [id]. *)
Definition good_for (t : Security.TokenType) (token : string) (id : Z) (w : W) : Prop :=
  forall w3 expected, w_wall w <= w_wall w3 ->
    ((exists p, genuine expected token w3 p)
     <-> expected = t /\ w_wall w3 < AuthSpec.expiry settings t w)
    /\ forall p, genuine expected token w3 p -> subject_of p = Ok id.

Lemma issued_good id t w w1 :
  0 <= id < 2 ^ 128 -> w_wall w1 = w_wall w -> good_for t (AuthSpec.issued settings id t w1) id w.
Proof.
  intros Hid Hw w3 expected Hle. rewrite <- Hw in Hle. split.
  - setoid_rewrite (issued_genuine id t w1 w3 expected); [|done]. unfold AuthSpec.expiry. rewrite Hw. naive_solver.
  - intros p (_ & _ & ->)%(issued_genuine id t w1 w3 expected p Hle). by apply AuthSpec.subject_of_issued.
Qed.

(** A refresh is the check and, of those it admits, a new pair. *)
Lemma refresh_outcome token w :
  Db.ok (w_db w) -> Security.sane (w_wall w) settings ->
  exists r w', refresh settings token w = (r, w') /\ w_db w' = w_db w /\ w_notifier w' = w_notifier w
    /\ ((exists e, r = Err e /\ refusal Security.refresh "the account is no longer valid" token w e)
        \/ exists pair u, r = Ok pair /\ admits Security.refresh token w u
             /\ good_for Security.access (access_token pair) (Db.u_id u) w
             /\ good_for Security.refresh (refresh_token pair) (Db.u_id u) w).
Proof.
  intros Hok Hs.
  destruct (session_spec Security.refresh "the account is no longer valid" token w) as (r & c' & Hr & _ & Hu & He).
  rewrite refresh_eq. destruct r as [u|e]; m_run Hr.
  - rewrite AuthSpec.issue_tokens_run by done. eexists _, _. split; [done|]. split; [done|]. split; [done|].
    right. eexists _, u. split; [done|]. pose proof (proj1 (Hu u) eq_refl) as Ha. split; [done|].
    destruct Ha as (p & id & _ & _ & _ & Hin & _).
    pose proof (Db.ok_user_range _ Hok id u Hin). rewrite (Db.ok_user_id _ Hok id u Hin).
    split; by apply issued_good.
  - eexists _, _. split; [done|]. split; [done|]. split; [done|]. left. exists e. split; [done|]. by apply He.
Qed.

Lemma admits_not_refusal expected gone token w u e :
  admits expected token w u -> refusal expected gone token w e -> False.
Proof.
  intros Ha He. destruct (admits_run expected gone token w u Ha) as (? & _ & Hr).
  destruct (refusal_run expected gone token w e He) as (? & _ & Hr'). congruence.
Qed.

Lemma admits_inj expected token w u v : admits expected token w u -> admits expected token w v -> u = v.
Proof.
  intros Hu Hv. destruct (admits_run expected "" token w u Hu) as (? & _ & Hr).
  destruct (admits_run expected "" token w v Hv) as (? & _ & Hr'). congruence.
Qed.

Lemma refusal_inj expected gone token w e e' :
  refusal expected gone token w e -> refusal expected gone token w e' -> e = e'.
Proof.
  intros He He'. destruct (refusal_run expected gone token w e He) as (? & _ & Hr).
  destruct (refusal_run expected gone token w e' He') as (? & _ & Hr'). congruence.
Qed.

(** C31. Any text sent as a refresh token gives a new pair exactly when it is a
    genuine refresh token -- signed with the key of the service, unexpired, of
    type refresh, with a subject -- that is not on the blocklist and whose
    subject is an existing, active account; every other text is refused, each
    reason with its own exception, a 401 except for a signed token whose
    subject is no UUID.  No table and no message changes.  The new access
    token is good as an access token of that account only, the new refresh
    token as a refresh token of it.  Of the tokens the service issued itself,
    these are the refresh tokens before their expiry, unrevoked. *)
Theorem refresh_spec token w :
  Db.ok (w_db w) -> Security.sane (w_wall w) settings ->
  let '(r, w') := refresh settings token w in
  w_db w' = w_db w /\ w_notifier w' = w_notifier w
  /\ (is_ok r = true <-> exists u, admits Security.refresh token w u)
  /\ (forall e, r = Err e <-> refusal Security.refresh "the account is no longer valid" token w e)
  /\ (forall e, r = Err e ->
        (exists m, e = unauthorized m)
        \/ (library_error e /\ exists p, genuine Security.refresh token w p /\ subject_of p = Err e))
  /\ (forall pair u, r = Ok pair -> admits Security.refresh token w u ->
        good_for Security.access (access_token pair) (Db.u_id u) w
        /\ good_for Security.refresh (refresh_token pair) (Db.u_id u) w)
  /\ (forall id t w0, 0 <= id < 2 ^ 128 -> w_wall w0 <= w_wall w ->
        token = AuthSpec.issued settings id t w0 ->
        (is_ok r = true <->
         t = Security.refresh /\ w_wall w < AuthSpec.expiry settings t w0
         /\ ~ listed (AuthSpec.payload_of settings id t w0) w
         /\ exists u, Db.users (w_db w) !! id = Some u /\ Db.is_active u = true)).
Proof.
  intros Hok Hs. destruct (refresh_outcome token w Hok Hs) as (r & w' & Hr & Hdb & Hn & Hout).
  rewrite Hr. split; [done|]. split; [done|].
  assert (is_ok r = true <-> exists u, admits Security.refresh token w u) as Hiff.
  { destruct Hout as [(e & -> & He)|(pair & u & -> & Hu & _)]; split; try done; [|by eexists].
    intros [u Hu]. by destruct (admits_not_refusal _ _ _ _ _ _ Hu He). }
  split; [done|]. split; [|split; [|split]].
  - destruct Hout as [(e & -> & He)|(pair & u & -> & Hu & _)]; intros e'; split; try done.
    + by intros [= <-].
    + intros He'. by rewrite (refusal_inj _ _ _ _ _ _ He He').
    + intros He'. by destruct (admits_not_refusal _ _ _ _ _ _ Hu He').
  - destruct Hout as [(e & -> & He)|(pair & u & -> & _)]; [|done].
    intros e' [= <-]. by eapply refusal_kind.
  - destruct Hout as [(e & -> & He)|(pair & u & -> & Hu & Hgood)]; [done|].
    intros pair' u' [= <-] Hu'. by rewrite (admits_inj _ _ _ _ _ Hu' Hu).
  - intros id t w0 Hid Hle ->. rewrite Hiff. setoid_rewrite (issued_admits id t w0 w); [|done..].
    naive_solver.
Qed.

End spec.

(** A concrete refresh: the genuine token, and texts that are none. *)
Lemma refresh_spec_witness :
  is_ok (refresh Security.sample_settings
           (AuthSpec.issued Security.sample_settings 5 Security.refresh AuthSpec.w0) AuthSpec.later).1 = true
  /\ (refresh Security.sample_settings "garbage" AuthSpec.later).1
     = Err (app_err AuthenticationError "token is invalid").
Proof.
  split.
  - pose proof (refresh_spec Security.sample_settings
      (AuthSpec.issued Security.sample_settings 5 Security.refresh AuthSpec.w0) AuthSpec.later
      AuthSpec.sample_ok AuthSpec.sample_later_sane) as Hspec.
    destruct (refresh _ _ _) as [r w']. destruct Hspec as (_ & _ & _ & _ & _ & _ & Hown).
    apply (Hown 5 Security.refresh AuthSpec.w0); [lia|vm_compute; discriminate|reflexivity|].
    split; [reflexivity|]. split; [vm_compute; reflexivity|]. split; [unfold listed; vm_compute; discriminate|].
    exists AuthSpec.sample_user. split; [exact AuthSpec.sample_found|reflexivity].
  - pose proof (refresh_spec Security.sample_settings "garbage" AuthSpec.later
      AuthSpec.sample_ok AuthSpec.sample_later_sane) as Hspec.
    destruct (refresh _ _ _) as [r w']. destruct Hspec as (_ & _ & _ & He & _).
    apply He. apply refused_invalid. vm_compute. reflexivity.
Defined.

End TokenSpec.
