(* ===== verification/PriceMonitor.v ===== *)
(** * Price monitoring

    [app/services/price_monitor.py] and the jobs of [app/workers/tasks.py]:
    every active alert is compared with the cheapest fare of its route and
    day; when the fare has come down to the target the owner is told and the
    alert retired.  A run works on the tables of one transaction, in a [world]
    of [Auth.v]. *)
From S2P Require Import Prelude PyStr PyDict Float64 Errors Pagination PySorted Domain AggCore Aggregation.
From S2P Require Import Schemas Notifications Db Auth.
Import PyStr Calendar Domain.Domain.

Module PriceMonitor.

Record MonitorReport : Type := { checked : Z; triggered : Z }.

(** [date.fromisoformat] on the shape of the dates the API stores; any other
    text counts as malformed. *)
Definition date_fromisoformat (s : string) : option date :=
  if Schemas.date_shaped s then
    match py_int (of_chars (take 4 (chars s))), py_int (of_chars (take 2 (drop 5 (chars s)))),
          py_int (of_chars (drop 8 (chars s))) with
    | Some y, Some m, Some d =>
        let v := {| year := y; month := m; day := d |} in
        if valid_date v then Some v else None
    | _, _, _ => None
    end
  else None.

Section monitor.
Context {C N R : Type} `{Notifier N}.
(** The flight service the monitor asks. *)
Variable _flights : Aggregation.Service.

Abbreviation W := (Auth.world C N R).

Definition _cheapest_price (alert : Db.PriceAlert) : res exn (option Z) :=
  match date_fromisoformat (Db.a_departure_date alert) with
  | None => Ok None
  | Some departure =>
      let query := {| fq_origin := Db.a_origin alert; fq_destination := Db.a_destination alert;
                      fq_departure_date := departure; fq_adults := 1; fq_cabin_class := "economy" |} in
      result ← Aggregation.search _flights query Aggregation.PRICE None 1 None;
      match Aggregation.items result with
      | [] => Ok None
      | item :: _ => Ok (Some (amount_minor (f_price (Aggregation.flight item))))
      end
  end.

Definition drop_subject (alert : Db.PriceAlert) : string :=
  "Price drop: " +:+ Db.a_origin alert +:+ " to " +:+ Db.a_destination alert.

Definition drop_body (alert : Db.PriceAlert) (price_minor : Z) : string :=
  "A fare of " +:+ fmt2 (F64.truediv price_minor 100) +:+ " " +:+ Db.a_currency alert
  +:+ " is now available for " +:+ Db.a_origin alert +:+ "-" +:+ Db.a_destination alert
  +:+ " on " +:+ Db.a_departure_date alert +:+ ", below your target of "
  +:+ fmt2 (F64.truediv (Db.a_target_amount_minor alert) 100) +:+ " " +:+ Db.a_currency alert +:+ ".".

Definition _notify (user : Db.User) (alert : Db.PriceAlert) (price_minor : Z) : M exn W unit :=
  Auth.on_notifier (notify (Db.email user) (drop_subject alert) (drop_body alert price_minor)).

(** The alert after it has fired. *)
Definition retire (now : Z) (alert : Db.PriceAlert) : Db.PriceAlert :=
  {| Db.a_id := Db.a_id alert; Db.a_user_id := Db.a_user_id alert; Db.a_origin := Db.a_origin alert;
     Db.a_destination := Db.a_destination alert; Db.a_departure_date := Db.a_departure_date alert;
     Db.a_target_amount_minor := Db.a_target_amount_minor alert; Db.a_currency := Db.a_currency alert;
     Db.a_channel := Db.a_channel alert; Db.a_is_active := false; Db.a_triggered_at := Some now;
     Db.a_created_at := Db.a_created_at alert |}.

(** The two assignments to the row. *)
Definition deactivate (alert : Db.PriceAlert) : M exn W unit :=
  fun w =>
    (Ok tt, Auth.set_db (Db.set_alerts (<[Db.a_id alert := retire (Auth.w_wall w) alert]>
                                          (Db.alerts (Auth.w_db w))) (Auth.w_db w)) w).

Definition _check (alert : Db.PriceAlert) : M exn W bool :=
  cheapest ← lift_res (_cheapest_price alert);
  match cheapest with
  | None => mret false
  | Some price =>
      if Db.a_target_amount_minor alert <? price then mret false
      else
        user ← Auth.on_db (Db.UserRepository.get_by_id (Db.a_user_id alert));
        _ ← match user with
            | Some u => _notify u alert price
            | None => mret tt
            end;
        _ ← deactivate alert;
        mret true
  end.

(** The loop of [run_once]. *)
Fixpoint check_all (active : list Db.PriceAlert) (triggered : Z) : M exn W Z :=
  match active with
  | [] => mret triggered
  | alert :: active =>
      hit ← _check alert;
      check_all active (if (hit : bool) then triggered + 1 else triggered)
  end.

Definition run_once : M exn W MonitorReport :=
  active ← Auth.on_db Db.PriceAlertRepository.list_active;
  n ← check_all active 0;
  mret {| checked := Z.of_nat (length active); triggered := n |}.

(** A session without a commit: an exception leaves the tables as they were,
    and nothing else. *)
Definition transaction {A} (m : M exn W A) : M exn W A :=
  fun w =>
    match m w with
    | (Ok a, w') => (Ok a, w')
    | (Err e, w') => (Err e, Auth.set_db (Auth.w_db w) w')
    end.

(** [_monitor_prices]. *)
Definition _monitor_prices : M exn W Z :=
  transaction (report ← run_once; mret (triggered report)).

(** [_cleanup_audit_log]: how many entries older than the retention went. *)
Definition _cleanup_audit_log (retention_days : Z) : M exn W Z :=
  transaction (fun w =>
    let cutoff := Auth.w_wall w - retention_days * 86400 * 1000000 in
    let d := Auth.w_db w in
    let kept := filter (fun l => cutoff <= Db.al_created_at l) (Db.audit_log d) in
    (Ok (Z.of_nat (length (Db.audit_log d)) - Z.of_nat (length kept)),
     Auth.set_db (Db.set_audit_log kept d) w)).

(** ** What a run should do *)

(** The price that makes an alert fire, if it does. *)
Definition due (alert : Db.PriceAlert) : option Z :=
  match _cheapest_price alert with
  | Ok (Some p) => if p <=? Db.a_target_amount_minor alert then Some p else None
  | _ => None
  end.

Definition is_due (alert : Db.PriceAlert) : bool :=
  match due alert with Some _ => true | None => false end.

(** The alerts after a run at [now]. *)
Definition after_run (now : Z) (alerts : gmap Z Db.PriceAlert) : gmap Z Db.PriceAlert :=
  (fun a => if Db.a_is_active a && is_due a then retire now a else a) <$> alerts.

(** The message for an alert that fires. *)
Definition mail_of (users : gmap Z Db.User) (alert : Db.PriceAlert) : list (string * string * string) :=
  match due alert, users !! Db.a_user_id alert with
  | Some p, Some u => [(Db.email u, drop_subject alert, drop_body alert p)]
  | _, _ => []
  end.

(** ** Lemmas *)

Definition query_of (alert : Db.PriceAlert) (departure : date) : FlightSearchQuery :=
  {| fq_origin := Db.a_origin alert; fq_destination := Db.a_destination alert;
     fq_departure_date := departure; fq_adults := 1; fq_cabin_class := "economy" |}.

(** Asking for the price never fails, and gives the least price offered. *)
Lemma cheapest_spec alert :
  exists r, _cheapest_price alert = Ok r
    /\ match r with
       | None => forall d, date_fromisoformat (Db.a_departure_date alert) = Some d ->
                   AggCore.answers (Aggregation.searched _flights (query_of alert d)) = []
       | Some p => exists d, date_fromisoformat (Db.a_departure_date alert) = Some d
           /\ (exists f, f ∈ AggCore.answers (Aggregation.searched _flights (query_of alert d))
                 /\ amount_minor (f_price f) = p)
           /\ (forall f, f ∈ AggCore.answers (Aggregation.searched _flights (query_of alert d)) ->
                 p <= amount_minor (f_price f))
       end.
Proof.
  unfold _cheapest_price. destruct (date_fromisoformat _) as [d|]; [|by exists None].
  destruct (Aggregation.search_cheapest _flights (query_of alert d)) as (r & Hr & Hnil & Hcons).
  fold (query_of alert d). unfold mbind, res_bind. rewrite Hr.
  destruct (Aggregation.items r) as [|i rest] eqn:E.
  - exists None. split; [done|]. intros d' [= <-]. by apply Hnil.
  - eexists. split; [done|]. exists d. split; [done|].
    destruct (Hcons i rest eq_refl) as (_ & Hin & Hmin). split; [by exists (Aggregation.flight i)|].
    exact Hmin.
Qed.

Context `{!NotifierLaws N} `{!ReliableNotifier N}.

(** The world after an alert has fired. *)
Definition fired (alert : Db.PriceAlert) (n : N) (w : W) : W :=
  Auth.set_db
    (Db.set_alerts (<[Db.a_id alert := retire (Auth.w_wall w) alert]> (Db.alerts (Auth.w_db w)))
       (Auth.w_db w)) (Auth.set_notifier n w).

Lemma check_spec alert w :
  exists n,
    _check alert w = (Ok (is_due alert), if is_due alert then fired alert n w else w)
    /\ (is_due alert = true ->
         sent n = sent (Auth.w_notifier w) ++ mail_of (Db.users (Auth.w_db w)) alert).
Proof.
  destruct (cheapest_spec alert) as (r & Hr & _). unfold _check, is_due, mail_of, due.
  assert (lift_res (_cheapest_price alert) w = (Ok r, w)) as Hl by (unfold lift_res; by rewrite Hr).
  rewrite (m_bind_Ok _ _ _ _ _ Hl), Hr. destruct r as [p|]; [|by exists (Auth.w_notifier w)].
  rewrite Z.ltb_antisym. destruct (p <=? Db.a_target_amount_minor alert); simpl;
    [|by exists (Auth.w_notifier w)].
  assert (Auth.on_db (Db.UserRepository.get_by_id (Db.a_user_id alert)) w
          = (Ok (Db.users (Auth.w_db w) !! Db.a_user_id alert), w)) as Hu.
  { unfold Auth.on_db, zoom. simpl. by destruct w. }
  rewrite (m_bind_Ok _ _ _ _ _ Hu).
  destruct (Db.users (Auth.w_db w) !! Db.a_user_id alert) as [u|].
  - destruct (notify_delivers (Db.email u) (drop_subject alert) (drop_body alert p) (Auth.w_notifier w))
      as (n & Hn & Hs).
    assert (_notify u alert p w = (Ok tt, Auth.set_notifier n w)) as Hnot
      by (unfold _notify, Auth.on_notifier, zoom; by rewrite Hn).
    exists n. rewrite (m_bind_Ok _ _ _ _ _ Hnot). split; [reflexivity|done].
  - exists (Auth.w_notifier w). split; [by destruct w|]. intros _. by rewrite app_nil_r.
Qed.

(** The rows after the alerts of [l] have been gone through. *)
Definition retire_all (now : Z) (l : list Db.PriceAlert) (m : gmap Z Db.PriceAlert)
  : gmap Z Db.PriceAlert :=
  foldl (fun m a => if is_due a then <[Db.a_id a := retire now a]> m else m) m l.

Lemma check_all_spec l k w :
  exists w',
    check_all l k w = (Ok (k + Z.of_nat (length (filter (fun a => is_due a = true) l))), w')
    /\ Auth.w_db w' = Db.set_alerts (retire_all (Auth.w_wall w) l (Db.alerts (Auth.w_db w))) (Auth.w_db w)
    /\ Auth.w_wall w' = Auth.w_wall w
    /\ sent (Auth.w_notifier w')
       = sent (Auth.w_notifier w) ++ concat (mail_of (Db.users (Auth.w_db w)) <$> l).
Proof.
  revert k w. induction l as [|a l IH]; intros k w.
  - exists w. rewrite Z.add_0_r, app_nil_r. split_and!; [done| |done..]. by destruct (Auth.w_db w).
  - destruct (check_spec a w) as (n & Hc & Hm). cbn [check_all]. rewrite (m_bind_Ok _ _ _ _ _ Hc).
    rewrite filter_cons. unfold retire_all. simpl.
    destruct (is_due a) eqn:Ed.
    + destruct (IH (k + 1) (fired a n w)) as (w' & -> & Hdb & Hw & Hs).
      exists w'. rewrite decide_True by done. split_and!; [|by rewrite Hdb|done|].
      * do 2 f_equal. simpl. lia.
      * rewrite Hs. simpl. rewrite Hm by done. by rewrite <- app_assoc.
    + destruct (IH k w) as (w' & -> & Hdb & Hw & Hs).
      exists w'. rewrite decide_False by done. split_and!; [done|by rewrite Hdb|done|].
      rewrite Hs. unfold mail_of, is_due in *. by destruct (due a).
Qed.

Lemma lookup_retire_all now l m id :
  NoDup (Db.a_id <$> l) ->
  retire_all now l m !! id =
    match list_find (fun a => Db.a_id a = id /\ is_due a = true) l with
    | Some (_, a) => Some (retire now a)
    | None => m !! id
    end.
Proof.
  revert m. induction l as [|a l IH]; intros m Hnd; [done|].
  simpl in Hnd. apply NoDup_cons in Hnd as [Hnin Hnd]. unfold retire_all. simpl.
  fold (retire_all now l (if is_due a then <[Db.a_id a:=retire now a]> m else m)).
  rewrite IH by done. destruct (decide (Db.a_id a = id /\ is_due a = true)) as [[<- Hdue]|Hno].
  - assert (list_find (fun a' => Db.a_id a' = Db.a_id a /\ is_due a' = true) l = None) as ->.
    { apply list_find_None. apply Forall_forall. intros b Hb [Hid _]. apply Hnin.
      rewrite <- Hid. by apply list_elem_of_fmap_2. }
    by rewrite Hdue, lookup_insert_eq.
  - destruct (list_find _ l) as [[i b]|]; simpl; [done|].
    destruct (is_due a) eqn:Ed; [|done]. rewrite lookup_insert_ne; [done|]. tauto.
Qed.

Definition active_alerts (d : Db.db) : list Db.PriceAlert :=
  filter (fun a => Db.a_is_active a = true) (Db.rows (Db.alerts d)).

Lemma elem_active d a :
  Db.ok d -> a ∈ active_alerts d <-> Db.alerts d !! Db.a_id a = Some a /\ Db.a_is_active a = true.
Proof.
  intros Hok. unfold active_alerts. rewrite list_elem_of_filter, Db.elem_rows. split.
  - intros [Ha (id & Hid)]. by rewrite (Db.ok_alert_id d Hok id a Hid).
  - intros [Hid Ha]. eauto.
Qed.

Lemma NoDup_active d : Db.ok d -> NoDup (Db.a_id <$> active_alerts d).
Proof.
  intros Hok. unfold active_alerts, Db.rows. rewrite filter_fmap_list, <- list_fmap_compose.
  replace ((Db.a_id ∘ snd) <$> filter (fun x => Db.a_is_active x.2 = true) (map_to_list (Db.alerts d)))
    with ((filter (fun x => Db.a_is_active x.2 = true) (map_to_list (Db.alerts d))).*1).
  - eapply sublist_NoDup; [apply (NoDup_fst_map_to_list (Db.alerts d))|]. apply fmap_sublist, sublist_filter.
  - apply list_fmap_ext. intros i [id a] Hin%list_elem_of_lookup_2.
    apply list_elem_of_filter in Hin as [_ Hin%elem_of_map_to_list]. simpl. symmetry.
    by apply (Db.ok_alert_id d Hok).
Qed.

Lemma retire_all_active now d :
  Db.ok d -> retire_all now (active_alerts d) (Db.alerts d) = after_run now (Db.alerts d).
Proof.
  intros Hok. apply map_eq. intros id. rewrite lookup_retire_all by (by apply NoDup_active).
  unfold after_run. rewrite lookup_fmap.
  destruct (list_find _ (active_alerts d)) as [[i b]|] eqn:E.
  - apply list_find_Some in E as (Hb%list_elem_of_lookup_2 & [<- Hdue] & _).
    apply elem_active in Hb as [Hb Ha]; [|done]. by rewrite Hb; simpl; rewrite Ha, Hdue.
  - apply list_find_None in E. rewrite Forall_forall in E.
    destruct (Db.alerts d !! id) as [a|] eqn:Ha; [simpl|done]. f_equal.
    pose proof (Db.ok_alert_id d Hok id a Ha) as <-.
    destruct (Db.a_is_active a) eqn:Hact; [|done]. destruct (is_due a) eqn:Hdue; [|done].
    exfalso. apply (E a); [by apply elem_active|done].
Qed.

Lemma run_spec w :
  Db.ok (Auth.w_db w) ->
  let active := active_alerts (Auth.w_db w) in
  exists w',
    run_once w = (Ok {| checked := Z.of_nat (length active);
                        triggered := Z.of_nat (length (filter (fun a => is_due a = true) active)) |}, w')
    /\ Auth.w_db w' = Db.set_alerts (after_run (Auth.w_wall w) (Db.alerts (Auth.w_db w))) (Auth.w_db w)
    /\ sent (Auth.w_notifier w')
       = sent (Auth.w_notifier w) ++ concat (mail_of (Db.users (Auth.w_db w)) <$> active).
Proof.
  intros Hok. cbv zeta. unfold run_once.
  assert (Auth.on_db Db.PriceAlertRepository.list_active w = (Ok (active_alerts (Auth.w_db w)), w)) as Hl.
  { unfold Auth.on_db, zoom. simpl. by destruct w. }
  rewrite (m_bind_Ok _ _ _ _ _ Hl).
  destruct (check_all_spec (active_alerts (Auth.w_db w)) 0 w) as (w' & Hc & Hdb & _ & Hs).
  rewrite (m_bind_Ok _ _ _ _ _ Hc). exists w'. split; [reflexivity|]. split; [|done].
  by rewrite Hdb, retire_all_active.
Qed.

(** C12. A run of the monitor: when messages can be sent, the run succeeds,
    every active alert that is due and no other is retired, stamped with the
    time of the run, each of their owners gets the message of each alert, and
    the report counts them; nothing else in the tables changes. *)
Theorem monitor_run w :
  Db.ok (Auth.w_db w) ->
  let active := active_alerts (Auth.w_db w) in
  exists w',
    run_once w = (Ok {| checked := Z.of_nat (length active);
                        triggered := Z.of_nat (length (filter (fun a => is_due a = true) active)) |}, w')
    /\ Auth.w_db w' = Db.set_alerts (after_run (Auth.w_wall w) (Db.alerts (Auth.w_db w))) (Auth.w_db w)
    /\ sent (Auth.w_notifier w')
       = sent (Auth.w_notifier w) ++ concat (mail_of (Db.users (Auth.w_db w)) <$> active).
Proof. apply run_spec. Qed.

(** An alert fires exactly when a provider that answers offers a fare on
    its route and day at or below the target, and the price in its message is
    the least one offered; a date that is no date never fires. *)
Theorem alert_fires_iff alert :
  (forall p, due alert = Some p ->
     p <= Db.a_target_amount_minor alert
     /\ exists d, date_fromisoformat (Db.a_departure_date alert) = Some d
        /\ (exists f, f ∈ AggCore.answers (Aggregation.searched _flights (query_of alert d))
              /\ amount_minor (f_price f) = p)
        /\ (forall f, f ∈ AggCore.answers (Aggregation.searched _flights (query_of alert d)) ->
              p <= amount_minor (f_price f)))
  /\ (forall d f, date_fromisoformat (Db.a_departure_date alert) = Some d ->
       f ∈ AggCore.answers (Aggregation.searched _flights (query_of alert d)) ->
       amount_minor (f_price f) <= Db.a_target_amount_minor alert -> is_due alert = true).
Proof.
  destruct (cheapest_spec alert) as (r & Hr & Hs). unfold is_due, due. rewrite Hr. split.
  - intros p. destruct r as [q|]; [|done].
    destruct (Z.leb_spec q (Db.a_target_amount_minor alert)); [|done]. by intros [= <-].
  - intros d f Hd Hf Hle. destruct r as [q|].
    + destruct Hs as (d' & Hd' & _ & Hmin). rewrite Hd in Hd'. injection Hd' as <-.
      specialize (Hmin f Hf). destruct (Z.leb_spec q (Db.a_target_amount_minor alert)); [done|lia].
    + rewrite (Hs d Hd) in Hf. by apply not_elem_of_nil in Hf.
Qed.

End monitor.

(** An alert fires at most once: a later run, whenever it comes, whatever
    the fares and the service are by then and whatever else happened to the
    notifier, leaves the alerts an earlier run retired exactly as they were
    retired, and sends no message for them. *)
Theorem alerts_fire_once {C N R} `{NotifierLaws N} `{!ReliableNotifier N} flights flights2 (w : Auth.world C N R) :
  Db.ok (Auth.w_db w) ->
  exists r w', run_once flights w = (Ok r, w')
    /\ forall w2 : Auth.world C N R, Auth.w_db w2 = Auth.w_db w' -> Db.ok (Auth.w_db w2) ->
       exists r2 w3, run_once flights2 w2 = (Ok r2, w3)
         /\ (forall id a, Db.alerts (Auth.w_db w) !! id = Some a -> Db.a_is_active a = true ->
              is_due flights a = true ->
              Db.alerts (Auth.w_db w3) !! id = Some (retire (Auth.w_wall w) a)
              /\ retire (Auth.w_wall w) a ∉ active_alerts (Auth.w_db w2))
         /\ sent (Auth.w_notifier w3)
            = sent (Auth.w_notifier w2)
              ++ concat (mail_of flights2 (Db.users (Auth.w_db w2)) <$> active_alerts (Auth.w_db w2)).
Proof.
  intros Hok. destruct (run_spec flights w Hok) as (w' & Hr & Hdb & _). eexists _, w'.
  split; [exact Hr|]. intros w2 Hw2 Hok2.
  destruct (run_spec flights2 w2 Hok2) as (w3 & Hr2 & Hdb3 & Hs3). eexists _, w3.
  split; [exact Hr2|]. split; [|exact Hs3]. intros id a Ha Hact Hdue. split.
  - rewrite Hdb3, Hw2, Hdb. simpl. unfold after_run. rewrite !lookup_fmap, Ha. simpl.
    by rewrite Hact, Hdue.
  - unfold active_alerts. rewrite list_elem_of_filter. by intros [? _].
Qed.

(** ** Fixtures *)

Definition sample_alert (id target : Z) (day : string) : Db.PriceAlert :=
  {| Db.a_id := id; Db.a_user_id := 5; Db.a_origin := "THR"; Db.a_destination := "IST";
     Db.a_departure_date := day; Db.a_target_amount_minor := target; Db.a_currency := "USD";
     Db.a_channel := Db.EMAIL; Db.a_is_active := true; Db.a_triggered_at := None;
     Db.a_created_at := 0 |}.

Definition sample_owner : Db.User :=
  {| Db.u_id := 5; Db.email := "ann@example.com"; Db.hashed_password := "$pw"; Db.full_name := None;
     Db.role := Db.USER; Db.is_active := true; Db.is_verified := true; Db.u_created_at := 0 |}.

Definition sample_db (alerts : list Db.PriceAlert) : Db.db :=
  Db.set_alerts (list_to_map ((fun a => (Db.a_id a, a)) <$> alerts))
    (Db.set_users {[5 := sample_owner]} Db.empty).

(** Two alerts at 150.00, one at 100.00 and one with a date that is none; the
    cheapest fare is 140.00. *)
Definition sample_alerts : list Db.PriceAlert :=
  [sample_alert 1 15000 "2026-08-10"; sample_alert 2 15000 "2026-08-10";
   sample_alert 3 10000 "2026-08-10"; sample_alert 4 15000 "2026-02-30"].

Definition sample_world (alerts : list Db.PriceAlert)
  : Auth.world unit ConsoleNotifier.notifier unit :=
  {| Auth.w_db := sample_db alerts; Auth.w_cache := tt; Auth.w_notifier := []; Auth.w_rand := tt;
     Auth.w_wall := 1767225600250000; Auth.w_mono := 0 |}.

Lemma sample_alerts_lookup id a :
  Db.alerts (sample_db sample_alerts) !! id = Some a -> a ∈ sample_alerts /\ Db.a_id a = id.
Proof.
  intros Ha. change (Db.alerts (sample_db sample_alerts))
    with (list_to_map ((fun a => (Db.a_id a, a)) <$> sample_alerts) : gmap Z Db.PriceAlert) in Ha.
  apply elem_of_list_to_map_2, list_elem_of_fmap in Ha as (b & [= -> ->] & Hb). done.
Qed.

Lemma sample_db_ok : Db.ok (sample_db sample_alerts).
Proof.
  assert (forall id u, Db.users (sample_db sample_alerts) !! id = Some u -> id = 5 /\ u = sample_owner)
    as Hu by (unfold sample_db; simpl; by intros id u [<- <-]%lookup_singleton_Some).
  constructor.
  - intros id u [-> ->]%Hu. lia.
  - by intros id u [-> ->]%Hu.
  - by intros id u [-> ->]%Hu.
  - by intros id id' u u' [-> ->]%Hu [-> ->]%Hu.
  - by intros id a [_ ?]%sample_alerts_lookup.
  - intros id a [Ha _]%sample_alerts_lookup. exists sample_owner.
    assert (Db.a_user_id a = 5) as ->; [|done].
    revert a Ha. apply Forall_forall. by repeat constructor.
Qed.

Lemma monitor_run_witness :
  exists w', run_once Aggregation.sample_service (sample_world sample_alerts)
             = (Ok {| checked := 4; triggered := 2 |}, w')
    /\ length (Auth.w_notifier w') = 2%nat.
Proof.
  destruct (monitor_run Aggregation.sample_service (sample_world sample_alerts) sample_db_ok)
    as (w' & Hr & _ & Hs).
  exists w'. split; [exact (eq_trans Hr eq_refl)|]. simpl in Hs. rewrite Hs. vm_compute. reflexivity.
Defined.

Lemma alert_fires_iff_witness :
  is_due Aggregation.sample_service (sample_alert 1 15000 "2026-08-10") = true.
Proof.
  apply (proj2 (alert_fires_iff Aggregation.sample_service (sample_alert 1 15000 "2026-08-10"))
    {| year := 2026; month := 8; day := 10 |} (Aggregation.sample_flight "b" "klm" 8 14000 0 120)).
  - vm_compute. reflexivity.
  - apply list_elem_of_In. vm_compute. repeat (first [left; reflexivity|right]).
  - discriminate.
Defined.

Lemma alerts_fire_once_witness :
  exists r w', run_once Aggregation.sample_service (sample_world sample_alerts) = (Ok r, w').
Proof.
  destruct (alerts_fire_once Aggregation.sample_service Aggregation.sample_service
    (sample_world sample_alerts) sample_db_ok) as (r & w' & Hr & _).
  exists r, w'. exact Hr.
Defined.

(** *** A notifier that stops working *)

Record flaky : Type := { delivered : list (string * string * string); budget : nat }.

#[global] Instance flaky_notifier : Notifier flaky := {|
  notify to subject body := fun n =>
    match budget n with
    | O => (Err (PyError "SMTPException" "connection lost"), n)
    | S b => (Ok tt, {| delivered := delivered n ++ [(to, subject, body)]; budget := b |})
    end;
|}.

Definition flaky_world (d : Db.db) (n : flaky) : Auth.world unit flaky unit :=
  {| Auth.w_db := d; Auth.w_cache := tt; Auth.w_notifier := n; Auth.w_rand := tt;
     Auth.w_wall := 1767225600250000; Auth.w_mono := 0 |}.

(** One message that cannot be sent undoes the whole run in the tables but not
    in the mailboxes: the alert whose message did go out is active again, and
    its owner gets the message once more from the next run. *)
Lemma failed_run_mails_again :
  let d := sample_db (take 2 sample_alerts) in
  let first := _monitor_prices Aggregation.sample_service
                 (flaky_world d {| delivered := []; budget := 1 |}) in
  first.1 = Err (PyError "SMTPException" "connection lost")
  /\ Auth.w_db first.2 = d
  /\ length (delivered (Auth.w_notifier first.2)) = 1%nat
  /\ let second := _monitor_prices Aggregation.sample_service
                     (flaky_world (Auth.w_db first.2)
                        {| delivered := delivered (Auth.w_notifier first.2); budget := 9 |}) in
     second.1 = Ok 2
     /\ exists m m', delivered (Auth.w_notifier second.2) = [m; m; m'].
Proof. vm_compute. split_and!; try done. by eexists _, _. Qed.

End PriceMonitor.
