(* ===== verification/Api.v ===== *)
(** * The HTTP interface

    [app/api/]: the dependencies every request goes through and the handlers
    behind them.  A request runs in the [world] of [Auth.v] with a rate
    limiter beside it; [get_session] makes a handler one transaction.  The
    framework's part -- routing, parsing of parameters against their declared
    constraints, serialisation to JSON -- is not modelled: a handler starts from
    parsed parameters and ends in the response object. *)
From S2P Require Import Prelude PyStr PyDict Float64 Errors PyUuid PySorted Cache RateLimit ClientIp.
From S2P Require Import Config Domain AggCore Aggregation HotelAggregation Schemas Security TokenBlocklist.
From S2P Require Import Notifications Db TravelOut Auth.
Import PyStr Calendar Domain.Domain TravelOut.

Module Api.

Record api (C N R L : Type) : Type := { a_world : Auth.world C N R; a_limiter : L }.
Arguments a_world {C N R L} _.
Arguments a_limiter {C N R L} _.

Definition set_world {C N R L} (w : Auth.world C N R) (s : api C N R L) : api C N R L :=
  {| a_world := w; a_limiter := a_limiter s |}.
Definition set_limiter {C N R L} (l : L) (s : api C N R L) : api C N R L :=
  {| a_world := a_world s; a_limiter := l |}.

Section api.
Context {C N R L : Type} `{Cache C} `{Notifier N} `{Entropy R} `{Jwt} `{RateLimiter L}.
(** What the container holds. *)
Variable settings : Config.Settings.
Variable proxy_trust : ClientIp.ProxyTrust.
Variable _DUMMY_HASH : string.

Abbreviation W := (Auth.world C N R).
Abbreviation S := (api C N R L).

Definition on_world {A} (m : M exn W A) : M exn S A := zoom a_world set_world m.

(** ** Dependencies *)

(** [request.client_ip or "anonymous"]. *)
Definition identity_of (request : ClientIp.Request) : string :=
  match ClientIp.client_ip proxy_trust request with
  | Some ip => if bool_decide (ip = ""%string) then "anonymous" else ip
  | None => "anonymous"
  end.

(** [enforce_rate_limit]; what it leaves on the request is returned. *)
Definition enforce_rate_limit (request : ClientIp.Request) : M exn S Z :=
  fun s =>
    match rl_check (Auth.w_mono (a_world s)) (identity_of request) (a_limiter s) with
    | (Ok (allowed, remaining), l) =>
        if (allowed : bool) then (Ok remaining, set_limiter l s)
        else (Err (AppError RateLimitedError "rate limit exceeded, slow down"
                     [("limit_per_minute"%string, JInt (rl_limit l))]), set_limiter l s)
    | (Err e, l) => (Err e, set_limiter l s)
    end.

(** [get_session]: commit when the handler returns, roll back when it raises. *)
Definition get_session {A} (m : M exn W A) : M exn W A :=
  fun w =>
    match m w with
    | (Ok a, w') => (Ok a, w')
    | (Err e, w') => (Err e, Auth.set_db (Auth.w_db w) w')
    end.

(** [get_access_payload]. *)
Definition get_access_payload (credentials : option string) : M exn W (list (string * json)) :=
  match credentials with
  | None => raise (app_err AuthenticationError "missing bearer token")
  | Some token =>
      payload ← Auth._decode settings token Security.access;
      revoked ← Auth.is_revoked payload;
      if (revoked : bool) then raise (app_err AuthenticationError "this session has been revoked")
      else mret payload
  end.

(** [get_current_user]. *)
Definition get_current_user (payload : list (string * json)) : M exn W Db.User :=
  Auth.active_user payload (app_err AuthenticationError "user no longer exists or is disabled").

(** [get_optional_user]: neither the blocklist nor [is_active] is looked at. *)
Definition get_optional_user (credentials : option string) : M exn W (option Db.User) :=
  match credentials with
  | None => mret None
  | Some token => fun w =>
      match Security.decode_token token Security.access settings (Auth.w_wall w) with
      | Err (TokenError _) => (Ok None, w)
      | Err e => (Err e, w)
      | Ok payload =>
          match Auth.subject_of payload with
          | Ok id => Auth.on_db (Db.UserRepository.get_by_id id) w
          | Err e => (Err e, w)
          end
      end
  end.

Definition require_admin (user : Db.User) : res exn Db.User :=
  if bool_decide (Db.role user = Db.ADMIN) then Ok user
  else Err (app_err PermissionDeniedError "admin privileges required").

Definition current_user (credentials : option string) : M exn W Db.User :=
  payload ← get_access_payload credentials;
  get_current_user payload.

(** A route: the limiter first, then the handler in its session. *)
Definition route {A} (request : ClientIp.Request) (handler : M exn W A) : M exn S A :=
  _ ← enforce_rate_limit request;
  on_world (get_session handler).

(** ** Authentication endpoints *)

(** [session.add(AuditLog(...))]. *)
Definition audit (actor : Z) (act : string) (request : ClientIp.Request) : M exn W unit :=
  fun w =>
    let entry := {| Db.actor_id := Some actor; Db.action := act; Db.detail := "";
                    Db.ip_address := ClientIp.client_ip proxy_trust request;
                    Db.al_created_at := Auth.w_wall w |} in
    (Ok tt, Auth.set_db (Db.set_audit_log (Db.audit_log (Auth.w_db w) ++ [entry]) (Auth.w_db w)) w).

Record UserOut : Type := {
  uo_id : Z;
  uo_email : string;
  uo_full_name : option string;
  uo_role : Db.UserRole;
  uo_is_verified : bool;
  uo_created_at : Z;
}.

Definition user_out (u : Db.User) : UserOut :=
  {| uo_id := Db.u_id u; uo_email := Db.email u; uo_full_name := Db.full_name u;
     uo_role := Db.role u; uo_is_verified := Db.is_verified u; uo_created_at := Db.u_created_at u |}.

Definition register (request : ClientIp.Request) (payload : Schemas.RegisterRequest) : M exn S UserOut :=
  route request
    (user ← Auth.register settings (Schemas.email payload) (Schemas.password payload)
              (Schemas.full_name payload);
     _ ← audit (Db.u_id user) "user.register" request;
     mret (user_out user)).

Definition login (request : ClientIp.Request) (email password : string) : M exn S Auth.TokenPair :=
  route request
    (user ← Auth.authenticate _DUMMY_HASH email password;
     _ ← audit (Db.u_id user) "user.login" request;
     Auth.issue_tokens settings (Db.u_id user)).

Definition refresh (request : ClientIp.Request) (token : string) : M exn S Auth.TokenPair :=
  route request (Auth.refresh settings token).

Definition me (request : ClientIp.Request) (credentials : option string) : M exn S UserOut :=
  route request (user ← current_user credentials; mret (user_out user)).

Definition verify_email (request : ClientIp.Request) (token : string) : M exn S string :=
  route request (_ ← Auth.verify_email settings token; mret "email verified"%string).

Definition resend_verification (request : ClientIp.Request) (email : string) : M exn S string :=
  route request
    (_ ← Auth.resend_verification settings email;
     mret "if the account exists, a verification email was sent"%string).

Definition request_password_reset (request : ClientIp.Request) (email : string) : M exn S string :=
  route request
    (_ ← Auth.request_password_reset settings email;
     mret "if the account exists, a reset email was sent"%string).

Definition confirm_password_reset (request : ClientIp.Request) (token new_password : string)
  : M exn S string :=
  route request (_ ← Auth.reset_password settings token new_password; mret "password updated"%string).

Definition logout (request : ClientIp.Request) (credentials refresh_token : option string)
  : M exn S string :=
  route request
    (access_payload ← get_access_payload credentials;
     _ ← Auth.logout settings access_payload refresh_token;
     actor ← lift_res (Auth.subject_of access_payload);
     _ ← audit actor "user.logout" request;
     mret "logged out"%string).

(** ** Price alerts *)

Definition channel_of (s : string) : res exn Db.AlertChannel :=
  if bool_decide (s = "email"%string) then Ok Db.EMAIL
  else if bool_decide (s = "push"%string) then Ok Db.PUSH
  else Err (PyError "ValueError" s).

Definition insert_alert (id : Z) (user : Db.User) (payload : Schemas.PriceAlertCreate)
    (channel : Db.AlertChannel) : M exn W Db.PriceAlert :=
  fun w =>
    Auth.on_db (Db.PriceAlertRepository.create id (Auth.w_wall w) (Db.u_id user)
      (upper (Schemas.origin payload)) (upper (Schemas.destination payload))
      (Schemas.departure_date payload) (Schemas.target_amount_minor payload)
      (upper (Schemas.currency payload)) channel) w.

Definition create_alert (request : ClientIp.Request) (credentials : option string)
    (payload : Schemas.PriceAlertCreate) : M exn S PriceAlertOut :=
  route request
    (user ← current_user credentials;
     if bool_decide (upper (Schemas.origin payload) = upper (Schemas.destination payload)) then
       raise (app_err AppErrorBase "origin and destination must differ")
     else
       channel ← lift_res (channel_of (Schemas.channel payload));
       id ← Auth.on_rand Auth.draw_uuid;
       alert ← insert_alert id user payload channel;
       mret (alert_out alert)).

Definition list_alerts (request : ClientIp.Request) (credentials : option string)
  : M exn S (list PriceAlertOut) :=
  route request
    (user ← current_user credentials;
     alerts ← Auth.on_db (Db.PriceAlertRepository.list_for_user (Db.u_id user));
     mret (alert_out <$> alerts)).

Definition delete_alert (request : ClientIp.Request) (credentials : option string) (alert_id : string)
  : M exn S unit :=
  route request
    (user ← current_user credentials;
     match PyUuid.parse_uuid alert_id with
     | None => raise (app_err NotFoundError "alert not found")
     | Some parsed =>
         alert ← Auth.on_db (Db.PriceAlertRepository.get_owned parsed (Db.u_id user));
         match alert with
         | None => raise (app_err NotFoundError "alert not found")
         | Some a => Auth.on_db (Db.PriceAlertRepository.delete_ a)
         end
     end).

(** ** Travel search *)

(** The parsed query parameters of [search_flights]. *)
Record FlightParams : Type := {
  fp_origin : string;
  fp_destination : string;
  fp_departure_date : date;
  fp_adults : Z;
  fp_cabin : string;
  fp_sort : Aggregation.SortKey;
  fp_max_price : option Z;
  fp_max_stops : option Z;
  fp_airlines : option (list string);
  fp_direct_only : bool;
  fp_limit : Z;
  fp_cursor : option string;
}.

(** The pattern of an airport code: three letters. *)
Definition _IATA (s : string) : bool := (len s =? 3) && isalpha s.

(** The constraints the parameters are declared with. *)
Definition valid_flight_params (p : FlightParams) : bool :=
  _IATA (fp_origin p) && _IATA (fp_destination p)
  && (1 <=? fp_adults p) && (fp_adults p <=? 9)
  && bool_decide (fp_cabin p ∈ ["economy"; "premium"; "business"; "first"]%string)
  && from_option (fun v => 0 <=? v) true (fp_max_price p)
  && from_option (fun v => (0 <=? v) && (v <=? 3)) true (fp_max_stops p)
  && (1 <=? fp_limit p) && (fp_limit p <=? 100).

Definition flight_query (p : FlightParams) : FlightSearchQuery :=
  {| fq_origin := upper (fp_origin p); fq_destination := upper (fp_destination p);
     fq_departure_date := fp_departure_date p; fq_adults := fp_adults p;
     fq_cabin_class := fp_cabin p |}.

Definition flight_filters (p : FlightParams) : Aggregation.FlightFilters :=
  {| Aggregation.max_price_minor := fp_max_price p;
     Aggregation.max_stops := fp_max_stops p;
     Aggregation.airlines := list_to_set (lower <$> default [] (fp_airlines p));
     Aggregation.direct_only := fp_direct_only p |}.

(** [session.add(SearchHistory(...))]. *)
Definition record_search (user : Db.User) (p : FlightParams) (total latency_ms : Z) : M exn W unit :=
  fun w =>
    let row := {| Db.sh_user_id := Db.u_id user; Db.sh_origin := fq_origin (flight_query p);
                  Db.sh_destination := fq_destination (flight_query p);
                  Db.sh_departure_date := date_isoformat (fp_departure_date p);
                  Db.sh_result_count := total; Db.sh_latency_ms := latency_ms |} in
    (Ok tt, Auth.set_db (Db.set_searches (Db.searches (Auth.w_db w) ++ [row]) (Auth.w_db w)) w).

(** [elapsed] is the difference of the two readings of the performance
    counter. *)
Definition search_flights (service : Aggregation.Service) (elapsed : Z) (request : ClientIp.Request)
    (credentials : option string) (p : FlightParams) : M exn S FlightSearchResponse :=
  route request
    (user ← get_optional_user credentials;
     if bool_decide (upper (fp_origin p) = upper (fp_destination p)) then
       raise (app_err AppErrorBase "origin and destination must differ")
     else
       result ← lift_res (Aggregation.search service (flight_query p) (fp_sort p)
                            (Some (flight_filters p)) (fp_limit p) (fp_cursor p));
       _ ← match user with
           | Some u =>
               record_search u p (AggCore.total (Aggregation.meta result))
                 (F64.to_int (F64.mul elapsed (1000 * F64.one)))
           | None => mret tt
           end;
       mret (flight_response result)).

Record HotelParams : Type := {
  hp_city : string;
  hp_check_in : date;
  hp_check_out : date;
  hp_guests : Z;
  hp_sort : HotelAggregation.HotelSortKey;
  hp_max_price : option Z;
  hp_min_rating : option Z;
  hp_amenities : option (list string);
  hp_limit : Z;
  hp_cursor : option string;
}.

Definition valid_hotel_params (p : HotelParams) : bool :=
  (2 <=? len (hp_city p)) && (len (hp_city p) <=? 64)
  && (1 <=? hp_guests p) && (hp_guests p <=? 8)
  && from_option (fun v => 0 <=? v) true (hp_max_price p)
  && from_option (fun v => (0 <=? v) && (v <=? 5 * F64.one)) true (hp_min_rating p)
  && (1 <=? hp_limit p) && (hp_limit p <=? 100).

Definition hotel_query (p : HotelParams) : HotelSearchQuery :=
  {| hq_city := hp_city p; hq_check_in := hp_check_in p; hq_check_out := hp_check_out p;
     hq_guests := hp_guests p |}.

Definition hotel_filters (p : HotelParams) : HotelAggregation.HotelFilters :=
  {| HotelAggregation.max_price_minor := hp_max_price p;
     HotelAggregation.min_rating := hp_min_rating p;
     HotelAggregation.amenities := list_to_set (lower <$> default [] (hp_amenities p)) |}.

Definition search_hotels (service : HotelAggregation.Service) (request : ClientIp.Request)
    (p : HotelParams) : M exn S HotelSearchResponse :=
  route request
    (if date_leb (hp_check_out p) (hp_check_in p) then
       raise (app_err AppErrorBase "check-out must be after check-in")
     else
       result ← lift_res (HotelAggregation.search service (hotel_query p) (hp_sort p)
                            (Some (hotel_filters p)) (hp_limit p) (hp_cursor p));
       mret (hotel_response result)).

(** ** Weather and currency

    The provider is the port the container fills; its state [P] is the world of
    its HTTP client. *)

Definition get_weather {P} (provider : Z -> Z -> date -> M exn P WeatherForecast)
    (request : ClientIp.Request) (latitude longitude : Z) (day : date) : M exn (S * P) WeatherOut :=
  _ ← zoom fst (fun s sp => (s, sp.2)) (enforce_rate_limit request);
  forecast ← zoom snd (fun p sp => (sp.1, p)) (provider latitude longitude day);
  mret (weather_out forecast).

Definition convert_currency {P} (provider : string -> string -> Z -> M exn P CurrencyConversion)
    (request : ClientIp.Request) (base quote : string) (amount : Z) : M exn (S * P) CurrencyOut :=
  _ ← zoom fst (fun s sp => (s, sp.2)) (enforce_rate_limit request);
  conversion ← zoom snd (fun p sp => (sp.1, p)) (provider base quote amount);
  mret (currency_out conversion).

(** ** Administration *)

Record AdminMetrics : Type := {
  total_users : Z;
  total_searches : Z;
  active_alerts : Z;
  popular_routes : list (string * Z);
}.

(** The searches of each route, in order of first appearance. *)
Definition route_counts (l : list Db.SearchHistory) : list ((string * string) * Z) :=
  foldl (fun acc r =>
           let k := (Db.sh_origin r, Db.sh_destination r) in
           PyDict.set acc k (default 0 (PyDict.get acc k) + 1)) [] l.

Definition collect_metrics : M exn W AdminMetrics :=
  fun w =>
    let d := Auth.w_db w in
    (Ok {| total_users := Z.of_nat (size (Db.users d));
           total_searches := Z.of_nat (length (Db.searches d));
           active_alerts :=
             Z.of_nat (length (filter (fun a => Db.a_is_active a = true) (Db.rows (Db.alerts d))));
           popular_routes :=
             (fun rc => (rc.1.1 +:+ "-" +:+ rc.1.2, rc.2)) <$>
               take 10 (PySorted.sorted_by (fun rc => - rc.2) (route_counts (Db.searches d))) |}, w).

Definition metrics (credentials : option string) : M exn W AdminMetrics :=
  get_session
    (user ← current_user credentials;
     _ ← lift_res (require_admin user);
     collect_metrics).

End api.

(** ** Probes *)

Record HealthOut : Type := { status : string; version : string }.

Definition live (version : string) : HealthOut := {| status := "alive"; version := version |}.

(** [select_one]: a session that runs [SELECT 1]. *)
Definition ready {D} (version : string) (select_one : M exn D unit) : M exn D HealthOut :=
  ((_ ← select_one; mret {| status := "ready"; version := version |})
   except (fun _ => raise (app_err ProviderUnavailableError "database is not reachable")))%effect.

End Api.
