(* ===== verification/ApiSpec.v ===== *)
(** * Properties of the HTTP interface

    What the dependencies and handlers of [Api.v] guarantee, for any limiter,
    cache, notifier, token library and hasher that keep their interfaces. *)
From S2P Require Import Prelude PyStr PyDict Float64 Errors PyUuid PySorted Cache RateLimit ClientIp.
From S2P Require Import Config Domain AggCore Aggregation Schemas Security TokenBlocklist Notifications.
From S2P Require Import Db TravelOut Auth AuthSpec TokenSpec Api.
Import PyStr Auth Api TravelOut.

Module ApiSpec.

Section spec.
Context {C N R L : Type} `{CacheLaws C} `{NotifierLaws N} `{EntropyLaws R} `{JwtLaws} `{RateLimiterLaws L}.
Variable settings : Config.Settings.
Variable proxy_trust : ClientIp.ProxyTrust.

Abbreviation W := (world C N R).
Abbreviation S := (api C N R L).

Definition too_many (limit : Z) : exn :=
  AppError RateLimitedError "rate limit exceeded, slow down" [("limit_per_minute"%string, JInt limit)].

(** Does the limiter let the request in? *)
Definition admitted (request : ClientIp.Request) (s : S) : bool :=
  match (rl_check (w_mono (a_world s)) (identity_of proxy_trust request) (a_limiter s)).1 with
  | Ok (allowed, _) => allowed
  | Err _ => false
  end.

Definition limiter_after (request : ClientIp.Request) (s : S) : L :=
  (rl_check (w_mono (a_world s)) (identity_of proxy_trust request) (a_limiter s)).2.

Lemma enforce_spec request s :
  exists remaining, 0 <= remaining /\
    enforce_rate_limit proxy_trust request s =
      (if admitted request s then Ok remaining else Err (too_many (rl_limit (a_limiter s))),
       set_limiter (limiter_after request s) s).
Proof.
  destruct (rl_check_law (w_mono (a_world s)) (identity_of proxy_trust request) (a_limiter s))
    as (allowed & remaining & l & Hc & Hl & Hr & _).
  exists remaining. split; [done|]. unfold enforce_rate_limit, admitted, limiter_after. rewrite Hc. simpl.
  destruct allowed; [done|]. by rewrite Hl.
Qed.

(** What a route does with its handler. *)
Lemma route_eq {A} request (handler : M exn W A) s :
  route proxy_trust request handler s =
    if admitted request s then
      let r := get_session handler (a_world s) in
      (r.1, {| a_world := r.2; a_limiter := limiter_after request s |})
    else (Err (too_many (rl_limit (a_limiter s))), set_limiter (limiter_after request s) s).
Proof.
  destruct (enforce_spec request s) as (remaining & _ & He). unfold route.
  destruct (admitted request s).
  - m_run He. unfold on_world, zoom. simpl.
    by destruct (get_session handler (a_world s)).
  - by m_run He.
Qed.

(** C9. Every rate limited route: a request the limiter refuses is answered
    429 with the limit, its handler does not run and only the limiter has
    changed; a request it admits is answered by its handler, whose changes to
    the tables are kept when it returns and undone when it raises. *)
Theorem route_spec {A} request (handler : M exn W A) s :
  let s' := (route proxy_trust request handler s).2 in
  let r := handler (a_world s) in
  (admitted request s = false ->
     route proxy_trust request handler s
       = (Err (too_many (rl_limit (a_limiter s))), set_limiter (limiter_after request s) s)
     /\ forall trace, Errors.resp_status (Errors.handle_exception trace (too_many (rl_limit (a_limiter s)))) = 429)
  /\ (admitted request s = true ->
     (route proxy_trust request handler s).1 = r.1
     /\ a_limiter s' = limiter_after request s
     /\ (is_ok r.1 = true -> a_world s' = r.2)
     /\ (is_ok r.1 = false -> a_world s' = set_db (w_db (a_world s)) r.2)).
Proof.
  cbv zeta. rewrite route_eq. split; intros ->; [by split|]. simpl. unfold get_session.
  by destruct (handler (a_world s)) as [[a|e] w'].
Qed.

(** ** Who is calling *)

Lemma current_user_eq token (w : W) :
  current_user settings (Some token) w
  = TokenSpec.session_of settings Security.access "user no longer exists or is disabled" token w.
Proof.
  unfold current_user, get_access_payload, TokenSpec.session_of, mbind, m_bind.
  destruct (_decode settings token Security.access w) as [[p|e] w1]; [|done].
  by destruct (is_revoked p w1) as [[[]|e] w2].
Qed.

(** C11. Any text sent as a bearer token gives access, to exactly the account it
    names, exactly when it is a genuine access token -- signed with the key of
    the service, unexpired, of type access, with a subject -- that is not on
    the blocklist and whose subject is an existing, active account.  Every
    other text, and no text at all, is refused, each reason with its own
    exception: a 401 for garbage, forged, expired, mistyped and revoked tokens
    and for accounts that are gone or disabled, and anything but a 401 only for
    a signed token whose subject is no UUID.  Deciding changes no table.  Of
    the tokens the service issued itself, the access tokens before their expiry
    give access, unrevoked, to the active account they were issued for. *)
Theorem current_user_spec credentials (w : W) :
  let '(r, w') := current_user settings credentials w in
  w_db w' = w_db w
  /\ (forall u, r = Ok u <->
        exists token, credentials = Some token /\ TokenSpec.admits settings Security.access token w u)
  /\ (forall e, r = Err e <->
        match credentials with
        | Some token =>
            TokenSpec.refusal settings Security.access "user no longer exists or is disabled" token w e
        | None => e = app_err AuthenticationError "missing bearer token"
        end)
  /\ (forall e, r = Err e ->
        (exists m, e = app_err AuthenticationError m)
        \/ (library_error e /\ exists token p, credentials = Some token
             /\ TokenSpec.genuine settings Security.access token w p /\ subject_of p = Err e))
  /\ (forall id t (w0 : W), 0 <= id < 2 ^ 128 -> w_wall w0 <= w_wall w ->
        credentials = Some (AuthSpec.issued settings id t w0) ->
        forall u, r = Ok u <->
          t = Security.access /\ w_wall w < AuthSpec.expiry settings t w0
          /\ ~ TokenSpec.listed (AuthSpec.payload_of settings id t w0) w
          /\ Db.users (w_db w) !! id = Some u /\ Db.is_active u = true)
  /\ (forall sub ty iat exp jti key, key <> Config.secret_key settings ->
        credentials = Some (jwt_encode (token_payload sub ty iat exp jti) key (Config.jwt_algorithm settings)) ->
        r = Err (app_err AuthenticationError "token is invalid")).
Proof.
  destruct credentials as [token|].
  - rewrite current_user_eq.
    destruct (TokenSpec.session_spec settings Security.access "user no longer exists or is disabled" token w)
      as (r & c' & -> & _ & Hu & He). split; [done|].
    split; [intros u; rewrite Hu; naive_solver|]. split; [done|]. split; [|split].
    + intros e Hr. destruct (TokenSpec.refusal_kind _ _ _ _ _ _ (proj1 (He e) Hr)) as [|(Hl & p & Hp)]; [by left|].
      right. split; [done|]. by exists token, p.
    + intros id t w0 Hid Hle [= ->] u. rewrite Hu. by apply TokenSpec.issued_admits.
    + intros sub ty iat exp jti key Hk [= ->]. apply He. by apply TokenSpec.forged_refused.
  - simpl. split_and!; [done| | | |done|done].
    + intros u. split; [done|]. by intros (? & ? & _).
    + intros e. split; congruence.
    + intros e [= <-]. left. by eexists.
Qed.

(** The optional user of a flight search is looked up without the blocklist
    and without [is_active]: a token that has been revoked, of an account that
    has been disabled, still attributes searches to the account. *)
Lemma optional_user_unchecked id (w w' : W) u :
  0 <= id < 2 ^ 128 -> w_wall w <= w_wall w' < AuthSpec.expiry settings Security.access w ->
  Db.users (w_db w') !! id = Some u ->
  get_optional_user settings (Some (AuthSpec.issued settings id Security.access w)) w' = (Ok (Some u), w').
Proof.
  intros Hid [Hle Hlt] Hu. unfold get_optional_user, AuthSpec.issued.
  rewrite Security.decode_created by done.
  change ((w_wall w / 1000000 + Security.ttl_of Security.access settings) * 1000000)
    with (AuthSpec.expiry settings Security.access w).
  destruct (Z.ltb_spec (w_wall w') (AuthSpec.expiry settings Security.access w)); [|lia].
  rewrite bool_decide_eq_true_2 by done.
  change (Security.claims _ _ _ _ _) with (AuthSpec.payload_of settings id Security.access w).
  rewrite AuthSpec.subject_of_issued by exact Hid. rewrite AuthSpec.get_by_id_run. by rewrite Hu.
Qed.

(** ** Price alerts *)

(** The alert a path parameter names, if it belongs to the user. *)
Definition owned (d : Db.db) (user_id : Z) (alert_id : string) : option Db.PriceAlert :=
  aid ← PyUuid.parse_uuid alert_id;
  a ← Db.alerts d !! aid;
  if bool_decide (Db.a_user_id a = user_id) then Some a else None.

Lemma ok_delete_alert d id : Db.ok d -> Db.ok (Db.set_alerts (delete id (Db.alerts d)) d).
Proof.
  intros []. constructor; simpl; try done; intros i a [_ Ha]%lookup_delete_Some; eauto.
Qed.

(** What the handler does, once the caller is known. *)
Lemma delete_alert_run request cred alert_id (s : S) u w1 :
  admitted request s = true ->
  current_user settings cred (a_world s) = (Ok u, w1) -> w_db w1 = w_db (a_world s) ->
  let r := delete_alert settings proxy_trust request cred alert_id s in
  match owned (w_db w1) (Db.u_id u) alert_id with
  | Some a =>
      r.1 = Ok tt
      /\ w_db (a_world r.2) = Db.set_alerts (delete (Db.a_id a) (Db.alerts (w_db w1))) (w_db w1)
      /\ Db.a_user_id a = Db.u_id u
  | None => r.1 = Err (app_err NotFoundError "alert not found") /\ w_db (a_world r.2) = w_db w1
  end.
Proof.
  intros Had Hcur Hdb. cbv zeta. unfold delete_alert. rewrite route_eq, Had. cbv zeta. simpl.
  unfold get_session, owned. m_run Hcur.
  destruct (PyUuid.parse_uuid alert_id) as [aid|]; simpl; [|by rewrite Hdb].
  unfold on_db, zoom, mbind, m_bind. simpl. rewrite AuthSpec.set_db_same.
  destruct (Db.alerts (w_db w1) !! aid) as [a|]; simpl; [|by rewrite Hdb].
  case_bool_decide as Hown; simpl; [done|by rewrite Hdb].
Qed.

(** Deleting an alert: the caller's own alert goes and nothing else
    changes; an alert of somebody else, an alert that does not exist and a
    malformed identifier are all answered with the same 404, and no table
    changes.  The tables stay well-formed. *)
Theorem delete_alert_spec request cred alert_id (s : S) u w1 :
  admitted request s = true ->
  current_user settings cred (a_world s) = (Ok u, w1) -> w_db w1 = w_db (a_world s) ->
  Db.ok (w_db w1) ->
  let r := delete_alert settings proxy_trust request cred alert_id s in
  Db.ok (w_db (a_world r.2))
  /\ match owned (w_db w1) (Db.u_id u) alert_id with
     | Some a =>
         r.1 = Ok tt
         /\ w_db (a_world r.2) = Db.set_alerts (delete (Db.a_id a) (Db.alerts (w_db w1))) (w_db w1)
         /\ Db.a_user_id a = Db.u_id u
     | None =>
         r.1 = Err (app_err NotFoundError "alert not found") /\ w_db (a_world r.2) = w_db w1
         /\ forall trace e, r.1 = Err e -> Errors.resp_status (Errors.handle_exception trace e) = 404
     end.
Proof.
  intros Had Hcur Hdb Hok. pose proof (delete_alert_run request cred alert_id s u w1 Had Hcur Hdb) as Hr.
  cbv zeta in *. destruct (owned _ _ _) as [a|].
  - destruct Hr as (-> & -> & Hown). split; [by apply ok_delete_alert|done].
  - destruct Hr as (-> & ->). split; [done|]. split; [done|]. split; [done|]. by intros trace e [= <-].
Qed.

(** Listing alerts shows the caller exactly its own, newest first. *)
Theorem list_alerts_spec request cred (s : S) u w1 :
  admitted request s = true ->
  current_user settings cred (a_world s) = (Ok u, w1) ->
  exists l s', list_alerts settings proxy_trust request cred s = (Ok (alert_out <$> l), s')
    /\ w_db (a_world s') = w_db w1
    /\ (forall a, a ∈ l <-> (exists id, Db.alerts (w_db w1) !! id = Some a) /\ Db.a_user_id a = Db.u_id u)
    /\ StronglySorted (fun a b => Db.a_created_at b <= Db.a_created_at a) l.
Proof.
  intros Had Hcur. unfold list_alerts. rewrite route_eq, Had. cbv zeta. unfold get_session.
  m_run Hcur. unfold on_db, zoom, mbind, m_bind. simpl. rewrite AuthSpec.set_db_same.
  eexists _, _. split; [reflexivity|]. simpl. split; [done|]. split.
  - intros a. rewrite PySorted.elem_of_sorted_by, list_elem_of_filter, Db.elem_rows. tauto.
  - eapply StronglySorted_impl; [|apply (PySorted.sorted_by_sorted (fun a => - Db.a_created_at a))].
    intros a b Hab. unfold PySorted.key_le in Hab. lia.
Qed.

End spec.

(** ** A concrete interface

    The world of [AuthSpec.later] with one price alert in it, behind an
    in-memory limiter of two requests a minute. *)

Definition sample_alert : Db.PriceAlert :=
  {| Db.a_id := 9; Db.a_user_id := 5; Db.a_origin := "THR"; Db.a_destination := "IST";
     Db.a_departure_date := "2026-08-10"; Db.a_target_amount_minor := 15000; Db.a_currency := "USD";
     Db.a_channel := Db.EMAIL; Db.a_is_active := true; Db.a_triggered_at := None;
     Db.a_created_at := 0 |}.

Definition alert_world : AuthSpec.sample_W :=
  set_db (Db.set_alerts {[9 := sample_alert]} AuthSpec.sample_db) AuthSpec.later.

Abbreviation sample_S :=
  (api Cache.InMemoryCache.store ConsoleNotifier.notifier Z RateLimit.InMemoryRateLimiter.limiter).

Definition sample_api (limit : Z) : sample_S :=
  {| a_world := alert_world; a_limiter := RateLimit.InMemoryRateLimiter.mk_limiter limit 60 0 |}.

Definition sample_request : ClientIp.Request :=
  {| ClientIp.client_host := Some "203.0.113.7"%string; ClientIp.headers_get := fun _ => None |}.

Definition no_proxies : ClientIp.ProxyTrust := ClientIp.mk_proxy_trust [].

(** The access token issued a second earlier. *)
Definition sample_token : string :=
  AuthSpec.issued Security.sample_settings 5 Security.access AuthSpec.w0.

Abbreviation alert_9 := "00000000-0000-0000-0000-000000000009"%string.

Lemma alert_world_ok : Db.ok (w_db alert_world).
Proof.
  assert (forall id a, Db.alerts (w_db alert_world) !! id = Some a -> id = 9 /\ a = sample_alert) as Ha
    by (unfold alert_world; simpl; by intros id a [<- <-]%lookup_singleton_Some).
  destruct AuthSpec.sample_ok. constructor; try done.
  - by intros id a [-> ->]%Ha.
  - intros id a [-> ->]%Ha. exists AuthSpec.sample_user. exact AuthSpec.sample_found.
Qed.

Lemma sample_caller :
  current_user Security.sample_settings (Some sample_token) alert_world
  = (Ok AuthSpec.sample_user, alert_world).
Proof. vm_compute. reflexivity. Qed.

Lemma sample_admitted : admitted no_proxies sample_request (sample_api 2) = true.
Proof. vm_compute. reflexivity. Qed.

Lemma route_spec_witness :
  (list_alerts Security.sample_settings no_proxies sample_request (Some sample_token) (sample_api 0)).1
    = Err (too_many 0)
  /\ exists l, (list_alerts Security.sample_settings no_proxies sample_request (Some sample_token)
                  (sample_api 2)).1 = Ok l /\ length l = 1%nat.
Proof.
  split.
  - destruct (route_spec no_proxies sample_request
      (user ← current_user Security.sample_settings (Some sample_token);
       alerts ← Auth.on_db (Db.PriceAlertRepository.list_for_user (Db.u_id user));
       mret (alert_out <$> alerts)) (sample_api 0)) as [Hno _].
    unfold list_alerts. destruct Hno as [Hr _]; [vm_compute; reflexivity|]. rewrite Hr. reflexivity.
  - destruct (route_spec no_proxies sample_request
      (user ← current_user Security.sample_settings (Some sample_token);
       alerts ← Auth.on_db (Db.PriceAlertRepository.list_for_user (Db.u_id user));
       mret (alert_out <$> alerts)) (sample_api 2)) as [_ Hyes].
    unfold list_alerts. destruct Hyes as [Hr _]; [vm_compute; reflexivity|]. rewrite Hr.
    eexists. split; [vm_compute; reflexivity|reflexivity].
Defined.

Lemma current_user_spec_witness :
  (current_user Security.sample_settings (Some sample_token) alert_world).1 = Ok AuthSpec.sample_user
  /\ (current_user Security.sample_settings (Some "not-a-token"%string) alert_world).1
     = Err (app_err AuthenticationError "token is invalid").
Proof.
  split.
  - pose proof (current_user_spec Security.sample_settings (Some sample_token) alert_world) as Hspec.
    destruct (current_user _ _ _) as [r w']. destruct Hspec as (_ & _ & _ & _ & Hown & _). simpl.
    apply (Hown 5 Security.access AuthSpec.w0); [lia|vm_compute; discriminate|reflexivity|].
    split; [reflexivity|]. split; [vm_compute; reflexivity|].
    split; [unfold TokenSpec.listed; vm_compute; discriminate|].
    split; [exact AuthSpec.sample_found|reflexivity].
  - pose proof (current_user_spec Security.sample_settings (Some "not-a-token"%string) alert_world) as Hspec.
    destruct (current_user _ _ _) as [r w']. destruct Hspec as (_ & _ & He & _). simpl.
    apply He. apply TokenSpec.refused_invalid. vm_compute. reflexivity.
Defined.

Lemma delete_alert_spec_witness :
  (delete_alert Security.sample_settings no_proxies sample_request (Some sample_token) alert_9
     (sample_api 2)).1 = Ok tt
  /\ (delete_alert Security.sample_settings no_proxies sample_request (Some sample_token) "9"
     (sample_api 2)).1 = Err (app_err NotFoundError "alert not found").
Proof.
  split.
  - pose proof (delete_alert_spec Security.sample_settings no_proxies sample_request (Some sample_token)
      alert_9 (sample_api 2) AuthSpec.sample_user alert_world
      sample_admitted sample_caller eq_refl alert_world_ok) as H.
    assert (owned (w_db alert_world) (Db.u_id AuthSpec.sample_user) alert_9 = Some sample_alert) as E
      by (vm_compute; reflexivity).
    cbv zeta in H. rewrite E in H. exact (proj1 (proj2 H)).
  - pose proof (delete_alert_spec Security.sample_settings no_proxies sample_request (Some sample_token)
      "9" (sample_api 2) AuthSpec.sample_user alert_world
      sample_admitted sample_caller eq_refl alert_world_ok) as H.
    assert (owned (w_db alert_world) (Db.u_id AuthSpec.sample_user) "9" = None) as E
      by (vm_compute; reflexivity).
    cbv zeta in H. rewrite E in H. exact (proj1 (proj2 H)).
Defined.

Lemma list_alerts_spec_witness :
  exists l s', list_alerts Security.sample_settings no_proxies sample_request (Some sample_token)
                 (sample_api 2) = (Ok (alert_out <$> l), s') /\ sample_alert ∈ l.
Proof.
  destruct (list_alerts_spec Security.sample_settings no_proxies sample_request (Some sample_token)
    (sample_api 2) AuthSpec.sample_user alert_world sample_admitted sample_caller)
    as (l & s' & Hr & _ & Hin & _).
  exists l, s'. split; [exact Hr|]. apply Hin. split; [|reflexivity]. exists 9. apply lookup_singleton_eq.
Defined.

End ApiSpec.
