(* ===== verification/AdaptersSpec.v ===== *)
(** * Properties of the weather and currency endpoints

    A request through the limiter, the adapter, the cache, the circuit breaker
    and the retries, to the upstream and back. *)
From S2P Require Import Prelude PyStr PyDict Errors Float64 Domain PyNum Cache CircuitBreaker HttpClient Providers.
From S2P Require Import ProvidersSpec RateLimit ClientIp PyUuid Security Notifications Db TravelOut Auth Api ApiSpec.
Import PyStr Calendar Domain.Domain PyNum Providers TravelOut Api.

Module AdaptersSpec.

Section spec.
Context {C0 N R L : Type} `{Cache C0} `{NotifierLaws N} `{EntropyLaws R} `{JwtLaws} `{RateLimiterLaws L}.
Context {C : Type} `{CacheLaws C} {U : Type}.
Variable proxy_trust : ClientIp.ProxyTrust.
Variable fetch : string -> HttpClient.params -> U -> HttpClient.fetch_outcome * U.
Variable sleep : Z -> U -> U.
Variable now : U -> Z.
Variable dumps : bool -> json -> string.
Variable loads : string -> option json.
Variable sha256_hex : string -> string.

Abbreviation S := (api C0 N R L).
Abbreviation W := (HttpClient.world C U).
Abbreviation w_cache := HttpClient.w_cache.
Abbreviation w_breaker := HttpClient.w_breaker.
Abbreviation w_env := HttpClient.w_env.
Abbreviation get_json := (HttpClient.get_json fetch sleep now dumps loads sha256_hex).
Abbreviation key_of := (HttpClient._cache_key dumps sha256_hex).
Implicit Types (w : W) (s : S).

(** ** The client *)

Definition unavailable (self : HttpClient.client) : exn :=
  app_err ProviderUnavailableError (HttpClient._provider self +:+ " is temporarily unavailable").

(** What the caller sees of an exception. *)
Definition seen (self : HttpClient.client) (e : exn) : exn :=
  match e with CircuitBreakerOpen _ => unavailable self | _ => e end.

(** Is a request let through now, and the breaker it leaves? *)
Definition gate w : bool * CircuitBreaker.breaker :=
  CircuitBreaker.enter_call (now (w_env w)) (w_breaker w).

Lemma guarded_run self url ps w :
  HttpClient.guarded fetch sleep now self url ps w =
    if (gate w).1 then
      match HttpClient._get_with_retry fetch sleep self url ps (w_env w) with
      | (Ok p, u) => (Ok p, {| HttpClient.w_cache := w_cache w;
          HttpClient.w_breaker := CircuitBreaker._on_success (gate w).2; HttpClient.w_env := u |})
      | (Err e, u) => (Err (seen self e), {| HttpClient.w_cache := w_cache w;
          HttpClient.w_breaker := CircuitBreaker._on_failure (now u) (gate w).2; HttpClient.w_env := u |})
      end
    else (Err (unavailable self), HttpClient.set_breaker (gate w).2 w).
Proof.
  unfold HttpClient.guarded, try_catch, CircuitBreaker.call, zoom, gate.
  destruct (CircuitBreaker.enter_call _ _) as [[] b]; simpl; [|done].
  destruct (HttpClient._get_with_retry _ _ _ _ _ _) as [[p|e] u]; simpl; [done|].
  by destruct e.
Qed.

(** What an adapter makes of a state: the answer [r] of the upstream, read by
    [read], if the cache has none. *)
Definition adapted {A} (self : HttpClient.client) (key : string) (ttl : Z) (read : json -> res exn A)
    (r : res exn json) (u : U) w (out : res exn A) (w' : W) : Prop :=
  match cache_view (w_cache w) (now (w_env w)) key with
  | Some text =>
      forall p, loads text = Some p ->
        out = read p /\ w_env w' = w_env w /\ w_breaker w' = w_breaker w
  | None =>
      if (gate w).1 then
        w_env w' = u
        /\ match r with
           | Ok p =>
               out = read p /\ w_breaker w' = CircuitBreaker._on_success (gate w).2
               /\ forall t, now u <= t < cache_deadline (now u) ttl ->
                    cache_view (w_cache w') t key = Some (dumps false p)
           | Err e =>
               out = Err (seen self e)
               /\ w_breaker w' = CircuitBreaker._on_failure (now u) (gate w).2
           end
      else
        out = Err (unavailable self) /\ w_env w' = w_env w /\ w_breaker w' = (gate w).2
  end.

Lemma adapter_run {A} self url ps ttl (read : json -> res exn A) r u w :
  0 <= HttpClient._max_retries self -> HttpClient._has_cache self = true -> 0 < ttl ->
  HttpClient.retry_result fetch sleep self url ps (w_env w) r u ->
  let run := (payload ← get_json self url ps (Some ttl); lift_res (read payload)) w in
  adapted self (key_of self url ps) ttl read r u w run.1 run.2.
Proof.
  intros Hm Hc Ht Hr. cbv zeta. apply HttpClient.get_with_retry_iff in Hr; [|done]. unfold adapted.
  destruct (cache_view (w_cache w) (now (w_env w)) (key_of self url ps)) as [text|] eqn:Hv.
  - intros p Hp. destruct (HttpClient.get_json_hit fetch sleep now dumps loads sha256_hex self url ps ttl w
      text p ltac:(lia) Hc Hv Hp) as [c' Hg]. by m_run Hg.
  - destruct (HttpClient.get_json_miss fetch sleep now dumps loads sha256_hex self url ps ttl w
      ltac:(lia) Hc Hv) as [c' Hg].
    rewrite guarded_run in Hg. change (gate (HttpClient.set_cache c' w)) with (gate w) in Hg.
    destruct (gate w).1; [|by m_run Hg]. cbn [HttpClient.w_env HttpClient.set_cache] in Hg. rewrite Hr in Hg.
    destruct r as [p|e]; [|by m_run Hg].
    unfold HttpClient.store, zoom in Hg. simpl in Hg.
    destruct (set_law (now u) (key_of self url ps) (dumps false p) ttl c' Ht) as (c1 & Hset & Hview).
    rewrite Hset in Hg. m_run Hg. split; [done|]. split; [done|]. split; [done|].
    intros t [Hlo Hhi]. simpl. rewrite Hview, decide_True by done. by apply Z.ltb_lt in Hhi as ->.
Qed.

(** The limiter in front of an adapter. *)
Definition limited {A} request s w (out : res exn A) (s' : S) (w' : W) (answered : Prop) : Prop :=
  s' = set_limiter (ApiSpec.limiter_after proxy_trust request s) s
  /\ if ApiSpec.admitted proxy_trust request s then answered
     else out = Err (ApiSpec.too_many (rl_limit (a_limiter s))) /\ w' = w.

Lemma limited_run {A B} request (m : M exn W A) (f : A -> B) s w (P : res exn B -> W -> Prop) :
  P (match (m w).1 with Ok a => Ok (f a) | Err e => Err e end) (m w).2 ->
  let run := (_ ← zoom fst (fun s sp => (s, sp.2)) (enforce_rate_limit proxy_trust request);
              a ← zoom snd (fun w sp => (sp.1, w)) m; mret (f a)) (s, w) in
  limited request s w run.1 run.2.1 run.2.2 (P run.1 run.2.2).
Proof.
  intros HP. cbv zeta. destruct (ApiSpec.enforce_spec proxy_trust request s) as (rem & _ & He).
  unfold limited, zoom, mbind, m_bind. cbn [fst snd]. rewrite He.
  destruct (ApiSpec.admitted _ _ _); cbn [fst snd]; [|done].
  destruct (m w) as [[a|e] w']; by split.
Qed.

Lemma adapted_map {A B} self key ttl (read : json -> res exn A) (f : A -> B) r u w out w' :
  adapted self key ttl read r u w out w' ->
  adapted self key ttl (fun p => match read p with Ok a => Ok (f a) | Err e => Err e end) r u w
    (match out with Ok a => Ok (f a) | Err e => Err e end) w'.
Proof.
  unfold adapted. destruct (cache_view _ _ _) as [text|].
  - intros Hh p Hp. by destruct (Hh p Hp) as (-> & ? & ?).
  - destruct (gate w).1; [|by intros (-> & ? & ?)].
    intros [Hu Hr]. split; [done|]. destruct r as [p|e]; by destruct Hr as [-> ?].
Qed.

(** ** Weather *)

(** The answer made of a payload. *)
Definition weather_answer (latitude longitude : Z) (day : date) (payload : json) : res exn WeatherOut :=
  match OpenMeteo._normalize payload latitude longitude (date_isoformat day) with
  | Ok f => Ok (weather_out f)
  | Err e => Err e
  end.

Definition weather_url (self : OpenMeteo.provider) : string := OpenMeteo._base_url self +:+ "/forecast".

(** C13. A weather request, end to end.  Refused by the limiter it is a 429 and
    goes no further.  Otherwise it is answered from the cache while that holds
    the forecast, without network or breaker; without the cache and behind an
    open breaker it is a 503 and nothing is sent; else the upstream is asked,
    with the retries' outcome [r]: a payload closes the breaker, is kept for
    the time to live and gives the answer, an error is counted by the breaker
    and raised.  A payload without a usable daily part gives a 503, and the
    documented one its rounded values. *)
Theorem weather_end_to_end (self : OpenMeteo.provider) request latitude longitude day s w r u :
  let http := OpenMeteo._http self in
  let ps := OpenMeteo.query latitude longitude (date_isoformat day) in
  let answer := weather_answer latitude longitude day in
  0 <= HttpClient._max_retries http -> HttpClient._has_cache http = true -> 0 < OpenMeteo._cache_ttl self ->
  HttpClient.retry_result fetch sleep http (weather_url self) ps (w_env w) r u ->
  let run := get_weather proxy_trust (forecast fetch sleep now dumps loads sha256_hex self)
               request latitude longitude day (s, w) in
  limited request s w run.1 run.2.1 run.2.2
    (adapted http (key_of http (weather_url self) ps) (OpenMeteo._cache_ttl self) answer r u w
       run.1 run.2.2)
  /\ (forall payload e, OpenMeteo.read_daily payload = Err e ->
        is_one_of ["KeyError"; "IndexError"; "TypeError"; "ValueError"]%string e = true ->
        answer payload = Err (app_err ProviderUnavailableError OpenMeteo.bad_payload))
  /\ (forall t p wind stamps values,
        0 <= wind -> Forall (fun v => from_option ProvidersSpec.is_percent True v) values ->
        Z.of_nat (length stamps) <= 2 ^ 46 ->
        exists out, answer (ProvidersSpec.weather_document t p wind stamps values) = Ok out
          /\ wo_date out = date_isoformat day /\ wo_latitude out = latitude /\ wo_longitude out = longitude
          /\ wo_temperature_c out = F64.round_digits t 1
          /\ wo_precipitation_probability out = Z.max 0 (Z.min 100 p)
          /\ wo_wind_kph out = F64.round_digits wind 1 /\ 0 <= wo_humidity out <= 100).
Proof.
  cbv zeta. intros Hm Hc Ht Hr. split; [|split].
  - unfold get_weather. apply limited_run. apply adapted_map. by apply adapter_run.
  - intros payload e Hread He.
    destruct (ProvidersSpec.forecast_spec payload latitude longitude (date_isoformat day)) as (_ & Hbad & _).
    unfold weather_answer. by rewrite (Hbad e Hread He).
  - intros t p wind stamps values Hw Hall Hlen.
    destruct (ProvidersSpec.forecast_spec (ProvidersSpec.weather_document t p wind stamps values)
      latitude longitude (date_isoformat day)) as (Hvalid & _ & Hdoc).
    destruct (Hdoc t p wind stamps values eq_refl Hw Hall Hlen) as (h & Hn & _).
    destruct (Hvalid _ Hn) as (Hv & _). unfold weather_answer. rewrite Hn. eexists. split; [done|].
    unfold valid_weather in Hv. rewrite !andb_true_iff, !Z.leb_le in Hv. simpl in *. tauto.
Qed.

(** ** Currency *)

Variable repr : json -> string.

Definition currency_answer (base quote : string) (amount : Z) (payload : json) : res exn CurrencyOut :=
  match ExchangeRate._normalize repr payload base quote amount with
  | Ok c => Ok (currency_out c)
  | Err e => Err e
  end.

Definition currency_url (self : ExchangeRate.provider) : string := ExchangeRate._base_url self +:+ "/convert".

(** C19. A currency conversion, end to end: limiter, cache, breaker and retries
    as for the weather; a payload without a numeric rate and result gives a
    503, and the documented one its rate and its result to four decimals under
    the codes in upper case. *)
Theorem currency_end_to_end (self : ExchangeRate.provider) request base quote amount s w r u :
  let http := ExchangeRate._http self in
  let ps := ExchangeRate.query base quote amount in
  let answer := currency_answer base quote amount in
  0 <= HttpClient._max_retries http -> HttpClient._has_cache http = true -> 0 < ExchangeRate._cache_ttl self ->
  HttpClient.retry_result fetch sleep http (currency_url self) ps (w_env w) r u ->
  let run := convert_currency proxy_trust (convert fetch sleep now dumps loads sha256_hex repr self)
               request base quote amount (s, w) in
  limited request s w run.1 run.2.1 run.2.2
    (adapted http (key_of http (currency_url self) ps) (ExchangeRate._cache_ttl self) answer r u w
       run.1 run.2.2)
  /\ (forall payload e, ExchangeRate.read_quote repr payload = Err e ->
        is_one_of ["KeyError"; "TypeError"; "ValueError"]%string e = true ->
        answer payload = Err (app_err ProviderUnavailableError ExchangeRate.bad_payload))
  /\ (forall rate result as_of, 0 < rate ->
        exists out, answer (ProvidersSpec.quote_document rate result as_of) = Ok out
          /\ co_base out = upper base /\ co_quote out = upper quote /\ co_rate out = rate
          /\ co_amount out = amount /\ co_converted out = F64.round_digits result 4
          /\ co_as_of out = as_of).
Proof.
  cbv zeta. intros Hm Hc Ht Hr. split; [|split].
  - unfold convert_currency. apply limited_run. apply adapted_map. by apply adapter_run.
  - intros payload e Hread He.
    destruct (ProvidersSpec.convert_spec repr payload base quote amount) as (_ & Hbad & _).
    unfold currency_answer. by rewrite (Hbad e Hread He).
  - intros rate result as_of Hpos.
    destruct (ProvidersSpec.convert_spec repr (ProvidersSpec.quote_document rate result as_of) base quote amount)
      as (_ & _ & Hdoc).
    unfold currency_answer. rewrite (Hdoc rate result as_of eq_refl), (proj2 (Z.ltb_lt _ _) Hpos).
    by eexists.
Qed.

End spec.

(** ** An upstream that recovers

    The first request of a forecast is refused with a 503, the retry gets the
    document; a later request is answered from the cache. *)

(** One payload, and so one text, is enough here. *)
Abbreviation sample_weather_run day s w :=
  (get_weather ApiSpec.no_proxies
     (forecast HttpClient.script_fetch HttpClient.script_sleep HttpClient.sc_clock
        (fun _ _ => "{}"%string) (fun _ => Some ProvidersSpec.sample_document) (fun raw => raw)
        (OpenMeteo.mk_provider HttpClient.sample_client "https://api.open-meteo.com/v1/" 600))
     ApiSpec.sample_request 0 0 day (s, w)).

Definition sample_day : date := {| year := 2026; month := 8; day := 10 |}.

Definition recovering : HttpClient.world Cache.InMemoryCache.store HttpClient.script :=
  HttpClient.sample_world
    [HttpClient.Response 503 None; HttpClient.Response 200 (Some ProvidersSpec.sample_document)].

Lemma weather_end_to_end_witness :
  exists out, (sample_weather_run sample_day (ApiSpec.sample_api 2) recovering).1 = Ok out
    /\ HttpClient.sc_requests
         (HttpClient.w_env (sample_weather_run sample_day (ApiSpec.sample_api 2) recovering).2.2) = 2.
Proof.
  set (u := {| HttpClient.sc_answers := []; HttpClient.sc_requests := 2;
               HttpClient.sc_sleeps := [F64.of_dec 2 1];
               HttpClient.sc_clock := F64.add 0 (F64.of_dec 2 1) |}).
  destruct (weather_end_to_end ApiSpec.no_proxies HttpClient.script_fetch HttpClient.script_sleep
    HttpClient.sc_clock (fun _ _ => "{}"%string) (fun _ => Some ProvidersSpec.sample_document) (fun raw => raw)
    (OpenMeteo.mk_provider HttpClient.sample_client "https://api.open-meteo.com/v1/" 600)
    ApiSpec.sample_request 0 0 sample_day (ApiSpec.sample_api 2) recovering
    (Ok ProvidersSpec.sample_document) u) as ((_ & Hrun) & _).
  - discriminate.
  - reflexivity.
  - reflexivity.
  - apply HttpClient.get_with_retry_iff; [discriminate|]. vm_compute. reflexivity.
  - assert (ApiSpec.admitted ApiSpec.no_proxies ApiSpec.sample_request (ApiSpec.sample_api 2) = true) as Ha
      by (vm_compute; reflexivity).
    rewrite Ha in Hrun. unfold adapted in Hrun.
    match type of Hrun with match ?hit with Some _ => _ | None => _ end =>
      assert (hit = None) as Hmiss by (vm_compute; reflexivity) end.
    rewrite Hmiss in Hrun. change (gate _ _).1 with true in Hrun. cbv iota in Hrun.
    destruct Hrun as (Hu & Hout & _).
    match type of Hout with _ = weather_answer ?a ?b ?c ?d =>
      assert (exists o, weather_answer a b c d = Ok o) as [o Ho] by (vm_compute; eexists; reflexivity) end.
    exists o. split; [rewrite Hout; exact Ho|rewrite Hu; reflexivity].
Defined.

(** Four failures have been counted and the upstream keeps failing: the fifth
    opens the breaker. *)
Definition failing : HttpClient.world Cache.InMemoryCache.store HttpClient.script :=
  {| HttpClient.w_cache := Cache.InMemoryCache.empty;
     HttpClient.w_breaker := CircuitBreaker.fail_calls 4 0 (CircuitBreaker.default_breaker "open-meteo");
     HttpClient.w_env := HttpClient.fresh_script [] |}.

Lemma currency_end_to_end_witness :
  let run := convert_currency ApiSpec.no_proxies
     (convert HttpClient.script_fetch HttpClient.script_sleep HttpClient.sc_clock
        (fun _ _ => "{}"%string) (fun _ => None) (fun raw => raw) (fun _ => ""%string)
        (ExchangeRate.mk_provider HttpClient.sample_client "https://api.exchangerate.host" 600))
     ApiSpec.sample_request "usd" "eur" F64.one (ApiSpec.sample_api 2, failing) in
  run.1 = Err (HttpClient.gave_up HttpClient.sample_client)
  /\ CircuitBreaker._state (HttpClient.w_breaker run.2.2) = CircuitBreaker.OPEN.
Proof.
  set (u := {| HttpClient.sc_answers := []; HttpClient.sc_requests := 3;
               HttpClient.sc_sleeps := [F64.of_dec 2 1; F64.of_dec 4 1];
               HttpClient.sc_clock := F64.add (F64.add 0 (F64.of_dec 2 1)) (F64.of_dec 4 1) |}).
  destruct (currency_end_to_end ApiSpec.no_proxies HttpClient.script_fetch HttpClient.script_sleep
    HttpClient.sc_clock (fun _ _ => "{}"%string) (fun _ => None) (fun raw => raw) (fun _ => ""%string)
    (ExchangeRate.mk_provider HttpClient.sample_client "https://api.exchangerate.host" 600)
    ApiSpec.sample_request "usd" "eur" F64.one (ApiSpec.sample_api 2) failing
    (Err (HttpClient.gave_up HttpClient.sample_client)) u) as ((_ & Hrun) & _).
  - discriminate.
  - reflexivity.
  - reflexivity.
  - apply HttpClient.get_with_retry_iff; [discriminate|]. vm_compute. reflexivity.
  - assert (ApiSpec.admitted ApiSpec.no_proxies ApiSpec.sample_request (ApiSpec.sample_api 2) = true) as Ha
      by (vm_compute; reflexivity).
    rewrite Ha in Hrun. unfold adapted in Hrun.
    match type of Hrun with match ?hit with Some _ => _ | None => _ end =>
      assert (hit = None) as Hmiss by (vm_compute; reflexivity) end.
    rewrite Hmiss in Hrun. change (gate _ _).1 with true in Hrun. cbv iota in Hrun.
    destruct Hrun as (_ & Hout & Hb). split; [exact Hout|rewrite Hb; vm_compute; reflexivity].
Defined.

End AdaptersSpec.
