(* ===== verification/AlertSpec.v ===== *)
(** * The life of a price alert

    The three handlers of [app/api/v1/price_alerts.py] in a row: what is created
    is listed to its owner, and deleting it leaves the tables as they were. *)
From S2P Require Import Prelude PyStr PyDict Float64 Errors PyUuid PySorted Cache RateLimit ClientIp.
From S2P Require Import Config Domain Schemas Security TokenBlocklist Notifications.
From S2P Require Import Db TravelOut Auth AuthSpec Api ApiSpec.
Import PyStr Auth Api TravelOut.

Module AlertSpec.

(** ** The tables *)

Lemma ok_add_alert d a :
  Db.ok d -> is_Some (Db.users d !! Db.a_user_id a) ->
  Db.ok (Db.set_alerts (<[Db.a_id a := a]> (Db.alerts d)) d).
Proof.
  intros Hok Hu. destruct Hok. constructor; simpl; try done.
  - intros id b [[<- <-]|[_ Hb]]%lookup_insert_Some; eauto.
  - intros id b [[<- <-]|[_ Hb]]%lookup_insert_Some; eauto.
Qed.

Section spec.
Context {C N R L : Type} `{CacheLaws C} `{NotifierLaws N} `{EntropyLaws R} `{JwtLaws} `{RateLimiterLaws L}.
Variable settings : Config.Settings.
Variable proxy_trust : ClientIp.ProxyTrust.

Abbreviation W := (world C N R).
Abbreviation S := (api C N R L).

(** The row a request creates, under the identifier drawn. *)
Definition new_alert (payload : Schemas.PriceAlertCreate) (channel : Db.AlertChannel) (u : Db.User) (w : W)
  : Db.PriceAlert :=
  {| Db.a_id := (uuid4 (w_rand w)).1; Db.a_user_id := Db.u_id u;
     Db.a_origin := upper (Schemas.origin payload); Db.a_destination := upper (Schemas.destination payload);
     Db.a_departure_date := Schemas.departure_date payload;
     Db.a_target_amount_minor := Schemas.target_amount_minor payload;
     Db.a_currency := upper (Schemas.currency payload); Db.a_channel := channel;
     Db.a_is_active := true; Db.a_triggered_at := None; Db.a_created_at := w_wall w |}.

Lemma create_alert_run request cred payload channel (s : S) u w1 :
  ApiSpec.admitted proxy_trust request s = true ->
  current_user settings cred (a_world s) = (Ok u, w1) ->
  channel_of (Schemas.channel payload) = Ok channel ->
  Db.users (w_db w1) !! Db.u_id u = Some u -> Db.alerts (w_db w1) !! (uuid4 (w_rand w1)).1 = None ->
  upper (Schemas.origin payload) <> upper (Schemas.destination payload) ->
  let r := create_alert settings proxy_trust request cred payload s in
  let a := new_alert payload channel u w1 in
  r.1 = Ok (alert_out a)
  /\ w_db (a_world r.2) = Db.set_alerts (<[Db.a_id a := a]> (Db.alerts (w_db w1))) (w_db w1).
Proof.
  intros Had Hcur Hch Hu Hnew Hne. cbv zeta. unfold create_alert. rewrite ApiSpec.route_eq, Had.
  cbv zeta. unfold get_session. m_run Hcur. rewrite bool_decide_eq_false_2 by done. rewrite Hch.
  assert (on_rand (N:=N) (C:=C) draw_uuid w1
          = (Ok (uuid4 (w_rand w1)).1, set_rand (uuid4 (w_rand w1)).2 w1)) as Hdraw.
  { unfold on_rand, zoom, draw_uuid. by destruct (uuid4 (w_rand w1)). }
  rewrite lift_ok_bind. m_run Hdraw.
  assert (insert_alert (uuid4 (w_rand w1)).1 u payload channel (set_rand (uuid4 (w_rand w1)).2 w1)
    = (Ok (new_alert payload channel u w1),
       set_db (Db.set_alerts (<[(uuid4 (w_rand w1)).1 := new_alert payload channel u w1]>
                 (Db.alerts (w_db w1))) (w_db w1)) (set_rand (uuid4 (w_rand w1)).2 w1))) as Hins.
  { unfold insert_alert, on_db, zoom, Db.PriceAlertRepository.create. simpl. rewrite Hnew, Hu.
    by rewrite !bool_decide_eq_false_2 by (done || by intros []). }
  by m_run Hins.
Qed.

(** C37. The life of an alert.  A request whose airports differ, from a caller
    with an account, creates one alert under the identifier drawn: the caller's,
    active, never triggered, its codes in upper case; the tables stay
    well-formed.  Until it changes, the alert is in the caller's list, and
    deleting it by the identifier of the answer gives back the tables of before.
    With both airports the same, in whatever case, the answer is a 400 and no
    table changes. *)
Theorem alert_lifecycle request cred payload channel (s : S) u w1 :
  ApiSpec.admitted proxy_trust request s = true ->
  current_user settings cred (a_world s) = (Ok u, w1) -> w_db w1 = w_db (a_world s) ->
  Db.ok (w_db w1) -> Db.users (w_db w1) !! Db.u_id u = Some u ->
  channel_of (Schemas.channel payload) = Ok channel -> Db.alerts (w_db w1) !! (uuid4 (w_rand w1)).1 = None ->
  let r := create_alert settings proxy_trust request cred payload s in
  if bool_decide (upper (Schemas.origin payload) = upper (Schemas.destination payload)) then
    r.1 = Err (app_err AppErrorBase "origin and destination must differ")
    /\ w_db (a_world r.2) = w_db (a_world s)
  else
    let a := new_alert payload channel u w1 in
    r.1 = Ok (alert_out a)
    /\ w_db (a_world r.2) = Db.set_alerts (<[Db.a_id a := a]> (Db.alerts (w_db w1))) (w_db w1)
    /\ Db.ok (w_db (a_world r.2))
    /\ forall request' w2,
         ApiSpec.admitted proxy_trust request' r.2 = true ->
         current_user settings cred (a_world r.2) = (Ok u, w2) -> w_db w2 = w_db (a_world r.2) ->
         (exists l, (list_alerts settings proxy_trust request' cred r.2).1 = Ok l /\ alert_out a ∈ l)
         /\ (let r' := delete_alert settings proxy_trust request' cred
                         (PyUuid.str_of_uuid (pa_id (alert_out a))) r.2 in
            r'.1 = Ok tt /\ w_db (a_world r'.2) = w_db (a_world s)).
Proof.
  intros Had Hcur Hdb Hok Hu Hch Hnew. cbv zeta. case_bool_decide as Hsame.
  { unfold create_alert. rewrite ApiSpec.route_eq, Had. cbv zeta. unfold get_session.
    m_run Hcur. by rewrite bool_decide_eq_true_2. }
  destruct (create_alert_run request cred payload channel s u w1 Had Hcur Hch Hu Hnew Hsame) as [Hr Hdb'].
  set (a := new_alert payload channel u w1) in *.
  set (s' := (create_alert settings proxy_trust request cred payload s).2) in *.
  split; [done|]. split; [done|]. split; [rewrite Hdb'; apply ok_add_alert; [done|by eexists]|].
  intros request' w2 Had' Hcur' Hdb2. rewrite Hdb' in Hdb2. split.
  - destruct (ApiSpec.list_alerts_spec settings proxy_trust request' cred s' u w2 Had' Hcur')
      as (l & s'' & Hl & _ & Hin & _).
    exists (alert_out <$> l). rewrite Hl. split; [done|]. apply list_elem_of_fmap_2, Hin.
    split; [|done]. exists (Db.a_id a). rewrite Hdb2. apply lookup_insert_eq.
  - pose proof (ApiSpec.delete_alert_run settings proxy_trust request' cred
      (PyUuid.str_of_uuid (pa_id (alert_out a))) s' u w2 Had' Hcur') as Hdel.
    assert (ApiSpec.owned (w_db w2) (Db.u_id u) (PyUuid.str_of_uuid (pa_id (alert_out a))) = Some a) as Hown.
    { unfold ApiSpec.owned. rewrite PyUuid.parse_str_of_uuid by apply uuid4_law. simpl.
      rewrite Hdb2. simpl. rewrite lookup_insert_eq. simpl. by rewrite bool_decide_eq_true_2. }
    cbv zeta in Hdel. rewrite Hown in Hdel. destruct Hdel as (-> & -> & _); [by rewrite Hdb2, Hdb'|].
    split; [done|]. rewrite Hdb2. cbn [Db.alerts Db.set_alerts].
    rewrite delete_insert_id by done. rewrite <- Hdb. by destruct (w_db w1).
Qed.

End spec.

Definition sample_payload : Schemas.PriceAlertCreate :=
  {| Schemas.origin := "ist"; Schemas.destination := "lhr"; Schemas.departure_date := "2026-09-01";
     Schemas.target_amount_minor := 9000; Schemas.currency := "usd"; Schemas.channel := "email" |}.

Lemma alert_lifecycle_witness :
  exists l, (list_alerts Security.sample_settings ApiSpec.no_proxies ApiSpec.sample_request
      (Some ApiSpec.sample_token)
      (create_alert Security.sample_settings ApiSpec.no_proxies ApiSpec.sample_request
         (Some ApiSpec.sample_token) sample_payload (ApiSpec.sample_api 2)).2).1 = Ok l
    /\ alert_out (new_alert sample_payload Db.EMAIL AuthSpec.sample_user ApiSpec.alert_world) ∈ l.
Proof.
  pose proof (alert_lifecycle Security.sample_settings ApiSpec.no_proxies ApiSpec.sample_request
    (Some ApiSpec.sample_token) sample_payload Db.EMAIL (ApiSpec.sample_api 2) AuthSpec.sample_user
    ApiSpec.alert_world ApiSpec.sample_admitted ApiSpec.sample_caller eq_refl ApiSpec.alert_world_ok) as H.
  destruct H as (_ & _ & _ & Hnext).
  - exact AuthSpec.sample_found.
  - reflexivity.
  - vm_compute. reflexivity.
  - destruct (Hnext ApiSpec.sample_request
      (a_world (create_alert Security.sample_settings ApiSpec.no_proxies ApiSpec.sample_request
         (Some ApiSpec.sample_token) sample_payload (ApiSpec.sample_api 2)).2)) as [Hl _].
    + vm_compute. reflexivity.
    + vm_compute. reflexivity.
    + reflexivity.
    + exact Hl.
Defined.

End AlertSpec.
