(* ===== verification/System.v ===== *)
(** * The running system

    Requests and jobs in any order, over one state: the composition of the
    handlers of [Api.v] with the jobs of [PriceMonitor.v]. *)
From S2P Require Import Prelude Triple PyStr PyDict Float64 Errors PyUuid PySorted Cache RateLimit ClientIp.
From S2P Require Import Config Domain AggCore Aggregation HotelAggregation Schemas Security TokenBlocklist.
From S2P Require Import Notifications Db TravelOut Auth AuthSpec PriceMonitor Api ApiSpec.
Import PyStr Calendar Auth Api.

Module System.

(** What can happen: one constructor per endpoint and job, and the passing of
    time. *)
Inductive event : Type :=
| Register (r : ClientIp.Request) (payload : Schemas.RegisterRequest)
| Login (r : ClientIp.Request) (email password : string)
| Refresh (r : ClientIp.Request) (token : string)
| Me (r : ClientIp.Request) (cred : option string)
| VerifyEmail (r : ClientIp.Request) (token : string)
| ResendVerification (r : ClientIp.Request) (email : string)
| RequestPasswordReset (r : ClientIp.Request) (email : string)
| ConfirmPasswordReset (r : ClientIp.Request) (token new_password : string)
| Logout (r : ClientIp.Request) (cred refresh_token : option string)
| CreateAlert (r : ClientIp.Request) (cred : option string) (payload : Schemas.PriceAlertCreate)
| ListAlerts (r : ClientIp.Request) (cred : option string)
| DeleteAlert (r : ClientIp.Request) (cred : option string) (alert_id : string)
| SearchFlights (r : ClientIp.Request) (cred : option string) (elapsed : Z) (p : Api.FlightParams)
| SearchHotels (r : ClientIp.Request) (p : Api.HotelParams)
| OutsideLookup (r : ClientIp.Request)
| AdminMetrics (cred : option string)
| MonitorPrices
| CleanupAuditLog (retention_days : Z)
| Tick (wall mono : Z).

(** The triple of a use case. *)
Ltac use_case_triple :=
  first [ by apply AuthSpec.triple_register | apply AuthSpec.triple_authenticate
        | apply AuthSpec.triple_issue | apply AuthSpec.triple_refresh
        | apply AuthSpec.triple_verify_email | apply AuthSpec.triple_mail_requests
        | apply AuthSpec.triple_reset | apply AuthSpec.triple_logout ].

Section system.
Context {C N R L : Type} `{CacheLaws C} `{NotifierLaws N} `{EntropyLaws R} `{JwtLaws} `{RateLimiterLaws L}.
Variable settings : Config.Settings.
Variable proxy_trust : ClientIp.ProxyTrust.
Variable dummy : string.
Variable flights : Aggregation.Service.
Variable hotels : HotelAggregation.Service.

Abbreviation W := (world C N R).
Abbreviation S := (api C N R L).

(** [OutsideLookup]: the weather and currency endpoints, as far as this state
    is concerned. *)
Definition perform (e : event) (s : S) : S :=
  match e with
  | Register r payload => (register settings proxy_trust r payload s).2
  | Login r email password => (login settings proxy_trust dummy r email password s).2
  | Refresh r token => (refresh settings proxy_trust r token s).2
  | Me r cred => (me settings proxy_trust r cred s).2
  | VerifyEmail r token => (verify_email settings proxy_trust r token s).2
  | ResendVerification r email => (resend_verification settings proxy_trust r email s).2
  | RequestPasswordReset r email => (request_password_reset settings proxy_trust r email s).2
  | ConfirmPasswordReset r token pw => (confirm_password_reset settings proxy_trust r token pw s).2
  | Logout r cred token => (logout settings proxy_trust r cred token s).2
  | CreateAlert r cred payload => (create_alert settings proxy_trust r cred payload s).2
  | ListAlerts r cred => (list_alerts settings proxy_trust r cred s).2
  | DeleteAlert r cred id => (delete_alert settings proxy_trust r cred id s).2
  | SearchFlights r cred elapsed p => (search_flights settings proxy_trust flights elapsed r cred p s).2
  | SearchHotels r p => (search_hotels proxy_trust hotels r p s).2
  | OutsideLookup r => (enforce_rate_limit proxy_trust r s).2
  | AdminMetrics cred => (on_world (metrics settings cred) s).2
  | MonitorPrices => (on_world (PriceMonitor._monitor_prices flights) s).2
  | CleanupAuditLog days => (on_world (PriceMonitor._cleanup_audit_log days) s).2
  | Tick wall mono =>
      let w := a_world s in
      set_world {| w_db := w_db w; w_cache := w_cache w; w_notifier := w_notifier w;
                   w_rand := w_rand w; w_wall := wall; w_mono := mono |} s
  end.

Definition run (events : list event) (s : S) : S := foldl (fun s e => perform e s) s events.

(** ** What holds of the tables whatever happens *)

(** Well-formed, and every search belongs to an account. *)
Definition good (d : Db.db) : Prop :=
  Db.ok d /\ forall r, r ∈ Db.searches d -> is_Some (Db.users d !! Db.sh_user_id r).

(** Accounts evolve as [AuthSpec.users_evolve] says, added only where [adds] is
    true; the audit log changes only where [audits] is. *)
Definition changes (adds audits : bool) (d d' : Db.db) : Prop :=
  AuthSpec.users_evolve adds d d' /\ (audits = false -> Db.audit_log d' = Db.audit_log d).

#[global] Instance changes_preorder adds audits : PreOrder (changes adds audits).
Proof.
  split; [by intros d; split|]. intros d1 d2 d3 [Hu Hl] [Hu' Hl'].
  split; [by transitivity d2|]. intros Ha. rewrite Hl' by done. by apply Hl.
Qed.

Lemma changes_mono adds adds' audits audits' d d' :
  (adds = true -> adds' = true) -> (audits = true -> audits' = true) ->
  changes adds audits d d' -> changes adds' audits' d d'.
Proof.
  intros Ha Hl [[Hk Hn] Hlog]. split.
  - split; [done|]. intros id u Hu Hnone. destruct (Hn id u Hu Hnone). auto.
  - intros ->. apply Hlog. destruct audits; [|done]. by specialize (Hl eq_refl).
Qed.

Section guards.
Variables adds audits : bool.

Abbreviation guard := (triple (w_db : W -> Db.db) good (changes adds audits)).

Lemma users_kept d d' id :
  AuthSpec.users_evolve adds d d' -> is_Some (Db.users d !! id) -> is_Some (Db.users d' !! id).
Proof. intros [Hk _] [u Hu]. destruct (Hk id u Hu) as (u' & Hu' & _). by exists u'. Qed.

(** The triples of the use cases are triples of the system. *)
Lemma guard_use_case {A} P (m : M exn W A) Q :
  Triple.triple (w_db : W -> Db.db) Db.ok (AuthSpec.grows adds) P m Q -> guard P m Q.
Proof.
  apply triple_change; [by intros d []|].
  intros d d' [_ Hs] Hok (Hu & _ & Hse & Hl). split; [|by split]. split; [done|].
  intros r Hr. rewrite Hse in Hr. apply (users_kept d); [done|]. by apply Hs.
Qed.

Lemma changes_same d d' :
  Db.users d' = Db.users d -> (audits = false -> Db.audit_log d' = Db.audit_log d) -> changes adds audits d d'.
Proof.
  intros Hu Hl. split; [|done]. unfold AuthSpec.users_evolve. rewrite Hu. split; [eauto 10|congruence].
Qed.

(** A computation whose only change of the tables is [f]. *)
Lemma guard_modify {A} P (f : W -> Db.db -> Db.db) (m : M exn W A) :
  (forall w, w_db (m w).2 = f w (w_db w) \/ w_db (m w).2 = w_db w) ->
  (forall w, good (w_db w) -> P (w_db w) -> Db.users (f w (w_db w)) = Db.users (w_db w)) ->
  (audits = false -> forall w, Db.audit_log (f w (w_db w)) = Db.audit_log (w_db w)) ->
  (forall w, good (w_db w) -> P (w_db w) -> good (f w (w_db w))) ->
  guard P m any.
Proof.
  intros Hm Hu Hl Hg w Hw HP. split; [|done]. destruct (Hm w) as [->| ->]; [|done].
  split; [by apply Hg|]. apply changes_same; [by apply Hu|auto].
Qed.

Lemma guard_audit P actor act request :
  audits = true -> guard P (audit proxy_trust actor act request) any.
Proof.
  intros Ha. eapply (guard_modify P (fun w d => Db.set_audit_log (Db.audit_log d ++ [_]) d));
    [by left|done|congruence|]. intros w [[] Hs] _. by split.
Qed.

Lemma guard_record_search u p total latency :
  guard (AuthSpec.current u) (record_search u p total latency) any.
Proof.
  eapply (guard_modify _ (fun w d => Db.set_searches (Db.searches d ++ [_]) d)); [by left|done..|].
  intros w [[] Hs] Hu. split; [done|]. intros r [Hr|Hr]%elem_of_app; [by apply Hs|].
  apply list_elem_of_singleton in Hr as ->. by eexists.
Qed.

Lemma good_alerts d al :
  good d ->
  (forall id a, al !! id = Some a -> Db.a_id a = id /\ is_Some (Db.users d !! Db.a_user_id a)) ->
  good (Db.set_alerts al d).
Proof.
  intros [[] Hs] Hal. split; [|done]. constructor; try done; simpl; intros id a Ha; by destruct (Hal id a Ha).
Qed.

Lemma good_owner d id a :
  good d -> Db.alerts d !! id = Some a -> Db.a_id a = id /\ is_Some (Db.users d !! Db.a_user_id a).
Proof. intros [Hok _] Ha. split; [by apply (Db.ok_alert_id d Hok)|by apply (Db.ok_alert_owner d Hok id)]. Qed.

Lemma guard_insert_alert P id user payload channel : guard P (insert_alert id user payload channel) any.
Proof.
  intros w Hg _. split; [|done]. unfold insert_alert, on_db, zoom, Db.PriceAlertRepository.create.
  case_bool_decide as Hid; simpl; [done|]. case_bool_decide as Hu; simpl; [done|].
  split; [|by apply changes_same]. apply good_alerts; [done|]. intros i a. rewrite lookup_insert. case_decide as Hi.
  - intros [= <-]. split; [done|]. by apply not_eq_None_Some.
  - by apply good_owner.
Qed.

Lemma guard_delete_alert P a : guard P (on_db (Db.PriceAlertRepository.delete_ a)) any.
Proof.
  intros w Hg _. split; [|done]. simpl. split; [|by apply changes_same]. apply good_alerts; [done|].
  intros id b [_ Hb]%lookup_delete_Some. by apply good_owner.
Qed.

(** ** The handlers *)

Lemma quiet_get_optional_user cred w : w_db (get_optional_user settings cred w).2 = w_db (w : W).
Proof.
  unfold get_optional_user. destruct cred as [token|]; [|done].
  destruct (Security.decode_token _ _ _ _) as [p|[]]; try done.
  destruct (subject_of p); [|done]. by rewrite AuthSpec.get_by_id_run.
Qed.

Lemma guard_get_optional_user P cred : guard P (get_optional_user settings cred) AuthSpec.found.
Proof.
  intros w Hg _. rewrite quiet_get_optional_user. split; [done|]. intros r Hr u ->.
  unfold get_optional_user in Hr. destruct cred as [token|]; [|done].
  destruct (Security.decode_token _ _ _ _) as [p|[]]; try done.
  destruct (subject_of p); [|done]. rewrite AuthSpec.get_by_id_run in Hr. injection Hr as Hr.
  unfold AuthSpec.current. by rewrite (Db.ok_user_id _ (proj1 Hg) _ _ Hr).
Qed.

Lemma quiet_payload cred w : w_db (get_access_payload settings cred w).2 = w_db (w : W).
Proof.
  unfold get_access_payload. destruct cred as [token|]; [|done].
  pose proof (AuthSpec.quiet_decode settings token Security.access w) as Hd.
  destruct (_decode settings token Security.access w) as [[p|e] w1] eqn:E; [m_run E|by m_run E].
  pose proof (AuthSpec.quiet_is_revoked p w1) as Hr.
  destruct (is_revoked p w1) as [[b|e] w2] eqn:E2; [m_run E2|m_run E2]; simpl in *; [|congruence].
  destruct b; simpl; congruence.
Qed.

#[local] Hint Resolve quiet_payload AuthSpec.quiet_create_token AuthSpec.quiet_lift
  AuthSpec.quiet_is_revoked AuthSpec.quiet_on_rand : quiet.
#[local] Hint Resolve guard_audit guard_record_search guard_insert_alert guard_delete_alert
  guard_get_optional_user : triple.

Lemma guard_current_user P cred : guard P (current_user settings cred) AuthSpec.current.
Proof.
  unfold current_user, get_current_user. triple_bind; [eauto with triple|]. intros payload.
  apply guard_use_case, AuthSpec.triple_active_user.
Qed.

#[local] Hint Resolve guard_current_user : triple.

Abbreviation always := (fun _ : Db.db => True).

(** A route keeps what its handler keeps, refused, rolled back or committed. *)
Lemma route_guard {A} request (handler : M exn W A) Q s :
  guard always handler Q -> good (w_db (a_world s)) ->
  let s' := (route proxy_trust request handler s).2 : S in
  good (w_db (a_world s')) /\ changes adds audits (w_db (a_world s)) (w_db (a_world s')).
Proof.
  intros Hh Hg. cbv zeta. rewrite (ApiSpec.route_eq proxy_trust request handler s).
  destruct (ApiSpec.admitted _ _ _); [simpl|done]. unfold get_session.
  destruct (Hh (a_world s) Hg I) as [Hg' _].
  by destruct (handler (a_world s)) as [[a|e] w'].
Qed.

Lemma on_world_guard {A} (m : M exn W A) Q (s : S) :
  guard always m Q -> good (w_db (a_world s)) ->
  good (w_db (a_world (on_world m s).2))
  /\ changes adds audits (w_db (a_world s)) (w_db (a_world (on_world m s).2)).
Proof.
  intros Hm Hg. destruct (Hm (a_world s) Hg I) as [Hg' _]. unfold on_world, zoom.
  by destruct (m (a_world s)).
Qed.

Lemma guard_get_session {A} P (m : M exn W A) Q : guard P m Q -> guard P (get_session m) Q.
Proof.
  intros Hm w Hg HP. destruct (Hm w Hg HP) as [Hg' HQ]. unfold get_session.
  destruct (m w) as [[a|e] w']; [by split|]. by split.
Qed.

(** The owners of some alerts have accounts. *)
Definition owned (l : list Db.PriceAlert) (d : Db.db) : Prop :=
  forall a, a ∈ l -> is_Some (Db.users d !! Db.a_user_id a).

Lemma guard_deactivate l alert :
  alert ∈ l -> guard (owned l) (PriceMonitor.deactivate alert) (fun _ => owned l).
Proof.
  intros Hl w Hg Ho. split; [|done]. simpl. split; [|by apply changes_same]. apply good_alerts; [done|].
  intros id a. rewrite lookup_insert. case_decide as Hi; [|by apply good_owner].
  intros [= <-]. split; [done|]. by apply (Ho alert).
Qed.

Lemma quiet_get_by_id id w : w_db (on_db (Db.UserRepository.get_by_id id) w).2 = w_db (w : W).
Proof. by rewrite AuthSpec.get_by_id_run. Qed.

#[local] Hint Resolve AuthSpec.quiet_notify AuthSpec.quiet_lift quiet_get_by_id : quiet.

(** A check keeps the accounts, whether its message goes out or not. *)
Lemma guard_check l alert :
  alert ∈ l -> guard (owned l) (PriceMonitor._check flights alert) (fun _ => owned l).
Proof.
  intros Hl. unfold PriceMonitor._check. triple_bind; [eauto with triple|]. intros [price|]; [|by eauto with triple].
  destruct (_ <? _); [by apply triple_quiet; [apply _|]|].
  triple_bind; [eauto with triple|]. intros user.
  triple_bind; [apply triple_quiet; [apply _|]; intros w; destruct user; [apply AuthSpec.quiet_notify|done]|].
  intros []. triple_bind; [by apply guard_deactivate|]. intros []. by apply triple_quiet; [apply _|].
Qed.

Lemma guard_check_all l active n :
  (forall a, a ∈ active -> a ∈ l) -> guard (owned l) (PriceMonitor.check_all flights active n) (fun _ => owned l).
Proof.
  revert n. induction active as [|alert active IH]; intros n Hl; [by apply triple_quiet; [apply _|]|].
  simpl. triple_bind; [apply guard_check, Hl, list_elem_of_here|]. intros hit.
  apply IH. intros a Ha. by apply Hl, list_elem_of_further.
Qed.

Lemma guard_run_once P : guard P (PriceMonitor.run_once flights) any.
Proof.
  unfold PriceMonitor.run_once. eapply (triple_bind _ _ _ _ (fun active => owned active)).
  - intros w Hg _. split; [by split; [|apply changes_same]|]. intros active [= <-] a Ha.
    apply (PriceMonitor.elem_active (w_db w) a (proj1 Hg)) in Ha as [Ha _].
    by apply (good_owner _ (Db.a_id a) a Hg).
  - intros active. triple_bind; [by apply (guard_check_all active)|]. intros n. triple_ret.
Qed.

Lemma guard_monitor P : guard P (PriceMonitor._monitor_prices flights) any.
Proof.
  intros w Hg _. split; [|done]. unfold PriceMonitor._monitor_prices, PriceMonitor.transaction.
  destruct (guard_run_once always w Hg I) as [Hg' _]. unfold mbind, m_bind.
  destruct (PriceMonitor.run_once flights w) as [[r|e] w']; [done|]. simpl. by split; [|apply changes_same].
Qed.

Lemma guard_cleanup P days : audits = true -> guard P (PriceMonitor._cleanup_audit_log days) any.
Proof.
  intros Ha. eapply (guard_modify P (fun w d => Db.set_audit_log _ d)); [by left|done|congruence|].
  intros w [[] Hs] _. by split.
Qed.

End guards.

Definition is_register (e : event) : bool :=
  match e with Register _ _ => true | _ => false end.

Definition is_cleanup (e : event) : bool :=
  match e with CleanupAuditLog _ => true | _ => false end.

(** The events that touch the audit log. *)
Definition is_audited (e : event) : bool :=
  match e with Register _ _ | Login _ _ _ | Logout _ _ _ | CleanupAuditLog _ => true | _ => false end.

#[local] Hint Resolve guard_audit guard_record_search guard_insert_alert guard_delete_alert
  guard_get_optional_user guard_current_user : triple.
#[local] Hint Resolve quiet_payload AuthSpec.quiet_create_token AuthSpec.quiet_lift
  AuthSpec.quiet_is_revoked AuthSpec.quiet_on_rand : quiet.
#[local] Hint Extern 3 (triple _ good _ _ _ _) => apply guard_use_case; use_case_triple : triple.

(** One event. *)
Lemma perform_good e s :
  good (w_db (a_world s)) ->
  good (w_db (a_world (perform e s)))
  /\ changes (is_register e) (is_audited e) (w_db (a_world s)) (w_db (a_world (perform e s))).
Proof.
  intros Hg. destruct e; cbn [perform is_register is_audited].
  - unfold register. eapply route_guard; [|done]. triple_steps.
  - unfold login. eapply route_guard; [|done]. triple_steps.
  - unfold refresh. eapply route_guard; [|done]. triple_steps.
  - unfold me. eapply route_guard; [|done]. triple_steps.
  - unfold verify_email. eapply route_guard; [|done]. triple_steps.
  - unfold resend_verification. eapply route_guard; [|done]. triple_steps.
  - unfold request_password_reset. eapply route_guard; [|done]. triple_steps.
  - unfold confirm_password_reset. eapply route_guard; [|done]. triple_steps.
  - unfold logout. eapply route_guard; [|done]. triple_steps.
  - unfold create_alert. eapply route_guard; [|done]. triple_steps. case_bool_decide; triple_steps.
  - unfold list_alerts. eapply route_guard; [|done]. triple_steps.
  - unfold delete_alert. eapply route_guard; [|done]. triple_steps.
    destruct (PyUuid.parse_uuid alert_id) as [aid|]; triple_steps. destruct a0; triple_steps.
  - unfold search_flights. eapply route_guard; [|done]. triple_steps.
    case_bool_decide; triple_steps. destruct a as [u|]; triple_steps.
    triple_bind; [|intros ?; triple_ret].
    eapply triple_pre; [|apply guard_record_search]. intros d Hf. by apply Hf.
  - unfold search_hotels. eapply route_guard; [|done]. destruct (date_leb _ _); triple_steps.
  - unfold enforce_rate_limit. by destruct (rl_check _ _ _) as [[[[] rem]|err] l].
  - apply (on_world_guard _ _ _ any); [|done]. apply guard_get_session. triple_steps.
  - apply (on_world_guard _ _ _ any); [|done]. apply guard_monitor.
  - apply (on_world_guard _ _ _ any); [|done]. by apply guard_cleanup.
  - simpl. by split.
Qed.

(** Any sequence of events: an account needs a registration, and an entry of
    the audit log leaves it by a clean-up only. *)
Lemma run_good events s :
  good (w_db (a_world s)) ->
  good (w_db (a_world (run events s)))
  /\ changes (existsb is_register events) (existsb is_audited events)
       (w_db (a_world s)) (w_db (a_world (run events s))).
Proof.
  unfold run. revert s. induction events as [|e events IH]; intros s Hg; simpl; [done|].
  destruct (perform_good e s Hg) as [Hg1 Hc1]. destruct (IH _ Hg1) as [Hg2 Hc2].
  split; [done|]. transitivity (w_db (a_world (perform e s))).
  - eapply changes_mono; [| |exact Hc1]; intros E; by rewrite E.
  - eapply changes_mono; [| |exact Hc2]; intros E; rewrite E; apply orb_true_r.
Qed.

(** C1. Whatever requests arrive, in whatever order and from whomever, with the
    jobs running between them and time passing, the tables stay well-formed:
    addresses stay unique and in lower case, every alert and every recorded
    search belongs to an account, no account disappears or changes its address,
    role or state of activity, a verified account stays verified, nobody
    becomes an administrator, and without a registration among the requests no
    account appears. *)
Theorem system_preserves events s :
  Db.ok (w_db (a_world s)) ->
  (forall r, r ∈ Db.searches (w_db (a_world s)) -> is_Some (Db.users (w_db (a_world s)) !! Db.sh_user_id r)) ->
  let d := w_db (a_world s) in
  let d' := w_db (a_world (run events s)) in
  Db.ok d'
  /\ (forall r, r ∈ Db.searches d' -> is_Some (Db.users d' !! Db.sh_user_id r))
  /\ (forall id u, Db.users d !! id = Some u ->
       exists u', Db.users d' !! id = Some u' /\ Db.email u' = Db.email u
         /\ Db.role u' = Db.role u /\ Db.is_active u' = Db.is_active u
         /\ (Db.is_verified u = true -> Db.is_verified u' = true))
  /\ (forall id u', Db.users d' !! id = Some u' -> Db.role u' = Db.ADMIN ->
       exists u, Db.users d !! id = Some u /\ Db.role u = Db.ADMIN)
  /\ (existsb is_register events = false ->
       Db.email <$> Db.users d' = Db.email <$> Db.users d).
Proof.
  intros Hok Hs. cbv zeta.
  destruct (run_good events s (conj Hok Hs)) as [[Hok' Hs'] [He _]].
  pose proof He as [Hk Hn]. split_and!; [done..| |].
  - intros id u' Hu' Ha. destruct (Db.users (w_db (a_world s)) !! id) as [u|] eqn:Hu.
    + destruct (Hk id u Hu) as (v & Hv & _ & Hr & _). exists u. split; [done|]. congruence.
    + destruct (Hn id u' Hu' Hu). congruence.
  - intros Hnone. apply AuthSpec.users_evolve_emails. by rewrite Hnone in He.
Qed.

End system.

(** ** A day of the system *)

Definition no_hotels : HotelAggregation.Service := {| HotelAggregation._providers := [] |}.

Definition sample_events : list event :=
  [ Register ApiSpec.sample_request
      {| Schemas.email := "Bob@Example.com"; Schemas.password := "Pa55word!!"; Schemas.full_name := None |};
    Login ApiSpec.sample_request "ann@example.com" "Secret12345";
    MonitorPrices;
    ListAlerts ApiSpec.sample_request (Some ApiSpec.sample_token);
    RequestPasswordReset ApiSpec.sample_request "bob@example.com";
    CleanupAuditLog 90 ].

Abbreviation sample_run :=
  (run Security.sample_settings ApiSpec.no_proxies "$dummy" Aggregation.sample_service no_hotels
     sample_events (ApiSpec.sample_api 10)).

Lemma system_preserves_witness :
  Db.ok (w_db (a_world sample_run))
  /\ exists u', Db.users (w_db (a_world sample_run)) !! 5 = Some u' /\ Db.role u' = Db.USER.
Proof.
  destruct (system_preserves Security.sample_settings ApiSpec.no_proxies "$dummy"
    Aggregation.sample_service no_hotels sample_events (ApiSpec.sample_api 10)) as (Hok & _ & Hu & _).
  - exact ApiSpec.alert_world_ok.
  - intros r Hr. by apply elem_of_nil in Hr.
  - split; [exact Hok|]. destruct (Hu 5 AuthSpec.sample_user) as (u' & Hu' & _ & Hr & _).
    + exact AuthSpec.sample_found.
    + exists u'. split; [exact Hu'|exact Hr].
Defined.

(** The alert fired, Bob has an account, and three messages went out. *)
Example sample_run_state :
  (Db.a_is_active <$> Db.rows (Db.alerts (w_db (a_world sample_run)))) = [false]
  /\ length (Db.rows (Db.users (w_db (a_world sample_run)))) = 2%nat
  /\ length (w_notifier (a_world sample_run)) = 3%nat.
Proof. vm_compute. done. Qed.

End System.
