(* ===== verification/AdminSpec.v ===== *)
(** * Administration

    Who may read the metrics, and what they count. *)
From S2P Require Import Prelude Triple PyStr PyDict Float64 Errors PyUuid PySorted Cache RateLimit ClientIp Config.
From S2P Require Import Domain AggCore Aggregation HotelAggregation Schemas Security TokenBlocklist.
From S2P Require Import Notifications Db TravelOut Auth AuthSpec Api ApiSpec System.
Import PyStr Auth Api.

Module AdminSpec.

(** ** Counting *)

Definition route_of (r : Db.SearchHistory) : string * string := (Db.sh_origin r, Db.sh_destination r).

(** How often a route has been searched. *)
Definition times (l : list Db.SearchHistory) (k : string * string) : Z :=
  Z.of_nat (length (filter (fun r => route_of r = k) l)).

Lemma times_app l1 l2 k : times (l1 ++ l2) k = times l1 k + times l2 k.
Proof. unfold times. rewrite filter_app, length_app. lia. Qed.

Lemma times_one r k : times [r] k = if decide (route_of r = k) then 1 else 0.
Proof. unfold times. rewrite filter_cons. simpl. by case_decide. Qed.

(** The counters of [route_counts]. *)
Lemma route_counts_spec l :
  NoDup (PyDict.keys (route_counts l))
  /\ forall k, PyDict.get (route_counts l) k = if 0 <? times l k then Some (times l k) else None.
Proof.
  unfold route_counts. induction l as [|r l IH] using rev_ind; [by split; [constructor|]|].
  rewrite foldl_app. cbn [foldl]. fold (route_counts l) in *. destruct IH as [Hnd Hget].
  split; [by apply PyDict.NoDup_keys_set|]. intros k.
  assert (0 <= times l k) by (unfold times; lia).
  rewrite PyDict.get_set, times_app, times_one. fold (route_of r). rewrite !Hget.
  destruct (decide (route_of r = k)) as [->|Hne]; [|by rewrite Z.add_0_r].
  destruct (Z.ltb_spec 0 (times l k)); simpl; (destruct (Z.ltb_spec 0 (times l k + 1)); [f_equal; lia|lia]).
Qed.

Lemma elem_route_counts l k n : (k, n) ∈ route_counts l <-> n = times l k /\ 0 < times l k.
Proof.
  destruct (route_counts_spec l) as [Hnd Hget]. split.
  - intros Hin. apply PyDict.elem_get in Hin; [|done]. rewrite Hget in Hin.
    destruct (Z.ltb_spec 0 (times l k)); [|done]. by injection Hin as <-.
  - intros [-> Hp]. apply PyDict.get_Some_elem. rewrite Hget. by apply Z.ltb_lt in Hp as ->.
Qed.

(** The first [n] of a sorted list, against the rest. *)
Lemma take_sorted_le {A} (R : relation A) n l x y :
  StronglySorted R l -> x ∈ take n l -> y ∈ drop n l -> R x y.
Proof.
  revert n. induction l as [|a l IH]; intros [|n] Hs Hx Hy; simpl in *; try by apply elem_of_nil in Hx.
  apply StronglySorted_inv in Hs as [Hs Ha]. apply elem_of_cons in Hx as [->|Hx]; [|by apply (IH n)].
  rewrite Forall_forall in Ha. apply Ha. rewrite <- (take_drop n l). apply elem_of_app. by right.
Qed.

(** The label of a route in the answer. *)
Definition label (k : string * string) : string := k.1 +:+ "-" +:+ k.2.

(** [rows] are the [n] most searched routes, whatever the order of equals. *)
Record top_routes (n : nat) (l : list Db.SearchHistory) (rows : list ((string * string) * Z)) : Prop := {
  tr_length : length rows = (n `min` length (route_counts l))%nat;
  tr_distinct : NoDup rows.*1;
  tr_exact k c : (k, c) ∈ rows -> c = times l k /\ 0 < c;
  tr_sorted : StronglySorted (fun a b => b.2 <= a.2) rows;
  tr_best k k' c : (k, c) ∈ rows -> k' ∉ rows.*1 -> times l k' <= c;
}.

Lemma top_routes_taken n l :
  top_routes n l (take n (PySorted.sorted_by (fun rc => - rc.2) (route_counts l))).
Proof.
  set (sorted := PySorted.sorted_by _ _).
  destruct (route_counts_spec l) as [Hnd Hget].
  assert (StronglySorted (fun a b : (string * string) * Z => b.2 <= a.2) sorted) as Hs.
  { eapply StronglySorted_impl; [|apply (PySorted.sorted_by_sorted (fun rc => - rc.2))].
    intros a b Hab. unfold PySorted.key_le in Hab. lia. }
  assert (NoDup sorted.*1) as Hnds.
  { unfold sorted. rewrite PySorted.sorted_by_perm. exact Hnd. }
  assert (forall k c, (k, c) ∈ sorted <-> c = times l k /\ 0 < times l k) as Hin.
  { intros k c. unfold sorted. rewrite PySorted.elem_of_sorted_by. apply elem_route_counts. }
  constructor.
  - rewrite length_take. unfold sorted. by rewrite PySorted.length_sorted_by.
  - rewrite fmap_take. rewrite <- (take_drop n sorted.*1) in Hnds. by apply NoDup_app in Hnds as [? _].
  - intros k c Hk%(elem_of_window n 0). apply Hin in Hk as [-> ?]. by split.
  - by apply (StronglySorted_window _ n 0).
  - intros k k' c Hk Hk'. destruct (Z.lt_ge_cases 0 (times l k')) as [Hp|Hp].
    + assert ((k', times l k') ∈ drop n sorted) as Hd.
      { assert ((k', times l k') ∈ sorted) as Hall by (by apply Hin).
        rewrite <- (take_drop n sorted) in Hall. apply elem_of_app in Hall as [Ht|Ht]; [|done].
        exfalso. apply Hk'. apply list_elem_of_fmap. by exists (k', times l k'). }
      by apply (take_sorted_le _ n sorted (k, c) (k', times l k') Hs Hk Hd).
    + apply (elem_of_window n 0), Hin in Hk. lia.
Qed.

Lemma length_filter_rows {A} (P : A -> Prop) `{forall x, Decision (P x)} (t : gmap Z A) :
  length (filter P (Db.rows t)) = size (filter (fun kx : Z * A => P kx.2) t).
Proof.
  unfold Db.rows. rewrite filter_fmap_list, length_fmap, map_filter_alt, <- length_map_to_list.
  rewrite map_to_list_to_map; [done|].
  apply NoDup_fmap_fst; [|apply NoDup_filter, NoDup_map_to_list].
  intros i x y [_ Hx%elem_of_map_to_list]%list_elem_of_filter [_ Hy%elem_of_map_to_list]%list_elem_of_filter.
  congruence.
Qed.

Section spec.
Context {C N R : Type} `{CacheLaws C} `{NotifierLaws N} `{EntropyLaws R} `{JwtLaws}.
Variable settings : Config.Settings.

Abbreviation W := (world C N R).

Lemma quiet_current_user cred (w : W) : w_db (current_user settings cred w).2 = w_db w.
Proof.
  unfold current_user, mbind, m_bind. pose proof (System.quiet_payload settings cred w) as Hp.
  destruct (get_access_payload settings cred w) as [[payload|e] w1]; simpl in *; [|done].
  unfold get_current_user, active_user. destruct (subject_of payload) as [id|e]; [|done].
  rewrite lift_ok_bind, (m_bind_Ok _ _ _ _ _ (AuthSpec.get_by_id_run id w1)).
  destruct (Db.users (w_db w1) !! id) as [u|]; [|done]. by destruct (Db.is_active u).
Qed.

(** C21. The metrics: no table changes; who is not logged in gets the error of
    its token, who is and is no administrator a 403; an administrator gets the
    exact numbers of accounts, searches and active alerts, and the ten most
    searched routes -- each once, with exactly the number of its searches,
    descending, and none left out that was searched more often than one of
    them. *)
Theorem metrics_exact cred (w : W) :
  let run := metrics settings cred w in
  w_db run.2 = w_db w
  /\ match (current_user settings cred w).1 with
     | Err e => run.1 = Err e
     | Ok u =>
         if bool_decide (Db.role u = Db.ADMIN) then
           exists m rows, run.1 = Ok m
             /\ total_users m = Z.of_nat (size (dom (Db.users (w_db w))))
             /\ total_searches m = Z.of_nat (length (Db.searches (w_db w)))
             /\ active_alerts m
                = Z.of_nat (size (dom (filter (fun ia => Db.a_is_active ia.2 = true) (Db.alerts (w_db w)))))
             /\ popular_routes m = (fun rc => (label rc.1, rc.2)) <$> rows
             /\ top_routes 10 (Db.searches (w_db w)) rows
         else run.1 = Err (app_err PermissionDeniedError "admin privileges required")
     end.
Proof.
  cbv zeta. pose proof (quiet_current_user cred w) as Hq. unfold metrics, get_session, mbind, m_bind.
  destruct (current_user settings cred w) as [[u|e] w1]; cbn [fst snd] in *; [|done].
  unfold lift_res, require_admin. case_bool_decide; cbn [fst snd]; [|done].
  unfold collect_metrics. cbn [fst snd]. split; [done|]. rewrite Hq.
  eexists _, _. split; [reflexivity|]. cbn -[take]. split; [by rewrite size_dom|]. split; [done|].
  split; [by rewrite size_dom, length_filter_rows|]. split; [reflexivity|apply top_routes_taken].
Qed.

End spec.

(** ** An administrator looks *)

Definition sample_admin : Db.User :=
  {| Db.u_id := 5; Db.email := "ann@example.com"; Db.hashed_password := "$Secret12345";
     Db.full_name := None; Db.role := Db.ADMIN; Db.is_active := true; Db.is_verified := true;
     Db.u_created_at := 0 |}.

Definition searched (origin destination : string) : Db.SearchHistory :=
  {| Db.sh_user_id := 5; Db.sh_origin := origin; Db.sh_destination := destination;
     Db.sh_departure_date := "2026-08-10"; Db.sh_result_count := 3; Db.sh_latency_ms := 12 |}.

Definition busy_world : AuthSpec.sample_W :=
  set_db {| Db.users := {[5 := sample_admin]}; Db.alerts := {[9 := ApiSpec.sample_alert]};
            Db.searches := [searched "IST" "LHR"; searched "THR" "IST"; searched "IST" "LHR"];
            Db.audit_log := [] |} AuthSpec.later.

Example sample_metrics :
  (metrics Security.sample_settings (Some ApiSpec.sample_token) busy_world).1
    = Ok {| total_users := 1; total_searches := 3; active_alerts := 1;
            popular_routes := [("IST-LHR", 2); ("THR-IST", 1)]%string |}
  /\ (metrics Security.sample_settings (Some ApiSpec.sample_token) ApiSpec.alert_world).1
    = Err (app_err PermissionDeniedError "admin privileges required").
Proof. vm_compute. done. Qed.

Lemma metrics_exact_witness :
  exists m rows,
    (metrics Security.sample_settings (Some ApiSpec.sample_token) busy_world).1 = Ok m
    /\ total_searches m = 3 /\ top_routes 10 (Db.searches (w_db busy_world)) rows.
Proof.
  destruct (metrics_exact Security.sample_settings (Some ApiSpec.sample_token) busy_world) as (_ & Hm).
  assert ((current_user Security.sample_settings (Some ApiSpec.sample_token) busy_world).1 = Ok sample_admin)
    as Hu by (vm_compute; reflexivity).
  rewrite Hu in Hm. destruct Hm as (m & rows & Hm & _ & Hs & _ & _ & Ht).
  exists m, rows. split; [exact Hm|]. split; [rewrite Hs; reflexivity|exact Ht].
Defined.

End AdminSpec.
