(* ===== verification/AuditSpec.v ===== *)
(** * The audit log

    Which requests leave an entry in the audit log, what it says, and when an
    entry leaves the log again. *)
From S2P Require Import Prelude Triple PyStr PyDict Float64 Errors PyUuid PySorted Cache RateLimit ClientIp.
From S2P Require Import Config Domain AggCore Aggregation HotelAggregation Schemas Security TokenBlocklist.
From S2P Require Import Notifications Db TravelOut Auth AuthSpec PriceMonitor Api ApiSpec System.
Import PyStr Calendar Auth Api System.

Module AuditSpec.

Section spec.
Context {C N R L : Type} `{CacheLaws C} `{NotifierLaws N} `{EntropyLaws R} `{JwtLaws} `{RateLimiterLaws L}.
Variable settings : Config.Settings.
Variable proxy_trust : ClientIp.ProxyTrust.
Variable dummy : string.
Variable flights : Aggregation.Service.
Variable hotels : HotelAggregation.Service.

Abbreviation W := (world C N R).
Abbreviation S := (api C N R L).
Abbreviation log_of w := (Db.audit_log (w_db w)).
Abbreviation perform := (System.perform settings proxy_trust dummy flights hotels).
Abbreviation run := (System.run settings proxy_trust dummy flights hotels).

(** ** No computation moves the clock *)

Definition same_time (w w' : W) : Prop := w_wall w' = w_wall w.

#[local] Instance same_time_preorder : PreOrder same_time.
Proof. unfold same_time. split; [done|]. intros w1 w2 w3 H12 H23. congruence. Qed.

Abbreviation timeless := (moves same_time).

Lemma timeless_db {A} (m : M exn Db.db A) : timeless (on_db m).
Proof. by apply (moves_part same_time w_db set_db (fun _ => m)). Qed.
Lemma timeless_create id e h name :
  timeless (fun w : W => on_db (Db.UserRepository.create id (w_wall w) e h name Db.USER) w).
Proof. by apply (moves_part same_time w_db set_db (fun w => Db.UserRepository.create id (w_wall w) e h name Db.USER)). Qed.
Lemma timeless_rand {A} (m : M exn R A) : timeless (on_rand m).
Proof. by apply (moves_part same_time w_rand set_rand (fun _ => m)). Qed.
Lemma timeless_notifier {A} (m : M exn N A) : timeless (on_notifier m).
Proof. by apply (moves_part same_time w_notifier set_notifier (fun _ => m)). Qed.
Lemma timeless_cache {A} (m : W -> Z -> M exn C A) : timeless (fun w => on_cache (m w) w).
Proof. by apply (moves_part same_time w_cache set_cache (fun w => m w (w_mono w))). Qed.
Lemma timeless_token id t : timeless (create_token settings id t).
Proof. by apply (moves_part same_time w_rand set_rand). Qed.
Lemma timeless_decode token t : timeless (_decode settings token t).
Proof. intros w. unfold _decode. by destruct (Security.decode_token _ _ _ _) as [|[]]. Qed.
Lemma timeless_revoked payload : timeless (is_revoked payload).
Proof. apply (timeless_cache (fun _ mono => TokenBlocklist.is_revoked mono payload)). Qed.
Lemma timeless_revoke payload : timeless (revoke payload).
Proof. apply (timeless_cache (fun w mono => TokenBlocklist.revoke (w_wall w) mono payload)). Qed.
Lemma timeless_revoke_refresh t : timeless (revoke_refresh settings t).
Proof.
  intros w. unfold revoke_refresh. destruct (Security.decode_token _ _ _ _) as [|[]]; try done.
  apply timeless_revoke.
Qed.

#[local] Hint Resolve timeless_db timeless_create timeless_rand timeless_notifier timeless_token
  timeless_decode timeless_revoked timeless_revoke timeless_revoke_refresh : moves.

Lemma timeless_register e pw name : timeless (Auth.register settings e pw name).
Proof. unfold Auth.register, _send_verification. moves_steps. Qed.

Lemma timeless_authenticate e pw : timeless (authenticate dummy e pw).
Proof. unfold authenticate. cbv zeta. moves_steps. Qed.

(** Who logs out. *)
Definition leaving (cred refresh_token : option string) : M exn W Z :=
  payload ← get_access_payload settings cred;
  _ ← Auth.logout settings payload refresh_token;
  lift_res (subject_of payload).

Lemma timeless_leaving cred token : timeless (leaving cred token).
Proof. unfold leaving, get_access_payload, Auth.logout. moves_steps. Qed.

(** ** Handlers with an audit *)

Definition entry (actor : Z) (act : string) (request : ClientIp.Request) (now : Z) : Db.AuditLog :=
  {| Db.actor_id := Some actor; Db.action := act; Db.detail := "";
     Db.ip_address := ClientIp.client_ip proxy_trust request; Db.al_created_at := now |}.

(** A session that does [m], audits, and ends with what does not touch the
    tables. *)
Lemma audited {A B} (m : M exn W A) actor act request (k : A -> M exn W B) w :
  log_of (m w).2 = log_of w -> timeless m -> (forall a w', w_db (k a w').2 = w_db w') ->
  let r := get_session (a ← m; _ ← audit proxy_trust (actor a) act request; k a) w in
  match r.1 with
  | Ok b => exists a w1 w2, m w = (Ok a, w1) /\ (k a w2).1 = Ok b
              /\ log_of r.2 = log_of w ++ [entry (actor a) act request (w_wall w)]
  | Err _ => log_of r.2 = log_of w
  end.
Proof.
  intros Hl Ht Hk. cbv zeta. unfold get_session. specialize (Ht w). unfold same_time in Ht.
  destruct (m w) as [[a|e] w1] eqn:Em; simpl in Hl, Ht.
  - m_run Em.
    set (w2 := set_db (Db.set_audit_log (log_of w1 ++ [entry (actor a) act request (w_wall w1)]) (w_db w1)) w1).
    assert (audit proxy_trust (actor a) act request w1 = (Ok tt, w2)) as Ha by done. m_run Ha.
    specialize (Hk a w2). destruct (k a w2) as [[b|e] w'] eqn:Ek; simpl in *; [|done].
    exists a, w1, w2. split; [done|]. split; [by rewrite Ek|]. rewrite Hk. simpl. by rewrite Hl, <- Ht.
  - by m_run Em.
Qed.

(** Who logs in: the account of the address, when the password is its. *)
Lemma authenticate_ok e pw (w w1 : W) u :
  Db.ok (w_db w) -> Auth.authenticate dummy e pw w = (Ok u, w1) ->
  exists u0, Db.users (w_db w) !! Db.u_id u = Some u0 /\ Db.email u0 = lower e
    /\ Db.is_active u0 = true /\ Security.verify_password pw (Db.hashed_password u0) = Ok true.
Proof.
  intros Hok. destruct (AuthSpec.get_by_email_run e w Hok) as (r & Hr & Hu).
  unfold Auth.authenticate. m_run Hr. cbv zeta.
  unfold lift_res at 1, mbind at 1, m_bind at 1.
  destruct r as [u0|]; [|by destruct (Security.verify_password _ _) as [[]|]].
  destruct Hu as [Hu He].
  destruct (Security.verify_password pw (Db.hashed_password u0)) as [[]|] eqn:Hv; [|done..].
  destruct (Db.is_active u0) eqn:Ha; simpl; [|done].
  destruct (Security.needs_rehash _).
  - rewrite AuthSpec.hash_run. AuthSpec.run. intros [= <- <-]. simpl. by exists u0.
  - intros [= <- <-]. by exists u0.
Qed.

(** What an event adds to the log. *)
Definition trail (e : event) (s : S) (l : list Db.AuditLog) : Prop :=
  let now := w_wall (a_world s) in
  match e with
  | Register r payload =>
      match (Api.register settings proxy_trust r payload s).1 with
      | Ok u => l = [entry (uo_id u) "user.register" r now]
      | Err _ => l = []
      end
  | Login r email password =>
      match (Api.login settings proxy_trust dummy r email password s).1 with
      | Ok _ => exists id u, Db.users (w_db (a_world s)) !! id = Some u
          /\ Db.email u = lower email /\ Db.is_active u = true
          /\ Security.verify_password password (Db.hashed_password u) = Ok true
          /\ l = [entry id "user.login" r now]
      | Err _ => l = []
      end
  | Logout r cred refresh_token =>
      match (Api.logout settings proxy_trust r cred refresh_token s).1 with
      | Ok _ => exists token payload id, cred = Some token
          /\ Security.decode_token token Security.access settings now = Ok payload
          /\ subject_of payload = Ok id
          /\ l = [entry id "user.logout" r now]
      | Err _ => l = []
      end
  | _ => l = []
  end.

Abbreviation log s := (log_of (a_world s)).

(** A route whose handler audits. *)
Lemma audited_route {A B} request (m : M exn W A) actor act (k : A -> M exn W B) (s : S) handler :
  (forall w, handler w = (a ← m; _ ← audit proxy_trust (actor a) act request; k a) w) ->
  log_of (m (a_world s)).2 = log s -> timeless m -> (forall a w', w_db (k a w').2 = w_db w') ->
  let r := route proxy_trust request handler s in
  match r.1 with
  | Ok b => exists a w1 w2, m (a_world s) = (Ok a, w1) /\ (k a w2).1 = Ok b
              /\ log r.2 = log s ++ [entry (actor a) act request (w_wall (a_world s))]
  | Err _ => log r.2 = log s
  end.
Proof.
  intros Hh Hl Ht Hk. cbv zeta. rewrite ApiSpec.route_eq.
  destruct (ApiSpec.admitted _ _ _); [|done]. cbv zeta. cbn [fst snd a_world].
  pose proof (audited m actor act request k (a_world s) Hl Ht Hk) as Ha. cbv zeta in Ha.
  unfold get_session in *. rewrite Hh. exact Ha.
Qed.

Lemma logged {A} adds (m : M exn W A) Q (w : W) :
  Triple.triple (w_db : W -> Db.db) Db.ok (AuthSpec.grows adds) (fun _ => True) m Q ->
  Db.ok (w_db w) -> log_of (m w).2 = log_of w.
Proof. intros Hm Hok. destruct (Hm w Hok I) as [[_ (_ & _ & _ & Hl)] _]. exact Hl. Qed.

Lemma quiet_issue id (w : W) : w_db (issue_tokens settings id w).2 = w_db w.
Proof.
  unfold issue_tokens, mbind, m_bind, mret, m_ret.
  pose proof (AuthSpec.quiet_create_token settings id Security.access w) as Ha.
  destruct (create_token settings id Security.access w) as [[a|e] w1]; simpl in *; [|done].
  pose proof (AuthSpec.quiet_create_token settings id Security.refresh w1) as Hr.
  destruct (create_token settings id Security.refresh w1) as [[b|e] w2]; simpl in *; congruence.
Qed.

#[local] Hint Resolve quiet_payload AuthSpec.quiet_lift : quiet.
#[local] Hint Resolve AuthSpec.triple_logout : triple.

Lemma triple_leaving cred token :
  Triple.triple (w_db : W -> Db.db) Db.ok (AuthSpec.grows false) (fun _ => True) (leaving cred token) any.
Proof. unfold leaving. triple_steps. Qed.

Lemma register_trail r payload s :
  Db.ok (w_db (a_world s)) ->
  exists l, log (perform (Register r payload) s) = log s ++ l /\ trail (Register r payload) s l.
Proof.
  intros Hok. cbn [System.perform trail]. unfold Api.register.
  pose proof (audited_route r _ Db.u_id "user.register" (fun u => mret (user_out u)) s _
    (fun w => eq_refl) (logged true _ _ _ (AuthSpec.triple_register settings true (Schemas.email payload)
      (Schemas.password payload) (Schemas.full_name payload) eq_refl) Hok)
    (timeless_register _ _ _) (fun _ _ => eq_refl)) as Hr. cbv zeta in Hr.
  destruct (route _ _ _ s) as [[u|e] s'].
  - destruct Hr as (a & w1 & w2 & _ & [= <-] & Hl). by eexists.
  - exists []. by rewrite app_nil_r.
Qed.

Lemma login_trail r email pw s :
  Db.ok (w_db (a_world s)) ->
  exists l, log (perform (Login r email pw) s) = log s ++ l /\ trail (Login r email pw) s l.
Proof.
  intros Hok. cbn [System.perform trail]. unfold Api.login.
  pose proof (audited_route r _ Db.u_id "user.login" (fun u => issue_tokens settings (Db.u_id u)) s _
    (fun w => eq_refl) (logged true _ _ _ (AuthSpec.triple_authenticate dummy true email pw) Hok)
    (timeless_authenticate _ _) (fun u w => quiet_issue (Db.u_id u) w)) as Hr. cbv zeta in Hr.
  destruct (route _ _ _ s) as [[pair|e] s'].
  - destruct Hr as (u & w1 & w2 & Hm & _ & Hl).
    destruct (authenticate_ok _ _ _ _ _ Hok Hm) as (u0 & Hu & He & Ha & Hv).
    eexists. split; [exact Hl|]. by exists (Db.u_id u), u0.
  - exists []. by rewrite app_nil_r.
Qed.

Lemma leaving_ok cred token (w w1 : W) id :
  leaving cred token w = (Ok id, w1) ->
  exists t payload, cred = Some t
    /\ Security.decode_token t Security.access settings (w_wall w) = Ok payload
    /\ subject_of payload = Ok id.
Proof.
  unfold leaving, get_access_payload. destruct cred as [t|]; [|done].
  rewrite !m_bind_assoc. unfold _decode at 1, mbind at 1, m_bind at 1.
  destruct (Security.decode_token t Security.access settings (w_wall w)) as [p|[]] eqn:Hdec; try done.
  rewrite !m_bind_assoc.
  destruct (AuthSpec.is_revoked_run p w) as (b & c & Hb & _). m_run Hb. destruct b; [done|].
  rewrite m_bind_ret_l. unfold mbind, m_bind.
  destruct (Auth.logout settings p token _) as [[[]|e] w2]; [|done].
  unfold lift_res. intros Hs. exists t, p. split; [done|]. split; [done|]. congruence.
Qed.

Lemma logout_trail r cred token s :
  Db.ok (w_db (a_world s)) ->
  exists l, log (perform (Logout r cred token) s) = log s ++ l /\ trail (Logout r cred token) s l.
Proof.
  intros Hok. cbn [System.perform trail]. unfold Api.logout.
  match goal with |- context [route _ _ ?handler _] =>
    assert (forall w, handler w = (a ← leaving cred token; _ ← audit proxy_trust (id a) "user.logout" r;
      mret "logged out"%string) w) as Hh end.
  { intros w. unfold leaving, mbind, m_bind.
    destruct (get_access_payload settings cred w) as [[p|e] w1]; [|done].
    by destruct (Auth.logout settings p token w1) as [[[]|e] w2]. }
  pose proof (audited_route r _ id "user.logout" _ s _ Hh
    (logged false _ _ _ (triple_leaving cred token) Hok) (timeless_leaving _ _) (fun _ _ => eq_refl)) as Hr.
  cbv zeta in Hr. destruct (route _ _ _ s) as [[x|e] s'].
  - destruct Hr as (a & w1 & w2 & Hm & _ & Hl).
    destruct (leaving_ok _ _ _ _ _ Hm) as (t & payload & Ht & Hd & Hsub).
    eexists. split; [exact Hl|]. by exists t, payload, a.
  - exists []. by rewrite app_nil_r.
Qed.

Lemma cleanup_trail days s :
  log (perform (CleanupAuditLog days) s)
  = filter (fun l => w_wall (a_world s) - days * 86400 * 1000000 <= Db.al_created_at l) (log s).
Proof. done. Qed.

Lemma event_trail e s :
  good (w_db (a_world s)) -> is_cleanup e = false ->
  exists l, log (perform e s) = log s ++ l /\ trail e s l.
Proof.
  intros Hg Hc. destruct (is_audited e) eqn:Ha.
  - destruct e; try done.
    + by apply register_trail, Hg.
    + by apply login_trail, Hg.
    + by apply logout_trail, Hg.
  - destruct (perform_good settings proxy_trust dummy flights hotels e s Hg) as (_ & _ & Hl).
    exists []. rewrite Hl by done. split; [by rewrite app_nil_r|]. by destruct e.
Qed.

Lemma run_prefix events s :
  good (w_db (a_world s)) -> existsb is_cleanup events = false ->
  exists l, log (run events s) = log s ++ l.
Proof.
  unfold System.run. revert s. induction events as [|e events IH]; intros s Hg Hc; simpl in *.
  { exists []. by rewrite app_nil_r. }
  apply orb_false_iff in Hc as [He Hc].
  destruct (event_trail e s Hg He) as (l & Hl & _).
  destruct (IH (perform e s)) as (l' & Hl'); [by apply perform_good|done|].
  exists (l ++ l'). by rewrite Hl', Hl, app_assoc.
Qed.

(** C15. The audit log.  Whatever happens, in whatever order, no entry is
    changed, removed or reordered except by a clean-up; and in any state the
    system reaches the next event adds exactly this: a registration, a login or
    a logout that succeeds one entry, with the account it is about, the
    resolved address of the client and the time -- for a login the account of
    the address whose password was given, for a logout the account of the
    token -- and everything else, failed attempts included, nothing.  A clean-up
    removes exactly the entries older than its retention. *)
Theorem audit_trail events e s :
  good (w_db (a_world s)) ->
  let s1 := run events s in
  (existsb is_cleanup events = false -> exists l, log s1 = log s ++ l)
  /\ (is_cleanup e = false -> exists l, log (perform e s1) = log s1 ++ l /\ trail e s1 l)
  /\ (forall days, e = CleanupAuditLog days ->
       log (perform e s1)
       = filter (fun l => w_wall (a_world s1) - days * 86400 * 1000000 <= Db.al_created_at l) (log s1)).
Proof.
  intros Hg. cbv zeta. split; [by apply run_prefix|]. split.
  - apply event_trail. by apply run_good.
  - intros days ->. apply cleanup_trail.
Qed.

Lemma trail_login r email password s l :
  trail (Login r email password) s l ->
  is_ok (Api.login settings proxy_trust dummy r email password s).1 = true ->
  exists id u, Db.users (w_db (a_world s)) !! id = Some u /\ Db.email u = lower email
    /\ l = [entry id "user.login" r (w_wall (a_world s))].
Proof.
  unfold trail. destruct (Api.login _ _ _ _ _ _ _) as [[pair|e] s2]; [|done].
  intros (id & u & Hu & He & _ & _ & ->) _. eauto.
Qed.

End spec.

(** Bob registers, Ann logs in. *)
Lemma audit_trail_witness :
  let s1 := System.run Security.sample_settings ApiSpec.no_proxies "$dummy" Aggregation.sample_service
    no_hotels sample_events (ApiSpec.sample_api 10) in
  exists id u,
    Db.users (w_db (a_world s1)) !! id = Some u /\ Db.email u = "ann@example.com"%string
    /\ Db.audit_log (w_db (a_world (System.perform Security.sample_settings ApiSpec.no_proxies "$dummy"
         Aggregation.sample_service no_hotels
         (Login ApiSpec.sample_request "Ann@example.com" "Secret12345") s1)))
       = Db.audit_log (w_db (a_world s1))
         ++ [entry ApiSpec.no_proxies id "user.login" ApiSpec.sample_request (w_wall (a_world s1))].
Proof.
  intros s1.
  destruct (audit_trail Security.sample_settings ApiSpec.no_proxies "$dummy" Aggregation.sample_service
    no_hotels sample_events (Login ApiSpec.sample_request "Ann@example.com" "Secret12345")
    (ApiSpec.sample_api 10)) as (_ & He & _).
  - split; [exact ApiSpec.alert_world_ok|]. intros r Hr. by apply elem_of_nil in Hr.
  - destruct (He eq_refl) as (l & Hl & Ht).
    destruct (trail_login _ _ _ _ _ _ _ _ Ht) as (id & u & Hu & Hem & ->); [vm_compute; reflexivity|].
    exists id, u. split; [exact Hu|]. split; [rewrite Hem; reflexivity|]. exact Hl.
Defined.

End AuditSpec.
