(* ===== verification/Concurrent.v ===== *)
(** * Concurrent registrations

    A registration looks for its address, and inserts the account at a later
    await; between the two, other requests run.  Here any number of
    registrations are interleaved with each other, one await at a time, and
    with whole requests and jobs of the rest of the system.  The tables of
    [System.v] are the committed ones; a row that has been flushed and not
    committed is seen by nobody else, but holds its place in the indexes: an
    insert that would collide with it waits, as PostgreSQL has it wait. *)
From S2P Require Import Prelude Triple PyStr PyDict Float64 Errors PyUuid PySorted Cache RateLimit ClientIp.
From S2P Require Import Config Domain AggCore Aggregation HotelAggregation Schemas Security TokenBlocklist.
From S2P Require Import Notifications Db TravelOut Auth AuthSpec PriceMonitor Api ApiSpec System.
Import PyStr Calendar Auth Api System.

Module Concurrent.

(** ** Sessions *)

(** Where a registration is: before the limiter, before the lookup, before the
    hash, waiting for its insert, with its row flushed, with its message sent,
    and the ways to end.  [Refused]: the insert was. *)
Inductive phase : Type :=
| Arrived
| Asking
| Hashing
| Flushing (u : Db.User)
| Inserted (u : Db.User)
| Mailed (u : Db.User)
| Committed (u : Db.User)
| Refused (u : Db.User) (e : exn)
| Failed (e : exn)
| Abandoned.

Record session : Type := {
  s_request : ClientIp.Request;
  s_payload : Schemas.RegisterRequest;
  s_phase : phase;
}.

Definition set_phase (p : phase) (s : session) : session :=
  {| s_request := s_request s; s_payload := s_payload s; s_phase := p |}.

Definition arrive (request : ClientIp.Request) (payload : Schemas.RegisterRequest) : session :=
  {| s_request := request; s_payload := payload; s_phase := Arrived |}.

(** The address it is about. *)
Definition address (s : session) : string := lower (Schemas.email (s_payload s)).

Definition finished (s : session) : bool :=
  match s_phase s with Committed _ | Refused _ _ | Failed _ | Abandoned => true | _ => false end.

(** The row it has flushed and not committed. *)
Definition open_row (s : session) : option Db.User :=
  match s_phase s with Inserted u | Mailed u => Some u | _ => None end.

(** Two rows that cannot both be in the table. *)
Definition collide (u v : Db.User) : bool :=
  bool_decide (Db.u_id u = Db.u_id v) || bool_decide (Db.email u = Db.email v).

Record race (C N R L : Type) : Type := { shared : api C N R L; sessions : list session }.
Arguments shared {C N R L} _.
Arguments sessions {C N R L} _.

Section race.
Context {C N R L : Type} `{Cache C} `{Notifier N} `{Entropy R} `{Jwt} `{RateLimiter L}.
Variable settings : Config.Settings.
Variable proxy_trust : ClientIp.ProxyTrust.
Variable dummy : string.
Variable flights : Aggregation.Service.
Variable hotels : HotelAggregation.Service.

Abbreviation W := (world C N R).
Abbreviation S := (api C N R L).

(** ** The parts of [Api.register] between two awaits *)

Definition ask (payload : Schemas.RegisterRequest) : M exn W unit :=
  taken ← on_db (Db.UserRepository.exists_by_email (Schemas.email payload));
  if (taken : bool) then raise (app_err ConflictError "an account with this email already exists")
  else mret tt.

Definition row (id now : Z) (email hashed : string) (name : option string) : Db.User :=
  {| Db.u_id := id; Db.email := lower email; Db.hashed_password := hashed; Db.full_name := name;
     Db.role := Db.USER; Db.is_active := true; Db.is_verified := false; Db.u_created_at := now |}.

Definition build (payload : Schemas.RegisterRequest) : M exn W Db.User :=
  hashed ← on_rand (Security.hash_password (Schemas.password payload));
  id ← on_rand draw_uuid;
  ((fun w => (Ok (row id (w_wall w) (Schemas.email payload) hashed (Schemas.full_name payload)), w))
   : M exn W Db.User).

(** The insert, seen by nobody else yet. *)
Definition flush (u : Db.User) : M exn W unit := fun w => ((Db.UserRepository.add_user u (w_db w)).1, w).

Definition commit (request : ClientIp.Request) (u : Db.User) : M exn W unit :=
  get_session
    (_ ← on_db (Db.UserRepository.add_user u);
     audit proxy_trust (Db.u_id u) "user.register" request).

(** The outcome of one part. *)
Definition next {A} (r : res exn A * S) (p : A -> phase) (failed : exn -> phase) : phase * S :=
  match r with
  | (Ok a, sh) => (p a, sh)
  | (Err e, sh) => (failed e, sh)
  end.

(** One part of [s], beside the sessions [ss]; nothing when it has ended or has
    to wait.  The parts are those of the handler together with what it calls:
    the limiter; [exists_by_email]; hashing and the new row; the flush of
    [UserRepository.create]; [_send_verification]; the audit entry and the
    commit of [get_session].  [ConcurrentSpec.alone_register] checks them
    against [Api.register]. *)
Definition advance (ss : list session) (s : session) (sh : S) : option (phase * S) :=
  match s_phase s with
  | Arrived => Some (next (enforce_rate_limit proxy_trust (s_request s) sh) (fun _ => Asking) Failed)
  | Asking => Some (next (on_world (ask (s_payload s)) sh) (fun _ => Hashing) Failed)
  | Hashing => Some (next (on_world (build (s_payload s)) sh) Flushing Failed)
  | Flushing u =>
      if existsb (collide u) (omap open_row ss) then None
      else Some (next (on_world (flush u) sh) (fun _ => Inserted u) (Refused u))
  | Inserted u => Some (next (on_world (_send_verification settings u) sh) (fun _ => Mailed u) Failed)
  | Mailed u => Some (next (on_world (commit (s_request s) u) sh) (fun _ => Committed u) Failed)
  | Committed _ | Refused _ _ | Failed _ | Abandoned => None
  end.

(** ** Interleavings *)

Inductive session_step (r : race C N R L) : race C N R L -> Prop :=
| session_advances i s p sh :
    sessions r !! i = Some s -> advance (sessions r) s (shared r) = Some (p, sh) ->
    session_step r {| shared := sh; sessions := <[i := set_phase p s]> (sessions r) |}.

(** A session can be given up wherever it is, and anything else of the system
    can happen. *)
Inductive step (r : race C N R L) : race C N R L -> Prop :=
| step_session r' : session_step r r' -> step r r'
| step_abandon i s :
    sessions r !! i = Some s -> finished s = false ->
    step r {| shared := shared r; sessions := <[i := set_phase Abandoned s]> (sessions r) |}
| step_event e :
    is_register e = false ->
    step r {| shared := perform settings proxy_trust dummy flights hotels e (shared r);
              sessions := sessions r |}.

(** A session that has the system to itself. *)
Fixpoint alone (fuel : nat) (s : session) (sh : S) : session * S :=
  match fuel with
  | 0%nat => (s, sh)
  | Datatypes.S fuel =>
      match advance [] s sh with
      | Some (p, sh') => alone fuel (set_phase p s) sh'
      | None => (s, sh)
      end
  end.

End race.

End Concurrent.
