(* ===== verification/ConcurrentSpec.v ===== *)
(** * Properties of concurrent registrations

    A registration that is not interrupted is [Api.register]; interleaved ones
    keep addresses unique, each address going to at most one of them, and all
    of them come to an end. *)
From S2P Require Import Prelude Triple PyStr PyDict Float64 Errors PyUuid PySorted Cache RateLimit ClientIp.
From S2P Require Import Config Domain AggCore Aggregation HotelAggregation Schemas Security TokenBlocklist.
From S2P Require Import Notifications Db TravelOut Auth AuthSpec PriceMonitor Api ApiSpec System Concurrent.
Import PyStr Calendar Auth Api System Concurrent.

Module ConcurrentSpec.

Section spec.
Context {C N R L : Type} `{CacheLaws C} `{NotifierLaws N} `{EntropyLaws R} `{JwtLaws} `{RateLimiterLaws L}.
Variable settings : Config.Settings.
Variable proxy_trust : ClientIp.ProxyTrust.
Variable dummy : string.
Variable flights : Aggregation.Service.
Variable hotels : HotelAggregation.Service.

Abbreviation W := (world C N R).
Abbreviation S := (api C N R L).
Abbreviation race := (Concurrent.race C N R L).
Abbreviation perform := (System.perform settings proxy_trust dummy flights hotels).
Abbreviation advance := (Concurrent.advance settings proxy_trust).
Abbreviation alone := (Concurrent.alone settings proxy_trust).
Abbreviation session_step := (Concurrent.session_step settings proxy_trust).
Abbreviation step := (Concurrent.step settings proxy_trust dummy flights hotels).
Abbreviation db_of sh := (w_db (a_world sh)).
Implicit Types (s t : session) (sh : S) (w : W) (g : race).

(** ** The parts *)

Lemma on_world_eq {A} (m : M exn W A) sh :
  on_world m sh = ((m (a_world sh)).1, set_world (m (a_world sh)).2 sh).
Proof. unfold on_world, zoom. by destruct (m (a_world sh)). Qed.

Lemma set_world_same sh : set_world (a_world sh) sh = sh.
Proof. by destruct sh. Qed.

Lemma ask_run payload w :
  (ask payload w = (Ok tt, w))
  \/ (ask payload w = (Err (app_err ConflictError "an account with this email already exists"), w)
      /\ AuthSpec.taken (Schemas.email payload) w).
Proof.
  unfold ask. destruct (AuthSpec.exists_run (Schemas.email payload) w) as [[Hex Ht]|[Hex _]]; m_run Hex.
  - by right.
  - by left.
Qed.

Lemma build_run payload w :
  exists u r, build payload w = (Ok u, set_rand r w)
    /\ Db.email u = lower (Schemas.email payload) /\ 0 <= Db.u_id u < 2 ^ 128 /\ Db.role u = Db.USER.
Proof.
  unfold build. rewrite AuthSpec.hash_run, AuthSpec.uuid_run. eexists _, _.
  split; [reflexivity|]. split; [done|]. split; [apply uuid4_law|done].
Qed.

Lemma send_any_db u d w :
  _send_verification settings u (set_db d w)
  = ((_send_verification settings u w).1, set_db d (_send_verification settings u w).2).
Proof.
  unfold _send_verification, mbind, m_bind.
  assert (create_token settings (Db.u_id u) Security.verify (set_db d w)
    = ((create_token settings (Db.u_id u) Security.verify w).1,
       set_db d (create_token settings (Db.u_id u) Security.verify w).2)) as ->.
  { unfold create_token, on_rand, zoom. simpl. by destruct (Security.create_verify_token _ _ _ _). }
  destruct (create_token settings (Db.u_id u) Security.verify w) as [[token|e] w1]; [|done].
  unfold on_notifier, zoom. simpl. by destruct (notify _ _ _ _).
Qed.

Lemma send_same_db u w : w_db (_send_verification settings u w).2 = w_db w.
Proof.
  pose proof (send_any_db u (w_db w) w) as Hs. rewrite AuthSpec.set_db_same in Hs.
  rewrite Hs. done.
Qed.

(** [Auth.register], in its parts. *)
Lemma register_parts payload w :
  Auth.register settings (Schemas.email payload) (Schemas.password payload) (Schemas.full_name payload) w
  = (_ ← ask payload; u ← build payload; _ ← on_db (Db.UserRepository.add_user u);
     _ ← _send_verification settings u; mret u) w.
Proof.
  unfold Auth.register, ask. rewrite m_bind_assoc.
  destruct (AuthSpec.exists_run (Schemas.email payload) w) as [[Hex _]|[Hex _]]; m_run Hex; m_run Hex; [done|].
  rewrite m_bind_ret_l. unfold build. rewrite m_bind_assoc, !AuthSpec.hash_run.
  rewrite m_bind_assoc, !AuthSpec.uuid_run. unfold Db.UserRepository.create. AuthSpec.run.
  change {| Db.u_id := ?i; Db.email := lower ?e; Db.hashed_password := ?h; Db.full_name := ?n;
            Db.role := Db.USER; Db.is_active := true; Db.is_verified := false; Db.u_created_at := ?t |}
    with (row i t e h n).
  match goal with |- context [Db.UserRepository.add_user ?u ?d] => by destruct (Db.UserRepository.add_user u d) as [[[]|] ?] end.
Qed.

(** One part of a session that runs alone. *)
Lemma alone_next fuel s sh x :
  advance [] s sh = Some x -> alone (Datatypes.S fuel) s sh = alone fuel (set_phase x.1 s) x.2.
Proof. intros Ha. simpl. rewrite Ha. by destruct x. Qed.

Lemma alone_end fuel s sh : finished s = true -> alone fuel s sh = (s, sh).
Proof.
  unfold finished. destruct s as [request payload []]; try done; intros _; by destruct fuel.
Qed.

Ltac m_run_in H H' := first [rewrite (m_bind_Ok _ _ _ _ _ H) in H' | rewrite (m_bind_Err _ _ _ _ _ H) in H'].

Ltac part := erewrite alone_next by reflexivity; unfold next, set_phase, on_world, zoom;
  cbn [s_payload s_request s_phase fst snd].

(** The two models of a registration agree: with nobody beside it the parts of
    [Concurrent.advance], one after the other, leave the state and give the
    answer of [Api.register], whatever happens in them. *)
Lemma alone_register request payload sh :
  let (s', sh') := alone 6 (arrive request payload) sh in
  let (answer, sh2) := Api.register settings proxy_trust request payload sh in
  sh2 = sh'
  /\ match answer with
     | Ok out => exists u, s_phase s' = Committed u /\ out = user_out u
     | Err e => s_phase s' = Failed e \/ exists u, s_phase s' = Refused u e
     end.
Proof.
  unfold arrive, Api.register, route. part.
  destruct (enforce_rate_limit proxy_trust request sh) as [[rem|e] sh1] eqn:Ee; m_run Ee;
    [|rewrite alone_end by done; by auto].
  part. unfold on_world, zoom. set (w := a_world sh1). unfold get_session at 1.
  pose proof (register_parts payload w) as Hreg.
  destruct (ask_run payload w) as [Ha|[Ha _]]; rewrite Ha; m_run_in Ha Hreg; cbn [fst snd].
  2: { m_run Hreg. rewrite alone_end by done. cbn [fst snd s_phase]. unfold w. rewrite AuthSpec.set_db_same. auto. }
  part. unfold w. rewrite set_world_same. fold w.
  destruct (build_run payload w) as (u & r & Hb & _). m_run_in Hb Hreg.
  rewrite Hb. cbn [fst snd]. set (w2 := set_rand r w) in *.
  assert (forall q d', Db.UserRepository.add_user u (w_db w2) = (q, d') ->
    on_db (Db.UserRepository.add_user u) w2 = (q, set_db d' w2)) as Hinsert
    by (intros q d' Hq; unfold on_db, zoom; by rewrite Hq).
  part. unfold flush at 1 2. cbn [a_world set_world].
  destruct (Db.add_user_spec (w_db w2) u) as [(Hadd & _)|(Hadd & _)]; pose proof (Hinsert _ _ Hadd) as Hi;
    m_run_in Hi Hreg; rewrite Hadd; cbn [fst snd].
  2: { m_run Hreg. rewrite alone_end by done. cbn [fst snd s_phase]. simpl. split; [done|]. right. by exists u. }
  set (d' := Db.set_users _ _) in *. part. cbn [a_world set_world].
  pose proof (send_any_db u d' w2) as Hany. pose proof (send_same_db u w2) as Hsame.
  destruct (_send_verification settings u w2) as [[[]|e] w3]; cbn [fst snd] in Hany, Hsame |- *;
    m_run_in Hany Hreg.
  2: { m_run Hreg. rewrite alone_end by done. cbn [fst snd s_phase]. simpl. split; [|by left].
       assert (set_db (w_db w) (set_db d' w3) = w3) as -> by (destruct w3; unfold set_db; simpl in *; by rewrite Hsame).
       done. }
  unfold mret at 1, m_ret at 1 in Hreg. m_run Hreg. part. unfold commit, get_session. cbn [a_world set_world].
  assert (on_db (Db.UserRepository.add_user u) w3 = (Ok tt, set_db d' w3)) as Hcommit
    by (unfold on_db, zoom; by rewrite Hsame, Hadd).
  m_run Hcommit. cbn [fst snd]. rewrite alone_end by done. cbn [s_phase]. split; [done|]. by exists u.
Qed.

(** ** What holds however they interleave *)

(** The row a session has made. *)
Definition made (s : session) : option Db.User :=
  match s_phase s with
  | Flushing u | Inserted u | Mailed u | Committed u | Refused u _ => Some u
  | _ => None
  end.

Definition committed (s : session) : option Db.User :=
  match s_phase s with Committed u => Some u | _ => None end.

(** The address of every account. *)
Definition accounts (d : Db.db) : gmap Z string := Db.email <$> Db.users d.

Definition free (m : gmap Z string) (u : Db.User) : Prop :=
  m !! Db.u_id u = None /\ forall id, m !! id <> Some (Db.email u).

(** Why a session that lost did: its address is taken, or the identifier it
    drew. *)
Definition beaten (m : gmap Z string) (s : session) : Prop :=
  match s_phase s with
  | Failed e => e = app_err ConflictError "an account with this email already exists" ->
      exists id, m !! id = Some (address s)
  | Refused u e => e = PyError "IntegrityError" "UNIQUE constraint failed"
      /\ ((exists id, m !! id = Some (address s)) \/ is_Some (m !! Db.u_id u))
  | _ => True
  end.

(** The invariant, of the accounts at the start and now. *)
Record inv (m0 m : gmap Z string) (ss : list session) : Prop := {
  inv_made i s u : ss !! i = Some s -> made s = Some u ->
    Db.email u = address s /\ 0 <= Db.u_id u < 2 ^ 128 /\ Db.role u = Db.USER;
  inv_free i s u : ss !! i = Some s -> open_row s = Some u -> free m u;
  inv_apart i j s t u v : i <> j -> ss !! i = Some s -> ss !! j = Some t ->
    open_row s = Some u -> open_row t = Some v -> collide u v = false;
  inv_in i s u : ss !! i = Some s -> committed s = Some u -> m !! Db.u_id u = Some (Db.email u);
  inv_new i s u : ss !! i = Some s -> committed s = Some u -> free m0 u;
  inv_once i j s t u v : ss !! i = Some s -> ss !! j = Some t ->
    committed s = Some u -> committed t = Some v -> Db.email u = Db.email v -> i = j;
  inv_origin id a : m !! id = Some a ->
    m0 !! id = Some a
    \/ exists i s u, ss !! i = Some s /\ committed s = Some u /\ Db.u_id u = id /\ Db.email u = a;
  inv_kept id a : m0 !! id = Some a -> m !! id = Some a;
  inv_beaten i s : ss !! i = Some s -> beaten m s;
}.

Lemma collide_false u v : collide u v = false <-> Db.u_id u <> Db.u_id v /\ Db.email u <> Db.email v.
Proof. unfold collide. by rewrite orb_false_iff, !bool_decide_eq_false. Qed.

Lemma collide_sym u v : collide u v = collide v u.
Proof. unfold collide. f_equal; apply bool_decide_ext; by split. Qed.

(** A session moves and no account appears. *)
Lemma inv_move m0 m ss i s p :
  inv m0 m ss -> ss !! i = Some s -> committed s = None ->
  let s' := set_phase p s in
  (forall u, made s' = Some u ->
     Db.email u = address s /\ 0 <= Db.u_id u < 2 ^ 128 /\ Db.role u = Db.USER) ->
  (forall u, open_row s' = Some u -> open_row s = Some u
     \/ free m u /\ forall j t v, ss !! j = Some t -> open_row t = Some v -> collide u v = false) ->
  committed s' = None -> beaten m s' ->
  inv m0 m (<[i := s']> ss).
Proof.
  intros [] Hi Hnc s' Hmade Hopen Hnc' Hbeaten.
  assert (forall j t, <[i := s']> ss !! j = Some t -> j = i /\ t = s' \/ j <> i /\ ss !! j = Some t) as Hat
    by (intros j t [(-> & -> & _)|[? ?]]%list_lookup_insert_Some; auto).
  assert (forall u j t v, open_row s' = Some u -> j <> i -> ss !! j = Some t -> open_row t = Some v ->
    collide u v = false) as Hfresh.
  { intros u j t v Hu Hj Ht Hv. destruct (Hopen u Hu) as [Hold|[_ Hall]]; eauto. }
  constructor.
  - intros j t u [[-> ->]|[_ Ht]]%Hat Hu; [by apply Hmade|eauto].
  - intros j t u [[-> ->]|[_ Ht]]%Hat Hu; [|eauto]. destruct (Hopen u Hu) as [?|[? _]]; eauto.
  - intros j k t t' u v Hjk [[-> ->]|[Hj Ht]]%Hat [[-> ->]|[Hk Ht']]%Hat Hu Hv; [done|eauto| |eauto].
    rewrite collide_sym. eauto.
  - intros j t u [[-> ->]|[_ Ht]]%Hat Hu; [congruence|eauto].
  - intros j t u [[-> ->]|[_ Ht]]%Hat Hu; [congruence|eauto].
  - intros j k t t' u v [[-> ->]|[_ Ht]]%Hat [[-> ->]|[_ Ht']]%Hat Hu Hv; [congruence..|eauto].
  - intros id a Ha. destruct (inv_origin0 id a Ha) as [?|(j & t & u & Ht & Hu & ?)]; [by left|right].
    exists j, t, u. split; [|done]. rewrite list_lookup_insert_ne by congruence. done.
  - done.
  - intros j t [[-> ->]|[_ Ht]]%Hat; [done|eauto].
Qed.

(** A session commits its row. *)
Lemma inv_commit m0 m ss i s u :
  inv m0 m ss -> ss !! i = Some s -> s_phase s = Mailed u ->
  inv m0 (<[Db.u_id u := Db.email u]> m) (<[i := set_phase (Committed u) s]> ss).
Proof.
  intros [] Hi Hp. set (s' := set_phase _ s).
  assert (open_row s = Some u) as Hu by (unfold open_row; by rewrite Hp).
  destruct (inv_free0 i s u Hi Hu) as [Hid Hem].
  assert (forall id a, m !! id = Some a -> <[Db.u_id u := Db.email u]> m !! id = Some a) as Hgrow
    by (intros id a Ha; by rewrite lookup_insert_ne by congruence).
  assert (forall j t, <[i := s']> ss !! j = Some t -> j = i /\ t = s' \/ j <> i /\ ss !! j = Some t) as Hat
    by (intros j t [(-> & -> & _)|[? ?]]%list_lookup_insert_Some; auto).
  assert (forall j t v, ss !! j = Some t -> committed t = Some v -> Db.email v <> Db.email u) as Hother.
  { intros j t v Ht Hv He. apply (Hem (Db.u_id v)). rewrite <- He. eauto. }
  constructor.
  - intros j t v [[-> ->]|[_ Ht]]%Hat Hv; [|eauto]. injection Hv as <-.
    apply (inv_made0 i s u Hi). unfold made. by rewrite Hp.
  - intros j t v [[-> ->]|[Hj Ht]]%Hat Hv; [done|]. destruct (inv_free0 j t v Ht Hv) as [Hf1 Hf2].
    pose proof (inv_apart0 i j s t u v (not_eq_sym Hj) Hi Ht Hu Hv) as [Hne1 Hne2]%collide_false.
    split; [by rewrite lookup_insert_ne|]. intros id. rewrite lookup_insert. case_decide; [congruence|done].
  - intros j k t t' v v' Hjk [[-> ->]|[Hj Ht]]%Hat [[-> ->]|[Hk Ht']]%Hat Hv Hv'; [done..|eauto].
  - intros j t v [[-> ->]|[_ Ht]]%Hat Hv; [|eauto]. injection Hv as <-. apply lookup_insert_eq.
  - intros j t v [[-> ->]|[_ Ht]]%Hat Hv; [|eauto]. injection Hv as <-. split.
    + destruct (m0 !! Db.u_id u) as [a|] eqn:Ha; [|done]. apply inv_kept0 in Ha. congruence.
    + intros id Ha. by apply (Hem id), inv_kept0.
  - intros j k t t' v v' [[-> ->]|[_ Ht]]%Hat [[-> ->]|[_ Ht']]%Hat Hv Hv' He; [done|..|eauto].
    + injection Hv as <-. by destruct (Hother _ _ _ Ht' Hv').
    + injection Hv' as <-. by destruct (Hother _ _ _ Ht Hv).
  - intros id a. rewrite lookup_insert. case_decide as Hc; [intros [= <-]|intros Ha].
    + right. exists i, s', u. split; [|done]. apply list_lookup_insert_eq. by eapply lookup_lt_Some.
    + destruct (inv_origin0 id a Ha) as [?|(j & t & v & Ht & Hv & ?)]; [by left|right].
      exists j, t, v. split; [|done]. rewrite list_lookup_insert_ne; [done|].
      intros ->. unfold committed in Hv. assert (t = s) as -> by congruence. by rewrite Hp in Hv.
  - intros id a Ha. apply Hgrow. eauto.
  - intros j t [[-> ->]|[_ Ht]]%Hat; [done|]. specialize (inv_beaten0 j t Ht). unfold beaten in *.
    destruct (s_phase t); try done.
    + destruct inv_beaten0 as [Hx [[id Hb]|[a Ha]]]; (split; [done|]); [left; eauto|right; eexists; eauto].
    + intros He. destruct (inv_beaten0 He) as [id Hb]. eauto.
Qed.

(** A message that cannot be sent is a failure of the library's. *)
Lemma send_fails u w e : (_send_verification settings u w).1 = Err e -> library_error e.
Proof.
  unfold _send_verification, mbind, m_bind, create_token, on_rand, zoom, Security.create_verify_token,
    Security._create_token. destruct (uuid4 (w_rand w)) as [id r]. unfold on_notifier, zoom. simpl.
  match goal with |- context [notify ?a ?b ?c ?n] => pose proof (notify_law a b c n) as Hl end.
  destruct (notify _ _ _ _) as [[[]|err] n']; simpl; [done|]. destruct Hl. by intros [= <-].
Qed.

Lemma accounts_lookup d id a :
  accounts d !! id = Some a <-> exists u, Db.users d !! id = Some u /\ Db.email u = a.
Proof. unfold accounts. rewrite lookup_fmap, fmap_Some. naive_solver. Qed.

Lemma free_spec d u :
  free (accounts d) u <->
  Db.users d !! Db.u_id u = None /\ forall id v, Db.users d !! id = Some v -> Db.email v <> Db.email u.
Proof.
  unfold free, accounts. rewrite lookup_fmap, fmap_None. split; intros [? Hall]; (split; [done|]).
  - intros id v Hv He. apply (Hall id). rewrite lookup_fmap, Hv. simpl. congruence.
  - intros id Ha. apply accounts_lookup in Ha as (v & Hv & He). by apply (Hall id v).
Qed.

Lemma commit_run request u w :
  Db.UserRepository.add_user u (w_db w)
    = (Ok tt, Db.set_users (<[Db.u_id u := u]> (Db.users (w_db w))) (w_db w)) ->
  exists l, commit proxy_trust request u w
    = (Ok tt, set_db (Db.set_audit_log l (Db.set_users (<[Db.u_id u := u]> (Db.users (w_db w))) (w_db w))) w).
Proof.
  intros Hadd. unfold commit, get_session.
  assert (on_db (Db.UserRepository.add_user u) w
    = (Ok tt, set_db (Db.set_users (<[Db.u_id u := u]> (Db.users (w_db w))) (w_db w)) w)) as Hi
    by (unfold on_db, zoom; by rewrite Hadd).
  m_run Hi. by eexists.
Qed.

(** A session inserts its row, or is refused. *)
Lemma advance_flushing m0 ss i s sh u p sh' :
  good (db_of sh) -> inv m0 (accounts (db_of sh)) ss -> ss !! i = Some s -> s_phase s = Flushing u ->
  advance ss s sh = Some (p, sh') ->
  good (db_of sh') /\ inv m0 (accounts (db_of sh')) (<[i := set_phase p s]> ss).
Proof.
  intros Hg Hinv Hi Hp. unfold Concurrent.advance.
  pose proof (inv_made _ _ _ Hinv i s) as Hmade. unfold made in Hmade. rewrite Hp in *.
  destruct (existsb _ _) eqn:Hfree; [done|]. rewrite on_world_eq. unfold flush. cbn [fst snd].
  destruct (Db.add_user_spec (db_of sh) u) as [(-> & Hn & He)|(-> & Hbad)]; cbn [fst]; intros [= <- <-];
    (split; [done|]); (apply inv_move; [done|done|unfold committed; by rewrite Hp| |..]); try done.
  - intros v [= <-]. by apply Hmade.
  - intros v [= <-]. right. split; [by apply free_spec|]. intros j t v Ht Hv.
    destruct (collide u v) eqn:Hc; [|done]. rewrite <- Hfree. symmetry.
    apply existsb_exists. exists v. split; [|done]. apply list_elem_of_In, list_elem_of_omap.
    exists t. split; [by eapply list_elem_of_lookup_2|done].
  - intros v [= <-]. by apply Hmade.
  - destruct (Hmade u Hi eq_refl) as [Haddr _].
    unfold beaten. cbn [s_phase set_phase]. split; [done|].
    destruct Hbad as [[v Hv]|(id & v & Hv & He)]; [right|left].
    + exists (Db.email v). apply accounts_lookup. eauto.
    + exists id. apply accounts_lookup. exists v. split; [done|]. unfold address in *; simpl; congruence.
Qed.

(** A session commits. *)
Lemma advance_mailed m0 ss i s sh u p sh' :
  good (db_of sh) -> inv m0 (accounts (db_of sh)) ss -> ss !! i = Some s -> s_phase s = Mailed u ->
  advance ss s sh = Some (p, sh') ->
  good (db_of sh') /\ inv m0 (accounts (db_of sh')) (<[i := set_phase p s]> ss).
Proof.
  intros Hg Hinv Hi Hp. unfold Concurrent.advance.
  pose proof (inv_made _ _ _ Hinv i s) as Hmade. unfold made in Hmade. rewrite Hp in *. rewrite on_world_eq.
  assert (open_row s = Some u) as Hu by (unfold open_row; by rewrite Hp).
  pose proof (inv_free _ _ _ Hinv i s u Hi Hu) as Hf. apply free_spec in Hf as [Hn He].
  destruct (Hmade u Hi eq_refl) as (Haddr & Hrange & _).
  destruct (Db.add_user_spec (db_of sh) u) as [(Hadd & _)|(_ & Hbad)].
  2: { exfalso. destruct Hbad as [[v Hv]|(id & v & Hv & Hev)]; [congruence|]. by apply (He id v). }
  destruct (commit_run (s_request s) u (a_world sh) Hadd) as (l & ->). cbn [next fst snd].
  intros [= <- <-]. cbn [a_world set_world w_db set_db]. split.
  - destruct Hg as [Hok Hs]. split.
    + assert (Db.ok (Db.set_users (<[Db.u_id u:=u]> (Db.users (db_of sh))) (db_of sh))) as [].
      { apply Db.ok_add_user; try done. unfold address in Haddr. rewrite Haddr. apply lower_idemp. }
      by constructor.
    + intros x Hx. simpl. destruct (Hs x Hx) as [v Hv]. rewrite lookup_insert. case_decide; by eexists.
  - unfold accounts. simpl. rewrite fmap_insert. by apply inv_commit.
Qed.

(** What one part of a session does to the invariant. *)
Lemma advance_inv m0 ss i s sh p sh' :
  good (db_of sh) -> inv m0 (accounts (db_of sh)) ss -> ss !! i = Some s ->
  advance ss s sh = Some (p, sh') ->
  good (db_of sh') /\ inv m0 (accounts (db_of sh')) (<[i := set_phase p s]> ss).
Proof.
  intros Hg Hinv Hi. pose proof (inv_made _ _ _ Hinv i s) as Hmade. unfold made in Hmade.
  destruct (s_phase s) eqn:Hp; try (unfold Concurrent.advance; by rewrite Hp).
  - unfold Concurrent.advance. rewrite Hp. destruct (ApiSpec.enforce_spec proxy_trust (s_request s) sh) as (rem & _ & ->).
    destruct (ApiSpec.admitted _ _ _); intros [= <- <-]; (split; [done|]);
      (apply inv_move; [done|done|unfold committed; by rewrite Hp|done..]).
  - unfold Concurrent.advance. rewrite Hp, on_world_eq. destruct (ask_run (s_payload s) (a_world sh)) as [->|[-> Ht]]; cbn [fst snd];
      intros [= <- <-]; (split; [done|]); (apply inv_move; [done|done|unfold committed; by rewrite Hp|done..|]).
    + done.
    + intros _. destruct Ht as (id & u & Hu & He). exists id. apply accounts_lookup. eauto.
  - unfold Concurrent.advance. rewrite Hp, on_world_eq. destruct (build_run (s_payload s) (a_world sh)) as (u & r & -> & Hu). cbn [fst snd].
    intros [= <- <-]. split; [done|]. apply inv_move; [done|done|unfold committed; by rewrite Hp| |done..].
    by intros v [= <-].
  - intros Ha. by apply (advance_flushing m0 ss i s sh u p sh').
  - unfold Concurrent.advance. rewrite Hp, on_world_eq.
    pose proof (send_fails u (a_world sh)) as Hfail. pose proof (send_same_db u (a_world sh)) as Hdb.
    destruct (_send_verification settings u (a_world sh)) as [[[]|e] w']; simpl in Hfail, Hdb; cbn [next fst snd];
      intros [= <- <-]; cbn [a_world set_world]; rewrite Hdb; (split; [done|]);
      (apply inv_move; [done|done|unfold committed; by rewrite Hp| |..]; try done).
    + intros v [= <-]. by apply Hmade.
    + intros v [= <-]. left. unfold open_row. by rewrite Hp.
    + simpl. intros ->. by destruct (Hfail _ eq_refl) as (? & ? & ?).
  - intros Ha. by apply (advance_mailed m0 ss i s sh u p sh').
Qed.

Lemma inv_start m requests : inv m m (uncurry arrive <$> requests).
Proof.
  assert (forall i s, (uncurry arrive <$> requests) !! i = Some s -> s_phase s = Arrived) as Hp.
  { intros i s Hs. rewrite list_lookup_fmap in Hs. by destruct (requests !! i) as [[]|]; simplify_eq/=. }
  constructor; try done; intros; unfold made, open_row, committed, beaten in *;
    repeat match goal with Hs : _ !! _ = Some ?s |- _ => apply Hp in Hs; rewrite ?Hs in * end; try done.
  by left.
Qed.

Lemma race_step_inv m0 g g' :
  good (db_of (shared g)) -> inv m0 (accounts (db_of (shared g))) (sessions g) -> step g g' ->
  good (db_of (shared g')) /\ inv m0 (accounts (db_of (shared g'))) (sessions g').
Proof.
  intros Hg Hinv Hstep. destruct Hstep as [g' [i s p sh Hi Ha]|i s Hi Hf|e He]; cbn [shared sessions].
  - by eapply advance_inv.
  - split; [done|]. unfold finished in Hf.
    apply inv_move; try done. unfold committed. by destruct (s_phase s).
  - destruct (perform_good settings proxy_trust dummy flights hotels e (shared g) Hg) as (Hg' & Hu & _).
    split; [done|]. rewrite He in Hu. unfold accounts. by rewrite (AuthSpec.users_evolve_emails _ _ Hu).
Qed.

Lemma race_inv m0 g g' :
  rtc step g g' ->
  good (db_of (shared g)) -> inv m0 (accounts (db_of (shared g))) (sessions g) ->
  good (db_of (shared g')) /\ inv m0 (accounts (db_of (shared g'))) (sessions g').
Proof.
  induction 1 as [|g1 g2 g3 Hs _ IH]; intros Hg Hinv; [done|].
  destruct (race_step_inv m0 g1 g2 Hg Hinv Hs). by apply IH.
Qed.

(** Somebody had the address of [s]: an account from the start, or a session
    that has committed. *)
Definition lost (d : Db.db) (g : race) (s : session) : Prop :=
  (exists id v, Db.users d !! id = Some v /\ Db.email v = address s)
  \/ exists j t u, sessions g !! j = Some t /\ committed t = Some u /\ address t = address s.

Lemma beaten_lost d g s id :
  inv (accounts d) (accounts (db_of (shared g))) (sessions g) ->
  accounts (db_of (shared g)) !! id = Some (address s) -> lost d g s.
Proof.
  intros Hinv Ha. destruct (inv_origin _ _ _ Hinv id _ Ha) as [Hold|(j & t & u & Ht & Hu & _ & He)].
  - left. apply accounts_lookup in Hold as (v & Hv & He). eauto.
  - right. exists j, t, u. split; [done|]. split; [done|].
    destruct (inv_made _ _ _ Hinv j t u Ht) as [Haddr _]; [|congruence].
    unfold made, committed in *. by destruct (s_phase t).
Qed.

(** C2. Any number of registrations, interleaved at their awaits with each other
    and with the rest of the system, some of them given up half-way: the tables
    stay well-formed; a session that commits has made a plain account under
    its address in lower case, which nobody had, and no two of them have the
    same address; every account was there before or is one of theirs; and a
    session loses only to somebody -- an account from the start or another
    session that has committed the address -- or to an identifier that was
    already used.  A loser whose lookup saw the other account is answered 409,
    one that was overtaken after its lookup 500. *)
Theorem registration_race requests sh g :
  good (db_of sh) ->
  rtc step {| shared := sh; sessions := uncurry arrive <$> requests |} g ->
  let d := db_of sh in
  let d' := db_of (shared g) in
  Db.ok d'
  /\ (forall i s u, sessions g !! i = Some s -> committed s = Some u ->
       Db.email u = address s /\ Db.role u = Db.USER
       /\ Db.users d !! Db.u_id u = None
       /\ (forall id v, Db.users d !! id = Some v -> Db.email v <> address s)
       /\ exists v, Db.users d' !! Db.u_id u = Some v /\ Db.email v = address s)
  /\ (forall i j s t u v, sessions g !! i = Some s -> sessions g !! j = Some t ->
       committed s = Some u -> committed t = Some v -> address s = address t -> i = j)
  /\ (forall id v, Db.users d' !! id = Some v ->
       (exists v0, Db.users d !! id = Some v0 /\ Db.email v0 = Db.email v)
       \/ exists i s u, sessions g !! i = Some s /\ committed s = Some u
            /\ Db.u_id u = id /\ Db.email u = Db.email v)
  /\ (forall i s trace, sessions g !! i = Some s ->
       match s_phase s with
       | Failed e =>
           e = app_err ConflictError "an account with this email already exists" ->
           lost d g s /\ Errors.resp_status (Errors.handle_exception trace e) = 409
       | Refused u e =>
           (lost d g s \/ is_Some (Db.users d' !! Db.u_id u))
           /\ Errors.resp_status (Errors.handle_exception trace e) = 500
       | _ => True
       end).
Proof.
  intros Hg Hr. cbv zeta.
  destruct (race_inv _ _ _ Hr Hg (inv_start _ requests)) as [[Hok _] Hinv]. cbn [shared] in Hinv.
  assert (forall i s u, sessions g !! i = Some s -> committed s = Some u ->
    Db.email u = address s /\ Db.role u = Db.USER) as Hmade.
  { intros i s u Hi Hu. destruct (inv_made _ _ _ Hinv i s u Hi) as (? & _ & ?); [|done].
    unfold made, committed in *. by destruct (s_phase s). }
  split; [done|]. split; [|split; [|split]].
  - intros i s u Hi Hu. destruct (Hmade i s u Hi Hu) as [He Hrole]. rewrite <- He.
    split; [done|]. split; [done|].
    pose proof (inv_new _ _ _ Hinv i s u Hi Hu) as [Hn Hall]%free_spec. split; [done|]. split; [done|].
    apply accounts_lookup. by apply (inv_in _ _ _ Hinv i s u).
  - intros i j s t u v Hi Hj Hu Hv Ha. apply (inv_once _ _ _ Hinv i j s t u v); [done..|].
    destruct (Hmade i s u Hi Hu) as [-> _]. by destruct (Hmade j t v Hj Hv) as [-> _].
  - intros id v Hv.
    assert (accounts (db_of (shared g)) !! id = Some (Db.email v)) as Ha by (apply accounts_lookup; eauto).
    destruct (inv_origin _ _ _ Hinv id _ Ha) as [Hold|Hnew]; [left|by right].
    by apply accounts_lookup.
  - intros i s trace Hi. pose proof (inv_beaten _ _ _ Hinv i s Hi) as Hb. unfold beaten in Hb.
    destruct (s_phase s); try done.
    + destruct Hb as [-> [[id Hb]|[a Ha]]]; (split; [|done]); [left; by eapply beaten_lost|right].
      apply accounts_lookup in Ha as (v & Hv & _). by exists v.
    + intros ->. split; [|done]. destruct (Hb eq_refl) as [id Hid]. by eapply beaten_lost.
Qed.

(** ** All of them end *)

(** How many parts a session has left. *)
Definition parts_left (s : session) : nat :=
  match s_phase s with
  | Arrived => 6
  | Asking => 5
  | Hashing => 4
  | Flushing _ => 3
  | Inserted _ => 2
  | Mailed _ => 1
  | _ => 0
  end.

Definition work (ss : list session) : nat := sum_list_with parts_left ss.

Lemma advance_work ss s sh p sh' :
  advance ss s sh = Some (p, sh') -> (parts_left (set_phase p s) < parts_left s)%nat.
Proof.
  unfold Concurrent.advance, parts_left, next. cbn [s_phase set_phase].
  destruct (s_phase s) as [| | |u|u|u|u|u e|e|]; try done;
    [| | |destruct (existsb _ _); [done|]| |];
    match goal with |- context [match ?m with (_, _) => _ end] => destruct m as [[a|e] sh1] end;
    intros [= <- <-]; lia.
Qed.

Lemma work_insert ss i s s' :
  ss !! i = Some s -> (parts_left s' < parts_left s)%nat -> (work (<[i := s']> ss) < work ss)%nat.
Proof.
  unfold work. revert i. induction ss as [|t ss IH]; intros [|i] Hi Hlt; simplify_eq/=; [lia|].
  specialize (IH i Hi Hlt). lia.
Qed.

Lemma session_step_work g g' : session_step g g' -> (work (sessions g') < work (sessions g))%nat.
Proof. destruct 1 as [i s p sh Hi Ha]. eapply work_insert; [done|]. by eapply advance_work. Qed.

(** Nobody waits for somebody who waits. *)
Lemma no_deadlock g :
  (exists i s, sessions g !! i = Some s /\ finished s = false) -> exists g', session_step g g'.
Proof.
  intros (i & s & Hi & Hf).
  destruct (advance (sessions g) s (shared g)) as [[p sh]|] eqn:Ha.
  { eexists. by eapply session_advances. }
  destruct (s_phase s) eqn:Hp; unfold Concurrent.advance, finished in *; rewrite Hp in *; try done.
  destruct (existsb _ _) eqn:Hblock; [|done].
  apply existsb_exists in Hblock as (v & Hv & _).
  apply list_elem_of_In, list_elem_of_omap in Hv as (t & [j Hj]%list_elem_of_lookup & Ht).
  destruct (advance (sessions g) t (shared g)) as [[p sh]|] eqn:Hat.
  { eexists. by eapply session_advances. }
  unfold Concurrent.advance, open_row in *. by destruct (s_phase t).
Qed.

(** C20. No deadlock: while a registration has not ended, one of them can go on,
    however their rows collide; together they can take no more than six steps
    each; so, whatever has happened, letting them run ends with all of them
    answered. *)
Theorem race_ends g :
  ((exists i s, sessions g !! i = Some s /\ finished s = false) -> exists g', session_step g g')
  /\ (forall n g', nsteps session_step n g g' -> (n + work (sessions g') <= work (sessions g))%nat)
  /\ (work (sessions g) <= 6 * length (sessions g))%nat
  /\ exists g', rtc session_step g g' /\ Forall (fun s => finished s = true) (sessions g').
Proof.
  split; [apply no_deadlock|]. split; [|split].
  - intros n g' Hn. induction Hn as [|n g1 g2 g3 Hs _ IH]; [lia|].
    apply session_step_work in Hs. lia.
  - unfold work. induction (sessions g) as [|s ss IH]; simpl; [lia|].
    assert (parts_left s <= 6)%nat by (unfold parts_left; destruct (s_phase s); lia). lia.
  - remember (work (sessions g)) as n eqn:Hn. revert g Hn.
    induction (lt_wf n) as [n _ IH]. intros g ->.
    destruct (decide (Forall (fun s => finished s = true) (sessions g))) as [|Hu]; [by eexists|].
    destruct (no_deadlock g) as [g1 Hs].
    { apply not_Forall_Exists in Hu; [|apply _]. apply Exists_exists in Hu as (s & Hin & Hf).
      apply list_elem_of_lookup in Hin as [i Hi]. exists i, s. split; [done|]. destruct (finished s) eqn:E; [by destruct Hf|done]. }
    destruct (IH _ (session_step_work g g1 Hs) g1 eq_refl) as (g2 & Hr & Hall).
    exists g2. split; [by eapply rtc_l|done].
Qed.

(** ** Schedules *)

(** Let session [i] do its next part, if it can. *)
Definition turn (g : race) (i : nat) : race :=
  match sessions g !! i with
  | Some s =>
      match advance (sessions g) s (shared g) with
      | Some (p, sh) => {| shared := sh; sessions := <[i := set_phase p s]> (sessions g) |}
      | None => g
      end
  | None => g
  end.

Definition play (schedule : list nat) (g : race) : race := foldl turn g schedule.

Lemma play_steps schedule g : rtc step g (play schedule g).
Proof.
  unfold play. revert g. induction schedule as [|i schedule IH]; intros g; simpl; [done|].
  transitivity (turn g i); [|apply IH]. unfold turn.
  destruct (sessions g !! i) as [s|] eqn:Hi; [|done].
  destruct (advance (sessions g) s (shared g)) as [[p sh]|] eqn:Ha; [|done].
  apply rtc_once, step_session. by apply session_advances.
Qed.

End spec.

(** ** Bob, three times at once

    Two registrations of one address pass the lookup together; a third comes
    when the first has committed. *)
Definition bob (email : string) : ClientIp.Request * Schemas.RegisterRequest :=
  (ApiSpec.sample_request,
   {| Schemas.email := email; Schemas.password := "Pa55word!!"; Schemas.full_name := None |}).

Definition bobs : list (ClientIp.Request * Schemas.RegisterRequest) :=
  [bob "Bob@Example.com"; bob "bob@example.com"; bob "BOB@example.com"]%string.

Definition sample_schedule : list nat := [0; 0; 0; 1; 1; 1; 0; 1; 0; 0; 1; 2; 2]%nat.

Abbreviation sample_race :=
  (play Security.sample_settings ApiSpec.no_proxies sample_schedule
     {| shared := ApiSpec.sample_api 10; sessions := uncurry arrive <$> bobs |}).

Lemma sample_start_good : good (w_db (a_world (ApiSpec.sample_api 10))).
Proof. split; [exact ApiSpec.alert_world_ok|]. intros r Hr. by apply elem_of_nil in Hr. Qed.

(** How each of them ended. *)
Definition outcome (s : session) : option Z :=
  match s_phase s with
  | Committed _ => Some 201
  | Failed e | Refused _ e => Some (Errors.resp_status (Errors.handle_exception None e))
  | _ => None
  end.

Example sample_race_outcomes : outcome <$> sessions sample_race = [Some 201; Some 500; Some 409].
Proof. vm_compute. reflexivity. Qed.

Lemma registration_race_witness :
  exists s u, sessions sample_race !! 0%nat = Some s /\ committed s = Some u
    /\ Db.email u = "bob@example.com"%string
    /\ exists v, Db.users (w_db (a_world (shared sample_race))) !! Db.u_id u = Some v.
Proof.
  destruct (registration_race Security.sample_settings ApiSpec.no_proxies "$dummy"
    Aggregation.sample_service no_hotels bobs (ApiSpec.sample_api 10) sample_race sample_start_good
    (play_steps _ _ _ _ _ sample_schedule _)) as (_ & Hc & _).
  destruct (sessions sample_race !! 0%nat) as [s|] eqn:Hs; [|by vm_compute in Hs].
  assert (exists u, committed s = Some u /\ address s = "bob@example.com"%string) as (u & Hu & Ha).
  { vm_compute in Hs. injection Hs as <-. eexists. split; reflexivity. }
  destruct (Hc 0%nat s u Hs Hu) as (He & _ & _ & _ & v & Hv & _).
  exists s, u. split; [reflexivity|]. split; [exact Hu|]. split; [by rewrite He|]. by exists v.
Defined.

(** Bob alone: the parts and the handler agree, and there is an account. *)
Lemma alone_register_witness :
  let handler := Api.register Security.sample_settings ApiSpec.no_proxies (bob "Bob@Example.com").1
                   (bob "Bob@Example.com").2 (ApiSpec.sample_api 10) in
  exists u, handler.1 = Ok (user_out u)
    /\ s_phase (Concurrent.alone Security.sample_settings ApiSpec.no_proxies 6
         (arrive (bob "Bob@Example.com").1 (bob "Bob@Example.com").2) (ApiSpec.sample_api 10)).1 = Committed u.
Proof.
  cbv zeta.
  pose proof (alone_register Security.sample_settings ApiSpec.no_proxies (bob "Bob@Example.com").1
    (bob "Bob@Example.com").2 (ApiSpec.sample_api 10)) as Ha.
  assert (is_ok (Api.register Security.sample_settings ApiSpec.no_proxies (bob "Bob@Example.com").1
    (bob "Bob@Example.com").2 (ApiSpec.sample_api 10)).1 = true) as Hok by (vm_compute; reflexivity).
  destruct (Concurrent.alone _ _ _ _ _) as [s' sh'].
  destruct (Api.register _ _ _ _ _) as [[out|e] sh2]; [|discriminate].
  destruct Ha as (_ & u & Hp & ->). exists u. split; [reflexivity|exact Hp].
Defined.

(** The race of the Bobs can be brought to its end from its start. *)
Lemma race_ends_witness :
  exists g', rtc (Concurrent.session_step Security.sample_settings ApiSpec.no_proxies)
      {| shared := ApiSpec.sample_api 10; sessions := uncurry arrive <$> bobs |} g'
    /\ Forall (fun s => finished s = true) (sessions g').
Proof.
  destruct (race_ends Security.sample_settings ApiSpec.no_proxies
    {| shared := ApiSpec.sample_api 10; sessions := uncurry arrive <$> bobs |}) as (_ & _ & _ & Hend).
  exact Hend.
Defined.

End ConcurrentSpec.
