(* ===== verification/SessionSpec.v ===== *)
(** * Sessions that have ended

    The blocklist of [services/token_blocklist.py] in the running system: an
    access token that has been logged out stays refused whatever requests, jobs
    and upstream calls follow, although they share the cache of
    [app/container.py] with it. *)
From S2P Require Import Prelude Triple PyStr PyDict Float64 Errors PyUuid PySorted Cache HttpClient RateLimit.
From S2P Require Import ClientIp Config Domain AggCore Aggregation HotelAggregation Schemas Security.
From S2P Require Import TokenBlocklist Notifications Db TravelOut Auth AuthSpec PriceMonitor Api ApiSpec System.
Import PyStr Calendar Auth Api System.

Module SessionSpec.

Section spec.
Context {C N R L : Type} `{CacheLaws C} `{NotifierLaws N} `{EntropyLaws R} `{JwtLaws} `{RateLimiterLaws L}.
Variable settings : Config.Settings.
Variable proxy_trust : ClientIp.ProxyTrust.
Variable dummy : string.
Variable flights : Aggregation.Service.
Variable hotels : HotelAggregation.Service.
(** The token that has been revoked, by its [jti]. *)
Variable jti : string.

Abbreviation W := (world C N R).
Abbreviation S := (api C N R L).
Abbreviation perform := (System.perform settings proxy_trust dummy flights hotels).
Abbreviation key := (TokenBlocklist.key_of jti).

(** ** What leaves the entry alone *)

(** The clock of the cache stands still, and from now on the entry reads as it
    did. *)
Definition steady (w w' : W) : Prop :=
  w_mono w' = w_mono w
  /\ forall u, w_mono w <= u -> cache_view (w_cache w') u key = cache_view (w_cache w) u key.

#[global] Instance steady_preorder : PreOrder steady.
Proof.
  split; [by intros w; split|]. intros w1 w2 w3 [Hm Hv] [Hm' Hv'].
  split; [congruence|]. intros u Hu. rewrite Hv', Hv by congruence. done.
Qed.

Abbreviation calm := (moves steady).

Lemma calm_db {A} (m : M exn Db.db A) : calm (on_db m).
Proof. by apply (moves_part steady w_db set_db (fun _ => m)). Qed.
Lemma calm_create id e h name :
  calm (fun w : W => on_db (Db.UserRepository.create id (w_wall w) e h name Db.USER) w).
Proof. by apply (moves_part steady w_db set_db (fun w => Db.UserRepository.create id (w_wall w) e h name Db.USER)). Qed.
Lemma calm_rand {A} (m : M exn R A) : calm (on_rand m).
Proof. by apply (moves_part steady w_rand set_rand (fun _ => m)). Qed.
Lemma calm_notifier {A} (m : M exn N A) : calm (on_notifier m).
Proof. by apply (moves_part steady w_notifier set_notifier (fun _ => m)). Qed.
Lemma calm_token id t : calm (create_token settings id t).
Proof. by apply (moves_part steady w_rand set_rand). Qed.
Lemma calm_decode token t : calm (_decode settings token t).
Proof. intros w. unfold _decode. by destruct (Security.decode_token _ _ _ _) as [|[]]. Qed.
Lemma calm_audit actor act request : calm (audit proxy_trust actor act request).
Proof. by intros w. Qed.
Lemma calm_record_search u p total latency : calm (record_search u p total latency).
Proof. by intros w. Qed.
Lemma calm_insert_alert id user payload channel : calm (insert_alert id user payload channel).
Proof.
  by apply (moves_part steady w_db set_db (fun w => Db.PriceAlertRepository.create id (w_wall w) (Db.u_id user) _ _ _ _ _ channel)).
Qed.
Lemma calm_deactivate alert : calm (PriceMonitor.deactivate alert).
Proof. by intros w. Qed.
Lemma calm_metrics : calm collect_metrics.
Proof. by intros w. Qed.

(** Reading the blocklist never changes what a later reading sees. *)
Lemma calm_is_revoked payload : calm (is_revoked payload).
Proof.
  intros w. unfold is_revoked, on_cache, zoom.
  destruct (TokenBlocklist.is_revoked_total (w_mono w) payload (w_cache w)) as (b & c & -> & Hv).
  split; [done|]. intros u Hu. by apply Hv.
Qed.

(** Revoking another token. *)
Lemma revoke_other payload w :
  TokenBlocklist.jti_of payload <> Some jti -> steady w (revoke payload w).2.
Proof.
  intros Hne. unfold revoke, on_cache, zoom.
  destruct (TokenBlocklist.revoke_total (w_wall w) (w_mono w) payload (w_cache w)) as (c & -> & Hv).
  split; [done|]. intros u Hu. apply Hv; [done|].
  intros j Hj Hk%TokenBlocklist.revoked_key_inj. congruence.
Qed.

Lemma calm_get_optional_user cred : calm (get_optional_user settings cred).
Proof.
  intros w. unfold get_optional_user. destruct cred as [token|]; [|done].
  destruct (Security.decode_token _ _ _ _) as [p|[]]; try done.
  destruct (subject_of p) as [id|]; [|done]. apply calm_db.
Qed.

#[local] Hint Resolve calm_db calm_create calm_rand calm_notifier calm_token calm_decode calm_audit
  calm_record_search calm_insert_alert calm_deactivate calm_metrics calm_is_revoked
  calm_get_optional_user : moves.

(** ** Use cases and jobs *)

Lemma calm_active_user payload e : calm (active_user payload e).
Proof. unfold active_user. moves_steps. Qed.

Lemma calm_issue id : calm (issue_tokens settings id).
Proof. unfold issue_tokens. moves_steps. Qed.

#[local] Hint Resolve calm_active_user calm_issue : moves.

Lemma calm_register e pw name : calm (Auth.register settings e pw name).
Proof. unfold Auth.register, _send_verification. moves_steps. Qed.

Lemma calm_authenticate e pw : calm (authenticate dummy e pw).
Proof. unfold authenticate. cbv zeta. moves_steps. Qed.

Lemma calm_refresh token : calm (Auth.refresh settings token).
Proof. unfold Auth.refresh. moves_steps. Qed.

Lemma calm_verify_email token : calm (Auth.verify_email settings token).
Proof. unfold Auth.verify_email. moves_steps. Qed.

Lemma calm_resend e : calm (Auth.resend_verification settings e).
Proof. unfold Auth.resend_verification, _send_verification. moves_steps. Qed.

Lemma calm_request_reset e : calm (Auth.request_password_reset settings e).
Proof. unfold Auth.request_password_reset. moves_steps. Qed.

Lemma calm_reset token pw : calm (Auth.reset_password settings token pw).
Proof. unfold Auth.reset_password. moves_steps. Qed.

Lemma calm_payload cred : calm (get_access_payload settings cred).
Proof. unfold get_access_payload. moves_steps. Qed.

#[local] Hint Resolve calm_register calm_authenticate calm_refresh calm_verify_email calm_resend
  calm_request_reset calm_reset calm_payload : moves.

Lemma calm_current_user cred : calm (current_user settings cred).
Proof. unfold current_user, get_current_user. moves_steps. Qed.

#[local] Hint Resolve calm_current_user : moves.

Lemma calm_check_all alerts n : calm (PriceMonitor.check_all flights alerts n).
Proof.
  revert n. induction alerts as [|alert alerts IH]; intros n; simpl; [moves_steps|].
  apply moves_bind; [apply _| |intros hit; apply IH].
  unfold PriceMonitor._check, PriceMonitor._notify. moves_steps.
Qed.

(** Giving the tables back does not touch the cache. *)
Lemma session_at {A} (m : M exn W A) w : steady w (m w).2 -> steady w (get_session m w).2.
Proof. intros Hm. unfold get_session. by destruct (m w) as [[a|e] w']. Qed.

Lemma calm_session {A} (m : M exn W A) : calm m -> calm (get_session m).
Proof. intros Hm w. by apply session_at. Qed.

Lemma calm_transaction {A} (m : M exn W A) : calm m -> calm (PriceMonitor.transaction m).
Proof. intros Hm w. specialize (Hm w). unfold PriceMonitor.transaction. by destruct (m w) as [[a|e] w']. Qed.

Lemma calm_monitor : calm (PriceMonitor._monitor_prices flights).
Proof.
  apply calm_transaction. unfold PriceMonitor.run_once.
  repeat (apply moves_bind; [apply _| |intros ?]); auto using calm_check_all with moves typeclass_instances.
Qed.

(** ** Events *)

Abbreviation settled s s' := (steady (a_world s) (a_world s')).

Lemma settled_route {A} request (handler : M exn W A) (s : S) :
  calm handler -> settled s (route proxy_trust request handler s).2.
Proof.
  intros Hh. rewrite ApiSpec.route_eq. destruct (ApiSpec.admitted _ _ _); [|done].
  apply (calm_session handler Hh).
Qed.

Lemma settled_world {A} (m : M exn W A) (s : S) : calm m -> settled s (on_world m s).2.
Proof. intros Hm. specialize (Hm (a_world s)). unfold on_world, zoom. by destruct (m (a_world s)). Qed.

(** A refresh token that is not the revoked one. *)
Definition other_token (t : string) : Prop :=
  forall now p, Security.decode_token t Security.refresh settings now = Ok p ->
    TokenBlocklist.jti_of p <> Some jti.

(** The entry is there. *)
Definition blocked (w : W) : Prop := is_Some (cache_view (w_cache w) (w_mono w) key).

(** While the entry is there nobody gets in with the token, so nobody can
    revoke it anew. *)
Lemma payload_other cred w p w1 :
  blocked w -> get_access_payload settings cred w = (Ok p, w1) -> TokenBlocklist.jti_of p <> Some jti.
Proof.
  intros Hb. unfold get_access_payload. destruct cred as [t|]; [|done].
  unfold _decode, mbind at 1, m_bind at 1.
  destruct (Security.decode_token t Security.access settings (w_wall w)) as [q|[]]; try done.
  unfold is_revoked, on_cache, zoom, mbind, m_bind. intros Hp Hj.
  destruct (TokenBlocklist.jti_of q) as [j|] eqn:Hq.
  - destruct (TokenBlocklist.is_revoked_spec (w_mono w) q j (w_cache w) Hq) as (c & Hr & _).
    rewrite Hr in Hp. case_bool_decide as Hs; simpl in Hp; [done|].
    injection Hp as <- _. rewrite Hq in Hj. injection Hj as ->. done.
  - destruct (TokenBlocklist.is_revoked_total (w_mono w) q (w_cache w)) as (b & c & Hr & _).
    rewrite Hr in Hp. destruct b; simpl in Hp; [done|]. injection Hp as <- _. congruence.
Qed.

Lemma logout_other payload t w :
  TokenBlocklist.jti_of payload <> Some jti -> (forall t', t = Some t' -> other_token t') ->
  steady w (Auth.logout settings payload t w).2.
Proof.
  intros Hp Ht. unfold Auth.logout. apply moves_bind_at; [apply _|by apply revoke_other|]. intros [] w1 _.
  destruct t as [t|]; [|done]. case_bool_decide; [done|].
  unfold revoke_refresh. destruct (Security.decode_token _ _ _ _) as [p|[]] eqn:Hd; try done.
  apply revoke_other. by apply (Ht t eq_refl _ _ Hd).
Qed.

Lemma settled_logout request cred t (s : S) :
  blocked (a_world s) -> (forall t', t = Some t' -> other_token t') ->
  settled s (Api.logout settings proxy_trust request cred t s).2.
Proof.
  intros Hb Ht. unfold Api.logout. rewrite ApiSpec.route_eq.
  destruct (ApiSpec.admitted _ _ _); [|done]. apply session_at.
  apply moves_bind_at; [apply _|apply calm_payload|]. intros p w1 E.
  apply moves_bind_at; [apply _|by eapply logout_other; [eapply payload_other|]|]. intros [] w2 _.
  assert (calm (actor ← lift_res (subject_of p); _ ← audit proxy_trust actor "user.logout" request;
    mret "logged out"%string)) as Hk by moves_steps. apply Hk.
Qed.

(** What an event must not bring: the revoked token as a refresh token. *)
Definition clean (e : event) : Prop :=
  match e with Logout _ _ (Some t) => other_token t | _ => True end.

Definition is_tick (e : event) : bool := match e with Tick _ _ => true | _ => false end.

Lemma event_settled e (s : S) :
  blocked (a_world s) -> clean e -> is_tick e = false -> settled s (perform e s).
Proof.
  intros Hb Hc Ht. destruct e; cbn [System.perform]; try done.
  all: try (unfold Api.register, login, refresh, me, verify_email, resend_verification,
    request_password_reset, confirm_password_reset, create_alert, list_alerts, delete_alert, search_flights,
    search_hotels; apply settled_route; moves_steps; fail).
  - apply settled_logout; [done|]. by intros t' ->.
  - unfold enforce_rate_limit. by destruct (rl_check _ _ _) as [[[[] rem]|err] l].
  - apply settled_world, calm_session. moves_steps.
  - apply settled_world, calm_monitor.
Qed.

(** ** What else happens to the cache *)

(** The codec and the digest behind the keys of the HTTP client. *)
Variable json_dumps : bool -> json -> string.
Variable sha256_hex : string -> string.

Abbreviation upstream_key := (HttpClient._cache_key json_dumps sha256_hex).

(** A request or job, or one access of an adapter's client to the cache. *)
Inductive happening : Type :=
| Event (e : event)
| UpstreamHit (client : HttpClient.client) (url : string) (ps : HttpClient.params)
| UpstreamKept (client : HttpClient.client) (url : string) (ps : HttpClient.params) (value : string) (ttl : Z).

Definition occur (h : happening) (s : S) : S :=
  match h with
  | Event e => perform e s
  | UpstreamHit client url ps =>
      (on_world (on_cache (fun mono => cache_get mono (upstream_key client url ps))) s).2
  | UpstreamKept client url ps value ttl =>
      (on_world (on_cache (fun mono => cache_set mono (upstream_key client url ps) value ttl)) s).2
  end.

Definition history (hs : list happening) (s : S) : S := foldl (fun s h => occur h s) s hs.

Definition harmless (h : happening) : Prop :=
  match h with
  | Event e => clean e
  | UpstreamHit _ _ _ => True
  | UpstreamKept _ _ _ _ ttl => 0 < ttl
  end.

(** Nothing of that brings the revoked token, and the clock does not go back. *)
Fixpoint forward (hs : list happening) (s : S) : Prop :=
  match hs with
  | [] => True
  | h :: hs => harmless h /\ w_mono (a_world s) <= w_mono (a_world (occur h s)) /\ forward hs (occur h s)
  end.

Lemma upstream_key_apart client url ps : upstream_key client url ps <> key.
Proof. done. Qed.

(** The entry reads as revoked until [deadline]. *)
Definition revoked_until (deadline : Z) (w : W) : Prop :=
  forall u, w_mono w <= u -> cache_view (w_cache w) u key = if u <? deadline then Some "1"%string else None.

Lemma revoked_steady deadline w w' : steady w w' -> revoked_until deadline w -> revoked_until deadline w'.
Proof. intros [Hm Hv] Hr u Hu. rewrite Hm in Hu. rewrite Hv by done. by apply Hr. Qed.

Lemma revoked_blocked deadline w : revoked_until deadline w -> w_mono w < deadline -> blocked w.
Proof.
  intros Hr Hd. unfold blocked. rewrite Hr by lia. destruct (Z.ltb_spec (w_mono w) deadline); [by eexists|lia].
Qed.

Lemma occur_revoked deadline h (s : S) :
  revoked_until deadline (a_world s) -> w_mono (a_world s) < deadline -> harmless h ->
  w_mono (a_world s) <= w_mono (a_world (occur h s)) -> revoked_until deadline (a_world (occur h s)).
Proof.
  intros Hr Hd Hh Hm. destruct h as [e|client url ps|client url ps value ttl].
  - destruct (is_tick e) eqn:Ht.
    + destruct e; try done. intros u Hu. simpl in *. apply Hr. lia.
    + apply (revoked_steady _ (a_world s)); [|done].
      by apply event_settled; [eapply revoked_blocked|..].
  - apply (revoked_steady _ (a_world s)); [|done]. apply settled_world. intros w. unfold on_cache, zoom.
    destruct (get_law (w_mono w) (upstream_key client url ps) (w_cache w)) as (c & -> & Hv).
    split; [done|]. intros u Hu. by apply Hv.
  - apply (revoked_steady _ (a_world s)); [|done]. apply settled_world. intros w. unfold on_cache, zoom.
    destruct (set_law (w_mono w) (upstream_key client url ps) value ttl (w_cache w) Hh) as (c & -> & Hv).
    split; [done|]. intros u Hu. simpl in *. by rewrite Hv, decide_False by done.
Qed.

Lemma mono_history hs (s : S) : forward hs s -> w_mono (a_world s) <= w_mono (a_world (history hs s)).
Proof.
  unfold history. revert s. induction hs as [|h hs IH]; intros s; simpl; [lia|].
  intros (_ & Hm & Hf). specialize (IH _ Hf). lia.
Qed.

Lemma history_revoked deadline hs (s : S) :
  revoked_until deadline (a_world s) -> forward hs s -> w_mono (a_world (history hs s)) < deadline ->
  revoked_until deadline (a_world (history hs s)).
Proof.
  revert s. induction hs as [|h hs IH]; intros s Hr Hf Hd; [done|].
  destruct Hf as (Hh & Hm & Hf). change (history (h :: hs) s) with (history hs (occur h s)) in *.
  pose proof (mono_history hs _ Hf). apply IH; [|done..]. apply occur_revoked; [done|lia|done..].
Qed.

End spec.

(** ** Logging out *)

Section logout.
Context {C N R L : Type} `{CacheLaws C} `{NotifierLaws N} `{EntropyLaws R} `{JwtLaws} `{RateLimiterLaws L}.
Variable settings : Config.Settings.
Variable proxy_trust : ClientIp.ProxyTrust.
Variable dummy : string.
Variable flights : Aggregation.Service.
Variable hotels : HotelAggregation.Service.
Variable json_dumps : bool -> json -> string.
Variable sha256_hex : string -> string.

Abbreviation W := (world C N R).
Abbreviation S := (api C N R L).

(** The [jti] of the tokens issued in a world. *)
Definition jti_at (w : W) : string := PyUuid.hex (uuid4 (w_rand w)).1.

Lemma payload_run id (w0 w w1 : W) p :
  w_wall w0 <= w_wall w ->
  get_access_payload settings (Some (AuthSpec.issued settings id Security.access w0)) w = (Ok p, w1) ->
  p = AuthSpec.payload_of settings id Security.access w0
  /\ w_wall w < AuthSpec.expiry settings Security.access w0
  /\ exists c, w1 = set_cache c w.
Proof.
  intros Hle. unfold get_access_payload.
  pose proof (AuthSpec.decode_issued settings id Security.access w0 w Security.access Hle) as Hd.
  destruct (Z.ltb_spec (w_wall w) (AuthSpec.expiry settings Security.access w0)); [|by m_run Hd].
  rewrite bool_decide_eq_true_2 in Hd by done. m_run Hd.
  destruct (AuthSpec.is_revoked_run (AuthSpec.payload_of settings id Security.access w0) w) as (b & c & Hb & _).
  m_run Hb. destruct b; [done|]. intros [= <- <-]. eauto.
Qed.

(** What a logout does once it has revoked the access token. *)
Lemma after_revoking request rt p jti (w : W) :
  (forall t, rt = Some t -> other_token settings jti t) ->
  steady jti w
    ((a ← (match rt with
           | Some t => if bool_decide (t = ""%string) then mret tt else revoke_refresh settings t
           | None => mret tt
           end : M exn W unit);
      actor ← lift_res (subject_of p);
      _ ← audit proxy_trust actor "user.logout" request;
      mret "logged out"%string) w).2.
Proof.
  intros Hrt. apply (moves_bind_at (steady jti)).
  - destruct rt as [t|]; [|done]. case_bool_decide; [done|].
    unfold revoke_refresh. destruct (Security.decode_token _ _ _ _) as [q|[]] eqn:Hd; try done.
    apply revoke_other. by apply (Hrt t eq_refl _ _ Hd).
  - intros [] w1 _. unfold lift_res, mbind, m_bind. by destruct (subject_of p).
Qed.

(** A logout that succeeds leaves the entry. *)
Lemma logout_revokes request rt id w0 (s : S) m :
  w_wall w0 <= w_wall (a_world s) -> Security.sane (w_wall (a_world s)) settings ->
  (forall t, rt = Some t -> other_token settings (jti_at w0) t) ->
  (Api.logout settings proxy_trust request (Some (AuthSpec.issued settings id Security.access w0)) rt s).1 = Ok m ->
  revoked_until (jti_at w0)
    (cache_deadline (w_mono (a_world s)) (AuthSpec.left_on settings Security.access w0 (a_world s)))
    (a_world (Api.logout settings proxy_trust request
      (Some (AuthSpec.issued settings id Security.access w0)) rt s).2).
Proof.
  intros Hle Hs Hrt. unfold Api.logout. rewrite ApiSpec.route_eq.
  destruct (ApiSpec.admitted _ _ _); [|done]. cbn [fst snd a_world]. unfold get_session.
  set (w := a_world s) in *.
  destruct (get_access_payload settings (Some (AuthSpec.issued settings id Security.access w0)) w)
    as [[p|e] w1] eqn:Hp; [m_run Hp|by m_run Hp].
  destruct (payload_run id w0 w w1 p Hle Hp) as (-> & Hlt & c & ->).
  assert (0 < AuthSpec.left_on settings Security.access w0 w) as Hleft.
  { unfold AuthSpec.left_on, AuthSpec.expiry in *.
    assert (w_wall w / 1000000 < w_wall w0 / 1000000 + Security.ttl_of Security.access settings); [|lia].
    apply Z.div_lt_upper_bound; lia. }
  destruct (AuthSpec.revoke_run settings id Security.access w0 (set_cache c w) Hs Hleft) as (c1 & Hr & Hv).
  match goal with |- context [?rest (set_cache c w)] => set (k := rest) end.
  assert (steady (jti_at w0) (set_cache c1 (set_cache c w)) (k (set_cache c w)).2) as Hst.
  { unfold k, Auth.logout. rewrite m_bind_assoc. m_run Hr. apply after_revoking; done. }
  intros Hok. apply (revoked_steady (jti_at w0) _ (set_cache c1 (set_cache c w))).
  - by destruct (k (set_cache c w)) as [[a|e] w'].
  - intros u Hu. simpl in *. rewrite Hv by done. by rewrite decide_True.
Qed.

(** C8. Logging out is final.  When a logout with an access token has
    succeeded, then after any requests, jobs and upstream calls, in any order --
    none of which presents another token of the same identifier -- the token is
    refused for as long as the blocklist holds its entry, that is until the
    seconds that were left to it have passed on the clock of the cache: 401,
    for the revocation or the expiry, and no table changes. *)
Theorem logout_is_final request rt id w0 (s : S) m hs :
  w_wall w0 <= w_wall (a_world s) -> Security.sane (w_wall (a_world s)) settings ->
  let token := AuthSpec.issued settings id Security.access w0 in
  (forall t, rt = Some t -> other_token settings (jti_at w0) t) ->
  (Api.logout settings proxy_trust request (Some token) rt s).1 = Ok m ->
  let s1 := (Api.logout settings proxy_trust request (Some token) rt s).2 in
  let s2 := history settings proxy_trust dummy flights hotels json_dumps sha256_hex hs s1 in
  forward settings proxy_trust dummy flights hotels (jti_at w0) json_dumps sha256_hex hs s1 ->
  w_mono (a_world s2)
    < cache_deadline (w_mono (a_world s)) (AuthSpec.left_on settings Security.access w0 (a_world s)) ->
  w_wall w0 <= w_wall (a_world s2) ->
  (current_user settings (Some token) (a_world s2)).1
    = Err (app_err AuthenticationError
        (if w_wall (a_world s2) <? AuthSpec.expiry settings Security.access w0
         then "this session has been revoked" else "token has expired"))
  /\ w_db (current_user settings (Some token) (a_world s2)).2 = w_db (a_world s2).
Proof.
  intros Hle Hs token Hrt Hok s1 s2 Hf Hd Hle2.
  pose proof (logout_revokes request rt id w0 s m Hle Hs Hrt Hok) as Hrev.
  pose proof (history_revoked settings proxy_trust dummy flights hotels (jti_at w0) json_dumps sha256_hex
    _ hs s1 Hrev Hf Hd) as Hr2. fold s2 in Hr2. apply revoked_blocked in Hr2; [|done].
  destruct (TokenBlocklist.is_revoked_spec (w_mono (a_world s2)) _ _ (w_cache (a_world s2))
    (AuthSpec.jti_issued settings id Security.access w0)) as (c & Hrk & _).
  assert (is_revoked (AuthSpec.payload_of settings id Security.access w0) (a_world s2)
          = (Ok true, set_cache c (a_world s2))) as Hi.
  { unfold is_revoked, on_cache, zoom. rewrite Hrk. by rewrite bool_decide_eq_true_2. }
  pose proof (AuthSpec.decode_issued settings id Security.access w0 (a_world s2) Security.access Hle2) as Hdec.
  unfold current_user. destruct (w_wall (a_world s2) <? AuthSpec.expiry settings Security.access w0).
  - rewrite bool_decide_eq_true_2 in Hdec by done.
    assert (get_access_payload settings (Some token) (a_world s2)
            = (Err (app_err AuthenticationError "this session has been revoked"), set_cache c (a_world s2))) as Hp
      by (unfold get_access_payload; m_run Hdec; by m_run Hi).
    by m_run Hp.
  - assert (get_access_payload settings (Some token) (a_world s2)
            = (Err (app_err AuthenticationError "token has expired"), a_world s2)) as Hp
      by (unfold get_access_payload; by m_run Hdec).
    by m_run Hp.
Qed.

End logout.

(** ** Ann logs out *)

Definition sample_client : HttpClient.client :=
  {| HttpClient._provider := "open-meteo"; HttpClient._has_cache := true; HttpClient._max_retries := 2;
     HttpClient._backoff_base := F64.of_dec 2 1 |}.

(** A login, an upstream answer that is kept, a minute, a second logout with
    the token, and the alerts asked for with it. *)
Definition sample_history : list happening :=
  let s := ApiSpec.sample_api 10 in
  [ Event (Login ApiSpec.sample_request "ann@example.com" "Secret12345");
    UpstreamKept sample_client "https://api.open-meteo.com/v1/forecast" [] "{}" 600;
    Event (Tick (w_wall (a_world s) + 60 * 1000000) (w_mono (a_world s) + 60 * F64.one));
    Event (Logout ApiSpec.sample_request (Some ApiSpec.sample_token) None);
    UpstreamHit sample_client "https://api.open-meteo.com/v1/forecast" [];
    Event (ListAlerts ApiSpec.sample_request (Some ApiSpec.sample_token)) ].

Abbreviation sample_logout :=
  (Api.logout Security.sample_settings ApiSpec.no_proxies ApiSpec.sample_request
     (Some ApiSpec.sample_token) None (ApiSpec.sample_api 10)).

Abbreviation sample_later :=
  (history Security.sample_settings ApiSpec.no_proxies "$dummy" Aggregation.sample_service no_hotels
     (fun _ _ => "{}"%string) (fun raw => raw) sample_history sample_logout.2).

Lemma sample_forward :
  forward Security.sample_settings ApiSpec.no_proxies "$dummy" Aggregation.sample_service no_hotels
    (jti_at AuthSpec.w0) (fun _ _ => "{}"%string) (fun raw => raw) sample_history sample_logout.2.
Proof. repeat (split; [first [exact I|done]|split; [by vm_compute|]]). exact I. Qed.

Lemma logout_is_final_witness :
  (current_user Security.sample_settings (Some ApiSpec.sample_token) (a_world (ApiSpec.sample_api 10))).1
    = Ok AuthSpec.sample_user
  /\ (current_user Security.sample_settings (Some ApiSpec.sample_token) (a_world sample_later)).1
    = Err (app_err AuthenticationError "this session has been revoked").
Proof.
  split; [by vm_compute|].
  destruct (logout_is_final Security.sample_settings ApiSpec.no_proxies "$dummy" Aggregation.sample_service
    no_hotels (fun _ _ => "{}"%string) (fun raw => raw) ApiSpec.sample_request None 5 AuthSpec.w0
    (ApiSpec.sample_api 10) "logged out" sample_history) as [Hr _].
  - by vm_compute.
  - split; [by vm_compute|]. intros []; by vm_compute.
  - done.
  - by vm_compute.
  - exact sample_forward.
  - by vm_compute.
  - by vm_compute.
  - match type of Hr with context [?a <? ?b] => destruct (Z.ltb_spec a b) as [_|Hge] end; [exact Hr|].
    vm_compute in Hge. exfalso. by apply Hge.
Defined.

End SessionSpec.
