(* ===== verification/Container.v ===== *)
(** * Composition root

    [app/container.py], and the start and stop of the application in
    [app/main.py].  What a container opens -- the database engine, the HTTP
    pool, a Redis client -- is kept in a [pool] of open resources; the choice of
    cache, limiter and notifier follows the settings. *)
From S2P Require Import Prelude PyStr Errors Float64 Domain CircuitBreaker HttpClient RateLimit.
From S2P Require Import Config ClientIp Notifications Providers SampleInventory.
From S2P Require Import Aggregation HotelAggregation.
Import PyStr Domain.Domain Providers.

Module Container.

(** ** Resources *)

Inductive resource : Type :=
| Engine (url : string)
| RedisClient (url : string)
| HttpPool (timeout : Z).

#[global] Instance resource_eq_dec : EqDecision resource.
Proof. solve_decision. Defined.

Definition pool : Type := list resource.

Fixpoint without (r : resource) (p : pool) : pool :=
  match p with
  | [] => []
  | r' :: p => if decide (r' = r) then p else r' :: without r p
  end.

Definition open (r : resource) : M exn pool resource := fun p => (Ok r, r :: p).

Definition create_engine (settings : Config.Settings) : M exn pool resource :=
  open (Engine (Config.sqlalchemy_url settings)).

(** What a factory of sessions is configured with. *)
Record session_factory_ : Type := { bind : resource; expire_on_commit : bool; autoflush : bool }.

Definition create_session_factory (engine : resource) : session_factory_ :=
  {| bind := engine; expire_on_commit := false; autoflush := false |}.

(** ** The container *)

(** [K]: the type of a cache handed in by the caller. *)
Inductive Cache_ (K : Type) : Type :=
| Supplied (k : K)
| OverRedis (client : resource)
| InProcess.
Arguments Supplied {K} k.
Arguments OverRedis {K} client.
Arguments InProcess {K}.

Inductive RateLimiter_ : Type :=
| InMemory (l : RateLimit.InMemoryRateLimiter.limiter)
| SharedRedis (client : resource) (limit window_seconds : Z).

Inductive Notifier_ : Type :=
| Smtp (n : SmtpNotifier.notifier unit)
| Console.

Record container (K : Type) : Type := {
  c_settings : Config.Settings;
  engine : resource;
  session_factory : session_factory_;
  _redis : option resource;
  cache : Cache_ K;
  rate_limiter : RateLimiter_;
  proxy_trust : ClientIp.ProxyTrust;
  notifier : Notifier_;
  _http : resource;
  weather_provider : OpenMeteo.provider * CircuitBreaker.breaker;
  currency_provider : ExchangeRate.provider * CircuitBreaker.breaker;
  flight_service : Aggregation.Service;
  hotel_service : HotelAggregation.Service;
}.
Arguments c_settings {K} _.
Arguments engine {K} _.
Arguments session_factory {K} _.
Arguments _redis {K} _.
Arguments cache {K} _.
Arguments rate_limiter {K} _.
Arguments proxy_trust {K} _.
Arguments notifier {K} _.
Arguments _http {K} _.
Arguments weather_provider {K} _.
Arguments currency_provider {K} _.
Arguments flight_service {K} _.
Arguments hotel_service {K} _.

Section container.
Context {G : Type} `{Random G} `{Sha256} {K : Type}.
(** What closing a resource raises, if anything. *)
Variable close_error : resource -> option exn.

Definition close (r : resource) : M exn pool unit :=
  fun p => match close_error r with
           | Some e => (Err e, p)
           | None => (Ok tt, without r p)
           end.

(** [_resilient]: a client with a breaker of its own. *)
Definition _resilient (settings : Config.Settings) (provider : string)
  : HttpClient.client * CircuitBreaker.breaker :=
  ({| HttpClient._provider := provider; HttpClient._has_cache := true;
      HttpClient._max_retries := Config.http_max_retries settings;
      HttpClient._backoff_base := F64.of_dec 2 1 |}, CircuitBreaker.default_breaker provider).

Definition notifier_of (settings : Config.Settings) : Notifier_ :=
  match Config.smtp_host settings with
  | Some host =>
      if bool_decide (host = ""%string) then Console
      else Smtp {| SmtpNotifier._host := host; SmtpNotifier._port := Config.smtp_port settings;
                   SmtpNotifier._username := Config.smtp_username settings;
                   SmtpNotifier._password := Config.smtp_password settings;
                   SmtpNotifier._sender :=
                     if bool_decide (Config.smtp_sender settings = ""%string)
                     then Config.smtp_username settings else Config.smtp_sender settings;
                   SmtpNotifier._server := tt |}
  | None => Console
  end.

(** The cache, the limiter and the Redis client behind both. *)
Definition backend (settings : Config.Settings) (given : option K) (now : Z)
  : M exn pool (option resource * Cache_ K * RateLimiter_) :=
  let limit := Config.rate_limit_per_minute settings in
  let local := InMemory (RateLimit.InMemoryRateLimiter.mk_limiter limit 60 now) in
  match given, Config.redis_url settings with
  | Some k, _ => mret (None, Supplied k, local)
  | None, Some url =>
      client ← open (RedisClient (Config.str url));
      mret (Some client, OverRedis client, SharedRedis client limit 60)
  | None, None => mret (None, InProcess, local)
  end.

(** The registered providers. *)
Definition flight_port (p : SampleInventory.SampleFlightProvider.provider) : FlightProvider :=
  {| p_name := SampleInventory.SampleFlightProvider.name p;
     p_search := SampleInventory.SampleFlightProvider.search p |}.

Definition hotel_port (p : SampleInventory.SampleHotelProvider.provider) : HotelProvider :=
  {| p_name := SampleInventory.SampleHotelProvider.name p;
     p_search := SampleInventory.SampleHotelProvider.search p |}.

Definition flight_inventory : list SampleInventory.SampleFlightProvider.provider :=
  [{| SampleInventory.SampleFlightProvider.name := "skyfare";
      SampleInventory.SampleFlightProvider._airlines := ["Lufthansa"; "KLM"; "Emirates"]%string;
      SampleInventory.SampleFlightProvider._base_price := 12000 |};
   {| SampleInventory.SampleFlightProvider.name := "globehop";
      SampleInventory.SampleFlightProvider._airlines :=
        ["Turkish Airlines"; "Qatar Airways"; "Emirates"]%string;
      SampleInventory.SampleFlightProvider._base_price := 10500 |}].

Definition hotel_inventory : list SampleInventory.SampleHotelProvider.provider :=
  [{| SampleInventory.SampleHotelProvider.name := "stayfinder";
      SampleInventory.SampleHotelProvider._base_price := 8000 |};
   {| SampleInventory.SampleHotelProvider.name := "roomhub";
      SampleInventory.SampleHotelProvider._base_price := 6500 |}].

(** [Container(settings, cache=given)]; [now] is the reading the in-memory
    limiter starts from. *)
Definition Container_new (settings : Config.Settings) (given : option K) (now : Z)
  : M exn pool (container K) :=
  engine ← create_engine settings;
  '(redis, cache, rate_limiter) ← backend settings given now;
  http ← open (HttpPool (Config.http_timeout_seconds settings));
  let ttl := Config.provider_cache_ttl settings in
  let weather := _resilient settings "open-meteo" in
  let currency := _resilient settings "exchangerate.host" in
  flights ← lift_res (Aggregation.mk_service (flight_port <$> flight_inventory));
  hotels ← lift_res (HotelAggregation.mk_service (hotel_port <$> hotel_inventory));
  mret {| c_settings := settings; engine := engine;
          session_factory := create_session_factory engine; _redis := redis; cache := cache;
          rate_limiter := rate_limiter;
          proxy_trust := ClientIp.mk_proxy_trust (Config.trusted_proxy_cidrs settings);
          notifier := notifier_of settings; _http := http;
          weather_provider :=
            (OpenMeteo.mk_provider weather.1 (Config.weather_base_url settings) ttl, weather.2);
          currency_provider :=
            (ExchangeRate.mk_provider currency.1 (Config.currency_base_url settings) ttl, currency.2);
          flight_service := flights; hotel_service := hotels |}.

Definition aclose (self : container K) : M exn pool unit :=
  _ ← close (_http self);
  _ ← close (engine self);
  match _redis self with
  | Some client => close client
  | None => mret tt
  end.

(** ** The lifetime of the application *)

(** [create_app]: the settings it runs with. *)
Definition app_settings (settings : option Config.Settings) (supplied : option (container K))
    (get_settings : Config.Settings) : Config.Settings :=
  match settings, supplied with
  | Some s, _ => s
  | None, Some c => c_settings c
  | None, None => get_settings
  end.

(** [try: m  finally: stop]. *)
Definition finally {A} (m : M exn pool A) (stop : M exn pool unit) : M exn pool A :=
  fun p =>
    let '(r, p) := m p in
    match stop p with
    | (Ok _, p) => (r, p)
    | (Err e, p) => (Err e, p)
    end.

(** [lifespan], around what the server does meanwhile. *)
Definition lifespan {A} (settings : Config.Settings) (supplied : option (container K)) (now : Z)
    (serve : container K -> M exn pool A) : M exn pool A :=
  active ← (match supplied with
            | Some c => mret c
            | None => Container_new settings None now
            end : M exn pool (container K));
  finally (serve active) (match supplied with Some _ => mret tt | None => aclose active end).

(** A job of [app/workers/tasks.py] around its body: a container of its own. *)
Definition job {A} (settings : Config.Settings) (now : Z) (body : container K -> M exn pool A)
  : M exn pool A :=
  c ← (Container_new settings None now : M exn pool (container K));
  finally (body c) (aclose c).

(** [prestart._create_schema]; [create_all] is [engine.begin()] with
    [Base.metadata.create_all]. *)
Definition _create_schema (settings : Config.Settings) (create_all : resource -> M exn pool unit)
  : M exn pool unit :=
  engine ← create_engine settings;
  finally (create_all engine) (close engine).

End container.

End Container.
