(* ===== verification/Wiring.v ===== *)
(** * Wiring

    How the parts are put together: the route table of [app/api/v1/router.py],
    [create_app] of [app/main.py] with its stack of middleware, the
    dependencies of [app/api/deps.py] that hand a part of the container to a
    handler, the cached settings, and the configuration of Celery and of the
    loggers. *)
From S2P Require Import Prelude PyStr PyDict Errors Float64 Domain CircuitBreaker RateLimit Config ClientIp.
From S2P Require Import Security Middleware.
From S2P Require Import Notifications Providers SampleInventory Aggregation HotelAggregation Container.
Import PyStr Providers Container.

Module Wiring.

(** ** Routes

    A route carries the endpoint's function, its status on success and whether
    [enforce_rate_limit] is among its dependencies; [include_router] prefixes
    the paths, as FastAPI documents it. *)

Inductive endpoint : Type :=
| live | ready
| register | login | refresh | me | verify_email | resend_verification
| request_password_reset | confirm_password_reset | logout
| search_flights | search_hotels | get_weather | convert_currency
| create_alert | list_alerts | delete_alert
| admin_metrics
| metrics_endpoint | root.

#[global] Instance endpoint_eq_dec : EqDecision endpoint.
Proof. solve_decision. Defined.

Record Route : Type := {
  r_method : string;
  r_path : string;
  r_status : Z;
  r_limited : bool;
  r_endpoint : endpoint;
}.

(** [APIRouter(prefix=..., dependencies=[Depends(enforce_rate_limit)])]. *)
Record APIRouter : Type := { prefix : string; limited : bool; routes : list Route }.

Definition get (path : string) (e : endpoint) : Route :=
  {| r_method := "GET"; r_path := path; r_status := 200; r_limited := false; r_endpoint := e |}.

Definition post (path : string) (e : endpoint) : Route :=
  {| r_method := "POST"; r_path := path; r_status := 200; r_limited := false; r_endpoint := e |}.

Definition delete (path : string) (e : endpoint) : Route :=
  {| r_method := "DELETE"; r_path := path; r_status := 200; r_limited := false; r_endpoint := e |}.

Definition with_status (status : Z) (r : Route) : Route :=
  {| r_method := r_method r; r_path := r_path r; r_status := status; r_limited := r_limited r;
     r_endpoint := r_endpoint r |}.

Definition with_limit (r : Route) : Route :=
  {| r_method := r_method r; r_path := r_path r; r_status := r_status r; r_limited := true;
     r_endpoint := r_endpoint r |}.

Definition at_prefix (p : string) (r : Route) : Route :=
  {| r_method := r_method r; r_path := p +:+ r_path r; r_status := r_status r; r_limited := r_limited r;
     r_endpoint := r_endpoint r |}.

(** The routes of a router, under its own prefix and dependencies. *)
Definition own_routes (router : APIRouter) : list Route :=
  (fun r => at_prefix (prefix router) (if limited router then with_limit r else r)) <$> routes router.

Definition health_router : APIRouter :=
  {| prefix := ""; limited := false;
     routes := [get "/health/live" live; get "/health/ready" ready] |}.

Definition auth_router : APIRouter :=
  {| prefix := "/auth"; limited := true;
     routes := [with_status 201 (post "/register" register); post "/login" login; post "/refresh" refresh;
                get "/me" me; post "/verify-email" verify_email;
                post "/resend-verification" resend_verification;
                post "/password-reset/request" request_password_reset;
                post "/password-reset/confirm" confirm_password_reset; post "/logout" logout] |}.

Definition flights_router : APIRouter :=
  {| prefix := "/flights"; limited := false; routes := [with_limit (get "/search" search_flights)] |}.

Definition hotels_router : APIRouter :=
  {| prefix := "/hotels"; limited := false; routes := [with_limit (get "/search" search_hotels)] |}.

Definition weather_router : APIRouter :=
  {| prefix := "/weather"; limited := false; routes := [with_limit (get "" get_weather)] |}.

Definition currency_router : APIRouter :=
  {| prefix := "/currency"; limited := false; routes := [with_limit (get "/convert" convert_currency)] |}.

Definition price_alerts_router : APIRouter :=
  {| prefix := "/price-alerts"; limited := true;
     routes := [with_status 201 (post "" create_alert); get "" list_alerts;
                with_status 204 (delete "/{alert_id}" delete_alert)] |}.

Definition admin_router : APIRouter :=
  {| prefix := "/admin"; limited := false; routes := [get "/metrics" admin_metrics] |}.

Definition include_router (routers : list APIRouter) : list Route := routers ≫= own_routes.

Definition api_router : list Route :=
  include_router [health_router; auth_router; flights_router; hotels_router; weather_router;
                  currency_router; price_alerts_router; admin_router].

(** The routes [create_app] adds. *)
Definition app_routes (settings : Config.Settings) : list Route :=
  (at_prefix (Config.api_prefix settings) <$> api_router)
  ++ [get "/metrics" metrics_endpoint; with_status 307 (get "/" root)].

(** ** Dependencies *)

Section deps.
Context {K D : Type}.
Implicit Types (c : container K) (session : D).

Definition get_settings_dep c : Config.Settings := c_settings c.

(** [UserRepository(session)]: the repository is its session. *)
Definition get_user_repository session : D := session.

(** The blocklist of a container is over its cache. *)
Definition token_blocklist c : Cache_ K := cache c.

(** The attributes of [AuthService]. *)
Record AuthService : Type := {
  _users : D;
  _settings : Config.Settings;
  _notifier : Notifier_;
  _blocklist : Cache_ K;
}.

(** The hash [AuthService.authenticate] compares with when there is no account,
    computed when its module is loaded. *)
Definition _DUMMY_HASH {R} `{Entropy R} : M exn R string :=
  Security.hash_password "this-is-never-a-real-password".

Definition get_auth_service session c : AuthService :=
  {| _users := get_user_repository session; _settings := get_settings_dep c;
     _notifier := notifier c; _blocklist := token_blocklist c |}.

Definition get_flight_service c : Aggregation.Service := flight_service c.
Definition get_hotel_service c : HotelAggregation.Service := hotel_service c.
Definition get_weather_provider c : OpenMeteo.provider * CircuitBreaker.breaker := weather_provider c.
Definition get_currency_provider c : ExchangeRate.provider * CircuitBreaker.breaker := currency_provider c.

(** The attributes of [PriceMonitor], as the job builds it. *)
Record PriceMonitor : Type := {
  pm_alerts : D;
  pm_users : D;
  pm_flights : Aggregation.Service;
  pm_notifier : Notifier_;
}.

Definition monitor_of session c : PriceMonitor :=
  {| pm_alerts := session; pm_users := session; pm_flights := flight_service c;
     pm_notifier := notifier c |}.

End deps.
Arguments AuthService : clear implicits.
Arguments PriceMonitor : clear implicits.

(** ** Settings *)

(** [get_settings] under its [lru_cache]: [load] is [Settings()], the state the
    value that is kept; an exception is not kept. *)
Definition get_settings (load : res exn Config.Settings) : M exn (option Config.Settings) Config.Settings :=
  fun kept => match kept with
              | Some settings => (Ok settings, kept)
              | None => match load with
                        | Ok settings => (Ok settings, Some settings)
                        | Err e => (Err e, None)
                        end
              end.

(** ** Celery *)

Record beat_entry : Type := { be_name : string; be_task : string; be_schedule : Z }.

Definition beat_schedule : list beat_entry :=
  [{| be_name := "monitor-prices-every-15-min"; be_task := "app.workers.tasks.monitor_prices";
      be_schedule := 900 * F64.one |};
   {| be_name := "cleanup-audit-log-daily"; be_task := "app.workers.tasks.cleanup_audit_log";
      be_schedule := 86400 * F64.one |}].

Definition _broker (settings : Config.Settings) : string :=
  match Config.redis_url settings with
  | Some url => if bool_decide (Config.str url = ""%string) then "memory://" else Config.str url
  | None => "memory://"
  end.

Record Celery : Type := {
  main : string;
  broker : string;
  backend : string;
  task_serializer : string;
  accept_content : list string;
  result_serializer : string;
  timezone : string;
  enable_utc : bool;
  task_acks_late : bool;
  task_reject_on_worker_lost : bool;
  schedule : list beat_entry;
}.

Definition celery_app (settings : Config.Settings) : Celery :=
  {| main := "smart_travel"; broker := _broker settings; backend := _broker settings;
     task_serializer := "json"; accept_content := ["json"%string]; result_serializer := "json";
     timezone := "UTC"; enable_utc := true; task_acks_late := true; task_reject_on_worker_lost := true;
     schedule := beat_schedule |}.

(** The default of [cleanup_audit_log], in days. *)
Definition default_retention_days : Z := 90.

(** The tasks by the name they are registered under. *)
Definition task_names : list string :=
  ["app.workers.tasks.monitor_prices"; "app.workers.tasks.cleanup_audit_log"]%string.

(** ** Loggers *)

Abbreviation event_dict := (list (string * json)).

(** Structlog's own processors are parameters; the renderers are told apart. *)
Section logging.
Variables merge_contextvars add_log_level time_stamper stack_info_renderer format_exc_info
  : event_dict -> event_dict.
(** [logging.getLevelNamesMapping()]. *)
Variable level_names : string -> option Z.

Definition INFO : Z := 20.
Definition WARNING : Z := 30.

Inductive renderer : Type := JSONRenderer | ConsoleRenderer (colors : bool).

Record logging_config : Type := {
  processors : option string -> list (event_dict -> event_dict);
  rendering : renderer;
  least_level : Z;
  root_level : string;
  levels : list (string * Z);
}.

(** The processors, where the context variable is [ctx]. *)
Definition shared_processors (ctx : option string) : list (event_dict -> event_dict) :=
  [merge_contextvars; add_log_level; time_stamper; Middleware._add_request_id ctx;
   stack_info_renderer; format_exc_info].

Definition configure_logging (json_logs : bool) (level : string) : logging_config :=
  {| processors := shared_processors;
     rendering := if json_logs then JSONRenderer else ConsoleRenderer true;
     least_level := default INFO (level_names (upper level));
     root_level := upper level;
     levels := (fun noisy => (noisy, WARNING)) <$> ["uvicorn.access"; "sqlalchemy.engine"]%string |}.

(** What a renderer gets of an event. *)
Definition processed (config : logging_config) (ctx : option string) (d : event_dict) : event_dict :=
  foldl (fun d process => process d) d (processors config ctx).

(** Every line of a request carries its id, whatever the caller logs: the
    processors after [_add_request_id] see to the stack and the exception. *)
Lemma request_id_stamped json_logs level request_id d :
  (forall d, PyDict.get (stack_info_renderer d) "request_id" = PyDict.get d "request_id") ->
  (forall d, PyDict.get (format_exc_info d) "request_id" = PyDict.get d "request_id") ->
  PyDict.get (processed (configure_logging json_logs level) (Some request_id) d) "request_id"
  = Some (JStr request_id).
Proof.
  intros Hs Hf. unfold processed, configure_logging, shared_processors. cbn [processors foldl].
  rewrite Hf, Hs. apply PyDict.get_set_eq.
Qed.

(** ** The application *)

Inductive middleware_class : Type :=
| SecurityHeadersMiddleware
| PrometheusMiddleware
| RequestContextMiddleware
| CORSMiddleware (options : Middleware.cors_options).

Definition __version__ : string := "1.1.0".

Record FastAPI : Type := {
  title : string;
  version : string;
  docs_url : string;
  openapi_url : string;
  user_middleware : list middleware_class;
  app_logging : logging_config;
  app_routes_ : list Route;
}.

(** [app.add_middleware]: the last one added is the outermost. *)
Definition add_middleware (stack : list middleware_class) (m : middleware_class) : list middleware_class :=
  m :: stack.

(** The options [create_app] gives the CORS middleware. *)
Definition cors_options_of (settings : Config.Settings) : Middleware.cors_options :=
  {| Middleware.allow_origins := Config.cors_origins settings;
     Middleware.allow_credentials := Config.cors_allow_credentials settings;
     Middleware.allow_methods := ["*"%string]; Middleware.allow_headers := ["*"%string] |}.

(** [create_app], for the settings it runs with ([Container.app_settings]); the
    lifetime it passes to the framework is [Container.lifespan]. *)
Definition create_app (settings : Config.Settings) : FastAPI :=
  {| title := Config.app_name settings; version := __version__;
     docs_url := "/docs"; openapi_url := "/openapi.json";
     user_middleware :=
       foldl add_middleware []
         [SecurityHeadersMiddleware; PrometheusMiddleware; RequestContextMiddleware;
          CORSMiddleware (cors_options_of settings)];
     app_logging := configure_logging (Config.is_production settings)
       (if Config.debug settings then "DEBUG" else "INFO");
     app_routes_ := app_routes settings |}.

(** *** How the framework serves it *)

Section serve.
Context {R : Type} `{Entropy R} `{Middleware.PerfCounter R} `{Middleware.Cors R}.
Variable proxy_trust : option ClientIp.ProxyTrust.

Definition dispatch (m : middleware_class) :=
  match m with
  | SecurityHeadersMiddleware => Middleware.security_headers
  | PrometheusMiddleware => Middleware.prometheus
  | RequestContextMiddleware => Middleware.request_context proxy_trust
  | CORSMiddleware options => Middleware.cors options
  end.

(** The stack around a router, the handler of [Exception] around the stack. *)
Definition serve (app : FastAPI) (request : Middleware.Request)
    (endpoint : M exn (Middleware.context R) Middleware.Response)
  : M exn (Middleware.context R) Middleware.Response :=
  (foldr (fun m call_next => dispatch m request call_next) (Middleware.router endpoint) (user_middleware app)
   except (fun e =>
     _ ← Middleware.log "error" "unhandled_exception" (Middleware.unhandled_exception e);
     Middleware.respond e))%effect.

(** The application of [create_app] is the one [Middleware.app] describes. *)
Lemma serve_app settings request endpoint :
  serve (create_app settings) request endpoint
  = Middleware.app proxy_trust (cors_options_of settings) request endpoint.
Proof. done. Qed.

End serve.

End logging.

(** The settings are read once: whatever the environment becomes, the same
    value is handed out. *)
Lemma get_settings_once load kept settings kept' :
  get_settings load kept = (Ok settings, kept') ->
  kept' = Some settings /\ forall load', get_settings load' kept' = (Ok settings, kept').
Proof.
  unfold get_settings. destruct kept as [s|]; [by intros [= -> <-]|].
  destruct load; [|done]. by intros [= -> <-].
Qed.

(** ** Properties of the wiring *)

(** Prefixes do not merge paths. *)
Lemma app_inj_l p s t : p +:+ s = p +:+ t -> s = t.
Proof. induction p as [|c p IH]; simpl; [done|]. intros [= Heq]. by apply IH. Qed.

Lemma length_append p s : String.length (p +:+ s) = (String.length p + String.length s)%nat.
Proof. induction p as [|c p IH]; simpl; [done|]. by rewrite IH. Qed.

Definition place (r : Route) : string * string := (r_method r, r_path r).

(** No request has two routes, whatever the prefix; every endpoint has one; and
    the endpoints outside the rate limit are the probes, the two metrics
    endpoints and the redirect. *)
Theorem route_table settings :
  NoDup (place <$> app_routes settings)
  /\ (forall e, exists r, r ∈ app_routes settings /\ r_endpoint r = e)
  /\ (forall r, r ∈ app_routes settings ->
       r_limited r = negb (bool_decide (r_endpoint r ∈ [live; ready; admin_metrics; metrics_endpoint; root]))).
Proof.
  unfold app_routes. set (p := Config.api_prefix settings). split; [|split].
  - rewrite fmap_app, <- list_fmap_compose. apply NoDup_app. split; [|split].
    + assert (NoDup (place <$> api_router)) as Hnd by (apply (bool_decide_unpack _); by vm_compute).
      assert ((place ∘ at_prefix p) <$> api_router
              = (fun ms => (ms.1, p +:+ ms.2)) <$> (place <$> api_router)) as ->
        by (by rewrite <- list_fmap_compose).
      apply NoDup_fmap_2; [|done]. intros [m s] [m' s'] [= -> Heq%app_inj_l]. by subst.
    + intros ms (r & -> & Hr)%list_elem_of_fmap Hin.
      assert (Forall (fun q => r_method q <> "GET"%string
        \/ (8 <= String.length (r_path q))%nat /\ r_path q <> "/metrics"%string) api_router) as Hall
        by (apply (bool_decide_unpack _); by vm_compute).
      rewrite Forall_forall in Hall. destruct (Hall r Hr) as [Hg|[Hlen Hne]];
        unfold place, at_prefix in Hin; simpl in Hin; rewrite !elem_of_cons, elem_of_nil in Hin;
        destruct Hin as [[= Hm Hp]|[[= Hm Hp]|[]]]; try done;
        pose proof (f_equal String.length Hp) as Hl; rewrite length_append in Hl; simpl in Hl; [|lia].
      apply Hne. by destruct p as [|c p]; [|simpl in Hl; lia].
    + apply (bool_decide_unpack _). by vm_compute.
  - intros e. destruct (decide (e = metrics_endpoint)) as [->|Hm]; [|destruct (decide (e = root)) as [->|Hr]].
    + eexists. split; [apply elem_of_app; right; by left|done].
    + eexists. split; [apply elem_of_app; right; right; by left|done].
    + assert (existsb (fun r => bool_decide (r_endpoint r = e)) api_router = true) as He by (by destruct e).
      apply existsb_exists in He as (r & Hin%list_elem_of_In & He%bool_decide_eq_true).
      exists (at_prefix p r). split; [|done]. apply elem_of_app. left. by apply list_elem_of_fmap_2.
  - intros r [(q & -> & Hq)%list_elem_of_fmap|Hin]%elem_of_app.
    + assert (Forall (fun r => r_limited r
        = negb (bool_decide (r_endpoint r ∈ [live; ready; admin_metrics; metrics_endpoint; root]))) api_router) as Hall
        by (apply (bool_decide_unpack _); by vm_compute).
      rewrite Forall_forall in Hall. apply (Hall q Hq).
    + rewrite !elem_of_cons, elem_of_nil in Hin. by destruct Hin as [->|[->|[]]].
Qed.

(** What the schedule runs is registered. *)
Lemma beat_tasks_exist : Forall (fun b => be_task b ∈ task_names) beat_schedule.
Proof. apply (bool_decide_unpack _). by vm_compute. Qed.

End Wiring.
