(* ===== verification/RetentionSpec.v ===== *)
(** * How long the audit log keeps an entry

    [cleanup_audit_log] of [app/workers/tasks.py] run on the schedule of
    [app/workers/celery_app.py], between any requests and jobs: how old an entry
    can become, and how old it will at least become. *)
From S2P Require Import Prelude Triple PyStr PyDict Float64 Errors PyUuid PySorted Cache RateLimit ClientIp.
From S2P Require Import Config Domain AggCore Aggregation HotelAggregation Schemas Security TokenBlocklist.
From S2P Require Import Notifications Db TravelOut Auth AuthSpec PriceMonitor Api ApiSpec System AuditSpec.
From S2P Require Import Container Wiring.
Import PyStr Calendar Auth Api System.

Module RetentionSpec.

(** Microseconds of a day, and of the period the clean-up is scheduled with. *)
Definition day : Z := 86400 * 1000000.

Section retention.
Context {C N R L : Type} `{CacheLaws C} `{NotifierLaws N} `{EntropyLaws R} `{JwtLaws} `{RateLimiterLaws L}.
Variable settings : Config.Settings.
Variable proxy_trust : ClientIp.ProxyTrust.
Variable dummy : string.
Variable flights : Aggregation.Service.
Variable hotels : HotelAggregation.Service.
(** The retention the job is run with, and the longest time between two runs. *)
Variables days period : Z.

Abbreviation S := (api C N R L).
Abbreviation perform := (System.perform settings proxy_trust dummy flights hotels).
Abbreviation run := (System.run settings proxy_trust dummy flights hotels).
Abbreviation trail := (AuditSpec.trail settings proxy_trust dummy).
Abbreviation log s := (Db.audit_log (w_db (a_world s))).
Abbreviation clock s := (w_wall (a_world s)).

(** When the last clean-up ran, after one more event. *)
Definition last_after (e : event) (s : S) (last : Z) : Z := if is_cleanup e then clock s else last.

(** The events of a day or a year: the clock does not go back, every clean-up
    has the retention, and at no moment is the last one longer ago than the
    period. *)
Fixpoint on_schedule (last : Z) (events : list event) (s : S) : Prop :=
  clock s <= last + period
  /\ match events with
     | [] => True
     | e :: events =>
         clock s <= clock (perform e s)
         /\ (forall d, e = CleanupAuditLog d -> d = days)
         /\ on_schedule (last_after e s last) events (perform e s)
     end.

(** Between two clean-ups: the ages of the entries, counted from the last. *)
Definition within (last : Z) (s : S) : Prop :=
  last <= clock s
  /\ Forall (fun l => last - days * day <= Db.al_created_at l <= clock s) (log s).

Lemma trail_now e (s : S) l : trail e s l -> Forall (fun x => Db.al_created_at x = clock s) l.
Proof.
  destruct e; simpl; try (by intros ->).
  - destruct (Api.register _ _ _ _ _) as [[]]; simpl; intros ->; by repeat constructor.
  - destruct (Api.login _ _ _ _ _ _ _) as [[]]; simpl; [|by intros ->].
    intros (id & u & _ & _ & _ & _ & ->). by repeat constructor.
  - destruct (Api.logout _ _ _ _ _ _) as [[]]; simpl; [|by intros ->].
    intros (t & payload & id & _ & _ & _ & ->). by repeat constructor.
Qed.

Lemma cleanup_days e : is_cleanup e = true -> exists d, e = CleanupAuditLog d.
Proof. destruct e; try done. eauto. Qed.

Lemma within_step e s last :
  0 <= days -> good (w_db (a_world s)) -> within last s ->
  clock s <= clock (perform e s) -> (forall d, e = CleanupAuditLog d -> d = days) ->
  within (last_after e s last) (perform e s).
Proof.
  intros Hd Hg [Hlast Hall] Hclock Hdays. unfold last_after, within.
  assert (0 <= days * day) by (unfold day; lia). rewrite Forall_forall in Hall.
  destruct (is_cleanup e) eqn:He.
  - destruct (cleanup_days e He) as [d ->]. specialize (Hdays d eq_refl) as ->. split; [done|].
    rewrite AuditSpec.cleanup_trail. apply Forall_forall.
    intros l [Hl Hin]%list_elem_of_filter. specialize (Hall l Hin). unfold day. lia.
  - destruct (AuditSpec.event_trail settings proxy_trust dummy flights hotels e s Hg He) as (l & Hl & Ht).
    apply trail_now in Ht. rewrite Forall_forall in Ht. split; [lia|].
    rewrite Hl. apply Forall_forall. intros x [Hx|Hx]%elem_of_app.
    + specialize (Hall x Hx). lia.
    + rewrite (Ht x Hx). lia.
Qed.

Lemma within_run events s last :
  0 <= days -> good (w_db (a_world s)) -> within last s -> on_schedule last events s ->
  exists last', within last' (run events s) /\ clock (run events s) <= last' + period.
Proof.
  unfold System.run. intros Hd. revert s last. induction events as [|e events IH]; intros s last Hg Hw [Hp Hs]; simpl.
  { by exists last. }
  destruct Hs as (Hc & Hdays & Hs). eapply IH; [by apply perform_good| |exact Hs].
  by apply within_step.
Qed.

Lemma kept_step e s l :
  good (w_db (a_world s)) -> clock s <= clock (perform e s) -> (forall d, e = CleanupAuditLog d -> d = days) ->
  l ∈ log s -> clock s - days * day <= Db.al_created_at l -> l ∈ log (perform e s).
Proof.
  intros Hg Hc Hdays Hl Hage. destruct (is_cleanup e) eqn:He.
  - destruct (cleanup_days e He) as [d ->]. specialize (Hdays d eq_refl) as ->.
    rewrite AuditSpec.cleanup_trail. apply list_elem_of_filter. split; [|done]. unfold day in Hage. lia.
  - destruct (AuditSpec.event_trail settings proxy_trust dummy flights hotels e s Hg He) as (l' & -> & _).
    apply elem_of_app. by left.
Qed.

Lemma clock_run events s last : on_schedule last events s -> clock s <= clock (run events s).
Proof.
  unfold System.run. revert s last. induction events as [|e events IH]; intros s last [_ Hs]; simpl; [lia|].
  destruct Hs as (Hc & _ & Hs). specialize (IH _ _ Hs). lia.
Qed.

Lemma kept_run events s last l :
  good (w_db (a_world s)) -> on_schedule last events s ->
  l ∈ log s -> clock (run events s) - days * day <= Db.al_created_at l -> l ∈ log (run events s).
Proof.
  revert s last. induction events as [|e events IH]; intros s last Hg Hs Hl Hage; [done|].
  pose proof (clock_run _ _ _ Hs) as Hc. destruct Hs as (_ & Hc1 & Hdays & Hs).
  change (run (e :: events) s) with (run events (perform e s)) in *.
  eapply IH; [by apply perform_good|exact Hs| |done]. apply kept_step; [done..|]. lia.
Qed.

Lemma on_schedule_app before after s last :
  on_schedule last (before ++ after) s -> exists last', on_schedule last' after (run before s).
Proof.
  unfold System.run. revert s last. induction before as [|e before IH]; intros s last Hs; [by exists last|].
  destruct Hs as (_ & _ & _ & Hs). by apply IH in Hs.
Qed.

Lemma on_schedule_prefix before after s last :
  on_schedule last (before ++ after) s -> on_schedule last before s.
Proof.
  revert s last. induction before as [|e before IH]; intros s last; [by destruct after; intros [? _]|].
  intros (Hp & Hc & Hd & Hs). split_and!; [done..|]. by apply IH.
Qed.

(** C16. Retention.  While clean-ups of a fixed number of days run at least once
    a period, whatever requests and jobs run between them: every entry of the
    log is at most the retention and one period old, none is from the future,
    and an entry that is in the log at any moment stays there until it is older
    than the retention. *)
Theorem audit_retention events s last :
  0 <= days -> good (w_db (a_world s)) -> within last s -> on_schedule last events s ->
  let s' := run events s in
  (forall l, l ∈ log s' -> 0 <= clock s' - Db.al_created_at l <= days * day + period)
  /\ (forall before after l, events = before ++ after -> l ∈ log (run before s) ->
       clock s' - Db.al_created_at l <= days * day -> l ∈ log s').
Proof.
  intros Hd Hg Hw Hs. cbv zeta. split.
  - destruct (within_run events s last Hd Hg Hw Hs) as (last' & [_ Hall] & Hp).
    rewrite Forall_forall in Hall. intros l Hl. specialize (Hall l Hl). lia.
  - intros before after l -> Hl Hage. destruct (on_schedule_app before after s last Hs) as [last' Hs'].
    assert (run (before ++ after) s = run after (run before s)) as Hrun by (unfold System.run; by rewrite foldl_app).
    rewrite Hrun in *. eapply kept_run; [by apply run_good|exact Hs'|done|lia].
Qed.

End retention.

(** ** The schedule of the deployment *)

(** The period, in microseconds, a task is scheduled with. *)
Definition scheduled_period (task : string) : option Z :=
  (fun b => F64.round_int (Wiring.be_schedule b) * 1000000)
  <$> find (fun b => bool_decide (Wiring.be_task b = task)) Wiring.beat_schedule.

(** The clean-up is scheduled once a day, so no entry gets older than 91 days. *)
Lemma cleanup_period :
  scheduled_period "app.workers.tasks.cleanup_audit_log" = Some day
  /\ Wiring.default_retention_days * day + day = 91 * day.
Proof. by vm_compute. Qed.

(** Ann logs in, and two clean-ups with a retention of one day follow. *)
Definition sample_days : list event :=
  [ Login ApiSpec.sample_request "ann@example.com" "Secret12345";
    Tick (w_wall (a_world (ApiSpec.sample_api 10)) + day) (86400 * F64.one);
    CleanupAuditLog 1;
    Tick (w_wall (a_world (ApiSpec.sample_api 10)) + 2 * day) (2 * 86400 * F64.one);
    CleanupAuditLog 1 ].

Abbreviation sample_run n :=
  (run Security.sample_settings ApiSpec.no_proxies "$dummy" Aggregation.sample_service no_hotels
     (take n sample_days) (ApiSpec.sample_api 10)).

Lemma sample_on_schedule n :
  on_schedule Security.sample_settings ApiSpec.no_proxies "$dummy" Aggregation.sample_service no_hotels 1 day
    (w_wall (a_world (ApiSpec.sample_api 10))) (take n sample_days) (ApiSpec.sample_api 10).
Proof.
  eapply on_schedule_prefix. rewrite take_drop. split; [by vm_compute|].
  repeat (first [exact I | split; [first [by vm_compute | by intros d [= <-] | intros d [=]]|]]).
Qed.

Lemma sample_no_searches r :
  r ∈ Db.searches (w_db (a_world (ApiSpec.sample_api 10))) ->
  is_Some (Db.users (w_db (a_world (ApiSpec.sample_api 10))) !! Db.sh_user_id r).
Proof. intros Hr. by apply elem_of_nil in Hr. Qed.

Lemma sample_within : within 1 (w_wall (a_world (ApiSpec.sample_api 10))) (ApiSpec.sample_api 10).
Proof. split; [reflexivity|]. apply Forall_nil_2. Qed.

(** The entry of the login survives the first clean-up, not the second. *)
Lemma audit_retention_witness :
  (exists l, l ∈ Db.audit_log (w_db (a_world (sample_run 1)))
     /\ l ∈ Db.audit_log (w_db (a_world (sample_run 3))))
  /\ (forall l, l ∈ Db.audit_log (w_db (a_world (sample_run 5))) ->
       w_wall (a_world (sample_run 5)) - Db.al_created_at l <= 2 * day).
Proof.
  pose proof (fun n => audit_retention Security.sample_settings ApiSpec.no_proxies "$dummy"
    Aggregation.sample_service no_hotels 1 day (take n sample_days) (ApiSpec.sample_api 10)
    (w_wall (a_world (ApiSpec.sample_api 10))) ltac:(lia) (conj ApiSpec.alert_world_ok sample_no_searches)
    sample_within (sample_on_schedule n)) as Hret.
  split.
  - destruct (Hret 3%nat) as [_ Hkept].
    destruct (Db.audit_log (w_db (a_world (sample_run 1)))) as [|l rest] eqn:Hlog; [by vm_compute in Hlog|].
    exists l. split; [by left|].
    apply (Hkept (take 1 sample_days) (drop 1 (take 3 sample_days)) l eq_refl).
    + rewrite Hlog. by left.
    + vm_compute in Hlog. injection Hlog as <- _. by vm_compute.
  - destruct (Hret 5%nat) as [Hold _]. intros l Hl. specialize (Hold l Hl). unfold day in *. lia.
Defined.

End RetentionSpec.
