(* ===== verification/ContainerSpec.v ===== *)
(** * Properties of the composition root

    What the application opens it closes; and a search that goes through the
    HTTP layer, the aggregation and the registered providers is answered. *)
From S2P Require Import Prelude PyStr PyDict Float64 Errors PyUuid PySorted Cache RateLimit ClientIp Config.
From S2P Require Import Domain AggCore Aggregation HotelAggregation Schemas Security TokenBlocklist.
From S2P Require Import Notifications Db TravelOut Auth AuthSpec Api ApiSpec SampleInventory SampleSpec Container.
Import PyStr Calendar Domain.Domain TravelOut Auth Api Container.

Module ContainerSpec.

(** ** Resources *)

Lemma without_head r p : without r (r :: p) = p.
Proof. simpl. by rewrite decide_True. Qed.

Lemma without_skip r r' p : r' <> r -> without r (r' :: p) = r' :: without r p.
Proof. intros. simpl. by rewrite decide_False. Qed.

Section resources.
Context {G : Type} `{Random G} `{Sha256} {K : Type}.
Variable close_error : resource -> option exn.

Definition redis_of (settings : Config.Settings) (given : option K) : option string :=
  match given with
  | Some _ => None
  | None => Config.str <$> Config.redis_url settings
  end.

(** What building a container opens, the latest first. *)
Definition opened (settings : Config.Settings) (given : option K) : pool :=
  HttpPool (Config.http_timeout_seconds settings)
  :: from_option (fun url => [RedisClient url]) [] (redis_of settings given)
  ++ [Engine (Config.sqlalchemy_url settings)].

Lemma container_new_eq settings given now p :
  exists c : container K, Container_new settings given now p = (Ok c, opened settings given ++ p)
    /\ engine c = Engine (Config.sqlalchemy_url settings)
    /\ _http c = HttpPool (Config.http_timeout_seconds settings)
    /\ _redis c = RedisClient <$> redis_of settings given
    /\ proxy_trust c = ClientIp.mk_proxy_trust (Config.trusted_proxy_cidrs settings)
    /\ flight_service c = {| Aggregation._providers := flight_port <$> flight_inventory |}
    /\ hotel_service c = {| HotelAggregation._providers := hotel_port <$> hotel_inventory |}.
Proof.
  unfold opened, redis_of, Container_new, create_engine, backend.
  destruct given as [k|]; [|destruct (Config.redis_url settings) as [url|]];
    (eexists; split; [reflexivity|]; done).
Qed.

(** [aclose] gives back what the container opened. *)
Lemma aclose_all settings given now p (c : container K) p' :
  (forall r, close_error r = None) ->
  Container_new settings given now p = (Ok c, p') ->
  aclose close_error c p' = (Ok tt, p).
Proof.
  intros Hc Hnew. destruct (container_new_eq settings given now p) as (c' & E & He & Hh & Hr & _).
  rewrite E in Hnew. injection Hnew as <- <-. unfold aclose, opened. rewrite He, Hh, Hr.
  unfold close, mbind, m_bind. rewrite !Hc.
  destruct (redis_of settings given) as [url|]; cbn [from_option fmap option_fmap option_map app].
  - rewrite !without_head, without_skip, without_head by done. by rewrite Hc, without_head.
  - by rewrite !without_head.
Qed.

(** C25. Resources: while it serves, an application without a container of its
    caller holds open one engine, one HTTP pool and -- exactly when the settings
    name a server -- one Redis client; when serving ends, by a return or by an
    exception, all of them are closed and the outcome is passed on.  A
    container that was handed in is left open.  Should closing the HTTP pool
    raise, the engine stays open.  A job holds and closes exactly the same, and
    the start-up task its engine. *)
Theorem lifespan_releases {A} settings (supplied : option (container K)) now
    (serve : container K -> M exn pool A) p :
  (forall c p', (serve c p').2 = p') ->
  match supplied with
  | Some c => lifespan close_error settings (Some c) now serve p = serve c p
  | None =>
      exists c, Container_new settings (None (A:=K)) now p = (Ok c, opened settings (None (A:=K)) ++ p)
        /\ ((forall r, close_error r = None) ->
             lifespan close_error settings None now serve p
             = ((serve c (opened settings (None (A:=K)) ++ p)).1, p))
        /\ (forall e, close_error (HttpPool (Config.http_timeout_seconds settings)) = Some e ->
             lifespan close_error settings None now serve p = (Err e, opened settings (None (A:=K)) ++ p))
        /\ job close_error settings now serve p = lifespan close_error settings None now serve p
        /\ forall create_all : resource -> M exn pool unit,
             (forall e q, (create_all e q).2 = q) -> (forall r, close_error r = None) ->
             let engine := Engine (Config.sqlalchemy_url settings) in
             _create_schema close_error settings create_all p = ((create_all engine (engine :: p)).1, p)
  end.
Proof.
  intros Hs. destruct supplied as [c|].
  - unfold lifespan, finally, mbind, m_bind, mret, m_ret. by destruct (serve c p) as [r p'].
  - destruct (container_new_eq settings None now p) as (c & E & _ & Hh & _).
    exists c. split; [exact E|].
    assert (lifespan close_error settings None now serve p
            = finally (serve c) (aclose close_error c) (opened settings (None (A:=K)) ++ p)) as Hl
      by (unfold lifespan; by m_run E).
    rewrite Hl. unfold finally at 1 2.
    set (held := opened settings (None (A:=K)) ++ p) in *. specialize (Hs c held).
    destruct (serve c held) as [r p'] eqn:Hserve. cbn [snd] in Hs. subst p'.
    split; [|split; [|split]].
    + intros Hc. by rewrite (aclose_all settings None now p c _ Hc E).
    + intros e He. unfold aclose.
      assert (close close_error (_http c) held = (Err e, held)) as Hcl
        by (unfold close; by rewrite Hh, He).
      by m_run Hcl.
    + unfold job. m_run E. done.
    + intros create_all Hall Hc. unfold _create_schema, create_engine, open, finally, mbind, m_bind.
      cbn zeta. specialize (Hall (Engine (Config.sqlalchemy_url settings))
        (Engine (Config.sqlalchemy_url settings) :: p)).
      destruct (create_all _ _) as [r' q]. cbn [fst snd] in *. subst q. unfold close. by rewrite Hc, without_head.
Qed.

End resources.

(** ** A flight search, from the request to the inventory *)

(** Providers that all answer. *)
Lemma all_answer {Q O} (providers : list (Provider Q O)) (query : Q) (good : O -> Prop) :
  Forall (fun p => exists l, p_search p query = Ok l /\ Forall good l) providers ->
  let results := (fun p => p_search p query) <$> providers in
  AggCore.count_ok results = Z.of_nat (length providers) /\ Forall good (AggCore.answers results).
Proof.
  intros Hall results. rewrite Forall_forall in Hall. split.
  - assert (length results = length providers) as Hlen by apply length_fmap.
    pose proof (AggCore.count_ok_bounds results).
    destruct (Z.lt_ge_cases (AggCore.count_ok results) (Z.of_nat (length results))) as [Hlt|]; [exfalso|lia].
    apply AggCore.count_ok_lt in Hlt as (e & (p & Hp & Hin)%list_elem_of_fmap).
    destruct (Hall p Hin) as (l & Hl' & _). congruence.
  - apply Forall_forall. intros f (l & (p & Hp & Hpin)%list_elem_of_fmap & Hf)%AggCore.elem_answers.
    destruct (Hall p Hpin) as (l' & Hl' & Hgl). rewrite Hl' in Hp. injection Hp as ->.
    rewrite Forall_forall in Hgl. by apply Hgl.
Qed.

(** Providers that all answer, with aware departures: the search returns, not
    degraded, whatever it is sorted by. *)
Lemma search_all_answer self query sort filters limit cursor (good : NormalizedFlight -> Prop) :
  Forall (fun p => exists l, p_search p query = Ok l /\ Forall good l) (Aggregation._providers self) ->
  (forall f, good f -> is_aware (f_departure_time f) = true) -> 1 <= limit ->
  exists r, Aggregation.search self query sort filters limit cursor = Ok r
    /\ degraded (Aggregation.meta r) = false
    /\ providers_ok (Aggregation.meta r) = Z.of_nat (length (Aggregation._providers self))
    /\ providers_failed (Aggregation.meta r) = 0
    /\ Z.of_nat (length (Aggregation.items r)) <= limit
    /\ Forall (fun i => good (Aggregation.flight i)
               /\ Aggregation.matches (default Aggregation.no_filters filters) (Aggregation.flight i) = true)
         (Aggregation.items r).
Proof.
  intros Hall Haware Hl.
  destruct (all_answer (Aggregation._providers self) query good Hall) as [Hcount Hgood].
  fold (Aggregation.searched self query) in Hcount, Hgood.
  set (cands := Aggregation.candidates self query filters).
  assert (Forall (fun f => good f /\ Aggregation.matches (default Aggregation.no_filters filters) f = true) cands)
    as Hcands.
  { rewrite Forall_forall in *. intros f Hf. apply Aggregation.candidates_elem in Hf as [Hm Hf].
    split; [by apply Hgood|done]. }
  assert (Aggregation.mixed_departures (Aggregation._rank cands) = false) as Hmix.
  { unfold Aggregation.mixed_departures. apply andb_false_intro2, not_true_is_false.
    intros (i & Hi & Hn)%existsb_exists. apply list_elem_of_In, Aggregation.elem_rank in Hi as (f & Hf & ->).
    rewrite Forall_forall in Hcands. destruct (Hcands f Hf) as [Hg _]. simpl in Hn.
    by rewrite (Haware f Hg) in Hn. }
  unfold Aggregation.search. rewrite Aggregation.search_ordered_eq. fold cands.
  unfold Aggregation._sort. rewrite Hmix, andb_false_r, Hcount, Z.sub_diag.
  set (ordered := PySorted.sorted_by _ _).
  pose proof (AggCore.page_items ordered limit cursor ltac:(lia)) as Hpage.
  destruct (AggCore.page_of ordered limit cursor) as [[page next] more]. simpl in Hpage.
  eexists. split; [reflexivity|]. simpl. rewrite Hpage. split_and!; try done.
  - rewrite length_take. lia.
  - apply Forall_forall. intros i Hi. apply elem_of_window in Hi.
    unfold ordered in Hi. apply PySorted.elem_of_sorted_by, Aggregation.elem_rank in Hi as (f & Hf & ->).
    exact (proj1 (Forall_forall _ _) Hcands f Hf).
Qed.

(** The same for hotels; the keys of a sort are floats, which the prices and
    the review counts have to fit. *)
Lemma hotels_all_answer self query sort filters limit cursor (good : NormalizedHotel -> Prop) :
  Forall (fun p => exists l, p_search p query = Ok l /\ Forall good l) (HotelAggregation._providers self) ->
  (forall h, good h -> Z.abs (HotelAggregation.hotel_price h) <= 2 ^ 53
     /\ Z.abs (h_reviews_count h) <= 2 ^ 53) ->
  1 <= limit ->
  exists r, HotelAggregation.search self query sort filters limit cursor = Ok r
    /\ degraded (HotelAggregation.meta r) = false
    /\ providers_ok (HotelAggregation.meta r) = Z.of_nat (length (HotelAggregation._providers self))
    /\ Z.of_nat (length (HotelAggregation.items r)) <= limit
    /\ Forall (fun i => good (HotelAggregation.hotel i)
               /\ HotelAggregation.matches (default HotelAggregation.no_filters filters)
                    (HotelAggregation.hotel i) = true)
         (HotelAggregation.items r).
Proof.
  intros Hall Hfits Hl.
  destruct (all_answer (HotelAggregation._providers self) query good Hall) as [Hcount Hgood].
  unfold HotelAggregation.search, HotelAggregation.search_ordered, HotelAggregation._fan_out.
  rewrite AggCore.collect_spec, app_nil_l, !Z.add_0_l.
  set (results := (fun p => p_search p query) <$> HotelAggregation._providers self) in *.
  set (found := filter _ _).
  assert (Forall (fun i => good (HotelAggregation.hotel i)
      /\ HotelAggregation.matches (default HotelAggregation.no_filters filters)
           (HotelAggregation.hotel i) = true) (HotelAggregation._rank found)) as Hfound.
  { apply Forall_forall. intros i (h & Hh & ->)%HotelAggregation.hotel_elem_rank.
    apply list_elem_of_filter in Hh as [Hm Hh%AggCore.dedupe_elem]. split; [|done].
    rewrite Forall_forall in Hgood. by apply Hgood. }
  unfold HotelAggregation._sort. rewrite (proj2 (forallb_forall _ _)).
  2: { intros i Hi%list_elem_of_In. apply bool_decide_eq_true.
       destruct (proj1 (Forall_forall _ _) Hfound i Hi) as [Hg _].
       destruct (Hfits _ Hg) as [Hp Hr]. destruct sort; simpl; [by eexists| |by eexists|].
       - rewrite HotelAggregation.float_of_int_exact by done. by eexists.
       - rewrite HotelAggregation.float_of_int_exact by lia. by eexists. }
  set (ordered := PySorted.sorted_by _ _).
  pose proof (AggCore.page_items ordered limit cursor ltac:(lia)) as Hpage.
  destruct (AggCore.page_of ordered limit cursor) as [[page next] more]. simpl in Hpage.
  eexists. split; [reflexivity|]. simpl. rewrite Hpage, Hcount.
  assert (length results = length (HotelAggregation._providers self)) as Hlen by apply length_fmap.
  split_and!; [by rewrite Hlen, Z.sub_diag|done|rewrite length_take; lia|].
  apply Forall_forall. intros i Hi. apply elem_of_window in Hi.
  unfold ordered in Hi. apply PySorted.elem_of_sorted_by in Hi.
  exact (proj1 (Forall_forall _ _) Hfound i Hi).
Qed.

Section search.
Context {C N R L : Type} `{CacheLaws C} `{NotifierLaws N} `{EntropyLaws R} `{JwtLaws} `{RateLimiterLaws L}.
Context {G : Type} `{RandomLaws G} `{Sha256} {K : Type}.
Variable settings : Config.Settings.

Abbreviation W := (world C N R).
Abbreviation S := (api C N R L).

(** An offer of one of the registered providers. *)
Definition from_inventory (q : FlightSearchQuery) (f : NormalizedFlight) : Prop :=
  Exists (fun p => SampleSpec.offered_flight p q f) flight_inventory.

(** The row a search leaves. *)
Definition history_row (p : FlightParams) (r : Aggregation.AggregationResult) (elapsed : Z) (u : Db.User)
  : Db.SearchHistory :=
  {| Db.sh_user_id := Db.u_id u; Db.sh_origin := upper (fp_origin p);
     Db.sh_destination := upper (fp_destination p);
     Db.sh_departure_date := date_isoformat (fp_departure_date p);
     Db.sh_result_count := total (Aggregation.meta r);
     Db.sh_latency_ms := F64.to_int (F64.mul elapsed (1000 * F64.one)) |}.

Lemma inventory_answers q :
  len (fq_origin q) = 3 /\ len (fq_destination q) = 3 ->
  SampleSpec.valid_before_end (fq_departure_date q) -> 1 <= fq_adults q ->
  Forall (fun p => exists l, p_search p q = Ok l /\ Forall (from_inventory q) l) (flight_port <$> flight_inventory).
Proof.
  intros Hr Hd Ha. apply Forall_fmap, Forall_forall. intros p Hp.
  destruct (SampleSpec.search_together p q (fq_adults q)) as (fs & gs & E & _ & Hall & _); try done; try lia.
  - unfold flight_inventory in Hp. rewrite !elem_of_cons, elem_of_nil in Hp.
    by destruct Hp as [->|[->|[]]].
  - unfold flight_inventory in Hp. rewrite !elem_of_cons, elem_of_nil in Hp.
    by destruct Hp as [->|[->|[]]].
  - exists fs. split; [exact E|]. eapply Forall2_Forall_l; [exact Hall|]. apply Forall_true.
    intros g f [Hf _]. apply Exists_exists. by exists p.
Qed.

Lemma from_inventory_aware q f : from_inventory q f -> is_aware (f_departure_time f) = true.
Proof.
  intros (p & _ & Hf)%Exists_exists. destruct (SampleSpec.of_aware _ _ _ Hf) as [Ho _].
  unfold is_aware. by rewrite Ho.
Qed.

Lemma flight_params_fields p : valid_flight_params p = true ->
  (len (upper (fp_origin p)) = 3 /\ len (upper (fp_destination p)) = 3)
  /\ 1 <= fp_adults p /\ 1 <= fp_limit p.
Proof.
  unfold valid_flight_params, _IATA. rewrite !andb_true_iff, !Z.leb_le, !Z.eqb_eq, !len_upper. tauto.
Qed.

(** C5. A flight search, end to end: with parameters that pass their declared
    constraints, an admitted request over the services of a container is
    answered with a page of at most [limit] offers, all from the registered
    providers, on the route and day asked for and matching the filters, never
    degraded; it adds one row of history exactly when the token names an
    account, and changes no other table.  When both airports are the same, in
    whatever case, the answer is a 400 and nothing is recorded. *)
Theorem flight_search_end_to_end given now pl (c : container K) pl' elapsed request cred p user (s : S) w1 :
  Container_new settings given now pl = (Ok c, pl') ->
  valid_flight_params p = true -> SampleSpec.valid_before_end (fp_departure_date p) ->
  ApiSpec.admitted (proxy_trust c) request s = true ->
  get_optional_user settings cred (a_world s) = (Ok user, w1) ->
  let run := search_flights settings (proxy_trust c) (flight_service c) elapsed request cred p s in
  if bool_decide (upper (fp_origin p) = upper (fp_destination p)) then
    run.1 = Err (app_err AppErrorBase "origin and destination must differ")
    /\ w_db (a_world run.2) = w_db (a_world s)
  else exists r,
    run.1 = Ok (flight_response r)
    /\ sm_degraded (fs_meta (flight_response r)) = false
    /\ sm_providers_ok (fs_meta (flight_response r)) = 2
    /\ Z.of_nat (length (fs_data (flight_response r))) <= fp_limit p
    /\ Forall (fun i => from_inventory (flight_query p) (Aggregation.flight i)
               /\ Aggregation.matches (flight_filters p) (Aggregation.flight i) = true) (Aggregation.items r)
    /\ w_db (a_world run.2)
       = Db.set_searches (Db.searches (w_db w1) ++ (history_row p r elapsed <$> option_list user)) (w_db w1).
Proof.
  intros Hnew Hp Hd Had Huser. cbv zeta.
  destruct (container_new_eq settings given now pl) as (c' & E & _ & _ & _ & _ & Hfs & _).
  rewrite E in Hnew. injection Hnew as -> _.
  unfold search_flights. rewrite ApiSpec.route_eq, Had. cbv zeta. unfold get_session.
  m_run Huser. case_bool_decide as Hsame; [done|].
  destruct (flight_params_fields p Hp) as (Hroute & Hadults & Hlimit).
  destruct (search_all_answer (flight_service c) (flight_query p) (fp_sort p) (Some (flight_filters p))
    (fp_limit p) (fp_cursor p) (from_inventory (flight_query p))) as (r & Er & Hdeg & Hok & _ & Hlen & Hall).
  - rewrite Hfs. by apply inventory_answers.
  - apply from_inventory_aware.
  - done.
  - exists r. rewrite Er, lift_ok_bind. rewrite Hfs in Hok. simpl. rewrite length_fmap.
    destruct user as [u|]; simpl; (do 5 (split; [done|])); [done|].
    rewrite app_nil_r. by destruct (w_db w1).
Qed.

(** ** A hotel search *)

Definition from_hotels (q : HotelSearchQuery) (h : NormalizedHotel) : Prop :=
  Exists (fun p => SampleSpec.offered_hotel p q h) hotel_inventory.

Lemma hotels_answer q :
  1 <= hq_guests q ->
  Forall (fun p => exists l, p_search p q = Ok l /\ Forall (from_hotels q) l) (hotel_port <$> hotel_inventory).
Proof.
  intros Hg. apply Forall_fmap, Forall_forall. intros p Hp.
  destruct (SampleSpec.sample_hotels_spec p q) as (hs & E & _ & Hall); [|done|].
  - unfold hotel_inventory in Hp. rewrite !elem_of_cons, elem_of_nil in Hp.
    by destruct Hp as [->|[->|[]]].
  - exists hs. split; [exact E|]. eapply Forall_impl; [exact Hall|].
    intros h Hh. apply Exists_exists. by exists p.
Qed.

(** Prices and review counts of the registered providers fit a float. *)
Lemma from_hotels_fits q h : hq_guests q <= 8 -> from_hotels q h ->
  Z.abs (HotelAggregation.hotel_price h) <= 2 ^ 53 /\ Z.abs (h_reviews_count h) <= 2 ^ 53.
Proof.
  intros Hg (p & Hp & Hh)%Exists_exists. destruct Hh as [Hv _ _ _ Hrev _ Hprice].
  assert (SampleInventory.SampleHotelProvider.list_price p (5 * F64.one) 5000 <= 20000) as Hlist.
  { unfold hotel_inventory in Hp. rewrite !elem_of_cons, elem_of_nil in Hp.
    by destruct Hp as [->|[->|[]]]; apply Z.leb_le; vm_compute. }
  unfold HotelAggregation.hotel_price.
  unfold valid_hotel, wf_money in Hv. rewrite !andb_true_iff, !Z.leb_le in Hv. lia.
Qed.

(** C18. A hotel search, end to end: with parameters that pass their declared
    constraints and a check-out after the check-in, an admitted request over
    the services of a container is answered, whatever it sorts by, with a page
    of at most [limit] hotels, all from the registered providers, in the city
    asked for and matching the filters, never degraded.  A check-out that is
    not after the check-in is a 400.  No table changes. *)
Theorem hotel_search_end_to_end given now pl (c : container K) pl' request p (s : S) :
  Container_new settings given now pl = (Ok c, pl') ->
  valid_hotel_params p = true ->
  ApiSpec.admitted (proxy_trust c) request s = true ->
  let run := search_hotels (proxy_trust c) (hotel_service c) request p s in
  w_db (a_world run.2) = w_db (a_world s)
  /\ if date_leb (hp_check_out p) (hp_check_in p) then
       run.1 = Err (app_err AppErrorBase "check-out must be after check-in")
     else exists r,
       run.1 = Ok (hotel_response r)
       /\ sm_degraded (hs_meta (hotel_response r)) = false
       /\ sm_providers_ok (hs_meta (hotel_response r)) = 2
       /\ Z.of_nat (length (hs_data (hotel_response r))) <= hp_limit p
       /\ Forall (fun i => from_hotels (hotel_query p) (HotelAggregation.hotel i)
               /\ h_city (HotelAggregation.hotel i) = hp_city p
               /\ HotelAggregation.matches (hotel_filters p) (HotelAggregation.hotel i) = true)
            (HotelAggregation.items r).
Proof.
  intros Hnew Hp Had. cbv zeta.
  destruct (container_new_eq settings given now pl) as (c' & E & _ & _ & _ & _ & _ & Hhs).
  rewrite E in Hnew. injection Hnew as -> _.
  unfold search_hotels. rewrite ApiSpec.route_eq, Had. cbv zeta. unfold get_session.
  destruct (date_leb _ _); [done|].
  unfold valid_hotel_params in Hp. rewrite !andb_true_iff, !Z.leb_le in Hp.
  destruct (hotels_all_answer (hotel_service c) (hotel_query p) (hp_sort p) (Some (hotel_filters p))
    (hp_limit p) (hp_cursor p) (from_hotels (hotel_query p))) as (r & Er & Hdeg & Hok & Hlen & Hall).
  - rewrite Hhs. apply hotels_answer. simpl. tauto.
  - intros h. apply from_hotels_fits. simpl. tauto.
  - tauto.
  - rewrite Er, lift_ok_bind. split; [done|]. exists r. rewrite Hhs in Hok. simpl. rewrite length_fmap.
    do 4 (split; [done|]). eapply Forall_impl; [exact Hall|]. intros i [Hi Hm]. split; [done|].
    split; [|done]. apply Exists_exists in Hi as (q & _ & Hq). apply Hq.
Qed.

End search.

(** ** The demo *)

#[local] Instance length_digest : Sha256 := {| sha256 s := len s |}.

Definition sample_params : FlightParams :=
  {| fp_origin := "ist"; fp_destination := "lhr";
     fp_departure_date := {| year := 2026; month := 8; day := 10 |}; fp_adults := 1;
     fp_cabin := "economy"; fp_sort := Aggregation.DEPARTURE; fp_max_price := None; fp_max_stops := Some 2;
     fp_airlines := None; fp_direct_only := false; fp_limit := 5; fp_cursor := None |}.

Lemma lifespan_releases_witness :
  lifespan (G:=Z) (K:=unit) (fun _ => None) Security.sample_settings None 0
    (fun _ : container unit => raise (PyError "CancelledError" "")) []
  = (Err (PyError "CancelledError" "") : res exn unit, []).
Proof.
  destruct (lifespan_releases (G:=Z) (K:=unit) (fun _ => None) Security.sample_settings None 0
    (fun _ : container unit => (raise (PyError "CancelledError" "") : M exn pool unit)) [])
    as (c & _ & Hrun & _).
  - intros c p. reflexivity.
  - rewrite Hrun; [reflexivity|intros r; reflexivity].
Defined.

Lemma flight_search_end_to_end_witness :
  exists (c : container unit) pl', Container_new (G:=Z) Security.sample_settings None 0 [] = (Ok c, pl')
    /\ exists r, (search_flights Security.sample_settings (proxy_trust c) (flight_service c) 0
          ApiSpec.sample_request (Some ApiSpec.sample_token) sample_params (ApiSpec.sample_api 2)).1
        = Ok (flight_response r) /\ sm_providers_ok (fs_meta (flight_response r)) = 2.
Proof.
  destruct (container_new_eq (G:=Z) (K:=unit) Security.sample_settings None 0 [])
    as (c & E & _ & _ & _ & Ht & _).
  eexists c, _. split; [exact E|].
  pose proof (flight_search_end_to_end (G:=Z) Security.sample_settings None 0 [] c _ 0
    ApiSpec.sample_request (Some ApiSpec.sample_token) sample_params (Some AuthSpec.sample_user)
    (ApiSpec.sample_api 2) ApiSpec.alert_world E) as Hrun.
  destruct Hrun as (r & Hr & _ & Hok & _).
  - vm_compute. reflexivity.
  - split; [vm_compute; reflexivity|left; vm_compute; reflexivity].
  - rewrite Ht. vm_compute. reflexivity.
  - vm_compute. reflexivity.
  - exists r. split; [exact Hr|exact Hok].
Defined.

Definition sample_stay : HotelParams :=
  {| hp_city := "Istanbul"; hp_check_in := {| year := 2026; month := 8; day := 10 |};
     hp_check_out := {| year := 2026; month := 8; day := 13 |}; hp_guests := 2;
     hp_sort := HotelAggregation.PRICE; hp_max_price := None; hp_min_rating := None;
     hp_amenities := None; hp_limit := 3; hp_cursor := None |}.

Lemma hotel_search_end_to_end_witness :
  exists (c : container unit) pl', Container_new (G:=Z) Security.sample_settings None 0 [] = (Ok c, pl')
    /\ exists r, (search_hotels (proxy_trust c) (hotel_service c) ApiSpec.sample_request sample_stay
          (ApiSpec.sample_api 2)).1 = Ok (hotel_response r)
        /\ sm_providers_ok (hs_meta (hotel_response r)) = 2.
Proof.
  destruct (container_new_eq (G:=Z) (K:=unit) Security.sample_settings None 0 [])
    as (c & E & _ & _ & _ & Ht & _).
  eexists c, _. split; [exact E|].
  destruct (hotel_search_end_to_end (G:=Z) Security.sample_settings None 0 [] c _
    ApiSpec.sample_request sample_stay (ApiSpec.sample_api 2) E) as (_ & r & Hr & _ & Hok & _).
  - vm_compute. reflexivity.
  - rewrite Ht. vm_compute. reflexivity.
  - exists r. split; [exact Hr|exact Hok].
Defined.

End ContainerSpec.
